(* ===== verification/_CoqProject ===== *)
-Q . S2P
Prelude.v
GoPath.v
Sha256.v
GoBase64.v
GoFlag.v
HostFS.v
Confine.v
FileLaws.v
Entries.v
Below.v
Layer.v
ContentStore.v
Config.v
Oci.v
FileLock.v
Rootfs.v
RootfsConcurrency.v
Diskfs.v
Runtime.v
AgentApi.v
AgentServer.v
AgentConfinement.v
AgentJobs.v
AgentOnce.v
AgentClient.v
Firecracker.v
VmSelect.v
VmJobs.v
Manager.v
Server.v
Api.v
EndToEnd.v
Init.v
Cli.v
Sandboxd.v
RunCommand.v
AgentMain.v
DemoClient.v
