(* ===== verification/Prelude.v ===== *)
(** * Slammer Core: a verification library

    The program runs commands of untrusted users in microVMs. A daemon or a command line on the host
    turns a container image into a root file system, starts a Firecracker machine on it, and sends a batch
    of jobs to an agent inside the machine. This library models its Go code and proves what makes it
    correct: what an image or a batch can touch, that what is published is whole, that a batch runs once,
    that limits are kept and that nothing started is left running.

    ** The parts and their files

    The shared ground:
    - [Prelude] (this file): errors, outcomes (a value, an error or a panic), the monad [GoM] of a state and
      an outcome with [defer] and [recover], its weakest preconditions [wp], the relational rules [preserves],
      [no_panic], contexts, 64-bit integers, and the text of errors;
    - [GoPath], [GoBase64], [GoFlag], [Sha256]: Go's [strings], [path/filepath], [strconv], [encoding/base64],
      [flag] with the values it reads, [crypto/sha256] as the program uses them, executable;
    - [HostFS]: the POSIX file system under [os]: directories, links followed in resolution, hard links
      through inodes, and a schedule [w_faults] by which any system call may fail; [Confine], [FileLaws],
      [Entries] and [Below] are its laws: what a call can change, what it did when it succeeded.

    The image side, from the bottom:
    - [Layer] ([rootfsbuilder/layer.go]): a layer's entries applied to a directory;
    - [Diskfs] ([rootfsbuilder/pure_ext4.go]): the same into an ext4 image through go-diskfs, and the builder;
    - [Config] ([config/config.go]), [ContentStore] ([contentstore/store.go]): layout, blobs, documents;
    - [Oci] ([oci/types.go], [oci/pull.go]): pulling an image into the store;
    - [FileLock] ([lock/filelock.go]), [Rootfs] ([rootfsbuilder/rootfs.go]): building an image's file system
      once under a lock; [RootfsConcurrency]: several processes doing so, as a step relation;
    - [Runtime] ([runtime/runtime.go]): from a reference to a root file system, through the cache.

    The guest side:
    - [Init] ([cmd/init]): process 1: mounts, the overlay, the agent, power off;
    - [AgentApi] ([agentapi/api.go]), [AgentServer] ([agentserver/server.go]): the agent's protocol, handlers
      and jobs; [AgentConfinement], [AgentJobs], [AgentOnce]: what they can touch, what they do, and that only
      one of many concurrent requests is served; [AgentMain] ([cmd/agent]): the agent's command.

    The host side:
    - [AgentClient] ([agentclient/client.go]): the vsock handshake and the requests to the agent;
    - [Firecracker] ([internal/firecracker]): starting, restoring and snapshotting a machine; [VmSelect]: the
      goroutines and [select]s at the end of a start, interleaved;
    - [VmJobs]: client, lossy transport, retries and agent put together;
    - [Manager] ([internal/manager]): images, runs and snapshots; [Server] ([internal/server]): the daemon's
      configuration and handlers; [Api]: its operations, over an HTTP framework that is the class [Huma];
    - [EndToEnd]: daemon, manager, runner, client, transport and agent put together;
    - [Cli], [Sandboxd] ([cmd/sandboxd]): the command line; [RunCommand]: what "sandboxd run" shows, over the
      machine of [EndToEnd]; [DemoClient] ([main.go]): the sample client.

    A component calls the ones before it as the code does: [Server.run] translates a request and calls
    [Manager.Run], which calls [Runtime.PrepareImage] (so [Oci.Pull] and [Rootfs.EnsureRootfs]) and
    [Firecracker.StartVM] (so [AgentClient.Jobs]), whose peer in the guest is [AgentServer.jobs].
    [Rootfs] works against the interface [RootfsImageBuilder] and its laws, which [Diskfs] discharges.
    [Sandboxd.runVM] reaches the same [Manager.Run] from the words of a command line, and [AgentMain.main] is
    what [Init] starts in the machine. [EndToEnd] closes the loop: its [machine] answers the runner's requests
    with the agent's handler, behind a transport that loses messages.

    ** How code is modelled

    A function keeps its name; a clash with a word of Rocq adds an underscore, a struct's fields take a
    short prefix, and a loop or the rest of a long function is a definition of its own named in the map.
    A call that changes state is in [GoM]; [if err != nil { return err }] is its bind, [r ← attempt m] looks
    at an error, [defer] runs a deferred call on every end. Integers are [Z], wrapped by [wrap64] where
    the code can overflow. A command line's process adds its two output streams ([Cli]). A context is
    [ctx place n]: what [ctx.Err()] is at the [n]-th poll of a place.
    Code outside the repository is a parameter: the registry client, gzip and tar, JSON (classes [JSON],
    [JSONUnmarshal], [JSONMarshal], [JSONDecoder], [StrictDecoder] and, where they are needed, laws), go-diskfs
    ([Ext4], [Ext4Disk], [Ext4Image]), the Firecracker SDK with processes and clock ([VMM], [MachineLaws]), the
    guest's kernel ([Kernel]), running a command ([cmd_Run]), serving HTTP, and [huma], which routes, decodes,
    checks and fills in what the operations are given ([Huma], [HumaLaws]), with the document it makes of them.
    The tar reader is a parameter also in how much of its stream it takes ([tar_reader]). Their laws are
    hypotheses of the theorems that use them, and the witnesses instantiate them.

    ** What the theorems show

    - The whole way: [run_end_to_end] (an answer of the daemon is one run of exactly the translated batch by a
      fresh agent in the machine), [run_shows_the_command] (what "sandboxd run" prints and its status are the
      command's), [run_command_line] (words and settings of the flags are the same), [run_answers] (every
      request is answered, and a run request with the status its limits and its run say), [init_boots_the_agent]
      (the agent listens where the host dials and works by its flags).
    - Confinement, on every outcome and schedule of failures: [ApplyLayer_confined], [runBatch_confined] (of file
      jobs, when no link is in the workspace or the jobs take neither of the two steps that follow one),
      [layers_never_follow_links], [jailedBackingFilePath_below], [DeleteSnapshot_confined]; and where the code
      lets something out, a theorem or an example that says so: [whiteout_follows_link],
      [create_parents_through_link], [mkdir_of_link_gives_away], [jailed_drive_escapes].
    - Whole or absent: [WriteBlob_atomic], [EnsureRootfs_atomic], [Pull_sound] (down to the metadata published), [PrepareImage_safe],
      [PureGoExt4Builder_contract] (the builder refines what [Rootfs] asks of it), and, for any number of
      processes that fail or are killed, [concurrent_builds_safe].
    - What a step does when it succeeds: [applyEntry_file], the whiteouts, [ApplyLayer_diffID] (the digest is
      of the whole stream, whatever the tar reader leaves of it),
      [ComputeChainID_identifies], [WriteJSON_ReadJSON], [preparedFromCache_hit], [writeFile_ok], [exec_runs],
      [handshake_Ok], [DeleteImage_evicts]; and its errors: [runBatch_results], [preparedFromCache_collision].
    - Once: [jobs_once] (of concurrent requests one is let in, and its batch, if it is one, is what happened to the
      machine), [batch_at_most_once] from the host through retries over a transport that loses messages,
      [lost_response_is_lost] for the price of it; [Run_one_machine] (one machine for the jobs of a run, and one at
      most before it for its snapshot).
    - Limits and admission: [managerRunRequest_limits], [tasks_reach_the_agent] (which of the daemon's jobs
      the agent refuses: the three things the daemon does not check), [New_config], [safePath_accepts],
      [cleanLayerPath_accepts], [estimateRootfsSize_exact].
    - Ends: [nothing_left_running], [main_calls] (the guest powers off when the kernel's calls return, and starts
      the agent only in the overlay, after its mounts), [waiting_ends], [Acquire_terminates], [removeAll_returns],
      [select_leaves_nothing] (no interleaving of a start's goroutines leaves one behind), [select_refines_await_jobs].

    ** Fuel

    Recursion that Go leaves to time or to data takes fuel, and too little is a panic "out of fuel", never a
    result. Reading a duration takes as much as its text is long ([ParseDuration_no_panic]). [Acquire] uses [acquire_fuel], enough for every world ([Acquire_terminates]); [removeAll] needs
    more than the height of the tree ([removeAll_returns]); the waiting loops of [Firecracker] need more than
    the polls until their context ends ([waiting_ends]); [Init.reap] more than the children left
    ([main_calls]). Temporary names are tried 10000 times, which is Go's own bound.

    ** What is simplified, and what is not modelled

    - [os.RemoveAll] and [io.Copy] are one step each: they happen or fail without effect. A file of the
      model grows by appending, which is how the program writes. Mounts are calls to the kernel; the model's
      file system does not change its tree for them unless the kernel's operation does.
    - [StartVM] runs its two goroutines to their end before the [select]; whether the context's branch is
      taken instead is the oracle [runCtx 1 0], and the machine's [Wait] after the stop is one call. [VmSelect]
      has the interleavings, and shows that what they return is what this gives, for some oracle.
    - The routing of [huma] and [net/http] and the text of their answers, the SDK's own code, the usage text
      [flag] prints, logs and environment variables are outside; a panic is not printed. What [huma] makes of
      the tags of the input types (patterns, bounds, defaults) is its own, and no theorem relies on it. A command and
      what becomes of its process group when its time is over are [cmd_Run]'s, the agent's own kill of the group
      after it is [kill_group]; of the users of a process the real and the effective one are kept. The text of an error leaves out the
      operation and the path that a path error prints. Timings are differences of the clock's values.
    - Tests, scripts, sample configurations and documentation have no model. *)

From Stdlib Require Export Ascii ZArith Lia.
From stdpp Require Export base tactics list gmap strings pretty sorting.

(** Appending strings computes on a constructor. *)
#[global] Arguments String.append !s1 s2 / : assert.

(** * Errors, as the code builds and inspects them *)

(** The errno values the program can meet or tests for. *)
Inductive errno :=
| ENOENT | EEXIST | ENOTDIR | EISDIR | ENOTEMPTY | ELOOP | EPERM | EACCES
| EINVAL | EIO | ENOSPC | EWOULDBLOCK | EBUSY | ECHILD | EBADF.

#[global] Instance errno_eq_dec : EqDecision errno.
Proof. solve_decision. Defined.

(** A Go [error]: an errno (bare, or inside an [*os.PathError]), the error of a
    [context.Context], a [fmt.Errorf] without and with a [%w] cause. *)
Inductive error :=
| Errno (e : errno)
| Canceled
| DeadlineExceeded
| Errorf (fmt : string) (args : list string)
| Wrapf (fmt : string) (args : list string) (cause : error).

#[global] Instance error_eq_dec : EqDecision error.
Proof. solve_decision. Defined.

(** [errors.Is(err, e)] for an errno [e]: the chain of [%w] causes is searched. *)
Fixpoint errors_Is (err : error) (e : errno) : bool :=
  match err with
  | Errno e' => bool_decide (e = e')
  | Wrapf _ _ c => errors_Is c e
  | _ => false
  end.

(** [os.IsNotExist(err)] looks at the error itself, not at [%w] causes. *)
Definition os_IsNotExist (err : error) : bool :=
  match err with Errno ENOENT => true | _ => false end.

(** * The outcome monad: a Go call returns, returns an error, or panics *)

Inductive outcome (A : Type) :=
| Ok (a : A)
| Err (e : error)
| Panic (v : string).
Arguments Ok {A} a.
Arguments Err {A} e.
Arguments Panic {A} v.

Definition is_Ok {A} (o : outcome A) : bool :=
  match o with Ok _ => true | _ => false end.

(** A pure fallible Go function returns an [outcome]; a function that also
    changes the state [S] is a [GoM S]. The state reached before an error is kept. *)
Definition GoM (S A : Type) : Type := S -> outcome A * S.

#[global] Instance outcome_ret : MRet outcome := fun A a => Ok a.
#[global] Instance outcome_bind : MBind outcome := fun A B k o =>
  match o with Ok a => k a | Err e => Err e | Panic v => Panic v end.

#[global] Instance GoM_ret S : MRet (GoM S) := fun A a s => (Ok a, s).
#[global] Instance GoM_bind S : MBind (GoM S) := fun A B k m s =>
  match m s with
  | (Ok a, s') => k a s'
  | (Err e, s') => (Err e, s')
  | (Panic v, s') => (Panic v, s')
  end.

Section monad_ops.
Context {S : Type}.

Definition fail {A} (e : error) : GoM S A := fun s => (Err e, s).
Definition panic {A} (v : string) : GoM S A := fun s => (Panic v, s).
Definition get_state : GoM S S := fun s => (Ok s, s).
Definition gets {A} (f : S -> A) : GoM S A := fun s => (Ok (f s), s).
Definition modify (f : S -> S) : GoM S unit := fun s => (Ok tt, f s).
Definition lift_outcome {A} (o : outcome A) : GoM S A := fun s => (o, s).

(** [v, err := m] with [err] inspected by the code: an error becomes a value,
    a panic still unwinds. *)
Definition attempt {A} (m : GoM S A) : GoM S (error + A) := fun s =>
  match m s with
  | (Ok a, s') => (Ok (inr a), s')
  | (Err e, s') => (Ok (inl e), s')
  | (Panic v, s') => (Panic v, s')
  end.

(** [_ = m]: the error is dropped. *)
Definition ignore {A} (m : GoM S A) : GoM S unit := attempt m ≫= fun _ => mret tt.

(** [defer d]: [d] runs whatever [m] did, and its own error is dropped. *)
Definition defer {A} (d : GoM S unit) (m : GoM S A) : GoM S A := fun s =>
  match m s with
  | (o, s') => match d s' with
               | (Panic v, s'') => (Panic v, s'')
               | (_, s'') => (o, s'')
               end
  end.

(** [defer func() { if r := recover(); r != nil { err = h r } }()] *)
Definition recovering {A} (h : string -> error) (m : GoM S A) : GoM S A := fun s =>
  match m s with
  | (Panic v, s') => (Err (h v), s')
  | r => r
  end.

(** A Go [for range] loop whose body may return an error. *)
Fixpoint for_each {A} (l : list A) (body : A -> GoM S unit) : GoM S unit :=
  match l with
  | [] => mret tt
  | x :: l' => body x ;; for_each l' body
  end.

(** Guard: [if b { return ..., err }] *)
Definition fail_if (b : bool) (e : error) : GoM S unit :=
  if b then fail e else mret tt.
End monad_ops.

(** A [context.Context] as the code sees it: [ctx place n] is what [ctx.Err()] is, if the context
    has ended, when the code polls it for the n-th time at the given place. *)
Definition context : Type := nat -> nat -> option error.

(** What a loop or a recursion given too little fuel panics with. *)
Definition out_of_fuel : string := "out of fuel".

(** Prefixing a returned error: [if err != nil { return fmt.Errorf("..%w", err) }]. *)
Definition wrap_err {S A} (f : error -> error) (m : GoM S A) : GoM S A := fun s =>
  match m s with
  | (Err e, s') => (Err (f e), s')
  | r => r
  end.

(** * Weakest preconditions for [GoM] programs

    [wp m Q s]: run from [s], [m] ends with an outcome and a state that satisfy [Q]. *)

Definition wp {S A} (m : GoM S A) (Q : outcome A -> S -> Prop) (s : S) : Prop :=
  Q (fst (m s)) (snd (m s)).

(** What is left to prove of the continuation when the first part ends with [o]. *)
Definition wp_cont {S A B} (k : A -> GoM S B) (Q : outcome B -> S -> Prop)
    (o : outcome A) (s : S) : Prop :=
  match o with
  | Ok a => wp (k a) Q s
  | Err e => Q (Err e) s
  | Panic v => Q (Panic v) s
  end.

Section wp_rules.
Context {S : Type}.
Implicit Types s : S.

Lemma wp_mono {A} (m : GoM S A) (P Q : outcome A -> S -> Prop) s :
  (forall o s', P o s' -> Q o s') -> wp m P s -> wp m Q s.
Proof. unfold wp; auto. Qed.

Lemma wp_and {A} (m : GoM S A) (P Q : outcome A -> S -> Prop) s :
  wp m P s -> wp m Q s -> wp m (fun o s' => P o s' /\ Q o s') s.
Proof. unfold wp; auto. Qed.

Lemma wp_ret {A} (a : A) (Q : outcome A -> S -> Prop) s : Q (Ok a) s -> wp (mret a) Q s.
Proof. done. Qed.

Lemma wp_fail {A} e (Q : outcome A -> S -> Prop) s : Q (Err e) s -> wp (fail e) Q s.
Proof. done. Qed.

Lemma wp_bind {A B} (m : GoM S A) (k : A -> GoM S B) Q s :
  wp m (wp_cont k Q) s -> wp (m ≫= k) Q s.
Proof.
  unfold wp, wp_cont, mbind, GoM_bind. destruct (m s) as [[a|e|v] s'] eqn:E; done.
Qed.

Lemma wp_bind_inv {A B} (m : GoM S A) (k : A -> GoM S B) Q s :
  wp (m ≫= k) Q s -> wp m (wp_cont k Q) s.
Proof.
  unfold wp, wp_cont, mbind, GoM_bind. destruct (m s) as [[a|e|v] s'] eqn:E; done.
Qed.

Lemma wp_attempt {A} (m : GoM S A) (Q : outcome (error + A) -> S -> Prop) s :
  wp m (fun o s' => match o with
                    | Ok a => Q (Ok (inr a)) s'
                    | Err e => Q (Ok (inl e)) s'
                    | Panic v => Q (Panic v) s'
                    end) s ->
  wp (attempt m) Q s.
Proof. unfold wp, attempt. destruct (m s) as [[a|e|v] s'] eqn:E; done. Qed.

Lemma wp_ignore {A} (m : GoM S A) (Q : outcome unit -> S -> Prop) s :
  wp m (fun o s' => match o with Panic v => Q (Panic v) s' | _ => Q (Ok tt) s' end) s ->
  wp (ignore m) Q s.
Proof. unfold wp, ignore, attempt, mbind, GoM_bind. destruct (m s) as [[a|e|v] s']; done. Qed.

Lemma wp_defer {A} (d : GoM S unit) (m : GoM S A) Q s :
  wp m (fun o s' => wp d (fun od s'' => match od with
                                        | Panic v => Q (Panic v) s''
                                        | _ => Q o s''
                                        end) s') s ->
  wp (defer d m) Q s.
Proof.
  unfold wp, defer. destruct (m s) as [o s'] eqn:E; simpl.
  destruct (d s') as [[a|e|v] s'']; done.
Qed.

Lemma wp_wrap {A} f (m : GoM S A) (Q : outcome A -> S -> Prop) s :
  wp m (fun o s' => match o with Err e => Q (Err (f e)) s' | _ => Q o s' end) s ->
  wp (wrap_err f m) Q s.
Proof. unfold wp, wrap_err. destruct (m s) as [[a|e|v] s']; done. Qed.

Lemma wp_recovering {A} h (m : GoM S A) (Q : outcome A -> S -> Prop) s :
  wp m (fun o s' => match o with Panic v => Q (Err (h v)) s' | _ => Q o s' end) s ->
  wp (recovering h m) Q s.
Proof. unfold wp, recovering. destruct (m s) as [[a|e|v] s']; done. Qed.

Lemma wp_fail_if b e (Q : outcome unit -> S -> Prop) s :
  (b = true -> Q (Err e) s) -> (b = false -> Q (Ok tt) s) -> wp (fail_if b e) Q s.
Proof. intros H1 H2. destruct b; [by apply H1 | by apply H2]. Qed.

(** A loop keeps an invariant its body keeps (on every outcome). *)
Lemma wp_for_each {A} (I : S -> Prop) (l : list A) (body : A -> GoM S unit) s :
  (forall x s', x ∈ l -> I s' -> wp (body x) (fun _ => I) s') ->
  I s -> wp (for_each l body) (fun _ => I) s.
Proof.
  revert s. induction l as [|x l IH]; intros s Hb Hs; simpl; [done|].
  apply wp_bind. eapply wp_mono; [|apply Hb; [set_solver|done]].
  intros [a|e|v] s' Hs'; simpl; auto. apply IH; [|done].
  intros y s'' Hy. apply Hb. set_solver.
Qed.
End wp_rules.

(** A computation that keeps [R] between the state before and after, on every outcome.
    [R] is a preorder in every use, so [preserves] composes through the monad. *)
Definition preserves {S A} (R : S -> S -> Prop) (m : GoM S A) : Prop :=
  forall s, R s (snd (m s)).

Create HintDb go_preserves discriminated.
#[export] Hint Constants Opaque : go_preserves.

Section preserves_rules.
Context {S : Type} (R : S -> S -> Prop) `{!PreOrder R}.

Lemma preserves_ret {A} (a : A) : preserves R (mret a).
Proof. intros s. reflexivity. Qed.
Lemma preserves_fail {A} e : preserves R (fail (A:=A) e).
Proof. intros s. reflexivity. Qed.
Lemma preserves_gets {A} (f : S -> A) : preserves R (gets f).
Proof. intros s. reflexivity. Qed.
Lemma preserves_lift {A} (o : outcome A) : preserves R (lift_outcome o).
Proof. intros s. reflexivity. Qed.
Lemma preserves_fail_if b e : preserves R (fail_if b e).
Proof. destruct b; intros s; reflexivity. Qed.
Lemma preserves_bind {A B} (m : GoM S A) (k : A -> GoM S B) :
  preserves R m -> (forall a, preserves R (k a)) -> preserves R (m ≫= k).
Proof.
  intros Hm Hk s. unfold mbind, GoM_bind. specialize (Hm s).
  destruct (m s) as [[a|e|v] s']; simpl in *; [|done..].
  etrans; [done|apply Hk].
Qed.
Lemma preserves_attempt {A} (m : GoM S A) : preserves R m -> preserves R (attempt m).
Proof. intros Hm s. unfold attempt. specialize (Hm s). by destruct (m s) as [[a|e|v] s']. Qed.
Lemma preserves_ignore {A} (m : GoM S A) : preserves R m -> preserves R (ignore m).
Proof.
  intros Hm. apply preserves_bind; [by apply preserves_attempt|].
  intros a. apply preserves_ret.
Qed.
Lemma preserves_wrap {A} f (m : GoM S A) : preserves R m -> preserves R (wrap_err f m).
Proof. intros Hm s. unfold wrap_err. specialize (Hm s). by destruct (m s) as [[a|e|v] s']. Qed.
Lemma preserves_defer {A} d (m : GoM S A) :
  preserves R d -> preserves R m -> preserves R (defer d m).
Proof.
  intros Hd Hm s. unfold defer. specialize (Hm s). destruct (m s) as [o s']; simpl in *.
  specialize (Hd s'). destruct (d s') as [[a|e|v] s'']; simpl in *; etrans; eauto.
Qed.
Lemma preserves_recovering {A} h (m : GoM S A) :
  preserves R m -> preserves R (recovering h m).
Proof. intros Hm s. unfold recovering. specialize (Hm s). by destruct (m s) as [[a|e|v] s']. Qed.
Lemma preserves_for_each {A} (l : list A) (body : A -> GoM S unit) :
  (forall x, preserves R (body x)) -> preserves R (for_each l body).
Proof.
  intros Hb. induction l as [|x l IH]; simpl; [apply preserves_ret|].
  apply preserves_bind; [apply Hb|auto].
Qed.
End preserves_rules.

#[export] Hint Resolve preserves_ret preserves_fail preserves_gets preserves_lift
  preserves_fail_if : go_preserves.

#[export] Hint Extern 0 (PreOrder _) => typeclasses eauto : go_preserves.

(** Walk through a monadic definition, splitting on every match the code makes; the hints
    solve the calls. *)
Ltac solve_preserves :=
  repeat first
    [ solve [eauto with go_preserves]
    | apply preserves_bind; [ typeclasses eauto | | intros ? ]
    | apply preserves_wrap
    | apply preserves_attempt
    | apply preserves_ignore; [typeclasses eauto|]
    | apply preserves_defer; [typeclasses eauto| |]
    | apply preserves_recovering
    | apply preserves_for_each; [typeclasses eauto | intros ?]
    | case_match ].

(** ** Programs that never panic *)

Definition no_panic {S A} (m : GoM S A) : Prop := forall s v s', m s <> (Panic v, s').

Create HintDb go_no_panic discriminated.
#[export] Hint Constants Opaque : go_no_panic.

Section no_panic_rules.
Context {S : Type}.

Lemma no_panic_ret {A} (a : A) : no_panic (S:=S) (mret a).
Proof. done. Qed.
Lemma no_panic_fail {A} e : no_panic (S:=S) (fail (A:=A) e).
Proof. done. Qed.
Lemma no_panic_gets {A} (f : S -> A) : no_panic (gets f).
Proof. done. Qed.
Lemma no_panic_get_state : no_panic (@get_state S).
Proof. done. Qed.
Lemma no_panic_modify (f : S -> S) : no_panic (modify f).
Proof. done. Qed.
Lemma no_panic_fail_if b e : no_panic (S:=S) (fail_if b e).
Proof. by destruct b. Qed.
Lemma no_panic_bind {A B} (m : GoM S A) (k : A -> GoM S B) :
  no_panic m -> (forall a, no_panic (k a)) -> no_panic (m ≫= k).
Proof.
  intros Hm Hk s v s'. unfold mbind, GoM_bind. specialize (Hm s).
  destruct (m s) as [[a|e|u] s1]; [apply Hk|done|]. intros _. by eapply Hm.
Qed.
Lemma no_panic_attempt {A} (m : GoM S A) : no_panic m -> no_panic (attempt m).
Proof.
  intros Hm s v s'. unfold attempt. specialize (Hm s). destruct (m s) as [[a|e|u] s1];
    first [done|intros _; by eapply Hm].
Qed.
Lemma no_panic_wrap {A} f (m : GoM S A) : no_panic m -> no_panic (wrap_err f m).
Proof.
  intros Hm s v s'. unfold wrap_err. specialize (Hm s). destruct (m s) as [[a|e|u] s1];
    first [done|intros _; by eapply Hm].
Qed.
Lemma no_panic_ignore {A} (m : GoM S A) : no_panic m -> no_panic (ignore m).
Proof. intros Hm. apply no_panic_bind; [by apply no_panic_attempt|done]. Qed.
Lemma no_panic_defer {A} d (m : GoM S A) : no_panic d -> no_panic m -> no_panic (defer d m).
Proof.
  intros Hd Hm s v s'. unfold defer. specialize (Hm s). destruct (m s) as [o s1].
  specialize (Hd s1). destruct (d s1) as [[a|e|u] s2].
  - intros [= -> ->]. by eapply Hm.
  - intros [= -> ->]. by eapply Hm.
  - intros _. by eapply Hd.
Qed.
Lemma no_panic_for_each {A} (l : list A) (body : A -> GoM S unit) :
  (forall x, no_panic (body x)) -> no_panic (for_each l body).
Proof.
  intros Hb. induction l as [|x l IH]; simpl; [done|]. apply no_panic_bind; [apply Hb|auto].
Qed.
End no_panic_rules.

#[export] Hint Resolve no_panic_ret no_panic_fail no_panic_gets no_panic_get_state no_panic_modify
  no_panic_fail_if : go_no_panic.

Ltac solve_no_panic :=
  repeat first
    [ solve [eauto with go_no_panic]
    | apply no_panic_bind; [ | intros ? ]
    | apply no_panic_wrap
    | apply no_panic_attempt
    | apply no_panic_ignore
    | apply no_panic_defer
    | apply no_panic_for_each; intros ?
    | case_match ].

(** Destruct the innermost scrutinee of a goal or hypothesis. *)
Ltac go_cases :=
  repeat (simpl in *; simplify_eq; try done; case_match).

(** Evaluate a decidable goal on concrete data. *)
Ltac by_decision :=
  match goal with |- ?P => refine (bool_decide_unpack P _); vm_compute; exact I end.

(** * Machine integers: Go's [int64] and [int] wrap around *)

Definition int64_min : Z := - 2 ^ 63.
Definition int64_max : Z := 2 ^ 63 - 1.

(** The value an [int64] operation leaves when its exact result is [z]. *)
Definition wrap64 (z : Z) : Z := (z + 2 ^ 63) mod 2 ^ 64 - 2 ^ 63.

Definition in_int64 (z : Z) : Prop := (int64_min <= z <= int64_max)%Z.

Lemma wrap64_id z : in_int64 z -> wrap64 z = z.
Proof.
  unfold in_int64, wrap64, int64_min, int64_max. intros.
  rewrite Z.mod_small; lia.
Qed.

Lemma wrap64_range z : in_int64 (wrap64 z).
Proof.
  unfold in_int64, wrap64, int64_min, int64_max.
  pose proof (Z.mod_pos_bound (z + 2 ^ 63) (2 ^ 64) ltac:(lia)). lia.
Qed.

(** * Formatting: the text of an error *)

Section formatting.
Local Open Scope string_scope.

Definition dquote : Ascii.ascii := Ascii.ascii_of_nat 34.
Definition backslash : Ascii.ascii := Ascii.ascii_of_nat 92.
Definition newline : Ascii.ascii := Ascii.ascii_of_nat 10.

(** The body of [strconv.Quote] on printable text: the quote and the backslash are
    escaped, a newline is written as backslash n, other bytes stand for themselves. *)
Fixpoint quote_body (s : string) : string :=
  match s with
  | EmptyString => EmptyString
  | String c s' =>
      if decide (c = dquote \/ c = backslash) then String backslash (String c (quote_body s'))
      else if decide (c = newline) then String backslash (String "n"%char (quote_body s'))
      else String c (quote_body s')
  end.
Definition quote (s : string) : string :=
  String dquote (quote_body s +:+ String dquote EmptyString).

(** [fmt.Sprintf] for the verbs the code uses: each argument is given as the text
    %s, %d, %v or %t prints for it; %q quotes it; %w prints the cause. *)
Fixpoint sprintf (fmt : string) (args : list string) (cause : string) : string :=
  match fmt with
  | String "%"%char (String v fmt') =>
      if decide (v = "w"%char) then cause +:+ sprintf fmt' args cause
      else match args with
           | a :: args' =>
               (if decide (v = "q"%char) then quote a else a) +:+ sprintf fmt' args' cause
           | [] => "%!" +:+ String v ("(MISSING)" +:+ sprintf fmt' [] cause)
           end
  | String c fmt' => String c (sprintf fmt' args cause)
  | EmptyString => EmptyString
  end.

Definition errno_text (e : errno) : string :=
  match e with
  | ENOENT => "no such file or directory" | EEXIST => "file exists"
  | ENOTDIR => "not a directory" | EISDIR => "is a directory"
  | ENOTEMPTY => "directory not empty" | ELOOP => "too many levels of symbolic links"
  | EPERM => "operation not permitted" | EACCES => "permission denied"
  | EINVAL => "invalid argument" | EIO => "input/output error"
  | ENOSPC => "no space left on device" | EWOULDBLOCK => "resource temporarily unavailable"
  | EBUSY => "device or resource busy" | ECHILD => "no child processes"
  | EBADF => "bad file descriptor"
  end.

(** [err.Error()]; the operation and path an [*os.PathError] adds are left out. *)
Fixpoint error_text (e : error) : string :=
  match e with
  | Errno n => errno_text n
  | Canceled => "context canceled"
  | DeadlineExceeded => "context deadline exceeded"
  | Errorf fmt args => sprintf fmt args EmptyString
  | Wrapf fmt args c => sprintf fmt args (error_text c)
  end.
End formatting.
