(* ===== verification/GoPath.v ===== *)
(** * Go strings and slash-separated paths

    The functions of Go's [strings], [path] and [path/filepath] the program calls, on Unix
    (where [path] and [path/filepath] agree and [FromSlash]/[ToSlash] are the identity).
    A cleaned path is a flag "rooted" with a list of components: [cpath_of] and [render]
    go from one view to the other, and the algebra of [Clean], [Join], [Dir] and [Rel]
    is proved on components. *)

From S2P Require Import Prelude.

(** ** The [strings] package *)

Definition HasPrefix (s p : string) : bool := String.prefix p s.

Fixpoint str_drop (n : nat) (s : string) : string :=
  match n, s with
  | S n', String _ s' => str_drop n' s'
  | _, _ => s
  end.

Fixpoint str_take (n : nat) (s : string) : string :=
  match n, s with
  | S n', String c s' => String c (str_take n' s')
  | _, _ => ""
  end.

Definition TrimPrefix (s p : string) : string :=
  if HasPrefix s p then str_drop (String.length p) s else s.

Definition HasSuffix (s p : string) : bool :=
  (String.length p <=? String.length s)%nat
  && bool_decide (str_drop (String.length s - String.length p) s = p).

Definition TrimSuffix (s p : string) : string :=
  if HasSuffix s p then str_take (String.length s - String.length p) s else s.

(** [strings.Split(s, sep)] for a one-byte separator: never the empty list. *)
Fixpoint split_on (c : Ascii.ascii) (s : string) : list string :=
  match s with
  | EmptyString => [""]
  | String a s' =>
      if decide (a = c) then "" :: split_on c s'
      else match split_on c s' with
           | h :: t => String a h :: t
           | [] => [String a ""]
           end
  end.

(** [strings.Join] *)
Definition str_join (sep : string) (l : list string) : string := String.concat sep l.

(** [strings.Cut(s, sep)] for a one-byte separator. *)
Fixpoint Cut (c : Ascii.ascii) (s : string) : option (string * string) :=
  match s with
  | EmptyString => None
  | String a s' =>
      if decide (a = c) then Some ("", s')
      else match Cut c s' with
           | Some (l, r) => Some (String a l, r)
           | None => None
           end
  end.

Fixpoint str_contains (c : Ascii.ascii) (s : string) : bool :=
  match s with
  | EmptyString => false
  | String a s' => bool_decide (a = c) || str_contains c s'
  end.

(** [strings.Contains(s, sub)] *)
Fixpoint has_substring (sub s : string) : bool :=
  String.prefix sub s || match s with EmptyString => false | String _ s' => has_substring sub s' end.

(** A byte-for-byte replacement, as [strings.ReplaceAll] and a [strings.Replacer] with
    one-byte patterns do. *)
Fixpoint str_map (f : Ascii.ascii -> Ascii.ascii) (s : string) : string :=
  match s with
  | EmptyString => EmptyString
  | String a s' => String (f a) (str_map f s')
  end.

Fixpoint str_forall (P : Ascii.ascii -> bool) (s : string) : bool :=
  match s with
  | EmptyString => true
  | String a s' => P a && str_forall P s'
  end.

(** White space as [unicode.IsSpace] has it on ASCII bytes. *)
Definition is_space (c : Ascii.ascii) : bool :=
  let n := Ascii.nat_of_ascii c in ((9 <=? n) && (n <=? 13) || (n =? 32))%nat.

(** The white space beyond ASCII, in UTF-8: no byte that starts one of these is inside another
    character, so they are found byte by byte. *)
Definition bytes (l : list nat) : string := foldr (fun n s => String (Ascii.ascii_of_nat n) s) "" l.
Definition wide_spaces : list string :=
  bytes <$> ([[194; 133]; [194; 160]; [225; 154; 128]; [226; 128; 168]; [226; 128; 169]; [226; 128; 175];
              [226; 129; 159]; [227; 128; 128]] ++ ((fun n => [226; 128; 128 + n]) <$> seq 0 11))%nat.

(** The bytes of the white space [s] starts with. *)
Definition space_width (s : string) : nat :=
  match s with
  | EmptyString => 0
  | String a _ =>
      if is_space a then 1
      else match filter (fun p => HasPrefix s p = true) wide_spaces with p :: _ => String.length p | [] => 0 end
  end.

(** [strings.Fields], [bytes.Fields]: the maximal runs without white space. [skip] counts the bytes
    of a space still to pass. *)
Definition flush (cur : string) : list string := if decide (cur = "") then [] else [cur].
Fixpoint Fields_aux (skip : nat) (s cur : string) : list string :=
  match s with
  | EmptyString => flush cur
  | String a s' =>
      match skip, space_width s with
      | S k, _ => Fields_aux k s' cur
      | O, S k => flush cur ++ Fields_aux k s' ""
      | O, O => Fields_aux O s' (cur +:+ String a "")
      end
  end.
Definition Fields (s : string) : list string := Fields_aux O s "".

(** [strconv.Atoi]: an optional sign and decimal digits, within the range of [int]; [None] is its error. *)
Fixpoint digits_value (s : string) (acc : Z) : option Z :=
  match s with
  | EmptyString => Some acc
  | String a s' =>
      let n := Ascii.nat_of_ascii a in
      if decide (48 <= n <= 57)%nat then digits_value s' (acc * 10 + Z.of_nat (n - 48))%Z else None
  end.
Definition Atoi (s : string) : option Z :=
  let in_range (z : Z) := if decide (int64_min <= z <= int64_max)%Z then Some z else None in
  match s with
  | EmptyString => None
  | String a s' =>
      if decide (a = "-"%char) then (if decide (s' = "") then None else digits_value s' 0 ≫= fun v => in_range (- v)%Z)
      else if decide (a = "+"%char) then (if decide (s' = "") then None else digits_value s' 0 ≫= in_range)
      else digits_value s 0 ≫= in_range
  end.

Example Fields_Atoi_table :
  Fields (bytes [32; 79; 75; 194; 160; 49; 50; 10]) = ["OK"; "12"] /\ Fields (bytes [226; 128; 138; 97]) = ["a"]
  /\ (Atoi <$> ["12"; "-5"; "+7"; "1_0"; ""; "-"; "9223372036854775808"]) = [Some 12; Some (-5); Some 7; None; None; None; None]%Z.
Proof. vm_compute. done. Qed.

(** [firstNonEmpty] of the [manager] and [server] packages. *)
Fixpoint firstNonEmpty (values : list string) : string :=
  match values with
  | [] => ""
  | v :: rest => if decide (v = "") then firstNonEmpty rest else v
  end.

(** ** String lemmas *)

Lemma app_nil_r_str s : s +:+ "" = s.
Proof. induction s as [|a s IH]; simpl; [done|by rewrite IH]. Qed.

Lemma app_assoc_str s1 s2 s3 : s1 +:+ (s2 +:+ s3) = (s1 +:+ s2) +:+ s3.
Proof. induction s1 as [|a s IH]; simpl; [done|by rewrite IH]. Qed.

Lemma length_app_str s1 s2 : String.length (s1 +:+ s2) = String.length s1 + String.length s2.
Proof. induction s1; simpl; auto. Qed.

Lemma prefix_app p s : HasPrefix (p +:+ s) p = true.
Proof.
  unfold HasPrefix. induction p as [|a p IH]; simpl; [by destruct s|].
  destruct (Ascii.ascii_dec a a); done.
Qed.

Lemma prefix_true p s : HasPrefix s p = true <-> exists r, s = p +:+ r.
Proof.
  split; [|intros [r ->]; apply prefix_app].
  unfold HasPrefix. revert s. induction p as [|a p IH]; intros s H; [by exists s|].
  destruct s as [|b s]; simpl in H; [done|].
  destruct (Ascii.ascii_dec a b) as [->|]; [|done].
  destruct (IH s H) as [r ->]. by exists r.
Qed.

Lemma str_drop_app p s : str_drop (String.length p) (p +:+ s) = s.
Proof. induction p; simpl; [by destruct s|auto]. Qed.

Lemma TrimPrefix_app p s : TrimPrefix (p +:+ s) p = s.
Proof. unfold TrimPrefix. by rewrite prefix_app, str_drop_app. Qed.

Lemma str_take_drop n s : str_take n s +:+ str_drop n s = s.
Proof. revert s. induction n as [|n IH]; intros [|c s]; simpl; [done..|]. by rewrite IH. Qed.
Lemma str_take_all n s : (String.length s <= n)%nat -> str_take n s = s.
Proof. revert n. induction s as [|c s IH]; intros [|n] Hn; simpl in *; try done; [lia|]. f_equal. apply IH. lia. Qed.
Lemma str_drop_all s : str_drop (String.length s) s = "".
Proof. induction s as [|c s IH]; simpl; [done|by rewrite IH]. Qed.

Lemma str_take_app p s : str_take (String.length p) (p +:+ s) = p.
Proof. induction p; simpl; [by destruct s|congruence]. Qed.

Lemma HasSuffix_app p s : HasSuffix (p +:+ s) s = true.
Proof.
  unfold HasSuffix. rewrite length_app_str, andb_true_iff, Nat.leb_le, bool_decide_eq_true.
  split; [lia|]. replace (_ + _ - _) with (String.length p) by lia. apply str_drop_app.
Qed.

Lemma TrimSuffix_app p s : TrimSuffix (p +:+ s) s = p.
Proof.
  unfold TrimSuffix. rewrite HasSuffix_app, length_app_str.
  replace (_ + _ - _) with (String.length p) by lia. apply str_take_app.
Qed.

Lemma str_forall_app P s1 s2 : str_forall P (s1 +:+ s2) = str_forall P s1 && str_forall P s2.
Proof. induction s1; simpl; [done|]. rewrite IHs1. by rewrite andb_assoc. Qed.

Lemma app_inj_l p s1 s2 : p +:+ s1 = p +:+ s2 -> s1 = s2.
Proof. induction p; simpl; [done|intros; simplify_eq; auto]. Qed.

Lemma app_inj_r s p1 p2 : p1 +:+ s = p2 +:+ s -> p1 = p2.
Proof.
  intros H.
  assert (Hl : String.length p1 = String.length p2).
  { apply (f_equal String.length) in H. rewrite !length_app_str in H. lia. }
  revert p2 H Hl. induction p1 as [|a p1 IH]; intros [|b p2] H Hl; simpl in *; try done.
  simplify_eq. f_equal. auto.
Qed.

(** ** [Split] and [Join] *)

(** A component that does not hold the separator. *)
Definition no_char (c : Ascii.ascii) (s : string) : bool := negb (str_contains c s).

Lemma split_on_nonempty c s : split_on c s <> [].
Proof. destruct s; simpl; [done|]. case_decide; [done|]. by destruct (split_on c s). Qed.

Lemma split_on_no_char c s : no_char c s = true -> split_on c s = [s].
Proof.
  unfold no_char. induction s as [|a s IH]; simpl; [done|].
  rewrite negb_orb, andb_true_iff, negb_true_iff, bool_decide_eq_false.
  intros [Ha Hs]. rewrite decide_False by done. by rewrite (IH Hs).
Qed.

Lemma split_on_elems c s : Forall (fun x => no_char c x = true) (split_on c s).
Proof.
  induction s as [|a s IH]; simpl; [by repeat constructor|].
  case_decide; [by constructor|].
  destruct (split_on c s) as [|h t] eqn:E; [by apply split_on_nonempty in E|].
  inversion_clear IH. constructor; [|done]. unfold no_char in *; simpl.
  by rewrite bool_decide_eq_false_2.
Qed.

Lemma split_on_app c s1 s2 :
  split_on c (s1 +:+ String c s2) = split_on c s1 ++ split_on c s2.
Proof.
  induction s1 as [|a s1 IH]; simpl; [by rewrite decide_True|].
  case_decide; [by rewrite IH|]. rewrite IH.
  destruct (split_on c s1) eqn:E; [by apply split_on_nonempty in E|done].
Qed.

Lemma str_join_cons sep x l :
  l <> [] -> str_join sep (x :: l) = x +:+ sep +:+ str_join sep l.
Proof. destruct l; done. Qed.

Lemma split_join c l :
  l <> [] -> Forall (fun x => no_char c x = true) l ->
  split_on c (str_join (String c "") l) = l.
Proof.
  intros Hn Hl. induction Hl as [|x l Hx Hl IH]; [done|].
  destruct l as [|y l]; [by apply split_on_no_char|].
  rewrite str_join_cons by done.
  change (String c "" +:+ ?r) with (String c r). rewrite split_on_app.
  rewrite IH by done. by rewrite split_on_no_char.
Qed.

Lemma join_split c s : str_join (String c "") (split_on c s) = s.
Proof.
  induction s as [|a s IH]; [done|]. simpl. case_decide as Ha.
  - subst. rewrite str_join_cons by apply split_on_nonempty. simpl. by rewrite IH.
  - destruct (split_on c s) as [|h t] eqn:E; [by apply split_on_nonempty in E|].
    destruct t; simpl in *; by rewrite <- IH.
Qed.

Lemma str_join_inj c l1 l2 :
  l1 <> [] -> l2 <> [] ->
  Forall (fun x => no_char c x = true) l1 -> Forall (fun x => no_char c x = true) l2 ->
  str_join (String c "") l1 = str_join (String c "") l2 -> l1 = l2.
Proof.
  intros N1 N2 H1 H2 E. rewrite <- (split_join c l1), <- (split_join c l2); auto.
  by rewrite E.
Qed.

Lemma Cut_spec c s :
  match Cut c s with
  | Some (l, r) => s = l +:+ String c r /\ no_char c l = true
  | None => no_char c s = true
  end.
Proof.
  unfold no_char. induction s as [|a s IH]; simpl; [done|].
  case_decide as Ha; [by subst|].
  destruct (Cut c s) as [[l r]|].
  - destruct IH as [-> Hl]. split; [done|]. simpl. by rewrite bool_decide_eq_false_2.
  - by rewrite bool_decide_eq_false_2.
Qed.

(** ** Paths *)

Definition slash : ascii := "/"%char.

Abbreviation psplit := (split_on slash).
Abbreviation pjoin := (str_join "/").

Definition IsAbs (s : string) : bool := HasPrefix s "/".

(** One component of [Clean]'s left-to-right scan; the stack holds the output components,
    innermost first. An empty component or "." is dropped, ".." removes the component
    before it, unless there is none: then it is dropped at the root and kept otherwise. *)
Definition clean_step (rooted : bool) (st : list string) (c : string) : list string :=
  if decide (c = "" \/ c = ".") then st
  else if decide (c = "..") then
    match st with
    | d :: st' => if decide (d = "..") then c :: st else st'
    | [] => if rooted then [] else [c]
    end
  else c :: st.

Definition clean_comps (rooted : bool) (cs : list string) : list string :=
  rev (foldl (clean_step rooted) [] cs).

(** A path in components: is it rooted, and its elements. *)
Definition cpath : Type := bool * list string.

Definition cpath_of (s : string) : cpath := (IsAbs s, clean_comps (IsAbs s) (psplit s)).

Definition render (p : cpath) : string :=
  match p with
  | (true, cs) => "/" +:+ pjoin cs
  | (false, []) => "."
  | (false, cs) => pjoin cs
  end.

(** [path.Clean], [filepath.Clean] *)
Definition Clean (s : string) : string := render (cpath_of s).

(** [path.Join], [filepath.Join]: leading empty elements are ignored. *)
Fixpoint Join (elem : list string) : string :=
  match elem with
  | [] => ""
  | e :: rest => if decide (e = "") then Join rest else Clean (pjoin elem)
  end.

(** [path.Dir], [filepath.Dir]: everything up to the last slash, cleaned. *)
Definition Dir (s : string) : string := Clean (pjoin (removelast (psplit s) ++ [""])).

Definition elems (s : string) : list string := filter (fun c => c <> "") (psplit s).

(** [path.Base], [filepath.Base]: the last element, trailing slashes removed. *)
Definition Base (s : string) : string :=
  if decide (s = "") then "."
  else match last (elems s) with Some c => c | None => "/" end.

(** [filepath.Ext]: from the last dot of the last element, dot included. *)
Fixpoint Ext_aux (s : string) : option string :=
  match s with
  | EmptyString => None
  | String c s' =>
      match Ext_aux s' with
      | Some e => Some e
      | None => if decide (c = "."%char) then Some s else None
      end
  end.
Definition Ext (s : string) : string :=
  match last (psplit s) with
  | Some c => match Ext_aux c with Some e => e | None => "" end
  | None => ""
  end.

Fixpoint strip_common (b t : list string) : list string * list string :=
  match b, t with
  | x :: b', y :: t' => if decide (x = y) then strip_common b' t' else (b, t)
  | _, _ => (b, t)
  end.

(** [filepath.Rel] *)
Definition Rel (basepath targpath : string) : outcome string :=
  let base := Clean basepath in
  let targ := Clean targpath in
  if decide (targ = base) then Ok "."
  else
    let base := if decide (base = ".") then "" else base in
    let err := Err (Errorf "Rel: can't make %s relative to %s" [targpath; basepath]) in
    if xorb (IsAbs base) (IsAbs targ) then err
    else match strip_common (elems base) (elems targ) with
         | (".." :: _, _) => err
         | (b, t) => Ok (pjoin (((fun _ => "..") <$> b) ++ t))
         end.

(** The results Go's own tests list for these functions. *)
Example Clean_table :
  (Clean <$> [""; "abc//def"; "/../abc"; "abc/def/../../.."; "/abc/def/../.."; "../../abc"; "./abc/."; "/"])
  = ["."; "abc/def"; "/abc"; ".."; "/"; "../../abc"; "abc"; "/"].
Proof. reflexivity. Qed.

Example Join_table :
  (Join <$> [[]; [""]; [""; "a"]; ["a"; ""]; ["/"; "a"]; ["a"; "../b"]; ["a/"; "b"]; [""; ""]])
  = [""; ""; "a"; "a"; "/a"; "b"; "a/b"; ""].
Proof. reflexivity. Qed.

Example Dir_Base_table :
  (Dir <$> [""; "/"; "/foo"; "x/"; "abc/def"; "a/b/.x"], Base <$> [""; "/"; "//"; "x/"; "abc/def"; "a/b/c.x"])
  = (["."; "/"; "/"; "x"; "abc"; "a/b"], ["."; "/"; "/"; "x"; "def"; "c.x"]).
Proof. reflexivity. Qed.

Example Rel_table :
  (Rel "a/b" "a/b/c", Rel "a/b/c" "a/b/d", Rel "/a/b" "/a/b", Rel "/" "/a", Rel "/a/b/c" "/a/d", Rel "." "a/b")
  = (Ok "c", Ok "../d", Ok ".", Ok "a", Ok "../../d", Ok "a/b")
  /\ is_Ok (Rel ".." "a") = false /\ is_Ok (Rel "a" "/a") = false.
Proof. done. Qed.

Example Ext_table : (Ext <$> ["a.json"; "a/b.tar.gz"; "a.b/c"; "x."]) = [".json"; ".gz"; ""; "."].
Proof. reflexivity. Qed.

(** ** The algebra of cleaned paths *)

(** A component that names a directory entry. *)
Definition is_name (c : string) : Prop :=
  c <> "" /\ c <> "." /\ c <> ".." /\ no_char slash c = true.

#[export] Instance is_name_dec c : Decision (is_name c).
Proof. unfold is_name. apply _. Defined.

Lemma clean_step_name r st c : is_name c -> clean_step r st c = c :: st.
Proof.
  intros (H1 & H2 & H3 & _). unfold clean_step.
  rewrite decide_False by (intros [|]; congruence). by rewrite decide_False.
Qed.

Lemma clean_step_skip r st c : c = "" \/ c = "." -> clean_step r st c = st.
Proof. intros H. unfold clean_step. by rewrite decide_True. Qed.

Lemma foldl_clean_names r st cs :
  Forall is_name cs -> foldl (clean_step r) st cs = rev cs ++ st.
Proof.
  intros H. revert st. induction H as [|c cs Hc _ IH]; intros st; simpl; [done|].
  rewrite clean_step_name by done. rewrite IH. by rewrite <- app_assoc.
Qed.

Lemma clean_comps_names r cs : Forall is_name cs -> clean_comps r cs = cs.
Proof.
  intros H. unfold clean_comps. rewrite foldl_clean_names by done.
  by rewrite app_nil_r, rev_involutive.
Qed.

(** The stack of a rooted scan holds names only. *)
Lemma foldl_clean_rooted st cs :
  Forall is_name st -> Forall (fun c => no_char slash c = true) cs ->
  Forall is_name (foldl (clean_step true) st cs).
Proof.
  intros Hst H. revert st Hst. induction H as [|c cs Hc _ IH]; intros st Hst; simpl; [done|].
  apply IH. unfold clean_step. case_decide as H1; [done|]. case_decide as H2.
  - destruct Hst as [|d st Hd Hst]; [done|]. rewrite decide_False; [done|]. apply Hd.
  - constructor; [|done]. unfold is_name. naive_solver.
Qed.

Lemma clean_comps_rooted cs :
  Forall (fun c => no_char slash c = true) cs -> Forall is_name (clean_comps true cs).
Proof.
  intros H. unfold clean_comps. apply Forall_rev. by apply foldl_clean_rooted.
Qed.

Lemma cpath_of_rooted s : IsAbs s = true -> Forall is_name (snd (cpath_of s)).
Proof. intros H. unfold cpath_of; simpl. rewrite H. apply clean_comps_rooted, split_on_elems. Qed.

(** Unrooted: some number of ".." below the names. *)
Definition relative_nf (cs : list string) : Prop :=
  exists k names, cs = replicate k ".." ++ names /\ Forall is_name names.

Lemma foldl_clean_relative cs k names :
  Forall is_name names -> Forall (fun c => no_char slash c = true) cs ->
  exists k' names', Forall is_name names'
    /\ foldl (clean_step false) (rev names ++ replicate k "..") cs = rev names' ++ replicate k' "..".
Proof.
  intros Hn H. revert k names Hn. induction H as [|c cs Hc _ IH]; intros k names Hn; simpl;
    [by exists k, names|].
  unfold clean_step at 2. case_decide as H1; [by apply IH|]. case_decide as H2.
  - subst c. induction names as [|d names _] using rev_ind; simpl.
    + destruct k as [|k]; simpl.
      * apply (IH 1 []); done.
      * apply (IH (S (S k)) []); done.
    + apply Forall_app in Hn as [Hn Hd]. inversion_clear Hd as [|?? Hd' _].
      rewrite rev_app_distr. simpl. rewrite decide_False by apply Hd'. by apply IH.
  - replace (c :: rev names ++ replicate k "..") with (rev (names ++ [c]) ++ replicate k "..")
      by (by rewrite rev_app_distr).
    apply IH. apply Forall_app. split; [done|]. constructor; [|done]. unfold is_name. naive_solver.
Qed.

Lemma rev_replicate {A} k (x : A) : rev (replicate k x) = replicate k x.
Proof.
  induction k as [|k IH]; simpl; [done|]. rewrite IH. symmetry.
  apply (replicate_cons_app k x).
Qed.

Lemma cpath_of_relative s : IsAbs s = false -> relative_nf (snd (cpath_of s)).
Proof.
  intros H. unfold cpath_of, clean_comps; simpl. rewrite H.
  destruct (foldl_clean_relative (psplit s) 0 [] ltac:(done) (split_on_elems _ _))
    as (k & names & Hn & E). simpl in E. rewrite E.
  exists k, names. split; [|done]. by rewrite rev_app_distr, rev_involutive, rev_replicate.
Qed.

Lemma foldl_clean_dotdot j k :
  foldl (clean_step false) (replicate j "..") (replicate k "..") = replicate (k + j) "..".
Proof.
  revert j. induction k as [|k IH]; intros j; simpl; [done|].
  replace (clean_step false (replicate j "..") "..") with (replicate (S j) "..") by (by destruct j).
  rewrite IH. by rewrite Nat.add_succ_r.
Qed.

Lemma clean_comps_relative_nf cs : relative_nf cs -> clean_comps false cs = cs.
Proof.
  intros (k & names & -> & Hn). unfold clean_comps. rewrite foldl_app.
  rewrite foldl_clean_names by done. rewrite rev_app_distr, rev_involutive.
  change (@nil string) with (replicate 0 "..").
  rewrite foldl_clean_dotdot, Nat.add_0_r. by rewrite rev_replicate.
Qed.

Lemma no_slash_dotdots k : Forall (fun c => no_char slash c = true) (replicate k "..").
Proof. induction k; simpl; by constructor. Qed.

Lemma names_no_slash cs : Forall is_name cs -> Forall (fun c => no_char slash c = true) cs.
Proof. intros H. eapply Forall_impl; [done|]. by intros c (_ & _ & _ & Hc). Qed.
Create HintDb go_path.
#[export] Hint Resolve names_no_slash no_slash_dotdots : go_path.

Lemma relative_nf_no_slash cs :
  relative_nf cs -> Forall (fun c => no_char slash c = true) cs.
Proof.
  intros (k & names & -> & Hn). apply Forall_app; auto using names_no_slash, no_slash_dotdots.
Qed.

Lemma psplit_pjoin cs :
  cs <> [] -> Forall (fun c => no_char slash c = true) cs -> psplit (pjoin cs) = cs.
Proof. apply (split_join slash). Qed.

Lemma psplit_rooted s : psplit (String "/"%char s) = "" :: psplit s.
Proof. reflexivity. Qed.

Lemma IsAbs_render_true cs : IsAbs (render (true, cs)) = true.
Proof. unfold IsAbs, HasPrefix. simpl. by destruct (pjoin cs). Qed.

Lemma IsAbs_head c s : IsAbs (String c s) = bool_decide (c = slash).
Proof.
  apply eq_bool_prop_intro. rewrite bool_decide_spec. unfold IsAbs.
  rewrite Is_true_true, prefix_true. split.
  - intros [r E]. simpl in E. by injection E.
  - intros ->. by exists s.
Qed.

(** A string whose first component is not empty is relative. *)
Lemma IsAbs_psplit s c cs : psplit s = c :: cs -> c <> "" -> IsAbs s = false.
Proof.
  destruct s as [|a s]; intros H Hc; [done|]. rewrite IsAbs_head.
  apply bool_decide_eq_false. intros ->. change (psplit (String slash s)) with ("" :: psplit s) in H. congruence.
Qed.

Lemma IsAbs_render_false cs : relative_nf cs -> IsAbs (render (false, cs)) = false.
Proof.
  intros H. destruct cs as [|c cs]; [done|].
  change (IsAbs (pjoin (c :: cs)) = false). eapply IsAbs_psplit.
  - apply psplit_pjoin; [done|by apply relative_nf_no_slash].
  - destruct H as ([|k] & names & E & Hn); simpl in E; simplify_eq.
    + inversion_clear Hn as [|?? Hc _]. apply Hc.
    + done.
Qed.

Lemma psplit_render_true cs :
  Forall is_name cs -> clean_comps true (psplit (render (true, cs))) = cs.
Proof.
  intros H. simpl render. rewrite psplit_rooted. unfold clean_comps. simpl.
  rewrite clean_step_skip by auto.
  destruct cs as [|c cs]; [done|].
  rewrite psplit_pjoin by (done || by apply names_no_slash).
  by apply (clean_comps_names true).
Qed.

Lemma cpath_of_render_true cs : Forall is_name cs -> cpath_of (render (true, cs)) = (true, cs).
Proof. intros H. unfold cpath_of. by rewrite IsAbs_render_true, psplit_render_true. Qed.

Lemma cpath_of_render_false cs : relative_nf cs -> cpath_of (render (false, cs)) = (false, cs).
Proof.
  intros H. unfold cpath_of. rewrite IsAbs_render_false by done. f_equal.
  destruct cs as [|c cs]; [done|]. change (clean_comps false (psplit (pjoin (c :: cs))) = c :: cs).
  rewrite psplit_pjoin by (done || by apply relative_nf_no_slash).
  by apply clean_comps_relative_nf.
Qed.

Lemma cpath_of_Clean s : cpath_of (Clean s) = cpath_of s.
Proof.
  unfold Clean. destruct (IsAbs s) eqn:E.
  - pose proof (cpath_of_rooted s E) as H. unfold cpath_of in *. rewrite E in *. simpl in H.
    by apply cpath_of_render_true.
  - pose proof (cpath_of_relative s E) as H. unfold cpath_of in *. rewrite E in *. simpl in H.
    by apply cpath_of_render_false.
Qed.

(** [Clean] is idempotent, and equal components give equal cleaned strings. *)
Lemma Clean_idem s : Clean (Clean s) = Clean s.
Proof. unfold Clean at 1. by rewrite cpath_of_Clean. Qed.

Lemma IsAbs_Clean s : IsAbs (Clean s) = IsAbs s.
Proof. exact (f_equal fst (cpath_of_Clean s)). Qed.

Lemma Clean_render_true cs : Forall is_name cs -> Clean (render (true, cs)) = render (true, cs).
Proof. intros H. unfold Clean. by rewrite cpath_of_render_true. Qed.

(** A rooted path in normal form: the view every host path of the program has. *)
Definition abs_path (s : string) (cs : list string) : Prop :=
  s = render (true, cs) /\ Forall is_name cs.

Lemma abs_path_Clean s : IsAbs s = true -> abs_path (Clean s) (snd (cpath_of s)).
Proof.
  intros H. split; [|by apply cpath_of_rooted].
  change (fst (cpath_of s) = true) in H. unfold Clean.
  destruct (cpath_of s) as [r cs]; simpl in *; by subst.
Qed.

Lemma abs_path_inj s1 s2 cs : abs_path s1 cs -> abs_path s2 cs -> s1 = s2.
Proof. intros [-> _] [-> _]. done. Qed.

Lemma abs_path_cpath s cs : abs_path s cs -> cpath_of s = (true, cs).
Proof. intros [-> H]. by apply cpath_of_render_true. Qed.

Lemma abs_path_comps_inj s cs1 cs2 : abs_path s cs1 -> abs_path s cs2 -> cs1 = cs2.
Proof. intros H1%abs_path_cpath H2%abs_path_cpath. congruence. Qed.

Lemma abs_path_clean_eq s cs : abs_path s cs -> Clean s = s.
Proof. intros [-> H]. by apply Clean_render_true. Qed.

(** ** [Join] on a rooted path *)

Lemma psplit_app_slash a b : psplit (a +:+ "/" +:+ b) = psplit a ++ psplit b.
Proof. exact (split_on_app slash a b). Qed.

Lemma IsAbs_app a b : IsAbs a = true -> IsAbs (a +:+ b) = true.
Proof. destruct a as [|c a]; [done|]. simpl. by rewrite !IsAbs_head. Qed.

(** Appending components to a rooted path goes on from its stack. *)
Lemma cpath_of_append s cs b :
  abs_path s cs ->
  cpath_of (s +:+ "/" +:+ b) = (true, rev (foldl (clean_step true) (rev cs) (psplit b))).
Proof.
  intros H. unfold cpath_of. rewrite (IsAbs_app s); [|destruct H as [-> _]; exact (IsAbs_render_true cs)].
  f_equal. rewrite psplit_app_slash. unfold clean_comps. rewrite foldl_app. f_equal. f_equal.
  apply abs_path_cpath in H. unfold cpath_of in H. injection H as Ha Hc. rewrite Ha in Hc.
  unfold clean_comps in Hc. rewrite <- Hc. by rewrite rev_involutive.
Qed.

Lemma abs_path_not_empty s cs : abs_path s cs -> s <> "".
Proof. intros [-> _]. done. Qed.

Lemma Join2 s b : s <> "" -> Join [s; b] = Clean (s +:+ "/" +:+ b).
Proof. intros H. simpl. by rewrite decide_False. Qed.

Lemma Join_abs s cs b :
  abs_path s cs ->
  abs_path (Join [s; b]) (rev (foldl (clean_step true) (rev cs) (psplit b))).
Proof.
  intros H. rewrite Join2 by (by eapply abs_path_not_empty).
  pose proof (cpath_of_append s cs b H) as E.
  pose proof (abs_path_Clean (s +:+ "/" +:+ b)) as HC. rewrite E in HC. apply HC.
  exact (f_equal fst E).
Qed.

(** The case every caller is in: the second argument is made of names. *)
Lemma Join_abs_names s cs b bs :
  abs_path s cs -> psplit b = bs -> Forall is_name bs -> abs_path (Join [s; b]) (cs ++ bs).
Proof.
  intros H <- Hb. pose proof (Join_abs s cs b H) as HJ.
  rewrite foldl_clean_names in HJ by done.
  by rewrite rev_app_distr, !rev_involutive in HJ.
Qed.

Lemma Join_abs_name s cs c :
  abs_path s cs -> is_name c -> abs_path (Join [s; c]) (cs ++ [c]).
Proof.
  intros H Hc. eapply Join_abs_names; [done| |by constructor].
  apply split_on_no_char, Hc.
Qed.

Lemma Join_abs_dot s cs : abs_path s cs -> Join [s; "."] = s.
Proof.
  intros H. eapply abs_path_inj; [|done]. pose proof (Join_abs s cs "." H) as HJ.
  simpl in HJ. rewrite clean_step_skip in HJ by auto. by rewrite rev_involutive in HJ.
Qed.

(** ** [Dir] and [Base] *)

Lemma Dir_abs s cs : abs_path s cs -> abs_path (Dir s) (removelast cs).
Proof.
  intros [-> H]. unfold Dir. simpl render. rewrite psplit_rooted.
  assert (Hr : Forall is_name (removelast cs)).
  { destruct cs as [|c cs _] using rev_ind; [done|]. rewrite removelast_last. by apply Forall_app in H as [? _]. }
  enough (cpath_of (pjoin (removelast ("" :: psplit (pjoin cs)) ++ [""])) = (true, removelast cs)) as E.
  { split; [|done]. unfold Clean. by rewrite E. }
  assert (Hs : removelast ("" :: psplit (pjoin cs)) = "" :: removelast cs \/ cs = []).
  { destruct cs as [|c cs]; [by right|left]. rewrite psplit_pjoin by (done || by apply names_no_slash). done. }
  destruct Hs as [-> | ->]; [|done]. unfold cpath_of.
  replace (pjoin (("" :: removelast cs) ++ [""])) with (String "/"%char (pjoin (removelast cs ++ [""])))
    by (by destruct (removelast cs)).
  rewrite IsAbs_head, bool_decide_eq_true_2 by done. f_equal.
  rewrite psplit_rooted, psplit_pjoin.
  - unfold clean_comps. simpl. rewrite clean_step_skip by auto.
    rewrite foldl_app, (foldl_clean_names _ _ (removelast cs)) by done. simpl. rewrite clean_step_skip by auto.
    by rewrite app_nil_r, rev_involutive.
  - by destruct (removelast cs).
  - apply Forall_app. split; [by apply names_no_slash|by constructor].
Qed.

Lemma elems_names cs : cs <> [] -> Forall is_name cs -> elems (pjoin cs) = cs.
Proof.
  intros Hne H. unfold elems. rewrite psplit_pjoin by (done || by apply names_no_slash).
  clear Hne. induction H as [|c cs Hc _ IH]; [done|].
  rewrite filter_cons_True by apply Hc. by rewrite IH.
Qed.

Lemma elems_abs s cs : abs_path s cs -> elems s = cs.
Proof.
  intros [-> H]. unfold elems. simpl render. rewrite psplit_rooted.
  rewrite filter_cons_False by naive_solver.
  destruct cs as [|c cs]; [done|]. by apply elems_names.
Qed.

Lemma Base_abs s cs c : abs_path s (cs ++ [c]) -> Base s = c.
Proof.
  intros H. unfold Base. rewrite decide_False by (by eapply abs_path_not_empty).
  rewrite (elems_abs _ _ H). by rewrite last_snoc.
Qed.

(** ** [Rel] between rooted paths *)

(** The test the code makes on a relative path: [rel == ".."] or a "../" prefix. *)
Definition rel_escapes (rel : string) : bool :=
  bool_decide (rel = "..") || HasPrefix rel "../".

Lemma strip_common_app b t : strip_common b (b ++ t) = ([], t).
Proof. induction b as [|x b IH]; simpl; [by destruct t|]. by rewrite decide_True. Qed.

Lemma strip_common_nil b t t' : strip_common b t = ([], t') -> t = b ++ t'.
Proof.
  revert t. induction b as [|x b IH]; intros [|y t]; simpl; intros E; simplify_eq; try done.
  case_decide; simplify_eq. f_equal. by apply IH.
Qed.

Lemma strip_common_Forall P b t :
  Forall P b -> Forall P t ->
  Forall P (fst (strip_common b t)) /\ Forall P (snd (strip_common b t)).
Proof.
  intros Hb. revert t. induction Hb as [|x b Hx Hb IH]; intros [|y t] Ht; simpl; auto.
  case_decide; simpl; [|by auto]. inversion_clear Ht. auto.
Qed.

Lemma rel_escapes_pjoin c l :
  Forall (fun c => no_char slash c = true) (c :: l) ->
  rel_escapes (pjoin (c :: l)) = bool_decide (c = "..").
Proof.
  intros H. apply eq_bool_prop_intro. unfold rel_escapes.
  rewrite Is_true_true, orb_true_iff, bool_decide_eq_true, bool_decide_spec, prefix_true.
  assert (Hs : psplit (pjoin (c :: l)) = c :: l) by (by apply psplit_pjoin).
  split.
  - intros [E|[r E]]; rewrite E in Hs.
    + change (psplit "..") with [".."] in Hs. congruence.
    + change ("../" +:+ r) with (".." +:+ String slash r) in Hs.
      rewrite split_on_app in Hs. change (psplit "..") with [".."] in Hs. simpl in Hs. congruence.
  - intros ->. destruct l as [|d l]; [by left|right].
    exists (pjoin (d :: l)). by rewrite str_join_cons.
Qed.

Lemma Rel_abs a b ca cb :
  abs_path a ca -> abs_path b cb ->
  Rel a b = Ok (if decide (ca = cb) then "."
                else pjoin (((fun _ => "..") <$> fst (strip_common ca cb)) ++ snd (strip_common ca cb))).
Proof.
  intros Ha Hb. unfold Rel. rewrite (abs_path_clean_eq _ _ Ha), (abs_path_clean_eq _ _ Hb).
  case_decide as E1.
  { subst. rewrite decide_True; [done|]. by eapply abs_path_comps_inj. }
  rewrite (decide_False (P := ca = cb)) by (intros ->; by eapply E1, abs_path_inj).
  assert (Habs : forall s cs, abs_path s cs -> IsAbs s = true)
    by (intros ? ? [-> _]; apply IsAbs_render_true).
  rewrite decide_False by (intros ->; by apply Habs in Ha).
  rewrite (Habs _ _ Ha), (Habs _ _ Hb). simpl.
  rewrite (elems_abs _ _ Ha), (elems_abs _ _ Hb).
  destruct (strip_common ca cb) as [x y] eqn:E. simpl.
  destruct (strip_common_Forall is_name ca cb) as [Hx _]; [apply Ha|apply Hb|].
  rewrite E in Hx. simpl in Hx. destruct Hx as [|c x Hc Hx]; [done|].
  destruct Hc as (_ & _ & Hc & _). repeat (case_match; try done).
Qed.

(** Containment: the relative path does not climb exactly when the target lies below. *)
Lemma Rel_below a b ca x :
  abs_path a ca -> abs_path b (ca ++ x) ->
  Rel a b = Ok (if decide (x = []) then "." else pjoin x).
Proof.
  intros Ha Hb. rewrite (Rel_abs a b ca (ca ++ x)) by done. rewrite strip_common_app. simpl.
  destruct x as [|c x]; [by rewrite app_nil_r, !decide_True|].
  rewrite !decide_False; [done|done|]. intros E%(f_equal length). rewrite length_app in E. simpl in E. lia.
Qed.

Lemma Rel_climbs a b ca cb :
  abs_path a ca -> abs_path b cb -> ~ ca `prefix_of` cb ->
  exists rel, Rel a b = Ok rel /\ rel_escapes rel = true.
Proof.
  intros Ha Hb Hp. eexists. split; [by apply Rel_abs|].
  rewrite decide_False by (intros ->; by apply Hp).
  destruct (strip_common ca cb) as [x y] eqn:E. destruct x as [|c x].
  { apply strip_common_nil in E. destruct Hp. by exists y. }
  destruct (strip_common_Forall is_name ca cb) as [Hx Hy]; [apply Ha|apply Hb|].
  rewrite E in Hx, Hy. cbn [fst snd] in *. rewrite fmap_cons. cbn [app].
  rewrite rel_escapes_pjoin; [done|]. constructor; [done|]. apply Forall_app. split; [|by apply names_no_slash].
  clear. induction x; simpl; by constructor.
Qed.

Lemma rel_escapes_below x :
  Forall is_name x -> rel_escapes (if decide (x = []) then "." else pjoin x) = false.
Proof.
  intros H. case_decide; [done|]. destruct x as [|c x]; [done|].
  rewrite rel_escapes_pjoin by (by apply names_no_slash). apply bool_decide_eq_false.
  inversion_clear H as [|?? Hc _]. apply Hc.
Qed.

Lemma Rel_escapes_iff a b ca cb :
  abs_path a ca -> abs_path b cb ->
  exists rel, Rel a b = Ok rel /\ (rel_escapes rel = false <-> ca `prefix_of` cb).
Proof.
  intros Ha Hb. destruct (decide (ca `prefix_of` cb)) as [Hp|Hp].
  - pose proof Hp as [x ->]. eexists. split; [by eapply Rel_below|].
    split; [done|]. intros _. apply rel_escapes_below.
    destruct Hb as [_ Hb]. by apply Forall_app in Hb as [_ ?].
  - destruct (Rel_climbs a b ca cb) as (rel & E & Hr); [done..|].
    exists rel. split; [done|]. split; [congruence|done].
Qed.

(** The components of [Split(rel, "/")] when [rel] is the part below. *)
Lemma psplit_below x : x <> [] -> Forall is_name x -> psplit (pjoin x) = x.
Proof. intros. apply psplit_pjoin; [done|by apply names_no_slash]. Qed.

(** ** Clean relative names *)

(** What [Clean] gives for a relative path that stays below its start. *)
Lemma Clean_relative_names s cs :
  cpath_of s = (false, cs) -> cs <> [] -> Clean s = pjoin cs.
Proof. intros E Hc. unfold Clean. rewrite E. simpl. by destruct cs. Qed.

Lemma relative_nf_names cs :
  relative_nf cs -> head cs <> Some ".." -> Forall is_name cs.
Proof. intros ([|k] & names & -> & Hn) H; simpl in *; done. Qed.

(** [Dir] and [Base] of a slash-joined list of names. *)
Lemma Base_names cs c : Forall is_name (cs ++ [c]) -> Base (pjoin (cs ++ [c])) = c.
Proof.
  intros H. unfold Base. rewrite decide_False.
  - rewrite elems_names by (done || by destruct cs). by rewrite last_snoc.
  - intros E. apply (f_equal psplit) in E. rewrite psplit_below in E by (done || by destruct cs).
    change (psplit "") with [""] in E. destruct cs; simplify_eq/=; [|by destruct cs].
    by apply Forall_cons in H as [[H _] _].
Qed.

Lemma Dir_names cs c :
  Forall is_name (cs ++ [c]) ->
  Dir (pjoin (cs ++ [c])) = if decide (cs = []) then "." else pjoin cs.
Proof.
  intros H. unfold Dir. rewrite psplit_below by (done || by destruct cs).
  rewrite removelast_last. case_decide as E; [by subst|].
  pose proof H as [Hcs _]%Forall_app.
  enough (E' : cpath_of (pjoin (cs ++ [""])) = (false, cs)) by (by rewrite (Clean_relative_names _ cs)).
  assert (Hs : psplit (pjoin (cs ++ [""])) = cs ++ [""]).
  { apply psplit_pjoin; [by destruct cs|]. apply Forall_app. split; [by apply names_no_slash|by constructor]. }
  unfold cpath_of. destruct cs as [|d cs]; [done|].
  rewrite (IsAbs_psplit _ d (cs ++ [""])).
  - rewrite Hs. f_equal. unfold clean_comps. rewrite foldl_app.
    rewrite (foldl_clean_names _ _ (d :: cs)), app_nil_r by done.
    cbn [foldl]. rewrite clean_step_skip by auto. by rewrite rev_involutive.
  - done.
  - apply Forall_cons in Hcs as [Hd _]. apply Hd.
Qed.

(** [Join] of what [Dir] gives with a name. *)
Lemma Join_names x n :
  Forall is_name x -> is_name n -> Join [if decide (x = []) then "." else pjoin x; n] = pjoin (x ++ [n]).
Proof.
  intros Hx Hn. set (d := if decide (x = []) then "." else pjoin x).
  assert (Hd : psplit d = (if decide (x = []) then ["."] else x)).
  { unfold d. case_decide; [done|by apply psplit_below]. }
  assert (Hne : d <> "") .
  { intros E. rewrite E in Hd. change (psplit "") with [""] in Hd. case_decide; [done|].
    subst x. apply Forall_cons in Hx as [Hx _]. by destruct Hx. }
  rewrite Join2 by done.
  assert (Hs : psplit (d +:+ "/" +:+ n) = (if decide (x = []) then ["."] else x) ++ [n]).
  { rewrite psplit_app_slash, Hd. f_equal. by apply split_on_no_char, Hn. }
  apply Clean_relative_names; [|by destruct x]. unfold cpath_of. rewrite Hs.
  destruct x as [|c x]; simpl in Hs.
  - rewrite (IsAbs_psplit _ "." [n]); [|exact Hs|done]. f_equal. unfold clean_comps. simpl.
    rewrite (clean_step_skip _ _ ".") by auto. by rewrite clean_step_name.
  - apply Forall_cons in Hx as [Hc Hx]. rewrite (IsAbs_psplit _ c (x ++ [n])); [|exact Hs|apply Hc].
    f_equal. rewrite decide_False by done. apply clean_comps_names.
    constructor; [done|]. apply Forall_app. by split; [|constructor].
Qed.

Lemma cpath_of_names x : x <> [] -> Forall is_name x -> cpath_of (pjoin x) = (false, x).
Proof.
  intros Hx Hn. unfold cpath_of. rewrite psplit_below by done.
  destruct x as [|c x]; [done|]. rewrite (IsAbs_psplit _ c x).
  - by rewrite clean_comps_names.
  - by apply psplit_below.
  - apply Forall_cons in Hn as [Hc _]. apply Hc.
Qed.

Lemma Clean_names x : x <> [] -> Forall is_name x -> Clean (pjoin x) = pjoin x.
Proof. intros Hx Hn. apply Clean_relative_names; [by apply cpath_of_names|done]. Qed.

Lemma names_snoc x n : Forall is_name x -> is_name n -> Forall is_name (x ++ [n]).
Proof. intros Hx Hn. apply Forall_app. by split; [|constructor]. Qed.
#[export] Hint Resolve names_snoc : go_path.

(** [Join] of a rooted path, clean or not, with names. *)
Lemma Join_abs_list s rest :
  IsAbs s = true -> rest <> [] -> Forall is_name rest ->
  abs_path (Join (s :: rest)) (snd (cpath_of s) ++ rest).
Proof.
  intros Ha Hne Hr.
  assert (Hs : s <> "") by (by intros ->).
  assert (HJ : Join (s :: rest) = Clean (s +:+ "/" +:+ pjoin rest)).
  { change (Join (s :: rest)) with (if decide (s = "") then Join rest else Clean (pjoin (s :: rest))).
    rewrite decide_False by done. by rewrite str_join_cons. }
  rewrite HJ.
  assert (E : cpath_of (s +:+ "/" +:+ pjoin rest) = (true, snd (cpath_of s) ++ rest)).
  { unfold cpath_of. rewrite (IsAbs_app s) by done. f_equal. rewrite psplit_app_slash, Ha.
    unfold clean_comps. rewrite foldl_app, psplit_below by done.
    rewrite foldl_clean_names by done. by rewrite rev_app_distr, rev_involutive. }
  pose proof (abs_path_Clean (s +:+ "/" +:+ pjoin rest)) as HC. rewrite E in HC. apply HC.
  by apply IsAbs_app.
Qed.

Lemma no_char_app c p n : no_char c (p +:+ n) = no_char c p && no_char c n.
Proof.
  unfold no_char. induction p as [|a p IH]; simpl; [done|].
  rewrite !negb_orb, IH. by rewrite andb_assoc.
Qed.

(** Three bytes and no slash make a name. *)
Lemma is_name_app p n :
  no_char slash p = true -> no_char slash n = true -> 3 <= String.length p -> is_name (p +:+ n).
Proof.
  intros Hp Hn Hl.
  assert (Hlen : 3 <= String.length (p +:+ n)) by (rewrite length_app_str; lia).
  unfold is_name. split_and!; [intros E; rewrite E in Hlen; simpl in Hlen; lia..|].
  by rewrite no_char_app, Hp, Hn.
Qed.
