(* ===== verification/Sha256.v ===== *)
(** * SHA-256 and hexadecimal, executable

    [crypto/sha256] and [encoding/hex] as the program uses them to name content: 32-bit words
    as integers with their wrap-around. The rest of the development never unfolds [Sum256];
    it is here so that digests of concrete inputs compute. *)

From S2P Require Import Prelude.
Local Open Scope Z_scope.

Definition w32 (z : Z) : Z := z mod 2 ^ 32.
Definition rotr (n x : Z) : Z := Z.lor (Z.shiftr x n) (w32 (Z.shiftl x (32 - n))).
Definition not32 (x : Z) : Z := Z.lxor x (2 ^ 32 - 1).

(** The constants are what the standard says they are: the first 32 bits of the fractional parts
    of the cube roots of the first 64 primes, and of the square roots of the first eight. *)
Definition primes_below (n : nat) : list Z :=
  Z.of_nat <$> List.filter (fun k => forallb (fun d => negb (k mod d =? 0)%nat) (seq 2 (k - 2))) (seq 2 (n - 2)).

(** The largest number of at most [bits] bits whose cube is at most [z]. *)
Fixpoint cube_root (bits : nat) (acc z : Z) : Z :=
  match bits with
  | O => acc
  | S b => let try := acc + 2 ^ Z.of_nat b in cube_root b (if try * try * try <=? z then try else acc) z
  end.

Definition round_constants : list Z :=
  Eval vm_compute in (fun p => cube_root 36 0 (p * 2 ^ 96) mod 2 ^ 32) <$> primes_below 312.

Definition initial_hash : list Z :=
  Eval vm_compute in (fun p => Z.sqrt (p * 2 ^ 64) mod 2 ^ 32) <$> firstn 8 (primes_below 312).

Example constants_shape :
  length round_constants = 64%nat /\ length initial_hash = 8%nat
  /\ head round_constants = Some 0x428a2f98 /\ head initial_hash = Some 0x6a09e667.
Proof. done. Qed.

Definition nthz (l : list Z) (i : nat) : Z := nth i l 0.

(** The message schedule, most recent word first. *)
Definition sched_step (rw : list Z) : list Z :=
  let w15 := nthz rw 14 in
  let w2 := nthz rw 1 in
  let s0 := Z.lxor (Z.lxor (rotr 7 w15) (rotr 18 w15)) (Z.shiftr w15 3) in
  let s1 := Z.lxor (Z.lxor (rotr 17 w2) (rotr 19 w2)) (Z.shiftr w2 10) in
  w32 (nthz rw 15 + s0 + nthz rw 6 + s1) :: rw.

Definition schedule (block : list Z) : list Z := rev (Nat.iter 48 sched_step (rev block)).

Definition round (st : list Z) (kw : Z * Z) : list Z :=
  match st with
  | [a; b; c; d; e; f; g; h] =>
      let s1 := Z.lxor (Z.lxor (rotr 6 e) (rotr 11 e)) (rotr 25 e) in
      let ch := Z.lxor (Z.land e f) (Z.land (not32 e) g) in
      let t1 := h + s1 + ch + fst kw + snd kw in
      let s0 := Z.lxor (Z.lxor (rotr 2 a) (rotr 13 a)) (rotr 22 a) in
      let maj := Z.lxor (Z.lxor (Z.land a b) (Z.land a c)) (Z.land b c) in
      [w32 (t1 + s0 + maj); a; b; c; w32 (d + t1); e; f; g]
  | _ => st
  end.

Definition compress (h : list Z) (block : list Z) : list Z :=
  let out := foldl round h (combine round_constants (schedule block)) in
  (fun xy => w32 (fst xy + snd xy)) <$> combine h out.

Fixpoint bytes_of (s : string) : list Z :=
  match s with
  | EmptyString => []
  | String c s' => Z.of_nat (nat_of_ascii c) :: bytes_of s'
  end.

Definition be_bytes (n : nat) (z : Z) : list Z :=
  (fun i => Z.land (Z.shiftr z (8 * Z.of_nat i)) 255) <$> rev (seq 0 n).

Definition pad (msg : list Z) : list Z :=
  let n := length msg in
  let k := (119 - n mod 64)%nat in
  msg ++ [128] ++ repeat 0 (k mod 64)%nat ++ be_bytes 8 (8 * Z.of_nat n).

Fixpoint words (fuel : nat) (l : list Z) : list Z :=
  match fuel, l with
  | S fuel', a :: b :: c :: d :: l' =>
      (Z.shiftl a 24 + Z.shiftl b 16 + Z.shiftl c 8 + d) :: words fuel' l'
  | _, _ => []
  end.

Fixpoint blocks (fuel : nat) (h ws : list Z) : list Z :=
  match fuel, ws with
  | S fuel', _ :: _ => blocks fuel' (compress h (firstn 16 ws)) (skipn 16 ws)
  | _, _ => h
  end.

(** The 32 digest bytes. *)
Definition Sum256 (s : string) : list Z :=
  let m := pad (bytes_of s) in
  let ws := words (length m) m in
  concat (be_bytes 4 <$> blocks (length ws) initial_hash ws).

Definition hex_digit (z : Z) : ascii :=
  ascii_of_nat (Z.to_nat (if decide (z < 10) then 48 + z else 87 + z)).

(** [hex.EncodeToString] *)
Fixpoint hex_encode (l : list Z) : string :=
  match l with
  | [] => ""
  | b :: l' => String (hex_digit (Z.shiftr b 4)) (String (hex_digit (Z.land b 15)) (hex_encode l'))
  end.

(** The digest string of the program: the algorithm, a colon, the hexadecimal digest. *)
Definition sha256_digest (s : string) : string := "sha256:" +:+ hex_encode (Sum256 s).

#[global] Arguments Sum256 : simpl never.
#[global] Arguments sha256_digest : simpl never.

Example sha256_abc :
  sha256_digest "abc" = "sha256:ba7816bf8f01cfea414140de5dae2223b00361a396177a9cb410ff61f20015ad".
Proof. vm_compute. reflexivity. Qed.

Example sha256_empty :
  sha256_digest "" = "sha256:e3b0c44298fc1c149afbf4c8996fb92427ae41e4649b934ca495991b7852b855".
Proof. vm_compute. reflexivity. Qed.

(** ** The shape of a digest *)

Definition is_hex (c : ascii) : bool :=
  let n := nat_of_ascii c in
  ((48 <=? n) && (n <=? 57) || (97 <=? n) && (n <=? 102))%nat.

Lemma hex_digit_range z : 0 <= z < 16 -> is_hex (hex_digit z) = true.
Proof.
  intros H. assert (Hz : z ∈ (Z.of_nat <$> seq 0 16)).
  { apply list_elem_of_fmap. exists (Z.to_nat z). split; [lia|]. apply elem_of_seq. lia. }
  revert z Hz H. apply (Forall_forall (fun z => 0 <= z < 16 -> is_hex (hex_digit z) = true)).
  repeat constructor.
Qed.

Lemma be_bytes_range n z : Forall (fun b => 0 <= b < 256) (be_bytes n z).
Proof.
  unfold be_bytes. apply Forall_fmap, Forall_true. intros i. simpl.
  change 255 with (Z.ones 8). rewrite Z.land_ones by lia. apply Z.mod_pos_bound. lia.
Qed.

Lemma length_be_bytes n z : length (be_bytes n z) = n.
Proof. unfold be_bytes. by rewrite length_fmap, length_rev, length_seq. Qed.

Lemma Sum256_range s : Forall (fun b => 0 <= b < 256) (Sum256 s).
Proof.
  unfold Sum256. apply Forall_concat, Forall_fmap, Forall_true. intros z. apply be_bytes_range.
Qed.

Lemma length_compress h b : length h = 8%nat -> length (compress h b) = 8%nat.
Proof.
  intros Hh. unfold compress. rewrite length_fmap, length_combine.
  assert (forall l st, length st = 8%nat -> length (foldl round st l) = 8%nat) as Hf.
  { induction l as [|x l IH]; intros st Hst; simpl; [done|]. apply IH.
    by destruct st as [|? [|? [|? [|? [|? [|? [|? [|? [|? ?]]]]]]]]]. }
  rewrite Hf by done. lia.
Qed.

Lemma length_Sum256 s : length (Sum256 s) = 32%nat.
Proof.
  unfold Sum256. set (ws := words _ _).
  assert (forall fuel h l, length h = 8%nat -> length (blocks fuel h l) = 8%nat) as Hb.
  { induction fuel as [|fuel IH]; intros h [|x l] Hh; simpl; try done. by apply IH, length_compress. }
  specialize (Hb (length ws) initial_hash ws eq_refl).
  destruct (blocks (length ws) initial_hash ws) as [|? [|? [|? [|? [|? [|? [|? [|? [|? ?]]]]]]]]];
    try done.
Qed.

Fixpoint str_all (P : ascii -> bool) (s : string) : bool :=
  match s with EmptyString => true | String c s' => P c && str_all P s' end.

Lemma hex_encode_hex l : Forall (fun b => 0 <= b < 256) l -> str_all is_hex (hex_encode l) = true.
Proof.
  induction 1 as [|b l Hb _ IH]; [done|]. cbn [hex_encode str_all].
  rewrite !hex_digit_range; [done| |].
  - change 15 with (Z.ones 4). rewrite Z.land_ones by lia. apply Z.mod_pos_bound. lia.
  - rewrite Z.shiftr_div_pow2 by lia. split; [apply Z.div_pos; lia|apply Z.div_lt_upper_bound; lia].
Qed.

Lemma length_hex_encode l : String.length (hex_encode l) = (2 * length l)%nat.
Proof. induction l; simpl; [done|]. rewrite IHl. lia. Qed.

Lemma hex_digit_inj a b : 0 <= a < 16 -> 0 <= b < 16 -> hex_digit a = hex_digit b -> a = b.
Proof.
  unfold hex_digit. intros Ha Hb E%(f_equal nat_of_ascii).
  destruct (decide (a < 10)), (decide (b < 10)); rewrite !nat_ascii_embedding in E by lia; lia.
Qed.

Lemma hex_encode_inj l1 l2 :
  Forall (fun b => 0 <= b < 256) l1 -> Forall (fun b => 0 <= b < 256) l2 ->
  hex_encode l1 = hex_encode l2 -> l1 = l2.
Proof.
  intros H1. revert l2. induction H1 as [|a l1 Ha _ IH]; intros l2 H2; destruct H2 as [|b l2 Hb H2]; try done.
  cbn [hex_encode]. intros E. injection E as E1 E2 E3. f_equal; [|by apply IH].
  assert (Hhi : forall z, 0 <= z < 256 -> 0 <= Z.shiftr z 4 < 16).
  { intros z Hz. rewrite Z.shiftr_div_pow2 by lia. split; [apply Z.div_pos; lia|apply Z.div_lt_upper_bound; lia]. }
  assert (Hlo : forall z, 0 <= Z.land z 15 < 16).
  { intros z. change 15 with (Z.ones 4). rewrite Z.land_ones by lia. apply Z.mod_pos_bound. lia. }
  apply hex_digit_inj in E1; [|by apply Hhi..]. apply hex_digit_inj in E2; [|by apply Hlo..].
  rewrite !Z.shiftr_div_pow2 in E1 by lia. change 15 with (Z.ones 4) in E2. rewrite !Z.land_ones in E2 by lia.
  rewrite (Z.div_mod a (2 ^ 4)), (Z.div_mod b (2 ^ 4)) by lia. congruence.
Qed.

(** A digest names its bytes, up to a collision of the hash. *)
Lemma sha256_digest_inj s1 s2 : sha256_digest s1 = sha256_digest s2 -> Sum256 s1 = Sum256 s2.
Proof.
  unfold sha256_digest. intros E. simpl in E. injection E as E.
  apply hex_encode_inj; [apply Sum256_range..|done].
Qed.

Lemma digest_hex s : str_all is_hex (hex_encode (Sum256 s)) = true.
Proof. apply hex_encode_hex, Sum256_range. Qed.

Lemma digest_length s : String.length (hex_encode (Sum256 s)) = 64%nat.
Proof. by rewrite length_hex_encode, length_Sum256. Qed.
