(* ===== verification/GoBase64.v ===== *)
(** * [encoding/base64]: the standard encoding of Go

    [EncodeToString] and [DecodeString] of [base64.StdEncoding]: padded, newlines skipped by the
    decoder, which reports the offset of the first illegal byte. *)

From Stdlib Require Import ZifyNat.
From S2P Require Import Prelude.

Definition alphabet : string := "ABCDEFGHIJKLMNOPQRSTUVWXYZabcdefghijklmnopqrstuvwxyz0123456789+/".

Definition b64_char (v : nat) : ascii := default "A"%char (String.get v alphabet).

Fixpoint index_of (c : ascii) (i : nat) (s : string) : option nat :=
  match s with
  | EmptyString => None
  | String a s' => if decide (a = c) then Some i else index_of c (S i) s'
  end.
Definition b64_value (c : ascii) : option nat := index_of c 0 alphabet.

Definition code (c : ascii) : nat := nat_of_ascii c.
Definition byte (n : nat) : ascii := ascii_of_nat (n mod 256).

(** ** Encoding: three bytes make four characters *)

Fixpoint EncodeToString (s : string) : string :=
  match s with
  | EmptyString => ""
  | String a EmptyString =>
      let a := code a in
      String (b64_char (a / 4)) (String (b64_char (a mod 4 * 16)) "==")
  | String a (String b EmptyString) =>
      let a := code a in let b := code b in
      String (b64_char (a / 4)) (String (b64_char (a mod 4 * 16 + b / 16)) (String (b64_char (b mod 16 * 4)) "="))
  | String a (String b (String c s')) =>
      let a := code a in let b := code b in let c := code c in
      String (b64_char (a / 4)) (String (b64_char (a mod 4 * 16 + b / 16))
        (String (b64_char (b mod 16 * 4 + c / 64)) (String (b64_char (c mod 64)) (EncodeToString s'))))
  end.

(** ** Decoding *)

Definition is_newline (c : ascii) : bool := bool_decide (c = "010"%char) || bool_decide (c = "013"%char).

(** Skip newlines; the offset moves along. *)
Fixpoint skip_newlines (s : string) (si : nat) : string * nat :=
  match s with
  | String c s' => if is_newline c then skip_newlines s' (S si) else (s, si)
  | EmptyString => (s, si)
  end.

Definition corrupt (offset : nat) : error := Errorf "illegal base64 data at input byte %d" [pretty offset].

Definition bytes2 (x y : nat) : string := String (byte (x * 4 + y / 16)) "".
Definition bytes3 (x y z : nat) : string := String (byte (x * 4 + y / 16)) (String (byte (y mod 16 * 16 + z / 4)) "").

(** [si] is the offset of [s] in the input, [q] the values of the quantum read so far. *)
Fixpoint decode (s : string) (si : nat) (q : list nat) : outcome string :=
  match s with
  | EmptyString => match q with [] => Ok "" | _ => Err (corrupt (si - length q)) end
  | String c s' =>
      match b64_value c with
      | Some v =>
          match q with
          | [x; y; z] =>
              rest ← decode s' (S si) [];
              Ok (String (byte (x * 4 + y / 16)) (String (byte (y mod 16 * 16 + z / 4))
                   (String (byte (z mod 4 * 64 + v)) rest)))
          | _ => decode s' (S si) (q ++ [v])
          end
      | None =>
          if is_newline c then decode s' (S si) q
          else if negb (bool_decide (c = "="%char)) then Err (corrupt si)
          else match q with
               | [x; y] =>
                   match skip_newlines s' (S si) with
                   | (EmptyString, si') => Err (corrupt si')
                   | (String c' s'', si') =>
                       if negb (bool_decide (c' = "="%char)) then Err (corrupt (si' - 1))
                       else match skip_newlines s'' (S si') with
                            | (EmptyString, _) => Ok (bytes2 x y)
                            | (_, si'') => Err (corrupt si'')
                            end
                   end
               | [x; y; z] =>
                   match skip_newlines s' (S si) with
                   | (EmptyString, _) => Ok (bytes3 x y z)
                   | (_, si') => Err (corrupt si')
                   end
               | _ => Err (corrupt si)
               end
      end
  end.

Definition DecodeString (s : string) : outcome string := decode s 0 [].

(** What [DecodeString] gives beside an error: what was decoded before it. *)
Fixpoint decoded_before (s : string) (q : list nat) : string :=
  match s with
  | EmptyString => ""
  | String c s' =>
      match b64_value c with
      | Some v =>
          match q with
          | [x; y; z] =>
              String (byte (x * 4 + y / 16)) (String (byte (y mod 16 * 16 + z / 4)) (String (byte (z mod 4 * 64 + v)) (decoded_before s' [])))
          | _ => decoded_before s' (q ++ [v])
          end
      | None =>
          if is_newline c then decoded_before s' q
          else if negb (bool_decide (c = "="%char)) then ""
          else match q with
               | [x; y] => match fst (skip_newlines s' 0) with
                           | String c' _ => if decide (c' = "="%char) then bytes2 x y else ""
                           | EmptyString => ""
                           end
               | [x; y; z] => bytes3 x y z
               | _ => ""
               end
      end
  end.
(** [s, _ := DecodeString(s)] *)
Definition decoded (s : string) : string := decoded_before s [].

Example decode_hello : DecodeString "aGVsbG8=" = Ok "hello" /\ EncodeToString "hello" = "aGVsbG8=".
Proof. done. Qed.
Example decode_errors :
  DecodeString "aGVsbG8" = Err (corrupt 4) /\ DecodeString "aG!s" = Err (corrupt 2) /\ DecodeString "aA==x" = Err (corrupt 4).
Proof. done. Qed.

(** ** The round trip *)

Lemma b64_value_char v : v < 64 -> b64_value (b64_char v) = Some v.
Proof.
  intros Hv. assert (H : forallb (fun v => bool_decide (b64_value (b64_char v) = Some v)) (seq 0 64) = true)
    by (vm_compute; reflexivity).
  rewrite forallb_forall in H. specialize (H v ltac:(apply in_seq; lia)). by apply bool_decide_eq_true in H.
Qed.

Lemma code_lt c : code c < 256.
Proof. apply nat_ascii_bounded. Qed.

Lemma byte_code n c : n = code c -> byte n = c.
Proof. intros ->. unfold byte. rewrite Nat.mod_small by apply code_lt. apply ascii_nat_embedding. Qed.

#[local] Ltac sextets :=
  repeat match goal with c : ascii |- _ =>
    lazymatch goal with _ : code c < 256 |- _ => fail | _ => pose proof (code_lt c) end end;
  zify; Z.to_euclidean_division_equations; lia.

#[local] Ltac b64_side := first [apply b64_value_char; sextets | cbn [length app]; lia].

Lemma decode_value c v s si q : b64_value c = Some v -> length q < 3 -> decode (String c s) si q = decode s (S si) (q ++ [v]).
Proof. intros Hc Hq. cbn [decode]. rewrite Hc. destruct q as [|? [|? [|? [|]]]]; simpl in *; try done; lia. Qed.

Lemma decode_pad2 si x y : decode "==" si [x; y] = Ok (bytes2 x y).
Proof. reflexivity. Qed.
Lemma decode_pad1 si x y z : decode "=" si [x; y; z] = Ok (bytes3 x y z).
Proof. reflexivity. Qed.

Lemma decode_encode s si : decode (EncodeToString s) si [] = Ok s.
Proof.
  remember (String.length s) as n eqn:Hn. revert s si Hn.
  induction (lt_wf n) as [n _ IH]. intros s si ->.
  destruct s as [|a [|b [|c s]]]; cbn [EncodeToString]; cbv zeta; [done|..].
  - rewrite (decode_value _ (code a / 4)) by b64_side.
    rewrite (decode_value _ (code a mod 4 * 16)) by b64_side.
    cbn [app]. rewrite decode_pad2. unfold bytes2. rewrite (byte_code _ a); [done|]. sextets.
  - rewrite (decode_value _ (code a / 4)) by b64_side.
    rewrite (decode_value _ (code a mod 4 * 16 + code b / 16)) by b64_side.
    rewrite (decode_value _ (code b mod 16 * 4)) by b64_side.
    cbn [app]. rewrite decode_pad1. unfold bytes3. rewrite (byte_code _ a), (byte_code _ b); [done|sextets..].
  - rewrite (decode_value _ (code a / 4)) by b64_side.
    rewrite (decode_value _ (code a mod 4 * 16 + code b / 16)) by b64_side.
    rewrite (decode_value _ (code b mod 16 * 4 + code c / 64)) by b64_side.
    cbn [app decode]. rewrite (b64_value_char (code c mod 64)) by sextets.
    rewrite (IH (String.length s)) by (reflexivity || cbn [String.length]; lia).
    cbv [mbind outcome_bind].
    rewrite (byte_code _ a), (byte_code _ b), (byte_code _ c); [done|sextets..].
Qed.

Lemma DecodeString_EncodeToString s : DecodeString (EncodeToString s) = Ok s.
Proof. apply decode_encode. Qed.

Lemma decode_no_panic s si q v : decode s si q <> Panic v.
Proof.
  revert si q. induction s as [|c s IH]; intros si q; cbn [decode]; [by destruct q|].
  unfold mbind, outcome_bind. repeat (case_match; try done); first [apply IH|congruence|idtac].
Qed.
Lemma DecodeString_no_panic s v : DecodeString s <> Panic v.
Proof. apply decode_no_panic. Qed.

Lemma skip_newlines_fst s si sj : fst (skip_newlines s si) = fst (skip_newlines s sj).
Proof. revert si sj. induction s as [|c s IH]; intros si sj; [done|]. simpl. destruct (is_newline c); [apply IH|done]. Qed.

Lemma decode_before s si q d : decode s si q = Ok d -> decoded_before s q = d.
Proof.
  revert si q d. induction s as [|c s IH]; intros si q d; cbn [decode decoded_before]; [by destruct q; [intros [= <-]|]|].
  destruct (b64_value c) as [v|].
  - destruct q as [|x [|y [|z [|u q]]]]; try apply IH. unfold mbind, outcome_bind.
    destruct (decode s (S si) []) as [r|e|p] eqn:E; [|done..]. intros [= <-]. by rewrite (IH _ _ _ E).
  - destruct (is_newline c); [apply IH|]. destruct (negb _); [done|].
    destruct q as [|x [|y [|z [|u q]]]]; try done.
    + rewrite (skip_newlines_fst s 0 (S si)). destruct (skip_newlines s (S si)) as [[|c' s'] si']; [done|]. simpl.
      destruct (bool_decide_reflect (c' = "="%char)) as [->|]; simpl; [|done]. rewrite ?decide_True by done.
      destruct (skip_newlines s' (S si')) as [[|? ?] ?]; [by intros [= <-]|done].
    + destruct (skip_newlines s (S si)) as [[|? ?] ?]; [by intros [= <-]|done].
Qed.
Lemma decoded_Ok s d : DecodeString s = Ok d -> decoded s = d.
Proof. apply decode_before. Qed.
Lemma decoded_EncodeToString s : decoded (EncodeToString s) = s.
Proof. apply decoded_Ok, DecodeString_EncodeToString. Qed.

Lemma EncodeToString_length s : String.length (EncodeToString s) = 4 * ((String.length s + 2) / 3).
Proof.
  remember (String.length s) as n eqn:Hn. revert s Hn. induction (lt_wf n) as [n _ IH]. intros s ->.
  destruct s as [|a [|b [|c s]]]; [done..|]. cbn [EncodeToString String.length].
  rewrite (IH (String.length s)) by (reflexivity || cbn [String.length]; lia).
  replace (S (S (S (String.length s))) + 2) with (String.length s + 2 + 1 * 3) by lia. rewrite Nat.div_add by lia. lia.
Qed.
