(* ===== verification/GoFlag.v ===== *)
(** * Flags of a command

    Go's [flag.FlagSet] as the commands use it, with what their flags read: [strconv.ParseInt] and
    [ParseUint] of any base, [strconv.ParseBool], [time.ParseDuration], and [Duration.String]. The usage text
    that [flag] prints with an error is left out. *)

From S2P Require Import Prelude GoPath.
From Stdlib Require Import SpecFloat.
Local Open Scope Z_scope.

(** ** Integers *)

Definition ErrSyntax : error := Errorf "invalid syntax" [].
Definition ErrRange : error := Errorf "value out of range" [].

Definition code (c : ascii) : Z := Z.of_nat (Ascii.nat_of_ascii c).
(** [c | ('x' - 'X')] *)
Definition lower (c : ascii) : Z := Z.lor (code c) 32.
Definition is_digit (c : ascii) : bool := bool_decide (48 <= code c <= 57).

(** The value of a digit or a letter. *)
Definition digit_of (c : ascii) : option Z :=
  if is_digit c then Some (code c - 48)
  else if decide (97 <= lower c <= 122) then Some (lower c - 97 + 10) else None.

Definition max_uint64 : Z := 2 ^ 64 - 1.

(** The loop of [ParseUint]; underscores are skipped when the base was inferred. *)
Fixpoint uint_digits (base : Z) (base0 : bool) (s : string) (n : Z) : outcome Z :=
  match s with
  | EmptyString => Ok n
  | String c s' =>
      if base0 && bool_decide (c = "_"%char) then uint_digits base base0 s' n
      else match digit_of c with
           | None => Err ErrSyntax
           | Some d =>
               if decide (d >= base) then Err ErrSyntax
               else if decide (n * base + d > max_uint64) then Err ErrRange
               else uint_digits base base0 s' (n * base + d)
           end
  end.

(** [underscoreOK]: [saw] is the last character's kind. *)
Fixpoint underscores_ok (hex : bool) (saw : ascii) (s : string) : bool :=
  match s with
  | EmptyString => negb (bool_decide (saw = "_"%char))
  | String c s' =>
      if is_digit c || (hex && bool_decide (97 <= lower c <= 102)) then underscores_ok hex "0" s'
      else if decide (c = "_"%char) then (if decide (saw = "0"%char) then underscores_ok hex "_" s' else false)
      else if decide (saw = "_"%char) then false
      else underscores_ok hex "!" s'
  end.
Definition base_prefix (c : ascii) : option Z :=
  if decide (lower c = 98) then Some 2 else if decide (lower c = 111) then Some 8 else if decide (lower c = 120) then Some 16 else None.
Definition underscoreOK (s : string) : bool :=
  let s := match s with String c s' => if decide (c = "-"%char \/ c = "+"%char) then s' else s | EmptyString => s end in
  match s with
  | String "0"%char (String c s') =>
      match base_prefix c with
      | Some b => underscores_ok (bool_decide (b = 16)) "0" s'
      | None => underscores_ok false "^" s
      end
  | _ => underscores_ok false "^" s
  end.

(** [strconv.ParseUint(s, 0, 64)] *)
Definition ParseUint (s : string) : outcome Z :=
  if decide (s = "") then Err ErrSyntax
  else
    let '(base, digits) :=
      match s with
      | String "0"%char (String c (String d s')) =>
          match base_prefix c with Some b => (b, String d s') | None => (8, String c (String d s')) end
      | String "0"%char s' => (8, s')
      | _ => (10, s)
      end in
    n ← uint_digits base true digits 0;
    if str_contains "_"%char digits && negb (underscoreOK s) then Err ErrSyntax else Ok n.

(** [strconv.ParseInt(s, 0, 64)] *)
Definition ParseInt (s : string) : outcome Z :=
  match s with
  | EmptyString => Err ErrSyntax
  | String c s' =>
      let neg := bool_decide (c = "-"%char) in
      un ← ParseUint (if neg || bool_decide (c = "+"%char) then s' else s);
      if decide (un > (if neg then 2 ^ 63 else 2 ^ 63 - 1)) then Err ErrRange
      else Ok (if neg then - un else un)
  end.

Definition ParseBool (s : string) : option bool :=
  if decide (s ∈ ["1"; "t"; "T"; "true"; "TRUE"; "True"]) then Some true
  else if decide (s ∈ ["0"; "f"; "F"; "false"; "FALSE"; "False"]) then Some false
  else None.

Example ParseInt_table :
  (ParseInt <$> ["0"; "-12"; "+7"; "0x1F"; "0b101"; "017"; "0o17"; "1_000"])
    = Ok <$> [0; -12; 7; 31; 5; 15; 15; 1000]
  /\ (ParseInt <$> ["9223372036854775807"; "-9223372036854775808"; "9223372036854775808"; "-9223372036854775809"; "99999999999999999999"])
    = [Ok (2 ^ 63 - 1); Ok (- 2 ^ 63); Err ErrRange; Err ErrRange; Err ErrRange]
  /\ (ParseInt <$> [""; "-"; "08"; "1__0"; "_1"; "1_"; "0x"; "12a"; "0_7"]) = [Err ErrSyntax; Err ErrSyntax; Err ErrSyntax; Err ErrSyntax;
      Err ErrSyntax; Err ErrSyntax; Err ErrSyntax; Err ErrSyntax; Ok 7].
Proof. vm_compute. done. Qed.

(** ** Durations *)

(** [float64], rounded to nearest even: of an integer, and truncated back to one. *)
Definition float64 (n : Z) : spec_float := binary_normalize 53 1024 n 0 false.
Definition fmul : spec_float -> spec_float -> spec_float := SFmul 53 1024.
Definition fdiv : spec_float -> spec_float -> spec_float := SFdiv 53 1024.
Definition float_trunc (x : spec_float) : Z :=
  match x with
  | S754_finite false m e => if decide (0 <= e) then Z.shiftl (Zpos m) e else Z.shiftr (Zpos m) (- e)
  | _ => 0
  end.

Definition Nanosecond : Z := 1.
Definition Microsecond : Z := 1000.
Definition Millisecond : Z := 1000000.
Definition Second : Z := 1000000000.
Definition Minute : Z := 60 * Second.
Definition Hour : Z := 60 * Minute.

Definition micro_sign : string := bytes [194; 181]%nat.
Definition greek_mu : string := bytes [206; 188]%nat.
Definition unitMap (u : string) : option Z :=
  if decide (u = "ns") then Some Nanosecond
  else if decide (u = "us" \/ u = micro_sign +:+ "s" \/ u = greek_mu +:+ "s") then Some Microsecond
  else if decide (u = "ms") then Some Millisecond
  else if decide (u = "s") then Some Second
  else if decide (u = "m") then Some Minute
  else if decide (u = "h") then Some Hour
  else None.

(** [leadingInt]: the value of the digits in front and what follows them; [None] past 2^63. *)
Fixpoint leadingInt (s : string) (x : Z) : option (Z * string) :=
  match s with
  | String c s' =>
      if is_digit c then
        if decide (x > 2 ^ 63 / 10) then None
        else let x := x * 10 + (code c - 48) in if decide (x > 2 ^ 63) then None else leadingInt s' x
      else Some (x, s)
  | EmptyString => Some (x, s)
  end.

(** [leadingFraction]: digits past the greatest value that fits are skipped. *)
Fixpoint leadingFraction (s : string) (x : Z) (scale : spec_float) (overflow : bool) : Z * spec_float * string :=
  match s with
  | String c s' =>
      if is_digit c then
        let y := x * 10 + (code c - 48) in
        if overflow || bool_decide (x > (2 ^ 63 - 1) / 10) || bool_decide (y > 2 ^ 63) then leadingFraction s' x scale true
        else leadingFraction s' y (fmul scale (float64 10)) false
      else (x, scale, s)
  | EmptyString => (x, scale, s)
  end.

Fixpoint leading_unit (s : string) : string * string :=
  match s with
  | String c s' =>
      if bool_decide (c = "."%char) || is_digit c then ("", s)
      else let '(u, rest) := leading_unit s' in (String c u, rest)
  | EmptyString => ("", "")
  end.

Definition invalid_duration (orig : string) : error := Errorf "time: invalid duration %q" [orig].

(** The loop over the numbers with their units, [d] so far; each turn takes a byte, so [length s] turns are enough. *)
Fixpoint duration_units (fuel : nat) (orig s : string) (d : Z) : outcome Z :=
  match s with
  | EmptyString => Ok d
  | String c _ =>
      match fuel with
      | O => Panic out_of_fuel
      | S fuel' =>
          if negb (bool_decide (c = "."%char) || is_digit c) then Err (invalid_duration orig)
          else
            match leadingInt s 0 with
            | None => Err (invalid_duration orig)
            | Some (v, s1) =>
                let pre := negb (bool_decide (String.length s = String.length s1)) in
                let '(f, scale, s2, post) :=
                  match s1 with
                  | String "."%char s' =>
                      let '(f, scale, s2) := leadingFraction s' 0 (float64 1) false in
                      (f, scale, s2, negb (bool_decide (String.length s' = String.length s2)))
                  | _ => (0, float64 1, s1, false)
                  end in
                if negb pre && negb post then Err (invalid_duration orig)
                else
                  let '(u, s3) := leading_unit s2 in
                  if decide (u = "") then Err (Errorf "time: missing unit in duration %q" [orig])
                  else
                    match unitMap u with
                    | None => Err (Errorf "time: unknown unit %q in duration %q" [u; orig])
                    | Some unit =>
                        if decide (v > 2 ^ 63 / unit) then Err (invalid_duration orig)
                        else
                          let v := v * unit in
                          let v := if decide (f > 0) then v + float_trunc (fmul (float64 f) (fdiv (float64 unit) scale)) else v in
                          if decide (v > 2 ^ 63) then Err (invalid_duration orig)
                          else
                            let d := d + v in
                            if decide (d > 2 ^ 63) then Err (invalid_duration orig) else duration_units fuel' orig s3 d
                    end
            end
      end
  end.

Definition ParseDuration (s : string) : outcome Z :=
  let '(neg, s1) := match s with
                    | String c s' => if decide (c = "-"%char \/ c = "+"%char) then (bool_decide (c = "-"%char), s') else (false, s)
                    | EmptyString => (false, s)
                    end in
  if decide (s1 = "0") then Ok 0
  else if decide (s1 = "") then Err (invalid_duration s)
  else
    d ← duration_units (String.length s1) s s1 0;
    if (neg : bool) then Ok (- d) else if decide (d > 2 ^ 63 - 1) then Err (invalid_duration s) else Ok d.

Example ParseDuration_table :
  (ParseDuration <$> ["0"; "60s"; "10m"; "1h30m"; "1.5s"; ".5s"; "1.000000001s"; "-2ms"; "300us"; "0.1s"; "9223372036854775807ns"; "2562047h47m16.854775807s"])
  = Ok <$> [0; 60 * Second; 10 * Minute; 90 * Minute; 1500 * Millisecond; 500 * Millisecond; Second + 1; -2 * Millisecond;
            300 * Microsecond; 100 * Millisecond; 2 ^ 63 - 1; 2 ^ 63 - 1]
  /\ Forall (fun s => is_Ok (ParseDuration s) = false) [""; "3"; "-"; "s"; "."; "-.s"; "1d"; "9223372036854775808ns"; "3000000h"; "1s "].
Proof. split; [vm_compute; reflexivity|]. repeat constructor; vm_compute; reflexivity. Qed.

(** [fmtFrac]: the last [prec] digits of [v] without trailing zeros, after a point, before [buf]; and the rest of [v]. *)
Definition digit_char (d : Z) : ascii := Ascii.ascii_of_nat (Z.to_nat (48 + d)).
Fixpoint fmtFrac (prec : nat) (v : Z) (print : bool) (buf : string) : string * Z :=
  match prec with
  | O => ((if print then String "." buf else buf), v)
  | S prec' =>
      let digit := v mod 10 in
      let print := print || negb (bool_decide (digit = 0)) in
      fmtFrac prec' (v / 10) print (if print then String (digit_char digit) buf else buf)
  end.

(** [Duration.String] *)
Definition duration_String (d : Z) : string :=
  let u := if decide (d < 0) then - d else d in
  let text :=
    if decide (u < Second) then
      if decide (u = 0) then "0s"
      else
        let '(prec, unit) := if decide (u < Microsecond) then (0%nat, "ns") else if decide (u < Millisecond) then (3%nat, micro_sign +:+ "s") else (6%nat, "ms") in
        let '(buf, v) := fmtFrac prec u false unit in
        pretty v +:+ buf
    else
      let '(buf, v) := fmtFrac 9 u false "s" in
      let secs := pretty (v mod 60) +:+ buf in
      let mins := v / 60 in
      if decide (mins > 0) then
        let hours := mins / 60 in
        (if decide (hours > 0) then pretty hours +:+ "h" else "") +:+ pretty (mins mod 60) +:+ "m" +:+ secs
      else secs in
  if decide (d < 0) then "-" +:+ text else text.

Example duration_String_table :
  (duration_String <$> [0; 1; 1100; 2200000; 3300000000; 4 * Minute + 5 * Second; 5 * Hour + 6 * Minute + 7 * Second + Millisecond; - Second])
  = ["0s"; "1ns"; "1.1" +:+ micro_sign +:+ "s"; "2.2ms"; "3.3s"; "4m5s"; "5h6m7.001s"; "-1s"].
Proof. vm_compute. reflexivity. Qed.

(** ** Flag sets *)

(** The value behind a flag: [fs.String], [Int], [Int64], [Uint], [Bool], [Duration], and a list of strings for [fs.Var] of a
    value that appends. *)
Inductive flag_value :=
| FString (s : string) | FInt (n : Z) | FInt64 (n : Z) | FUint (n : Z) | FBool (b : bool) | FDuration (d : Z) | FStrings (l : list string).

Definition is_bool_flag (v : flag_value) : bool := match v with FBool _ => true | _ => false end.

(** [flag.Value.Set], the errors those of [flag]'s own values. *)
Definition errParse : error := Errorf "parse error" [].
Definition numError (o : outcome Z) : outcome Z :=
  match o with Err err => if decide (err = ErrSyntax) then Err errParse else Err err | _ => o end.
Definition flag_Set (v : flag_value) (s : string) : outcome flag_value :=
  match v with
  | FString _ => Ok (FString s)
  | FInt _ => n ← numError (ParseInt s); Ok (FInt n)
  | FInt64 _ => n ← numError (ParseInt s); Ok (FInt64 n)
  | FUint _ => n ← numError (ParseUint s); Ok (FUint n)
  | FBool _ => match ParseBool s with Some b => Ok (FBool b) | None => Err errParse end
  | FDuration _ => match ParseDuration s with Ok d => Ok (FDuration d) | Err _ => Err errParse | Panic v => Panic v end
  | FStrings l => Ok (FStrings (l ++ [s]))
  end.

(** [FlagSet.formal], with the values. *)
Abbreviation FlagSet := (gmap string flag_value).

(** How [parseOne] reads an argument: the flags are over, the flags are over after "--", or a flag with its value, if it has one. *)
Inductive argument := NoFlag | Terminator | Malformed | Flag (name : string) (value : option string).
Definition read_argument (s : string) : argument :=
  match s with
  | String "-"%char (String c s') =>
      if decide (String c s' = "-") then Terminator
      else
        let name := if decide (c = "-"%char) then s' else String c s' in
        match name with
        | EmptyString => Malformed
        | String a rest =>
            if decide (a = "-"%char \/ a = "="%char) then Malformed
            else match Cut "="%char name with
                 | Some (name, value) => Flag name (Some value)
                 | None => Flag name None
                 end
        end
  | _ => NoFlag
  end.

(** [fs.Parse] of a set that exits on an error: the values and the arguments left, the help asked for, or an error. *)
Inductive parse_result := Parsed (fs : FlagSet) (args : list string) | Help | Bad (err : error).

Fixpoint parse_flags (fs : FlagSet) (args : list string) : parse_result :=
  match args with
  | [] => Parsed fs []
  | s :: rest =>
      match read_argument s with
      | NoFlag => Parsed fs args
      | Terminator => Parsed fs rest
      | Malformed => Bad (Errorf "bad flag syntax: %s" [s])
      | Flag name value =>
          match fs !! name with
          | None => if decide (name = "help" \/ name = "h") then Help else Bad (Errorf "flag provided but not defined: -%s" [name])
          | Some v =>
              let set value k :=
                match flag_Set v value with
                | Ok v' => k (<[name := v']> fs)
                | Err err => Bad (if is_bool_flag v then Wrapf "invalid boolean value %q for -%s: %w" [value; name] err
                                  else Wrapf "invalid value %q for flag -%s: %w" [value; name] err)
                | Panic p => Bad (Errorf "panic: %s" [p])
                end in
              if is_bool_flag v then set (match value with Some value => value | None => "true" end) (fun fs => parse_flags fs rest)
              else match value, rest with
                   | Some value, _ => set value (fun fs => parse_flags fs rest)
                   | None, value :: rest' => set value (fun fs => parse_flags fs rest')
                   | None, [] => Bad (Errorf "flag needs an argument: -%s" [name])
                   end
          end
      end
  end.

(** ** What the program writes, it reads back *)

Lemma digit_cases (d : N) : (d < 10)%N -> d ∈ [0; 1; 2; 3; 4; 5; 6; 7; 8; 9]%N.
Proof. intros. rewrite !elem_of_cons. lia. Qed.
(** One goal for each member of a literal list. *)
#[local] Ltac each_of H :=
  rewrite ?elem_of_cons in H; repeat (destruct H as [->|H]); [..|by apply not_elem_of_nil in H].

Lemma pretty_N_go_app x s t : pretty_N_go x (s +:+ t) = pretty_N_go x s +:+ t.
Proof.
  revert s. induction (N.lt_wf_0 x) as [x _ IH]; intros s. destruct (decide (x = 0)%N) as [->|Hx]; [done|].
  rewrite !(pretty_N_go_step x) by lia. rewrite <- IH by (apply N.div_lt; lia). done.
Qed.

Lemma digit_of_char d : (d < 10)%N -> digit_of (pretty_N_char d) = Some (Z.of_N d) /\ is_digit (pretty_N_char d) = true
  /\ code (pretty_N_char d) - 48 = Z.of_N d /\ pretty_N_char d <> "_"%char.
Proof. intros Hd%digit_cases. each_of Hd; by vm_compute. Qed.

(** A decimal number: its digits, the first of them not 0. *)
Lemma pretty_N_go_digits x s : str_forall is_digit s = true -> str_forall is_digit (pretty_N_go x s) = true.
Proof.
  revert s. induction (N.lt_wf_0 x) as [x _ IH]; intros s Hs. destruct (decide (x = 0)%N) as [->|Hx]; [done|].
  rewrite pretty_N_go_step by lia. apply IH; [apply N.div_lt; lia|]. simpl. rewrite Hs, andb_true_r.
  by apply digit_of_char, N.mod_lt.
Qed.

Lemma pretty_N_go_head x s : (0 < x)%N ->
  exists c s', pretty_N_go x s = String c s' /\ c ∈ ["1"; "2"; "3"; "4"; "5"; "6"; "7"; "8"; "9"]%char.
Proof.
  revert s. induction (N.lt_wf_0 x) as [x _ IH]; intros s Hx. rewrite pretty_N_go_step by done.
  destruct (decide (x < 10)%N) as [Hl|Hl].
  - rewrite N.div_small, pretty_N_go_0, N.mod_small by done. exists (pretty_N_char x), s. split; [done|].
    pose proof (digit_cases x Hl) as Hin. each_of Hin; [done|by_decision..].
  - apply IH; [apply N.div_lt; lia|apply N.div_str_pos; lia].
Qed.

Lemma last_digit x : exists q m, (x `div` 10 = q /\ x `mod` 10 = m /\ x = 10 * q + m /\ m < 10)%N.
Proof. exists (x `div` 10)%N, (x `mod` 10)%N. split_and!; [done|done|apply N.div_mod'|by apply N.mod_lt]. Qed.

Lemma uint_digits_pretty x s :
  (Z.of_N x <= max_uint64) -> uint_digits 10 true (pretty_N_go x s) 0 = uint_digits 10 true s (Z.of_N x).
Proof.
  revert s. induction (N.lt_wf_0 x) as [x _ IH]; intros s Hx. destruct (decide (x = 0)%N) as [->|Hn]; [done|].
  destruct (last_digit x) as (q & m & Eq & Em & HD & Hm). rewrite pretty_N_go_step, Eq, Em, IH by lia.
  destruct (digit_of_char _ Hm) as (E1 & _ & _ & E2). cbn [uint_digits]. rewrite bool_decide_false by done. cbn [andb].
  rewrite E1. rewrite decide_False by lia. rewrite decide_False by lia. f_equal. lia.
Qed.

Lemma leadingInt_pretty x s :
  (Z.of_N x <= 2 ^ 63) -> leadingInt (pretty_N_go x s) 0 = leadingInt s (Z.of_N x).
Proof.
  revert s. induction (N.lt_wf_0 x) as [x _ IH]; intros s Hx. destruct (decide (x = 0)%N) as [->|Hn]; [done|].
  destruct (last_digit x) as (q & m & Eq & Em & HD & Hm). rewrite pretty_N_go_step, Eq, Em, IH by lia.
  destruct (digit_of_char _ Hm) as (_ & E1 & E2 & _). cbn [leadingInt]. rewrite E1, E2.
  rewrite decide_False by (change (2 ^ 63 / 10) with 922337203685477580; lia).
  rewrite decide_False by lia. f_equal. lia.
Qed.

Lemma no_underscore s : str_forall is_digit s = true -> str_contains "_"%char s = false.
Proof.
  induction s as [|c s IH]; [done|]. simpl. intros [Hc Hs]%andb_prop. rewrite IH by done.
  rewrite orb_false_r. apply bool_decide_false. intros ->. done.
Qed.

Lemma ParseUint_pretty x : (Z.of_N x <= max_uint64) -> ParseUint (pretty x) = Ok (Z.of_N x).
Proof.
  intros Hx. unfold pretty, pretty_N. case_decide as H0; [by subst; vm_compute|].
  pose proof (pretty_N_go_digits x "" eq_refl) as HD. apply no_underscore in HD.
  pose proof (uint_digits_pretty x "" Hx) as HU.
  destruct (pretty_N_go_head x "" ltac:(lia)) as (c & s' & E & Hc). rewrite E in *. unfold ParseUint. rewrite decide_False by done.
  assert (HM : match String c s' return Z * string with
     | String "0"%char (String c (String d s')) =>
          match base_prefix c with Some b => (b, String d s') | None => (8, String c (String d s')) end
     | String "0"%char s' => (8, s')
     | _ => (10, String c s')
     end = (10, String c s')).
  { by each_of Hc. }
  rewrite HM. unfold mbind, outcome_bind. rewrite HU, HD. done.
Qed.

(** The head of a number is a digit, so neither a sign nor a dash. *)
Lemma pretty_N_head (x : N) : exists c s, pretty x = String c s /\ is_digit c = true /\ c <> "-"%char /\ c <> "+"%char.
Proof.
  unfold pretty, pretty_N. case_decide; [by eexists _, _|]. destruct (pretty_N_go_head x "" ltac:(lia)) as (c & s & E & Hc).
  exists c, s. split; [done|]. by each_of Hc.
Qed.

Lemma ParseInt_pretty z : in_int64 z -> ParseInt (pretty z) = Ok z.
Proof.
  unfold in_int64, int64_min, int64_max. intros Hz.
  assert (HU : forall p, Zpos p <= 2 ^ 63 -> ParseUint (pretty (Npos p)) = Ok (Zpos p))
    by (intros p Hp; apply (ParseUint_pretty (Npos p)); unfold max_uint64; lia).
  destruct z as [|p|p]; [by vm_compute| |].
  - change (pretty (Zpos p)) with (pretty (Npos p)). destruct (pretty_N_head (Npos p)) as (c & s & E & _ & H1 & H2).
    specialize (HU p ltac:(lia)). rewrite E in *. unfold ParseInt. rewrite (bool_decide_false (c = "-"%char)), (bool_decide_false (c = "+"%char)) by done.
    unfold mbind, outcome_bind. cbn [orb]. rewrite HU. by rewrite decide_False by lia.
  - change (pretty (Zneg p)) with (String "-" (pretty (Npos p))). specialize (HU p ltac:(lia)). unfold ParseInt.
    change (bool_decide ("-"%char = "-"%char)) with true. unfold mbind, outcome_bind. cbn [orb]. rewrite HU.
    by rewrite decide_False by lia.
Qed.

Lemma is_digit_not_unit c s : is_digit c = true -> String c s <> "ns".
Proof. intros Hc [= -> _]. done. Qed.

(** A number of nanoseconds. *)
Lemma duration_units_ns orig (x : N) fuel : (Z.of_N x <= 2 ^ 63) -> (2 <= fuel)%nat ->
  duration_units fuel orig (pretty x +:+ "ns") 0 = Ok (Z.of_N x).
Proof.
  intros Hx Hf. assert (HL : leadingInt (pretty x +:+ "ns") 0 = Some (Z.of_N x, "ns") /\ String.length (pretty x +:+ "ns") <> 2%nat).
  { destruct (pretty_N_head x) as (c & s & E & _). split.
    - unfold pretty, pretty_N in *. case_decide; [by subst|].
      rewrite <- (pretty_N_go_app x "" "ns"). by rewrite leadingInt_pretty by done.
    - rewrite E, length_app_str. simpl. lia. }
  destruct HL as [HL Hn]. destruct (pretty_N_head x) as (c & s & E & Hc & _). destruct fuel as [|[|fuel]]; [lia..|].
  rewrite E in *. cbn [String.append] in *. cbn [duration_units]. rewrite Hc, orb_true_r. cbn [negb].
  rewrite HL. cbv beta iota zeta. rewrite (bool_decide_false (_ = String.length "ns")) by done.
  change (leading_unit "ns") with ("ns", ""). cbn [negb andb]. rewrite (decide_False (P := "ns" = "")) by done.
  change (unitMap "ns") with (Some 1). cbv beta iota zeta. rewrite Z.div_1_r, Z.mul_1_r.
  rewrite (decide_False (P := 0 > 0)) by lia. by rewrite !decide_False by lia.
Qed.

Lemma ParseDuration_ns d : in_int64 d -> ParseDuration (pretty d +:+ "ns") = Ok d.
Proof.
  unfold in_int64, int64_min, int64_max. intros Hd.
  assert (Hgo : forall (x : N) orig, Z.of_N x <= 2 ^ 63 ->
    pretty x +:+ "ns" <> "0" /\ pretty x +:+ "ns" <> ""
    /\ duration_units (String.length (pretty x +:+ "ns")) orig (pretty x +:+ "ns") 0 = Ok (Z.of_N x)).
  { intros x orig Hx. destruct (pretty_N_head x) as (c & s & E & _). split_and!.
    - rewrite E. by destruct s.
    - by rewrite E.
    - apply duration_units_ns; [done|]. rewrite length_app_str. simpl. lia. }
  destruct d as [|p|p]; [by vm_compute| |].
  - change (pretty (Zpos p)) with (pretty (Npos p)). destruct (Hgo (Npos p) (pretty (Npos p) +:+ "ns") ltac:(lia)) as (H1 & H2 & H3).
    destruct (pretty_N_head (Npos p)) as (c & s & E & _ & Hm & Hp). unfold ParseDuration. rewrite E in *. cbn [String.append] in *.
    rewrite decide_False by naive_solver. rewrite !decide_False by done. unfold mbind, outcome_bind. rewrite H3. by rewrite decide_False by (simpl; lia).
  - change (pretty (Zneg p) +:+ "ns") with (String "-" (pretty (Npos p) +:+ "ns")).
    destruct (Hgo (Npos p) (String "-" (pretty (Npos p) +:+ "ns")) ltac:(lia)) as (H1 & H2 & H3). unfold ParseDuration.
    rewrite decide_True by auto. rewrite bool_decide_true by done. rewrite !decide_False by done. unfold mbind, outcome_bind. by rewrite H3.
Qed.

(** How a flag is given its value on a command line: one argument, and one for each string of a list. *)
Definition flag_texts (v : flag_value) : list string :=
  match v with
  | FString s => [s]
  | FInt n | FInt64 n | FUint n => [pretty n]
  | FBool b => [if b then "true" else "false"]
  | FDuration d => [pretty d +:+ "ns"]
  | FStrings l => l
  end.
Definition render_flag (f : string * flag_value) : list string := (fun t => "--" +:+ f.1 +:+ "=" +:+ t) <$> flag_texts f.2.

(** [v] can take the place of [v0], a flag's first value: the same kind, nothing appended yet, and within its range. *)
Definition settable (v0 v : flag_value) : Prop :=
  match v0, v with
  | FString _, FString _ | FBool _, FBool _ => True
  | FInt _, FInt n | FInt64 _, FInt64 n | FDuration _, FDuration n => in_int64 n
  | FUint _, FUint n => 0 <= n <= max_uint64
  | FStrings l0, FStrings _ => l0 = []
  | _, _ => False
  end.
Definition flag_name (name : string) : Prop :=
  no_char "="%char name = true /\ match name with String c _ => c <> "-"%char | EmptyString => False end.

Lemma Cut_at c a b : no_char c a = true -> Cut c (a +:+ String c b) = Some (a, b).
Proof.
  induction a as [|x a IH]; simpl.
  - by rewrite decide_True.
  - unfold no_char. simpl. intros [Hx Ha]%negb_true_iff%orb_false_iff. apply bool_decide_eq_false in Hx.
    rewrite decide_False by done. rewrite IH; [done|]. unfold no_char. by rewrite Ha.
Qed.

Lemma read_render name t : flag_name name -> read_argument ("--" +:+ name +:+ "=" +:+ t) = Flag name (Some t).
Proof.
  intros [Hn Hc]. destruct name as [|c name]; [done|].
  assert (Hq : c <> "="%char). { intros ->. done. }
  unfold read_argument. cbn [String.append]. rewrite decide_False by done. rewrite decide_True by done. cbv beta iota zeta.
  rewrite decide_False by naive_solver. change (String c (name +:+ String "=" t)) with (String c name +:+ String "=" t).
  by rewrite (Cut_at _ _ _ Hn).
Qed.

Lemma flag_Set_text v0 v t : settable v0 v -> flag_texts v = [t] -> (forall l, v <> FStrings l) -> flag_Set v0 t = Ok v.
Proof.
  destruct v0, v; simpl; try done; intros Hs [= <-] Hl; unfold mbind, outcome_bind, numError.
  - done.
  - by rewrite (ParseInt_pretty _ Hs).
  - by rewrite (ParseInt_pretty _ Hs).
  - assert (E : pretty n0 = pretty (Z.to_N n0)) by (by destruct n0 as [|p|p]; [| |lia]).
    rewrite E, ParseUint_pretty by lia. by rewrite Z2N.id by lia.
  - by destruct b0.
  - by rewrite (ParseDuration_ns _ Hs).
  - by destruct (Hl _ eq_refl).
Qed.

(** Setting a flag that is not a list: one argument. *)
Lemma parse_one fs name v0 v t rest :
  flag_name name -> fs !! name = Some v0 -> flag_Set v0 t = Ok v ->
  parse_flags fs (("--" +:+ name +:+ "=" +:+ t) :: rest) = parse_flags (<[name := v]> fs) rest.
Proof. intros Hn E1 E2. cbn [parse_flags]. rewrite (read_render _ _ Hn), E1. rewrite E2. by destruct (is_bool_flag v0). Qed.

Lemma parse_list fs name l0 l rest :
  flag_name name -> fs !! name = Some (FStrings l0) ->
  parse_flags fs (((fun t => "--" +:+ name +:+ "=" +:+ t) <$> l) ++ rest) = parse_flags (<[name := FStrings (l0 ++ l)]> fs) rest.
Proof.
  intros Hn. revert fs l0. induction l as [|t l IH]; intros fs l0 E.
  - rewrite app_nil_r. by rewrite insert_id.
  - rewrite fmap_cons. cbn [app]. rewrite (parse_one fs name (FStrings l0) (FStrings (l0 ++ [t]))) by done.
    rewrite (IH _ (l0 ++ [t])) by apply lookup_insert_eq. by rewrite <- app_assoc, insert_insert_eq.
Qed.

Lemma parse_render fs name v0 v rest :
  flag_name name -> fs !! name = Some v0 -> settable v0 v ->
  parse_flags fs (render_flag (name, v) ++ rest) = parse_flags (<[name := v]> fs) rest.
Proof.
  intros Hn E Hs. assert (HT : (exists l, v = FStrings l) \/ (forall l, v <> FStrings l) /\ exists t, flag_texts v = [t])
    by (destruct v; simpl; eauto).
  destruct HT as [[l ->]|(Hl & t & Ht)]; [destruct v0; try done; simpl in Hs; subst; by apply (parse_list fs name [])|].
  unfold render_flag. cbn [fst snd]. rewrite Ht. cbn [fmap list_fmap app]. eapply parse_one; [done|done|].
  by apply flag_Set_text.
Qed.

(** Any settings, each of a flag the set has, written one after the other, are what the parse leaves in the set. *)
Lemma parse_render_all l fs rest :
  Forall (fun f => flag_name f.1) l -> NoDup l.*1 ->
  Forall (fun f => exists v0, fs !! f.1 = Some v0 /\ settable v0 f.2) l ->
  parse_flags fs (mjoin (render_flag <$> l) ++ rest) = parse_flags (list_to_map l ∪ fs) rest.
Proof.
  revert fs. induction l as [|[name v] l IH]; intros fs HN HD HS; [simpl; by rewrite (left_id_L ∅ (∪))|].
  apply Forall_cons in HN as [Hn HN], HS as [(v0 & E & Hs) HS]. apply NoDup_cons in HD as [Hni HD]. simpl in *.
  rewrite <- app_assoc, (parse_render fs name v0) by done. rewrite IH; [|done..|].
  - f_equal. rewrite <- insert_union_r; [|by apply not_elem_of_list_to_map_1]. by rewrite insert_union_l.
  - rewrite Forall_forall in HS |- *. intros f Hf. destruct (HS f Hf) as (w & Ew & Hw). exists w. split; [|done].
    rewrite lookup_insert_ne; [done|]. intros ->. apply Hni, list_elem_of_fmap. by exists f.
Qed.

(** An argument that is no flag ends them: it and all that follows are left as they are. *)
Lemma parse_rest fs s rest : read_argument s = NoFlag -> parse_flags fs (s :: rest) = Parsed fs (s :: rest).
Proof. intros E. cbn [parse_flags]. by rewrite E. Qed.

(** ** Reading a flag always ends with a value or an error *)

Lemma leadingInt_shorter s x v s' : leadingInt s x = Some (v, s') -> (String.length s' <= String.length s)%nat.
Proof.
  revert x. induction s as [|c s IH]; intros x; cbn [leadingInt]; [by intros [= _ <-]|].
  destruct (is_digit c); [|by intros [= _ <-]]. do 2 (case_decide; [done|]). intros E%IH. simpl. lia.
Qed.
Lemma leadingFraction_shorter s x scale o : (String.length (snd (leadingFraction s x scale o)) <= String.length s)%nat.
Proof.
  revert x scale o. induction s as [|c s IH]; intros x scale o; cbn [leadingFraction]; [done|].
  destruct (is_digit c); [|done]. cbv zeta. cbn [String.length]. destruct (_ || _ || _); etrans; [apply IH|lia|apply IH|lia].
Qed.
Lemma leading_unit_shorter s : (String.length (fst (leading_unit s)) + String.length (snd (leading_unit s)) = String.length s)%nat.
Proof.
  induction s as [|c s IH]; cbn [leading_unit]; [done|]. destruct (_ || _); [done|]. destruct (leading_unit s) as [u rest]. simpl in *. lia.
Qed.

Lemma duration_units_no_panic fuel orig s d v : (String.length s <= fuel)%nat -> duration_units fuel orig s d <> Panic v.
Proof.
  revert s d. induction fuel as [|fuel IH]; intros s d Hf; (destruct s as [|c s]; [done|]); [simpl in Hf; lia|].
  cbn [duration_units]. destruct (negb _); [done|]. destruct (leadingInt (String c s) 0) as [[x s1]|] eqn:E1; [|done].
  apply leadingInt_shorter in E1.
  match goal with |- (let (_, _) := ?m in _) <> _ => set (frac := m) end.
  assert (Hfr : (String.length (snd (fst frac)) <= String.length s1)%nat).
  { subst frac. destruct s1 as [|c1 s1]; [done|]. pose proof (leadingFraction_shorter s1 0 (float64 1) false) as HF.
    destruct c1 as [[] [] [] [] [] [] [] []]; try done. destruct (leadingFraction s1 0 (float64 1) false) as [[f sc] s2]. simpl in *. lia. }
  destruct frac as [[[f scale] s2] post]. cbn [fst snd] in Hfr. destruct (_ && _); [done|].
  pose proof (leading_unit_shorter s2) as HU. destruct (leading_unit s2) as [u s3]. cbn [fst snd] in HU.
  case_decide as Hu; [done|]. destruct (unitMap u) as [unit|]; [|done]. case_decide; [done|]. cbv zeta.
  assert (String.length u <> 0%nat) by (by destruct u).
  set (x' := if decide (f > 0) then _ else _). do 2 (case_decide; [done|]). apply IH. lia.
Qed.

Lemma ParseDuration_no_panic s v : ParseDuration s <> Panic v.
Proof.
  unfold ParseDuration. match goal with |- (let (_, _) := ?m in _) <> _ => destruct m as [neg s1] end.
  do 2 (case_decide; [done|]). unfold mbind, outcome_bind. pose proof (duration_units_no_panic (String.length s1) s s1 0) as HN.
  destruct (duration_units _ _ _ _) as [d|e|p]; [|done|by destruct (HN p)]. destruct (neg : bool); [done|]. by case_decide.
Qed.

Lemma uint_digits_no_panic base b s n v : uint_digits base b s n <> Panic v.
Proof. revert n. induction s as [|c s IH]; intros n; cbn [uint_digits]; [done|]. repeat case_match; try done; apply IH. Qed.
Lemma ParseUint_no_panic s v : ParseUint s <> Panic v.
Proof.
  unfold ParseUint. case_decide; [done|]. match goal with |- (let (_, _) := ?m in _) <> _ => destruct m as [base digits] end.
  unfold mbind, outcome_bind. pose proof (uint_digits_no_panic base true digits 0) as HN. destruct (uint_digits _ _ _ _) as [n|e|p]; [|done|by destruct (HN p)].
  by destruct (_ && _).
Qed.
Lemma ParseInt_no_panic s v : ParseInt s <> Panic v.
Proof.
  destruct s as [|c s]; [done|]. unfold ParseInt, mbind, outcome_bind. cbv zeta.
  match goal with |- context [ParseUint ?x] => pose proof (ParseUint_no_panic x) as HN; destruct (ParseUint x) as [n|e|p]; [|done|by destruct (HN p)] end.
  by case_decide.
Qed.

Lemma flag_Set_no_panic f s v : flag_Set f s <> Panic v.
Proof.
  pose proof (ParseInt_no_panic s) as HI. pose proof (ParseUint_no_panic s) as HU. pose proof (ParseDuration_no_panic s) as HD.
  destruct f; simpl; unfold mbind, outcome_bind, numError.
  - done.
  - destruct (ParseInt s) as [n'|e|p]; [done|by destruct (decide (e = ErrSyntax))|by destruct (HI p)].
  - destruct (ParseInt s) as [n'|e|p]; [done|by destruct (decide (e = ErrSyntax))|by destruct (HI p)].
  - destruct (ParseUint s) as [n'|e|p]; [done|by destruct (decide (e = ErrSyntax))|by destruct (HU p)].
  - by destruct (ParseBool s).
  - destruct (ParseDuration s); naive_solver.
  - done.
Qed.
