(* ===== verification/HostFS.v ===== *)
(** * The file system under Go's [os] package

    A model of the POSIX file system as the program reaches it through [os] and
    [golang.org/x/sys/unix]: directories, symbolic links that are followed during path
    resolution (at most 40, then ELOOP), and regular files behind inodes, so that hard links
    alias. [w_faults] makes every call able to fail: each system call consumes one entry,
    and [Some e] makes it return [e] without effect; theorems hold for every such list. *)

From S2P Require Import Prelude GoPath.

Record meta := Meta { m_mode : Z; m_uid : Z; m_gid : Z; m_mtime : Z }.

Inductive node :=
| NDir (m : meta)
| NSymlink (target : string) (m : meta)
| NFile (i : nat).

Record inode := Inode { i_data : string; i_meta : meta }.

Record world := World {
  w_nodes : gmap (list string) node;   (* physical path, from the root *)
  w_inodes : gmap nat inode;
  w_next : nat;                        (* the next unused inode number *)
  w_cwd : list string;
  w_uid : Z;                           (* os.Getuid(), os.Getgid() *)
  w_gid : Z;
  w_euid : Z;                          (* os.Geteuid(), and the group: what the kernel goes by *)
  w_egid : Z;
  w_umask : Z;
  w_now : Z;
  w_signals : list (Z * Z);            (* the signals sent with kill(2), in order: the target and the signal *)
  w_faults : list (option errno)
}.

#[export] Instance meta_eq_dec : EqDecision meta.
Proof. solve_decision. Defined.
#[export] Instance node_eq_dec : EqDecision node.
Proof. solve_decision. Defined.
#[export] Instance inode_eq_dec : EqDecision inode.
Proof. solve_decision. Defined.

Definition set_nodes (f : gmap (list string) node -> gmap (list string) node) (w : world) : world :=
  World (f (w_nodes w)) (w_inodes w) (w_next w) (w_cwd w) (w_uid w) (w_gid w) (w_euid w) (w_egid w) (w_umask w) (w_now w) (w_signals w) (w_faults w).
Definition set_inodes (f : gmap nat inode -> gmap nat inode) (w : world) : world :=
  World (w_nodes w) (f (w_inodes w)) (w_next w) (w_cwd w) (w_uid w) (w_gid w) (w_euid w) (w_egid w) (w_umask w) (w_now w) (w_signals w) (w_faults w).
Definition set_next (n : nat) (w : world) : world :=
  World (w_nodes w) (w_inodes w) n (w_cwd w) (w_uid w) (w_gid w) (w_euid w) (w_egid w) (w_umask w) (w_now w) (w_signals w) (w_faults w).
Definition set_faults (l : list (option errno)) (w : world) : world :=
  World (w_nodes w) (w_inodes w) (w_next w) (w_cwd w) (w_uid w) (w_gid w) (w_euid w) (w_egid w) (w_umask w) (w_now w) (w_signals w) l.
Definition set_signals (l : list (Z * Z)) (w : world) : world :=
  World (w_nodes w) (w_inodes w) (w_next w) (w_cwd w) (w_uid w) (w_gid w) (w_euid w) (w_egid w) (w_umask w) (w_now w) l (w_faults w).

Abbreviation OS := (GoM world).

Definition oserr {A} (e : errno) : OS A := fail (Errno e).

(** One system call: it consumes the next planned fault. ENOENT is an answer about the tree
    and not a failure, so it is never injected. *)
Definition syscall {A} (m : OS A) : OS A := fun w =>
  match w_faults w with
  | Some e :: l => if decide (e = ENOENT) then m (set_faults l w) else (Err (Errno e), set_faults l w)
  | None :: l => m (set_faults l w)
  | [] => m w
  end.

(** ** Path resolution *)

(** [walk links nd follow cur comps] goes from the directory [cur] through [comps]. A symbolic
    link in the middle is always followed, one at the end only when [follow]. *)
Fixpoint walk (links : nat) (nd : gmap (list string) node) (follow : bool) {struct links} :
    list string -> list string -> errno + list string :=
  fix go (cur comps : list string) {struct comps} :=
    match comps with
    | [] => inr cur
    | c :: rest =>
        if decide (c = "" \/ c = ".") then go cur rest
        else if decide (c = "..") then go (removelast cur) rest
        else match nd !! (cur ++ [c]) with
             | Some (NSymlink t _) =>
                 if bool_decide (rest = []) && negb follow then inr (cur ++ [c])
                 else match links with
                      | O => inl ELOOP
                      | S links' =>
                          walk links' nd follow (if IsAbs t then [] else cur) (psplit t ++ rest)
                      end
             | Some (NDir _) => go (cur ++ [c]) rest
             | Some (NFile _) => if decide (rest = []) then inr (cur ++ [c]) else inl ENOTDIR
             | None => if decide (rest = []) then inr (cur ++ [c]) else inl ENOENT
             end
    end.

Definition max_symlinks : nat := 40.

Definition resolve (follow : bool) (path : string) (w : world) : errno + list string :=
  if decide (path = "") then inl ENOENT
  else walk max_symlinks (w_nodes w) follow (if IsAbs path then [] else w_cwd w) (psplit path).

(** Resolve a path, or fail with the errno. *)
Definition resolving (follow : bool) (path : string) : OS (list string) := fun w =>
  match resolve follow path w with
  | inl e => (Err (Errno e), w)
  | inr q => (Ok q, w)
  end.

Definition node_at (q : list string) : OS (option node) := gets (fun w => w_nodes w !! q).

(** ** System calls *)

(** What the code reads of an [os.FileInfo]. *)
Record FileInfo := {
  fi_dir : bool;
  fi_symlink : bool;
  fi_meta : meta;
  fi_size : Z
}.

Definition no_meta : meta := Meta 0 0 0 0.

Definition info_of (w : world) (n : node) : FileInfo :=
  match n with
  | NDir m => {| fi_dir := true; fi_symlink := false; fi_meta := m; fi_size := 4096 |}
  | NSymlink t m => {| fi_dir := false; fi_symlink := true; fi_meta := m; fi_size := Z.of_nat (String.length t) |}
  | NFile i =>
      match w_inodes w !! i with
      | Some n => {| fi_dir := false; fi_symlink := false; fi_meta := i_meta n; fi_size := Z.of_nat (String.length (i_data n)) |}
      | None => {| fi_dir := false; fi_symlink := false; fi_meta := no_meta; fi_size := 0 |}
      end
  end.

Definition stat_gen (follow : bool) (path : string) : OS FileInfo :=
  syscall (
    q ← resolving follow path;
    o ← node_at q;
    match o with
    | None => oserr ENOENT
    | Some n => gets (fun w => info_of w n)
    end).

Definition os_Stat : string -> OS FileInfo := stat_gen true.
Definition os_Lstat : string -> OS FileInfo := stat_gen false.

(** Put a new node at [q]; its parent must be a directory. *)
Definition create_at (q : list string) (n : node) : OS unit :=
  o ← node_at q;
  match o with
  | Some _ => oserr EEXIST
  | None =>
      p ← node_at (removelast q);
      match p with
      | Some (NDir _) => modify (set_nodes (<[q := n]>))
      | _ => oserr ENOENT
      end
  end.

Definition new_meta (perm : Z) : OS meta :=
  gets (fun w => Meta (Z.land perm (Z.lnot (w_umask w))) (w_euid w) (w_egid w) (w_now w)).

Definition os_Mkdir (path : string) (perm : Z) : OS unit :=
  syscall (
    q ← resolving false path;
    m ← new_meta perm;
    create_at q (NDir m)).

(** [os.MkdirAll]: stat, make the parent, mkdir, and on failure accept a directory that is
    there by then. The path is given as its rooted flag and its elements, last first. *)
Fixpoint mkdir_all (rooted : bool) (revelems : list string) (perm : Z) : OS unit :=
  let path := render (rooted, rev revelems) in
  st ← attempt (os_Stat path);
  match st with
  | inr info => if fi_dir info then mret tt else oserr ENOTDIR
  | inl _ =>
      match revelems with
      | [] => mret tt
      | _ :: parent => if negb rooted && bool_decide (parent = []) then mret tt else mkdir_all rooted parent perm
      end ;;
      r ← attempt (os_Mkdir path perm);
      match r with
      | inr _ => mret tt
      | inl e =>
          l ← attempt (os_Lstat path);
          match l with
          | inr info => if fi_dir info then mret tt else fail e
          | inl _ => fail e
          end
      end
  end.

Definition os_MkdirAll (path : string) (perm : Z) : OS unit :=
  if decide (path = "") then oserr ENOENT
  else mkdir_all (IsAbs path) (rev (elems path)) perm.

(** The names in the directory [q]. *)
Definition children (w : world) (q : list string) : list string :=
  omap (fun k => match last k with
                 | Some c => if decide (removelast k = q) then Some c else None
                 | None => None
                 end)
       (map_to_list (w_nodes w)).*1.

Definition os_Remove (path : string) : OS unit :=
  syscall (
    q ← resolving false path;
    o ← node_at q;
    match o with
    | None => oserr ENOENT
    | Some (NDir _) =>
        cs ← gets (fun w => children w q);
        if decide (q = []) then oserr EBUSY
        else if decide (cs = []) then modify (set_nodes (delete q)) else oserr ENOTEMPTY
    | Some _ => modify (set_nodes (delete q))
    end).

(** [os.RemoveAll]: the whole subtree goes; a missing path is no error. The last element is
    not followed when it is a symbolic link. *)
Definition os_RemoveAll (path : string) : OS unit :=
  if decide (path = "") then mret tt
  else if decide (last (psplit path) = Some ".") then oserr EINVAL
  else syscall (fun w =>
    match resolve false path w with
    | inl ENOENT => (Ok tt, w)
    | inl e => (Err (Errno e), w)
    | inr [] => (Err (Errno EBUSY), set_nodes (filter (fun kv => kv.1 = [])) w)
    | inr q => (Ok tt, set_nodes (filter (fun kv => ~ q `prefix_of` kv.1)) w)
    end).

Record DirEntry := { de_name : string; de_dir : bool }.

(** [os.ReadDir] sorts the entries by name. *)
Definition os_ReadDir (path : string) : OS (list DirEntry) :=
  syscall (
    q ← resolving true path;
    o ← node_at q;
    match o with
    | None => oserr ENOENT
    | Some (NDir _) =>
        gets (fun w =>
          (fun c => {| de_name := c;
                       de_dir := match w_nodes w !! (q ++ [c]) with Some (NDir _) => true | _ => false end |})
          <$> merge_sort String.le (children w q))
    | Some _ => oserr ENOTDIR
    end).

Definition os_Symlink (oldname newname : string) : OS unit :=
  syscall (
    q ← resolving false newname;
    m ← new_meta 511;
    create_at q (NSymlink oldname m)).

Definition os_Link (oldname newname : string) : OS unit :=
  syscall (
    p ← resolving false oldname;
    o ← node_at p;
    match o with
    | None => oserr ENOENT
    | Some (NDir _) => oserr EPERM
    | Some n => q ← resolving false newname; create_at q n
    end).

(** [os.Rename] of a file or link (the program never renames a directory: EINVAL here). *)
Definition os_Rename (oldname newname : string) : OS unit :=
  syscall (
    p ← resolving false oldname;
    q ← resolving false newname;
    o ← node_at p;
    t ← node_at q;
    d ← node_at (removelast q);
    match o, t, d with
    | None, _, _ => oserr ENOENT
    | Some (NDir _), _, _ => oserr EINVAL
    | Some _, Some (NDir _), _ => oserr EEXIST
    | Some n, Some n', Some (NDir _) =>
        if decide (n = n') then mret tt
        else modify (set_nodes (fun m => <[q := n]> (delete p m)))
    | Some n, None, Some (NDir _) => modify (set_nodes (fun m => <[q := n]> (delete p m)))
    | _, _, _ => oserr ENOENT
    end).

(** *** Files *)

Record open_flags := { o_creat : bool; o_excl : bool; o_trunc : bool; o_nofollow : bool }.

(** An open file of the model is its inode; writes append, which is what the program's
    writers do to a file they have just created or truncated. *)
Definition fresh_file (q : list string) (perm : Z) : OS nat :=
  m ← new_meta perm;
  i ← gets w_next;
  create_at q (NFile i) ;;
  modify (fun w => set_next (S i) (set_inodes (<[i := Inode "" m]>) w)) ;;
  mret i.

Definition update_inode (i : nat) (f : inode -> inode) : OS unit :=
  modify (set_inodes (alter f i)).

Definition os_open (path : string) (fl : open_flags) (perm : Z) : OS nat :=
  syscall (
    q ← resolving (negb (o_nofollow fl || o_excl fl)) path;
    o ← node_at q;
    match o with
    | None => if o_creat fl then fresh_file q perm else oserr ENOENT
    | Some (NFile i) =>
        if o_excl fl then oserr EEXIST
        else (if o_trunc fl then update_inode i (fun n => Inode "" (i_meta n)) else mret tt) ;;
             mret i
    | Some (NDir _) => if o_excl fl then oserr EEXIST else oserr EISDIR
    | Some (NSymlink _ _) => if o_excl fl then oserr EEXIST else oserr ELOOP
    end).

Definition fd_write (i : nat) (data : string) : OS unit :=
  syscall (update_inode i (fun n => Inode (i_data n +:+ data) (i_meta n))).

(** The bytes an [io.Reader] gives, and the error it stops with ([None] at [io.EOF]). *)
Definition stream : Type := string * option error.

(** [io.LimitReader(reader, n)] *)
Definition LimitReader (n : Z) (reader : stream) : stream :=
  if decide (n <= Z.of_nat (String.length (fst reader)))%Z
  then (str_take (Z.to_nat n) (fst reader), None) else reader.

(** [io.Copy(file, reader)] *)
Definition io_Copy (fd : nat) (reader : stream) : OS unit :=
  fd_write fd (fst reader) ;;
  match snd reader with Some e => fail e | None => mret tt end.

Definition fd_close (i : nat) : OS unit := syscall (mret tt).

Definition os_ReadFile (path : string) : OS string :=
  syscall (
    q ← resolving true path;
    o ← node_at q;
    match o with
    | None => oserr ENOENT
    | Some (NFile i) => gets (fun w => match w_inodes w !! i with Some n => i_data n | None => "" end)
    | Some (NDir _) => oserr EISDIR
    | Some (NSymlink _ _) => oserr ELOOP
    end).

Definition create_trunc : open_flags :=
  {| o_creat := true; o_excl := false; o_trunc := true; o_nofollow := false |}.

Definition os_WriteFile (path data : string) (perm : Z) : OS unit :=
  i ← os_open path create_trunc perm;
  r ← attempt (fd_write i data);
  c ← attempt (fd_close i);
  match r, c with
  | inl e, _ => fail e
  | _, inl e => fail e
  | _, _ => mret tt
  end.

(** [os.CreateTemp(dir, prefix*suffix)]: exclusive creation under a name that varies until one
    is free; Go gives up after 10000 tries. *)
Definition temp_name (prefix suffix : string) (k : nat) : string := prefix +:+ pretty k +:+ suffix.

Fixpoint create_temp (tries : nat) (dir prefix suffix : string) (k : nat) : OS (string * nat) :=
  match tries with
  | O => oserr EEXIST
  | S tries' =>
      let name := Join [dir; temp_name prefix suffix k] in
      r ← attempt (os_open name {| o_creat := true; o_excl := true; o_trunc := false; o_nofollow := false |} 384);
      match r with
      | inr i => mret (name, i)
      | inl (Errno EEXIST) => create_temp tries' dir prefix suffix (S k)
      | inl e => fail e
      end
  end.

Definition os_CreateTemp (dir prefix suffix : string) : OS (string * nat) :=
  create_temp (Z.to_nat 10000) dir prefix suffix 0.
#[global] Arguments os_CreateTemp : simpl never.

(** [os.MkdirTemp]: a new directory under a name that varies until one is free. *)
Fixpoint mkdir_temp (tries : nat) (dir prefix : string) (k : nat) : OS string :=
  match tries with
  | O => oserr EEXIST
  | S tries' =>
      let name := Join [dir; temp_name prefix "" k] in
      r ← attempt (os_Mkdir name 448);
      match r with
      | inr _ => mret name
      | inl (Errno EEXIST) => mkdir_temp tries' dir prefix (S k)
      | inl e => fail e
      end
  end.

Definition os_MkdirTemp (dir prefix : string) : OS string := mkdir_temp (Z.to_nat 10000) dir prefix 0.
#[global] Arguments os_MkdirTemp : simpl never.

(** [os.Create] *)
Definition os_Create (path : string) : OS nat := os_open path create_trunc 438.

(** *** Metadata *)

Definition update_meta (q : list string) (f : meta -> meta) : OS unit :=
  o ← node_at q;
  match o with
  | None => oserr ENOENT
  | Some (NDir m) => modify (set_nodes (<[q := NDir (f m)]>))
  | Some (NSymlink t m) => modify (set_nodes (<[q := NSymlink t (f m)]>))
  | Some (NFile i) => update_inode i (fun n => Inode (i_data n) (f (i_meta n)))
  end.

Definition os_Chmod (path : string) (mode : Z) : OS unit :=
  syscall (q ← resolving true path; update_meta q (fun m => Meta mode (m_uid m) (m_gid m) (m_mtime m))).

(** Only root may give a file away; an id of -1 is left as it is. *)
Definition keep_id (id old : Z) : Z := if decide (id = -1)%Z then old else id.

Definition chown_gen (follow : bool) (path : string) (uid gid : Z) : OS unit :=
  syscall (
    q ← resolving follow path;
    o ← node_at q;
    w ← get_state;
    match o with
    | None => oserr ENOENT
    | Some n =>
        let m := fi_meta (info_of w n) in
        if bool_decide (w_euid w = 0%Z)
           || bool_decide (keep_id uid (m_uid m) = m_uid m /\ keep_id gid (m_gid m) = m_gid m)
        then update_meta q (fun m => Meta (m_mode m) (keep_id uid (m_uid m)) (keep_id gid (m_gid m)) (m_mtime m))
        else oserr EPERM
    end).

Definition os_Chown : string -> Z -> Z -> OS unit := chown_gen true.
Definition os_Lchown : string -> Z -> Z -> OS unit := chown_gen false.

Definition os_Chtimes (path : string) (mtime : Z) : OS unit :=
  syscall (q ← resolving true path; update_meta q (fun m => Meta (m_mode m) (m_uid m) (m_gid m) mtime)).

Definition os_Getuid : OS Z := gets w_uid.
Definition os_Getgid : OS Z := gets w_gid.
Definition os_Geteuid : OS Z := gets w_euid.

(** [unix.Kill]: a negative target is a process group. What the signal does to the processes is the kernel's;
    it does nothing to the files. *)
Definition SIGKILL : Z := 9.
Definition unix_Kill (pid sig : Z) : OS unit := syscall (modify (fun w => set_signals (w_signals w ++ [(pid, sig)]) w)).

(** A file system with the given directories (parents first), run as root, for examples. *)
Definition root_meta : meta := Meta 493 0 0 0.
Definition empty_world : world :=
  World {[ [] := NDir root_meta ]} ∅ 0 [] 0 0 0 0 18 0 [] [].
Definition with_dirs (l : list string) (w : world) : world :=
  foldl (fun w d => snd (os_MkdirAll d 493 w)) w l.
Definition with_file (path data : string) (w : world) : world :=
  snd (os_WriteFile path data 420 w).
Definition with_link (path target : string) (w : world) : world :=
  snd (os_Symlink target path w).

Example resolve_follows :
  let w := with_link "/a/l" "../b" (with_dirs ["/a"; "/b/c"] empty_world) in
  resolve true "/a/l/c" w = inr ["b"; "c"] /\ resolve false "/a/l" w = inr ["a"; "l"]
  /\ resolve true "/a/x/y" w = inl ENOENT.
Proof. vm_compute. done. Qed.
