(* ===== verification/Confine.v ===== *)
(** * Confinement: what a file-system call can change

    [conf R w w'] says that the step from [w] to [w'] leaves everything outside the region [R]
    as it was, hard links included, and keeps the world well formed. It is a preorder, so it
    composes through the monad. Each system call is shown to be confined to [R] when the path
    it resolves to lies in [R]; the lemmas on [walk] say when it does. *)

From S2P Require Import Prelude GoPath HostFS.

(** ** Well-formed worlds *)

(** An inode that has been handed out. *)
Definition live (w : world) (i : nat) : Prop := i < w_next w /\ is_Some (w_inodes w !! i).

Record wf (w : world) : Prop := {
  wf_root : exists m, w_nodes w !! [] = Some (NDir m);
  wf_closed : forall p c n, w_nodes w !! (p ++ [c]) = Some n ->
              exists m, w_nodes w !! p = Some (NDir m);
  wf_ino : forall p i, w_nodes w !! p = Some (NFile i) -> live w i
}.

(** What can be seen at a physical path: a file shows its inode. *)
Inductive vnode :=
| VDir (m : meta) | VLink (t : string) (m : meta) | VFile (n : option inode).

Definition vnode_of (w : world) (n : node) : vnode :=
  match n with
  | NDir m => VDir m
  | NSymlink t m => VLink t m
  | NFile i => VFile (w_inodes w !! i)
  end.

Definition view (w : world) (p : list string) : option vnode :=
  vnode_of w <$> w_nodes w !! p.

(** No inode has names on both sides of the region's border. *)
Definition separate (R : list string -> Prop) (w : world) : Prop :=
  forall p q i, R p -> ~ R q ->
    w_nodes w !! p = Some (NFile i) -> w_nodes w !! q = Some (NFile i) -> False.

Definition good (R : list string -> Prop) (w : world) : Prop := wf w /\ separate R w.

Definition conf (R : list string -> Prop) (w w' : world) : Prop :=
  good R w -> good R w' /\ (forall p, ~ R p -> view w' p = view w p).

#[export] Instance conf_preorder R : PreOrder (conf R).
Proof.
  split.
  - intros w Hw. auto.
  - intros w1 w2 w3 H12 H23 H1. destruct (H12 H1) as [H2 V12]. destruct (H23 H2) as [H3 V23].
    split; [done|]. intros p Hp. by rewrite V23, V12.
Qed.

(** Faults, and whatever does not touch the tree, are confined to any region. *)
Definition same_tree (w w' : world) : Prop :=
  w_nodes w' = w_nodes w /\ w_inodes w' = w_inodes w /\ w_next w' = w_next w.

#[export] Instance same_tree_preorder : PreOrder same_tree.
Proof.
  split; [done|]. intros w1 w2 w3 (H1 & H2 & H3) (H4 & H5 & H6). unfold same_tree. by rewrite H4, H5, H6.
Qed.

Lemma view_same_tree w w' p : same_tree w w' -> view w' p = view w p.
Proof.
  intros (H1 & H2 & _). unfold view. rewrite H1.
  destruct (w_nodes w !! p) as [[]|]; simpl; by rewrite ?H2.
Qed.

Lemma wf_same_tree w w' : same_tree w w' -> wf w -> wf w'.
Proof.
  intros (H1 & H2 & H3) [Hr Hc Hi]. split; unfold live; rewrite ?H1, ?H2, ?H3; done.
Qed.

Lemma conf_same_tree R w w' : same_tree w w' -> conf R w w'.
Proof.
  intros H [Hw Hs]. split; [split|].
  - by eapply wf_same_tree.
  - destruct H as (H1 & _ & _). intros p q i. rewrite H1. apply Hs.
  - intros p _. by apply view_same_tree.
Qed.

(** ** Parents *)

Lemma wf_parent w q n :
  wf w -> q <> [] -> w_nodes w !! q = Some n ->
  exists m, w_nodes w !! removelast q = Some (NDir m).
Proof.
  intros Hw Hq H. destruct q as [|c q _] using rev_ind; [done|].
  rewrite removelast_last. by eapply wf_closed.
Qed.

Lemma wf_prefix w p q n :
  wf w -> w_nodes w !! (p ++ q) = Some n -> q <> [] -> exists m, w_nodes w !! p = Some (NDir m).
Proof.
  intros Hw. revert n. induction q as [|c q IH] using rev_ind; intros n H Hq; [done|].
  rewrite app_assoc in H. destruct (wf_closed _ Hw _ _ _ H) as [m Hm].
  destruct q as [|d q]; [rewrite app_nil_r in Hm; eauto|]. by eapply IH.
Qed.

(** ** Elementary changes *)

Section changes.
Context (R : list string -> Prop).
Implicit Types w : world.

Lemma conf_insert w q n :
  R q ->
  (forall m, w_nodes w !! q = Some (NDir m) -> exists m', n = NDir m') ->
  (exists m, w_nodes w !! removelast q = Some (NDir m)) ->
  (forall i, n = NFile i -> live w i /\ (forall p, ~ R p -> w_nodes w !! p <> Some (NFile i))) ->
  (q = [] -> exists m', n = NDir m') ->
  conf R w (set_nodes (<[q := n]>) w).
Proof.
  intros Hq Hdir [mp Hp] Hfile Hroot [[Hr Hc Hi] Hs]. split; [split; [split|]|]; simpl.
  - destruct (decide (q = [])) as [->|]; [|by rewrite lookup_insert_ne].
    rewrite lookup_insert_eq. destruct Hroot as [m' ->]; eauto.
  - intros p c n'. destruct (decide (q = p ++ [c])) as [->|Hne].
    + rewrite removelast_last in Hp. intros _. exists mp.
      rewrite lookup_insert_ne; [done|]. intros E%(f_equal length). rewrite length_app in E. simpl in E. lia.
    + rewrite lookup_insert_ne by done. intros H. destruct (Hc _ _ _ H) as [m Hm].
      destruct (decide (q = p)) as [->|]; [|rewrite lookup_insert_ne by done; eauto].
      rewrite lookup_insert_eq. destruct (Hdir m Hm) as [m' ->]; eauto.
  - intros p i. destruct (decide (q = p)) as [->|]; [|rewrite lookup_insert_ne by done; apply Hi].
    rewrite lookup_insert_eq. intros [= ->]. by destruct (Hfile i).
  - intros p p' i Rp Rp'; simpl.
    rewrite (lookup_insert_ne _ q p') by (by intros ->).
    destruct (decide (q = p)) as [->|]; [|rewrite lookup_insert_ne by done; by apply Hs].
    rewrite lookup_insert_eq. intros [= ->] H. by eapply (Hfile i).
  - intros p Hnp. unfold view. simpl. rewrite lookup_insert_ne by (by intros ->).
    destruct (w_nodes w !! p) as [[]|]; done.
Qed.

Lemma conf_delete w q :
  R q -> q <> [] -> (forall c, w_nodes w !! (q ++ [c]) = None) ->
  conf R w (set_nodes (delete q) w).
Proof.
  intros Hq Hne Hch [[Hr Hc Hi] Hs]. split; [split; [split|]|]; simpl.
  - by rewrite lookup_delete_ne.
  - intros p c n [Hpc H]%lookup_delete_Some. destruct (Hc _ _ _ H) as [m Hm].
    exists m. rewrite lookup_delete_ne; [done|]. intros ->. by rewrite Hch in H.
  - intros p i [_ H]%lookup_delete_Some. by eapply Hi.
  - intros p p' i Rp Rp'. simpl. intros [_ H]%lookup_delete_Some [_ H']%lookup_delete_Some.
    by eapply Hs.
  - intros p Hnp. unfold view. simpl. rewrite lookup_delete_ne by (by intros ->).
    destruct (w_nodes w !! p) as [[]|]; done.
Qed.

Lemma conf_prune w (P : list string -> Prop) (Pdec : forall p, Decision (P p)) :
  (forall p, P p -> R p) -> ~ P [] -> (forall p c, P p -> P (p ++ [c])) ->
  conf R w (set_nodes (filter (fun kv => ~ P kv.1)) w).
Proof.
  intros HR Hroot Hup [[Hr Hc Hi] Hs]. split; [split; [split|]|]; simpl.
  - destruct Hr as [m Hm]. exists m. by apply map_lookup_filter_Some.
  - intros p c n [H Hn]%map_lookup_filter_Some. destruct (Hc _ _ _ H) as [m Hm].
    exists m. apply map_lookup_filter_Some. split; [done|]. simpl in *. auto.
  - intros p i [H _]%map_lookup_filter_Some. by eapply Hi.
  - intros p p' i Rp Rp'. simpl.
    intros [H _]%map_lookup_filter_Some [H' _]%map_lookup_filter_Some. by eapply Hs.
  - intros p Hnp. unfold view. simpl.
    assert (filter (fun kv : list string * node => ~ P kv.1) (w_nodes w) !! p = w_nodes w !! p) as ->.
    { destruct (w_nodes w !! p) as [n|] eqn:E.
      - apply map_lookup_filter_Some. split; [done|]. simpl. auto.
      - apply map_lookup_filter_None. by left. }
    destruct (w_nodes w !! p) as [[]|]; done.
Qed.

(** Changing an inode that has a name in the region. *)
Lemma conf_inode w i f q :
  R q -> w_nodes w !! q = Some (NFile i) ->
  conf R w (set_inodes (alter f i) w).
Proof.
  intros Rq Hq [[Hr Hc Hi] Hs]. split; [split; [split|done]|]; [done|done| |].
  { intros p j H. destruct (Hi p j H) as [H1 H2]. split; [done|]. simpl.
    destruct (decide (i = j)) as [->|]; [rewrite lookup_alter_eq|by rewrite lookup_alter_ne].
    destruct H2 as [n ->]. by eexists. }
  intros p Hp. unfold view. simpl. destruct (w_nodes w !! p) as [[m|t m|j]|] eqn:E; [done..| |done].
  simpl. rewrite lookup_alter_ne; [done|]. intros ->. by eapply Hs.
Qed.

(** A new inode, with no name yet. *)
Lemma conf_new_inode w n : conf R w (set_next (S (w_next w)) (set_inodes (<[w_next w := n]>) w)).
Proof.
  intros [[Hr Hc Hi] Hs]. split; [split; [split|]|]; simpl; try done.
  - intros p i H. apply Hi in H as [H1 H2]. split; simpl; [lia|].
    rewrite lookup_insert_ne by lia. done.
  - intros p Hp. unfold view. simpl. destruct (w_nodes w !! p) as [[m|t m|j]|] eqn:E; [done..| |done].
    simpl. rewrite lookup_insert_ne; [done|]. intros <-. apply Hi in E as [E _]. lia.
Qed.
End changes.

(** ** Path resolution along real directories *)

Section walking.
Implicit Types nd : gmap (list string) node.

Lemma walk_nil k nd f cur : walk k nd f cur [] = inr cur.
Proof. by destruct k. Qed.

Lemma walk_skip k nd f cur c rest :
  c = "" \/ c = "." -> walk k nd f cur (c :: rest) = walk k nd f cur rest.
Proof. intros H. destruct k; simpl; by rewrite decide_True. Qed.

Lemma walk_name k nd f cur c rest :
  is_name c ->
  walk k nd f cur (c :: rest) =
    match nd !! (cur ++ [c]) with
    | Some (NSymlink t _) =>
        if bool_decide (rest = []) && negb f then inr (cur ++ [c])
        else match k with
             | O => inl ELOOP
             | S k' => walk k' nd f (if IsAbs t then [] else cur) (psplit t ++ rest)
             end
    | Some (NDir _) => walk k nd f (cur ++ [c]) rest
    | Some (NFile _) => if decide (rest = []) then inr (cur ++ [c]) else inl ENOTDIR
    | None => if decide (rest = []) then inr (cur ++ [c]) else inl ENOENT
    end.
Proof.
  intros (H1 & H2 & H3 & _).
  destruct k; simpl; (rewrite decide_False by (intros [|]; congruence)); by rewrite decide_False.
Qed.

(** The last element, not followed, is reached whatever it is. *)
Lemma walk_last k nd cur c : is_name c -> walk k nd false cur [c] = inr (cur ++ [c]).
Proof.
  intros Hc. rewrite walk_name by done. destruct (nd !! (cur ++ [c])) as [[]|]; [apply walk_nil|done..].
Qed.

Lemma resolve_abs f s cs w :
  abs_path s cs -> resolve f s w = walk max_symlinks (w_nodes w) f [] cs.
Proof.
  intros H. unfold resolve. rewrite decide_False by (by eapply abs_path_not_empty).
  destruct H as [-> H]. rewrite IsAbs_render_true. simpl render. rewrite psplit_rooted.
  rewrite walk_skip by auto. destruct cs as [|c cs].
  - change (psplit (pjoin [])) with [""]. rewrite walk_skip by auto. done.
  - by rewrite psplit_below.
Qed.

(** No symbolic link among the entries the walk goes through: every proper prefix, and the
    last entry too when it would be followed. *)
Definition nosym (f : bool) nd (cur comps : list string) : Prop :=
  forall pre c post, comps = pre ++ c :: post -> post <> [] \/ f = true ->
  forall t m, nd !! (cur ++ pre ++ [c]) <> Some (NSymlink t m).

Lemma nosym_cons f nd cur c comps :
  nosym f nd cur (c :: comps) -> nosym f nd (cur ++ [c]) comps.
Proof.
  intros H pre d post -> Hp t m. rewrite <- app_assoc. by eapply (H (c :: pre) d post).
Qed.

(** Such a walk ends at the path it spells, or fails because a directory is missing. *)
Lemma walk_nosym k nd f cur comps :
  Forall is_name comps -> nosym f nd cur comps ->
  walk k nd f cur comps = inr (cur ++ comps)
  \/ walk k nd f cur comps = inl ENOENT \/ walk k nd f cur comps = inl ENOTDIR.
Proof.
  intros Hn. revert cur. induction Hn as [|c comps Hc Hn IH]; intros cur Hs.
  { rewrite walk_nil, app_nil_r. by left. }
  rewrite walk_name by done. pose proof (Hs [] c comps eq_refl) as Hc'. simpl in Hc'.
  destruct (nd !! (cur ++ [c])) as [[m|t m|i]|] eqn:E.
  - destruct (IH (cur ++ [c])) as [->|H]; [by apply nosym_cons| |by right].
    left. by rewrite <- app_assoc.
  - case_bool_decide as Hr; simpl; [|by destruct (Hc' (or_introl Hr) t m)].
    destruct f; simpl; [by destruct (Hc' (or_intror eq_refl) t m)|]. subst. by left.
  - case_decide; subst; auto.
  - case_decide; subst; auto.
Qed.

(** It succeeds when the parent is a directory. *)
Lemma walk_dirs k nd f cur comps :
  Forall is_name comps -> nosym f nd cur comps ->
  (forall pre c post, comps = pre ++ c :: post -> post <> [] ->
     exists m, nd !! (cur ++ pre ++ [c]) = Some (NDir m)) ->
  walk k nd f cur comps = inr (cur ++ comps).
Proof.
  intros Hn. revert cur. induction Hn as [|c comps Hc Hn IH]; intros cur Hs Hd.
  { by rewrite walk_nil, app_nil_r. }
  rewrite walk_name by done. pose proof (Hs [] c comps eq_refl) as Hc'. simpl in Hc'.
  destruct (decide (comps = [])) as [->|Hne].
  - destruct (nd !! (cur ++ [c])) as [[m|t m|i]|] eqn:E; rewrite ?walk_nil; try done.
    case_bool_decide; [|done]. destruct f; simpl; [|done]. by destruct (Hc' (or_intror eq_refl) t m).
  - destruct (Hd [] c comps eq_refl Hne) as [m Hm]. simpl in Hm. rewrite Hm.
    rewrite IH; [by rewrite <- app_assoc|by apply nosym_cons|].
    intros pre d post -> Hp. rewrite <- app_assoc. by eapply (Hd (c :: pre) d post).
Qed.
End walking.

(** ** What no call but Symlink, Link and Rename does: make a symbolic link *)

Definition no_new_links (w w' : world) : Prop :=
  forall p t m, w_nodes w' !! p = Some (NSymlink t m) ->
  exists m', w_nodes w !! p = Some (NSymlink t m').

#[export] Instance no_new_links_preorder : PreOrder no_new_links.
Proof.
  split; [by intros w p t m; eauto|].
  intros w1 w2 w3 H12 H23 p t m H. destruct (H23 p t m H) as [m' H']. eauto.
Qed.

Lemma nosym_no_new_links w w' f cur cs :
  no_new_links w w' -> nosym f (w_nodes w) cur cs -> nosym f (w_nodes w') cur cs.
Proof.
  intros Hn H pre c post E Hp t m Hl. destruct (Hn _ _ _ Hl) as [m' Hl']. by eapply H.
Qed.

Lemma same_tree_no_new_links w w' : same_tree w w' -> no_new_links w w'.
Proof. intros (E & _ & _) p t m. rewrite E. eauto. Qed.

(** A relation that does not look at the fault list is kept by the system-call wrapper. *)
Class FaultStable (R : world -> world -> Prop) : Prop :=
  fault_stable : forall w l, R w (set_faults l w).

#[export] Instance same_tree_stable : FaultStable same_tree.
Proof. done. Qed.
#[export] Instance no_new_links_stable : FaultStable no_new_links.
Proof. intros w l p t m. eauto. Qed.

Lemma preserves_syscall {A} R `{!PreOrder R, !FaultStable R} (m : OS A) :
  preserves R m -> preserves R (syscall m).
Proof.
  intros H w. unfold syscall. destruct (w_faults w) as [|[e|] l] eqn:E; [apply H| |].
  - case_decide; [|apply fault_stable]. etrans; [apply (fault_stable w l)|apply H].
  - etrans; [apply (fault_stable w l)|apply H].
Qed.
#[export] Hint Extern 0 (FaultStable _) => typeclasses eauto : go_preserves.

Lemma preserves_resolving R `{!PreOrder R} f p : preserves R (resolving f p).
Proof. intros w. unfold resolving. by destruct (resolve f p w). Qed.
Lemma preserves_get_state R `{!PreOrder R} : preserves R (@get_state world).
Proof. intros w. reflexivity. Qed.
#[export] Hint Resolve preserves_resolving preserves_get_state : go_preserves.

(** Unfold to the calls that change the tree. *)
Ltac solve_calls :=
  unfold node_at, oserr, new_meta;
  repeat first
    [ progress solve_preserves
    | apply preserves_syscall; [typeclasses eauto|typeclasses eauto|] ].

Lemma stat_same_tree f p : preserves same_tree (stat_gen f p).
Proof. unfold stat_gen. solve_calls. Qed.
Lemma fd_close_same_tree i : preserves same_tree (fd_close i).
Proof. unfold fd_close. solve_calls. Qed.
Lemma os_ReadFile_same_tree p : preserves same_tree (os_ReadFile p).
Proof. unfold os_ReadFile. solve_calls. Qed.
Lemma os_ReadDir_same_tree p : preserves same_tree (os_ReadDir p).
Proof. unfold os_ReadDir. solve_calls. Qed.
#[export] Hint Resolve stat_same_tree fd_close_same_tree os_ReadFile_same_tree os_ReadDir_same_tree
  : go_preserves.

Lemma preserves_weaken {S A} (R1 R2 : S -> S -> Prop) (m : GoM S A) :
  (forall s s', R1 s s' -> R2 s s') -> preserves R1 m -> preserves R2 m.
Proof. intros H Hm s. auto. Qed.

Section no_new_links.
Lemma nnl_insert q n :
  (forall t m, n <> NSymlink t m) -> preserves no_new_links (modify (set_nodes (<[q := n]>))).
Proof.
  intros Hn w p t m. unfold modify; simpl. destruct (decide (q = p)) as [->|].
  - rewrite lookup_insert_eq. intros [= E]. by destruct (Hn t m).
  - rewrite lookup_insert_ne by done. eauto.
Qed.
Lemma nnl_delete q : preserves no_new_links (modify (set_nodes (delete q))).
Proof. intros w p t m H. simpl in H. apply lookup_delete_Some in H as [_ H]. eauto. Qed.
Lemma nnl_inodes f : preserves no_new_links (modify (set_inodes f)).
Proof. intros w p t m. simpl. eauto. Qed.
Lemma nnl_create_at q n :
  (forall t m, n <> NSymlink t m) -> preserves no_new_links (create_at q n).
Proof. intros Hn. pose proof (nnl_insert q n Hn). unfold create_at. solve_calls. Qed.
Lemma nnl_update_meta q f : preserves no_new_links (update_meta q f).
Proof.
  intros w. unfold update_meta, node_at, gets, mbind, GoM_bind. simpl.
  destruct (w_nodes w !! q) as [[m|t m|i]|] eqn:E; simpl; try reflexivity.
  - by apply nnl_insert.
  - intros p t' m'. simpl. destruct (decide (q = p)) as [->|].
    + rewrite lookup_insert_eq. intros [= <- _]. eauto.
    + rewrite lookup_insert_ne by done. eauto.
  - apply nnl_inodes.
Qed.

Local Hint Resolve nnl_create_at nnl_update_meta nnl_delete nnl_inodes : go_preserves.

Lemma nnl_stat f p : preserves no_new_links (stat_gen f p).
Proof. eapply preserves_weaken; [apply same_tree_no_new_links|apply stat_same_tree]. Qed.
Local Hint Resolve nnl_stat : go_preserves.
Lemma nnl_Mkdir p perm : preserves no_new_links (os_Mkdir p perm).
Proof. unfold os_Mkdir. solve_calls. Qed.
Local Hint Resolve nnl_Mkdir : go_preserves.
Lemma nnl_mkdir_all b l perm : preserves no_new_links (mkdir_all b l perm).
Proof.
  assert (Hm : forall path, preserves no_new_links
      (r ← attempt (os_Mkdir path perm);
       match r with
       | inr _ => mret tt
       | inl e =>
           l ← attempt (os_Lstat path);
           match l with
           | inr info => if fi_dir info then mret tt else fail e
           | inl _ => fail e
           end
       end)) by (intros path; unfold os_Lstat; solve_calls).
  induction l as [|c l IH]; cbn [mkdir_all]; unfold os_Stat;
    (apply preserves_bind; [typeclasses eauto|solve_calls|]; intros [e|info]; [|solve_calls]);
    (apply preserves_bind; [typeclasses eauto| |intros _; apply Hm]); solve_calls.
Qed.
Local Hint Resolve nnl_mkdir_all : go_preserves.
Lemma nnl_MkdirAll p perm : preserves no_new_links (os_MkdirAll p perm).
Proof. unfold os_MkdirAll. solve_calls. Qed.
Lemma nnl_RemoveAll p : preserves no_new_links (os_RemoveAll p).
Proof.
  unfold os_RemoveAll. case_decide; [solve_calls|]. case_decide; [solve_calls|].
  apply preserves_syscall; [typeclasses eauto..|]. intros w.
  destruct (resolve false p w) as [[]|[|c q]]; intros k t m Hk; simpl in Hk; eauto;
    apply map_lookup_filter_Some in Hk as [Hk _]; eauto.
Qed.
Lemma nnl_fresh_file q perm : preserves no_new_links (fresh_file q perm).
Proof.
  unfold fresh_file. assert (forall i m, preserves no_new_links
    (modify (fun w => set_next (S i) (set_inodes (<[i := Inode "" m]>) w)))) by (intros i m w p; eauto).
  solve_calls.
Qed.
Local Hint Resolve nnl_fresh_file : go_preserves.
Lemma nnl_open p fl perm : preserves no_new_links (os_open p fl perm).
Proof. unfold os_open, update_inode. solve_calls. Qed.
Lemma nnl_fd_write i d : preserves no_new_links (fd_write i d).
Proof. unfold fd_write, update_inode. solve_calls. Qed.
Lemma nnl_fd_close i : preserves no_new_links (fd_close i).
Proof. unfold fd_close. solve_calls. Qed.
Lemma nnl_Chmod p m : preserves no_new_links (os_Chmod p m).
Proof. unfold os_Chmod. solve_calls. Qed.
Lemma nnl_chown f p u g : preserves no_new_links (chown_gen f p u g).
Proof. unfold chown_gen. solve_calls. Qed.
Lemma nnl_Chtimes p t : preserves no_new_links (os_Chtimes p t).
Proof. unfold os_Chtimes. solve_calls. Qed.
End no_new_links.
#[export] Hint Resolve nnl_stat nnl_Mkdir nnl_MkdirAll nnl_RemoveAll nnl_open nnl_fd_write
  nnl_fd_close nnl_Chmod nnl_chown nnl_Chtimes : go_preserves.

(** ** System calls on a path that resolves into the region *)

(** Expose the state passing of a system call. *)
Ltac os_unfold :=
  unfold resolving, node_at, gets, get_state, modify, oserr, fail, new_meta, update_inode, mret,
    GoM_ret, mbind, GoM_bind; simpl.

Section calls.
Context (R : list string -> Prop).
Implicit Types w : world.

Lemma same_tree_faults l w : same_tree w (set_faults l w).
Proof. done. Qed.

Lemma conf_syscall {A} (m : OS A) w :
  (forall l, conf R (set_faults l w) (snd (m (set_faults l w)))) ->
  conf R w (snd (syscall m w)).
Proof.
  intros H. unfold syscall. destruct (w_faults w) as [|[e|] l] eqn:E.
  - specialize (H []). by destruct w; simpl in *; subst.
  - case_decide; [|apply conf_same_tree, same_tree_faults].
    etrans; [apply conf_same_tree, (same_tree_faults l)|apply H].
  - etrans; [apply conf_same_tree, (same_tree_faults l)|apply H].
Qed.

(** The path may only lead into the region. *)
Definition leads (f : bool) (path : string) w : Prop :=
  forall q, resolve f path w = inr q -> R q.

Lemma conf_create_at w q n :
  R q -> q <> [] ->
  (forall i, n = NFile i -> live w i /\ (forall p, ~ R p -> w_nodes w !! p <> Some (NFile i))) ->
  conf R w (snd (create_at q n w)).
Proof.
  intros Rq Hq Hn. unfold create_at, node_at, gets, mbind, GoM_bind. simpl.
  destruct (w_nodes w !! q) eqn:E; [done|]. simpl.
  destruct (w_nodes w !! removelast q) as [[]|] eqn:E'; try done.
  apply conf_insert; eauto; congruence.
Qed.

(** From here on the region does not hold the root and is closed under going down. *)
Hypothesis Rroot : ~ R [].
Hypothesis Rdown : forall p c, R p -> R (p ++ [c]).

Lemma R_not_root q : R q -> q <> [].
Proof. by intros H ->. Qed.

Lemma R_below q x : R q -> R (q ++ x).
Proof.
  intros H. induction x as [|c x IH] using rev_ind; [by rewrite app_nil_r|].
  rewrite app_assoc. auto.
Qed.

Lemma conf_Mkdir path perm w : leads false path w -> conf R w (snd (os_Mkdir path perm w)).
Proof.
  intros H. apply conf_syscall. intros l. os_unfold.
  change (resolve false path (set_faults l w)) with (resolve false path w).
  unfold leads in H. destruct (resolve false path w) as [e|q]; [reflexivity|].
  apply conf_create_at; [auto|by apply R_not_root, H|done].
Qed.

Lemma conf_stat f path w : conf R w (snd (stat_gen f path w)).
Proof.
  apply conf_syscall. intros l. os_unfold.
  destruct (resolve f path (set_faults l w)) as [e|q]; [reflexivity|]. simpl.
  destruct (w_nodes w !! q); reflexivity.
Qed.

Lemma conf_Symlink old path w : leads false path w -> conf R w (snd (os_Symlink old path w)).
Proof.
  intros H. apply conf_syscall. intros l. os_unfold.
  change (resolve false path (set_faults l w)) with (resolve false path w).
  unfold leads in H. destruct (resolve false path w) as [e|q]; [reflexivity|].
  apply conf_create_at; [auto|by apply R_not_root, H|done].
Qed.

Lemma children_nil w q : children w q = [] -> forall c, w_nodes w !! (q ++ [c]) = None.
Proof.
  intros H c. destruct (w_nodes w !! (q ++ [c])) as [n|] eqn:E; [|done].
  assert (c ∈ children w q) as Hc; [|by rewrite H in Hc; apply elem_of_nil in Hc].
  unfold children. apply list_elem_of_omap. exists (q ++ [c]). split.
  - apply list_elem_of_fmap. exists (q ++ [c], n). split; [done|]. by apply elem_of_map_to_list.
  - by rewrite last_snoc, removelast_last, decide_True.
Qed.

Lemma wf_no_children w q c n :
  wf w -> w_nodes w !! q = Some n -> (forall m, n <> NDir m) -> w_nodes w !! (q ++ [c]) = None.
Proof.
  intros Hw Hq Hn. destruct (w_nodes w !! (q ++ [c])) eqn:E; [|done].
  destruct (wf_closed _ Hw _ _ _ E) as [m Hm]. exfalso. apply (Hn m). congruence.
Qed.

(** A step may assume the world it starts from is good. *)
Lemma conf_assume w w' : (good R w -> conf R w w') -> conf R w w'.
Proof. intros H Hw. by apply H. Qed.

Lemma conf_Remove path w : leads false path w -> conf R w (snd (os_Remove path w)).
Proof.
  intros H. apply conf_syscall. intros l. os_unfold.
  change (resolve false path (set_faults l w)) with (resolve false path w).
  unfold leads in H. destruct (resolve false path w) as [e|q]; [reflexivity|]. simpl.
  specialize (H q eq_refl). apply conf_assume. intros [Hw _].
  destruct (w_nodes w !! q) as [[m|t m|i]|] eqn:E; simpl; [|..|reflexivity].
  - case_decide; [reflexivity|]. case_decide; [|reflexivity].
    apply conf_delete; [done..|]. by apply (children_nil (set_faults l w)).
  - apply conf_delete; [done|by apply R_not_root|]. intros c. by eapply (wf_no_children _ q c _ Hw).
  - apply conf_delete; [done|by apply R_not_root|]. intros c. by eapply (wf_no_children _ q c _ Hw).
Qed.

Lemma conf_RemoveAll path w : leads false path w -> conf R w (snd (os_RemoveAll path w)).
Proof.
  intros H. unfold os_RemoveAll. case_decide; [reflexivity|]. case_decide; [reflexivity|].
  apply conf_syscall. intros l.
  change (resolve false path (set_faults l w)) with (resolve false path w).
  unfold leads in H. destruct (resolve false path w) as [e|q]; [by destruct e|].
  specialize (H q eq_refl). destruct q as [|c q]; [done|].
  apply (conf_prune R (set_faults l w) (fun k => (c :: q) `prefix_of` k)).
  - intros p [x ->]. by apply R_below.
  - intros [x E]. done.
  - intros p d [x ->]. exists (x ++ [d]). by rewrite app_assoc.
Qed.

Lemma conf_Link old new w :
  leads false old w -> leads false new w -> conf R w (snd (os_Link old new w)).
Proof.
  intros Ho Hn. apply conf_syscall. intros l. os_unfold.
  change (resolve false old (set_faults l w)) with (resolve false old w).
  unfold leads in *. destruct (resolve false old w) as [e|p]; [reflexivity|]. simpl.
  specialize (Ho p eq_refl). apply conf_assume. intros [Hw Hs].
  assert (Hgo : forall n q, w_nodes w !! p = Some n -> resolve false new w = inr q ->
    conf R (set_faults l w) (snd (create_at q n (set_faults l w)))).
  { intros n q E Eq. specialize (Hn q Eq). apply conf_create_at; [done|by apply R_not_root|].
    intros i ->. split; [by eapply (wf_ino _ Hw)|]. intros k Hk Hk'. by eapply (Hs p k i). }
  destruct (w_nodes w !! p) as [n|]; simpl; [|reflexivity].
  destruct n; [reflexivity|..]; simpl;
    change (resolve false new (set_faults l w)) with (resolve false new w);
    (destruct (resolve false new w); [reflexivity|by apply Hgo]).
Qed.

Lemma conf_update_meta q f w : R q -> conf R w (snd (update_meta q f w)).
Proof.
  intros Hq. unfold update_meta. os_unfold. apply conf_assume. intros [Hw Hs].
  destruct (w_nodes w !! q) as [[m|t m|i]|] eqn:E; simpl; [| | |reflexivity].
  - apply conf_insert; [done|eauto|by eapply wf_parent; eauto using R_not_root|done|eauto].
  - apply conf_insert; [done|congruence|by eapply wf_parent; eauto using R_not_root|done|].
    intros ->. done.
  - by eapply conf_inode.
Qed.

Lemma conf_Chmod path mode w : leads true path w -> conf R w (snd (os_Chmod path mode w)).
Proof.
  intros H. apply conf_syscall. intros l. os_unfold.
  change (resolve true path (set_faults l w)) with (resolve true path w).
  unfold leads in H. destruct (resolve true path w) as [e|q]; [reflexivity|].
  apply conf_update_meta. auto.
Qed.

Lemma conf_Chtimes path t w : leads true path w -> conf R w (snd (os_Chtimes path t w)).
Proof.
  intros H. apply conf_syscall. intros l. os_unfold.
  change (resolve true path (set_faults l w)) with (resolve true path w).
  unfold leads in H. destruct (resolve true path w) as [e|q]; [reflexivity|].
  apply conf_update_meta. auto.
Qed.

Lemma conf_chown f path u g w : leads f path w -> conf R w (snd (chown_gen f path u g w)).
Proof.
  intros H. apply conf_syscall. intros l. os_unfold.
  change (resolve f path (set_faults l w)) with (resolve f path w).
  unfold leads in H. destruct (resolve f path w) as [e|q]; [reflexivity|]. simpl.
  destruct (w_nodes w !! q); [|reflexivity]. simpl. case_match; [|reflexivity].
  apply conf_update_meta. auto.
Qed.

Lemma conf_fresh_file q perm w : R q -> conf R w (snd (fresh_file q perm w)).
Proof.
  intros Hq. unfold fresh_file, create_at. os_unfold. apply conf_assume. intros [Hw Hs].
  destruct (w_nodes w !! q) eqn:E; [reflexivity|]. simpl.
  destruct (w_nodes w !! removelast q) as [[m|t m|i]|] eqn:Ep; try reflexivity. simpl.
  set (im := Inode "" (Meta (Z.land perm (Z.lnot (w_umask w))) (w_euid w) (w_egid w) (w_now w))).
  pose proof (conf_new_inode R w im) as H1.
  etrans; [exact H1|].
  change (conf R (set_next (S (w_next w)) (set_inodes <[w_next w:=im]> w))
    (set_nodes <[q:=NFile (w_next w)]> (set_next (S (w_next w)) (set_inodes <[w_next w:=im]> w)))).
  apply conf_insert; simpl; [done|congruence|eauto| |by intros ->].
  intros i [= <-]. split; [split; simpl; [lia|by rewrite lookup_insert_eq]|].
  intros p _ Hp. apply (wf_ino _ Hw) in Hp as [Hp _]. lia.
Qed.

Lemma conf_open path fl perm w :
  leads (negb (o_nofollow fl || o_excl fl)) path w -> conf R w (snd (os_open path fl perm w)).
Proof.
  intros H. apply conf_syscall. intros l. os_unfold.
  change (resolve (negb (o_nofollow fl || o_excl fl)) path (set_faults l w))
    with (resolve (negb (o_nofollow fl || o_excl fl)) path w).
  unfold leads in H. destruct (resolve _ path w) as [e|q]; [reflexivity|]. simpl.
  specialize (H q eq_refl).
  destruct (w_nodes w !! q) as [[m|t m|i]|] eqn:E; simpl.
  - destruct (o_excl fl); reflexivity.
  - destruct (o_excl fl); reflexivity.
  - destruct (o_excl fl); [reflexivity|]. destruct (o_trunc fl); [|reflexivity].
    by apply (conf_inode R (set_faults l w) i _ q).
  - destruct (o_creat fl); [|reflexivity]. by apply conf_fresh_file.
Qed.

(** A successful open hands out an inode that is named where the path leads. *)
Lemma open_named path fl perm w i :
  fst (os_open path fl perm w) = Ok i ->
  exists q, resolve (negb (o_nofollow fl || o_excl fl)) path w = inr q
    /\ w_nodes (snd (os_open path fl perm w)) !! q = Some (NFile i)
    /\ (w_nodes (snd (os_open path fl perm w)) = w_nodes w
        \/ w_nodes (snd (os_open path fl perm w)) = <[q := NFile i]> (w_nodes w)).
Proof.
  set (P := fun r : outcome nat * world => fst r = Ok i ->
    exists q, resolve (negb (o_nofollow fl || o_excl fl)) path w = inr q
    /\ w_nodes (snd r) !! q = Some (NFile i)
    /\ (w_nodes (snd r) = w_nodes w \/ w_nodes (snd r) = <[q := NFile i]> (w_nodes w))).
  change (P (os_open path fl perm w)). unfold os_open.
  assert (forall l, P ((q ← resolving (negb (o_nofollow fl || o_excl fl)) path;
      o ← node_at q;
      match o with
      | None => if o_creat fl then fresh_file q perm else oserr ENOENT
      | Some (NFile i) =>
          if o_excl fl then oserr EEXIST
          else (if o_trunc fl then update_inode i (fun n => Inode "" (i_meta n)) else mret tt) ;;
               mret i
      | Some (NDir _) => if o_excl fl then oserr EEXIST else oserr EISDIR
      | Some (NSymlink _ _) => if o_excl fl then oserr EEXIST else oserr ELOOP
      end) (set_faults l w))) as Hgo.
  { intros l. unfold P. os_unfold.
    change (resolve (negb (o_nofollow fl || o_excl fl)) path (set_faults l w))
      with (resolve (negb (o_nofollow fl || o_excl fl)) path w).
    destruct (resolve _ path w) as [e|q]; [done|]. simpl.
    destruct (w_nodes w !! q) as [[m|t m|j]|] eqn:E; simpl.
    - by destruct (o_excl fl).
    - by destruct (o_excl fl).
    - destruct (o_excl fl); [done|]. destruct (o_trunc fl); simpl; intros [= ->]; eauto.
    - destruct (o_creat fl); [|done]. unfold fresh_file, create_at. os_unfold. rewrite E. simpl.
      destruct (w_nodes w !! removelast q) as [[m|t m|j]|]; simpl; try done.
      intros [= <-]. exists q. rewrite lookup_insert_eq. auto. }
  unfold syscall. destruct (w_faults w) as [|[e|] l] eqn:E; [|case_decide; [apply Hgo|done]|apply Hgo].
  specialize (Hgo []). by destruct w; simpl in *; subst.
Qed.

Lemma nodes_syscall {A} (m : OS A) w :
  (forall l, w_nodes (snd (m (set_faults l w))) = w_nodes w) ->
  w_nodes (snd (syscall m w)) = w_nodes w.
Proof.
  intros H. unfold syscall. destruct (w_faults w) as [|[e|] l] eqn:E; [|case_decide; [apply H|done]|apply H].
  specialize (H []). by destruct w; simpl in *; subst.
Qed.

Lemma nodes_fd_write i d w : w_nodes (snd (fd_write i d w)) = w_nodes w.
Proof. by apply nodes_syscall. Qed.
Lemma nodes_fd_close i w : w_nodes (snd (fd_close i w)) = w_nodes w.
Proof. by apply nodes_syscall. Qed.
Lemma nodes_stat f p w : w_nodes (snd (stat_gen f p w)) = w_nodes w.
Proof.
  apply nodes_syscall. intros l. os_unfold. destruct (resolve f p _); [done|]. simpl.
  by destruct (w_nodes w !! _).
Qed.

Lemma conf_fd_write i d q w :
  R q -> w_nodes w !! q = Some (NFile i) -> conf R w (snd (fd_write i d w)).
Proof. intros Hq H. apply conf_syscall. intros l. by eapply conf_inode. Qed.

Lemma conf_fd_close i w : conf R w (snd (fd_close i w)).
Proof. apply conf_syscall. intros l. reflexivity. Qed.
End calls.

(** ** Sequencing confined steps *)

Section sequencing.
Context (R : list string -> Prop).

Lemma conf_bind {A B} (m : OS A) (k : A -> OS B) w :
  conf R w (snd (m w)) ->
  (forall a w', m w = (Ok a, w') -> conf R w' (snd (k a w'))) ->
  conf R w (snd ((m ≫= k) w)).
Proof.
  unfold mbind, GoM_bind. intros Hm Hk. destruct (m w) as [[a|e|v] w'] eqn:E; simpl in *; [|done..].
  etrans; [done|by apply Hk].
Qed.

Lemma conf_attempt {A} (m : OS A) w : conf R w (snd (m w)) -> conf R w (snd (attempt m w)).
Proof. unfold attempt. by destruct (m w) as [[a|e|v] w']. Qed.

Lemma conf_ignore {A} (m : OS A) w : conf R w (snd (m w)) -> conf R w (snd (ignore m w)).
Proof. unfold ignore, attempt, mbind, GoM_bind. by destruct (m w) as [[a|e|v] w']. Qed.

Lemma conf_wrap {A} f (m : OS A) w : conf R w (snd (m w)) -> conf R w (snd (wrap_err f m w)).
Proof. unfold wrap_err. by destruct (m w) as [[a|e|v] w']. Qed.

Lemma conf_preserves {A} (m : OS A) w : preserves same_tree m -> conf R w (snd (m w)).
Proof. intros H. apply conf_same_tree, H. Qed.

Lemma conf_defer {A} d (m : OS A) w :
  conf R w (snd (m w)) -> preserves same_tree d -> conf R w (snd (defer d m w)).
Proof.
  intros Hm Hd. unfold defer. destruct (m w) as [o w'] eqn:E. simpl in *.
  pose proof (Hd w') as H. destruct (d w') as [[a|e|v] w'']; simpl in *;
    (etrans; [done|by apply conf_same_tree]).
Qed.

Lemma conf_dir w w' p :
  conf R w w' -> good R w -> ~ R p ->
  (exists m, w_nodes w !! p = Some (NDir m)) -> exists m, w_nodes w' !! p = Some (NDir m).
Proof.
  intros Hc Hg Hp [m Hm]. destruct (Hc Hg) as [_ Hv]. specialize (Hv p Hp).
  unfold view in Hv. rewrite Hm in Hv. simpl in Hv.
  destruct (w_nodes w' !! p) as [[]|]; simplify_eq/=; eauto.
Qed.

Hypothesis Rroot : ~ R [].
Hypothesis Rdown : forall p c, R p -> R (p ++ [c]).
Context `{Rdec : !forall p, Decision (R p)}.

(** [os.MkdirAll] makes directories in the region only, when what is above is there. *)
Lemma conf_mkdir_all revelems perm w :
  Forall is_name (rev revelems) ->
  nosym false (w_nodes w) [] (rev revelems) ->
  (forall p, p `prefix_of` rev revelems -> ~ R p -> exists m, w_nodes w !! p = Some (NDir m)) ->
  conf R w (snd (mkdir_all true revelems perm w)).
Proof.
  revert w. induction revelems as [|c l IH]; intros w Hn Hs Hd.
  - apply conf_assume. intros Hg.
    assert (Hroot : forall path w', abs_path path [] -> same_tree w w' ->
      conf R w' (snd (os_Mkdir path perm w'))).
    { intros path w' Ha (E & _ & _). apply conf_syscall. intros ll. os_unfold.
      change (resolve false path (set_faults ll w')) with (resolve false path w').
      rewrite (resolve_abs false path [] _ Ha). rewrite walk_nil. simpl.
      unfold create_at. os_unfold. rewrite E.
      destruct (Hd [] (prefix_nil _) Rroot) as [m ->]. reflexivity. }
    cbn [mkdir_all rev app]. change (render (true, [])) with "/".
    apply conf_bind; [apply conf_attempt, conf_stat|]. intros [e|info] w1 E1; [|by destruct (fi_dir info)].
    assert (S1 : same_tree w w1).
    { pose proof (preserves_attempt same_tree _ (stat_same_tree true "/") w) as H. unfold os_Stat in E1. by rewrite E1 in H. }
    apply conf_bind; [reflexivity|]. intros [] w2 [= <-].
    apply conf_bind; [by apply conf_attempt, Hroot|]. intros [e'|[]] w3 _; [|reflexivity].
    apply conf_bind; [apply conf_attempt, conf_stat|].
    intros [?|info] ? _; [reflexivity|by destruct (fi_dir info)].
  - assert (Hpre : forall p, p `prefix_of` rev l -> p `prefix_of` rev (c :: l)).
    { intros p [x E]. exists (x ++ [c]). simpl. by rewrite E, app_assoc. }
    simpl in Hn. apply Forall_app in Hn as [Hn Hc].
    cbn [mkdir_all]. set (path := render (true, rev (c :: l))).
    assert (Hpath : abs_path path (rev l ++ [c])).
    { split; [done|]. by apply Forall_app. }
    apply conf_assume. intros Hg.
    apply conf_bind; [apply conf_attempt, conf_stat|]. intros [e|info] w1 E1; [|by destruct (fi_dir info)].
    assert (S1 : same_tree w w1).
    { pose proof (preserves_attempt same_tree _ (stat_same_tree true path) w) as H. unfold os_Stat in E1. by rewrite E1 in H. }
    assert (Hc1 : conf R w w1) by (by apply conf_same_tree).
    assert (Hc2 : conf R w1 (snd (mkdir_all true l perm w1))).
    { apply IH; [done| |].
      - eapply nosym_no_new_links; [by apply same_tree_no_new_links|].
        intros pre d post E [Hp|]; [|done]. eapply (Hs pre d (post ++ [c])); [|left; by destruct post].
        simpl. by rewrite E, <- app_assoc.
      - intros p Hp HR. eapply conf_dir; eauto. }
    apply conf_bind; [done|]. intros [] w2 E2.
    change (mkdir_all true l perm w1 = (Ok (), w2)) in E2. rewrite E2 in Hc2. simpl in Hc2.
    assert (Hs2 : nosym false (w_nodes w2) [] (rev l ++ [c])).
    { eapply nosym_no_new_links; [|exact Hs]. etrans; [by apply same_tree_no_new_links|].
      pose proof (nnl_mkdir_all true l perm w1) as H. by rewrite E2 in H. }
    apply conf_bind.
    + apply conf_attempt, conf_syscall. intros ll. os_unfold.
      change (resolve false path (set_faults ll w2)) with (resolve false path w2).
      rewrite (resolve_abs false path (rev l ++ [c])) by done.
      destruct (walk_nosym max_symlinks (w_nodes w2) false [] (rev l ++ [c])) as [->|[->| ->]];
        [by apply Forall_app|done| |reflexivity..].
      simpl. destruct (decide (w_nodes w2 !! (rev l ++ [c]) = None)) as [HN|HN].
      * apply conf_create_at; [|by destruct (rev l)|done].
        destruct (decide (R (rev l ++ [c]))) as [HR|HR]; [done|].
        destruct (conf_dir w w2 (rev l ++ [c])) as [m Hm]; [by etrans|done|done| |congruence].
        by apply Hd.
      * unfold create_at. os_unfold. by destruct (w_nodes w2 !! (rev l ++ [c])).
    + intros [e'|[]] w3 _; [|reflexivity]. apply conf_bind; [apply conf_attempt, conf_stat|].
      intros [?|info'] ? _; [reflexivity|by destruct (fi_dir info')].
Qed.
End sequencing.

(** ** The region below a directory *)

Definition below (cs p : list string) : Prop := cs `prefix_of` p /\ p <> cs.

#[export] Instance below_dec cs p : Decision (below cs p).
Proof. unfold below. apply _. Defined.

Lemma below_root cs : ~ below cs [].
Proof. intros [Hp Hne]. apply prefix_nil_inv in Hp. congruence. Qed.

Lemma below_down cs p c : below cs p -> below cs (p ++ [c]).
Proof.
  intros [[x ->] Hne]. split; [exists (x ++ [c]); by rewrite app_assoc|].
  intros E%(f_equal length). rewrite !length_app in E. simpl in E. lia.
Qed.

Lemma below_app cs x : x <> [] -> below cs (cs ++ x).
Proof.
  intros Hx. split; [by exists x|]. intros E%(f_equal length). rewrite length_app in E.
  destruct x; [done|]. simpl in E. lia.
Qed.

Lemma below_not_prefix cs p : p `prefix_of` cs -> ~ below cs p.
Proof. intros H1 [H2 Hne]. by apply Hne, (anti_symm prefix). Qed.

Lemma prefix_below cs x p : p `prefix_of` cs ++ x -> ~ below cs p -> p `prefix_of` cs.
Proof.
  intros Hp Hb. destruct (decide (p = cs)) as [->|Hne]; [done|].
  destruct (prefix_weak_total p cs (cs ++ x)) as [|H]; [done|by exists x|done|].
  exfalso. by apply Hb.
Qed.

#[export] Hint Resolve below_root below_down below_app : go_path.

(** The directory named by [cs] is there, with real directories above it. *)
Definition standing (cs : list string) (w : world) : Prop :=
  forall p, p `prefix_of` cs -> exists m, w_nodes w !! p = Some (NDir m).

(** What the code that works below a root starts from, and finds again after every step. *)
Definition rooted (cs : list string) (w : world) : Prop := good (below cs) w /\ standing cs w.

Lemma rooted_conf cs w w' : conf (below cs) w w' -> rooted cs w -> rooted cs w'.
Proof.
  intros Hc [Hg Hs]. split; [by apply Hc|]. intros p Hp.
  eapply conf_dir; [done|done|by apply below_not_prefix|auto].
Qed.

Lemma standing_nosym f cs w : standing cs w -> nosym f (w_nodes w) [] cs.
Proof.
  intros H pre c post E _ t m. destruct (H (pre ++ [c])) as [m' Hm].
  - exists post. rewrite E. by rewrite <- app_assoc.
  - simpl. congruence.
Qed.

Lemma conf_MkdirAll cs x path perm w :
  rooted cs w -> abs_path path (cs ++ x) -> nosym false (w_nodes w) [] (cs ++ x) ->
  conf (below cs) w (snd (os_MkdirAll path perm w)).
Proof.
  intros [Hg Hs] Hp Hn. unfold os_MkdirAll.
  rewrite decide_False by (by eapply abs_path_not_empty).
  rewrite (elems_abs _ _ Hp). pose proof Hp as [-> Hnames]. rewrite IsAbs_render_true.
  apply conf_mkdir_all; rewrite ?rev_involutive; eauto with go_path.
  - apply _.
  - intros p Hpre Hb. apply Hs. by eapply prefix_below.
Qed.

(** A path below the root whose parents are not links leads below the root. *)
Lemma leads_below f cs x path w :
  abs_path path (cs ++ x) -> x <> [] -> nosym f (w_nodes w) [] (cs ++ x) ->
  leads (below cs) f path w.
Proof.
  intros Hp Hx Hn q Hq. rewrite (resolve_abs _ _ _ _ Hp) in Hq.
  destruct (walk_nosym max_symlinks (w_nodes w) f [] (cs ++ x)) as [E|[E|E]];
    [apply Hp|done|..]; rewrite E in Hq; [injection Hq as <-; exact (below_app cs x Hx)|done|done].
Qed.

(** Links nowhere on the way to the parent: then the entry itself is reached unfollowed. *)
Lemma nosym_parent cs nd c : nosym true nd [] cs -> nosym false nd [] (cs ++ [c]).
Proof.
  intros H pre d post E [Hp|]; [|done]. destruct post as [|e post _] using rev_ind; [done|].
  assert (E' : cs = pre ++ d :: post).
  { apply (app_inj_tail cs (pre ++ d :: post) c e). by rewrite E, <- app_assoc. }
  eapply (H pre d post E'). by right.
Qed.

(** ** What Stat and Lstat say *)

Lemma stat_lookup f path w :
  match fst (stat_gen f path w) with
  | Ok info => exists q n, resolve f path w = inr q /\ w_nodes w !! q = Some n /\ info = info_of w n
  | Err e => os_IsNotExist e = true ->
             resolve f path w = inl ENOENT
             \/ exists q, resolve f path w = inr q /\ w_nodes w !! q = None
  | Panic _ => False
  end.
Proof.
  assert (H : forall l, match fst ((q ← resolving f path; o ← node_at q;
      match o with None => oserr ENOENT | Some n => gets (fun w => info_of w n) end) (set_faults l w)) with
    | Ok info => exists q n, resolve f path w = inr q /\ w_nodes w !! q = Some n /\ info = info_of w n
    | Err e => os_IsNotExist e = true ->
               resolve f path w = inl ENOENT
               \/ exists q, resolve f path w = inr q /\ w_nodes w !! q = None
    | Panic _ => False end).
  { intros l. os_unfold. change (resolve f path (set_faults l w)) with (resolve f path w).
    destruct (resolve f path w) as [e|q]; simpl; [destruct e; auto; done|].
    destruct (w_nodes w !! q) as [n|] eqn:E; simpl; eauto 10. }
  unfold stat_gen, syscall. destruct (w_faults w) as [|[e|] l] eqn:E.
  - specialize (H []). by destruct w; simpl in *; subst.
  - case_decide; [apply H|]. simpl. by destruct e.
  - apply H.
Qed.

Lemma nosym_snoc nd cs c :
  nosym true nd [] cs -> (forall t m, nd !! (cs ++ [c]) <> Some (NSymlink t m)) ->
  nosym true nd [] (cs ++ [c]).
Proof.
  intros H Hc pre d post E _ t m. destruct post as [|e post _] using rev_ind.
  - simpl. apply app_inj_tail in E as [<- <-]. apply Hc.
  - assert (E' : cs = pre ++ d :: post).
    { apply (app_inj_tail cs (pre ++ d :: post) c e). by rewrite E, <- app_assoc. }
    eapply (H pre d post E'). by right.
Qed.

(** Nothing there: then nothing below, so no link either. *)
Lemma nosym_missing w cs c rest :
  wf w -> nosym true (w_nodes w) [] cs -> w_nodes w !! (cs ++ [c]) = None ->
  nosym true (w_nodes w) [] (cs ++ c :: rest).
Proof.
  intros Hw H HN pre d post E _ t m Hl. simpl in Hl.
  destruct (decide (length pre < length cs)) as [Hlen|Hlen].
  - assert (Hp : (pre ++ [d]) `prefix_of` cs).
    { destruct (prefix_weak_total (pre ++ [d]) cs (cs ++ c :: rest)) as [|[x Hx]]; [|by exists (c :: rest)|done|].
      - exists post. by rewrite E, <- app_assoc.
      - destruct x as [|y x]; [rewrite app_nil_r in Hx; by exists []; rewrite app_nil_r|].
        apply (f_equal length) in Hx. rewrite !length_app in Hx. simpl in Hx. lia. }
    destruct Hp as [x Hx]. rewrite <- app_assoc in Hx.
    eapply (H pre d x Hx); [by right|]. exact Hl.
  - destruct (prefix_weak_total (cs ++ [c]) (pre ++ [d]) (cs ++ c :: rest)) as [Hp|Hp].
    + exists rest. by rewrite <- app_assoc.
    + exists post. by rewrite E, <- app_assoc.
    + destruct Hp as [x Hx]. rewrite Hx in Hl. destruct x as [|y x].
      * rewrite app_nil_r in Hl. congruence.
      * destruct (wf_prefix w _ _ _ Hw Hl) as [m' Hm]; [done|congruence].
    + destruct Hp as [x Hx]. destruct x as [|y x].
      * rewrite app_nil_r in Hx. rewrite Hx in HN. congruence.
      * apply (f_equal length) in Hx. rewrite !length_app in Hx. simpl in Hx. lia.
Qed.

(** An entry that is there is found by a walk that meets no link. *)
Lemma resolve_existing f path cs w n :
  wf w -> abs_path path cs -> nosym f (w_nodes w) [] cs -> w_nodes w !! cs = Some n ->
  resolve f path w = inr cs.
Proof.
  intros Hw Hp Hn Hl. rewrite (resolve_abs _ _ _ _ Hp). rewrite walk_dirs; [done|apply Hp|done|].
  intros pre c post -> Hpost. simpl. apply (wf_prefix w _ post n); [done| |done].
  by rewrite <- app_assoc.
Qed.

Lemma Lstat_nosym path cs c w :
  wf w -> abs_path path (cs ++ [c]) -> nosym true (w_nodes w) [] cs ->
  match fst (os_Lstat path w) with
  | Ok info => exists n, w_nodes w !! (cs ++ [c]) = Some n /\ info = info_of w n
  | Err e => os_IsNotExist e = true -> w_nodes w !! (cs ++ [c]) = None
  | Panic _ => False
  end.
Proof.
  intros Hw Hp Hn. pose proof (stat_lookup false path w) as H. unfold os_Lstat.
  pose proof (nosym_parent cs (w_nodes w) c Hn) as Hn'.
  destruct (walk_nosym max_symlinks (w_nodes w) false [] (cs ++ [c])) as [E|E]; [apply Hp|done|..];
    rewrite <- (resolve_abs false path (cs ++ [c]) w Hp) in E.
  - simpl in E. rewrite E in H. destruct (fst (stat_gen false path w)) as [info|e|v]; [| |done].
    + destruct H as (q & n & [= <-] & Hq & Hi). eauto.
    + intros He. destruct (H He) as [|(q & [= <-] & Hq)]; [done|done].
  - destruct (fst (stat_gen false path w)) as [info|e|v]; [| |done].
    + destruct H as (q & n & Hq & _). destruct E; congruence.
    + intros _. destruct (w_nodes w !! (cs ++ [c])) as [n|] eqn:Hl; [|done].
      rewrite (resolve_existing false path (cs ++ [c]) w n) in E by done. destruct E; congruence.
Qed.

(** ** What a new link changes: one entry *)

Lemma create_at_other q n w p : p <> q -> w_nodes (snd (create_at q n w)) !! p = w_nodes w !! p.
Proof.
  intros Hne. unfold create_at. os_unfold. destruct (w_nodes w !! q); [done|]. simpl.
  destruct (w_nodes w !! removelast q) as [[]|]; try done. simpl. by rewrite lookup_insert_ne.
Qed.

Lemma Symlink_other old new w p :
  resolve false new w <> inr p -> w_nodes (snd (os_Symlink old new w)) !! p = w_nodes w !! p.
Proof.
  intros Hne. unfold os_Symlink.
  assert (H : forall l, w_nodes (snd ((q ← resolving false new; m ← new_meta 511;
      create_at q (NSymlink old m)) (set_faults l w))) !! p = w_nodes w !! p).
  { intros l. os_unfold. change (resolve false new (set_faults l w)) with (resolve false new w).
    destruct (resolve false new w) as [e|q]; [done|].
    apply (create_at_other q _ (set_faults l w)). congruence. }
  unfold syscall. destruct (w_faults w) as [|[e|] l] eqn:E; [|case_decide; [apply H|done]|apply H].
  specialize (H []). by destruct w; simpl in *; subst.
Qed.

(** ** Files keep their names under every call that neither removes nor renames *)

Definition files_kept (w w' : world) : Prop :=
  forall p i, w_nodes w !! p = Some (NFile i) -> w_nodes w' !! p = Some (NFile i).

#[export] Instance files_kept_preorder : PreOrder files_kept.
Proof. split; [by intros w p i|intros w1 w2 w3 H12 H23 p i H; auto]. Qed.
#[export] Instance files_kept_stable : FaultStable files_kept.
Proof. by intros w l p i. Qed.

Lemma same_tree_files_kept w w' : same_tree w w' -> files_kept w w'.
Proof. intros (E & _ & _) p i. by rewrite E. Qed.

Lemma kept_update_meta q f : preserves files_kept (update_meta q f).
Proof.
  intros w p i Hp. unfold update_meta. os_unfold.
  destruct (w_nodes w !! q) as [[m|t m|j]|] eqn:E; simpl; try done;
    (rewrite lookup_insert_ne; [done|]; intros ->; congruence).
Qed.
Lemma kept_inodes f : preserves files_kept (modify (set_inodes f)).
Proof. by intros w p i. Qed.
#[export] Hint Resolve kept_update_meta kept_inodes : go_preserves.

Lemma kept_stat f p : preserves files_kept (stat_gen f p).
Proof. eapply preserves_weaken; [apply same_tree_files_kept|apply stat_same_tree]. Qed.
Lemma kept_fd_close i : preserves files_kept (fd_close i).
Proof. eapply preserves_weaken; [apply same_tree_files_kept|apply fd_close_same_tree]. Qed.
Lemma kept_fd_write i d : preserves files_kept (fd_write i d).
Proof. unfold fd_write, update_inode. solve_calls. Qed.
Lemma kept_Chmod p m : preserves files_kept (os_Chmod p m).
Proof. unfold os_Chmod. solve_calls. Qed.
Lemma kept_chown f p u g : preserves files_kept (chown_gen f p u g).
Proof. unfold chown_gen. solve_calls. Qed.
Lemma kept_Chtimes p t : preserves files_kept (os_Chtimes p t).
Proof. unfold os_Chtimes. solve_calls. Qed.
#[export] Hint Resolve kept_stat kept_fd_close kept_fd_write kept_Chmod kept_chown kept_Chtimes
  : go_preserves.

(** ** Deciding well-formedness of a concrete world *)

Definition is_dir_at (w : world) (p : list string) : bool :=
  match w_nodes w !! p with Some (NDir _) => true | _ => false end.

Definition live_check (w : world) (i : nat) : bool :=
  bool_decide (i < w_next w) && bool_decide (is_Some (w_inodes w !! i)).

Definition wf_check (w : world) : bool :=
  is_dir_at w [] && forallb (fun kn : list string * node =>
    (bool_decide (kn.1 = []) || is_dir_at w (removelast kn.1))
    && match kn.2 with NFile i => live_check w i | _ => true end) (map_to_list (w_nodes w)).

Definition separate_check (cs : list string) (w : world) : bool :=
  forallb (fun kn : list string * node =>
    match kn.2 with
    | NFile i => negb (bool_decide (below cs kn.1)) ||
        forallb (fun kn' : list string * node =>
          bool_decide (below cs kn'.1) || negb (bool_decide (kn'.2 = NFile i))) (map_to_list (w_nodes w))
    | _ => true
    end) (map_to_list (w_nodes w)).

Fixpoint standing_check (w : world) (pre cs : list string) : bool :=
  is_dir_at w pre && match cs with [] => true | c :: cs' => standing_check w (pre ++ [c]) cs' end.

Definition rooted_check (cs : list string) (w : world) : bool :=
  wf_check w && separate_check cs w && standing_check w [] cs.

Lemma is_dir_at_true w p : is_dir_at w p = true -> exists m, w_nodes w !! p = Some (NDir m).
Proof. unfold is_dir_at. destruct (w_nodes w !! p) as [[]|]; try done. eauto. Qed.

Lemma wf_check_sound w : wf_check w = true -> wf w.
Proof.
  unfold wf_check. intros [H1 H2]%andb_true_iff. rewrite forallb_forall in H2.
  assert (Hall : forall p n, w_nodes w !! p = Some n -> (p = [] \/ is_dir_at w (removelast p) = true)
     /\ forall i, n = NFile i -> live w i).
  { intros p n Hp. specialize (H2 (p, n)). simpl in H2. rewrite andb_true_iff, orb_true_iff, bool_decide_eq_true in H2.
    destruct H2 as [H3 H4]; [by apply list_elem_of_In, elem_of_map_to_list|]. split; [done|].
    intros i ->. unfold live_check in H4. by rewrite andb_true_iff, !bool_decide_eq_true in H4. }
  split; [by apply is_dir_at_true| |].
  - intros p c n Hn. destruct (Hall _ _ Hn) as [[H|H] _]; [by destruct p|].
    rewrite removelast_last in H. by apply is_dir_at_true.
  - intros p i Hi. by eapply Hall.
Qed.

Lemma separate_check_sound cs w : separate_check cs w = true -> separate (below cs) w.
Proof.
  unfold separate_check. rewrite forallb_forall. intros H p q i Hp Hq Ep Eq.
  specialize (H (p, NFile i) ltac:(by apply list_elem_of_In, elem_of_map_to_list)). simpl in H.
  rewrite bool_decide_eq_true_2 in H by done. simpl in H. rewrite forallb_forall in H.
  specialize (H (q, NFile i) ltac:(by apply list_elem_of_In, elem_of_map_to_list)). simpl in H.
  rewrite bool_decide_eq_false_2, bool_decide_eq_true_2 in H; done.
Qed.

Lemma standing_check_sound w pre cs :
  standing_check w pre cs = true ->
  forall p, p `prefix_of` cs -> exists m, w_nodes w !! (pre ++ p) = Some (NDir m).
Proof.
  revert pre. induction cs as [|c cs IH]; intros pre; simpl; intros [H1 H2]%andb_true_iff p Hp.
  - apply prefix_nil_inv in Hp as ->. rewrite app_nil_r. by apply is_dir_at_true.
  - destruct p as [|d p]; [rewrite app_nil_r; by apply is_dir_at_true|].
    assert (d = c) as -> by (by eapply prefix_cons_inv_1).
    apply prefix_cons_inv_2 in Hp. destruct (IH _ H2 p Hp) as [m Hm].
    exists m. by rewrite <- app_assoc in Hm.
Qed.

Lemma rooted_check_sound cs w : rooted_check cs w = true -> rooted cs w.
Proof.
  unfold rooted_check. rewrite !andb_true_iff. intros [[H1 H2] H3]. split; [split|].
  - by apply wf_check_sound.
  - by apply separate_check_sound.
  - intros p Hp. by apply (standing_check_sound w [] cs).
Qed.

Lemma standing_check_ok cs w : standing_check w [] cs = true -> standing cs w.
Proof. intros H p Hp. by apply (standing_check_sound w [] cs). Qed.

(** Every entry has a proper name. *)
Definition proper_names (w : world) : Prop :=
  forall p n, w_nodes w !! p = Some n -> Forall is_name p.

Definition proper_names_check (w : world) : bool :=
  forallb (fun kn : list string * node => bool_decide (Forall is_name kn.1)) (map_to_list (w_nodes w)).

Lemma proper_names_check_sound w : proper_names_check w = true -> proper_names w.
Proof.
  unfold proper_names_check. rewrite forallb_forall. intros H p n Hp.
  specialize (H (p, n) ltac:(by apply list_elem_of_In, elem_of_map_to_list)). simpl in H.
  by apply bool_decide_eq_true in H.
Qed.

(** An entry of a standing directory is found, whatever it is, unless it is a link to follow. *)
Lemma standing_resolve f path q c w :
  standing q w -> abs_path path (q ++ [c]) ->
  (f = true -> forall t m, w_nodes w !! (q ++ [c]) <> Some (NSymlink t m)) ->
  resolve f path w = inr (q ++ [c]).
Proof.
  intros Hst Hp Hl. rewrite (resolve_abs _ _ _ _ Hp). rewrite walk_dirs; [done|apply Hp| |].
  - destruct f; [apply nosym_snoc; [by apply standing_nosym|auto]|].
    apply nosym_parent. by apply standing_nosym.
  - intros pre d post E Hpost. simpl. apply Hst.
    destruct post as [|e post _] using rev_ind; [done|]. exists post.
    assert (E' : q = pre ++ d :: post).
    { apply (app_inj_tail q (pre ++ d :: post) c e). by rewrite E, <- app_assoc. }
    by rewrite E', <- app_assoc.
Qed.
