(* ===== verification/FileLaws.v ===== *)
(** * What a successful call on a file does

    [Confine] bounds what a call can change; this file says what it did change when it
    succeeded: the contents, mode, owner and times of the file a path leads to. *)

From S2P Require Import Prelude GoPath HostFS Confine.

(** A system call that succeeds ran its body. *)
Lemma syscall_Ok {A} (m : OS A) w a w' :
  syscall m w = (Ok a, w') -> exists l, m (set_faults l w) = (Ok a, w').
Proof.
  unfold syscall. destruct (w_faults w) as [|[e|] l] eqn:E.
  - exists []. by destruct w; simpl in *; subst.
  - case_decide; [eauto|done].
  - eauto.
Qed.

(** One that fails either ran its body or changed nothing. *)
Lemma syscall_Err {A} (m : OS A) w e w' :
  syscall m w = (Err e, w') -> (exists l, w' = set_faults l w) \/ exists l, m (set_faults l w) = (Err e, w').
Proof.
  unfold syscall. destruct (w_faults w) as [|[f|] l] eqn:E.
  - right. exists []. by destruct w; simpl in *; subst.
  - case_decide; [eauto|]. intros [= _ <-]. eauto.
  - eauto.
Qed.

Lemma bind_Ok {S A B} (m : GoM S A) (k : A -> GoM S B) s b s' :
  (m ≫= k) s = (Ok b, s') -> exists a s1, m s = (Ok a, s1) /\ k a s1 = (Ok b, s').
Proof.
  unfold mbind, GoM_bind. destruct (m s) as [[a|e|v] s1] eqn:E; [|done..]. eauto.
Qed.

Lemma attempt_inr {S A} (m : GoM S A) s a s' :
  attempt m s = (Ok (inr a), s') -> m s = (Ok a, s').
Proof. unfold attempt. by destruct (m s) as [[x|e|v] s1] eqn:E; intros; simplify_eq. Qed.

Lemma attempt_inl {S A} (m : GoM S A) s e s' :
  attempt m s = (Ok (inl e), s') -> m s = (Err e, s').
Proof. unfold attempt. by destruct (m s) as [[x|e'|v] s1] eqn:E; intros; simplify_eq. Qed.

Lemma wrap_Ok {S A} f (m : GoM S A) s a s' : wrap_err f m s = (Ok a, s') -> m s = (Ok a, s').
Proof. unfold wrap_err. destruct (m s) as [[x|e|v] s1]; congruence. Qed.

Lemma fail_if_Ok {S} b e a (s s' : S) : fail_if b e s = (Ok a, s') -> b = false /\ s' = s.
Proof. unfold fail_if. destruct b; intros H; [done|]. by injection H. Qed.

Lemma defer_Ok {S A} d (m : GoM S A) s a s' :
  defer d m s = (Ok a, s') -> exists s1, m s = (Ok a, s1) /\ snd (d s1) = s'.
Proof.
  unfold defer. destruct (m s) as [o s1]. destruct (d s1) as [[x|e|v] s2] eqn:Ed; intros H; simplify_eq; eauto.
  all: exists s1; by rewrite Ed.
Qed.

(** Take a successful run of a sequence apart. *)
Ltac run_Ok H :=
  repeat match type of H with
  | mbind _ _ _ = (Ok _, _) =>
      let a := fresh "a" in let s := fresh "w" in let E := fresh "E" in
      apply bind_Ok in H as (a & s & E & H); try (apply fail_if_Ok in E as [E ->])
  end.

(** ** A file *)

(** The path [q] holds the inode [i], which is [n]. *)
Definition file_at (q : list string) (i : nat) (n : inode) (w : world) : Prop :=
  w_nodes w !! q = Some (NFile i) /\ w_inodes w !! i = Some n.

Lemma file_at_same_tree q i n w w' : same_tree w w' -> file_at q i n w -> file_at q i n w'.
Proof. intros (E1 & E2 & _). unfold file_at. by rewrite E1, E2. Qed.

Lemma resolve_nodes f path w w' :
  w_nodes w' = w_nodes w -> w_cwd w' = w_cwd w -> resolve f path w' = resolve f path w.
Proof. unfold resolve. by intros -> ->. Qed.

(** After a call on an open file, or on the metadata of a file, the tree is as before. *)
Definition same_names (w w' : world) : Prop := w_nodes w' = w_nodes w /\ w_cwd w' = w_cwd w.

#[export] Instance same_names_preorder : PreOrder same_names.
Proof. split; [done|]. intros w1 w2 w3 [H1 H2] [H3 H4]. split; congruence. Qed.
#[export] Instance same_names_stable : FaultStable same_names.
Proof. done. Qed.

Lemma resolve_same_names f path w w' : same_names w w' -> resolve f path w' = resolve f path w.
Proof. intros [H1 H2]. by apply resolve_nodes. Qed.

Lemma names_stat f p : preserves same_names (stat_gen f p).
Proof. unfold stat_gen. solve_calls. Qed.
Lemma names_inodes f : preserves same_names (modify (set_inodes f)).
Proof. done. Qed.
#[export] Hint Resolve names_stat names_inodes : go_preserves.
Lemma names_fd_write i d : preserves same_names (fd_write i d).
Proof. unfold fd_write, update_inode. solve_calls. Qed.
Lemma names_fd_close i : preserves same_names (fd_close i).
Proof. unfold fd_close. solve_calls. Qed.
#[export] Hint Resolve names_fd_write names_fd_close : go_preserves.

Lemma file_fd_write q i n d w w' :
  file_at q i n w -> fd_write i d w = (Ok tt, w') ->
  file_at q i (Inode (i_data n +:+ d) (i_meta n)) w' /\ same_names w w'.
Proof.
  intros [H1 H2] (l & H)%syscall_Ok. unfold update_inode, modify in H. injection H as <-.
  split; [|done]. split; [done|]. simpl. rewrite lookup_alter_eq. by rewrite H2.
Qed.

Lemma update_meta_file q i n f w w' l :
  file_at q i n w -> update_meta q f (set_faults l w) = (Ok tt, w') ->
  file_at q i (Inode (i_data n) (f (i_meta n))) w' /\ same_names w w'.
Proof.
  intros [H1 H2]. unfold update_meta. os_unfold. rewrite H1. intros [= <-].
  split; [|done]. split; [done|]. simpl. rewrite lookup_alter_eq. by rewrite H2.
Qed.

Section on_path.
Context (path : string) (q : list string) (i : nat).

Lemma file_Chmod n mode w w' :
  resolve true path w = inr q -> file_at q i n w -> os_Chmod path mode w = (Ok tt, w') ->
  file_at q i (Inode (i_data n) (Meta mode (m_uid (i_meta n)) (m_gid (i_meta n)) (m_mtime (i_meta n)))) w'
  /\ same_names w w'.
Proof.
  intros Hr Hf (l & H)%syscall_Ok. unfold resolving, mbind, GoM_bind in H.
  change (resolve true path (set_faults l w)) with (resolve true path w) in H. rewrite Hr in H.
  by eapply (update_meta_file q i n (fun m => Meta mode (m_uid m) (m_gid m) (m_mtime m))) in H.
Qed.

Lemma file_Chtimes n t w w' :
  resolve true path w = inr q -> file_at q i n w -> os_Chtimes path t w = (Ok tt, w') ->
  file_at q i (Inode (i_data n) (Meta (m_mode (i_meta n)) (m_uid (i_meta n)) (m_gid (i_meta n)) t)) w'
  /\ same_names w w'.
Proof.
  intros Hr Hf (l & H)%syscall_Ok. unfold resolving, mbind, GoM_bind in H.
  change (resolve true path (set_faults l w)) with (resolve true path w) in H. rewrite Hr in H.
  by eapply (update_meta_file q i n (fun m => Meta (m_mode m) (m_uid m) (m_gid m) t)) in H.
Qed.

(** A chown that fails leaves the file as it was. *)
Lemma file_chown n f uid gid w o w' :
  resolve f path w = inr q -> file_at q i n w -> chown_gen f path uid gid w = (o, w') ->
  (exists u g, file_at q i (Inode (i_data n) (Meta (m_mode (i_meta n)) u g (m_mtime (i_meta n)))) w'
     /\ (o = Ok tt -> u = keep_id uid (m_uid (i_meta n)) /\ g = keep_id gid (m_gid (i_meta n))))
  /\ same_names w w'.
Proof.
  intros Hr [H1 H2]. unfold chown_gen.
  assert (Hsame : forall e l, Err e = o -> set_faults l w = w' ->
    (exists u g, file_at q i (Inode (i_data n) (Meta (m_mode (i_meta n)) u g (m_mtime (i_meta n)))) w'
     /\ (o = Ok tt -> u = keep_id uid (m_uid (i_meta n)) /\ g = keep_id gid (m_gid (i_meta n))))
    /\ same_names w w').
  { intros e l <- <-. split; [|done]. exists (m_uid (i_meta n)), (m_gid (i_meta n)).
    split; [|done]. split; [done|]. simpl. rewrite H2. by destruct n as [? []]. }
  assert (Hgo : forall l, (q ← resolving f path; o ← node_at q; w ← get_state;
      match o with
      | None => oserr ENOENT
      | Some n =>
          let m := fi_meta (info_of w n) in
          if bool_decide (w_euid w = 0%Z)
             || bool_decide (keep_id uid (m_uid m) = m_uid m /\ keep_id gid (m_gid m) = m_gid m)
          then update_meta q (fun m => Meta (m_mode m) (keep_id uid (m_uid m)) (keep_id gid (m_gid m)) (m_mtime m))
          else oserr EPERM
      end) (set_faults l w) = (o, w') ->
    (exists u g, file_at q i (Inode (i_data n) (Meta (m_mode (i_meta n)) u g (m_mtime (i_meta n)))) w'
     /\ (o = Ok tt -> u = keep_id uid (m_uid (i_meta n)) /\ g = keep_id gid (m_gid (i_meta n))))
    /\ same_names w w').
  { intros l. unfold update_meta. os_unfold.
    change (resolve f path (set_faults l w)) with (resolve f path w).
    rewrite Hr. simpl. rewrite H1. simpl. case_match; [|intros Hx; injection Hx as <- <-; by eapply Hsame].
    change (w_nodes (set_faults l w)) with (w_nodes w). rewrite H1.
    intros Hx; injection Hx as <- <-. split; [|done]. eexists _, _. split; [|done].
    split; [done|]. simpl. rewrite lookup_alter_eq, H2. done. }
  unfold syscall. destruct (w_faults w) as [|[e|] l] eqn:E; [|case_decide; [apply Hgo|]|apply Hgo].
  - specialize (Hgo []). by destruct w; simpl in *; subst.
  - intros Hx; injection Hx as <- <-. by eapply Hsame.
Qed.
End on_path.

(** Opening with O_TRUNC leaves an empty file, new or old. *)
Lemma open_trunc path fl perm w i w' :
  wf w -> o_trunc fl = true -> os_open path fl perm w = (Ok i, w') ->
  exists q m, resolve (negb (o_nofollow fl || o_excl fl)) path w = inr q
    /\ file_at q i (Inode "" m) w' /\ w_cwd w' = w_cwd w
    /\ (w_nodes w' = w_nodes w \/ w_nodes w' = <[q := NFile i]> (w_nodes w)).
Proof.
  intros Hw Ht (l & H)%syscall_Ok. revert H. os_unfold.
  change (resolve (negb (o_nofollow fl || o_excl fl)) path (set_faults l w))
    with (resolve (negb (o_nofollow fl || o_excl fl)) path w).
  destruct (resolve _ path w) as [e|q]; [done|]. simpl.
  destruct (w_nodes w !! q) as [[m|t m|j]|] eqn:E; simpl; [by destruct (o_excl fl)..| |].
  - destruct (o_excl fl); [done|]. rewrite Ht. simpl. intros [= <- <-].
    destruct (wf_ino _ Hw _ _ E) as [_ [n Hn]].
    exists q, (i_meta n). split; [done|]. split; [|auto]. split; [done|]. simpl.
    by rewrite lookup_alter_eq, Hn.
  - destruct (o_creat fl); [|done]. unfold fresh_file, create_at. os_unfold. rewrite E. simpl.
    destruct (w_nodes w !! removelast q) as [[m|t m|j]|] eqn:Ep; simpl; try done.
    intros [= <- <-]. eexists q, _. split; [done|]. split; [|auto].
    split; simpl; by rewrite lookup_insert_eq.
Qed.

(** Following a path that ends at a file is the same as not following it. *)
Lemma walk_file_follow k nd cur cs q :
  walk k nd false cur cs = inr q -> (forall t m, nd !! q <> Some (NSymlink t m)) ->
  walk k nd true cur cs = inr q.
Proof.
  revert cur cs. induction k as [|k IHk]; intros cur cs;
  revert cur; induction cs as [|c rest IH]; intros cur; simpl; try done;
    (case_decide; [apply IH|]); (case_decide; [apply IH|]).
  - destruct (nd !! (cur ++ [c])) as [[m|t m|i]|] eqn:E; [apply IH| |done|done].
    case_bool_decide; simpl; [|done]. intros [= <-] Hq. by destruct (Hq t m).
  - destruct (nd !! (cur ++ [c])) as [[m|t m|i]|] eqn:E; [apply IH| |done|done].
    case_bool_decide; simpl; [|apply IHk]. intros [= <-] Hq. by destruct (Hq t m).
Qed.

Lemma resolve_file_follow path w q i :
  resolve false path w = inr q -> w_nodes w !! q = Some (NFile i) -> resolve true path w = inr q.
Proof.
  unfold resolve. case_decide; [done|]. intros Hr Hq. apply walk_file_follow in Hr; [done|].
  intros t m. congruence.
Qed.

(** ** Panics *)

Lemma no_panic_syscall {A} (m : OS A) : no_panic m -> no_panic (syscall m).
Proof.
  intros H s v s'. unfold syscall. destruct (w_faults s) as [|[e|] l]; [apply H| |apply H].
  case_decide; [apply H|done].
Qed.
Lemma no_panic_resolving f p : no_panic (resolving f p).
Proof. intros s v s'. unfold resolving. by destruct (resolve f p s). Qed.
#[export] Hint Resolve no_panic_resolving : go_no_panic.

(** No call of [os] panics. *)
Ltac solve_calls_no_panic :=
  unfold node_at, oserr, new_meta, update_inode;
  repeat first [ progress solve_no_panic | apply no_panic_syscall ].

Lemma no_panic_create_at q n : no_panic (create_at q n).
Proof. unfold create_at. solve_calls_no_panic. Qed.
Lemma no_panic_update_meta q f : no_panic (update_meta q f).
Proof. unfold update_meta. solve_calls_no_panic. Qed.
#[export] Hint Resolve no_panic_create_at no_panic_update_meta : go_no_panic.
Lemma no_panic_stat f p : no_panic (stat_gen f p).
Proof. unfold stat_gen. solve_calls_no_panic. Qed.
Lemma no_panic_Mkdir p m : no_panic (os_Mkdir p m).
Proof. unfold os_Mkdir. solve_calls_no_panic. Qed.
#[export] Hint Resolve no_panic_stat no_panic_Mkdir : go_no_panic.
Lemma no_panic_mkdir_all b l perm : no_panic (mkdir_all b l perm).
Proof. induction l as [|c l IH]; cbn [mkdir_all]; unfold os_Stat, os_Lstat; solve_calls_no_panic. Qed.
#[export] Hint Resolve no_panic_mkdir_all : go_no_panic.
Lemma no_panic_MkdirAll p perm : no_panic (os_MkdirAll p perm).
Proof. unfold os_MkdirAll. solve_calls_no_panic. Qed.
Lemma no_panic_Remove p : no_panic (os_Remove p).
Proof. unfold os_Remove. solve_calls_no_panic. Qed.
Lemma no_panic_RemoveAll p : no_panic (os_RemoveAll p).
Proof.
  unfold os_RemoveAll. case_decide; [solve_calls_no_panic|]. case_decide; [solve_calls_no_panic|].
  apply no_panic_syscall. intros w v w'. by destruct (resolve false p w) as [[]|[]].
Qed.
Lemma no_panic_ReadDir p : no_panic (os_ReadDir p).
Proof. unfold os_ReadDir. solve_calls_no_panic. Qed.
Lemma no_panic_Symlink t p : no_panic (os_Symlink t p).
Proof. unfold os_Symlink. solve_calls_no_panic. Qed.
Lemma no_panic_Link o n : no_panic (os_Link o n).
Proof. unfold os_Link. solve_calls_no_panic. Qed.
Lemma no_panic_Rename o n : no_panic (os_Rename o n).
Proof. unfold os_Rename. solve_calls_no_panic. Qed.
Lemma no_panic_fresh_file q p : no_panic (fresh_file q p).
Proof. unfold fresh_file. solve_calls_no_panic. Qed.
#[export] Hint Resolve no_panic_fresh_file : go_no_panic.
Lemma open_no_panic path fl perm : no_panic (os_open path fl perm).
Proof. unfold os_open. solve_calls_no_panic. Qed.
Lemma no_panic_fd_write i d : no_panic (fd_write i d).
Proof. unfold fd_write. solve_calls_no_panic. Qed.
Lemma no_panic_fd_close i : no_panic (fd_close i).
Proof. unfold fd_close. solve_calls_no_panic. Qed.
Lemma no_panic_ReadFile p : no_panic (os_ReadFile p).
Proof. unfold os_ReadFile. solve_calls_no_panic. Qed.
Lemma no_panic_Chmod p m : no_panic (os_Chmod p m).
Proof. unfold os_Chmod. solve_calls_no_panic. Qed.
Lemma no_panic_chown f p u g : no_panic (chown_gen f p u g).
Proof. unfold chown_gen. solve_calls_no_panic. Qed.
Lemma no_panic_Chtimes p t : no_panic (os_Chtimes p t).
Proof. unfold os_Chtimes. solve_calls_no_panic. Qed.
#[export] Hint Resolve no_panic_MkdirAll no_panic_Remove no_panic_RemoveAll no_panic_ReadDir
  no_panic_Symlink no_panic_Link no_panic_Rename open_no_panic no_panic_fd_write no_panic_fd_close
  no_panic_ReadFile no_panic_Chmod no_panic_chown no_panic_Chtimes : go_no_panic.

(** ** Writing through a temporary file

    Both [WriteBlob] and [WriteJSON] create a temporary file next to their target, write it,
    close it and rename it over the target, with a deferred removal. [temp_state w0 d w] says
    that [w] is [w0] with the temporary file [tq], inode [i], holding [d]. *)

Lemma open_Err path fl perm w e w' : os_open path fl perm w = (Err e, w') -> same_tree w w'.
Proof.
  intros [[l ->]|[l H]]%syscall_Err; [done|]. revert H. os_unfold.
  change (resolve (negb (o_nofollow fl || o_excl fl)) path (set_faults l w))
    with (resolve (negb (o_nofollow fl || o_excl fl)) path w).
  destruct (resolve _ path w) as [e'|q]; [by intros [= _ <-]|]. simpl.
  destruct (w_nodes w !! q) as [[m|t m|j]|] eqn:E; simpl.
  - destruct (o_excl fl); by intros [= _ <-].
  - destruct (o_excl fl); by intros [= _ <-].
  - destruct (o_excl fl); [by intros [= _ <-]|]. by destruct (o_trunc fl).
  - destruct (o_creat fl); [|by intros [= _ <-]]. unfold fresh_file, create_at. os_unfold. rewrite E. simpl.
    destruct (w_nodes w !! removelast q) as [[m|t m|j]|]; simpl; first [done|by intros [= _ <-]].
Qed.

Lemma open_excl path fl perm w i w' :
  o_excl fl = true -> os_open path fl perm w = (Ok i, w') ->
  exists q m, resolve false path w = inr q /\ w_nodes w !! q = None /\ i = w_next w
    /\ w_nodes w' = <[q := NFile i]> (w_nodes w) /\ w_inodes w' = <[i := Inode "" m]> (w_inodes w)
    /\ w_next w' = S (w_next w) /\ w_cwd w' = w_cwd w.
Proof.
  intros Hx (l & H)%syscall_Ok. revert H. rewrite Hx, orb_true_r. os_unfold.
  change (resolve false path (set_faults l w)) with (resolve false path w).
  destruct (resolve false path w) as [e|q]; [done|]. simpl.
  destruct (w_nodes w !! q) as [[m|t m|j]|] eqn:E; simpl; try done.
  destruct (o_creat fl); [|done]. unfold fresh_file, create_at. os_unfold. rewrite E. simpl.
  destruct (w_nodes w !! removelast q) as [[m|t m|j]|]; simpl; try done.
  intros [= <- <-]. eexists q, _. split_and!; done.
Qed.

Section temp_file.
(** The tree before, the directory and the last element of the target. *)
Context (w0 : world) (d : list string) (c : string).
Hypothesis wf0 : wf w0.
Hypothesis standing0 : standing d w0.

Definition temp_state (tq : list string) (i : nat) (data : string) (w : world) : Prop :=
  w_nodes w0 !! tq = None /\ i = w_next w0 /\ w_cwd w = w_cwd w0 /\
  exists m, w_nodes w = <[tq := NFile i]> (w_nodes w0) /\ w_inodes w = <[i := Inode data m]> (w_inodes w0)
    /\ w_next w = S (w_next w0).

Lemma temp_same_tree tq i data w w' :
  same_tree w w' -> w_cwd w' = w_cwd w -> temp_state tq i data w -> temp_state tq i data w'.
Proof.
  intros (E1 & E2 & E4) E3 (H1 & H2 & H3 & m & H4 & H5 & H6). repeat split; [done..|congruence|].
  exists m. by rewrite E1, E2, E4.
Qed.

Lemma temp_standing tq i data w : temp_state tq i data w -> standing d w.
Proof.
  intros (H1 & _ & _ & m & H4 & _) p Hp. destruct (standing0 p Hp) as [m' Hm']. exists m'.
  rewrite H4, lookup_insert_ne; [done|]. congruence.
Qed.

Lemma temp_write tq i data more w :
  temp_state tq i data w ->
  wp (fd_write i more) (fun o w' => match o with
    | Ok _ => temp_state tq i (data +:+ more) w'
    | Err _ => temp_state tq i data w'
    | Panic _ => False
    end) w.
Proof.
  intros H. unfold wp. destruct (fd_write i more w) as [[[]|e|v] w'] eqn:E; simpl.
  - apply syscall_Ok in E as [l E]. unfold update_inode, modify in E. injection E as <-.
    destruct H as (H1 & H2 & H3 & m & H4 & H5 & H6). repeat split; [done..|]. exists m. split; [done|].
    simpl. by rewrite H5, alter_insert_eq.
  - apply syscall_Err in E as [[l ->]|[l E]]; [by eapply temp_same_tree|done].
  - by apply no_panic_fd_write in E.
Qed.

Lemma temp_close tq i data w :
  temp_state tq i data w ->
  wp (fd_close i) (fun o w' => match o with Panic _ => False | _ => temp_state tq i data w' end) w.
Proof.
  intros H. unfold wp. destruct (fd_close i w) as [o w'] eqn:E. simpl.
  assert (Hg : temp_state tq i data w'); [|destruct o; [done|done|by apply no_panic_fd_close in E]].
  replace w' with (snd (fd_close i w)) by (by rewrite E).
  eapply temp_same_tree; [apply fd_close_same_tree|apply (names_fd_close i w)|done].
Qed.

(** An inode without a name is harmless. *)
Lemma wf_spare w1 w i n :
  wf w1 -> i = w_next w1 -> w_nodes w = w_nodes w1 -> w_inodes w = <[i := n]> (w_inodes w1) ->
  w_next w = S (w_next w1) -> wf w.
Proof.
  intros [Hr Hc Hi] -> E1 E2 E3. split; unfold live; rewrite ?E1, ?E2, ?E3; [done|done|].
  intros p j H. apply Hi in H as [H1 H2]. split; [lia|]. rewrite lookup_insert_ne by lia. done.
Qed.

(** Creation under the first free name. *)
Lemma create_temp_ok tries dir pre suf k w r w' :
  abs_path dir d -> (forall k, is_name (temp_name pre suf k)) -> same_tree w0 w -> w_cwd w = w_cwd w0 ->
  create_temp tries dir pre suf k w = (Ok r, w') ->
  exists k', abs_path (fst r) (d ++ [temp_name pre suf k'])
    /\ temp_state (d ++ [temp_name pre suf k']) (snd r) "" w'.
Proof.
  intros Hd Hnm. revert k w. induction tries as [|tries IH]; intros k w Hw Hcwd H; [done|].
  cbn [create_temp] in H. set (name := Join [dir; temp_name pre suf k]) in H.
  assert (Hp : abs_path name (d ++ [temp_name pre suf k])) by (by apply Join_abs_name).
  apply bind_Ok in H as ([e|i] & w1 & E & H).
  - apply attempt_inl in E. pose proof (open_Err _ _ _ _ _ _ E) as HS.
    assert (Hcwd1 : w_cwd w1 = w_cwd w).
    { apply syscall_Err in E as [[l ->]|[l E]]; [done|]. revert E. os_unfold.
      change (resolve false name (set_faults l w)) with (resolve false name w).
      destruct (resolve false name w) as [?|q]; [by intros [= _ <-]|]. simpl.
      destruct (w_nodes w !! q) as [[]|] eqn:Eq; simpl; try by intros [= _ <-].
      unfold fresh_file, create_at. os_unfold. rewrite Eq. simpl.
      destruct (w_nodes w !! removelast q) as [[m|t m|j]|]; simpl; first [done|by intros [= _ <-]]. }
    destruct e as [[]| | | |]; try done. eapply IH; [by etrans|congruence|exact H].
  - injection H as <- <-. apply attempt_inr in E. apply open_excl in E as (q & m & Hq & H1 & H2 & H3 & H4 & H5 & H6); [|done].
    exists k. split; [done|]. destruct Hw as (W1 & W2 & W3).
    rewrite (standing_resolve false name d (temp_name pre suf k)) in Hq; [|..|done|done].
    + injection Hq as <-. rewrite W1 in *. rewrite W2 in *. rewrite W3 in *. simpl.
      repeat split; [done..|congruence|]. by exists m.
    + intros p Hpp. rewrite W1. by apply standing0.
Qed.

Section target.
Context (tmp path : string) (tc : string) (i : nat).
Abbreviation tq := (d ++ [tc]).
Abbreviation q := (d ++ [c]).
Hypothesis Htmp : abs_path tmp tq.
Hypothesis Hpath : abs_path path q.
Hypothesis Hne : tc <> c.

(** The target has been replaced by the temporary file. *)
Definition renamed (data : string) (w : world) : Prop :=
  i = w_next w0 /\ w_cwd w = w_cwd w0 /\ w_nodes w0 !! tq = None
  /\ (forall m, w_nodes w0 !! q <> Some (NDir m)) /\
  exists m, w_nodes w = <[q := NFile i]> (w_nodes w0) /\ w_inodes w = <[i := Inode data m]> (w_inodes w0)
    /\ w_next w = S (w_next w0).

Lemma temp_rename data w :
  temp_state tq i data w ->
  wp (os_Rename tmp path) (fun o w' => match o with
    | Ok _ => renamed data w'
    | Err _ => temp_state tq i data w'
    | Panic _ => False
    end) w.
Proof.
  intros H. pose proof (temp_standing _ _ _ _ H) as Hst.
  assert (Hgo : forall l, wp
      (p ← resolving false tmp; q ← resolving false path;
       o ← node_at p; t ← node_at q; dd ← node_at (removelast q);
       match o, t, dd with
       | None, _, _ => oserr ENOENT
       | Some (NDir _), _, _ => oserr EINVAL
       | Some _, Some (NDir _), _ => oserr EEXIST
       | Some n, Some n', Some (NDir _) =>
           if decide (n = n') then mret tt
           else modify (set_nodes (fun m => <[q := n]> (delete p m)))
       | Some n, None, Some (NDir _) => modify (set_nodes (fun m => <[q := n]> (delete p m)))
       | _, _, _ => oserr ENOENT
       end) (fun o w' => match o with
    | Ok _ => renamed data w'
    | Err _ => temp_state tq i data w'
    | Panic _ => False
    end) (set_faults l w)).
  { intros l. unfold wp. os_unfold.
    change (resolve false tmp (set_faults l w)) with (resolve false tmp w).
    rewrite (standing_resolve false tmp d tc) by done. simpl.
    change (resolve false path (set_faults l w)) with (resolve false path w).
    rewrite (standing_resolve false path d c) by done. simpl.
    destruct H as (H1 & H2 & H3 & m & H4 & H5 & H6). rewrite H4, lookup_insert_eq.
    assert (Hqt : tq <> q) by (intros [_ ?]%app_inj_tail; congruence).
    rewrite lookup_insert_ne by done. rewrite removelast_last.
    destruct (standing0 d (reflexivity _)) as [md Hmd].
    rewrite (lookup_insert_ne _ tq d), Hmd by (intros E%(f_equal length); rewrite length_app in E; simpl in E; lia).
    assert (Hren : (forall m, w_nodes w0 !! q <> Some (NDir m)) ->
      renamed data (set_nodes (fun m0 => <[q:=NFile i]> (delete tq m0)) (set_faults l w))).
    { intros Hnd. repeat split; [done..|]. exists m. split; [|done]. simpl. by rewrite H4, delete_insert_id. }
    assert (Htemp : temp_state tq i data (set_faults l w)) by (repeat split; [done..|eauto]).
    destruct (w_nodes w0 !! q) as [[mm|t mm|j]|] eqn:Eq; simpl; try done; try by apply Hren.
    case_decide as Hj; [|by apply Hren]. injection Hj as <-. apply (wf_ino _ wf0) in Eq as [Hlt _]. lia. }
  unfold wp, os_Rename, syscall in *. destruct (w_faults w) as [|[e|] l] eqn:E; [| |apply Hgo].
  - specialize (Hgo []). by destruct w; simpl in *; subst.
  - case_decide; [apply Hgo|]. by eapply temp_same_tree.
Qed.

(** The deferred removal: gone, or left over when the removal fails. *)
Lemma temp_remove data w :
  temp_state tq i data w ->
  let w' := snd (os_Remove tmp w) in
  w_cwd w' = w_cwd w0 /\ (exists m, w_inodes w' = <[i := Inode data m]> (w_inodes w0))
  /\ w_next w' = S (w_next w0) /\
  (w_nodes w' = w_nodes w0 \/ w_nodes w' = <[tq := NFile i]> (w_nodes w0)).
Proof.
  intros H. pose proof (temp_standing _ _ _ _ H) as Hst.
  destruct H as (H1 & H2 & H3 & m & H4 & H5 & H6).
  assert (Hgo : forall l, let w' := snd ((q ← resolving false tmp; o ← node_at q;
    match o with
    | None => oserr ENOENT
    | Some (NDir _) =>
        cs ← gets (fun w => children w q);
        if decide (q = []) then oserr EBUSY
        else if decide (cs = []) then modify (set_nodes (delete q)) else oserr ENOTEMPTY
    | Some _ => modify (set_nodes (delete q))
    end) (set_faults l w)) in
    w_cwd w' = w_cwd w0 /\ (exists m, w_inodes w' = <[i := Inode data m]> (w_inodes w0))
  /\ w_next w' = S (w_next w0) /\
    (w_nodes w' = w_nodes w0 \/ w_nodes w' = <[tq := NFile i]> (w_nodes w0))).
  { intros l. os_unfold. change (resolve false tmp (set_faults l w)) with (resolve false tmp w).
    rewrite (standing_resolve false tmp d tc) by done. simpl. rewrite H4, lookup_insert_eq. simpl.
    split_and!; [done|eauto|done|]. rewrite H4, delete_insert_id by done. by left. }
  unfold os_Remove, syscall. destruct (w_faults w) as [|[e|] l] eqn:E; [| |apply Hgo].
  - specialize (Hgo []). by destruct w; simpl in *; subst.
  - case_decide; [apply Hgo|]. simpl. split_and!; eauto.
Qed.

Lemma renamed_remove data w :
  renamed data w -> let w' := snd (os_Remove tmp w) in same_tree w w' /\ w_cwd w' = w_cwd w.
Proof.
  intros (H1 & H2 & H3 & _ & m & H4 & H5 & H6).
  assert (Hqt : q <> tq) by (intros [_ ?]%app_inj_tail; congruence).
  assert (Hst : standing d w).
  { intros p Hp. destruct (standing0 p Hp) as [mp Hmp]. exists mp.
    rewrite H4, lookup_insert_ne; [done|]. intros <-. apply prefix_length in Hp.
    rewrite length_app in Hp. simpl in Hp. lia. }
  assert (Hgo : forall l, let w' := snd ((q ← resolving false tmp; o ← node_at q;
    match o with
    | None => oserr ENOENT
    | Some (NDir _) =>
        cs ← gets (fun w => children w q);
        if decide (q = []) then oserr EBUSY
        else if decide (cs = []) then modify (set_nodes (delete q)) else oserr ENOTEMPTY
    | Some _ => modify (set_nodes (delete q))
    end) (set_faults l w)) in same_tree w w' /\ w_cwd w' = w_cwd w).
  { intros l. os_unfold. change (resolve false tmp (set_faults l w)) with (resolve false tmp w).
    rewrite (standing_resolve false tmp d tc) by done. simpl.
    rewrite H4, lookup_insert_ne, H3 by done. done. }
  unfold os_Remove, syscall. destruct (w_faults w) as [|[e|] l] eqn:E; [| |apply Hgo].
  - specialize (Hgo []). by destruct w; simpl in *; subst.
  - case_decide; [apply Hgo|]. done.
Qed.
End target.
End temp_file.

(** ** The protocol as a whole *)

Lemma create_temp_fails tries dir pre suf k w o w' :
  create_temp tries dir pre suf k w = (o, w') ->
  match o with Ok _ => True | Err _ => same_tree w w' | Panic _ => False end.
Proof.
  revert k w. induction tries as [|tries IH]; intros k w H; [by injection H as <- <-|].
  cbn [create_temp] in H. set (name := Join _) in H. unfold mbind, GoM_bind, attempt in H.
  destruct (os_open name _ 384 w) as [[i|e|v] w1] eqn:E.
  - by injection H as <- _.
  - apply open_Err in E. assert (Hfail : fail e w1 = (o, w') ->
      match o with Ok _ => True | Err _ => same_tree w w' | Panic _ => False end) by (by intros [= <- <-]).
    destruct e as [[]| | | |]; try by apply Hfail.
    specialize (IH _ _ H). destruct o; [done|by etrans|done].
  - by apply open_no_panic in E.
Qed.

Lemma view_inodes w w' p :
  w_nodes w' !! p = w_nodes w !! p ->
  (forall i, w_nodes w !! p = Some (NFile i) -> w_inodes w' !! i = w_inodes w !! i) ->
  view w' p = view w p.
Proof.
  intros E Hi. unfold view. rewrite E. destruct (w_nodes w !! p) as [[m|t m|i]|]; try done.
  simpl. by rewrite Hi.
Qed.

(** What the reader of the store sees of such a program: the target is as before, or holds the
    whole content; every other entry but the temporary files is as before. *)
Definition atomic_result {A} (w0 w' : world) (q : list string) (temps : list string -> Prop)
    (content : string) (Qkeep Qdone : outcome A -> Prop) (o : outcome A) : Prop :=
  wf w' /\ (forall p, p <> q -> ~ temps p -> view w' p = view w0 p)
  /\ (view w' q = view w0 q /\ Qkeep o
      \/ (exists m, view w' q = Some (VFile (Some (Inode content m)))) /\ Qdone o).

Lemma atomic_same {A} w0 w' q temps content (Qkeep Qdone : outcome A -> Prop) o :
  wf w0 -> same_tree w0 w' -> Qkeep o -> atomic_result w0 w' q temps content Qkeep Qdone o.
Proof.
  intros Hw H HQ. split; [by eapply wf_same_tree|].
  split; [|left]; intros; [|split; [|done]]; by apply view_same_tree.
Qed.

(** A new file next to what is there keeps the world well formed. *)
Lemma wf_new_file w0 w d c i n :
  wf w0 -> standing d w0 -> i = w_next w0 -> (forall m, w_nodes w0 !! (d ++ [c]) <> Some (NDir m)) ->
  w_nodes w = <[d ++ [c] := NFile i]> (w_nodes w0) -> w_inodes w = <[i := n]> (w_inodes w0) ->
  w_next w = S (w_next w0) -> wf w.
Proof.
  intros [Hr Hc Hi] Hst -> Hd E1 E2 E3. destruct Hr as [m Hm]. split.
  - exists m. rewrite E1, lookup_insert_ne; [done|by destruct d].
  - intros p a n'. rewrite E1. intros H.
    assert (Hp : exists m, w_nodes w0 !! p = Some (NDir m)).
    { apply lookup_insert_Some in H as [[E _]|[_ H]]; [|by eapply Hc].
      apply app_inj_tail in E as [<- _]. by apply Hst. }
    destruct Hp as [m' Hm']. exists m'. rewrite lookup_insert_ne; [done|]. intros <-. by apply (Hd m').
  - intros p j. rewrite E1. unfold live. rewrite E2, E3. intros H. apply lookup_insert_Some in H as [[_ [= <-]]|[_ H]].
    + split; [lia|]. by rewrite lookup_insert_eq.
    + apply Hi in H as [H1 H2]. split; [lia|]. rewrite lookup_insert_ne by lia. done.
Qed.

Lemma atomic_protocol {A} d c dir path pre suf content (body : string * nat -> OS A) Qkeep Qdone w0 :
  wf w0 -> standing d w0 -> abs_path dir d -> abs_path path (d ++ [c]) ->
  (forall k, is_name (temp_name pre suf k)) -> (forall k, temp_name pre suf k <> c) ->
  (forall e, Qkeep (Err e)) ->
  (forall tmp tc i w1, abs_path tmp (d ++ [tc]) -> tc <> c -> temp_state w0 (d ++ [tc]) i "" w1 ->
     wp (body (tmp, i)) (fun o w2 =>
       (exists data, temp_state w0 (d ++ [tc]) i data w2) /\ Qkeep o
       \/ renamed w0 d c tc i content w2 /\ Qdone o) w1) ->
  wp (tmp ← os_CreateTemp dir pre suf; defer (os_Remove tmp.1) (body tmp)) (fun o w' =>
    atomic_result w0 w' (d ++ [c]) (fun p => exists k, p = d ++ [temp_name pre suf k]) content Qkeep Qdone o) w0.
Proof.
  intros Hwf Hst Hdir Hpath Hnm Hne HQe Hbody. unfold wp, mbind, GoM_bind in *.
  destruct (os_CreateTemp dir pre suf w0) as [[[tmp i]|e|v] w1] eqn:E.
  - apply (create_temp_ok w0 d Hst) in E as (k & Ht & Htemp); [|done..]. simpl in Ht, Htemp.
    specialize (Hbody tmp _ i w1 Ht (Hne k) Htemp).
    assert (Hfresh : forall p j, w_nodes w0 !! p = Some (NFile j) -> i <> j).
    { intros p j Hj ->. destruct Htemp as (_ & -> & _). apply (wf_ino _ Hwf) in Hj as [Hj _]. lia. }
    assert (Hqt : d ++ [temp_name pre suf k] <> d ++ [c]) by (intros [_ ?]%app_inj_tail; by apply (Hne k)).
    unfold defer. destruct (body (tmp, i) w1) as [o w2] eqn:Eb. simpl.
    pose proof (no_panic_Remove tmp) as Hrm.
    assert (Hgone : forall data m w3, w_inodes w3 = <[i := Inode data m]> (w_inodes w0) ->
      w_next w3 = S (w_next w0) ->
      w_nodes w3 = w_nodes w0 \/ w_nodes w3 = <[d ++ [temp_name pre suf k] := NFile i]> (w_nodes w0) -> wf w3).
    { intros data m w3 E1 E2 [E3|E3]; destruct Htemp as (Ht0 & Hi & _).
      - apply (wf_spare w0 w3 i (Inode data m)); congruence.
      - eapply (wf_new_file w0); eauto. intros ?. congruence. }
    destruct Hbody as [[[data H] HQ]|[H HQ]].
    + pose proof (temp_remove w0 d Hst tmp _ i Ht data w2 H) as (_ & [m Hm] & Hnx & Hn).
      destruct (os_Remove tmp w2) as [[[]|e|v] w3] eqn:Er; simpl in *; [..|by apply Hrm in Er].
      all: assert (Hv : forall p, p <> d ++ [temp_name pre suf k] -> view w3 p = view w0 p)
        by (intros p Hp; apply view_inodes;
          [destruct Hn as [-> | ->]; [done|by rewrite lookup_insert_ne]
          |intros j Hj; rewrite Hm, lookup_insert_ne; [done|by eapply Hfresh]]).
      all: split; [by eapply Hgone|].
      all: split; [intros p _ Hp; apply Hv; intros ->; eauto|left; split; [|done]; apply Hv; auto].
    + pose proof (renamed_remove w0 d c Hst tmp _ i Ht (Hne k) content w2 H) as [HS _].
      destruct H as (Hi & _ & H3 & Hnd & m & H4 & H5 & H6).
      destruct (os_Remove tmp w2) as [[[]|e|v] w3] eqn:Er; simpl in *; [..|by apply Hrm in Er].
      all: split; [eapply wf_same_tree; [exact HS|]; by eapply (wf_new_file w0)|].
      all: split; [intros p Hp _; rewrite (view_same_tree _ _ _ HS); apply view_inodes;
          [by rewrite H4, lookup_insert_ne|intros j Hj; rewrite H5, lookup_insert_ne; [done|by eapply Hfresh]]|].
      all: right; split; [|done]; exists m; rewrite (view_same_tree _ _ _ HS); unfold view;
        rewrite H4, lookup_insert_eq; simpl; by rewrite H5, lookup_insert_eq.
  - apply create_temp_fails in E. apply atomic_same; [done|exact E|apply HQe].
  - exfalso. by apply create_temp_fails in E.
Qed.

(** [os.MkdirAll] of a directory that stands changes nothing. *)
Lemma mkdir_existing path q perm :
  abs_path path q -> forall w, standing q w -> same_tree w (snd (os_Mkdir path perm w)) /\ w_cwd (snd (os_Mkdir path perm w)) = w_cwd w.
Proof.
  intros Hp w Hst. destruct (Hst q (reflexivity _)) as [m Hm].
  assert (Hgo : forall l, let w' := snd ((q ← resolving false path; m ← new_meta perm; create_at q (NDir m)) (set_faults l w)) in
    same_tree w w' /\ w_cwd w' = w_cwd w).
  { intros l. unfold resolving. os_unfold. change (resolve false path (set_faults l w)) with (resolve false path w).
    rewrite (resolve_abs _ _ _ _ Hp), walk_dirs.
    - simpl. unfold create_at. os_unfold. by rewrite Hm.
    - apply Hp.
    - by apply standing_nosym.
    - intros pre c post E _. apply Hst. exists post. simpl. by rewrite <- app_assoc. }
  unfold os_Mkdir, syscall. destruct (w_faults w) as [|[e|] l] eqn:E; [|case_decide; [apply Hgo|done]|apply Hgo].
  specialize (Hgo []). by destruct w; simpl in *; subst.
Qed.

Definition same_place (w w' : world) : Prop := same_tree w w' /\ w_cwd w' = w_cwd w.

#[export] Instance same_place_preorder : PreOrder same_place.
Proof. split; [done|]. intros w1 w2 w3 [H1 H2] [H3 H4]. split; [by etrans|congruence]. Qed.
#[export] Instance same_place_stable : FaultStable same_place.
Proof. done. Qed.

Lemma place_stat f p : preserves same_place (stat_gen f p).
Proof. unfold stat_gen. solve_calls. Qed.
#[export] Hint Resolve place_stat : go_preserves.

Lemma mkdir_all_standing revelems perm w :
  Forall is_name (rev revelems) -> standing (rev revelems) w ->
  same_place w (snd (mkdir_all true revelems perm w)).
Proof.
  revert w. induction revelems as [|c l IH]; intros w Hn Hst; cbn [mkdir_all];
    set (path := render (true, rev _)).
  all: assert (Hm : forall w', same_place w w' ->
    same_place w' (snd ((r ← attempt (os_Mkdir path perm);
      match r with
      | inr _ => mret tt
      | inl e => l ← attempt (os_Lstat path);
                 match l with inr info => if fi_dir info then mret tt else fail e | inl _ => fail e end
      end) w'))).
  1, 3: intros w' Hw';
    assert (Hs' : standing (rev _) w') by (intros p Hp; destruct Hw' as [(-> & _) _]; by apply Hst);
    pose proof (mkdir_existing path _ perm (conj eq_refl Hn) w' Hs') as HM;
    unfold mbind at 1, GoM_bind at 1, attempt at 1;
    (destruct (os_Mkdir path perm w') as [[[]|e|v] w2]; simpl in *; [done| |done]);
    (etrans; [exact HM|]); unfold os_Lstat;
    assert (preserves same_place (l ← attempt (stat_gen false path);
      match l with inr info => if fi_dir info then mret () else fail e | inl _ => fail (A:=unit) e end)) as HP by solve_preserves;
    apply HP.
  all: unfold os_Stat; pose proof (place_stat true path w) as HS;
    unfold mbind at 1, GoM_bind at 1, attempt at 1;
    (destruct (stat_gen true path w) as [[info|e|v] w1]; simpl in *; [|..|done]; [by destruct (fi_dir info)|]).
  - etrans; [exact HS|]. by apply Hm.
  - etrans; [exact HS|]. unfold mbind at 1, GoM_bind at 1.
    apply Forall_app in Hn as [Hn Hc].
    assert (Hst' : standing (rev l) w1).
    { intros p Hp. destruct HS as [(-> & _) _]. apply Hst. destruct Hp as [y ->]. exists (y ++ [c]).
      by rewrite app_assoc. }
    specialize (IH w1 Hn Hst'). destruct (mkdir_all true l perm w1) as [[[]|e'|v] w2]; simpl in *; [|done..].
    etrans; [exact IH|]. apply Hm. by etrans.
Qed.

Lemma MkdirAll_standing path d perm w :
  abs_path path d -> standing d w -> same_place w (snd (os_MkdirAll path perm w)).
Proof.
  intros Hp Hst. unfold os_MkdirAll. rewrite decide_False by (by eapply abs_path_not_empty).
  rewrite (elems_abs _ _ Hp). pose proof Hp as [-> Hn]. rewrite IsAbs_render_true.
  apply mkdir_all_standing; by rewrite rev_involutive.
Qed.

Lemma wp_MkdirAll_standing path d perm w :
  abs_path path d -> standing d w ->
  wp (os_MkdirAll path perm) (fun o w' => match o with Panic _ => False | _ => same_place w w' end) w.
Proof.
  intros Hp Hst. pose proof (MkdirAll_standing path d perm w Hp Hst) as H. unfold wp.
  destruct (os_MkdirAll path perm w) as [[[]|e|v] w'] eqn:E; [done|done|by apply no_panic_MkdirAll in E].
Qed.
