(* ===== verification/Entries.v ===== *)
(** * Calls on the entries of standing directories

    When the directory of a path stands (it and what is above are directories and no links), a
    call on the path touches one entry. [framed S] says that everything but the entries in [S]
    is as before; the lemmas give each call's frame and its effect when it succeeds. *)

From S2P Require Import Prelude GoPath HostFS Confine FileLaws.

(** Well-formedness is kept and every entry outside [S] shows what it showed. *)
Definition framed (S : list string -> Prop) (w w' : world) : Prop :=
  wf w' /\ forall p, ~ S p -> view w' p = view w p.

Lemma framed_same_place S w w' : wf w -> same_place w w' -> framed S w w'.
Proof.
  intros Hw [H _]. split; [by eapply wf_same_tree|]. intros p _. by apply view_same_tree.
Qed.

Lemma framed_trans S w1 w2 w3 : framed S w1 w2 -> framed S w2 w3 -> framed S w1 w3.
Proof. intros [_ H1] [H2 H3]. split; [done|]. intros p Hp. rewrite H3 by done. by apply H1. Qed.

Lemma framed_weaken (S T : list string -> Prop) w w' : (forall p, S p -> T p) -> framed S w w' -> framed T w w'.
Proof. intros HST [H1 H2]. split; [done|]. intros p Hp. apply H2. intros HS. by apply Hp, HST. Qed.

(** A directory that none of the touched entries is a prefix of goes on standing. *)
Lemma framed_standing S D w w' :
  framed S w w' -> (forall p, p `prefix_of` D -> ~ S p) -> standing D w -> standing D w'.
Proof.
  intros [_ Hf] HS Hst p Hp. destruct (Hst p Hp) as [m Hm].
  assert (HF : view w' p = Some (VDir m)) by (rewrite Hf; [unfold view; by rewrite Hm|auto]).
  unfold view in HF. destruct (w_nodes w' !! p) as [[]|]; simpl in HF; try discriminate HF. eauto.
Qed.

Lemma entry_not_prefix d c D : ~ below d D -> forall p, p `prefix_of` D -> p <> d ++ [c].
Proof.
  intros Hb p [x ->] ->. apply Hb. split; [exists ([c] ++ x); by rewrite app_assoc|].
  intros E%(f_equal length). rewrite !length_app in E. simpl in E. lia.
Qed.

(** The system-call wrapper for this kind of specification. *)
Lemma wp_syscall {A} (m : OS A) (Q : outcome A -> world -> Prop) w :
  (forall l, wp m Q (set_faults l w)) -> (forall e l, Q (Err (Errno e)) (set_faults l w)) -> wp (syscall m) Q w.
Proof.
  unfold wp, syscall. intros Hm He. destruct (w_faults w) as [|[e|] l] eqn:E.
  - specialize (Hm []). by destruct w; simpl in *; subst.
  - case_decide; [apply Hm|apply He].
  - apply Hm.
Qed.

Lemma wp_resolving {A} f path q (k : list string -> OS A) Q w :
  resolve f path w = inr q -> wp (k q) Q w -> wp (resolving f path ≫= k) Q w.
Proof. intros Hr Hk. unfold wp, resolving, mbind, GoM_bind in *. by rewrite Hr. Qed.

Lemma wp_gets {A B} (f : world -> A) (k : A -> OS B) Q w : wp (k (f w)) Q w -> wp (gets f ≫= k) Q w.
Proof. done. Qed.

Section one_entry.
Context (d : list string) (c path : string).
Hypothesis Hp : abs_path path (d ++ [c]).
Abbreviation q := (d ++ [c]).

Lemma wf_delete_leaf w :
  wf w -> (forall m, w_nodes w !! q <> Some (NDir m)) \/ children w q = [] -> wf (set_nodes (delete q) w).
Proof.
  intros Hw Hleaf. assert (Hch : forall a, w_nodes w !! (q ++ [a]) = None).
  { intros a. destruct Hleaf as [Hd|Hd]; [|by apply children_nil].
    destruct (w_nodes w !! (q ++ [a])) eqn:E; [|done].
    destruct (wf_closed _ Hw _ _ _ E) as [m Hm]. by destruct (Hd m). }
  destruct Hw as [[m Hr] Hc Hi]. split; simpl.
  - exists m. rewrite lookup_delete_ne; [done|]. by destruct d.
  - intros p a n [Hne H]%lookup_delete_Some. destruct (Hc _ _ _ H) as [m' Hm'].
    exists m'. rewrite lookup_delete_ne; [done|]. intros <-. by rewrite Hch in H.
  - intros p i [_ H]%lookup_delete_Some. by eapply Hi.
Qed.

Lemma view_delete w p : p <> q -> view (set_nodes (delete q) w) p = view w p.
Proof. intros Hne. apply view_inodes; simpl; [by rewrite lookup_delete_ne|done]. Qed.

(** [os.Remove]: the entry goes, or everything is as before. *)
Lemma wp_Remove w :
  wf w -> standing d w ->
  wp (os_Remove path) (fun o w' => framed (eq q) w w' /\ w_cwd w' = w_cwd w /\
    match o with Ok _ => view w' q = None | Err _ => view w' q = view w q | Panic _ => False end) w.
Proof.
  intros Hw Hst.
  assert (Hsame : forall l, framed (eq q) w (set_faults l w)) by (intros l; by apply framed_same_place).
  apply wp_syscall; [|done]. intros l. apply (wp_resolving _ _ q); [by apply (standing_resolve false path d c w)|].
  apply wp_gets. simpl.
  assert (Hdel : (forall m, w_nodes w !! q <> Some (NDir m)) \/ children w q = [] ->
    wp (modify (set_nodes (delete q))) (fun o w' => framed (eq q) w w' /\ w_cwd w' = w_cwd w /\
      match o with Ok _ => view w' q = None | Err _ => view w' q = view w q | Panic _ => False end) (set_faults l w)).
  { intros Hleaf. unfold wp, modify. simpl. split_and!; [|done|].
    - split; [exact (wf_delete_leaf (set_faults l w) (wf_same_tree w (set_faults l w) (same_tree_faults l w) Hw) Hleaf)|].
      intros p Hne. by rewrite (view_delete (set_faults l w)) by congruence.
    - unfold view. simpl. by rewrite lookup_delete_eq. }
  destruct (w_nodes w !! q) as [[m|t m|i]|] eqn:E; [|apply Hdel; left; congruence..|].
  - apply wp_gets. change (children (set_faults l w) q) with (children w q).
    case_decide; [by split; [apply Hsame|]|]. case_decide; [apply Hdel; by right|by split; [apply Hsame|]].
  - split; [apply Hsame|]. done.
Qed.

(** Opening without O_TRUNC: nothing changes but, with O_CREAT, a new empty file. *)
Lemma wp_open_keep fl perm w :
  wf w -> standing d w -> o_trunc fl = false ->
  (negb (o_nofollow fl || o_excl fl) = true -> forall t m, w_nodes w !! q <> Some (NSymlink t m)) ->
  wp (os_open path fl perm) (fun o w' => framed (eq q) w w' /\ w_cwd w' = w_cwd w /\
    match o with Ok _ => is_Some (view w' q) | Err _ => True | Panic _ => False end) w.
Proof.
  intros Hw Hst Ht Hl. unfold wp. destruct (os_open path fl perm w) as [[i|e|v] w'] eqn:E; simpl;
    [| |by apply open_no_panic in E].
  - apply syscall_Ok in E as [l E]. revert E. os_unfold.
    change (resolve (negb (o_nofollow fl || o_excl fl)) path (set_faults l w))
      with (resolve (negb (o_nofollow fl || o_excl fl)) path w).
    rewrite (standing_resolve _ path d c) by done. simpl.
    destruct (w_nodes w !! q) as [[m|t m|j]|] eqn:Eq; simpl; [by destruct (o_excl fl)..| |].
    + destruct (o_excl fl); [done|]. rewrite Ht. simpl. intros [= <- <-].
      split_and!; [by apply framed_same_place|done|]. unfold view. simpl. rewrite Eq. by eexists.
    + destruct (o_creat fl); [|done]. unfold fresh_file, create_at. os_unfold. rewrite Eq, removelast_last. simpl.
      destruct (Hst d (reflexivity _)) as [md Hmd]. rewrite Hmd. simpl. intros [= <- <-].
      split_and!; [|done|unfold view; simpl; rewrite lookup_insert_eq; by eexists]. split.
      * eapply (wf_new_file w _ d c (w_next w)); try done. intros m. by rewrite Eq.
      * intros p Hne. apply view_inodes; simpl; [by rewrite lookup_insert_ne|].
        intros j Hj. rewrite lookup_insert_ne; [done|]. apply (wf_ino _ Hw) in Hj as [? _]. lia.
  - pose proof (open_Err _ _ _ _ _ _ E) as HS. split; [|split; [|done]].
    + split; [by eapply wf_same_tree|]. intros p _. by apply view_same_tree.
    + apply syscall_Err in E as [[l ->]|[l E]]; [done|]. revert E. os_unfold.
      change (resolve (negb (o_nofollow fl || o_excl fl)) path (set_faults l w))
        with (resolve (negb (o_nofollow fl || o_excl fl)) path w).
      rewrite (standing_resolve _ path d c) by done. simpl.
      destruct (w_nodes w !! q) as [[m|t m|j]|] eqn:Eq; simpl; [destruct (o_excl fl); by intros [= _ <-]..| |].
      * destruct (o_excl fl); [by intros [= _ <-]|]. rewrite Ht. done.
      * destruct (o_creat fl); [|by intros [= _ <-]]. unfold fresh_file, create_at. os_unfold. rewrite Eq. simpl.
        destruct (w_nodes w !! removelast q) as [[]|]; simpl; first [done|by intros [= _ <-]].
Qed.
End one_entry.

(** [os.Rename] between standing directories: the target shows what the source showed. *)
Lemma wp_Rename d c old d' c' new w :
  abs_path old (d ++ [c]) -> abs_path new (d' ++ [c']) ->
  wf w -> standing d w -> standing d' w ->
  wp (os_Rename old new) (fun o w' =>
    framed (fun p => p = d ++ [c] \/ p = d' ++ [c']) w w' /\ w_cwd w' = w_cwd w /\
    match o with
    | Ok _ => view w' (d' ++ [c']) = view w (d ++ [c]) /\ is_Some (view w (d ++ [c]))
    | Err _ => same_place w w'
    | Panic _ => False
    end) w.
Proof.
  intros Ho Hn Hw Hst Hst'.
  assert (Hsame : forall l, framed (fun p => p = d ++ [c] \/ p = d' ++ [c']) w (set_faults l w))
    by (intros l; by apply framed_same_place).
  apply wp_syscall; [|done]. intros l.
  apply (wp_resolving _ _ (d ++ [c])); [by apply (standing_resolve false old d c w)|].
  apply (wp_resolving _ _ (d' ++ [c'])); [by apply (standing_resolve false new d' c' w)|].
  apply wp_gets. apply wp_gets. apply wp_gets. simpl. rewrite removelast_last.
  destruct (Hst' d' (reflexivity _)) as [md Hmd]. rewrite Hmd.
  assert (Hmove : forall n, w_nodes w !! (d ++ [c]) = Some n -> (forall m, n <> NDir m) -> d ++ [c] <> d' ++ [c'] ->
    (forall m, w_nodes w !! (d' ++ [c']) <> Some (NDir m)) ->
    wp (modify (set_nodes (fun m => <[d' ++ [c'] := n]> (delete (d ++ [c]) m)))) (fun o w' =>
      framed (fun p => p = d ++ [c] \/ p = d' ++ [c']) w w' /\ w_cwd w' = w_cwd w /\
      match o with
      | Ok _ => view w' (d' ++ [c']) = view w (d ++ [c]) /\ is_Some (view w (d ++ [c]))
      | Err _ => same_place w w'
      | Panic _ => False
      end) (set_faults l w)).
  { intros n En Hnd Hne Hnd'. unfold wp, modify. simpl. split_and!; [|done|..].
    - split.
      + assert (Hw1 : wf (set_nodes (delete (d ++ [c])) w)).
        { apply (wf_delete_leaf d c old Ho w Hw). left. intros m. rewrite En. congruence. }
        destruct Hw1 as [[m Hr] Hc Hi].
        simpl in *. split; simpl.
        * exists m. rewrite lookup_insert_ne; [done|by destruct d'].
        * intros p a n' H. assert (Hpd : exists m, delete (d ++ [c]) (w_nodes w) !! p = Some (NDir m)).
          { apply lookup_insert_Some in H as [[E _]|[_ H]]; [|by eapply Hc].
            apply app_inj_tail in E as [<- _]. exists md. rewrite lookup_delete_ne; [done|].
            intros E2. rewrite <- E2, En in Hmd. injection Hmd as ->. by apply (Hnd md). }
          destruct Hpd as [m' Hm']. exists m'. rewrite lookup_insert_ne; [done|]. intros <-.
          apply lookup_delete_Some in Hm' as [_ Hm']. by apply (Hnd' m').
        * intros p i H. apply lookup_insert_Some in H as [[_ ->]|[_ H]]; [by eapply (wf_ino _ Hw)|by eapply Hi].
      + intros p Hp. apply view_inodes; [|done]. simpl.
        by rewrite lookup_insert_ne, lookup_delete_ne by (intros E2; apply Hp; subst p; auto).
    - unfold view. simpl. rewrite lookup_insert_eq, En. by destruct n.
    - unfold view. rewrite En. by eexists. }
  destruct (w_nodes w !! (d ++ [c])) as [[m|t m|i]|] eqn:E; try by (split; [apply Hsame|]).
  all: destruct (w_nodes w !! (d' ++ [c'])) as [[m'|t' m'|i']|] eqn:E'; try by (split; [apply Hsame|]).
  all: try case_decide as Hd; try (apply Hmove; [done|done|intros Heq; rewrite Heq in E; congruence|done]).
  all: apply wp_ret; split_and!; [apply Hsame|done|unfold view; simpl; rewrite E, E'; simpl; congruence|].
  all: unfold view; rewrite E; by eexists.
Qed.

(** Calls that leave the tree alone. *)
Lemma wp_same_place {A} (m : OS A) w :
  preserves same_place m -> no_panic m ->
  wp m (fun o w' => same_place w w' /\ match o with Panic _ => False | _ => True end) w.
Proof.
  intros Hp Hn. unfold wp. specialize (Hp w). destruct (m w) as [[a|e|v] w'] eqn:E; [done|done|].
  by apply Hn in E.
Qed.

(** Stat of an entry: it succeeds only when there is one. *)
Lemma wp_Stat d c path w :
  abs_path path (d ++ [c]) -> standing d w ->
  wp (os_Stat path) (fun o w' => same_place w w' /\
    match o with Ok _ => is_Some (w_nodes w !! (d ++ [c])) | Err _ => True | Panic _ => False end) w.
Proof.
  intros Hp Hst. unfold wp, os_Stat.
  pose proof (place_stat true path w) as HS. pose proof (stat_lookup true path w) as HL.
  destruct (stat_gen true path w) as [[info|e|v] w1]; simpl in *; [|done..].
  split; [done|]. destruct HL as (q & n & Hq & Hn & _).
  destruct (w_nodes w !! (d ++ [c])) as [n'|] eqn:E; [by eexists|].
  rewrite (standing_resolve true path d c) in Hq; [|done|done|by rewrite E]. congruence.
Qed.

Lemma view_is_Some w p : is_Some (w_nodes w !! p) <-> is_Some (view w p).
Proof. unfold view. by rewrite fmap_is_Some. Qed.

(** [os.Remove] that fails with ENOENT found no entry. *)
Lemma Remove_missing d c path w err w' :
  abs_path path (d ++ [c]) -> standing d w -> os_Remove path w = (Err err, w') -> os_IsNotExist err = true ->
  view w (d ++ [c]) = None.
Proof.
  intros Hp Hst H He. destruct err as [[]| | | |]; try done.
  destruct (w_nodes w !! (d ++ [c])) as [n|] eqn:E; [exfalso|unfold view; by rewrite E].
  revert H. unfold os_Remove, syscall. os_unfold.
  change (resolve false path (set_faults ?l w)) with (resolve false path w).
  change (w_nodes (set_faults ?l w)) with (w_nodes w). change (children (set_faults ?l w)) with (children w).
  rewrite (standing_resolve false path d c) by done. cbn. rewrite E.
  destruct (w_faults w) as [|[f|] l]; [|case_decide as Hf; [|congruence]|]; (destruct n as [m|t m|i]; cbn; [|done..];
    case_decide; [done|]; by case_decide).
Qed.

(** [os.RemoveAll]: the entry goes with all below it, or everything is as before. *)
Lemma wp_RemoveAll d c path w :
  abs_path path (d ++ [c]) -> wf w -> standing d w ->
  wp (os_RemoveAll path) (fun o w' => framed (prefix (d ++ [c])) w w' /\ w_cwd w' = w_cwd w /\
    match o with
    | Ok _ => forall p, d ++ [c] `prefix_of` p -> view w' p = None
    | Err _ => True
    | Panic _ => False
    end) w.
Proof.
  intros Hp Hw Hst.
  assert (Hsame : forall l, framed (prefix (d ++ [c])) w (set_faults l w)) by (intros l; by apply framed_same_place).
  unfold os_RemoveAll. rewrite decide_False by (by eapply abs_path_not_empty).
  case_decide; [by apply wp_fail; split; [apply framed_same_place|]|].
  apply wp_syscall; [|done]. intros l. unfold wp.
  rewrite (standing_resolve false path d c) by done. destruct (d ++ [c]) as [|x q] eqn:E; [by destruct d|]. simpl.
  split_and!; [|done|].
  - split.
    + destruct Hw as [[m Hr] Hc Hi]. split; simpl.
      * exists m. apply map_lookup_filter_Some. split; [done|]. simpl. intros [? ?]. done.
      * intros p a n [H1 H2]%map_lookup_filter_Some. destruct (Hc _ _ _ H1) as [m' Hm']. exists m'.
        apply map_lookup_filter_Some. split; [done|]. simpl in *. intros H3. by apply H2, prefix_app_r.
      * intros p i [H1 _]%map_lookup_filter_Some. by eapply Hi.
    + intros p Hn. apply view_inodes; [|done]. simpl. destruct (w_nodes w !! p) as [n|] eqn:En.
      * by apply map_lookup_filter_Some.
      * apply map_lookup_filter_None. by left.
  - intros p Hpre. unfold view. simpl.
    assert (filter (fun kv : list string * node => ~ (x :: q) `prefix_of` kv.1) (w_nodes w) !! p = None) as ->; [|done].
    apply map_lookup_filter_None. right. simpl. intros n _ Hn. by apply Hn.
Qed.

(** A missing entry is no error of [os.RemoveAll]. *)
Lemma RemoveAll_missing d c path w err w' :
  abs_path path (d ++ [c]) -> standing d w -> os_RemoveAll path w = (Err err, w') -> os_IsNotExist err = false.
Proof.
  intros Hp Hst. unfold os_RemoveAll. rewrite decide_False by (by eapply abs_path_not_empty). case_decide; [by intros [= <- _]|].
  unfold syscall. change (resolve false path (set_faults ?l w)) with (resolve false path w).
  rewrite (standing_resolve false path d c) by done. destruct (d ++ [c]) eqn:E; [by destruct d|].
  destruct (w_faults w) as [|[f|] l']; [done| |done]. case_decide; [done|]. intros [= <- _]. by destruct f.
Qed.
