(* ===== verification/Below.v ===== *)
(** * Entries below a root directory

    The agent and the layer applier both keep what they write below a directory whose own chain
    stands, and check that no link is on the way to an entry. [ready] is what holds after such a
    check; the lemmas say that calls on a ready entry stay below the root. *)

From S2P Require Import Prelude GoPath HostFS Confine FileLaws.

(** [O_WRONLY|O_CREAT|O_TRUNC|O_NOFOLLOW] *)
Definition wronly_creat_trunc_nofollow : open_flags :=
  {| o_creat := true; o_excl := false; o_trunc := true; o_nofollow := true |}.

Section below_root.
Variable Root : string.
Hypothesis Root_abs : IsAbs Root = true.

(** The components of the cleaned root. *)
Definition rootc : list string := snd (cpath_of Root).

Lemma Clean_Root : abs_path (Clean Root) rootc.
Proof. by apply abs_path_Clean. Qed.

Abbreviation cs := rootc.

(** What holds between the check of an entry's parents and its last system call. *)
Definition ready (x : list string) (w : world) : Prop :=
  rooted cs w /\ nosym true (w_nodes w) [] (cs ++ x).

Lemma ready_step x w w' :
  conf (below cs) w w' -> no_new_links w w' -> ready x w -> ready x w'.
Proof.
  intros Hc Hn [Hr Hs]. split; [by eapply rooted_conf|by eapply nosym_no_new_links].
Qed.

Lemma conf_bind_ready {A B} x (m : OS A) (k : A -> OS B) w :
  ready x w -> conf (below cs) w (snd (m w)) -> preserves no_new_links m ->
  (forall a w', m w = (Ok a, w') -> ready x w' -> conf (below cs) w' (snd (k a w'))) ->
  conf (below cs) w (snd ((m ≫= k) w)).
Proof.
  intros Hr Hm Hn Hk. apply conf_bind; [done|]. intros a w' E. apply Hk; [done|].
  specialize (Hn w). rewrite E in Hm, Hn. by eapply ready_step.
Qed.

Section entry.
Context (target : string) (x : list string) (c : string).
Hypothesis Ht : abs_path target (cs ++ x ++ [c]).

Lemma ready_leads w : ready x w -> leads (below cs) false target w.
Proof.
  intros [_ Hs]. eapply leads_below; [done|by destruct x|].
  rewrite app_assoc. by apply nosym_parent.
Qed.

Lemma ready_leads_follow w n :
  ready x w -> w_nodes w !! (cs ++ x ++ [c]) = Some n -> (forall t m, n <> NSymlink t m) ->
  leads (below cs) true target w.
Proof.
  intros [_ Hs] Hl Hn. eapply leads_below; [done|by destruct x|].
  rewrite app_assoc. apply nosym_snoc; [done|]. intros t m E.
  rewrite <- app_assoc, Hl in E. injection E as E. by eapply Hn.
Qed.

Lemma Dir_target : abs_path (Dir target) (cs ++ x).
Proof. pose proof Ht as H. apply Dir_abs in H. by rewrite app_assoc, removelast_last in H. Qed.

Lemma conf_MkdirAll_parent perm w :
  ready x w -> conf (below cs) w (snd (os_MkdirAll (Dir target) perm w)).
Proof.
  intros [Hr Hs]. eapply conf_MkdirAll; [done|apply Dir_target|].
  intros pre d post E _. eapply Hs; [done|by right].
Qed.

Lemma conf_MkdirAll_target perm w :
  ready x w -> conf (below cs) w (snd (os_MkdirAll target perm w)).
Proof.
  intros [Hr Hs]. eapply conf_MkdirAll; [done|exact Ht|]. rewrite app_assoc. by apply nosym_parent.
Qed.

Lemma conf_RemoveAll_target w :
  ready x w -> conf (below cs) w (snd (os_RemoveAll target w)).
Proof. intros Hr. apply conf_RemoveAll; auto using below_root, below_down, ready_leads. Qed.

Lemma ready_same_tree w w' : same_tree w w' -> ready x w -> ready x w'.
Proof.
  intros H. apply ready_step; [by apply conf_same_tree|by apply same_tree_no_new_links].
Qed.

Lemma conf_bind_same {A B} (m : OS A) (k : A -> OS B) w :
  ready x w -> preserves same_tree m ->
  (forall a w', m w = (Ok a, w') -> same_tree w w' -> ready x w' -> conf (below cs) w' (snd (k a w'))) ->
  conf (below cs) w (snd ((m ≫= k) w)).
Proof.
  intros Hr Hm Hk. apply conf_bind; [by apply conf_preserves|]. intros a w' E.
  specialize (Hm w). rewrite E in Hm. apply Hk; [done..|]. by eapply ready_same_tree.
Qed.

(** An open that does not follow reaches the entry itself. *)
Lemma ready_resolve w q : ready x w -> resolve false target w = inr q -> q = cs ++ x ++ [c].
Proof.
  intros [_ Hs] Hq. rewrite (resolve_abs _ _ _ _ Ht) in Hq.
  destruct (walk_nosym max_symlinks (w_nodes w) false [] (cs ++ x ++ [c])) as [E|[E|E]];
    [apply Ht|rewrite app_assoc; by apply nosym_parent|..]; rewrite E in Hq; [|done..].
  by injection Hq.
Qed.

End entry.
End below_root.

Arguments ready_step {Root} x w w' _ _ _.
Arguments conf_bind_ready {Root A B} x m k w _ _ _ _.
Arguments conf_bind_same {Root} x {A B} m k w _ _ _.
Arguments ready_same_tree {Root} x w w' _ _.
Arguments ready_leads {Root target x c} Ht w _.
Arguments ready_leads_follow {Root target x c} Ht w n _ _ _.
Arguments Dir_target {Root target x c} Ht.
Arguments conf_MkdirAll_parent {Root target x c} Ht perm w _.
Arguments conf_MkdirAll_target {Root target x c} Ht perm w _.
Arguments conf_RemoveAll_target {Root target x c} Ht w _.
Arguments ready_resolve {Root target x c} Ht w q _ _.
