(* ===== verification/Layer.v ===== *)
(** * Applying an image layer to a directory

    [internal/rootfsbuilder/layer.go]: a layer is a tar stream, possibly gzipped, whose
    entries come from a registry and are not trusted. [LayerApplier.ApplyLayer] writes them
    below [Root] with the checks of [cleanLayerPath], [safePath] and [ensureNoSymlinkParents],
    handles whiteouts, and compares the digest of the uncompressed stream.
    The decompressor and the tar reader are the parameters [gzip_NewReader] and [tar_read]; what the tar
    reader takes goes through the tee to the hash, and what it leaves is drained. *)

From S2P Require Import Prelude GoPath Sha256 HostFS Confine FileLaws Below.

(** ** Tar headers *)

(** The fields of [tar.Header] the code reads; a zero [ModTime] is [None]. *)
Record Header := {
  Name : string;
  Linkname : string;
  Typeflag : ascii;
  Size : Z;
  Mode : Z;
  Uid : Z;
  Gid : Z;
  ModTime : option Z
}.

Inductive type_class :=
| TypeDir | TypeReg | TypeSymlink | TypeLink | TypeExtension | TypeDevice | TypeOther.

(** The cases of the switch of [applyEntry]. *)
Definition classify (flag : ascii) : type_class :=
  if decide (flag = "5"%char) then TypeDir
  else if decide (flag = "0"%char \/ flag = "000"%char) then TypeReg
  else if decide (flag = "2"%char) then TypeSymlink
  else if decide (flag = "1"%char) then TypeLink
  else if decide (flag ∈ ["g"%char; "x"%char; "L"%char; "K"%char]) then TypeExtension
  else if decide (flag ∈ ["3"%char; "4"%char; "6"%char]) then TypeDevice
  else TypeOther.

(** *** [os.FileMode] *)

Definition ModeDir : Z := 2 ^ 31.
Definition ModeSymlink : Z := 2 ^ 27.
Definition ModeDevice : Z := 2 ^ 26.
Definition ModeNamedPipe : Z := 2 ^ 25.
Definition ModeSocket : Z := 2 ^ 24.
Definition ModeSetuid : Z := 2 ^ 23.
Definition ModeSetgid : Z := 2 ^ 22.
Definition ModeCharDevice : Z := 2 ^ 21.
Definition ModeSticky : Z := 2 ^ 20.

Definition Perm (mode : Z) : Z := Z.land mode 511.

(** [header.FileInfo().Mode()] of [archive/tar]. *)
Definition FileInfo_Mode (h : Header) : Z :=
  let bit (b m : Z) : Z := if decide (Z.land (Mode h) b = 0%Z) then 0%Z else m in
  let format := Z.land (Mode h mod 2 ^ 32) (Z.lnot 4095) in
  let special :=
    if decide (format = 16384)%Z then ModeDir
    else if decide (format = 4096)%Z then ModeNamedPipe
    else if decide (format = 40960)%Z then ModeSymlink
    else if decide (format = 24576)%Z then ModeDevice
    else if decide (format = 8192)%Z then Z.lor ModeDevice ModeCharDevice
    else if decide (format = 49152)%Z then ModeSocket else 0%Z in
  let by_type :=
    if decide (Typeflag h = "2"%char) then ModeSymlink
    else if decide (Typeflag h = "3"%char) then Z.lor ModeDevice ModeCharDevice
    else if decide (Typeflag h = "4"%char) then ModeDevice
    else if decide (Typeflag h = "5"%char) then ModeDir
    else if decide (Typeflag h = "6"%char) then ModeNamedPipe else 0%Z in
  foldl Z.lor (Perm (Mode h))
    [bit 2048 ModeSetuid; bit 1024 ModeSetgid; bit 512 ModeSticky; special; by_type]%Z.

(** ** Names *)

Definition cleanLayerPath (name : string) : outcome string :=
  if decide (name = "") then Err (Errorf "empty path" [])
  else if IsAbs name || HasPrefix name "/" then Err (Errorf "absolute path is not allowed" [])
  else
    let clean := Clean name in
    if bool_decide (clean = ".") || bool_decide (clean = "..") || HasPrefix clean "../"
    then Err (Errorf "path traversal is not allowed" [])
    else Ok clean.

Definition cleanLinkPath (name : string) : outcome string :=
  if decide (name = "") then Err (Errorf "empty path" []) else Ok (Clean name).

Definition safeFileMode (mode fallback : Z) : Z :=
  let mode := if decide (mode = 0%Z) then fallback else mode in
  Z.land (Perm mode) (Z.lnot 3072).

(** The loop of [ensureNoSymlinkParents] over the parts of the relative path. *)
Fixpoint check_parents (current : string) (parts : list string) : OS unit :=
  match parts with
  | [] => mret tt
  | part :: parts' =>
      let current := Join [current; part] in
      r ← attempt (os_Lstat current);
      match r with
      | inl err => if os_IsNotExist err then mret tt else fail err
      | inr info =>
          if fi_symlink info then fail (Errorf "symlink parent %q" [current])
          else check_parents current parts'
      end
  end.

Definition ensureNoSymlinkParents (root target : string) : OS unit :=
  let root := Clean root in
  let dir := Dir target in
  rel ← lift_outcome (Rel root dir);
  if decide (rel = ".") then mret tt else check_parents root (psplit rel).

Definition removeChildren (dir : string) : OS unit :=
  r ← attempt (os_ReadDir dir);
  match r with
  | inl err => if os_IsNotExist err then mret tt else fail err
  | inr entries => for_each entries (fun entry => os_RemoveAll (Join [dir; de_name entry]))
  end.

Definition applyMetadata (target : string) (header : Header) (symlink : bool) : OS unit :=
  if symlink then ignore (os_Lchown target (Uid header) (Gid header))
  else
    let mode := safeFileMode (FileInfo_Mode header) 420 in
    os_Chmod target mode ;;
    r ← attempt (os_Chown target (Uid header) (Gid header));
    match r with
    | inl err => if errors_Is err EPERM then mret tt else fail err
    | inr _ => mret tt
    end ;;
    os_Chtimes target (default 0%Z (ModTime header)).

(** ** The stream that is hashed *)

(** [io.TeeReader(reader, hash)]: what is left of the reader, and what was written to the hash. *)
Record tee := Tee { tee_rest : stream; tee_hash : string }.
Definition io_TeeReader (reader : stream) : tee := Tee reader "".

(** Reads through the tee that give [n] bytes, or what there is. *)
Definition tee_Read (n : nat) (t : tee) : tee :=
  Tee (str_drop n (fst (tee_rest t)), snd (tee_rest t)) (tee_hash t +:+ str_take n (fst (tee_rest t))).

(** [io.Copy(io.Discard, hashedReader)] *)
Definition tee_drain (t : tee) : outcome tee :=
  match snd (tee_rest t) with
  | Some err => Err err
  | None => Ok (tee_Read (String.length (fst (tee_rest t))) t)
  end.

(** A tar reader of a source: the entries [Next] gives, each with the contents its reader gives, and the error
    [Next] ends with ([None] at EOF); and how many bytes it takes from the source between the return of one call
    of [Next] and that of the [n]-th, those of the contents between them included. It may leave bytes behind. *)
Record tar_reader := TarReader {
  tar_entries :> stream -> list (Header * stream) * option error;
  tar_takes : stream -> nat -> nat
}.

(** ** The entries *)

Section applier.
(** [LayerApplier.Root] *)
Variable Root : string.

Definition safePath (name : string) : outcome string :=
  let root := Clean Root in
  let target := Join [root; name] in
  rel ← Rel root target;
  if bool_decide (rel = "..") || HasPrefix rel "../" then Err (Errorf "path escapes root" [])
  else Ok target.

Definition mkdir (target : string) (header : Header) : OS unit :=
  let mode := safeFileMode (FileInfo_Mode header) 493 in
  os_MkdirAll target mode ;;
  applyMetadata target header true.

Definition writeFile (target : string) (header : Header) (reader : stream) : OS unit :=
  os_MkdirAll (Dir target) 493 ;;
  ensureNoSymlinkParents Root target ;;
  l ← attempt (os_Lstat target);
  fail_if (match l with inr info => fi_symlink info | inl _ => false end)
    (Errorf "refusing to overwrite symlink" []) ;;
  let mode := safeFileMode (FileInfo_Mode header) 420 in
  file ← os_open target wronly_creat_trunc_nofollow mode;
  copyErr ← attempt (io_Copy file reader);
  closeErr ← attempt (fd_close file);
  match copyErr, closeErr with
  | inl e, _ => fail e
  | _, inl e => fail e
  | _, _ => applyMetadata target header false
  end.

Definition symlink (target : string) (header : Header) : OS unit :=
  wrap_err (Wrapf "unsafe symlink target: %w" []) (lift_outcome (cleanLinkPath (Linkname header))) ;;
  os_MkdirAll (Dir target) 493 ;;
  os_RemoveAll target ;;
  os_Symlink (Linkname header) target ;;
  applyMetadata target header true.

Definition hardlink (target : string) (header : Header) : OS unit :=
  linkName ← wrap_err (Wrapf "unsafe hardlink target: %w" []) (lift_outcome (cleanLayerPath (Linkname header)));
  linkTarget ← lift_outcome (safePath linkName);
  ensureNoSymlinkParents Root target ;;
  ensureNoSymlinkParents Root linkTarget ;;
  info ← os_Lstat linkTarget;
  fail_if (fi_symlink info) (Errorf "refusing hardlink to symlink" []) ;;
  os_MkdirAll (Dir target) 493 ;;
  os_RemoveAll target ;;
  os_Link linkTarget target.

Definition applyEntry (header : Header) (reader : stream) : OS unit :=
  name ← lift_outcome (cleanLayerPath (Name header));
  let base := Base name in
  let dir := Dir name in
  if decide (base = ".wh..wh..opq") then
    target ← lift_outcome (safePath dir);
    removeChildren target
  else if HasPrefix base ".wh." then
    target ← lift_outcome (safePath (Join [dir; TrimPrefix base ".wh."]));
    os_RemoveAll target
  else
    target ← lift_outcome (safePath name);
    ensureNoSymlinkParents Root target ;;
    match classify (Typeflag header) with
    | TypeDir => mkdir target header
    | TypeReg => writeFile target header reader
    | TypeSymlink => symlink target header
    | TypeLink => hardlink target header
    | TypeExtension => mret tt
    | TypeDevice => fail (Errorf "device and fifo entries are not allowed" [])
    | TypeOther =>
        fail (Errorf "unsupported tar entry type %d" [pretty (nat_of_ascii (Typeflag header))])
    end.

(** ** The stream *)

(** [gzip.NewReader], and [tar.NewReader] of what is hashed. *)
Variable gzip_NewReader : string -> outcome stream.
Variable tar_read : tar_reader.

(** [ctx.Done()] polled before the n-th entry: [ctx.Err()] when it is closed. *)
Variable ctx : nat -> option error.

Definition layerReader (reader : string) : outcome stream :=
  match reader with
  | String m0 (String m1 _) =>
      if bool_decide (m0 = "031"%char) && bool_decide (m1 = "139"%char)
      then gzip_NewReader reader
      else Ok (reader, None)
  | _ => Err (Errorf "EOF" [])
  end.

(** The loop of [ApplyLayer]: the tar reader reads through the tee, [takes n] bytes up to its [n]-th header. *)
Fixpoint apply_entries (takes : nat -> nat) (n : nat) (hashedReader : tee) (entries : list (Header * stream)) (final : option error) : OS tee :=
  match ctx n with
  | Some err => fail err
  | None =>
      let hashedReader := tee_Read (takes n) hashedReader in
      match entries with
      | [] => match final with Some err => fail err | None => mret hashedReader end
      | (header, contents) :: rest =>
          wrap_err (Wrapf "apply %q: %w" [Name header]) (applyEntry header contents) ;;
          apply_entries takes (S n) hashedReader rest final
      end
  end.

(** The layer file is read when it is opened. *)
Definition ApplyLayer (compressedLayerPath expectedDiffID : string) : OS unit :=
  file ← os_ReadFile compressedLayerPath;
  reader ← lift_outcome (layerReader file);
  let '(entries, final) := tar_read reader in
  hashedReader ← apply_entries (tar_takes tar_read reader) 0 (io_TeeReader reader) entries final;
  hashedReader ← lift_outcome (tee_drain hashedReader);
  let actual := sha256_digest (tee_hash hashedReader) in
  fail_if (negb (bool_decide (actual = expectedDiffID)))
    (Errorf "diffID mismatch: got %s want %s" [actual; expectedDiffID]).
End applier.

(** *** What was hashed *)

(** [t] is a tee of [reader]: nothing is lost between what was hashed and what is left. *)
Definition tee_of (reader : stream) (t : tee) : Prop :=
  tee_hash t +:+ fst (tee_rest t) = fst reader /\ snd (tee_rest t) = snd reader.

Lemma tee_of_start reader : tee_of reader (io_TeeReader reader).
Proof. by split. Qed.
Lemma tee_of_Read reader n t : tee_of reader t -> tee_of reader (tee_Read n t).
Proof. intros [H1 H2]. split; [|done]. simpl. by rewrite <- app_assoc_str, str_take_drop. Qed.

(** The loop keeps to the reader, whatever the tar reader takes. *)
Lemma apply_entries_tee Root ctx takes reader n t entries final w t' w' :
  tee_of reader t -> apply_entries Root ctx takes n t entries final w = (Ok t', w') -> tee_of reader t'.
Proof.
  revert n t w. induction entries as [|[header contents] rest IH]; intros n t w Ht; cbn [apply_entries]; destruct (ctx n); try done.
  - destruct final; [done|]. intros [= <- _]. by apply tee_of_Read.
  - intros (_ & w1 & _ & E)%bind_Ok. eapply IH; [|exact E]. by apply tee_of_Read.
Qed.

(** Drained, the tee has hashed the whole of the reader. *)
Lemma tee_drain_of reader t : tee_of reader t ->
  match snd reader with
  | Some err => tee_drain t = Err err
  | None => exists t', tee_drain t = Ok t' /\ tee_hash t' = fst reader
  end.
Proof.
  intros [H1 H2]. unfold tee_drain. rewrite H2. destruct (snd reader); [done|]. eexists. split; [done|]. simpl. by rewrite (str_take_all (String.length _)).
Qed.

(** The loop against the entries alone. *)
Lemma apply_entries_Ok Root ctx takes n t entries w w' :
  (exists t', apply_entries Root ctx takes n t entries None w = (Ok t', w'))
  <-> (forall k, k <= length entries -> ctx (n + k) = None) /\ for_each entries (fun e => applyEntry Root (fst e) (snd e)) w = (Ok tt, w').
Proof.
  revert n t w. induction entries as [|[header contents] rest IH]; intros n t w; cbn [apply_entries for_each length].
  - destruct (ctx n) as [err|] eqn:EC.
    + split; [by intros [? ?]|]. intros [Hc _]. specialize (Hc 0 (le_n 0)). rewrite Nat.add_0_r in Hc. congruence.
    + split; [intros [t' [= _ <-]]|intros [_ [= <-]]; by eexists]. split; [|done]. intros k Hk. by replace (n + k) with n by lia.
  - destruct (ctx n) as [err|] eqn:EC.
    + split; [by intros [? ?]|]. intros [Hc _]. specialize (Hc 0 ltac:(lia)). rewrite Nat.add_0_r in Hc. congruence.
    + unfold mbind, GoM_bind, wrap_err. cbn [fst snd]. destruct (applyEntry Root header contents w) as [[[]|e|v] w1];
        [|split; [by intros [? ?]|by intros [_ ?]]..].
      rewrite IH. split; intros [Hc Hf]; (split; [|done]).
      * intros [|k] Hk; [by rewrite Nat.add_0_r|]. replace (n + S k) with (S n + k) by lia. apply Hc. lia.
      * intros k Hk. replace (S n + k) with (n + S k) by lia. apply Hc. lia.
Qed.

Lemma apply_entries_EOF Root ctx takes n t entries final w t' w' :
  apply_entries Root ctx takes n t entries final w = (Ok t', w') -> final = None.
Proof.
  revert n t w. induction entries as [|[header contents] rest IH]; intros n t w; cbn [apply_entries]; destruct (ctx n); try done.
  - by destruct final.
  - intros (_ & w1 & _ & E)%bind_Ok. by eapply IH.
Qed.

(** ** Accepted names *)

Lemma Clean_dot_iff s cs : cpath_of s = (false, cs) -> (Clean s = "." <-> cs = []).
Proof.
  intros E. split; [|intros ->; unfold Clean; by rewrite E].
  intros H. destruct cs as [|c cs]; [done|]. exfalso.
  pose proof (cpath_of_Clean s) as HC. rewrite H, E in HC. by vm_compute in HC.
Qed.

Lemma psplit_Clean_relative s cs :
  cpath_of s = (false, cs) -> cs <> [] -> psplit (Clean s) = cs /\ relative_nf cs.
Proof.
  intros E Hc. assert (Hr : relative_nf cs).
  { replace cs with (snd (cpath_of s)) by (by rewrite E). apply cpath_of_relative.
    by apply (f_equal fst) in E. }
  split; [|done]. rewrite (Clean_relative_names s cs) by done.
  by apply psplit_pjoin, relative_nf_no_slash.
Qed.

Lemma escapes_relative s cs :
  cpath_of s = (false, cs) ->
  bool_decide (Clean s = "..") || HasPrefix (Clean s) "../" = bool_decide (head cs = Some "..").
Proof.
  intros E. change (rel_escapes (Clean s) = bool_decide (head cs = Some "..")).
  destruct (decide (cs = [])) as [->|Hc]; [unfold Clean; by rewrite E|].
  destruct (psplit_Clean_relative s cs E Hc) as [_ Hr].
  rewrite (Clean_relative_names s cs) by done. destruct cs as [|c cs]; [done|].
  rewrite rel_escapes_pjoin by (by apply relative_nf_no_slash). simpl.
  apply bool_decide_ext. naive_solver.
Qed.

(** The names the applier accepts: relative, and after cleaning a non-empty list of
    directory-entry names. *)
Lemma cleanLayerPath_names name clean :
  cleanLayerPath name = Ok clean <->
  exists cs, cpath_of name = (false, cs) /\ cs <> [] /\ Forall is_name cs /\ clean = pjoin cs.
Proof.
  unfold cleanLayerPath. split.
  - case_decide as He; [done|]. destruct (IsAbs name) eqn:Ea; [done|].
    change (HasPrefix name "/") with (IsAbs name). rewrite Ea. simpl.
    destruct (cpath_of name) as [r cs] eqn:E.
    assert (r = false) as -> by (by apply (f_equal fst) in E; simpl in E; rewrite Ea in E).
    rewrite <- orb_assoc, (escapes_relative _ _ E).
    case_bool_decide as H1; [done|]. case_bool_decide as H2; [done|]. simpl. intros [= <-].
    assert (Hc : cs <> []) by (by rewrite <- (Clean_dot_iff name cs E)).
    exists cs. repeat split; [done..| |by apply Clean_relative_names].
    apply relative_nf_names; [|done]. by eapply psplit_Clean_relative.
  - intros (cs & E & Hc & Hn & ->).
    assert (Ea : IsAbs name = false) by (by apply (f_equal fst) in E).
    change (HasPrefix name "/") with (IsAbs name). rewrite Ea. simpl.
    rewrite decide_False by (intros ->; by apply Hc; injection E).
    rewrite <- orb_assoc, (escapes_relative _ _ E), bool_decide_eq_false_2 by (by rewrite (Clean_dot_iff name cs E)).
    rewrite bool_decide_eq_false_2; [by rewrite (Clean_relative_names name cs)|].
    destruct Hn as [|c cs Hn _]; [done|]. simpl. intros [= ->]. by destruct Hn as (_ & _ & ? & _).
Qed.

Section applier_paths.
Variable Root : string.
Hypothesis Root_abs : IsAbs Root = true.
Abbreviation rootc := (Below.rootc Root).

Lemma safePath_names x :
  x <> [] -> Forall is_name x ->
  exists target, safePath Root (pjoin x) = Ok target /\ abs_path target (rootc ++ x).
Proof.
  intros Hx Hn. unfold safePath.
  assert (Ht : abs_path (Join [Clean Root; pjoin x]) (rootc ++ x)).
  { eapply Join_abs_names; [apply (Clean_Root Root Root_abs)|by apply psplit_below|done]. }
  eexists. split; [|exact Ht]. rewrite (Rel_below _ _ rootc x (Clean_Root Root Root_abs) Ht).
  unfold mbind, outcome_bind. 
  change (bool_decide (?r = "..") || HasPrefix ?r "../") with (rel_escapes r).
  by rewrite rel_escapes_below.
Qed.

(** Whatever the name, the path given back lies below the root or is the root itself; a
    name whose joined path does not is refused. *)
Lemma safePath_spec name :
  (exists x target, safePath Root name = Ok target /\ abs_path target (rootc ++ x))
  \/ safePath Root name = Err (Errorf "path escapes root" []).
Proof.
  unfold safePath. pose proof (Join_abs _ _ name (Clean_Root Root Root_abs)) as Ht.
  destruct (Rel_escapes_iff _ _ _ _ (Clean_Root Root Root_abs) Ht) as (rel & E & Hr). rewrite E.
  unfold mbind, outcome_bind. 
  change (bool_decide (rel = "..") || HasPrefix rel "../") with (rel_escapes rel).
  destruct (rel_escapes rel); [by right|left].
  destruct Hr as [[x Hx] _]; [done|]. eexists x, _. split; [done|]. by rewrite <- Hx.
Qed.
End applier_paths.

(** ** The check for symbolic links on the way *)

Lemma check_parents_same_tree path parts : preserves same_tree (check_parents path parts).
Proof.
  revert path. induction parts as [|part parts IH]; intros path; cbn [check_parents];
    unfold os_Lstat; solve_preserves; apply IH.
Qed.

Lemma ensureNoSymlinkParents_same_tree root target :
  preserves same_tree (ensureNoSymlinkParents root target).
Proof. pose proof check_parents_same_tree. unfold ensureNoSymlinkParents. solve_preserves. Qed.

#[export] Hint Resolve ensureNoSymlinkParents_same_tree : go_preserves.

Lemma check_parents_nosym path cur parts w :
  wf w -> abs_path path cur -> Forall is_name parts -> nosym true (w_nodes w) [] cur ->
  fst (check_parents path parts w) = Ok tt -> nosym true (w_nodes w) [] (cur ++ parts).
Proof.
  intros Hw Hp Hn. revert path cur w Hw Hp. induction Hn as [|c parts Hc Hn IH]; intros path cur w Hw Hp Hs.
  { by rewrite app_nil_r. }
  cbn [check_parents]. set (path' := Join [path; c]).
  assert (Hp' : abs_path path' (cur ++ [c])) by (by apply Join_abs_name).
  pose proof (Lstat_nosym path' cur c w Hw Hp' Hs) as Hl.
  pose proof (stat_same_tree false path' w) as Ht. fold os_Lstat in Ht.
  unfold mbind, GoM_bind, attempt. destruct (os_Lstat path' w) as [[info|e|v] w'] eqn:E;
    simpl in Hl, Ht; [| |done].
  - destruct Hl as (n & Hn' & ->). destruct (fi_symlink (info_of w n)) eqn:El; [done|].
    intros Hr. pose proof Ht as (En & _ & _). rewrite <- En.
    replace (cur ++ c :: parts) with ((cur ++ [c]) ++ parts) by (by rewrite <- app_assoc).
    eapply (IH path'); [by eapply wf_same_tree|done| |exact Hr].
    rewrite En. apply nosym_snoc; [done|]. intros t m Hl. rewrite Hl in Hn'. by simplify_eq.
  - destruct (os_IsNotExist e); [|done]. intros _. by apply nosym_missing; [..|apply Hl].
Qed.

Section confinement.
Variable Root : string.
Hypothesis Root_abs : IsAbs Root = true.
Abbreviation cs := (rootc Root).
Abbreviation ready := (Below.ready Root).

Lemma ensureNoSymlinkParents_nosym target x c w :
  wf w -> standing cs w -> abs_path target (cs ++ x ++ [c]) ->
  fst (ensureNoSymlinkParents Root target w) = Ok tt -> nosym true (w_nodes w) [] (cs ++ x).
Proof.
  intros Hw Hst Ht. unfold ensureNoSymlinkParents.
  assert (Hd : abs_path (Dir target) (cs ++ x)).
  { apply Dir_abs in Ht. by rewrite app_assoc, removelast_last in Ht. }
  assert (Hx : Forall is_name x) by (destruct Hd as [_ Hd]; by apply Forall_app in Hd as [_ ?]).
  rewrite (Rel_below _ _ _ _ (Clean_Root Root Root_abs) Hd). unfold mbind, GoM_bind, lift_outcome.
  destruct (decide (x = [])) as [->|Hx0]; [intros _; rewrite app_nil_r; by apply standing_nosym|].
  assert (Hps : psplit (pjoin x) = x) by (by apply psplit_below).
  rewrite decide_False.
  - rewrite Hps. apply check_parents_nosym; [done|by apply Clean_Root|done|by apply standing_nosym].
  - intros E. rewrite E in Hps. change (psplit ".") with ["."] in Hps. subst x.
    apply Forall_cons in Hx as [Hx _]. by destruct Hx as (_ & ? & _).
Qed.

Section entry.
Context (target : string) (x : list string) (c : string).
Hypothesis Ht : abs_path target (cs ++ x ++ [c]).

Lemma conf_metadata_link header w :
  ready x w -> conf (below cs) w (snd (applyMetadata target header true w)).
Proof.
  intros Hr. apply conf_ignore, conf_chown; eauto using below_root, below_down, ready_leads.
Qed.

Lemma conf_mkdir header w :
  ready x w -> conf (below cs) w (snd (mkdir target header w)).
Proof.
  intros Hr. unfold mkdir. apply (conf_bind_ready x); [done|by apply (conf_MkdirAll_target Ht)|auto with go_preserves|].
  intros [] w' _ Hr'. by apply conf_metadata_link.
Qed.

Lemma conf_symlink header w :
  ready x w -> conf (below cs) w (snd (symlink target header w)).
Proof.
  intros Hr. unfold symlink.
  apply conf_bind; [apply conf_wrap, conf_preserves; solve_preserves|]. intros a w' Hw'.
  assert (w' = w) as ->.
  { unfold wrap_err, lift_outcome in Hw'. by destruct (cleanLinkPath (Linkname header)); simplify_eq. }
  apply (conf_bind_ready x); [done|by apply (conf_MkdirAll_parent Ht)|auto with go_preserves|]. intros [] w1 _ H1.
  apply (conf_bind_ready x); [done|by apply (conf_RemoveAll_target Ht)|auto with go_preserves|]. intros [] w2 _ H2.
  pose proof (conf_Symlink (below cs) (below_root cs) (Linkname header) target w2 (ready_leads Ht w2 H2)) as HS.
  apply conf_bind; [done|]. intros [] w3 E3. rewrite E3 in HS. simpl in HS.
  apply conf_ignore, conf_chown; [by auto using below_root..|].
  eapply leads_below; [done|by destruct x|]. rewrite app_assoc. apply nosym_parent.
  pose proof (Symlink_other (Linkname header) target w2) as Ho. rewrite E3 in Ho. simpl in Ho.
  intros pre d post E _ t m Hl. rewrite Ho in Hl.
  - destruct H2 as [_ H2]. eapply (H2 pre d post E); [by right|exact Hl].
  - rewrite (resolve_abs _ _ _ _ Ht). intros Er.
    destruct (walk_nosym max_symlinks (w_nodes w2) false [] (cs ++ x ++ [c])) as [E'|[E'|E']];
      [apply Ht|rewrite app_assoc; by apply nosym_parent, H2|..]; rewrite E' in Er; [|done..].
    injection Er as Er. apply (f_equal length) in E, Er. rewrite !length_app in *. simpl in *. lia.
Qed.

Lemma conf_metadata_file header w i :
  ready x w -> w_nodes w !! (cs ++ x ++ [c]) = Some (NFile i) ->
  conf (below cs) w (snd (applyMetadata target header false w)).
Proof.
  intros Hr Hi. unfold applyMetadata.
  assert (Hbind : forall {A} (m : OS A) (k : A -> OS unit) v,
    ready x v -> w_nodes v !! (cs ++ x ++ [c]) = Some (NFile i) ->
    preserves files_kept m -> preserves no_new_links m ->
    (leads (below cs) true target v -> conf (below cs) v (snd (m v))) ->
    (forall a v', m v = (Ok a, v') -> ready x v' -> w_nodes v' !! (cs ++ x ++ [c]) = Some (NFile i) ->
       conf (below cs) v' (snd (k a v'))) ->
    conf (below cs) v (snd ((m ≫= k) v))).
  { intros A m k v Hv Hf Hk Hn Hm Hgo. apply (conf_bind_ready x); [done| |done|].
    - apply Hm. by eapply (ready_leads_follow Ht).
    - intros a v' E Hv'. apply (Hgo a); [done..|]. specialize (Hk v). rewrite E in Hk. by apply Hk. }
  apply Hbind; auto with go_preserves. { intros H. apply conf_Chmod; auto using below_root. }
  intros _ w1 _ H1 F1.
  apply Hbind; [done|done|unfold os_Chown; solve_preserves..| |].
  { intros H. apply conf_attempt, conf_chown; auto using below_root. }
  intros r w2 _ H2 F2.
  apply Hbind; [done|done|solve_preserves..| |].
  { intros _. apply conf_preserves. solve_preserves. }
  intros _ w3 _ H3 F3. apply conf_Chtimes; auto using below_root. by eapply (ready_leads_follow Ht).
Qed.

Lemma file_applyMetadata header i n w w' :
  resolve true target w = inr (cs ++ x ++ [c]) -> file_at (cs ++ x ++ [c]) i n w ->
  applyMetadata target header false w = (Ok tt, w') ->
  exists u g, file_at (cs ++ x ++ [c]) i
    (Inode (i_data n) (Meta (safeFileMode (FileInfo_Mode header) 420) u g (default 0%Z (ModTime header)))) w'.
Proof.
  intros Hr Hf H. unfold applyMetadata in H. run_Ok H.
  destruct a. destruct (file_Chmod target _ _ _ _ _ _ Hr Hf E) as [F1 N1].
  assert (exists u g, file_at (cs ++ x ++ [c]) i (Inode (i_data n)
      (Meta (safeFileMode (FileInfo_Mode header) 420) u g (m_mtime (i_meta n)))) w1 /\ same_names w0 w1)
    as (u & g & F2 & N2).
  { rewrite <- (resolve_same_names _ _ _ _ N1) in Hr. unfold os_Chown, attempt in E0.
    destruct (chown_gen true target (Uid header) (Gid header) w0) as [o v] eqn:Ec.
    destruct (file_chown target _ _ _ true _ _ _ _ _ Hr F1 Ec) as [(u & g & F & _) N].
    exists u, g. destruct o; by simplify_eq/=. }
  assert (w2 = w1) as ->.
  { destruct a0 as [e|[]]; [|by injection E1]. destruct (errors_Is e EPERM); [by injection E1|done]. }
  rewrite <- (resolve_same_names _ _ _ _ N1), <- (resolve_same_names _ _ _ _ N2) in Hr.
  destruct (file_Chtimes target _ _ _ _ _ _ Hr F2 H) as [F3 _]. simpl in F3. eauto.
Qed.

Lemma writeFile_file header reader w w' :
  ready x w -> writeFile Root target header reader w = (Ok tt, w') ->
  snd reader = None /\ exists i u g, file_at (cs ++ x ++ [c]) i
    (Inode (fst reader) (Meta (safeFileMode (FileInfo_Mode header) 420) u g (default 0%Z (ModTime header)))) w'.
Proof.
  intros R0 H. unfold writeFile in H. run_Ok H.
  assert (R1 : ready x w0).
  { pose proof (conf_MkdirAll_parent Ht 493 w R0) as Hc. pose proof (nnl_MkdirAll (Dir target) 493 w) as Hn.
    rewrite E in Hc, Hn. by eapply ready_step. }
  assert (R3 : ready x w2).
  { pose proof (ensureNoSymlinkParents_same_tree Root target w0) as S1. rewrite E0 in S1.
    pose proof (preserves_attempt _ _ (stat_same_tree false target) w1) as S2.
    unfold os_Lstat in E1. rewrite E1 in S2. do 2 (eapply ready_same_tree; [done|]). done. }
  assert (R4 : ready x w3).
  { pose proof (conf_open (below cs) (below_root cs) target wronly_creat_trunc_nofollow
      (safeFileMode (FileInfo_Mode header) 420) w2 (ready_leads Ht w2 R3)) as Hc.
    pose proof (nnl_open target wronly_creat_trunc_nofollow (safeFileMode (FileInfo_Mode header) 420) w2) as Hn.
    rewrite E3 in Hc, Hn. by eapply ready_step. }
  apply open_trunc in E3 as (q & m & Hq & Hf & _); [|apply R3|done].
  pose proof (ready_resolve Ht w2 q R3 Hq) as ->. simpl in Hq.
  destruct a4 as [e|[]]; [done|]. destruct a5 as [e|[]]; [done|].
  apply attempt_inr in E4. unfold io_Copy in E4. apply bind_Ok in E4 as ([] & w6 & Ew & Er).
  destruct (snd reader) as [e|] eqn:Hsnd; [done|]. injection Er as ->. split; [done|].
  destruct (file_fd_write _ _ _ _ _ _ Hf Ew) as [F1 N1]. simpl in F1.
  apply attempt_inr in E5. pose proof (fd_close_same_tree a3 w4) as S5.
  pose proof (names_fd_close a3 w4) as N5. rewrite E5 in S5, N5.
  exists a3. change (fst reader) with (i_data (Inode (fst reader) m)).
  eapply file_applyMetadata; [|by eapply file_at_same_tree|exact H].
  rewrite (resolve_same_names _ _ _ _ N5), (resolve_same_names _ _ _ _ N1).
  apply (resolve_file_follow _ _ _ a3); [|apply Hf].
  destruct R4 as [[[Hwf _] _] Hs4]. eapply (resolve_existing false); [done|exact Ht| |apply Hf].
  rewrite app_assoc. by apply nosym_parent.
Qed.

Lemma conf_writeFile header reader w :
  ready x w -> conf (below cs) w (snd (writeFile Root target header reader w)).
Proof.
  intros Hr. unfold writeFile.
  apply (conf_bind_ready x); [done|by apply (conf_MkdirAll_parent Ht)|auto with go_preserves|]. intros [] w1 _ H1.
  apply (conf_bind_same x); [done|auto with go_preserves|]. intros [] w2 _ _ H2.
  apply (conf_bind_same x); [done|unfold os_Lstat; solve_preserves|]. intros l w3 _ _ H3.
  apply (conf_bind_same x); [done|solve_preserves|]. intros [] w4 _ _ H4.
  pose proof (conf_open (below cs) (below_root cs) target wronly_creat_trunc_nofollow
    (safeFileMode (FileInfo_Mode header) 420) w4 (ready_leads Ht w4 H4)) as Hop.
  pose proof (open_named target wronly_creat_trunc_nofollow
    (safeFileMode (FileInfo_Mode header) 420) w4) as Hnm.
  apply (conf_bind_ready x); [done|done|auto with go_preserves|]. intros file w5 E5 H5.
  rewrite E5 in Hnm. destruct (Hnm file eq_refl) as (q & Hq & Hn5 & _). simpl in Hn5.
  assert (q = cs ++ x ++ [c]) as ->.
  { simpl in Hq. rewrite (resolve_abs _ _ _ _ Ht) in Hq.
    destruct (walk_nosym max_symlinks (w_nodes w4) false [] (cs ++ x ++ [c])) as [E'|[E'|E']];
      [apply Ht|rewrite app_assoc; by apply nosym_parent, H4|..]; rewrite E' in Hq; [|done..].
    by injection Hq. }
  assert (Hcopy : preserves no_new_links (io_Copy file reader)) by (unfold io_Copy; solve_preserves).
  assert (Kcopy : preserves files_kept (io_Copy file reader)) by (unfold io_Copy; solve_preserves).
  apply (conf_bind_ready x); [done| |solve_preserves|].
  { apply conf_attempt. unfold io_Copy. apply conf_bind.
    - eapply conf_fd_write; [|exact Hn5]. apply below_app. by destruct x.
    - intros [] w6 _. destruct (snd reader); reflexivity. }
  intros copyErr w6 E6 H6.
  assert (Hn6 : w_nodes w6 !! (cs ++ x ++ [c]) = Some (NFile file)).
  { pose proof (preserves_attempt files_kept _ Kcopy w5) as H. rewrite E6 in H. by apply H. }
  apply (conf_bind_same x); [done|solve_preserves|]. intros closeErr w7 E7 S7 H7.
  assert (Hn7 : w_nodes w7 !! (cs ++ x ++ [c]) = Some (NFile file)) by (by destruct S7 as (-> & _)).
  destruct copyErr as [e|[]]; [reflexivity|]. destruct closeErr as [e|[]]; [reflexivity|].
  by eapply conf_metadata_file.
Qed.
End entry.

(** The check of an entry's parents makes it ready. *)
Lemma conf_bind_checked {B} target x c (k : unit -> OS B) w :
  rooted cs w -> abs_path target (cs ++ x ++ [c]) ->
  (forall w', same_tree w w' -> ready x w' -> conf (below cs) w' (snd (k tt w'))) ->
  conf (below cs) w (snd ((ensureNoSymlinkParents Root target ≫= k) w)).
Proof.
  intros Hr Ht Hk. apply conf_bind; [apply conf_preserves; auto with go_preserves|].
  intros [] w' E. pose proof (ensureNoSymlinkParents_same_tree Root target w) as HS.
  rewrite E in HS. simpl in HS. apply Hk; [done|]. split.
  - eapply rooted_conf; [by apply conf_same_tree|done].
  - pose proof HS as (-> & _). eapply ensureNoSymlinkParents_nosym; [apply Hr|apply Hr|done|by rewrite E].
Qed.

Lemma conf_hardlink target x c header w :
  ready x w -> abs_path target (cs ++ x ++ [c]) ->
  conf (below cs) w (snd (hardlink Root target header w)).
Proof.
  intros Hr Ht. unfold hardlink.
  destruct (cleanLayerPath (Linkname header)) as [linkName|e|v] eqn:El; [|reflexivity..].
  apply cleanLayerPath_names in El as (y & _ & Hy & Hn & ->).
  destruct (safePath_names Root Root_abs y Hy Hn) as (linkTarget & Es & Hl).
  apply conf_bind; [reflexivity|]. intros ? ? [= <- <-]. rewrite Es.
  apply conf_bind; [reflexivity|]. intros ? ? [= <- <-].
  destruct y as [|d y _] using rev_ind; [done|]. clear Es Hy Hn.
  eapply conf_bind_checked; [apply Hr|exact Ht|]. intros w1 S1 R1.
  eapply conf_bind_checked; [apply R1|exact Hl|]. intros w2 S2 R2.
  assert (R2' : ready x w2) by (by eapply ready_same_tree).
  (* both entries stay ready *)
  assert (Hbind : forall {A} (m : OS A) (k : A -> OS unit) v,
      ready x v -> ready y v -> conf (below cs) v (snd (m v)) -> preserves no_new_links m ->
      (forall a v', ready x v' -> ready y v' -> conf (below cs) v' (snd (k a v'))) ->
      conf (below cs) v (snd ((m ≫= k) v))).
  { intros A m k v Hx Hy Hm Hk Hgo. apply conf_bind; [done|]. intros a v' E. specialize (Hk v).
    rewrite E in Hm, Hk. apply Hgo; by eapply ready_step. }
  apply Hbind; [done|done|apply conf_stat|apply nnl_stat|]. intros info w3 X3 Y3.
  apply Hbind; [done|done|apply conf_preserves; solve_preserves|solve_preserves|]. intros _ w4 X4 Y4.
  apply Hbind; [done|done|by eapply conf_MkdirAll_parent|auto with go_preserves|]. intros _ w5 X5 Y5.
  apply Hbind; [done|done|by eapply conf_RemoveAll_target|auto with go_preserves|]. intros _ w6 X6 Y6.
  apply conf_Link; eauto using below_root, ready_leads.
Qed.

(** ** Whole entries and whole layers *)

(** The name, cleaned, has no whiteout prefix on its last element. *)
Definition is_whiteout (name : string) : bool :=
  match cleanLayerPath name with
  | Ok clean => HasPrefix (Base clean) ".wh."
  | _ => false
  end.

Lemma conf_applyEntry header reader w :
  rooted cs w -> is_whiteout (Name header) = false ->
  conf (below cs) w (snd (applyEntry Root header reader w)).
Proof.
  intros Hr Hw. unfold applyEntry, is_whiteout in *.
  destruct (cleanLayerPath (Name header)) as [name|e|v] eqn:El; [|reflexivity..].
  apply conf_bind; [reflexivity|]. intros ? ? [= <- <-].
  rewrite decide_False by (intros E; rewrite E in Hw; done). rewrite Hw.
  apply cleanLayerPath_names in El as (y & _ & Hy & Hn & ->).
  destruct (safePath_names Root Root_abs y Hy Hn) as (target & Es & Ht). rewrite Es.
  apply conf_bind; [reflexivity|]. intros ? ? [= <- <-].
  destruct y as [|c x _] using rev_ind; [done|]. clear Es Hy Hn Hw.
  eapply conf_bind_checked; [done|exact Ht|]. intros w1 S1 R1.
  destruct (classify (Typeflag header)); try reflexivity.
  - by eapply conf_mkdir.
  - by eapply conf_writeFile.
  - by eapply conf_symlink.
  - by eapply conf_hardlink.
Qed.

Lemma conf_apply_entries ctx takes n t entries final w :
  rooted cs w -> Forall (fun e => is_whiteout (Name e.1) = false) entries ->
  conf (below cs) w (snd (apply_entries Root ctx takes n t entries final w)).
Proof.
  intros Hr He. revert n t w Hr. induction He as [|[header contents] rest Hh He IH]; intros n t w Hr; simpl.
  - destruct (ctx n); [reflexivity|]. destruct final; reflexivity.
  - destruct (ctx n); [reflexivity|].
    pose proof (conf_applyEntry header contents w Hr Hh) as Hc.
    apply conf_bind; [by apply conf_wrap|]. intros [] w' E. apply IH.
    eapply rooted_conf; [|done]. apply (conf_wrap _ (Wrapf "apply %q: %w" [Name header])) in Hc.
    by rewrite E in Hc.
Qed.
End confinement.

(** ** Whiteouts *)

Section whiteouts.
Variable Root : string.
Hypothesis Root_abs : IsAbs Root = true.
Abbreviation cs := (rootc Root).

(** A whiteout removes the tree at the path its target resolves to. *)
Lemma whiteout_resolved header reader x n q w :
  Name header = pjoin (x ++ [".wh." +:+ n]) -> Forall is_name x -> is_name n ->
  n <> ".wh..opq" -> w_faults w = [] ->
  (forall target, abs_path target (cs ++ x ++ [n]) -> resolve false target w = inr q) -> q <> [] ->
  applyEntry Root header reader w = (Ok tt, set_nodes (filter (fun kv => ~ q `prefix_of` kv.1)) w).
Proof.
  intros Hname Hx Hn Hopq Hf Hq Hne. unfold applyEntry. rewrite Hname.
  assert (Hw : is_name (".wh." +:+ n)) by (apply is_name_app; [done|apply Hn|simpl; lia]).
  assert (Hall : Forall is_name (x ++ [".wh." +:+ n])) by auto with go_path.
  assert (Hclean : cleanLayerPath (pjoin (x ++ [".wh." +:+ n])) = Ok (pjoin (x ++ [".wh." +:+ n]))).
  { apply cleanLayerPath_names. exists (x ++ [".wh." +:+ n]).
    split_and!; [by apply cpath_of_names; [destruct x|]|by destruct x|done..]. }
  rewrite Hclean. unfold lift_outcome, mbind, GoM_bind. rewrite Base_names, Dir_names by done.
  rewrite decide_False; [|intros E; by apply (app_inj_l ".wh.") in E].
  rewrite prefix_app, TrimPrefix_app, Join_names by done.
  destruct (safePath_names Root Root_abs (x ++ [n])) as (target & -> & Ht);
    [by destruct x|auto with go_path|].
  unfold os_RemoveAll. rewrite decide_False by (by eapply abs_path_not_empty).
  rewrite decide_False.
  - unfold syscall. rewrite Hf, (Hq target Ht). by destruct q.
  - destruct Ht as [-> Hnames]. simpl render. rewrite psplit_rooted.
    rewrite psplit_below by (by destruct cs, x).
    rewrite !app_assoc, app_comm_cons, last_snoc. intros [= ->]. by destruct Hn as (_ & ? & _).
Qed.

Lemma removeAll_standing path q c w :
  standing q w -> abs_path path (q ++ [c]) -> w_faults w = [] ->
  os_RemoveAll path w = (Ok tt, set_nodes (filter (fun kv => ~ (q ++ [c]) `prefix_of` kv.1)) w).
Proof.
  intros Hst Hp Hf. unfold os_RemoveAll. rewrite decide_False by (by eapply abs_path_not_empty).
  rewrite decide_False.
  - unfold syscall. rewrite Hf, (standing_resolve false path q c) by done. by destruct q.
  - destruct Hp as [-> Hnames]. simpl render. rewrite psplit_rooted, psplit_below by (done || by destruct q).
    rewrite app_comm_cons, last_snoc. intros [= ->]. apply Forall_app in Hnames as [_ Hc].
    apply Forall_cons in Hc as [(_ & ? & _) _]. done.
Qed.

Definition covered (q l k : list string) : Prop := exists c, c ∈ l /\ (q ++ [c]) `prefix_of` k.
#[local] Instance covered_dec q l k : Decision (covered q l k).
Proof.
  refine (cast_if (decide (Exists (fun c => (q ++ [c]) `prefix_of` k) l))); unfold covered;
    by rewrite <- Exists_exists.
Defined.

Lemma removeChildren_loop (g : string -> DirEntry) path q l w :
  (forall c, de_name (g c) = c) -> standing q w -> abs_path path q -> Forall is_name l -> w_faults w = [] ->
  for_each (g <$> l)
    (fun entry => os_RemoveAll (Join [path; de_name entry])) w
  = (Ok tt, set_nodes (filter (fun kv => ~ covered q l kv.1)) w).
Proof.
  intros Hg Hst Hp Hl Hf. revert w Hst Hf. induction Hl as [|c l Hc Hl IH]; intros w Hst Hf; simpl.
  - unfold mret, GoM_ret. f_equal. destruct w as [nodes ???????????]. unfold set_nodes. simpl. f_equal.
    symmetry. apply map_filter_id. intros k n _ (c & Hc & _). by apply elem_of_nil in Hc.
  - rewrite Hg. unfold mbind, GoM_bind. rewrite (removeAll_standing _ q c) by (done || by apply Join_abs_name).
    rewrite IH; simpl; [|..|done].
    + f_equal. destruct w as [nodes ???????????]. unfold set_nodes. simpl. f_equal.
      rewrite map_filter_filter. apply map_filter_ext. intros k n _. simpl. unfold covered. split.
      * intros [H1 H2] (d & Hd & Hp'). apply elem_of_cons in Hd as [->|Hd]; eauto.
      * intros H. split; [|intros H2; apply H; exists c; split; [apply elem_of_cons; auto|done]].
        intros (d & Hd & Hp'). apply H. exists d. split; [apply elem_of_cons; auto|done].
    + intros p Hpq. destruct (Hst p Hpq) as [m Hm]. exists m.
      apply map_lookup_filter_Some. split; [done|]. simpl. intros Hcp.
      assert (Hlen : (q ++ [c]) `prefix_of` q) by (by etrans). apply prefix_length in Hlen.
      rewrite length_app in Hlen. simpl in Hlen. lia.
Qed.

Lemma elem_of_children w q c : c ∈ children w q <-> is_Some (w_nodes w !! (q ++ [c])).
Proof.
  unfold children. rewrite list_elem_of_omap. split.
  - intros (k & Hk & H). apply list_elem_of_fmap in Hk as ([k' n] & -> & Hk).
    apply elem_of_map_to_list in Hk. simpl in *.
    destruct k' as [|d k' _] using rev_ind; [done|].
    rewrite last_snoc, removelast_last in H. case_decide; simplify_eq. by eexists.
  - intros [n Hn]. exists (q ++ [c]). split.
    + apply list_elem_of_fmap. exists (q ++ [c], n). split; [done|]. by apply elem_of_map_to_list.
    + by rewrite last_snoc, removelast_last, decide_True.
Qed.

Lemma covered_children w q l k n :
  wf w -> l ≡ₚ children w q -> w_nodes w !! k = Some n -> covered q l k <-> below q k.
Proof.
  intros Hw Hl Hk. split.
  - intros (c & _ & [y ->]). rewrite <- app_assoc. by apply below_app.
  - intros [[y ->] Hne]. destruct y as [|c y]; [by rewrite app_nil_r in Hne|].
    exists c. split; [|exists y; by rewrite <- app_assoc]. rewrite Hl, elem_of_children.
    destruct y as [|d y]; [by eexists|].
    destruct (wf_prefix w (q ++ [c]) (d :: y) n Hw) as [m Hm]; [by rewrite <- app_assoc|done|by eexists].
Qed.

Lemma removeChildren_standing path q w :
  wf w -> proper_names w -> standing q w -> abs_path path q -> w_faults w = [] ->
  removeChildren path w = (Ok tt, set_nodes (filter (fun kv => ~ below q kv.1)) w).
Proof.
  intros Hw Hpn Hst Hp Hf. unfold removeChildren, os_ReadDir, syscall, attempt.
  assert (Hr : resolve true path w = inr q).
  { destruct (Hst q (reflexivity q)) as [m Hm].
    eapply resolve_existing; [done|done|by apply standing_nosym|done]. }
  destruct (Hst q (reflexivity q)) as [m Hm]. set (l := merge_sort String.le (children w q)).
  assert (Hl : l ≡ₚ children w q) by apply merge_sort_Permutation.
  os_unfold. rewrite Hf, Hr. simpl. rewrite Hm.
  rewrite (removeChildren_loop _ path q); [|done|done|done| |done].
  - f_equal. destruct w as [nodes ???????????]. unfold set_nodes. simpl. f_equal.
    apply map_filter_ext. intros k n Hk. simpl. fold l. by rewrite (covered_children _ _ _ _ _ Hw Hl Hk).
  - fold l. rewrite Hl. apply Forall_forall. intros c [n Hc]%elem_of_children.
    apply Hpn, Forall_app in Hc as [_ Hc]. by apply Forall_cons in Hc as [? _].
Qed.
End whiteouts.

(** ** What the applier promises *)

(** Data at which the properties are exercised: a host with a root file system directory. *)
Definition demo_world : world :=
  with_file "/host/secret" "s" (with_dirs ["/rootfs/etc"; "/host"] empty_world).
Definition entry (name link : string) (flag : ascii) : Header :=
  {| Name := name; Linkname := link; Typeflag := flag; Size := 0; Mode := 420; Uid := 0; Gid := 0; ModTime := Some 7%Z |}.

(** C25: [cleanLayerPath] accepts exactly the relative names that stay below their start: the
    cleaned name is the slash-joined list of its components, there is at least one, and each
    is a directory-entry name (not empty, not a dot or dot-dot, no slash). *)
Theorem cleanLayerPath_accepts name clean :
  cleanLayerPath name = Ok clean <->
  exists cs, cpath_of name = (false, cs) /\ cs <> [] /\ Forall is_name cs /\ clean = pjoin cs.
Proof. apply cleanLayerPath_names. Qed.

(** C1: Applying a layer without whiteout entries changes nothing outside the directory tree
    strictly below the root, whatever the layer holds (names with dot-dot, symbolic links and
    entries below them, hard links, special modes), whatever fails on the way and whenever the
    context ends: every path outside shows the same file, link or directory as before, and the
    root's own chain of directories still stands. *)
Theorem ApplyLayer_confined Root gz (tar : tar_reader) ctx layer diffID w :
  IsAbs Root = true ->
  rooted (rootc Root) w ->
  (forall file reader, layerReader gz file = Ok reader ->
     Forall (fun e => is_whiteout (Name e.1) = false) (fst (tar reader))) ->
  let w' := snd (ApplyLayer Root gz tar ctx layer diffID w) in
  rooted (rootc Root) w' /\ forall p, ~ below (rootc Root) p -> view w' p = view w p.
Proof.
  intros Ha Hr Ht. assert (Hc : conf (below (rootc Root)) w (snd (ApplyLayer Root gz tar ctx layer diffID w))).
  { unfold ApplyLayer. apply conf_bind; [apply conf_preserves; auto with go_preserves|].
    intros file w1 E1. pose proof (os_ReadFile_same_tree layer w) as HS. rewrite E1 in HS. simpl in HS.
    destruct (layerReader gz file) as [reader|e|v] eqn:El; [|reflexivity..].
    apply conf_bind; [reflexivity|]. intros ? ? [= <- <-].
    specialize (Ht file reader El). destruct (tar reader) as [entries final].
    apply conf_bind; [apply conf_apply_entries; [done| |done]|].
    - eapply rooted_conf; [by apply conf_same_tree|done].
    - intros t w2 _. apply conf_preserves. solve_preserves. }
  split; [by eapply rooted_conf|]. by apply Hc, Hr.
Qed.

(** A hostile layer: a link out of the root, entries below it, names with dot-dot. *)
Definition demo_tar : tar_reader := TarReader (fun _ =>
  ([(entry "etc/host" "/host" "2"%char, ("", None));
    (entry "etc/./a" "" "0"%char, ("data", None));
    (entry "etc/host/secret" "" "0"%char, ("x", None));
    (entry "../host/secret" "" "0"%char, ("x", None))], None)) (fun _ _ => 512).

Lemma ApplyLayer_confined_witness :
  view (snd (ApplyLayer "/rootfs" (fun _ => Err Canceled) demo_tar (fun _ => None) "/host/secret" "d" demo_world))
    ["host"; "secret"] = view demo_world ["host"; "secret"].
Proof.
  apply (ApplyLayer_confined "/rootfs" (fun _ => Err Canceled) demo_tar (fun _ => None) "/host/secret" "d" demo_world).
  - reflexivity.
  - apply rooted_check_sound. vm_compute. reflexivity.
  - intros file reader _. repeat constructor.
  - vm_compute. intros [[x H] _]. discriminate H.
Defined.

(** The permission bits of [FileInfo().Mode()] are the header's; a header with one of its twelve low bits set has a mode. *)
Lemma FileInfo_Mode_perm h : Z.land (FileInfo_Mode h) 511 = Z.land (Mode h) 511.
Proof.
  unfold FileInfo_Mode, Perm. cbn [foldl]. rewrite !Z.land_lor_distr_l, <- (Z.land_assoc (Mode h) 511 511), (Z.land_diag 511).
  rewrite <- (Z.lor_0_r (Z.land (Mode h) 511)) at 2. rewrite <- !Z.lor_assoc. f_equal.
  repeat case_decide; reflexivity.
Qed.

Lemma FileInfo_Mode_none h : FileInfo_Mode h = 0%Z -> Z.land (Mode h) 4095 = 0%Z.
Proof.
  assert (Hbit : forall b m, m <> 0%Z -> (if decide (Z.land (Mode h) b = 0%Z) then 0%Z else m) = 0%Z -> Z.land (Mode h) b = 0%Z).
  { intros b m Hm. by case_decide. }
  unfold FileInfo_Mode, Perm. cbn [foldl]. intros H.
  apply Z.lor_eq_0_iff in H as [H _]. apply Z.lor_eq_0_iff in H as [H _].
  apply Z.lor_eq_0_iff in H as [H H3%Hbit]; [|done]. apply Z.lor_eq_0_iff in H as [H H2%Hbit]; [|done].
  apply Z.lor_eq_0_iff in H as [H1 H0%Hbit]; [|done].
  change 4095%Z with (Z.lor 511 (Z.lor 2048 (Z.lor 1024 512))). by rewrite !Z.land_lor_distr_r, H0, H1, H2, H3.
Qed.

Lemma regular_mode header :
  classify (Typeflag header) = TypeReg -> let mode := safeFileMode (FileInfo_Mode header) 420 in
  (Z.land (Mode header) 4095 <> 0 -> mode = Z.land (Mode header) 511)%Z
  /\ (Mode header = 0 \/ Mode header = 32768 -> mode = 420)%Z /\ (0 <= mode <= 511)%Z.
Proof.
  intros Hc mode. subst mode. unfold safeFileMode, Perm.
  assert (HL : forall m, Z.land (Z.land m 511) (Z.lnot 3072) = Z.land m 511) by (intros m; by rewrite <- Z.land_assoc).
  rewrite HL. split; [|split].
  - intros Hm. rewrite decide_False; [apply FileInfo_Mode_perm|]. intros H0. by apply FileInfo_Mode_none in H0.
  - intros Hm. rewrite decide_True; [done|].
    assert (Ht : Typeflag header <> "2"%char /\ Typeflag header <> "3"%char /\ Typeflag header <> "4"%char /\ Typeflag header <> "5"%char
      /\ Typeflag header <> "6"%char).
    { split_and!; intros E; rewrite E in Hc; by vm_compute in Hc. }
    destruct Ht as (T1 & T2 & T3 & T4 & T5). unfold FileInfo_Mode. rewrite !(decide_False (P := Typeflag header = _)) by done.
    by destruct Hm as [-> | ->].
  - set (m := if decide _ then _ else _). pose proof (Z.land_ones m 9 ltac:(lia)) as E. change (Z.ones 9) with 511%Z in E. rewrite E.
    pose proof (Z.mod_pos_bound m (2 ^ 9) ltac:(lia)). lia.
Qed.

(** C21: A regular-file entry that is applied without error leaves, at the entry's path below the
    root, a file with exactly the entry's bytes, the entry's nine permission bits and no others (so no setuid,
    setgid or sticky bit; 0644 when the header has no mode) and the entry's modification time (the epoch
    when it has none); the reader ended at EOF. *)
Theorem applyEntry_file Root header reader w w' :
  IsAbs Root = true ->
  rooted (rootc Root) w ->
  is_whiteout (Name header) = false ->
  classify (Typeflag header) = TypeReg ->
  applyEntry Root header reader w = (Ok tt, w') ->
  exists x i u g mode, cpath_of (Name header) = (false, x) /\ snd reader = None
    /\ file_at (rootc Root ++ x) i (Inode (fst reader) (Meta mode u g (default 0%Z (ModTime header)))) w'
    /\ (Z.land (Mode header) 4095 <> 0 -> mode = Z.land (Mode header) 511)%Z
    /\ (Mode header = 0 \/ Mode header = 32768 -> mode = 420)%Z /\ (0 <= mode <= 511)%Z.
Proof.
  intros Ha Hr Hw Hc H. pose proof (regular_mode header Hc) as (HM1 & HM2 & HM3).
  unfold applyEntry, is_whiteout in *.
  destruct (cleanLayerPath (Name header)) as [name|e|v] eqn:El; [|done..].
  apply bind_Ok in H as (? & ? & [= <- <-] & H).
  rewrite decide_False in H by (intros E; rewrite E in Hw; done). rewrite Hw, Hc in H.
  apply cleanLayerPath_names in El as (y & El & Hy & Hn & ->).
  destruct (safePath_names Root Ha y Hy Hn) as (target & Es & Ht). rewrite Es in H.
  apply bind_Ok in H as (? & ? & [= <- <-] & H).
  apply bind_Ok in H as ([] & w1 & E1 & H).
  destruct y as [|c x _] using rev_ind; [done|].
  assert (R1 : ready Root x w1).
  { pose proof (ensureNoSymlinkParents_same_tree Root target w) as HS. rewrite E1 in HS. simpl in HS.
    eapply ready_same_tree; [done|]. split; [done|].
    eapply ensureNoSymlinkParents_nosym; [done|apply Hr|apply Hr|done|by rewrite E1]. }
  destruct (writeFile_file Root target x c Ht header reader w1 w' R1 H) as (Hs & i & u & g & Hf).
  by exists (x ++ [c]), i, u, g, (safeFileMode (FileInfo_Mode header) 420).
Qed.

(** A set-user-id file: the bit is gone. *)
Definition setuid_entry : Header :=
  {| Name := "etc/./a"; Linkname := ""; Typeflag := "0"%char; Size := 4; Mode := 2541; Uid := 0; Gid := 0; ModTime := Some 7%Z |}.

Lemma applyEntry_file_witness :
  exists i u g, file_at ["rootfs"; "etc"; "a"] i (Inode "data" (Meta 493 u g 7))
    (snd (applyEntry "/rootfs" setuid_entry ("data", None) demo_world)).
Proof.
  destruct (applyEntry_file "/rootfs" setuid_entry ("data", None) demo_world
    (snd (applyEntry "/rootfs" setuid_entry ("data", None) demo_world)))
    as (x & i & u & g & mode & E & _ & H & HM & _).
  - reflexivity.
  - apply rooted_check_sound. vm_compute. reflexivity.
  - reflexivity.
  - reflexivity.
  - vm_compute. reflexivity.
  - exists i, u, g. injection E as <-. rewrite HM in H by (vm_compute; discriminate). exact H.
Defined.

(** What [ApplyLayer] does up to its comparison of the digests: the layer is read, the tar reader ends at EOF, the
    context is live before every entry and before the end, every entry is applied, and the stream ends well. *)
Definition layer_read Root gz (tar : tar_reader) (ctx : nat -> option error) layer (w : world) (reader : stream) (w2 : world) : Prop :=
  exists file w1 entries, os_ReadFile layer w = (Ok file, w1) /\ layerReader gz file = Ok reader /\ tar reader = (entries, None)
    /\ (forall n, n <= length entries -> ctx n = None)
    /\ for_each entries (fun e => applyEntry Root (fst e) (snd e)) w1 = (Ok tt, w2) /\ snd reader = None.

(** C18: [ApplyLayer] accepts a layer exactly when it could be read to its end, its entries were all applied, in order, under
    a live context, and the sha256 of the whole uncompressed stream is the expected diffID: also of the bytes the
    tar reader does not take, however many it takes. A layer that differs only in its digest is refused with both. *)
Theorem ApplyLayer_diffID Root gz (tar : tar_reader) ctx layer diffID w w2 :
  (ApplyLayer Root gz tar ctx layer diffID w = (Ok tt, w2)
   <-> exists reader, layer_read Root gz tar ctx layer w reader w2 /\ sha256_digest (fst reader) = diffID)
  /\ forall reader, layer_read Root gz tar ctx layer w reader w2 -> sha256_digest (fst reader) <> diffID ->
     ApplyLayer Root gz tar ctx layer diffID w
     = (Err (Errorf "diffID mismatch: got %s want %s" [sha256_digest (fst reader); diffID]), w2).
Proof.
  assert (Hread : forall reader, layer_read Root gz tar ctx layer w reader w2 ->
    ApplyLayer Root gz tar ctx layer diffID w
    = fail_if (negb (bool_decide (sha256_digest (fst reader) = diffID)))
        (Errorf "diffID mismatch: got %s want %s" [sha256_digest (fst reader); diffID]) w2).
  { intros reader (file & w1 & entries & E1 & E2 & E3 & Hc & Hf & Hs).
    destruct (proj2 (apply_entries_Ok Root ctx (tar_takes tar reader) 0 (io_TeeReader reader) entries w1 w2) (conj Hc Hf)) as [t E4].
    pose proof (tee_drain_of reader t (apply_entries_tee _ _ _ _ _ _ _ _ _ _ _ (tee_of_start reader) E4)) as Hd. rewrite Hs in Hd.
    destruct Hd as (t' & E5 & E6). unfold ApplyLayer, mbind, GoM_bind, lift_outcome. by rewrite E1, E2, E3, E4, E5, E6. }
  split; [split|].
  - unfold ApplyLayer. intros (file & w1 & E1 & E)%bind_Ok. apply bind_Ok in E as (reader & ? & E2 & E). injection E2 as E2 <-.
    destruct (tar reader) as [entries final] eqn:E3. apply bind_Ok in E as (t & w3 & E4 & E).
    pose proof (apply_entries_EOF _ _ _ _ _ _ _ _ _ _ E4) as ->.
    pose proof (tee_drain_of reader t (apply_entries_tee _ _ _ _ _ _ _ _ _ _ _ (tee_of_start reader) E4)) as Hd.
    apply bind_Ok in E as (t' & ? & E5 & E). injection E5 as E5 <-. apply fail_if_Ok in E as [E ->].
    apply negb_false_iff, bool_decide_eq_true in E. destruct (snd reader) eqn:Hs; [congruence|]. destruct Hd as (t2 & E6 & E7).
    assert (t2 = t') as -> by congruence. rewrite E7 in E. exists reader. split; [|done].
    destruct (proj1 (apply_entries_Ok Root ctx (tar_takes tar reader) 0 (io_TeeReader reader) entries w1 w3) (ex_intro _ t E4)) as [Hc Hf].
    by exists file, w1, entries.
  - intros (reader & HR & HD). rewrite (Hread _ HR). unfold fail_if. by rewrite bool_decide_eq_true_2.
  - intros reader HR HD. rewrite (Hread _ HR). unfold fail_if. by rewrite bool_decide_eq_false_2.
Qed.

(** A layer of three bytes of which the tar reader takes one: the digest is of the three. *)
Lemma ApplyLayer_diffID_witness :
  let tar := TarReader (fun _ => ([], None)) (fun _ _ => 1) in let w := with_file "/layer" "abc" demo_world in
  ApplyLayer "/rootfs" (fun _ => Err Canceled) tar (fun _ => None) "/layer"
    "sha256:ba7816bf8f01cfea414140de5dae2223b00361a396177a9cb410ff61f20015ad" w = (Ok tt, w)
  /\ fst (ApplyLayer "/rootfs" (fun _ => Err Canceled) tar (fun _ => None) "/layer" "sha256:00" w)
     = Err (Errorf "diffID mismatch: got %s want %s" ["sha256:ba7816bf8f01cfea414140de5dae2223b00361a396177a9cb410ff61f20015ad"; "sha256:00"]).
Proof.
  intros tar w.
  assert (HR : layer_read "/rootfs" (fun _ => Err Canceled) tar (fun _ => None) "/layer" w ("abc", None) w).
  { exists "abc", w, []. split_and!; [vm_compute; reflexivity|reflexivity|reflexivity|intros n _; reflexivity|reflexivity|reflexivity]. }
  assert (HD : sha256_digest "abc" = "sha256:ba7816bf8f01cfea414140de5dae2223b00361a396177a9cb410ff61f20015ad") by (vm_compute; reflexivity).
  split.
  - apply (ApplyLayer_diffID "/rootfs" (fun _ => Err Canceled) tar (fun _ => None) "/layer" _ w w). exists ("abc", None). exact (conj HR HD).
  - assert (HN : sha256_digest "abc" <> "sha256:00") by (rewrite HD; discriminate). rewrite <- HD.
    exact (f_equal fst (proj2 (ApplyLayer_diffID "/rootfs" (fun _ => Err Canceled) tar (fun _ => None) "/layer" "sha256:00" w w) ("abc", None) HR HN)).
Defined.

(** C28: A whiteout entry [dir/.wh.name] whose parent directory stands below the root without
    symbolic links removes exactly the tree at [dir/name], and is no error when there is none. *)
Theorem whiteout_removes_entry Root header reader x n w :
  IsAbs Root = true ->
  Name header = pjoin (x ++ [".wh." +:+ n]) -> Forall is_name x -> is_name n -> n <> ".wh..opq" ->
  w_faults w = [] -> standing (rootc Root ++ x) w ->
  applyEntry Root header reader w
  = (Ok tt, set_nodes (filter (fun kv => ~ (rootc Root ++ x ++ [n]) `prefix_of` kv.1)) w).
Proof.
  intros Ha Hname Hx Hn Hopq Hf Hst. eapply whiteout_resolved; try done; [|by destruct (rootc Root), x].
  intros target Ht. rewrite app_assoc in *. by apply standing_resolve.
Qed.

Lemma whiteout_removes_entry_witness :
  let w := with_file "/rootfs/etc/d/f" "x" (with_dirs ["/rootfs/etc/d"] demo_world) in
  applyEntry "/rootfs" (entry "etc/.wh.d" "" "0"%char) ("", None) w
  = (Ok tt, set_nodes (filter (fun kv => ~ ["rootfs"; "etc"; "d"] `prefix_of` kv.1)) w).
Proof.
  apply (whiteout_removes_entry "/rootfs" (entry "etc/.wh.d" "" "0"%char) ("", None) ["etc"] "d").
  - reflexivity.
  - reflexivity.
  - by_decision.
  - by_decision.
  - discriminate.
  - reflexivity.
  - apply standing_check_ok. vm_compute. reflexivity.
Defined.

(** C30: An opaque whiteout [dir/.wh..wh..opq] empties the directory: exactly what lies strictly
    below it goes, the directory itself stays. *)
Theorem opaque_whiteout_empties Root header reader x w :
  IsAbs Root = true ->
  Name header = pjoin (x ++ [".wh..wh..opq"]) -> Forall is_name x ->
  wf w -> proper_names w -> w_faults w = [] -> standing (rootc Root ++ x) w ->
  applyEntry Root header reader w
  = (Ok tt, set_nodes (filter (fun kv => ~ below (rootc Root ++ x) kv.1)) w).
Proof.
  intros Ha Hname Hx Hw Hpn Hf Hst. unfold applyEntry. rewrite Hname.
  assert (Hall : Forall is_name (x ++ [".wh..wh..opq"])).
  { apply names_snoc; [done|]. by apply (is_name_app ".wh." ".wh..opq"); [..|simpl; lia]. }
  assert (Hclean : cleanLayerPath (pjoin (x ++ [".wh..wh..opq"])) = Ok (pjoin (x ++ [".wh..wh..opq"]))).
  { apply cleanLayerPath_names. exists (x ++ [".wh..wh..opq"]).
    split_and!; [apply cpath_of_names; [by destruct x|done]|by destruct x|done..]. }
  rewrite Hclean. unfold lift_outcome, mbind, GoM_bind. rewrite Base_names, Dir_names by done.
  rewrite (decide_True (P := ".wh..wh..opq" = ".wh..wh..opq")) by done.
  assert (Hs : exists target, safePath Root (if decide (x = []) then "." else pjoin x) = Ok target
    /\ abs_path target (rootc Root ++ x)).
  { destruct (decide (x = [])) as [->|Hx0]; [|by apply safePath_names].
    pose proof (Clean_Root Root Ha) as HC. exists (Clean Root). rewrite app_nil_r. split; [|done].
    unfold safePath. rewrite (Join_abs_dot _ _ HC).
    rewrite (Rel_below (Clean Root) (Clean Root) (rootc Root) []); [done..|by rewrite app_nil_r]. }
  destruct Hs as (target & -> & Ht). by apply removeChildren_standing.
Qed.

Lemma opaque_whiteout_empties_witness :
  let w := with_file "/rootfs/etc/d/f" "x" (with_dirs ["/rootfs/etc/d"] demo_world) in
  applyEntry "/rootfs" (entry "etc/.wh..wh..opq" "" "0"%char) ("", None) w
  = (Ok tt, set_nodes (filter (fun kv => ~ below ["rootfs"; "etc"] kv.1)) w).
Proof.
  apply (opaque_whiteout_empties "/rootfs" (entry "etc/.wh..wh..opq" "" "0"%char) ("", None) ["etc"]).
  - reflexivity.
  - reflexivity.
  - by_decision.
  - apply wf_check_sound. vm_compute. reflexivity.
  - apply proper_names_check_sound. vm_compute. reflexivity.
  - reflexivity.
  - apply standing_check_ok. vm_compute. reflexivity.
Defined.

(** C32: A whiteout below a symbolic link is not confined: [ensureNoSymlinkParents] runs only
    after the whiteout cases, so an entry [l/.wh.n] where a link [l] in the root leads to the
    directory [ts] anywhere on the host removes the tree [n] of that host directory. *)
Theorem whiteout_follows_link Root header reader l t mt ts n w :
  IsAbs Root = true ->
  Name header = pjoin [l; ".wh." +:+ n] -> is_name l -> is_name n -> n <> ".wh..opq" ->
  w_faults w = [] -> standing (rootc Root) w ->
  w_nodes w !! (rootc Root ++ [l]) = Some (NSymlink t mt) ->
  abs_path t ts -> standing ts w ->
  applyEntry Root header reader w
  = (Ok tt, set_nodes (filter (fun kv => ~ (ts ++ [n]) `prefix_of` kv.1)) w).
Proof.
  intros Ha Hname Hl Hn Hopq Hf Hst Hln Ht Hts.
  apply (whiteout_resolved Root Ha header reader [l] n); try done; [by constructor| |by destruct ts].
  intros target Hp. rewrite (resolve_abs _ _ _ _ Hp).
  assert (Hgo : forall k pre cs, Forall is_name cs ->
    (forall p, p `prefix_of` cs -> exists m, w_nodes w !! (pre ++ p) = Some (NDir m)) ->
    forall rest, walk k (w_nodes w) false pre (cs ++ rest) = walk k (w_nodes w) false (pre ++ cs) rest).
  { intros k pre cs Hcs. revert pre. induction Hcs as [|c cs Hc _ IH]; intros pre Hd rest.
    { by rewrite app_nil_r. }
    rewrite <- app_comm_cons, walk_name by done. destruct (Hd [c]) as [m Hm]; [by exists cs|].
    rewrite Hm, IH; [by rewrite <- app_assoc|]. intros p [y Hy]. rewrite <- app_assoc. apply Hd. exists y. by rewrite Hy. }
  rewrite (Hgo max_symlinks []); [|apply (Clean_Root Root Ha)|done]. simpl app at 1.
  change ([l] ++ [n]) with [l; n]. rewrite (walk_name max_symlinks), Hln by done. simpl negb. rewrite bool_decide_eq_false_2 by done.
  cbn [andb max_symlinks]. destruct Ht as [-> Hnames]. rewrite IsAbs_render_true.
  simpl render. rewrite psplit_rooted. rewrite <- app_comm_cons, walk_skip by auto.
  destruct ts as [|t0 ts].
  - change (psplit (pjoin [])) with [""]. rewrite <- app_comm_cons, walk_skip by auto.
    simpl app. by apply walk_last.
  - rewrite psplit_below by done. rewrite (Hgo _ []) by done. simpl app at 1. by apply walk_last.
Qed.

Lemma whiteout_follows_link_witness :
  let w := with_link "/rootfs/l" "/host" demo_world in
  w_nodes (snd (applyEntry "/rootfs" (entry "l/.wh.secret" "" "0"%char) ("", None) w)) !! ["host"; "secret"] = None.
Proof.
  intros w. rewrite (whiteout_follows_link "/rootfs" (entry "l/.wh.secret" "" "0"%char) ("", None) "l" "/host"
    (Meta 493 0 0 0) ["host"] "secret" w).
  - vm_compute. reflexivity.
  - reflexivity.
  - reflexivity.
  - by_decision.
  - by_decision.
  - discriminate.
  - reflexivity.
  - apply standing_check_ok. vm_compute. reflexivity.
  - vm_compute. reflexivity.
  - split; [reflexivity|]. by_decision.
  - apply standing_check_ok. vm_compute. reflexivity.
Defined.
