(* ===== verification/ContentStore.v ===== *)
(** * The content store

    [internal/contentstore/store.go]: the directory layout, content-addressed blobs and JSON
    documents. Both are written through a temporary file that is renamed over its target.
    [encoding/json] is the class [JSON]; the law [JSONLaws] is the round trip the program
    relies on when it reads back what it wrote. *)

From S2P Require Import Prelude GoPath Sha256 HostFS Confine FileLaws.

(** [json.NewEncoder(..).Encode] and [json.NewDecoder(..).Decode] at a type. *)
Class JSON (A : Type) := {
  json_Encode : A -> outcome string;
  json_Decode : string -> outcome A
}.

(** [json.Unmarshal], which accepts one document and nothing after it. *)
Class JSONUnmarshal (A : Type) := json_Unmarshal : string -> outcome A.

Class JSONLaws (A : Type) `{JSON A} : Prop :=
  json_roundtrip : forall (a : A) s, json_Encode a = Ok s -> json_Decode s = Ok a.

Record Platform := { OS_ : string; Architecture : string }.

Record RefMetadata := {
  rm_ImageRef : string;
  rm_ManifestDigest : string;
  rm_Platform : Platform;
  rm_UpdatedAt : Z
}.

#[export] Instance Platform_eq_dec : EqDecision Platform.
Proof. solve_decision. Defined.

(** ** Names *)

Definition EscapeRef (ref : string) : string :=
  str_map (fun c => if decide (c ∈ ["/"%char; ":"%char; "@"%char; " "%char]) then "_"%char else c) ref.

Definition splitDigest (digest : string) : string * string :=
  match Cut ":"%char digest with
  | None => ("sha256", digest)
  | Some (algorithm, encoded) => (algorithm, encoded)
  end.

Definition exists_ (path : string) : OS bool :=
  r ← attempt (os_Stat path);
  mret (match r with inr _ => true | inl _ => false end).

Section store.
(** [Store.Dir] *)
Variable Dir_ : string.

Definition BlobDir (algorithm : string) : string := Join [Dir_; "content"; "blobs"; algorithm].

Definition BlobPath (digest : string) : string :=
  let '(algorithm, encoded) := splitDigest digest in
  Join [Dir_; "content"; "blobs"; algorithm; encoded].

Definition ManifestPath (digest : string) : string :=
  let '(_, encoded) := splitDigest digest in
  Join [Dir_; "images"; "manifests"; "sha256"; encoded +:+ ".json"].

Definition ConfigPath (digest : string) : string :=
  let '(_, encoded) := splitDigest digest in
  Join [Dir_; "images"; "configs"; "sha256"; encoded +:+ ".json"].

Definition RefPath (ref : string) : string :=
  Join [Dir_; "images"; "refs"; EscapeRef ref +:+ ".json"].

Definition RootfsPath (chainID : string) : string :=
  let '(_, encoded) := splitDigest chainID in
  Join [Dir_; "rootfs"; "complete"; encoded +:+ ".ext4"].

Definition RootfsMetadataPath (chainID : string) : string :=
  let '(_, encoded) := splitDigest chainID in
  Join [Dir_; "rootfs"; "complete"; encoded +:+ ".json"].

Definition RootfsBuildingPath (chainID : string) : string :=
  let '(_, encoded) := splitDigest chainID in
  Join [Dir_; "rootfs"; "building"; encoded +:+ ".ext4.tmp"].

Definition LockPath (chainID : string) : string :=
  let '(_, encoded) := splitDigest chainID in
  Join [Dir_; "locks"; encoded +:+ ".lock"].

Definition Init : OS unit :=
  for_each
    [BlobDir "sha256";
     Join [Dir_; "images"; "refs"];
     Join [Dir_; "images"; "manifests"; "sha256"];
     Join [Dir_; "images"; "configs"; "sha256"];
     Join [Dir_; "rootfs"; "complete"];
     Join [Dir_; "rootfs"; "building"];
     Join [Dir_; "locks"];
     Join [Dir_; "firecracker"; "sockets"];
     Join [Dir_; "firecracker"; "logs"]]
    (fun dir => os_MkdirAll dir 493).

(** ** Blobs and documents *)

Definition WriteBlob (digest : string) (reader : stream) : OS string :=
  let path := BlobPath digest in
  e ← exists_ path;
  if (e : bool) then mret path else
  os_MkdirAll (Dir path) 493 ;;
  tmp ← os_CreateTemp (Dir path) ".blob-" ".tmp";
  defer (os_Remove (fst tmp)) (
    r ← attempt (io_Copy (snd tmp) reader);
    match r with
    | inl err => ignore (fd_close (snd tmp)) ;; fail err
    | inr _ =>
        fd_close (snd tmp) ;;
        let actual := sha256_digest (fst reader) in
        fail_if (negb (bool_decide (actual = digest)))
          (Errorf "blob digest mismatch: got %s want %s" [actual; digest]) ;;
        r ← attempt (os_Rename (fst tmp) path);
        match r with
        | inl err => e ← exists_ path; if (e : bool) then mret path else fail err
        | inr _ => mret path
        end
    end).

Definition WriteJSON {A} `{JSON A} (path : string) (value : A) : OS unit :=
  os_MkdirAll (Dir path) 493 ;;
  tmp ← os_CreateTemp (Dir path) ".json-" ".tmp";
  defer (os_Remove (fst tmp)) (
    r ← attempt (data ← lift_outcome (json_Encode value); fd_write (snd tmp) data);
    match r with
    | inl err => ignore (fd_close (snd tmp)) ;; fail err
    | inr _ => fd_close (snd tmp) ;; os_Rename (fst tmp) path
    end).

Definition ReadJSON {A} `{JSON A} (path : string) : OS A :=
  data ← os_ReadFile path;
  lift_outcome (json_Decode data).
End store.

(** ** The path of a digest *)

Lemma str_all_app P s1 s2 : str_all P (s1 +:+ s2) = str_all P s1 && str_all P s2.
Proof. induction s1; simpl; [done|]. rewrite IHs1. by rewrite andb_assoc. Qed.

Lemma hex_no_char c s : str_all is_hex s = true -> is_hex c = false -> no_char c s = true.
Proof.
  unfold no_char. intros H Hc. induction s as [|a s IH]; [done|]. simpl in *.
  apply andb_true_iff in H as [Ha Hs]. rewrite negb_orb, IH by done.
  rewrite bool_decide_eq_false_2; [done|]. congruence.
Qed.

Lemma hex_head s : str_all is_hex s = true -> forall r, s <> String "."%char r.
Proof. intros H r ->. done. Qed.

Lemma hex_name s : str_all is_hex s = true -> s <> "" -> is_name s.
Proof.
  intros H Hne. split_and!; [done|by eapply hex_head|by eapply hex_head|by apply hex_no_char].
Qed.

Lemma splitDigest_sha256 enc : splitDigest ("sha256:" +:+ enc) = ("sha256", enc).
Proof. reflexivity. Qed.

Lemma pretty_N_go_hex x s : str_all is_hex s = true -> str_all is_hex (pretty_N_go x s) = true.
Proof.
  revert s. induction (N.lt_wf_0 x) as [x _ IH]; intros s Hs.
  destruct (decide (x = 0%N)) as [->|Hx]; [by rewrite pretty_N_go_0|].
  rewrite pretty_N_go_step by lia. apply IH; [apply N.div_lt; lia|]. simpl. rewrite Hs.
  unfold pretty_N_char. by repeat case_match.
Qed.

Lemma pretty_hex (k : nat) : str_all is_hex (pretty k) = true.
Proof.
  unfold pretty, pretty_nat, pretty, pretty_N. case_decide; [done|]. by apply pretty_N_go_hex.
Qed.

Lemma temp_name_proper pre k :
  no_char slash pre = true -> 3 <= String.length pre -> is_name (temp_name pre ".tmp" k).
Proof.
  intros Hp Hl. apply is_name_app; [done| |done].
  rewrite no_char_app. by rewrite (hex_no_char slash (pretty k)) by (done || apply pretty_hex).
Qed.

(** ** Existence *)

Lemma exists_Ok path d c w :
  standing d w -> abs_path path (d ++ [c]) ->
  wp (exists_ path) (fun o w' => same_place w w' /\
    exists b, o = Ok b /\ (b = true -> is_Some (w_nodes w !! (d ++ [c])))) w.
Proof.
  intros Hst Hp. unfold wp, exists_, os_Stat, attempt, mbind, GoM_bind.
  pose proof (place_stat true path w) as HS. pose proof (stat_lookup true path w) as HL.
  destruct (stat_gen true path w) as [[info|e|v] w1]; simpl in *; [| |done].
  - split; [done|]. exists true. split; [done|]. intros _.
    destruct HL as (q & n & Hq & Hn & _). destruct (w_nodes w !! (d ++ [c])) as [n'|] eqn:E; [by eexists|].
    rewrite (standing_resolve true path d c) in Hq; [|done|done|by rewrite E]. congruence.
  - split; [done|]. by exists false.
Qed.

Section atomicity.
Context (Dir_ : string).
Hypothesis Habs : IsAbs Dir_ = true.

(** The components of the blob directory. *)
Definition blobc : list string := snd (cpath_of Dir_) ++ ["content"; "blobs"; "sha256"].

Lemma BlobPath_sha256 enc :
  is_name enc -> abs_path (BlobPath Dir_ ("sha256:" +:+ enc)) (blobc ++ [enc]).
Proof.
  intros Hn. unfold BlobPath, blobc. rewrite splitDigest_sha256, <- app_assoc.
  apply Join_abs_list; [done|done|]. repeat (apply Forall_cons; split; [by_decision || done|]). done.
Qed.

Lemma Dir_snoc path d c : abs_path path (d ++ [c]) -> abs_path (Dir path) d.
Proof. intros H. apply Dir_abs in H. by rewrite removelast_last in H. Qed.

(** What a caller of [WriteBlob] learns when the blob was not written by this call. *)
Definition blob_kept (w : world) (enc : string) (o : outcome string) : Prop :=
  match o with
  | Ok p => p = BlobPath Dir_ ("sha256:" +:+ enc) /\ is_Some (w_nodes w !! (blobc ++ [enc]))
  | Err _ => True
  | Panic _ => False
  end.
Definition blob_done (enc : string) (reader : stream) (o : outcome string) : Prop :=
  o = Ok (BlobPath Dir_ ("sha256:" +:+ enc)) /\ snd reader = None
  /\ sha256_digest (fst reader) = "sha256:" +:+ enc.

Lemma atomic_from {A} w0 w1 w' q temps content (Qkeep Qdone : outcome A -> Prop) o :
  same_tree w0 w1 -> atomic_result w1 w' q temps content Qkeep Qdone o ->
  atomic_result w0 w' q temps content Qkeep Qdone o.
Proof.
  intros HS (Hw & H1 & H2). split; [done|]. split.
  - intros p Hp Ht. rewrite H1 by done. by apply view_same_tree.
  - by rewrite (view_same_tree w0 w1) in H2.
Qed.

Lemma standing_same_tree d w w' : same_tree w w' -> standing d w -> standing d w'.
Proof. intros (E & _) H p Hp. rewrite E. by apply H. Qed.

Lemma WriteBlob_result enc reader w :
  wf w -> standing blobc w -> str_all is_hex enc = true -> enc <> "" ->
  wp (WriteBlob Dir_ ("sha256:" +:+ enc) reader) (fun o w' =>
    atomic_result w w' (blobc ++ [enc]) (fun p => exists k, p = blobc ++ [temp_name ".blob-" ".tmp" k])
      (fst reader) (blob_kept w enc) (blob_done enc reader) o) w.
Proof.
  intros Hwf Hst Hhex Hne. pose proof (hex_name enc Hhex Hne) as Hname.
  pose proof (BlobPath_sha256 enc Hname) as Hp. set (path := BlobPath Dir_ ("sha256:" +:+ enc)) in *.
  unfold WriteBlob. fold path.
  apply wp_bind. eapply wp_mono; [|by apply (exists_Ok path blobc enc w)].
  intros ? w1 ([S1 C1] & b & -> & Hb). cbn [wp_cont]. destruct b.
  { apply wp_ret, atomic_same; [done|done|]. split; auto. }
  assert (Hst1 : standing blobc w1) by (by eapply standing_same_tree).
  apply wp_bind. eapply wp_mono; [|apply (wp_MkdirAll_standing (Dir path) blobc); [by eapply Dir_snoc|done]].
  intros [[]|e|v] w2 H2; [destruct H2 as [S2 _]; cbn [wp_cont]|apply atomic_same; [done|by etrans; [|apply H2]|done]|done].
  assert (Hw2 : same_tree w w2) by (by etrans).
  eapply wp_mono; [intros o w'; by apply (atomic_from w w2)|].
  assert (Hwf2 : wf w2) by (by eapply wf_same_tree).
  assert (Hst2 : standing blobc w2) by (by eapply standing_same_tree).
  apply (atomic_protocol blobc enc (Dir path) path ".blob-" ".tmp" (fst reader)).
  - done.
  - done.
  - by eapply Dir_snoc.
  - done.
  - intros k. by apply temp_name_proper; [|simpl; lia].
  - intros k E. by apply (hex_head enc Hhex _ (eq_sym E)).
  - done.
  - intros tmp tc i w3 Ht Htc H3. cbn [fst snd].
    apply wp_bind, wp_attempt. unfold io_Copy.
    apply wp_bind. eapply wp_mono; [|by apply (temp_write w2 (blobc ++ [tc]) i "" (fst reader))].
    assert (Hfail : forall data w4 err, temp_state w2 (blobc ++ [tc]) i data w4 ->
      wp (ignore (fd_close i);; fail err) (fun o w' =>
        (exists data, temp_state w2 (blobc ++ [tc]) i data w') /\ blob_kept w enc o
        \/ renamed w2 blobc enc tc i (fst reader) w' /\ blob_done enc reader o) w4).
    { intros data w4 err H4. apply wp_bind, wp_ignore. eapply wp_mono; [|by apply temp_close].
      intros [[]|e|v] w5 H5; [left; split; [by exists data|done]..|done]. }
    intros [[]|err|v] w4 H4; cbn [wp_cont]; [|by eapply Hfail|done].
    destruct (snd reader) as [err|] eqn:Es; [by eapply Hfail|]. cbn in H4.
    apply wp_ret. apply wp_bind. eapply wp_mono; [|by apply temp_close].
    intros [[]|err|v] w5 H5; cbn [wp_cont]; [|left; split; [by eexists|done]|done].
    apply wp_bind, wp_fail_if; [intros _; left; split; [by eexists|done]|]. intros Hsum%negb_false_iff%bool_decide_eq_true. cbn [wp_cont].
    apply wp_bind, wp_attempt. eapply wp_mono; [|by eapply (temp_rename w2 blobc enc)].
    intros [[]|err|v] w6 H6; cbn [wp_cont]; [by right|..|done].
    apply wp_bind. eapply wp_mono; [|apply (exists_Ok path blobc enc w6)]; [|by eapply temp_standing|done].
    intros ? w7 ([S7 C7] & b & -> & Hb'). cbn [wp_cont].
    assert (H7 : exists data, temp_state w2 (blobc ++ [tc]) i data w7) by (eexists; by eapply temp_same_tree).
    destruct b; [apply wp_ret|apply wp_fail]; left; (split; [done|]); [|done]. split; [done|].
    destruct (Hb' eq_refl) as [n Hn]. destruct H6 as (_ & _ & _ & m & H6 & _).
    rewrite H6, lookup_insert_ne in Hn by (intros [_ ?]%app_inj_tail; congruence).
    destruct Hw2 as (E & _). exists n. by rewrite <- E.
Qed.

(** Written through a temporary file too: the document is the encoding of the value. *)
Lemma WriteJSON_result {A} `{JSON A} path d c (value : A) w :
  wf w -> standing d w -> abs_path path (d ++ [c]) -> (forall k, temp_name ".json-" ".tmp" k <> c) ->
  wp (WriteJSON path value) (fun o w' =>
    atomic_result w w' (d ++ [c]) (fun p => exists k, p = d ++ [temp_name ".json-" ".tmp" k])
      (match json_Encode value with Ok s => s | _ => EmptyString end)
      (fun o => match o with Err _ => True | _ => False end)
      (fun o => o = Ok tt /\ is_Ok (json_Encode value) = true) o
    \/ exists v, json_Encode value = Panic v) w.
Proof.
  intros Hwf Hst Hp Hdot. unfold WriteJSON.
  destruct (json_Encode value) as [data|e0|v] eqn:Ev; [| |right; eauto].
  all: apply wp_bind; eapply wp_mono; [|apply (wp_MkdirAll_standing (Dir path) d); [by eapply Dir_snoc|done]];
    (intros [[]|e|v] w2 H2; [destruct H2 as [S2 _]; cbn [wp_cont]|left; by apply atomic_same; [done|apply H2|]|done]).
  all: eapply wp_mono; [intros o w' Hr; left; apply (atomic_from w w2); [exact S2|exact Hr]|].
  all: assert (Hwf2 : wf w2) by (by eapply wf_same_tree).
  all: assert (Hst2 : standing d w2) by (by eapply standing_same_tree).
  all: apply (atomic_protocol d c (Dir path) path ".json-" ".tmp"); [done|done|by eapply Dir_snoc|done
    |intros k; by apply temp_name_proper; [|simpl; lia]|done|done|].
  all: intros tmp tc i w3 Ht Htc H3; cbn [fst snd]; apply wp_bind, wp_attempt.
  - apply wp_bind. unfold lift_outcome at 1. apply wp_ret.
    eapply wp_mono; [|by apply (temp_write w2 (d ++ [tc]) i "" data)].
    intros [[]|err|v] w4 H4; cbn [wp_cont]; [| |done].
    + apply wp_bind. eapply wp_mono; [|by apply temp_close].
      intros [[]|err|v] w5 H5; cbn [wp_cont]; [|left; split; [by eexists|done]|done].
      eapply wp_mono; [|by eapply (temp_rename w2 d c)].
      intros [[]|err|v] w6 H6; [by right|left; split; [by eexists|done]|done].
    + apply wp_bind, wp_ignore. eapply wp_mono; [|by apply temp_close].
      intros [[]|e|v] w5 H5; [left; split; [by eexists|done]..|done].
  - unfold wp at 1, mbind, GoM_bind, lift_outcome. simpl.
    apply wp_bind, wp_ignore. eapply wp_mono; [|by apply temp_close].
    intros [[]|e|v] w5 H5; [left; split; [by eexists|done]..|done].
Qed.
End atomicity.

(** ** What the store promises *)

Lemma EscapeRef_no_slash ref : no_char slash (EscapeRef ref) = true.
Proof.
  unfold no_char, EscapeRef. induction ref as [|a ref IH]; [done|]. simpl. rewrite negb_orb, IH, andb_true_r.
  apply negb_true_iff, bool_decide_eq_false. case_decide as H; [done|].
  intros ->. apply H. by repeat constructor.
Qed.

Lemma RefPath_name ref : is_name (EscapeRef ref +:+ ".json").
Proof.
  split_and!.
  - by destruct (EscapeRef ref).
  - destruct (EscapeRef ref) as [|a s]; [done|]. intros [= _ E]. by destruct s.
  - destruct (EscapeRef ref) as [|a [|b s]]; [done|done|]. intros [= _ _ E]. by destruct s.
  - by rewrite no_char_app, EscapeRef_no_slash.
Qed.

(** A concrete codec, for examples: a document that is its own encoding. *)
#[export] Instance JSON_raw : JSON string := {| json_Encode := Ok; json_Decode := Ok |}.
#[export] Instance JSON_raw_laws : JSONLaws string.
Proof. intros a s [= ->]. done. Qed.

Definition demo_store : world := with_dirs ["/s/content/blobs/sha256"; "/s/images/refs"] empty_world.

(** C3: [WriteBlob] is atomic and content-addressed under every schedule of failures. It touches
    nothing but the blob's own path and its temporary files; it returns the blob's path only when
    the path was there before, and is unchanged, or now holds exactly the bytes read, whose sha256
    is the digest; on any error the path is as it was (no partial blob is ever visible). *)
Theorem WriteBlob_atomic Dir_ enc reader w :
  IsAbs Dir_ = true -> wf w -> standing (blobc Dir_) w -> str_all is_hex enc = true -> enc <> "" ->
  let digest := "sha256:" +:+ enc in
  let q := blobc Dir_ ++ [enc] in
  let r := WriteBlob Dir_ digest reader w in
  (forall p, p <> q -> (forall k, p <> blobc Dir_ ++ [temp_name ".blob-" ".tmp" k]) -> view (snd r) p = view w p)
  /\ match fst r with
     | Ok path => path = BlobPath Dir_ digest
         /\ (is_Some (w_nodes w !! q) /\ view (snd r) q = view w q
             \/ (exists m, view (snd r) q = Some (VFile (Some (Inode (fst reader) m))))
                /\ snd reader = None /\ sha256_digest (fst reader) = digest)
     | Err _ => view (snd r) q = view w q
     | Panic _ => False
     end.
Proof.
  intros Ha Hw Hst Hhex Hne digest q r.
  destruct (WriteBlob_result Dir_ Ha enc reader w Hw Hst Hhex Hne) as (_ & H1 & H2). fold digest q r in H1, H2.
  split; [intros p Hp Ht; apply H1; [done|]; intros [k ->]; by apply (Ht k)|].
  destruct H2 as [[Hv HQ]|[[m Hm] (-> & HQ)]]; [|split; [done|right; eauto]].
  destruct (fst r) as [p|e|v]; [|done..]. destruct HQ as [-> HQ]. split; [done|]. by left.
Qed.

Lemma WriteBlob_atomic_witness :
  exists m, view (snd (WriteBlob "/s" "sha256:ba7816bf8f01cfea414140de5dae2223b00361a396177a9cb410ff61f20015ad" ("abc", None) demo_store))
    ["s"; "content"; "blobs"; "sha256"; "ba7816bf8f01cfea414140de5dae2223b00361a396177a9cb410ff61f20015ad"]
  = Some (VFile (Some (Inode "abc" m))).
Proof.
  destruct (WriteBlob_atomic "/s" "ba7816bf8f01cfea414140de5dae2223b00361a396177a9cb410ff61f20015ad" ("abc", None) demo_store)
    as [_ H].
  - reflexivity.
  - apply wf_check_sound. vm_compute. reflexivity.
  - apply standing_check_ok. vm_compute. reflexivity.
  - reflexivity.
  - discriminate.
  - vm_compute in H. destruct H as [_ [[[n Hn] _]|[H _]]]; [discriminate Hn|].
    vm_compute. exact H.
Defined.

(** C33: A document written without error is read back as the value that was written, for every
    codec whose decoder inverts its encoder and every schedule of failures of the write. *)
Theorem WriteJSON_ReadJSON {A} `{JSONLaws A} path d c (value : A) w w' :
  wf w -> standing d w -> abs_path path (d ++ [c]) -> (forall k, temp_name ".json-" ".tmp" k <> c) ->
  WriteJSON path value w = (Ok tt, w') -> w_faults w' = [] ->
  fst (ReadJSON (A:=A) path w') = Ok value.
Proof.
  intros Hw Hst Hp Hdot E Hf.
  pose proof (WriteJSON_result path d c value w Hw Hst Hp Hdot) as HR. unfold wp in HR. rewrite E in HR. simpl in HR.
  assert (HR' : atomic_result w w' (d ++ [c]) (fun p => exists k, p = d ++ [temp_name ".json-" ".tmp" k])
      (match json_Encode value with Ok s => s | _ => EmptyString end)
      (fun o : outcome unit => match o with Err _ => True | _ => False end)
      (fun o => o = Ok tt /\ is_Ok (json_Encode value) = true) (Ok tt)).
  { destruct HR as [HR|[v Hv]]; [done|]. exfalso.
    unfold WriteJSON in E. run_Ok E. apply defer_Ok in E as (w2 & E & _). run_Ok E. revert E2.
    unfold attempt, mbind, GoM_bind, lift_outcome. by rewrite Hv. }
  destruct HR' as (_ & Hframe & [[_ []]|[[m Hv] [_ Henc]]]).
  destruct (json_Encode value) as [data|e|v] eqn:Ed; [|done..].
  assert (Hst' : standing d w').
  { intros p Hpd. destruct (Hst p Hpd) as [mp Hmp]. apply prefix_length in Hpd.
    assert (HF : view w' p = Some (VDir mp)).
    { rewrite Hframe; [unfold view; by rewrite Hmp|intros ->|intros [k ->]]; rewrite length_app in Hpd; simpl in Hpd; lia. }
    unfold view in HF. destruct (w_nodes w' !! p) as [[]|]; simpl in HF; try discriminate HF. eauto. }
  unfold ReadJSON, os_ReadFile, syscall. unfold view in Hv.
  destruct (w_nodes w' !! (d ++ [c])) as [[|t tm|i]|] eqn:Eq; simpl in Hv; try discriminate Hv.
  os_unfold. rewrite Hf. rewrite (standing_resolve true path d c) by (done || rewrite Eq; done). simpl.
  rewrite Eq. simpl. injection Hv as Hv. rewrite Hv. simpl. unfold lift_outcome.
  by rewrite (json_roundtrip value data Ed).
Qed.

Lemma WriteJSON_ReadJSON_witness :
  fst (ReadJSON (A:=string) "/s/images/refs/a.json" (snd (WriteJSON "/s/images/refs/a.json" "doc" demo_store))) = Ok "doc".
Proof.
  apply (WriteJSON_ReadJSON "/s/images/refs/a.json" ["s"; "images"; "refs"] "a.json" "doc" demo_store).
  - apply wf_check_sound. vm_compute. reflexivity.
  - apply standing_check_ok. vm_compute. reflexivity.
  - split; [reflexivity|by_decision].
  - intros k. discriminate.
  - vm_compute. reflexivity.
  - vm_compute. reflexivity.
Defined.

(** Whatever the image reference, its metadata path is one file of the directory
    [images/refs]: slashes are escaped, so no reference climbs out. The escape is not injective:
    references that differ only in the separators share one file. *)
Theorem RefPath_in_refs Dir_ ref :
  IsAbs Dir_ = true ->
  abs_path (RefPath Dir_ ref) (snd (cpath_of Dir_) ++ ["images"; "refs"; EscapeRef ref +:+ ".json"])
  /\ forall ref', EscapeRef ref' = EscapeRef ref -> RefPath Dir_ ref' = RefPath Dir_ ref.
Proof.
  intros Ha. split; [|unfold RefPath; by intros ref' ->].
  apply Join_abs_list; [done|done|]. repeat (apply Forall_cons; split; [apply RefPath_name || by_decision|]). done.
Qed.

Lemma RefPath_in_refs_witness :
  RefPath "/s" "docker.io/library/alpine:3" = RefPath "/s" "docker.io_library:alpine_3".
Proof.
  destruct (RefPath_in_refs "/s" "docker.io_library:alpine_3" eq_refl) as [_ H].
  apply H. reflexivity.
Defined.

(** ** The store as its users see it *)

(** Only direct entries of the directory [d] may differ. *)
Definition only_in (d : list string) (w w' : world) : Prop :=
  wf w' /\ forall p, (forall c, p <> d ++ [c]) -> view w' p = view w p.

Lemma atomic_only_in {A} w w' d c pre suf content (Qkeep Qdone : outcome A -> Prop) o :
  atomic_result w w' (d ++ [c]) (fun p => exists k, p = d ++ [temp_name pre suf k]) content Qkeep Qdone o ->
  only_in d w w'.
Proof.
  intros (Hw & Hf & _). split; [done|]. intros p Hp. apply Hf; [apply Hp|]. intros [k ->]. by eapply Hp.
Qed.

Lemma only_in_standing d D w w' : only_in d w w' -> ~ below d D -> standing D w -> standing D w'.
Proof.
  intros [_ Hf] Hb Hst p Hp. destruct (Hst p Hp) as [m Hm].
  assert (HF : view w' p = Some (VDir m)).
  { rewrite Hf; [unfold view; by rewrite Hm|]. intros c ->. apply Hb. destruct Hp as [x ->].
    split; [exists ([c] ++ x); by rewrite app_assoc|]. intros E%(f_equal length).
    rewrite !length_app in E. simpl in E. lia. }
  unfold view in HF. destruct (w_nodes w' !! p) as [[]|]; simpl in HF; try discriminate HF. eauto.
Qed.

Section layout.
Context (Dir_ : string).
Abbreviation dc := (snd (cpath_of Dir_)).

Definition manifestc : list string := dc ++ ["images"; "manifests"; "sha256"].
Definition configc : list string := dc ++ ["images"; "configs"; "sha256"].
Definition refc : list string := dc ++ ["images"; "refs"].

(** The directories [Init] makes stand, and the world is well formed. *)
Definition store_ready (w : world) : Prop :=
  wf w /\ standing (blobc Dir_) w /\ standing manifestc w /\ standing configc w /\ standing refc w.

(** Every blob holds the bytes its name is the digest of. *)
Definition intact (w : world) : Prop :=
  forall enc v, str_all is_hex enc = true -> enc <> "" -> view w (blobc Dir_ ++ [enc]) = Some v ->
  exists data m, v = VFile (Some (Inode data m)) /\ sha256_digest data = "sha256:" +:+ enc.

Definition is_digest (d : string) : Prop :=
  exists enc, d = "sha256:" +:+ enc /\ str_all is_hex enc = true /\ enc <> "".

Lemma not_below_app a b : ~ a `prefix_of` b -> ~ below (dc ++ a) (dc ++ b).
Proof. intros H [Hp _]. by apply prefix_app_inv in Hp. Qed.

Lemma below_irrefl cs : ~ below cs cs.
Proof. by intros [_ ?]. Qed.

Lemma store_ready_only_in d w w' :
  only_in d w w' ->
  ~ below d (blobc Dir_) -> ~ below d manifestc -> ~ below d configc -> ~ below d refc ->
  store_ready w -> store_ready w'.
Proof.
  intros Ho H1 H2 H3 H4 (Hw & S1 & S2 & S3 & S4). split_and!; [apply Ho|by eapply only_in_standing..].
Qed.

Lemma snoc_inj_ne {A} (d d' : list A) c c' : d <> d' -> d ++ [c] <> d' ++ [c'].
Proof. by intros H [? _]%app_inj_tail. Qed.

Lemma intact_only_in d w w' : d <> blobc Dir_ -> only_in d w w' -> intact w -> intact w'.
Proof.
  intros Hd [_ Hf] Hi enc v Hh Hne Hv. rewrite Hf in Hv; [by eapply Hi|].
  intros c. by apply snoc_inj_ne.
Qed.
End layout.

Ltac not_below := apply not_below_app; intros [? ?]; done.

(** Documents have names of their own. *)
Fixpoint last_char (s : string) : option ascii :=
  match s with
  | EmptyString => None
  | String a EmptyString => Some a
  | String _ s' => last_char s'
  end.

Lemma last_char_app s t : t <> "" -> last_char (s +:+ t) = last_char t.
Proof.
  intros Ht. induction s as [|a s IH]; [done|]. simpl. rewrite IH. by destruct s; [destruct t|].
Qed.

Lemma json_not_temp s k : temp_name ".json-" ".tmp" k <> s +:+ ".json".
Proof.
  unfold temp_name. intros E%(f_equal last_char). rewrite app_assoc_str in E.
  by rewrite !last_char_app in E by done.
Qed.

Lemma json_name enc : str_all is_hex enc = true -> enc <> "" -> is_name (enc +:+ ".json").
Proof.
  intros Hh Hne. destruct enc as [|a enc]; [done|].
  assert (Ha : a <> "."%char) by (intros ->; done).
  split_and!; [done|intros [= ? ?]; done|intros [= ? ?]; done|].
  by rewrite no_char_app, (hex_no_char slash).
Qed.

Section store_steps.
Context (Dir_ : string) (Habs : IsAbs Dir_ = true).

(** The blob of [digest] is in the store. *)
Definition stored (digest : string) (w : world) : Prop :=
  exists enc data m, digest = "sha256:" +:+ enc /\ sha256_digest data = digest
    /\ view w (blobc Dir_ ++ [enc]) = Some (VFile (Some (Inode data m))).

(** What a step of a pull keeps. *)
Definition store_ok (w : world) : Prop := store_ready Dir_ w /\ intact Dir_ w.
Definition store_step (w w' : world) : Prop :=
  store_ok w' /\ (forall d, is_digest d -> stored d w -> stored d w').

Lemma store_step_trans w1 w2 w3 : store_step w1 w2 -> store_step w2 w3 -> store_step w1 w3.
Proof. intros [_ H1] [H2 H3]. split; auto. Qed.

Lemma store_step_refl w : store_ok w -> store_step w w.
Proof. by split. Qed.

Lemma temp_not_hex pre k enc : str_all is_hex enc = true -> temp_name (String "."%char pre) ".tmp" k <> enc.
Proof. intros H E. by apply (hex_head enc H _ (eq_sym E)). Qed.

Lemma blobc_apart :
  ~ below (blobc Dir_) (blobc Dir_) /\ ~ below (blobc Dir_) (manifestc Dir_)
  /\ ~ below (blobc Dir_) (configc Dir_) /\ ~ below (blobc Dir_) (refc Dir_).
Proof. split_and!; [apply below_irrefl|not_below..]. Qed.

Lemma wp_WriteBlob digest reader w :
  store_ok w -> is_digest digest ->
  wp (WriteBlob Dir_ digest reader) (fun o w' =>
    only_in (blobc Dir_) w w' /\ store_step w w' /\
    match o with
    | Ok p => p = BlobPath Dir_ digest /\ stored digest w'
    | Err _ => True
    | Panic _ => False
    end) w.
Proof.
  intros [Hr Hi] (enc & -> & Hh & Hne). pose proof Hr as (Hw & Hst & _).
  eapply wp_mono; [|by apply (WriteBlob_result Dir_ Habs enc reader w)].
  intros o w' HR. pose proof (atomic_only_in _ _ _ _ _ _ _ _ _ _ HR) as Ho.
  destruct HR as (_ & Hf & HR). split; [done|].
  destruct blobc_apart as (A1 & A2 & A3 & A4).
  assert (Hfr : forall enc', str_all is_hex enc' = true -> enc' <> enc ->
    view w' (blobc Dir_ ++ [enc']) = view w (blobc Dir_ ++ [enc'])).
  { intros enc' Hh' Hne'. apply Hf; [intros [_ [= ?]]%app_inj_tail; congruence|].
    intros [k [_ E]%app_inj_tail]. by eapply (temp_not_hex "blob-"). }
  assert (Hq : view w' (blobc Dir_ ++ [enc]) = view w (blobc Dir_ ++ [enc])
    \/ exists m, view w' (blobc Dir_ ++ [enc]) = Some (VFile (Some (Inode (fst reader) m)))
         /\ sha256_digest (fst reader) = "sha256:" +:+ enc).
  { destruct HR as [[Hv _]|[[m Hm] (_ & _ & Hd)]]; [by left|right; eauto]. }
  assert (Hi' : intact Dir_ w').
  { intros enc' v Hh' Hne' Hv. destruct (decide (enc' = enc)) as [->|Hd].
    - destruct Hq as [E|(m & E & Hd)]; rewrite E in Hv; [by eapply Hi|].
      injection Hv as <-. eauto.
    - rewrite Hfr in Hv by done. by eapply Hi. }
  split; [split; [split; [by eapply store_ready_only_in|done]|]|].
  - intros d (enc' & -> & Hh' & Hne') (e & data & m & E & Hd & Hv). injection E as <-.
    destruct (decide (enc' = enc)) as [->|Hdiff].
    + destruct Hq as [E|(m' & E & Hd')]; exists enc; [exists data, m; by rewrite E|eauto].
    + exists enc', data, m. by rewrite Hfr.
  - destruct HR as [[Hv HQ]|[[m Hm] (-> & _ & Hd)]].
    + destruct o as [p|e|v]; [|done..]. destruct HQ as [-> [n Hn]]. split; [done|].
      assert (Hs : exists v, view w (blobc Dir_ ++ [enc]) = Some v) by (unfold view; rewrite Hn; eauto).
      destruct Hs as [v Hv']. destruct (Hi enc v Hh Hne Hv') as (data & m & -> & Hd).
      exists enc, data, m. by rewrite Hv.
    + split; [done|]. by exists enc, (fst reader), m.
Qed.

(** A document written into one of the other directories. *)
Lemma wp_WriteJSON {A} `{JSON A} d path c (value : A) w :
  store_ok w -> standing d w -> abs_path path (d ++ [c]) -> (forall k, temp_name ".json-" ".tmp" k <> c) ->
  d <> blobc Dir_ ->
  ~ below d (blobc Dir_) -> ~ below d (manifestc Dir_) -> ~ below d (configc Dir_) -> ~ below d (refc Dir_) ->
  (forall v, json_Encode value <> Panic v) ->
  wp (WriteJSON path value) (fun o w' =>
    only_in d w w' /\ store_step w w' /\
    match o with
    | Ok _ => exists data m, json_Encode value = Ok data /\ view w' (d ++ [c]) = Some (VFile (Some (Inode data m)))
    | Err _ => view w' (d ++ [c]) = view w (d ++ [c])
    | Panic _ => False
    end) w.
Proof.
  intros [Hr Hi] Hst Hp Hdot Hd H1 H2 H3 H4 Hnp. pose proof Hr as (Hw & _).
  eapply wp_mono; [|by apply (WriteJSON_result path d c value w)].
  intros o w' [HR|[v Hv]]; [|by apply Hnp in Hv].
  pose proof (atomic_only_in _ _ _ _ _ _ _ _ _ _ HR) as Ho. split; [done|].
  destruct HR as (_ & _ & HR). split; [split; [split; [by eapply store_ready_only_in|by eapply intact_only_in]|]|].
  - intros x _ (enc & data & m & -> & Hx & Hv). exists enc, data, m. split_and!; [done..|].
    destruct Ho as [_ Hf]. rewrite Hf; [done|]. intros c'. by apply snoc_inj_ne.
  - destruct HR as [[Hv HQ]|[[m Hv] [-> Henc]]]; [by destruct o|]. exists (match json_Encode value with Ok s => s | _ => EmptyString end), m.
    split; [|exact Hv]. by destruct (json_Encode value).
Qed.

Lemma wp_Write_manifest `{JSON A} enc (value : A) w :
  store_ok w -> str_all is_hex enc = true -> enc <> "" -> (forall v, json_Encode value <> Panic v) ->
  wp (WriteJSON (ManifestPath Dir_ ("sha256:" +:+ enc)) value) (fun o w' =>
    only_in (manifestc Dir_) w w' /\ store_step w w' /\ match o with Panic _ => False | _ => True end) w.
Proof.
  intros Hok Hh Hne Hnp. pose proof Hok as ((Hw & S1 & S2 & S3 & S4) & _).
  eapply wp_mono; [|apply (wp_WriteJSON (manifestc Dir_) _ (enc +:+ ".json") value w)].
  - intros [] w' (H1 & H2 & H3); done.
  - done.
  - done.
  - unfold ManifestPath, manifestc. rewrite splitDigest_sha256, <- app_assoc.
    apply Join_abs_list; [done|done|].
    repeat (apply Forall_cons; split; [by apply json_name || by_decision|]). done.
  - apply json_not_temp.
  - intros [? ?]%app_inj_2; done.
  - not_below.
  - apply below_irrefl.
  - not_below.
  - not_below.
  - done.
Qed.

Lemma wp_Write_config `{JSON A} enc (value : A) w :
  store_ok w -> str_all is_hex enc = true -> enc <> "" -> (forall v, json_Encode value <> Panic v) ->
  wp (WriteJSON (ConfigPath Dir_ ("sha256:" +:+ enc)) value) (fun o w' =>
    only_in (configc Dir_) w w' /\ store_step w w' /\ match o with Panic _ => False | _ => True end) w.
Proof.
  intros Hok Hh Hne Hnp. pose proof Hok as ((Hw & S1 & S2 & S3 & S4) & _).
  eapply wp_mono; [|apply (wp_WriteJSON (configc Dir_) _ (enc +:+ ".json") value w)].
  - intros [] w' (H1 & H2 & H3); done.
  - done.
  - done.
  - unfold ConfigPath, configc. rewrite splitDigest_sha256, <- app_assoc.
    apply Join_abs_list; [done|done|].
    repeat (apply Forall_cons; split; [by apply json_name || by_decision|]). done.
  - apply json_not_temp.
  - intros [? ?]%app_inj_2; done.
  - not_below.
  - not_below.
  - apply below_irrefl.
  - not_below.
  - done.
Qed.

Lemma wp_Write_ref `{JSON A} ref (value : A) w :
  store_ok w -> (forall v, json_Encode value <> Panic v) ->
  wp (WriteJSON (RefPath Dir_ ref) value) (fun o w' =>
    only_in (refc Dir_) w w' /\ store_step w w' /\
    match o with
    | Ok _ => exists data m, json_Encode value = Ok data
        /\ view w' (refc Dir_ ++ [EscapeRef ref +:+ ".json"]) = Some (VFile (Some (Inode data m)))
    | Err _ => view w' (refc Dir_ ++ [EscapeRef ref +:+ ".json"]) = view w (refc Dir_ ++ [EscapeRef ref +:+ ".json"])
    | Panic _ => False
    end) w.
Proof.
  intros Hok Hnp. pose proof Hok as ((Hw & S1 & S2 & S3 & S4) & _).
  apply (wp_WriteJSON (refc Dir_)); try done.
  - unfold RefPath, refc. rewrite <- app_assoc. apply Join_abs_list; [done|done|].
    repeat (apply Forall_cons; split; [apply RefPath_name || by_decision|]). done.
  - apply json_not_temp.
  - intros E%app_inv_head. done.
  - not_below.
  - not_below.
  - not_below.
  - apply below_irrefl.
Qed.
End store_steps.

(** ** Deciding soundness of a concrete store without blobs *)

Definition store_check (Dir_ : string) (w : world) : bool :=
  wf_check w && standing_check w [] (blobc Dir_) && standing_check w [] (manifestc Dir_)
  && standing_check w [] (configc Dir_) && standing_check w [] (refc Dir_)
  && forallb (fun kn : list string * node => bool_decide (kn.1 = []) || negb (bool_decide (removelast kn.1 = blobc Dir_)))
       (map_to_list (w_nodes w)).

Lemma store_check_sound Dir_ w : store_check Dir_ w = true -> store_ok Dir_ w.
Proof.
  unfold store_check. rewrite !andb_true_iff, forallb_forall. intros [[[[[H1 H2] H3] H4] H5] H6].
  split; [split_and!; [by apply wf_check_sound|by apply standing_check_ok..]|].
  intros enc v _ _ Hv. unfold view in Hv.
  destruct (w_nodes w !! (blobc Dir_ ++ [enc])) as [n|] eqn:E; [|done].
  specialize (H6 (blobc Dir_ ++ [enc], n) ltac:(by apply list_elem_of_In, elem_of_map_to_list)). simpl in H6.
  rewrite removelast_last, (bool_decide_eq_true_2 (blobc Dir_ = blobc Dir_)), orb_false_r, bool_decide_eq_true in H6 by done.
  by destruct (blobc Dir_).
Qed.
