(* ===== verification/Config.v ===== *)
(** * Runtime configuration

    [internal/config/config.go]: the configuration record of the image runtime and its defaults. *)

From S2P Require Import Prelude.
Local Open Scope Z_scope.

Definition DefaultStoreDir : string := "/var/lib/sandbox-runtime".
Definition DefaultKernelPath : string := "/opt/sandbox/vmlinux".
Definition DefaultBootImagePath : string := "/opt/sandbox/boot-init.ext4".
Definition DefaultPlatformOS : string := "linux".
Definition DefaultArchitecture : string := "amd64".
Definition DefaultRootfsMinBytes : Z := Z.shiftl 2 30.
Definition DefaultRootfsExtra : Z := Z.shiftl 512 20.

Record Platform := { p_OS : string; p_Architecture : string }.

Record RootfsConfig := { MinSizeBytes : Z; MaxSizeBytes : Z; ExtraBytes : Z; FS : string }.

Record Config := {
  StoreDir : string;
  KernelPath : string;
  BootImagePath : string;
  c_Platform : Platform;
  c_Rootfs : RootfsConfig
}.

#[export] Instance Platform_eq_dec : EqDecision Platform.
Proof. solve_decision. Defined.
#[export] Instance RootfsConfig_eq_dec : EqDecision RootfsConfig.
Proof. solve_decision. Defined.
#[export] Instance Config_eq_dec : EqDecision Config.
Proof. solve_decision. Defined.

Definition Default : Config := {|
  StoreDir := DefaultStoreDir;
  KernelPath := DefaultKernelPath;
  BootImagePath := DefaultBootImagePath;
  c_Platform := {| p_OS := DefaultPlatformOS; p_Architecture := DefaultArchitecture |};
  c_Rootfs := {| MinSizeBytes := DefaultRootfsMinBytes; MaxSizeBytes := 0;
                 ExtraBytes := DefaultRootfsExtra; FS := "ext4" |}
|}.
