(* ===== verification/Oci.v ===== *)
(** * Pulling an image into the content store

    [internal/oci/types.go] and [internal/oci/pull.go]. The registry client
    ([go-containerregistry]) is the parameters [ParseReference] and [remote_Image]; an image it
    gives is a [RemoteImage] whose accessors may fail. *)

From S2P Require Import Prelude GoPath Sha256 HostFS Confine FileLaws Entries Config ContentStore.

Record RuntimeConfig := {
  User : string;
  Env : list string;
  Entrypoint : list string;
  Cmd : list string;
  WorkingDir : string;
  StopSignal : string
}.

Record RootFS := { rf_Type : string; DiffIDs : list string }.

Record ImageConfig := {
  ic_Architecture : string;
  ic_OS : string;
  ic_Config : RuntimeConfig;
  ic_RootFS : RootFS
}.

Record Layer := {
  l_Digest : string;
  l_DiffID : string;
  l_MediaType : string;
  l_CompressedBlobPath : string;
  l_Size : Z
}.

Record PulledImage := {
  pi_Ref : string;
  pi_ManifestDigest : string;
  pi_ConfigDigest : string;
  pi_Config : ImageConfig;
  pi_Layers : list Layer;
  pi_Platform : Config.Platform
}.

(** [json.RawMessage]: checked and re-indented when it is encoded. *)
Record RawMessage := Raw { raw : string }.

(** What the code reads of [v1.Layer] and [v1.Image]. *)
Record RemoteLayer := {
  rl_Digest : outcome string;
  rl_MediaType : outcome string;
  rl_Size : outcome Z;
  rl_Compressed : outcome stream
}.

Record RemoteImage := {
  RawManifest : outcome string;
  Digest : outcome string;
  RawConfigFile : outcome string;
  ConfigName : outcome string;
  Layers : outcome (list RemoteLayer)
}.

Section pull.
Context {Reference : Type} (ParseReference : string -> outcome Reference).
Context (remote_Image : Reference -> Config.Platform -> outcome RemoteImage).
Context `{JSON RawMessage} `{JSON RefMetadata} `{JSONUnmarshal ImageConfig}.
(** [store.Dir] *)
Variable Dir_ : string.

Fixpoint pull_layers (diffIDs : list string) (i : nat) (layers : list RemoteLayer) : OS (list Layer) :=
  match layers with
  | [] => mret []
  | layer :: rest =>
      digest ← lift_outcome (rl_Digest layer);
      mediaType ← lift_outcome (rl_MediaType layer);
      size ← lift_outcome (rl_Size layer);
      compressed ← lift_outcome (rl_Compressed layer);
      path ← WriteBlob Dir_ digest compressed;
      diffID ← match diffIDs !! i with
               | Some d => mret d
               | None => panic "index out of range"
               end;
      pulled ← pull_layers diffIDs (S i) rest;
      mret ({| l_Digest := digest; l_DiffID := diffID; l_MediaType := mediaType;
               l_CompressedBlobPath := path; l_Size := size |} :: pulled)
  end.

Definition Pull (ref : string) (platform : Config.Platform) : OS PulledImage :=
  parsed ← lift_outcome (ParseReference ref);
  img ← lift_outcome (remote_Image parsed platform);
  manifest ← lift_outcome (RawManifest img);
  manifestDigest ← lift_outcome (Digest img);
  _ ← WriteBlob Dir_ manifestDigest (manifest, None);
  WriteJSON (ManifestPath Dir_ manifestDigest) (Raw manifest) ;;
  configBytes ← lift_outcome (RawConfigFile img);
  configDigest ← lift_outcome (ConfigName img);
  _ ← WriteBlob Dir_ configDigest (configBytes, None);
  WriteJSON (ConfigPath Dir_ configDigest) (Raw configBytes) ;;
  config ← lift_outcome (json_Unmarshal configBytes);
  layers ← lift_outcome (Layers img);
  let diffIDs := DiffIDs (ic_RootFS config) in
  fail_if (negb (bool_decide (length layers = length diffIDs)))
    (Errorf "layer count %d does not match diffID count %d" [pretty (length layers); pretty (length diffIDs)]) ;;
  pulledLayers ← pull_layers diffIDs 0 layers;
  now ← gets w_now;
  WriteJSON (RefPath Dir_ ref)
    {| rm_ImageRef := ref; rm_ManifestDigest := manifestDigest;
       rm_Platform := {| OS_ := p_OS platform; Architecture := p_Architecture platform |};
       rm_UpdatedAt := now |} ;;
  mret {| pi_Ref := ref; pi_ManifestDigest := manifestDigest; pi_ConfigDigest := configDigest;
          pi_Config := config; pi_Layers := pulledLayers; pi_Platform := platform |}.
End pull.

(** ** What a pull promises *)

(** What the registry client documents of the hashes it gives. *)
Definition hashes_ok (img : RemoteImage) : Prop :=
  (forall d, Digest img = Ok d -> is_digest d)
  /\ (forall d, ConfigName img = Ok d -> is_digest d)
  /\ (forall ls l d, Layers img = Ok ls -> l ∈ ls -> rl_Digest l = Ok d -> is_digest d).

(** The accessors return or fail; they do not panic. *)
Definition tame {A} (o : outcome A) : Prop := match o with Panic _ => False | _ => True end.
Definition image_tame (img : RemoteImage) : Prop :=
  tame (RawManifest img) /\ tame (Digest img) /\ tame (RawConfigFile img) /\ tame (ConfigName img)
  /\ tame (Layers img)
  /\ (forall ls l, Layers img = Ok ls -> l ∈ ls ->
        tame (rl_Digest l) /\ tame (rl_MediaType l) /\ tame (rl_Size l) /\ tame (rl_Compressed l)).

Lemma wp_lift {S A} (o : outcome A) (Q : outcome A -> S -> Prop) s : Q o s -> wp (lift_outcome o) Q s.
Proof. done. Qed.

Lemma wp_bind_lift {S A B} (o : outcome A) (k : A -> GoM S B) Q s :
  tame o -> (forall e, Q (Err e) s) -> (forall a, o = Ok a -> wp (k a) Q s) -> wp (lift_outcome o ≫= k) Q s.
Proof. intros Ht He Hk. apply wp_bind, wp_lift. destruct o; cbn [wp_cont]; auto; done. Qed.

(** Layers that name blobs of the store, one per diffID from the [i]-th on. *)
Definition layers_stored (Dir_ : string) (diffIDs : list string) (i : nat) (w : world) (ls : list Layer) : Prop :=
  forall k l, ls !! k = Some l ->
    diffIDs !! (i + k) = Some (l_DiffID l) /\ l_CompressedBlobPath l = BlobPath Dir_ (l_Digest l)
    /\ is_digest (l_Digest l) /\ stored Dir_ (l_Digest l) w.

Lemma layers_stored_step Dir_ diffIDs i w w' ls :
  store_step Dir_ w w' -> layers_stored Dir_ diffIDs i w ls -> layers_stored Dir_ diffIDs i w' ls.
Proof. intros [_ Hs] H k l Hk. destruct (H k l Hk) as (H1 & H2 & H3 & H4). auto. Qed.

(** The directories a pull writes to, and the entries directly in some directories. *)
Definition pull_dirs (Dir_ : string) : list (list string) :=
  [blobc Dir_; manifestc Dir_; configc Dir_; refc Dir_].
Definition in_dirs (ds : list (list string)) (p : list string) : Prop := exists d c, d ∈ ds /\ p = d ++ [c].

Lemma framed_only_in ds d w w' : d ∈ ds -> only_in d w w' -> framed (in_dirs ds) w w'.
Proof. intros Hd [Hw Hf]. split; [done|]. intros p Hp. apply Hf. intros c ->. apply Hp. by exists d, c. Qed.

Section pulling.
Context (Dir_ : string) (Habs : IsAbs Dir_ = true).
Abbreviation refq ref := (refc Dir_ ++ [EscapeRef ref +:+ ".json"]).

(** Progress of a pull: the store stays sound, the reference is untouched, and so is everything
    outside the four directories a pull writes to. *)
Definition pulling (ref : string) (w w' : world) : Prop :=
  store_step Dir_ w w' /\ view w' (refq ref) = view w (refq ref)
  /\ framed (in_dirs (pull_dirs Dir_)) w w'.

Lemma pulling_only_in d ref w w' :
  d ∈ pull_dirs Dir_ -> d <> refc Dir_ -> only_in d w w' -> store_step Dir_ w w' -> pulling ref w w'.
Proof.
  intros Hin Hd Ho Hs. split_and!; [done| |by eapply framed_only_in].
  apply Ho. intros c. by apply snoc_inj_ne.
Qed.

Lemma pulling_refl ref w : store_ok Dir_ w -> pulling ref w w.
Proof.
  intros Hok. split_and!; [by apply store_step_refl|done|]. apply framed_same_place; [|done]. apply Hok.
Qed.

Lemma pulling_trans ref w1 w2 w3 : pulling ref w1 w2 -> pulling ref w2 w3 -> pulling ref w1 w3.
Proof.
  intros (H1 & E1 & F1) (H2 & E2 & F2).
  split_and!; [by eapply store_step_trans|congruence|by eapply framed_trans].
Qed.

Lemma pulling_ok ref w w' : pulling ref w w' -> store_ok Dir_ w'.
Proof. by intros [[H _] _]. Qed.

Lemma blobc_ne_refc : blobc Dir_ <> refc Dir_.
Proof. by intros E%app_inv_head. Qed.

Lemma wp_pull_layers ref diffIDs i ls w :
  store_ok Dir_ w -> i + length ls = length diffIDs ->
  (forall l d, l ∈ ls -> rl_Digest l = Ok d -> is_digest d) ->
  (forall l, l ∈ ls -> tame (rl_Digest l) /\ tame (rl_MediaType l) /\ tame (rl_Size l) /\ tame (rl_Compressed l)) ->
  wp (pull_layers Dir_ diffIDs i ls) (fun o w' => pulling ref w w' /\
    match o with
    | Ok pulled => length pulled = length ls /\ layers_stored Dir_ diffIDs i w' pulled
    | Err _ => True
    | Panic _ => False
    end) w.
Proof.
  revert i w. induction ls as [|l ls IH]; intros i w Hok Hlen Hd Ht; cbn [pull_layers].
  { apply wp_ret. split; [by apply pulling_refl|]. split; [done|]. by intros k l ?. }
  destruct (Ht l (list_elem_of_here _ _)) as (T1 & T2 & T3 & T4).
  assert (P0 : pulling ref w w) by (by apply pulling_refl).
  apply wp_bind, wp_lift. destruct (rl_Digest l) as [digest|e|v] eqn:Ed; [|done..]; cbn [wp_cont].
  apply wp_bind, wp_lift. destruct (rl_MediaType l) as [mt|e|v]; [|done..]; cbn [wp_cont].
  apply wp_bind, wp_lift. destruct (rl_Size l) as [size|e|v]; [|done..]; cbn [wp_cont].
  apply wp_bind, wp_lift. destruct (rl_Compressed l) as [comp|e|v]; [|done..]; cbn [wp_cont].
  assert (Hdig : is_digest digest) by (eapply Hd; [apply list_elem_of_here|done]).
  apply wp_bind. eapply wp_mono; [|by apply wp_WriteBlob].
  intros o w1 (Ho & Hs & HR). pose proof (pulling_only_in _ ref _ _ ltac:(apply list_elem_of_here) blobc_ne_refc Ho Hs) as P1.
  destruct o as [p|e|v]; cbn [wp_cont]; [|done..]. destruct HR as [-> Hst].
  destruct (diffIDs !! i) as [diffID|] eqn:Edi; [|apply lookup_ge_None in Edi; simpl in Hlen; lia].
  apply wp_bind, wp_ret; cbn [wp_cont].
  apply wp_bind. eapply wp_mono; [|apply (IH (S i) w1)].
  - intros o w2 [P2 HR]. pose proof (pulling_trans _ _ _ _ P1 P2) as P12.
    destruct o as [pulled|e|v]; cbn [wp_cont]; [|done..]. apply wp_ret. split; [done|].
    destruct HR as [HL HS]. simpl. split; [by rewrite HL|].
    intros [|k] l' Hk; simpl in Hk.
    + injection Hk as <-. simpl. rewrite Nat.add_0_r. split_and!; [done..|]. destruct P2 as [[_ P2] _]. auto.
    + replace (i + S k) with (S i + k) by lia. by apply HS.
  - by eapply pulling_ok.
  - simpl in Hlen. lia.
  - intros l' d Hin. apply Hd. by apply list_elem_of_further.
  - intros l' Hin. apply Ht. by apply list_elem_of_further.
Qed.

(** One step of a pull: an error leaves the reference as it was. *)
Lemma wp_bind_pulling {A B} ref (m : OS A) (k : A -> OS B) (R : world -> Prop) (Q : outcome B -> world -> Prop) w0 w :
  pulling ref w0 w ->
  wp m (fun o w' => pulling ref w w' /\ match o with Ok _ => R w' | Err _ => True | Panic _ => False end) w ->
  (forall e w', pulling ref w0 w' -> Q (Err e) w') ->
  (forall a w', pulling ref w0 w' -> store_step Dir_ w w' -> R w' -> wp (k a) Q w') ->
  wp (m ≫= k) Q w.
Proof.
  intros P Hm He Hk. apply wp_bind. eapply wp_mono; [|exact Hm]. intros o w' [P' Ht].
  assert (pulling ref w0 w') by (by eapply pulling_trans). destruct o; cbn [wp_cont]; auto; [|done]. apply Hk; [done|apply P'|done].
Qed.

Lemma wp_pull_blob ref digest reader w :
  store_ok Dir_ w -> is_digest digest ->
  wp (WriteBlob Dir_ digest reader) (fun o w' => pulling ref w w' /\
    match o with Ok _ => stored Dir_ digest w' | Err _ => True | Panic _ => False end) w.
Proof.
  intros Hok Hd. eapply wp_mono; [|by apply wp_WriteBlob]. intros o w' (Ho & Hs & HR).
  split; [|by destruct o; [apply HR|..]]. eapply pulling_only_in; [apply list_elem_of_here|apply blobc_ne_refc|exact Ho|exact Hs].
Qed.

Lemma wp_pull_manifest `{JSON A} ref digest (value : A) w :
  store_ok Dir_ w -> is_digest digest -> (forall v, json_Encode value <> Panic v) ->
  wp (WriteJSON (ManifestPath Dir_ digest) value) (fun o w' => pulling ref w w' /\
    match o with Ok _ => True | Err _ => True | Panic _ => False end) w.
Proof.
  intros Hok (enc & -> & Hh & Hne) Hnp. eapply wp_mono; [|by apply wp_Write_manifest].
  intros o w' (Ho & Hs & HR). split; [|by destruct o; [exact I..|]].
  eapply pulling_only_in; [| |exact Ho|exact Hs]; [unfold pull_dirs; rewrite !elem_of_cons; auto|]. by intros E%app_inv_head.
Qed.

Lemma wp_pull_config `{JSON A} ref digest (value : A) w :
  store_ok Dir_ w -> is_digest digest -> (forall v, json_Encode value <> Panic v) ->
  wp (WriteJSON (ConfigPath Dir_ digest) value) (fun o w' => pulling ref w w' /\
    match o with Ok _ => True | Err _ => True | Panic _ => False end) w.
Proof.
  intros Hok (enc & -> & Hh & Hne) Hnp. eapply wp_mono; [|by apply wp_Write_config].
  intros o w' (Ho & Hs & HR). split; [|by destruct o; [exact I..|]].
  eapply pulling_only_in; [| |exact Ho|exact Hs]; [unfold pull_dirs; rewrite !elem_of_cons; auto|]. by intros E%app_inv_head.
Qed.
End pulling.

(** The image a pull that succeeds gives is the one the registry has for the reference, and the reference's metadata, at
    [q], is of this image, whose manifest and configuration are stored under their digests. *)
Definition published {Reference} (ParseReference : string -> outcome Reference) (remote_Image : Reference -> Config.Platform -> outcome RemoteImage)
    `{JSON RefMetadata} `{JSONUnmarshal ImageConfig} Dir_ ref platform q (img : PulledImage) (w : world) : Prop :=
  exists parsed remote configBytes updatedAt data m,
    ParseReference ref = Ok parsed /\ remote_Image parsed platform = Ok remote
    /\ Digest remote = Ok (pi_ManifestDigest img) /\ ConfigName remote = Ok (pi_ConfigDigest img)
    /\ RawConfigFile remote = Ok configBytes /\ json_Unmarshal configBytes = Ok (pi_Config img)
    /\ pi_Ref img = ref /\ pi_Platform img = platform
    /\ stored Dir_ (pi_ManifestDigest img) w /\ stored Dir_ (pi_ConfigDigest img) w
    /\ json_Encode {| rm_ImageRef := ref; rm_ManifestDigest := pi_ManifestDigest img;
                      rm_Platform := {| OS_ := p_OS platform; Architecture := p_Architecture platform |}; rm_UpdatedAt := updatedAt |} = Ok data
    /\ view w q = Some (VFile (Some (Inode data m))).

Lemma pull_sound {Reference} (ParseReference : string -> outcome Reference) remote_Image
    `{JSON RawMessage} `{JSON RefMetadata} `{JSONUnmarshal ImageConfig} Dir_ ref platform w :
  IsAbs Dir_ = true -> store_ok Dir_ w ->
  (forall r, tame (ParseReference r)) ->
  (forall r p, tame (remote_Image r p)) ->
  (forall r p img, remote_Image r p = Ok img -> hashes_ok img /\ image_tame img) ->
  (forall (m : RawMessage) v, json_Encode m <> Panic v) -> (forall (m : RefMetadata) v, json_Encode m <> Panic v) ->
  (forall s, tame (json_Unmarshal (A:=ImageConfig) s)) ->
  wp (Pull ParseReference remote_Image Dir_ ref platform) (fun o w' =>
    store_step Dir_ w w' /\ framed (in_dirs (pull_dirs Dir_)) w w' /\
    match o with
    | Ok img => length (pi_Layers img) = length (DiffIDs (ic_RootFS (pi_Config img)))
        /\ layers_stored Dir_ (DiffIDs (ic_RootFS (pi_Config img))) 0 w' (pi_Layers img)
        /\ published ParseReference remote_Image Dir_ ref platform (refc Dir_ ++ [EscapeRef ref +:+ ".json"]) img w'
    | Err _ => view w' (refc Dir_ ++ [EscapeRef ref +:+ ".json"]) = view w (refc Dir_ ++ [EscapeRef ref +:+ ".json"])
    | Panic _ => False
    end) w.
Proof.
  intros Ha Hok HtP HtR Himg HeM HeR HtU. set (q := refc Dir_ ++ [EscapeRef ref +:+ ".json"]).
  set (Q := fun (o : outcome PulledImage) w' => store_step Dir_ w w' /\ framed (in_dirs (pull_dirs Dir_)) w w' /\
    match o with
    | Ok img => length (pi_Layers img) = length (DiffIDs (ic_RootFS (pi_Config img)))
        /\ layers_stored Dir_ (DiffIDs (ic_RootFS (pi_Config img))) 0 w' (pi_Layers img)
        /\ published ParseReference remote_Image Dir_ ref platform q img w'
    | Err _ => view w' q = view w q
    | Panic _ => False
    end).
  assert (HQ : forall e w', pulling Dir_ ref w w' -> Q (Err e) w') by (by intros e w' (? & ? & ?)).
  change (wp (Pull ParseReference remote_Image Dir_ ref platform) Q w). unfold Pull.
  assert (P0 : pulling Dir_ ref w w) by (by apply pulling_refl).
  apply wp_bind_lift; [done|auto|intros parsed EP].
  apply wp_bind_lift; [done|auto|intros img Ei].
  destruct (Himg _ _ _ Ei) as [(D1 & D2 & D3) (T1 & T2 & T3 & T4 & T5 & T6)].
  apply wp_bind_lift; [done|auto|intros manifest _].
  apply wp_bind_lift; [done|auto|intros mDigest Em]. specialize (D1 _ Em).
  eapply (wp_bind_pulling Dir_ ref); [exact P0|by apply wp_pull_blob|done|intros _ w1 P1 _ ST1].
  pose proof (pulling_ok _ _ _ _ P1) as O1.
  eapply (wp_bind_pulling Dir_ ref); [exact P1|by apply (wp_pull_manifest Dir_ Ha)|done|intros _ w2 P2 SS2 _].
  apply wp_bind_lift; [done|auto|intros cbytes ECB].
  apply wp_bind_lift; [done|auto|intros cDigest Ec]. specialize (D2 _ Ec).
  pose proof (pulling_ok _ _ _ _ P2) as O2.
  eapply (wp_bind_pulling Dir_ ref); [exact P2|by apply wp_pull_blob|done|intros _ w3 P3 SS3 ST3].
  pose proof (pulling_ok _ _ _ _ P3) as O3.
  eapply (wp_bind_pulling Dir_ ref); [exact P3|by apply (wp_pull_config Dir_ Ha)|done|intros _ w4 P4 SS4 _].
  apply wp_bind_lift; [done|auto|intros config ECF].
  apply wp_bind_lift; [done|auto|intros layers El].
  apply wp_bind, wp_fail_if; [intros _; exact (HQ _ _ P4)|]. intros Hlen%negb_false_iff%bool_decide_eq_true. cbn [wp_cont].
  pose proof (pulling_ok _ _ _ _ P4) as O4.
  apply wp_bind. eapply wp_mono; [|apply (wp_pull_layers Dir_ Ha ref _ 0 layers w4); eauto].
  intros o w5 [P5 HR]. pose proof (pulling_trans _ _ _ _ _ P4 P5) as P5'.
  destruct o as [pulled|e|v]; cbn [wp_cont]; [|exact (HQ _ _ P5')|done]. destruct HR as [HL HS].
  apply wp_bind. change (wp (gets w_now) ?P w5) with (P (Ok (w_now w5)) w5). cbn [wp_cont]. apply wp_bind.
  eapply wp_mono; [|apply (wp_Write_ref Dir_ Ha ref _ w5); [by eapply pulling_ok|apply HeR]].
  intros o w6 (Ho & Hs & HR').
  assert (S6 : store_step Dir_ w w6) by (eapply store_step_trans; [apply P5'|done]).
  assert (F6 : framed (in_dirs (pull_dirs Dir_)) w w6).
  { eapply framed_trans; [apply P5'|]. eapply framed_only_in; [|exact Ho]. unfold pull_dirs. rewrite !elem_of_cons. auto. }
  destruct o as [[]|e|v]; cbn [wp_cont]; [|split_and!; [done|done|]; etrans; [exact HR'|apply (proj1 (proj2 P5'))]|done].
  apply wp_ret. split; [done|]. split; [done|]. simpl. split; [congruence|]. split; [eapply layers_stored_step; [exact Hs|exact HS]|].
  destruct HR' as (data & m & Henc & Hv). exists parsed, img, cbytes, (w_now w5), data, m. simpl. split_and!; try done.
  - apply Hs; [done|]. apply P5; [done|]. apply SS4; [done|]. apply SS3; [done|]. by apply SS2.
  - apply Hs; [done|]. apply P5; [done|]. by apply SS4.
Qed.

(** C7: [Pull] keeps the store sound on every outcome and schedule of failures (every blob holds
    the bytes its name is the digest of, and no blob that was there is lost), and publishes the
    reference last: on any error the reference's metadata is as it was; on success it is the encoding of the
    reference, the platform and the digest of the manifest of the image the registry has for them, the manifest and
    the configuration are stored under their digests, there is one layer per diffID, in order, and the store holds
    the compressed bytes of each under its digest.
    Only entries of the blob, manifest, config and reference directories change. *)
Theorem Pull_sound {Reference} (ParseReference : string -> outcome Reference) remote_Image
    `{JSON RawMessage} `{JSON RefMetadata} `{JSONUnmarshal ImageConfig} Dir_ ref platform w :
  IsAbs Dir_ = true -> store_ok Dir_ w ->
  (forall r, tame (ParseReference r)) ->
  (forall r p, tame (remote_Image r p)) ->
  (forall r p img, remote_Image r p = Ok img -> hashes_ok img /\ image_tame img) ->
  (forall (m : RawMessage) v, json_Encode m <> Panic v) -> (forall (m : RefMetadata) v, json_Encode m <> Panic v) ->
  (forall s, tame (json_Unmarshal (A:=ImageConfig) s)) ->
  let q := refc Dir_ ++ [EscapeRef ref +:+ ".json"] in
  let r := Pull ParseReference remote_Image Dir_ ref platform w in
  store_step Dir_ w (snd r) /\ framed (in_dirs (pull_dirs Dir_)) w (snd r) /\
  match fst r with
  | Ok img => let diffIDs := DiffIDs (ic_RootFS (pi_Config img)) in
      length (pi_Layers img) = length diffIDs /\ layers_stored Dir_ diffIDs 0 (snd r) (pi_Layers img)
      /\ published ParseReference remote_Image Dir_ ref platform q img (snd r)
  | Err _ => view (snd r) q = view w q
  | Panic _ => False
  end.
Proof.
  intros Ha Hok HtP HtR Himg HeM HeR HtU q r. by apply pull_sound.
Qed.

(** A registry with one image of one layer. *)
Definition abc_digest : string := "sha256:ba7816bf8f01cfea414140de5dae2223b00361a396177a9cb410ff61f20015ad".
Definition demo_image : RemoteImage := {|
  RawManifest := Ok "abc"; Digest := Ok abc_digest; RawConfigFile := Ok "abc"; ConfigName := Ok abc_digest;
  Layers := Ok [{| rl_Digest := Ok abc_digest; rl_MediaType := Ok "tar"; rl_Size := Ok 3%Z;
                   rl_Compressed := Ok ("abc", None) |}] |}.
Definition demo_config : ImageConfig := {|
  ic_Architecture := "amd64"; ic_OS := "linux";
  ic_Config := {| User := ""; Env := []; Entrypoint := []; Cmd := []; WorkingDir := ""; StopSignal := "" |};
  ic_RootFS := {| rf_Type := "layers"; DiffIDs := ["sha256:d"] |} |}.
Definition demo_RawMessage : JSON RawMessage :=
  {| json_Encode := fun m => Ok (raw m); json_Decode := fun s => Ok (Raw s) |}.
Definition demo_RefMetadata : JSON RefMetadata :=
  {| json_Encode := fun m => Ok (rm_ManifestDigest m); json_Decode := fun _ => Err Canceled |}.
Definition demo_Unmarshal : JSONUnmarshal ImageConfig := fun _ => Ok demo_config.
Definition demo_dirs : world :=
  with_dirs ["/s/content/blobs/sha256"; "/s/images/refs"; "/s/images/manifests/sha256"; "/s/images/configs/sha256"] empty_world.
Definition demo_pull : outcome PulledImage * world :=
  @Pull unit (fun _ => Ok tt) (fun _ _ => Ok demo_image) demo_RawMessage demo_RefMetadata demo_Unmarshal
    "/s" "alpine" {| p_OS := "linux"; p_Architecture := "amd64" |} demo_dirs.

Lemma abc_is_digest : is_digest abc_digest.
Proof. by exists "ba7816bf8f01cfea414140de5dae2223b00361a396177a9cb410ff61f20015ad". Qed.

Lemma Pull_sound_witness :
  is_Ok (fst demo_pull) = true /\ store_ok "/s" (snd demo_pull).
Proof.
  split; [vm_compute; reflexivity|]. unfold demo_pull.
  pose proof (@Pull_sound unit (fun _ => Ok tt) (fun _ _ => Ok demo_image) demo_RawMessage demo_RefMetadata
    demo_Unmarshal "/s" "alpine" {| p_OS := "linux"; p_Architecture := "amd64" |} demo_dirs) as H.
  cbv zeta in H. destruct H as ([H _] & _).
  - reflexivity.
  - apply store_check_sound. vm_compute. reflexivity.
  - intros r. exact I.
  - intros r p. exact I.
  - intros r p img E. injection E as <-. split.
    + split_and!; [intros d [= <-]; exact abc_is_digest|intros d [= <-]; exact abc_is_digest|].
      intros ls l d [= <-] ->%list_elem_of_singleton [= <-]. exact abc_is_digest.
    + split_and!; try exact I. intros ls l [= <-] ->%list_elem_of_singleton. split_and!; exact I.
  - intros m v. discriminate.
  - intros m v. discriminate.
  - intros s. exact I.
  - exact H.
Defined.
