(* ===== verification/FileLock.v ===== *)
(** * The file lock

    [internal/lock/filelock.go]: an exclusive [flock] taken by polling every 50 ms until the
    context ends. Another holder shows as an EWOULDBLOCK among the planned faults of the world,
    so the schedule of faults is also the schedule of contention. Fuel bounds the polling loop;
    [acquire_fuel] gives enough for every world. *)

From S2P Require Import Prelude GoPath HostFS Confine FileLaws.

(** [unix.Flock] on an open file. *)
Definition unix_Flock (fd : nat) : OS unit := syscall (mret tt).

Definition rdwr_create : open_flags :=
  {| o_creat := true; o_excl := false; o_trunc := false; o_nofollow := false |}.

(** The loop of [Acquire]; [n] counts its turns, [ctx n] is what [ctx.Err()] would be in the n-th
    select when the context is done by then. EAGAIN is EWOULDBLOCK on Linux. *)
Fixpoint acquire_loop (fuel n : nat) (ctx : nat -> option error) (path : string) (file : nat) : OS nat :=
  match fuel with
  | O => panic out_of_fuel
  | S fuel' =>
      r ← attempt (unix_Flock file);
      match r with
      | inr _ => mret file
      | inl err =>
          if decide (err = Errno EWOULDBLOCK) then
            match ctx n with
            | Some cerr => ignore (fd_close file) ;; fail cerr
            | None => acquire_loop fuel' (S n) ctx path file
            end
          else ignore (fd_close file) ;; fail (Wrapf "lock %s: %w" [path] err)
      end
  end.

(** Every failed attempt uses up a fault. *)
Definition acquire_fuel (w : world) : nat := S (length (w_faults w)).

Definition Acquire (ctx : nat -> option error) (path : string) : OS nat :=
  os_MkdirAll (Dir path) 493 ;;
  file ← os_open path rdwr_create 420;
  w ← get_state;
  acquire_loop (acquire_fuel w) 0 ctx path file.

(** [FileLock.Close] on a lock that was acquired: unlock and close, the first error wins. *)
Definition Close (file : nat) : OS unit :=
  unlockErr ← attempt (unix_Flock file);
  closeErr ← attempt (fd_close file);
  match unlockErr, closeErr with
  | inl e, _ => fail e
  | _, inl e => fail e
  | _, _ => mret tt
  end.

(** ** Laws *)

Lemma flock_cases fd w :
  (unix_Flock fd w = (Ok tt, set_faults (tail (w_faults w)) w))
  \/ (exists e l, w_faults w = Some e :: l /\ unix_Flock fd w = (Err (Errno e), set_faults l w)).
Proof.
  unfold unix_Flock, syscall. destruct w as [a b c d e f g h eu eg sg [|[er|] l]]; simpl; [by left| |by left].
  case_decide; [by left|]. right. by exists er, l.
Qed.

Lemma Flock_same_place fd : preserves same_place (unix_Flock fd).
Proof. unfold unix_Flock. solve_calls. Qed.
Lemma fd_close_same_place i : preserves same_place (fd_close i).
Proof. unfold fd_close. solve_calls. Qed.
#[export] Hint Resolve Flock_same_place fd_close_same_place : go_preserves.

Lemma acquire_loop_same_place fuel n ctx path file : preserves same_place (acquire_loop fuel n ctx path file).
Proof.
  revert n. induction fuel as [|fuel IH]; intros n; cbn [acquire_loop]; [by intros w|].
  solve_preserves; apply IH.
Qed.
#[export] Hint Resolve acquire_loop_same_place : go_preserves.

Lemma acquire_loop_total fuel n ctx path file w :
  length (w_faults w) < fuel -> forall v w', acquire_loop fuel n ctx path file w <> (Panic v, w').
Proof.
  revert n w. induction fuel as [|fuel IH]; intros n w Hl v w'; [lia|]. cbn [acquire_loop].
  unfold mbind at 1, GoM_bind at 1, attempt at 1.
  destruct (flock_cases file w) as [-> | (e & l & Ef & ->)]; [done|].
  assert (Hnp : forall err : error, no_panic (ignore (fd_close file);; fail (A:=nat) err)) by (intros err; solve_no_panic).
  case_decide; [|apply Hnp]. destruct (ctx n); [apply Hnp|]. apply IH. rewrite Ef in Hl. simpl in *. lia.
Qed.

Lemma Acquire_no_panic ctx path : no_panic (Acquire ctx path).
Proof.
  unfold Acquire. apply no_panic_bind; [solve_no_panic|intros _].
  apply no_panic_bind; [solve_no_panic|intros file]. intros w v w'.
  apply acquire_loop_total. unfold acquire_fuel. lia.
Qed.

Lemma Close_no_panic file : no_panic (Close file).
Proof.
  assert (no_panic (unix_Flock file)) by (apply no_panic_syscall; solve_no_panic).
  unfold Close. solve_no_panic.
Qed.
#[export] Hint Resolve Acquire_no_panic Close_no_panic : go_no_panic.

Lemma Close_same_place file : preserves same_place (Close file).
Proof. unfold Close. solve_preserves. Qed.
#[export] Hint Resolve Close_same_place : go_preserves.

(** ** What the lock promises *)

(** The context's error at the first of the turns [n .. n+k-1] at which it has ended. *)
Fixpoint ended (ctx : nat -> option error) (n k : nat) : option error :=
  match k with
  | O => None
  | S k' => match ctx n with Some err => Some err | None => ended ctx (S n) k' end
  end.

(** The polling loop ends, with one turn more than there are refusals. While the lock is held
    by another ([k] refusals) it keeps trying for as long as the context is live; it returns the
    context's error at the first turn at which it has ended, and otherwise the lock at the first
    attempt that is not refused. *)
Theorem acquire_loop_result fuel ctx path file k l w :
  w_faults w = repeat (Some EWOULDBLOCK) k ++ None :: l ->
  k < fuel ->
  fst (acquire_loop fuel 0 ctx path file w) =
    match ended ctx 0 k with Some err => Err err | None => Ok file end.
Proof.
  generalize 0 as n. revert fuel w. induction k as [|k IH]; intros fuel w n Hf Hl; (destruct fuel as [|fuel]; [lia|]);
    cbn [acquire_loop repeat app ended] in *;
    unfold mbind at 1, GoM_bind at 1, attempt at 1, unix_Flock, syscall at 1; rewrite Hf; simpl; [done|].
  destruct (ctx n) as [err|]; [|apply IH; [done|lia]].
  unfold ignore, attempt, fd_close, syscall, mbind, GoM_bind. simpl.
  destruct (repeat (Some EWOULDBLOCK) k ++ None :: l) as [|[e|] l']; [done| |done]. by case_decide.
Qed.

Lemma acquire_loop_result_witness :
  let w := set_faults [Some EWOULDBLOCK; Some EWOULDBLOCK; None] empty_world in
  fst (acquire_loop 3 0 (fun n => if decide (n = 1) then Some Canceled else None) "/l" 7 w) = Err Canceled.
Proof.
  intros w. rewrite (acquire_loop_result 3 (fun n => if decide (n = 1) then Some Canceled else None) "/l" 7 2 [] w).
  - reflexivity.
  - reflexivity.
  - lia.
Defined.

(** [Acquire] always returns: the fuel it is given is never used up, on any world and context
    (a planned fault is spent on every refused attempt). *)
Theorem Acquire_terminates ctx path w v : fst (Acquire ctx path w) <> Panic v.
Proof.
  destruct (Acquire ctx path w) as [o w'] eqn:E. simpl. intros ->. by apply Acquire_no_panic in E.
Qed.
