(* ===== verification/Rootfs.v ===== *)
(** * Root file systems

    [internal/rootfsbuilder/rootfs.go]: the chain identifier of an image, the size estimate, and
    [Store.EnsureRootfs], which builds an image's ext4 file at most once: under the file lock,
    into [rootfs/building], then renamed into [rootfs/complete]. The builder is the interface
    [RootfsImageBuilder], here a class, with the contract its clients rely on. *)

From S2P Require Import Prelude GoPath Sha256 HostFS Confine FileLaws Entries Config ContentStore Oci FileLock.
Local Open Scope Z_scope.

Definition defaultMinRootfsSize : Z := Z.shiftl 2 30.
Definition defaultExtraSize : Z := Z.shiftl 512 20.

Record Rootfs := { r_ChainID : string; r_Path : string }.

Record Metadata := {
  md_ChainID : string;
  md_ImageRef : string;
  md_ManifestDigest : string;
  md_Platform : ContentStore.Platform;
  md_DiffIDs : list string;
  md_SizeBytes : Z;
  md_FSType : string;
  md_CreatedAt : Z
}.

(** ** The chain identifier *)

Fixpoint check_diffIDs (diffIDs : list string) : outcome unit :=
  match diffIDs with
  | [] => Ok tt
  | diffID :: rest =>
      if HasPrefix diffID "sha256:" then check_diffIDs rest
      else Err (Errorf "unsupported diffID %q" [diffID])
  end.

Definition ComputeChainID (diffIDs : list string) : outcome string :=
  if decide (diffIDs = []) then Err (Errorf "image config has no rootfs diff_ids" [])
  else
    _ ← check_diffIDs diffIDs;
    Ok ("sha256:" +:+ hex_encode (Sum256 (str_join (String newline "") diffIDs))).

(** ** The size estimate, in [int64] *)

Definition estimateRootfsSize (img : PulledImage) : Z :=
  let compressedTotal := foldl (fun acc layer => wrap64 (acc + l_Size layer)) 0 (pi_Layers img) in
  let size := wrap64 (wrap64 (compressedTotal * 4) + defaultExtraSize) in
  if decide (size < defaultMinRootfsSize) then defaultMinRootfsSize else size.

(** ** The builder interface *)

(** [Build(ctx, img, outputPath, sizeBytes)] *)
Class RootfsImageBuilder := Build : context -> PulledImage -> string -> Z -> OS unit.

(** What a client relies on: the builder touches its output path only, and a file it reports as
    built is a good image of [img]. *)
Class RootfsImageBuilderLaws `{RootfsImageBuilder} (good_image : PulledImage -> vnode -> Prop) : Prop :=
  build_contract : forall ctx img path d c size w,
    abs_path path (d ++ [c]) -> wf w -> standing d w ->
    wp (Build ctx img path size) (fun o w' =>
      framed (eq (d ++ [c])) w w' /\
      match o with
      | Ok _ => exists v, view w' (d ++ [c]) = Some v /\ good_image img v
      | Err _ => True
      | Panic _ => False
      end) w.

(** A deferred function that acts only when the body did not get to its end. *)
Definition unless_ok {S A} (d : GoM S unit) (m : GoM S A) : GoM S A := fun s =>
  match m s with
  | (Ok a, s') => (Ok a, s')
  | (o, s') => (o, snd (d s'))
  end.

Section ensure.
Context `{RootfsImageBuilder} `{JSON Metadata}.
(** [s.content.Dir] *)
Variable Dir_ : string.

Definition WriteMetadata (img : PulledImage) (chainID : string) (sizeBytes : Z) : OS unit :=
  now ← gets w_now;
  WriteJSON (RootfsMetadataPath Dir_ chainID)
    {| md_ChainID := chainID; md_ImageRef := pi_Ref img; md_ManifestDigest := pi_ManifestDigest img;
       md_Platform := {| OS_ := p_OS (pi_Platform img); Architecture := p_Architecture (pi_Platform img) |};
       md_DiffIDs := DiffIDs (ic_RootFS (pi_Config img)); md_SizeBytes := sizeBytes;
       md_FSType := "ext4"; md_CreatedAt := now |}.

(** [cleanupTmp] is cleared right after the rename: the deferred removal runs when the builder
    or the rename failed. *)
Definition build (ctx : context) (img : PulledImage) (chainID completePath : string) : OS unit :=
  os_MkdirAll (Dir completePath) 493 ;;
  let buildingPath := RootfsBuildingPath Dir_ chainID in
  os_MkdirAll (Dir buildingPath) 493 ;;
  ignore (os_Remove buildingPath) ;;
  let size := estimateRootfsSize img in
  unless_ok (ignore (os_Remove buildingPath)) (
    Build ctx img buildingPath size ;;
    os_Rename buildingPath completePath) ;;
  WriteMetadata img chainID size.

Definition EnsureRootfs (ctx : context) (img : PulledImage) : OS Rootfs :=
  chainID ← lift_outcome (ComputeChainID (DiffIDs (ic_RootFS (pi_Config img))));
  let path := RootfsPath Dir_ chainID in
  st ← attempt (os_Stat path);
  match st with
  | inr _ => mret {| r_ChainID := chainID; r_Path := path |}
  | inl _ =>
      lock ← Acquire (ctx 0%nat) (LockPath Dir_ chainID);
      defer (Close lock) (
        st ← attempt (os_Stat path);
        match st with
        | inr _ => mret {| r_ChainID := chainID; r_Path := path |}
        | inl _ =>
            build ctx img chainID path ;;
            mret {| r_ChainID := chainID; r_Path := path |}
        end)
  end.
End ensure.

(** ** Chain identifiers *)

(** The value the code's own test expects. *)
Example chain_id_vector :
  ComputeChainID ["sha256:aaaaaaaaaaaaaaaaaaaaaaaaaaaaaaaaaaaaaaaaaaaaaaaaaaaaaaaaaaaaaaaa";
                  "sha256:bbbbbbbbbbbbbbbbbbbbbbbbbbbbbbbbbbbbbbbbbbbbbbbbbbbbbbbbbbbbbbbb"]
  = Ok "sha256:4ab61be5d46a66e7f659b66144d4bead5b761c247b565fa202161590dcd9e45d".
Proof. vm_compute. reflexivity. Qed.

Lemma check_diffIDs_spec diffIDs :
  match check_diffIDs diffIDs with
  | Ok _ => Forall (fun d => HasPrefix d "sha256:" = true) diffIDs
  | Err e => exists d, d ∈ diffIDs /\ HasPrefix d "sha256:" = false /\ e = Errorf "unsupported diffID %q" [d]
  | Panic _ => False
  end.
Proof.
  induction diffIDs as [|d l IH]; simpl; [done|]. destruct (HasPrefix d "sha256:") eqn:E.
  - destruct (check_diffIDs l); [by constructor| |done]. destruct IH as (x & Hx & H). exists x. split; [by apply list_elem_of_further|done].
  - exists d. split; [apply list_elem_of_here|done].
Qed.

Lemma ComputeChainID_Ok diffIDs id :
  ComputeChainID diffIDs = Ok id ->
  diffIDs <> [] /\ id = sha256_digest (str_join (String newline "") diffIDs).
Proof.
  unfold ComputeChainID, mbind, outcome_bind. case_decide; [done|].
  destruct (check_diffIDs diffIDs); [|done..]. by intros [= <-].
Qed.

Lemma ComputeChainID_hex diffIDs id :
  ComputeChainID diffIDs = Ok id -> exists enc, id = "sha256:" +:+ enc /\ str_all is_hex enc = true /\ enc <> "".
Proof.
  intros [_ ->]%ComputeChainID_Ok. eexists. split; [reflexivity|]. split; [apply digest_hex|].
  intros E%(f_equal String.length). rewrite digest_length in E. done.
Qed.

Lemma ComputeChainID_no_panic diffIDs v : ComputeChainID diffIDs <> Panic v.
Proof.
  unfold ComputeChainID, mbind, outcome_bind. case_decide; [done|].
  pose proof (check_diffIDs_spec diffIDs). by destruct (check_diffIDs diffIDs).
Qed.

(** ** Building once, visibly complete *)

Section ensure_proof.
Context `{IB : RootfsImageBuilder} {good_image : PulledImage -> vnode -> Prop}.
Context {IL : RootfsImageBuilderLaws good_image} `{IJ : JSON Metadata}.
Context (Dir_ : string) (Habs : IsAbs Dir_ = true).
Context (HnpM : forall (m : Metadata) v, json_Encode m <> Panic v).
Abbreviation dc := (snd (cpath_of Dir_)).

Definition completec : list string := dc ++ ["rootfs"; "complete"].
Definition buildingc : list string := dc ++ ["rootfs"; "building"].
Definition locksc : list string := dc ++ ["locks"].

Section image.
Context (img : PulledImage) (enc : string) (Hh : str_all is_hex enc = true) (Hne : enc <> "").
Abbreviation q := (completec ++ [enc +:+ ".ext4"]).
Abbreviation qb := (buildingc ++ [enc +:+ ".ext4.tmp"]).
Abbreviation ql := (locksc ++ [enc +:+ ".lock"]).
Abbreviation chainID := ("sha256:" +:+ enc).

Lemma suffixed_name suf : no_char slash suf = true -> is_name (enc +:+ suf).
Proof.
  intros Hs. pose proof Hne as Hne'. pose proof Hh as Hh'. destruct enc as [|a e]; [done|].
  assert (Ha : a <> "."%char) by (intros ->; done).
  split_and!; [done|intros [= ? ?]; done|intros [= ? ?]; done|].
  by rewrite no_char_app, (hex_no_char slash), Hs.
Qed.

Lemma RootfsPath_at : abs_path (RootfsPath Dir_ chainID) q.
Proof.
  unfold RootfsPath, completec. rewrite splitDigest_sha256, <- app_assoc.
  apply Join_abs_list; [done|done|]. repeat (apply Forall_cons; split; [by apply suffixed_name || by_decision|]). done.
Qed.
Lemma RootfsBuildingPath_at : abs_path (RootfsBuildingPath Dir_ chainID) qb.
Proof.
  unfold RootfsBuildingPath, buildingc. rewrite splitDigest_sha256, <- app_assoc.
  apply Join_abs_list; [done|done|]. repeat (apply Forall_cons; split; [by apply suffixed_name || by_decision|]). done.
Qed.
Lemma LockPath_at : abs_path (LockPath Dir_ chainID) ql.
Proof.
  unfold LockPath, locksc. rewrite splitDigest_sha256, <- app_assoc.
  apply Join_abs_list; [done|done|]. repeat (apply Forall_cons; split; [by apply suffixed_name || by_decision|]). done.
Qed.
Lemma RootfsMetadataPath_at : abs_path (RootfsMetadataPath Dir_ chainID) (completec ++ [enc +:+ ".json"]).
Proof.
  unfold RootfsMetadataPath, completec. rewrite splitDigest_sha256, <- app_assoc.
  apply Join_abs_list; [done|done|]. repeat (apply Forall_cons; split; [by apply suffixed_name || by_decision|]). done.
Qed.

(** The entries [EnsureRootfs] may touch: the image, its metadata and the temporary file that is
    renamed to it; the building file; the lock. *)
Definition own_name (c : string) : Prop :=
  c = enc +:+ ".ext4" \/ c = enc +:+ ".json" \/ exists k, c = temp_name ".json-" ".tmp" k.
Definition touched (p : list string) : Prop :=
  (exists c, p = completec ++ [c] /\ own_name c) \/ p = qb \/ p = ql.

(** The image's path is as before or holds a good image; nothing else but the touched entries
    has changed; the three directories stand. *)
Definition progress (w w' : world) : Prop :=
  framed touched w w' /\
  (view w' q = view w q \/ exists v, view w' q = Some v /\ good_image img v).

Definition ready_dirs (w : world) : Prop :=
  wf w /\ standing completec w /\ standing buildingc w /\ standing locksc w.

Lemma progress_trans w1 w2 w3 : progress w1 w2 -> progress w2 w3 -> progress w1 w3.
Proof.
  intros (F1 & Q1) (F2 & Q2). split; [by eapply framed_trans|].
  destruct Q2 as [Q2|?]; [|by right]. rewrite Q2. done.
Qed.

Lemma progress_same_place w w' : wf w -> same_place w w' -> progress w w'.
Proof.
  intros Hw HS. split; [by apply framed_same_place|]. destruct HS as [HS HC].
  left. by apply view_same_tree.
Qed.

Lemma touched_not_prefix D : D ∈ [completec; buildingc; locksc] -> forall p, p `prefix_of` D -> ~ touched p.
Proof.
  assert (Hb : forall A B c, A ∈ [completec; buildingc; locksc] -> B ∈ [completec; buildingc; locksc] ->
    forall p, p `prefix_of` B -> p <> A ++ [c]).
  { intros A B c HA HB p Hp. eapply entry_not_prefix; [|exact Hp]. intros [HAB Hd].
    rewrite !elem_of_cons, elem_of_nil in HA, HB.
    destruct HA as [->|[->|[->|[]]]], HB as [->|[->|[->|[]]]]; try done;
      apply prefix_app_inv in HAB; by destruct HAB. }
  intros HD p Hp [(c & -> & _)|[-> | ->]]; (eapply Hb; [| |exact Hp|reflexivity]; [|exact HD]);
    rewrite !elem_of_cons; auto.
Qed.

Lemma progress_ready w w' : progress w w' -> ready_dirs w -> ready_dirs w'.
Proof.
  intros [F _] (Hw & H1 & H2 & H3). split_and!; [apply F|..];
    (eapply framed_standing; [exact F|apply touched_not_prefix; rewrite !elem_of_cons; auto|done]).
Qed.

Lemma progress_building w w' : framed (eq qb) w w' -> progress w w'.
Proof.
  intros F. split; [eapply framed_weaken; [|exact F]; intros p <-; right; by left|].
  left. apply F. intros [E _]%app_inj_tail. by apply app_inv_head in E.
Qed.

Lemma wp_remove_building w :
  ready_dirs w ->
  wp (ignore (os_Remove (RootfsBuildingPath Dir_ chainID))) (fun o w' => progress w w' /\ o = Ok tt) w.
Proof.
  intros (Hw & S1 & S2 & S3). apply wp_ignore.
  eapply wp_mono; [|apply (wp_Remove buildingc (enc +:+ ".ext4.tmp") _ RootfsBuildingPath_at w Hw S2)].
  intros o w' (F & C & HR). destruct o; [split; [by apply progress_building|done]..|done].
Qed.

Lemma wp_unless_ok {A} (dd : OS unit) (m : OS A) (Q : outcome A -> world -> Prop) w :
  wp m (fun o w' => match o with Ok _ => Q o w' | _ => wp dd (fun _ w'' => Q o w'') w' end) w ->
  wp (unless_ok dd m) Q w.
Proof. unfold wp, unless_ok. by destruct (m w) as [[a|e|v] w']. Qed.

(** A good image replaces the target in one step. *)
Lemma wp_rename_building w v :
  ready_dirs w -> view w qb = Some v -> good_image img v ->
  wp (os_Rename (RootfsBuildingPath Dir_ chainID) (RootfsPath Dir_ chainID)) (fun o w' => progress w w' /\
    match o with Ok _ => is_Some (view w' q) | Err _ => True | Panic _ => False end) w.
Proof.
  intros Hr Hv Hg. pose proof Hr as (Hw & S1 & S2 & S3).
  eapply wp_mono; [|apply (wp_Rename buildingc (enc +:+ ".ext4.tmp") _ completec (enc +:+ ".ext4") _ w
    RootfsBuildingPath_at RootfsPath_at Hw S2 S1)].
  intros o w' (F & C & HR). destruct o as [[]|e|u]; [| |done].
  - destruct HR as [Hq _]. rewrite Hv in Hq. split; [|by rewrite Hq]. split.
    + eapply framed_weaken; [|exact F]. intros p [-> | ->]; [right; by left|left; eexists; split; [reflexivity|by left]].
    + right. eauto.
  - split; [by apply progress_same_place|done].
Qed.

Lemma wp_WriteMetadata size w :
  ready_dirs w ->
  wp (WriteMetadata Dir_ img chainID size) (fun o w' => progress w w' /\ view w' q = view w q /\
    match o with Panic _ => False | _ => True end) w.
Proof.
  intros (Hw & S1 & S2 & S3). unfold WriteMetadata. apply wp_gets.
  set (md := {| md_ChainID := _ |}).
  eapply wp_mono; [|apply (WriteJSON_result (RootfsMetadataPath Dir_ chainID) completec (enc +:+ ".json") md w Hw S1
    RootfsMetadataPath_at); apply json_not_temp].
  intros o w' [HR|[v Hv]]; [|by apply HnpM in Hv].
  destruct (atomic_only_in _ _ _ _ _ _ _ _ _ _ HR) as [Hw' _].
  assert (Hq : view w' q = view w q).
  { destruct HR as (_ & HF & _). apply HF.
    - intros [_ E]%app_inj_tail. by apply app_inj_l in E.
    - intros [k [_ E]%app_inj_tail]. unfold temp_name in E. pose proof Hh as Hh'. pose proof Hne as Hne'.
      destruct enc as [|a e]; [done|]. by injection E as -> _. }
  split_and!; [|done|].
  - split; [|by left]. split; [done|]. intros p Hp. apply (proj1 (proj2 HR)).
    + intros ->. apply Hp. left. eexists. split; [reflexivity|]. unfold own_name. eauto.
    + intros [k ->]. apply Hp. left. eexists. split; [reflexivity|]. unfold own_name. eauto.
  - destruct HR as (_ & _ & [[_ HQ]|[_ [-> _]]]); [by destruct o|done].
Qed.

Lemma wp_MkdirAll_dir path D w :
  ready_dirs w -> D ∈ [completec; buildingc; locksc] -> abs_path path D ->
  wp (os_MkdirAll path 493) (fun o w' => progress w w' /\ match o with Panic _ => False | _ => True end) w.
Proof.
  intros (Hw & S1 & S2 & S3) HD Hp.
  eapply wp_mono; [|apply (wp_MkdirAll_standing path D); [done|]].
  - intros o w' HS. destruct o; [split; [by apply progress_same_place|done]..|done].
  - rewrite !elem_of_cons, elem_of_nil in HD. by destruct HD as [->|[->|[->|[]]]].
Qed.

Lemma wp_bind_progress {A B} (m : OS A) (k : A -> OS B) (Q : outcome B -> world -> Prop) (R : A -> world -> Prop) w0 w :
  progress w0 w ->
  wp m (fun o w' => progress w w' /\ match o with Ok a => R a w' | Err _ => True | Panic _ => False end) w ->
  (forall e w', progress w0 w' -> Q (Err e) w') ->
  (forall a w', progress w0 w' -> R a w' -> wp (k a) Q w') ->
  wp (m ≫= k) Q w.
Proof.
  intros P Hm He Hk. apply wp_bind. eapply wp_mono; [|exact Hm]. intros o w' [P' HR].
  assert (progress w0 w') by (by eapply progress_trans). destruct o; cbn [wp_cont]; auto. done.
Qed.

Lemma wp_build ctx w :
  ready_dirs w ->
  wp (build Dir_ ctx img chainID (RootfsPath Dir_ chainID)) (fun o w' => progress w w' /\
    match o with Ok _ => is_Some (view w' q) | Err _ => True | Panic _ => False end) w.
Proof.
  intros Hr. unfold build.
  assert (P0 : progress w w) by (by apply progress_same_place; [apply Hr|]).
  eapply (wp_bind_progress _ _ _ (fun _ _ => True)); [exact P0| |by intros e w' ?|].
  { eapply wp_mono; [|eapply (wp_MkdirAll_dir _ completec); [done|rewrite !elem_of_cons; auto|eapply Dir_snoc, RootfsPath_at]].
    intros [] w' [? ?]; done. }
  intros _ w1 P1 _. pose proof (progress_ready _ _ P1 Hr) as R1.
  eapply (wp_bind_progress _ _ _ (fun _ _ => True)); [exact P1| |by intros e w' ?|].
  { eapply wp_mono; [|eapply (wp_MkdirAll_dir _ buildingc); [done|rewrite !elem_of_cons; auto|eapply Dir_snoc, RootfsBuildingPath_at]].
    intros [] w' [? ?]; done. }
  intros _ w2 P2 _. pose proof (progress_ready _ _ P2 Hr) as R2.
  eapply (wp_bind_progress _ _ _ (fun _ _ => True)); [exact P2| |by intros e w' ?|].
  { eapply wp_mono; [|by apply wp_remove_building]. intros o w' [? ->]. done. }
  intros _ w3 P3 _. pose proof (progress_ready _ _ P3 Hr) as R3.
  eapply (wp_bind_progress _ _ _ (fun _ w' => is_Some (view w' q))); [exact P3| |by intros e w' ?|].
  { apply wp_unless_ok.
    assert (Hclean : forall (o : outcome unit) w4, progress w3 w4 -> (forall v, o <> Panic v) ->
      wp (ignore (os_Remove (RootfsBuildingPath Dir_ chainID))) (fun _ w' => progress w3 w' /\
        match o with Ok _ => is_Some (view w' q) | Err _ => True | Panic _ => False end) w4 \/ is_Ok o = true).
    { intros o w4 P4 Ho. destruct o as [[]|e|v]; [by right|left|by destruct (Ho v)].
      eapply wp_mono; [|apply wp_remove_building; by eapply progress_ready].
      intros o' w' [P' _]. split; [by eapply progress_trans|done]. }
    apply wp_bind. pose proof R3 as (Hw3 & S1 & S2 & S3).
    eapply wp_mono; [|eapply build_contract; [apply RootfsBuildingPath_at|done|done]].
    intros o w4 [F HR]. pose proof (progress_building _ _ F) as P4.
    destruct o as [[]|e|v]; cbn [wp_cont]; [|by destruct (Hclean (Err e) w4 P4)|done].
    destruct HR as (v & Hv & Hg).
    eapply wp_mono; [|eapply wp_rename_building; [by eapply progress_ready|done..]].
    intros o w5 [P5 HR]. assert (P5' : progress w3 w5) by (by eapply progress_trans).
    destruct o as [[]|e|u]; [by split|by destruct (Hclean (Err e) w5 P5')|done]. }
  intros _ w4 P4 Hq. pose proof (progress_ready _ _ P4 Hr) as R4.
  eapply wp_mono; [|by apply wp_WriteMetadata]. intros o w5 (P5 & E5 & Ho).
  split; [by eapply progress_trans|]. rewrite E5. by destruct o.
Qed.

Lemma wp_Acquire ctx w :
  ready_dirs w -> (forall t m, w_nodes w !! ql <> Some (NSymlink t m)) ->
  wp (Acquire ctx (LockPath Dir_ chainID)) (fun o w' => progress w w' /\
    match o with Panic _ => False | _ => True end) w.
Proof.
  intros Hr Hl. pose proof Hr as (Hw & S1 & S2 & S3).
  enough (HP : wp (Acquire ctx (LockPath Dir_ chainID)) (fun _ w' => progress w w') w).
  { unfold wp in *. destruct (Acquire ctx (LockPath Dir_ chainID) w) as [[i|e|v] w'] eqn:E; [done|done|].
    by apply Acquire_no_panic in E. }
  unfold Acquire. apply wp_bind.
  eapply wp_mono; [|apply (wp_MkdirAll_standing _ locksc); [eapply Dir_snoc, LockPath_at|done]].
  intros o w1 HS. destruct o as [[]|e|v]; cbn [wp_cont]; [|by apply progress_same_place|done].
  pose proof (progress_same_place _ _ Hw HS) as P1. pose proof HS as [(E1 & _) _].
  pose proof (progress_ready _ _ P1 Hr) as (Hw1 & T1 & T2 & T3).
  apply wp_bind. eapply wp_mono; [|apply (wp_open_keep locksc (enc +:+ ".lock") _ LockPath_at); [done|done|done|by rewrite E1]].
  intros o w2 (F & _).
  assert (P2 : progress w w2).
  { eapply progress_trans; [exact P1|]. split; [eapply framed_weaken; [|exact F]; intros p <-; right; by right|].
    left. apply F. intros [E _]%app_inj_tail. by apply app_inv_head in E. }
  destruct o as [file|e|v]; cbn [wp_cont]; [|done..]. apply wp_bind. unfold wp at 1, get_state. cbn [wp_cont fst snd].
  pose proof (acquire_loop_same_place (acquire_fuel w2) 0 ctx (LockPath Dir_ chainID) file w2) as HL'.
  eapply progress_trans; [exact P2|]. apply progress_same_place; [apply P2|exact HL'].
Qed.

Lemma wp_locked ctx w :
  ready_dirs w ->
  wp (st ← attempt (os_Stat (RootfsPath Dir_ chainID));
      match st with
      | inr _ => mret {| r_ChainID := chainID; r_Path := RootfsPath Dir_ chainID |}
      | inl _ => build Dir_ ctx img chainID (RootfsPath Dir_ chainID) ;;
                 mret {| r_ChainID := chainID; r_Path := RootfsPath Dir_ chainID |}
      end) (fun o w' => progress w w' /\
    match o with
    | Ok r => r = {| r_ChainID := chainID; r_Path := RootfsPath Dir_ chainID |} /\ is_Some (view w' q)
    | Err _ => True
    | Panic _ => False
    end) w.
Proof.
  intros Hr. pose proof Hr as (Hw & S1 & _). apply wp_bind, wp_attempt.
  eapply wp_mono; [|apply (wp_Stat completec (enc +:+ ".ext4")); [apply RootfsPath_at|done]].
  intros o w1 [HS HR]. pose proof (progress_same_place _ _ Hw HS) as P1.
  destruct o as [info|e|v]; cbn [wp_cont]; [| |done].
  - apply wp_ret. split; [done|]. split; [done|]. destruct HS as [HS _]. rewrite (view_same_tree _ _ _ HS).
    by apply view_is_Some.
  - apply wp_bind. eapply wp_mono; [|apply wp_build; by eapply progress_ready].
    intros o w2 [P2 HR2]. assert (P12 : progress w w2) by (by eapply progress_trans).
    destruct o as [[]|e'|v]; cbn [wp_cont]; [|done..]. apply wp_ret. done.
Qed.

Lemma wp_EnsureRootfs ctx w :
  ComputeChainID (DiffIDs (ic_RootFS (pi_Config img))) = Ok chainID ->
  ready_dirs w -> (forall t m, w_nodes w !! ql <> Some (NSymlink t m)) ->
  wp (EnsureRootfs Dir_ ctx img) (fun o w' => progress w w' /\
    match o with
    | Ok rootfs => rootfs = {| r_ChainID := chainID; r_Path := RootfsPath Dir_ chainID |} /\ is_Some (view w' q)
    | Err _ => True
    | Panic _ => False
    end) w.
Proof.
  intros Hid Hr Hl.
  unfold EnsureRootfs. rewrite Hid. apply wp_bind, wp_lift. cbn [wp_cont].
  pose proof Hr as (Hw & S1 & _). apply wp_bind, wp_attempt.
  eapply wp_mono; [|apply (wp_Stat completec (enc +:+ ".ext4")); [apply RootfsPath_at|done]].
  intros o w1 [HS HR]. pose proof (progress_same_place _ _ Hw HS) as P1.
  destruct o as [info|e|v]; cbn [wp_cont]; [| |done].
  - apply wp_ret. split; [done|]. split; [done|]. destruct HS as [HS _]. rewrite (view_same_tree _ _ _ HS).
    by apply view_is_Some.
  - pose proof (progress_ready _ _ P1 Hr) as R1. apply wp_bind.
    eapply wp_mono; [|apply (wp_Acquire (ctx 0%nat) w1 R1)]; [|by destruct HS as [(-> & _) _]].
    intros o w2 [P2 HR2]. assert (P12 : progress w w2) by (by eapply progress_trans).
    destruct o as [lock|e'|v]; cbn [wp_cont]; [|done..].
    apply wp_defer. eapply wp_mono; [|apply (wp_locked ctx w2); by eapply progress_ready].
    intros o w3 [P3 HR3]. assert (P13 : progress w w3) by (by eapply progress_trans).
    eapply wp_mono; [|apply (wp_same_place (Close lock)); auto with go_preserves go_no_panic].
    intros o' w4 [HS4 HR4].
    assert (P14 : progress w w4).
    { eapply progress_trans; [exact P13|]. apply progress_same_place; [apply P13|done]. }
    destruct HS4 as [HS4 _].
    assert (HQ : match o with
      | Ok rootfs => rootfs = {| r_ChainID := "sha256:" +:+ enc; r_Path := RootfsPath Dir_ ("sha256:" +:+ enc) |}
                    /\ is_Some (view w4 q)
      | Err _ => True
      | Panic _ => False
      end) by (destruct o; [rewrite (view_same_tree _ _ _ HS4)|..]; done).
    by destruct o'.
Qed.
End image.
End ensure_proof.

(** C2: A root file system image appears whole or not at all. Under every schedule of failing
    calls, of lock contention and of context ends, [EnsureRootfs] leaves the image's final path
    as it was or holding an image its builder completed; it changes nothing but that path, the
    image's building path, its lock file, its metadata and the temporary file that becomes it; when it succeeds it
    returns the chain identifier's path and there is an image there. The builder is any
    implementation of the interface that touches only its output path and completes what it
    reports as built. *)
Theorem EnsureRootfs_atomic `{IB : RootfsImageBuilder} good_image `{IL : !RootfsImageBuilderLaws good_image}
    `{IJ : JSON Metadata} Dir_ ctx img enc w :
  IsAbs Dir_ = true -> (forall (m : Metadata) v, json_Encode m <> Panic v) ->
  ComputeChainID (DiffIDs (ic_RootFS (pi_Config img))) = Ok ("sha256:" +:+ enc) ->
  ready_dirs Dir_ w -> (forall t m, w_nodes w !! (locksc Dir_ ++ [enc +:+ ".lock"]) <> Some (NSymlink t m)) ->
  let q := completec Dir_ ++ [enc +:+ ".ext4"] in
  let r := EnsureRootfs Dir_ ctx img w in
  (view (snd r) q = view w q \/ exists v, view (snd r) q = Some v /\ good_image img v)
  /\ framed (touched Dir_ enc) w (snd r)
  /\ match fst r with
     | Ok rootfs => rootfs = {| r_ChainID := "sha256:" +:+ enc; r_Path := RootfsPath Dir_ ("sha256:" +:+ enc) |}
                    /\ is_Some (view (snd r) q)
     | Err _ => True
     | Panic _ => False
     end.
Proof.
  intros Ha HnpM Hid Hr Hl q r.
  assert (Henc : str_all is_hex enc = true /\ enc <> "").
  { destruct (ComputeChainID_hex _ _ Hid) as (e & E & H1 & H2). by apply (app_inj_l "sha256:") in E as ->. }
  destruct Henc as [Hh Hne].
  destruct (wp_EnsureRootfs (IL := IL) Dir_ Ha HnpM img enc Hh Hne ctx w Hid Hr Hl) as [[HF HQ] HR]. done.
Qed.

(** A builder of empty files, for the witness. *)
Definition demo_builder : RootfsImageBuilder := fun ctx img path size =>
  _ ← os_open path {| o_creat := true; o_excl := true; o_trunc := false; o_nofollow := false |} 420; mret tt.
Definition demo_Metadata : JSON Metadata :=
  {| json_Encode := fun m => Ok (md_ChainID m); json_Decode := fun _ => Err Canceled |}.

Lemma demo_builder_laws : @RootfsImageBuilderLaws demo_builder (fun _ _ => True).
Proof.
  intros ctx img path d c size w Hp Hw Hst. unfold Build, demo_builder. apply wp_bind.
  eapply wp_mono; [|apply (wp_open_keep d c path Hp); done].
  intros o w' (F & _ & HR). destruct o; cbn [wp_cont]; [|done..]. apply wp_ret. split; [done|].
  destruct HR as [v Hv]. eauto.
Qed.

Definition demo_pulled : PulledImage := {|
  pi_Ref := "alpine"; pi_ManifestDigest := abc_digest; pi_ConfigDigest := abc_digest; pi_Config := demo_config;
  pi_Layers := []; pi_Platform := {| p_OS := "linux"; p_Architecture := "amd64" |} |}.
Definition demo_rootfs_world : world :=
  with_dirs ["/s/rootfs/complete"; "/s/rootfs/building"; "/s/locks"] empty_world.
Definition demo_enc : string := Eval vm_compute in hex_encode (Sum256 "sha256:d").
Definition demo_ensure : outcome Rootfs * world :=
  @EnsureRootfs demo_builder demo_Metadata "/s" (fun _ _ => None) demo_pulled demo_rootfs_world.

Lemma EnsureRootfs_atomic_witness :
  is_Ok (fst demo_ensure) = true
  /\ framed (touched "/s" demo_enc) demo_rootfs_world (snd demo_ensure).
Proof.
  split; [vm_compute; reflexivity|]. unfold demo_ensure.
  pose proof (@EnsureRootfs_atomic demo_builder (fun _ _ => True) demo_builder_laws demo_Metadata "/s" (fun _ _ => None)
    demo_pulled demo_enc demo_rootfs_world) as H.
  cbv zeta in H. destruct H as (_ & H & _).
  - reflexivity.
  - intros m v. discriminate.
  - vm_compute. reflexivity.
  - split_and!; [apply wf_check_sound; vm_compute; reflexivity|apply standing_check_ok; vm_compute; reflexivity..].
  - intros t m. vm_compute. discriminate.
  - exact H.
Defined.

Lemma str_join_newline_inj a b :
  a <> [] -> b <> [] ->
  Forall (fun d => no_char newline d = true) a -> Forall (fun d => no_char newline d = true) b ->
  str_join (String newline "") a = str_join (String newline "") b -> a = b.
Proof. apply str_join_inj. Qed.

(** The chain identifier is the sha256 of the newline-joined diffIDs; it is given exactly to
    the non-empty lists of sha256 diffIDs, and two lists of diffIDs without newlines that share
    an identifier are equal, unless their joins are an explicit sha256 collision. *)
Theorem ComputeChainID_identifies a b id :
  ComputeChainID a = Ok id -> ComputeChainID b = Ok id ->
  Forall (fun d => no_char newline d = true) a -> Forall (fun d => no_char newline d = true) b ->
  a = b \/ exists s t, s <> t /\ Sum256 s = Sum256 t
    /\ s = str_join (String newline "") a /\ t = str_join (String newline "") b.
Proof.
  intros [Ha ->]%ComputeChainID_Ok [Hb E]%ComputeChainID_Ok Na Nb. apply sha256_digest_inj in E.
  destruct (decide (str_join (String newline "") a = str_join (String newline "") b)) as [Ej|Ej].
  - left. by apply str_join_newline_inj.
  - right. eexists _, _. split_and!; [exact Ej|exact E|done|done].
Qed.

Lemma ComputeChainID_identifies_witness :
  ["sha256:d"] = ["sha256:d"] \/ exists s t, s <> t /\ Sum256 s = Sum256 t
    /\ s = str_join (String newline "") ["sha256:d"] /\ t = str_join (String newline "") ["sha256:d"].
Proof.
  apply (ComputeChainID_identifies ["sha256:d"] ["sha256:d"] ("sha256:" +:+ demo_enc)).
  - vm_compute. reflexivity.
  - vm_compute. reflexivity.
  - repeat constructor.
  - repeat constructor.
Defined.

(** The exact size, without wrap-around. *)
Definition exact_size (img : PulledImage) : Z :=
  Z.max defaultMinRootfsSize (4 * foldr (fun layer acc => l_Size layer + acc) 0 (pi_Layers img) + defaultExtraSize).

Lemma total_no_wrap ls acc :
  0 <= acc -> Forall (fun l => 0 <= l_Size l) ls ->
  acc + foldr (fun layer acc => l_Size layer + acc) 0 ls < 2 ^ 63 ->
  foldl (fun acc layer => wrap64 (acc + l_Size layer)) acc ls = acc + foldr (fun layer acc => l_Size layer + acc) 0 ls.
Proof.
  intros Ha H. revert acc Ha. induction H as [|l ls Hl Hls IH]; intros acc Ha Hb; simpl in *; [lia|].
  assert (0 <= foldr (fun layer acc => l_Size layer + acc) 0 ls) by (clear -Hls; induction Hls; simpl; lia).
  rewrite wrap64_id by (unfold in_int64, int64_min, int64_max; lia). rewrite IH; lia.
Qed.

(** The size estimate is four times the compressed layers plus 512 MiB, and never below 2 GiB:
    exactly so while the layers' total is below 2^61 - 2^27 bytes, beyond which int64 wraps; and
    for every input the result is an int64 of at least 2 GiB. *)
Theorem estimateRootfsSize_exact img :
  defaultMinRootfsSize <= estimateRootfsSize img <= int64_max
  /\ (Forall (fun l => 0 <= l_Size l) (pi_Layers img) ->
      foldr (fun layer acc => l_Size layer + acc) 0 (pi_Layers img) < 2 ^ 61 - 2 ^ 27 ->
      estimateRootfsSize img = exact_size img).
Proof.
  assert (Hmin : defaultMinRootfsSize = 2 ^ 31) by reflexivity.
  assert (Hext : defaultExtraSize = 2 ^ 29) by reflexivity.
  split.
  - unfold estimateRootfsSize. case_decide as Hd; [rewrite Hmin; unfold int64_max; lia|].
    pose proof (wrap64_range (wrap64 (foldl (fun acc layer => wrap64 (acc + l_Size layer)) 0 (pi_Layers img) * 4) + defaultExtraSize)) as Hr.
    unfold in_int64 in Hr. lia.
  - intros Hp Hs. unfold estimateRootfsSize, exact_size.
    set (total := foldr _ _ _) in *.
    assert (0 <= total) by (unfold total; clear -Hp; induction Hp; simpl; lia).
    rewrite total_no_wrap by (done || fold total; lia). fold total.
    rewrite (wrap64_id ((0 + total) * 4)) by (unfold in_int64, int64_min, int64_max; lia).
    rewrite wrap64_id by (unfold in_int64, int64_min, int64_max; lia).
    case_decide; lia.
Qed.

(** Beyond the bound the product wraps and the estimate falls back to the minimum. *)
Example estimate_wraps :
  estimateRootfsSize {| pi_Ref := ""; pi_ManifestDigest := ""; pi_ConfigDigest := ""; pi_Config := demo_config;
    pi_Layers := [{| l_Digest := ""; l_DiffID := ""; l_MediaType := ""; l_CompressedBlobPath := ""; l_Size := 2 ^ 61 |}];
    pi_Platform := {| p_OS := ""; p_Architecture := "" |} |} = defaultMinRootfsSize.
Proof. reflexivity. Qed.
