(* ===== verification/RootfsConcurrency.v ===== *)
(** * Concurrent builds of one root file system

    [Rootfs] shows what one run of [EnsureRootfs] does; here several processes run it at once on
    the same chain identifier. The state has what they share (the lock, the file under
    [rootfs/building], the file under [rootfs/complete]) and where each process is in
    [EnsureRootfs] and [build] ([rootfs.go]); a step is one process going from one shared call to
    the next, any call may fail, and a process may be killed anywhere: the kernel then drops its
    lock and its half-written file stays. *)

From S2P Require Import Prelude.

(** Where a process is: the next shared call of [EnsureRootfs] or [build] it makes. *)
Inductive pc :=
| FirstStat          (* os.Stat(path) without the lock *)
| Acquiring          (* filelock.Acquire *)
| SecondStat         (* os.Stat(path) under the lock *)
| Removing           (* os.Remove(buildingPath), and the building file is created *)
| Building           (* s.builder.Build *)
| Renaming           (* os.Rename(buildingPath, completePath) *)
| WritingMetadata    (* s.WriteMetadata *)
| Closing (ok : bool) (* lock.Close *)
| Returned (ok : bool)
| Killed.

#[export] Instance pc_eq_dec : EqDecision pc.
Proof. solve_decision. Defined.

(** A file on its way: who writes it, and whether it is whole. *)
Record file := File { f_writer : nat; f_whole : bool }.

Record state := State {
  holder : option nat;
  building : option file;
  complete : option file;
  renames : nat;              (* how many times an image was published *)
  bad_stats : nat;            (* how many stats under the lock failed on a file that is there *)
  procs : nat -> pc
}.

Definition set_pc (p : nat) (x : pc) (f : nat -> pc) : nat -> pc :=
  fun q => if decide (q = p) then x else f q.

Definition initial : state := State None None None 0 0 (fun _ => FirstStat).

(** The sections between [Acquire] and [Close]. *)
Definition critical (x : pc) : bool :=
  match x with
  | SecondStat | Removing | Building | Renaming | WritingMetadata | Closing _ => true
  | _ => false
  end.

(** The process ends the call it was at and goes to [x]; nothing shared changes. *)
Definition goto (p : nat) (x : pc) (s : state) : state :=
  State (holder s) (building s) (complete s) (renames s) (bad_stats s) (set_pc p x (procs s)).

Inductive step : state -> state -> Prop :=
| step_first_hit p s :
    procs s p = FirstStat -> is_Some (complete s) -> step s (goto p (Returned true) s)
| step_first_miss p s :
    procs s p = FirstStat -> step s (goto p Acquiring s)   (* no file, or Stat fails *)
| step_acquire p s :
    procs s p = Acquiring -> holder s = None ->
    step s (State (Some p) (building s) (complete s) (renames s) (bad_stats s) (set_pc p SecondStat (procs s)))
| step_give_up p s :
    procs s p = Acquiring -> step s (goto p (Returned false) s)
| step_second_hit p s :
    procs s p = SecondStat -> is_Some (complete s) -> step s (goto p (Closing true) s)
| step_second_miss p s :
    procs s p = SecondStat -> complete s = None -> step s (goto p Removing s)
| step_second_bad p s :    (* the file is there, but Stat fails: it is built again *)
    procs s p = SecondStat -> is_Some (complete s) ->
    step s (State (holder s) (building s) (complete s) (renames s) (S (bad_stats s)) (set_pc p Removing (procs s)))
| step_start p s :
    procs s p = Removing ->
    step s (State (holder s) (Some (File p false)) (complete s) (renames s) (bad_stats s) (set_pc p Building (procs s)))
| step_built p s :
    procs s p = Building ->
    step s (State (holder s) (Some (File p true)) (complete s) (renames s) (bad_stats s) (set_pc p Renaming (procs s)))
| step_publish p f s :
    procs s p = Renaming -> building s = Some f ->
    step s (State (holder s) None (Some f) (S (renames s)) (bad_stats s) (set_pc p WritingMetadata (procs s)))
| step_fail p s :    (* MkdirAll, Build or Rename fails: the deferred removal, which may fail too *)
    procs s p = Removing \/ procs s p = Building \/ procs s p = Renaming ->
    forall left_over, left_over = building s \/ left_over = None ->
    step s (State (holder s) left_over (complete s) (renames s) (bad_stats s) (set_pc p (Closing false) (procs s)))
| step_metadata p ok s :
    procs s p = WritingMetadata -> step s (goto p (Closing ok) s)
| step_close p ok s :
    procs s p = Closing ok ->
    step s (State None (building s) (complete s) (renames s) (bad_stats s) (set_pc p (Returned ok) (procs s)))
| step_kill p s :
    step s (State (if decide (holder s = Some p) then None else holder s) (building s) (complete s)
              (renames s) (bad_stats s) (set_pc p Killed (procs s))).

Inductive reachable : state -> Prop :=
| reach_initial : reachable initial
| reach_step s s' : reachable s -> step s s' -> reachable s'.

(** ** The invariant *)

Definition before_publish (x : pc) : bool :=
  match x with Removing | Building | Renaming => true | _ => false end.

Record inv (s : state) : Prop := {
  inv_holder : forall p, holder s = Some p <-> critical (procs s p) = true;
  inv_nothing : forall p, before_publish (procs s p) = true -> renames s <= bad_stats s;
  inv_whole : forall p, procs s p = Renaming -> building s = Some (File p true);
  inv_complete : forall f, complete s = Some f -> f_whole f = true;
  inv_none : complete s = None <-> renames s = 0;
  inv_renames : renames s <= S (bad_stats s)
}.

Lemma set_pc_eq p x f : set_pc p x f p = x.
Proof. unfold set_pc. by rewrite decide_True. Qed.
Lemma set_pc_ne p q x f : q <> p -> set_pc p x f q = f q.
Proof. intros. unfold set_pc. by rewrite decide_False. Qed.

(** Only the holder is in a critical section. *)
Lemma inv_alone s p q :
  inv s -> critical (procs s p) = true -> critical (procs s q) = true -> p = q.
Proof. intros Hi Hp%(inv_holder s Hi) Hq%(inv_holder s Hi). congruence. Qed.

Lemma before_publish_critical x : before_publish x = true -> critical x = true.
Proof. by destruct x. Qed.

(** Moving one process within its side of the lock, with nothing shared changed but the
    building file, keeps the invariant. *)
Lemma inv_move s p x b k :
  inv s -> critical x = critical (procs s p) -> bad_stats s <= k ->
  (before_publish x = true -> renames s <= k) ->
  (x = Renaming -> b = Some (File p true)) ->
  (forall q, q <> p -> procs s q = Renaming -> b = building s) ->
  inv (State (holder s) b (complete s) (renames s) k (set_pc p x (procs s))).
Proof.
  intros [I1 I2 I3 I4 I5 I6] Hc Hk Hb Hw Ho. split; simpl; [| | |done|done|lia].
  - intros q. destruct (decide (q = p)) as [->|Hne]; [rewrite set_pc_eq, Hc|rewrite set_pc_ne by done]; apply I1.
  - intros q. destruct (decide (q = p)) as [->|Hne]; [rewrite set_pc_eq; auto|rewrite set_pc_ne by done].
    intros Hq%I2. lia.
  - intros q. destruct (decide (q = p)) as [->|Hne]; [rewrite set_pc_eq; auto|rewrite set_pc_ne by done].
    intros Hq. rewrite (Ho q Hne Hq). by apply I3.
Qed.

(** In a critical section no other process is about to publish. *)
Lemma no_other_renaming s p q (P : Prop) :
  inv s -> critical (procs s p) = true -> q <> p -> procs s q = Renaming -> P.
Proof.
  intros Hi Hp Hne Hq. exfalso. apply Hne. eapply inv_alone; [done| |done]. by rewrite Hq.
Qed.

Lemma inv_step s s' : inv s -> step s s' -> inv s'.
Proof.
  intros Hi Hs. pose proof Hi as [I1 I2 I3 I4 I5 I6]. inversion Hs as
    [p s1 Hp Hc|p s1 Hp|p s1 Hp Hh|p s1 Hp|p s1 Hp Hc|p s1 Hp Hc|p s1 Hp Hc|p s1 Hp|p s1 Hp|p f s1 Hp Hf
    |p s1 Hp lo Hlo|p ok s1 Hp|p ok s1 Hp|p s1];
    subst s1 s'; unfold goto.
  - apply inv_move; rewrite ?Hp; done.
  - apply inv_move; rewrite ?Hp; done.
  - split; simpl; [| | |done|done|done]; intros q; destruct (decide (q = p)) as [->|Hne];
      rewrite ?set_pc_eq, ?set_pc_ne by done; try done; [|apply I2|apply I3].
    split; [congruence|]. intros Hq%I1. congruence.
  - apply inv_move; rewrite ?Hp; done.
  - apply inv_move; rewrite ?Hp; done.
  - apply inv_move; rewrite ?Hp; try done. intros _. apply I5 in Hc. lia.
  - apply inv_move; rewrite ?Hp; try done. lia.
  - apply inv_move; rewrite ?Hp; try done; [intros _; apply (I2 p); by rewrite Hp|].
    intros q Hne Hq. eapply no_other_renaming; [done| |done|done]. by rewrite Hp.
  - apply inv_move; rewrite ?Hp; try done; [intros _; apply (I2 p); by rewrite Hp|].
    intros q Hne Hq. eapply no_other_renaming; [done| |done|done]. by rewrite Hp.
  - assert (Hle : renames s <= bad_stats s) by (apply (I2 p); by rewrite Hp).
    assert (Halone : forall q, q <> p -> critical (procs s q) = false).
    { intros q Hne. destruct (critical (procs s q)) eqn:E; [|done]. exfalso. apply Hne.
      eapply inv_alone; [done|done|by rewrite Hp]. }
    rewrite (I3 p Hp) in Hf. injection Hf as <-. split; simpl; [| | | |done|lia].
    + intros q. destruct (decide (q = p)) as [->|Hne]; rewrite ?set_pc_eq, ?set_pc_ne by done; [|apply I1].
      rewrite I1, Hp. done.
    + intros q. destruct (decide (q = p)) as [->|Hne]; rewrite ?set_pc_eq, ?set_pc_ne by done; [done|].
      intros Hq%before_publish_critical. by rewrite Halone in Hq.
    + intros q. destruct (decide (q = p)) as [->|Hne]; rewrite ?set_pc_eq, ?set_pc_ne by done; [done|].
      intros Hq. pose proof (Halone q Hne) as Hf. by rewrite Hq in Hf.
    + by intros f [= <-].
  - apply inv_move; [done|by destruct Hp as [-> | [-> | ->]]|done|done|done|].
    intros q Hne Hq. eapply no_other_renaming; [done| |done|done]. by destruct Hp as [-> | [-> | ->]].
  - apply inv_move; rewrite ?Hp; done.
  - split; simpl; [| | |done|done|done]; intros q; destruct (decide (q = p)) as [->|Hne];
      rewrite ?set_pc_eq, ?set_pc_ne by done; try done; [|apply I2|apply I3].
    split; [done|]. intros Hq. exfalso. apply Hne. eapply inv_alone; [done|done|by rewrite Hp].
  - split; simpl; [| | |done|done|done]; intros q; destruct (decide (q = p)) as [->|Hne];
      rewrite ?set_pc_eq, ?set_pc_ne by done; try done; [..|apply I2|apply I3].
    + case_decide; [done|]. simpl. split; [congruence|done].
    + case_decide as Hh; [|apply I1]. split; [done|]. intros Hq%I1. congruence.
Qed.

Lemma inv_reachable s : reachable s -> inv s.
Proof.
  induction 1 as [|s s' _ IH Hs]; [|by eapply inv_step].
  split; simpl; try done. lia.
Qed.

(** ** What concurrent builds promise *)

(** C8: However many processes ask for the same image at once, whatever fails and whoever is
    killed: at most one is between acquiring and closing the lock; a file at the image's final
    path is always whole, and only a whole file replaces it; it is published once, and once more
    for each stat under the lock that failed on a published file, so that while none did it never
    changes again. *)
Theorem concurrent_builds_safe s :
  reachable s ->
  (forall p q, critical (procs s p) = true -> critical (procs s q) = true -> p = q)
  /\ (forall f, complete s = Some f -> f_whole f = true)
  /\ renames s <= 1 + bad_stats s
  /\ (forall s' f, step s s' -> complete s = Some f -> bad_stats s = 0 -> complete s' = Some f).
Proof.
  intros Hr. pose proof (inv_reachable s Hr) as Hi. split_and!; [| |apply Hi|].
  - intros p q. by apply inv_alone.
  - apply Hi.
  - intros s' f Hs Hf Hb. inversion Hs as
      [| | | | | | | | |p f1 s1 Hp| | | |]; subst; simpl; try done.
    pose proof (inv_nothing s Hi p) as Hn. rewrite Hp in Hn. specialize (Hn eq_refl).
    assert (Hc : complete s = None) by (apply Hi; lia). congruence.
Qed.

#[local] Ltac advance H r := eapply reach_step in H; [|eapply r; reflexivity].

(** A run with two processes: the first is killed while it builds, the second builds and
    publishes. *)
Lemma demo_run : exists s, reachable s /\ renames s = 1 /\ procs s 0 = Killed.
Proof.
  pose proof reach_initial as H. eexists. split; [|split].
  - advance H (step_first_miss 0). advance H (step_first_miss 1). advance H (step_acquire 0).
    advance H (step_second_miss 0). advance H (step_start 0). advance H (step_kill 0).
    advance H (step_acquire 1). advance H (step_second_miss 1). advance H (step_start 1).
    advance H (step_built 1). advance H (step_publish 1). exact H.
  - reflexivity.
  - reflexivity.
Qed.

Lemma concurrent_builds_safe_witness :
  exists s, reachable s /\ renames s = 1
    /\ (forall p q, critical (procs s p) = true -> critical (procs s q) = true -> p = q).
Proof.
  destruct demo_run as (s & Hr & Hn & _). exists s. split; [exact Hr|]. split; [exact Hn|].
  apply (concurrent_builds_safe s). exact Hr.
Defined.
