(* ===== verification/Diskfs.v ===== *)
(** * Building the ext4 image in process

    [internal/rootfsbuilder/pure_ext4.go]: [PureGoExt4Builder] makes an ext4 file system in a
    file and applies an image's layers to it through the go-diskfs library. The library is the
    class [Ext4]; the applier keeps the set of symbolic links it made ([Symlinks]) and consults
    it instead of the file system, which is what the theorems are about. *)

From S2P Require Import Prelude GoPath Sha256 HostFS Confine FileLaws Entries Config ContentStore Oci Layer Rootfs.

(** ** The library: [ext4.FileSystem] of go-diskfs

    A mounted file system has driver state [FS] and writes the host file it lives in; every call
    may return an error or panic. *)
Class Ext4 (FS : Type) := {
  fs_Stat : string -> GoM (FS * world) bool;                 (* info.IsDir() *)
  fs_Mkdir : string -> GoM (FS * world) unit;
  fs_OpenFile : string -> bool -> GoM (FS * world) nat;      (* O_CREATE|O_RDWR, and O_TRUNC? *)
  fs_Write : nat -> string -> GoM (FS * world) unit;
  fs_CloseFile : nat -> GoM (FS * world) unit;
  fs_ReadFile : string -> GoM (FS * world) string;
  fs_ReadLink : string -> GoM (FS * world) string;
  fs_Symlink : string -> string -> GoM (FS * world) unit;
  fs_Remove : string -> GoM (FS * world) unit;
  fs_ReadDir : string -> GoM (FS * world) (list (string * bool));   (* entry.Name(), entry.IsDir() *)
  fs_Chmod : string -> Z -> GoM (FS * world) unit;
  fs_Chown : string -> Z -> Z -> GoM (FS * world) unit;
  fs_Close : GoM (FS * world) unit
}.

(** [file.CreateFromPath] and [ext4.Create]. *)
Class Ext4Disk (FS Storage : Type) := {
  file_CreateFromPath : string -> Z -> OS Storage;
  storage_Close : Storage -> OS unit;
  ext4_Create : Storage -> Z -> OS FS
}.

(** ** Names inside the image *)

Definition filepathSlash (name : string) : string :=
  str_map (fun c => if decide (c = backslash) then "/"%char else c) name.

Definition fsPath (name : string) : string :=
  let clean := Clean (filepathSlash name) in
  if bool_decide (clean = "/") || bool_decide (clean = "") then "."
  else TrimPrefix clean "/".

(** ** The applier *)

(** [DiskfsLayerApplier]: its file system, the host below it, and its map [Symlinks], which
    only ever holds [true]. *)
Record applier (FS : Type) := Applier { a_FS : FS; a_host : world; a_Symlinks : gset string }.
Arguments Applier {FS} _ _ _.
Arguments a_FS {FS} _.
Arguments a_host {FS} _.
Arguments a_Symlinks {FS} _.

Section applier_code.
Context {FS : Type} `{Ext4 FS}.
Abbreviation DM := (GoM (applier FS)).

Definition on_fs {A} (m : GoM (FS * world) A) : DM A := fun a =>
  let '(o, (f, w)) := m (a_FS a, a_host a) in (o, Applier f w (a_Symlinks a)).
Definition on_host {A} (m : OS A) : DM A := fun a =>
  let '(o, w) := m (a_host a) in (o, Applier (a_FS a) w (a_Symlinks a)).

(** [a.Symlinks[p]], [a.Symlinks[p] = true], [delete(a.Symlinks, p)] *)
Definition is_link (p : string) : DM bool := gets (fun a => bool_decide (p ∈ a_Symlinks a)).
Definition mark_link (p : string) : DM unit :=
  modify (fun a => Applier (a_FS a) (a_host a) ({[p]} ∪ a_Symlinks a)).
Definition unmark_link (p : string) : DM unit :=
  modify (fun a => Applier (a_FS a) (a_host a) (a_Symlinks a ∖ {[p]})).

(** [current] grows by [part]; it starts empty. *)
Definition next_path (current part : string) : string :=
  if decide (current = "") then part else Join [current; part].

Fixpoint check_links (current : string) (parts : list string) : DM unit :=
  match parts with
  | [] => mret tt
  | part :: parts' =>
      let current := next_path current part in
      l ← is_link current;
      if (l : bool) then fail (Errorf "symlink parent %q" [current]) else check_links current parts'
  end.

Definition ensureNoSymlinkParents (target : string) : DM unit :=
  let dir := Dir (Clean target) in
  if decide (dir = "/" \/ dir = ".") then mret tt
  else check_links "" (psplit (TrimPrefix dir "/")).

Fixpoint mkdir_parts (current : string) (parts : list string) : DM unit :=
  match parts with
  | [] => mret tt
  | part :: parts' =>
      let current := next_path current part in
      st ← attempt (on_fs (fs_Stat current));
      match st with
      | inr _ => mkdir_parts current parts'
      | inl _ =>
          r ← attempt (on_fs (fs_Mkdir current));
          match r with
          | inr _ => mkdir_parts current parts'
          | inl err =>
              st' ← attempt (on_fs (fs_Stat current));
              match st' with
              | inr _ => mkdir_parts current parts'
              | inl _ => fail (Wrapf "mkdir %q: %w" [current] err)
              end
          end
      end
  end.

Definition mkdirAll (target : string) : DM unit :=
  let target := Clean target in
  if decide (target = "/" \/ target = ".") then mret tt
  else mkdir_parts "" (psplit (TrimPrefix target "/")).

(** [errors.Is(err, fs.ErrNotExist) || strings.Contains(err.Error(), "file does not exist")] *)
Definition not_exist (err : error) : bool :=
  errors_Is err ENOENT || has_substring "file does not exist" (error_text err).

(** [removeAll] and [removeChildren] call each other down the tree; [fuel] bounds its depth. *)
Fixpoint removeAll (fuel : nat) (target : string) : DM unit :=
  match fuel with
  | O => panic out_of_fuel
  | S fuel' =>
      if decide (target = "/" \/ target = ".") then fail (Errorf "refusing to remove root" [])
      else
        l ← is_link target;
        if (l : bool) then unmark_link target ;; on_fs (fs_Remove target)
        else
          st ← attempt (on_fs (fs_Stat target));
          match st with
          | inl err => if not_exist err then mret tt else fail err
          | inr is_dir =>
              (if (is_dir : bool) then
                 r ← attempt (on_fs (fs_ReadDir target));
                 match r with
                 | inl err => if not_exist err then mret tt else fail err
                 | inr entries => for_each entries (fun entry => removeAll fuel' (Join [target; fst entry]))
                 end
               else mret tt) ;;
              on_fs (fs_Remove target)
          end
  end.

Definition removeChildren (fuel : nat) (target : string) : DM unit :=
  r ← attempt (on_fs (fs_ReadDir target));
  match r with
  | inl err => if not_exist err then mret tt else fail err
  | inr entries => for_each entries (fun entry => removeAll fuel (Join [target; fst entry]))
  end.

Definition removeIfExists (fuel : nat) (target : string) : DM unit :=
  st ← attempt (on_fs (fs_Stat target));
  match st with
  | inr _ => removeAll fuel target
  | inl _ =>
      l ← is_link target;
      if (l : bool) then unmark_link target ;; on_fs (fs_Remove target) else mret tt
  end.

Definition removeSymlink (target : string) : DM unit :=
  recovering (fun v => Errorf "remove symlink panic: %v" [v]) (
    unmark_link target ;;
    on_fs (fs_Remove target)).

Definition applyMetadata (target : string) (header : Header) (symlink : bool) : DM unit :=
  if symlink then mret tt
  else
    wrap_err (Wrapf "chmod: %w" []) (on_fs (fs_Chmod target (safeFileMode (FileInfo_Mode header) 420))) ;;
    wrap_err (Wrapf "chown: %w" []) (on_fs (fs_Chown target (Uid header) (Gid header))).

Definition mkdir (target : string) (header : Header) : DM unit :=
  mkdirAll target ;;
  applyMetadata target header false.

(** Write, then close; the write's error wins. *)
Definition write_and_close (file : nat) (contents : string) : DM unit :=
  copyErr ← attempt (on_fs (fs_Write file contents));
  closeErr ← attempt (on_fs (fs_CloseFile file));
  match copyErr, closeErr with
  | inl e, _ => fail e
  | _, inl e => fail e
  | _, _ => mret tt
  end.

Definition writeFile (target : string) (header : Header) (reader : stream) : DM unit :=
  mkdirAll (Dir target) ;;
  ensureNoSymlinkParents target ;;
  l ← is_link target;
  fail_if l (Errorf "refusing to overwrite symlink" []) ;;
  l' ← is_link target;
  (if (l' : bool) then unmark_link target ;; on_fs (fs_Remove target) else mret tt) ;;
  file ← on_fs (fs_OpenFile target true);
  let '(contents, readErr) := LimitReader (Size header) reader in
  match readErr with
  | Some e => ignore (on_fs (fs_CloseFile file)) ;; fail e
  | None =>
      write_and_close file contents ;;
      applyMetadata target header false
  end.

Definition symlink (fuel : nat) (target : string) (header : Header) : DM unit :=
  wrap_err (Wrapf "unsafe symlink target: %w" []) (lift_outcome (cleanLinkPath (Linkname header))) ;;
  mkdirAll (Dir target) ;;
  existing ← attempt (on_fs (fs_ReadLink target));
  match existing with
  | inr existing =>
      if decide (existing = Linkname header) then
        mark_link target ;; applyMetadata target header true
      else
        r ← attempt (removeSymlink target);
        match r with
        | inl _ => mark_link target ;; applyMetadata target header true
        | inr _ =>
            on_fs (fs_Symlink (Linkname header) target) ;;
            mark_link target ;; applyMetadata target header true
        end
  | inl _ =>
      removeIfExists fuel target ;;
      on_fs (fs_Symlink (Linkname header) target) ;;
      mark_link target ;; applyMetadata target header true
  end.

Definition hardlink (fuel : nat) (target : string) (header : Header) : DM unit :=
  linkName ← wrap_err (Wrapf "unsafe hardlink target: %w" []) (lift_outcome (cleanLayerPath (Linkname header)));
  let linkTarget := fsPath linkName in
  ensureNoSymlinkParents target ;;
  ensureNoSymlinkParents linkTarget ;;
  l ← is_link linkTarget;
  fail_if l (Errorf "refusing hardlink to symlink" []) ;;
  _ ← on_fs (fs_Stat linkTarget);
  mkdirAll (Dir target) ;;
  removeIfExists fuel target ;;
  contents ← on_fs (fs_ReadFile linkTarget);
  file ← on_fs (fs_OpenFile target false);
  write_and_close file contents ;;
  applyMetadata target header false.

Definition applyEntry (fuel : nat) (header : Header) (reader : stream) : DM unit :=
  name ← lift_outcome (cleanLayerPath (Name header));
  let base := Base name in
  let dir := Dir name in
  if decide (base = ".wh..wh..opq") then removeChildren fuel (fsPath dir)
  else if HasPrefix base ".wh." then removeAll fuel (fsPath (Join [dir; TrimPrefix base ".wh."]))
  else
    let target := fsPath name in
    ensureNoSymlinkParents target ;;
    match classify (Typeflag header) with
    | TypeDir => mkdir target header
    | TypeReg => writeFile target header reader
    | TypeSymlink => symlink fuel target header
    | TypeLink => hardlink fuel target header
    | TypeExtension => mret tt
    | TypeDevice => fail (Errorf "device and fifo entries are not allowed" [])
    | TypeOther =>
        fail (Errorf "unsupported tar entry type %d" [pretty (nat_of_ascii (Typeflag header))])
    end.

(** ** Layers, and the builder *)

Context {Storage : Type} `{!Ext4Disk FS Storage}.
Variable gzip_NewReader : string -> outcome stream.
Variable tar_read : tar_reader.

Fixpoint apply_entries (fuel : nat) (takes : nat -> nat) (n : nat) (ctx : nat -> option error) (hashedReader : tee)
    (entries : list (Header * stream)) (final : option error) : DM tee :=
  match ctx n with
  | Some err => fail err
  | None =>
      let hashedReader := tee_Read (takes n) hashedReader in
      match entries with
      | [] => match final with Some err => fail err | None => mret hashedReader end
      | (header, contents) :: rest =>
          wrap_err (Wrapf "apply %q: %w" [Name header]) (applyEntry fuel header contents) ;;
          apply_entries fuel takes (S n) ctx hashedReader rest final
      end
  end.

Definition ApplyLayer (fuel : nat) (ctx : nat -> option error)
    (compressedLayerPath expectedDiffID : string) : DM unit :=
  file ← on_host (os_ReadFile compressedLayerPath);
  reader ← lift_outcome (layerReader gzip_NewReader file);
  let '(entries, final) := tar_read reader in
  hashedReader ← apply_entries fuel (tar_takes tar_read reader) 0 ctx (io_TeeReader reader) entries final;
  hashedReader ← lift_outcome (tee_drain hashedReader);
  let actual := sha256_digest (tee_hash hashedReader) in
  fail_if (negb (bool_decide (actual = expectedDiffID)))
    (Errorf "diffID mismatch: got %s want %s" [actual; expectedDiffID]).

(** Run on a fresh applier over a mounted file system, back on the host. *)
Definition with_applier {A} (filesystem : FS) (m : DM A) : OS A := fun w =>
  let '(o, a) := m (Applier filesystem w ∅) in (o, a_host a).

(** The loop of [Build]; [i] counts the layers. *)
Fixpoint apply_layers (fuel i : nat) (ctx : context) (layers : list Oci.Layer) : DM unit :=
  match layers with
  | [] => mret tt
  | layer :: rest =>
      ApplyLayer fuel (ctx i) (l_CompressedBlobPath layer) (l_DiffID layer) ;;
      apply_layers fuel (S i) ctx rest
  end.

Definition PureGoExt4Builder_Build (fuel : nat) (ctx : context) (img : PulledImage)
    (imagePath : string) (size : Z) : OS unit :=
  recovering (fun v => Errorf "ext4 rootfs build panic: %v" [v]) (
    storage ← file_CreateFromPath imagePath size;
    defer (storage_Close storage) (
      filesystem ← ext4_Create storage size;
      with_applier filesystem (
        defer (on_fs fs_Close) (apply_layers fuel 1 ctx (pi_Layers img))))).
End applier_code.

(** ** Paths of the image as lists of names *)

(** The non-empty prefixes of [rest], continuing [pre], as paths. *)
Fixpoint prefixes_from (pre rest : list string) : list string :=
  match rest with
  | [] => []
  | c :: rest' => pjoin (pre ++ [c]) :: prefixes_from (pre ++ [c]) rest'
  end.

(** The directories a path goes through. *)
Definition ancestors (p : string) : list string := prefixes_from [] (removelast (psplit p)).

Lemma prefixes_from_app pre a b :
  prefixes_from pre (a ++ b) = prefixes_from pre a ++ prefixes_from (pre ++ a) b.
Proof.
  revert pre. induction a as [|c a IH]; intros pre; simpl; [by rewrite app_nil_r|].
  by rewrite IH, <- app_assoc.
Qed.

Lemma ancestors_names x : x <> [] -> Forall is_name x -> ancestors (pjoin x) = prefixes_from [] (removelast x).
Proof. intros Hx Hn. unfold ancestors. by rewrite psplit_below. Qed.

Lemma ancestors_snoc pre c : Forall is_name (pre ++ [c]) -> ancestors (pjoin (pre ++ [c])) = prefixes_from [] pre.
Proof. intros Hn. rewrite ancestors_names, removelast_last; [done|by destruct pre|done]. Qed.

Lemma removelast_prefixes x : incl (prefixes_from [] (removelast x)) (prefixes_from [] x).
Proof.
  destruct x as [|c x _] using rev_ind; [apply incl_refl|]. rewrite removelast_last, prefixes_from_app. apply incl_appl, incl_refl.
Qed.

(** Accepted names have no backslash when the header's has none. *)
Lemma no_char_psplit c s : no_char c s = true -> Forall (fun x => no_char c x = true) (psplit s).
Proof.
  induction s as [|a s IH]; cbn [split_on]; intros H; [by repeat constructor|].
  unfold no_char in *. cbn [str_contains] in H.
  rewrite negb_orb, andb_true_iff in H. destruct H as [Ha Hs].
  specialize (IH Hs). pose proof (split_on_nonempty slash s) as Hne.
  destruct (split_on slash s) as [|y l]; [done|]. apply Forall_cons in IH as [Hy Hl].
  destruct (decide (a = slash)); repeat (apply Forall_cons; split); try done.
  cbn [str_contains]. by rewrite negb_orb, Ha.
Qed.

Lemma clean_comps_elems r cs c : c ∈ clean_comps r cs -> c ∈ cs \/ c = "..".
Proof.
  unfold clean_comps. rewrite list_elem_of_In, <- in_rev, <- list_elem_of_In.
  enough (forall st, c ∈ foldl (clean_step r) st cs -> c ∈ cs \/ c = ".." \/ c ∈ st) as HG
    by (intros [?|[?|?]]%HG; [auto|auto|by apply not_elem_of_nil in H]).
  induction cs as [|d cs IH]; intros st; simpl; [auto|]. intros [H|[H|H]]%IH; rewrite ?elem_of_cons; auto.
  unfold clean_step in H. destruct (decide (d = "" \/ d = ".")); [auto|].
  destruct (decide (d = "..")) as [->|]; [|apply elem_of_cons in H as [->|?]; auto].
  destruct st as [|y st].
  - destruct r; [by apply not_elem_of_nil in H|apply elem_of_cons in H as [->|?]; auto].
  - destruct (decide (y = "..")); [apply elem_of_cons in H as [->|?]; auto|]. right; right. by apply list_elem_of_further.
Qed.

Lemma no_char_pjoin cs : Forall (fun x => no_char backslash x = true) cs -> no_char backslash (pjoin cs) = true.
Proof.
  induction 1 as [|c cs Hc Hcs IH]; [done|]. destruct cs as [|d cs]; [done|].
  change (pjoin (c :: d :: cs)) with (c +:+ ("/" +:+ pjoin (d :: cs))). by rewrite !no_char_app, Hc, IH.
Qed.

Definition plain (name : string) : bool := no_char backslash name.

Lemma filepathSlash_plain s : plain s = true -> filepathSlash s = s.
Proof.
  unfold plain, no_char, filepathSlash. induction s as [|a s IH]; simpl; [done|].
  rewrite negb_orb, andb_true_iff. intros [Ha Hs]. rewrite IH by done.
  rewrite decide_False; [done|]. intros ->. by rewrite bool_decide_eq_true_2 in Ha.
Qed.

Lemma fsPath_names x : x <> [] -> Forall is_name x -> plain (pjoin x) = true -> fsPath (pjoin x) = pjoin x.
Proof.
  intros Hx Hn Hp. unfold fsPath. rewrite filepathSlash_plain, Clean_names by done.
  assert (IsAbs (pjoin x) = false) as Ha.
  { pose proof (cpath_of_names x Hx Hn) as E. by apply (f_equal fst) in E. }
  destruct x as [|c x]; [done|]. apply Forall_cons in Hn as [Hc Hn]. destruct Hc as (Hc & _).
  rewrite !bool_decide_eq_false_2.
  - cbn [orb]. unfold TrimPrefix. unfold IsAbs in Ha. by rewrite Ha.
  - intros E. destruct c; [done|]. by destruct x.
  - intros E. by rewrite E in Ha.
Qed.

Lemma accepted_plain name clean :
  cleanLayerPath name = Ok clean -> plain name = true ->
  exists x, x <> [] /\ Forall is_name x /\ clean = pjoin x /\ fsPath clean = pjoin x.
Proof.
  intros (x & E & Hx & Hn & ->)%cleanLayerPath_names Hp. exists x. split_and!; [done..|].
  apply fsPath_names; [done..|]. apply no_char_pjoin. unfold cpath_of in E. injection E as _ <-.
  apply Forall_forall. intros c [Hc| ->]%clean_comps_elems; [|done].
  by apply (proj1 (Forall_forall _ _) (no_char_psplit _ _ Hp)).
Qed.

(** With a backslash the check on the layer's name and the image's path disagree: the name is
    one component for [cleanLayerPath], and [fsPath] gives a path with a dot-dot. *)
Example backslash_escapes :
  let name := String "." (String "." (String backslash "x")) in
  cleanLayerPath name = Ok name /\ fsPath name = "../x".
Proof. done. Qed.

(** ** No entry is written through a symbolic link

    [monitored] is the library with an alarm: the flag next to the driver state goes up when a
    file is created or opened, a directory or link made, or metadata changed at a path that goes
    through a symbolic link of the image, or a file is opened or read that is one. *)

Section monitor.
Context {FS : Type} (raw : Ext4 FS) (links : FS * world -> gset string).

Definition watch {A} (bad : gset string -> bool) (m : GoM (FS * world) A) : GoM ((FS * bool) * world) A :=
  fun '((f, b), w) =>
    let '(o, (f', w')) := m (f, w) in (o, ((f', b || bad (links (f, w))), w')).

Definition through (p : string) (l : gset string) : bool :=
  existsb (fun q => bool_decide (q ∈ l)) (ancestors p).
Definition onto (p : string) (l : gset string) : bool := bool_decide (p ∈ l) || through p l.
Definition fine (l : gset string) : bool := false.

Definition monitored : Ext4 (FS * bool) := {|
  fs_Stat p := watch fine (fs_Stat p);
  fs_Mkdir p := watch (through p) (fs_Mkdir p);
  fs_OpenFile p t := watch (onto p) (fs_OpenFile p t);
  fs_Write h d := watch fine (fs_Write h d);
  fs_CloseFile h := watch fine (fs_CloseFile h);
  fs_ReadFile p := watch (onto p) (fs_ReadFile p);
  fs_ReadLink p := watch fine (fs_ReadLink p);
  fs_Symlink o p := watch (through p) (fs_Symlink o p);
  fs_Remove p := watch fine (fs_Remove p);
  fs_ReadDir p := watch fine (fs_ReadDir p);
  fs_Chmod p m := watch (through p) (fs_Chmod p m);
  fs_Chown p u g := watch (through p) (fs_Chown p u g);
  fs_Close := watch fine fs_Close
|}.

Definition quiet {A} (m : GoM (FS * world) A) : Prop := forall s, links (snd (m s)) ⊆ links s.

(** What the library is relied on for: only [Symlink] makes a link, at the path it is given;
    [Remove] without error removes what is at its path. *)
Record LinkLaws : Prop := {
  q_Stat p : quiet (fs_Stat p);
  q_Mkdir p : quiet (fs_Mkdir p);
  q_OpenFile p t : quiet (fs_OpenFile p t);
  q_Write h d : quiet (fs_Write h d);
  q_CloseFile h : quiet (fs_CloseFile h);
  q_ReadFile p : quiet (fs_ReadFile p);
  q_ReadLink p : quiet (fs_ReadLink p);
  q_Remove p : quiet (fs_Remove p);
  q_ReadDir p : quiet (fs_ReadDir p);
  q_Chmod p m : quiet (fs_Chmod p m);
  q_Chown p u g : quiet (fs_Chown p u g);
  q_Symlink o p s : links (snd (fs_Symlink o p s)) ⊆ {[p]} ∪ links s;
  q_Removed p s s' : fs_Remove p s = (Ok tt, s') -> p ∉ links s';
  q_host f w w' : same_place w w' -> links (f, w') = links (f, w)
}.

Context (L : LinkLaws).
#[local] Existing Instance monitored.
Abbreviation MA := (applier (FS * bool)).
Implicit Types a : MA.

Definition alarm a : bool := snd (a_FS a).
Definition image_links a : gset string := links (fst (a_FS a), a_host a).

(** The map knows every link of the image, no alarm was raised, and no path of [T] is a link. *)
Definition clear (T : list string) a : Prop :=
  alarm a = false /\ image_links a ⊆ a_Symlinks a /\ Forall (fun p => p ∉ a_Symlinks a) T.

Definition keep (T : list string) a a' : Prop := clear T a -> clear T a'.
#[local] Instance keep_preorder T : PreOrder (keep T).
Proof. split; [intros a H; exact H|]. intros a b c H1 H2 H. by apply H2, H1. Qed.

Lemma clear_weaken T T' a : incl T T' -> clear T' a -> clear T a.
Proof.
  intros Hi (H1 & H2 & H3). split_and!; [done..|]. apply Forall_forall. intros p Hp.
  apply (proj1 (Forall_forall _ _) H3). by apply list_elem_of_In, Hi, list_elem_of_In.
Qed.

Lemma clear_through T p a : incl (ancestors p) T -> clear T a -> through p (image_links a) = false.
Proof.
  intros Hi HT. apply (clear_weaken _ _ _ Hi) in HT as (_ & Hl & Hf). unfold through.
  clear Hi. induction Hf as [|q l Hq Hf IH]; simpl; [done|].
  rewrite IH, orb_false_r. apply bool_decide_eq_false_2. set_solver.
Qed.

Lemma clear_onto T p a : incl (p :: ancestors p) T -> clear T a -> onto p (image_links a) = false.
Proof.
  intros Hi HT. unfold onto. assert (Hi' : incl (ancestors p) T) by (intros q Hq; apply Hi; by right).
  rewrite (clear_through T p a Hi' HT).
  apply (clear_weaken _ _ _ Hi) in HT as (_ & Hl & [Hp _]%Forall_cons). rewrite bool_decide_eq_false_2; set_solver.
Qed.

Lemma keep_watch {A} T bad (m : GoM (FS * world) A) :
  quiet m -> (forall a, clear T a -> bad (image_links a) = false) -> preserves (keep T) (on_fs (watch bad m)).
Proof.
  intros Hq Hb a Ha. pose proof (Hb a Ha) as Hf. destruct a as [[f b] w sy], Ha as (H1 & H2 & H3).
  unfold image_links, alarm, on_fs, watch in *. simpl in *. specialize (Hq (f, w)).
  destruct (m (f, w)) as [o [f' w']]. unfold clear, alarm, image_links. simpl in *.
  rewrite H1, Hf. split_and!; [done|set_solver|done].
Qed.

Lemma keep_Stat T p : preserves (keep T) (on_fs (fs_Stat p)).
Proof. apply keep_watch; [apply (q_Stat L)|done]. Qed.
Lemma keep_Write T h d : preserves (keep T) (on_fs (fs_Write h d)).
Proof. apply keep_watch; [apply (q_Write L)|done]. Qed.
Lemma keep_CloseFile T h : preserves (keep T) (on_fs (fs_CloseFile h)).
Proof. apply keep_watch; [apply (q_CloseFile L)|done]. Qed.
Lemma keep_ReadLink T p : preserves (keep T) (on_fs (fs_ReadLink p)).
Proof. apply keep_watch; [apply (q_ReadLink L)|done]. Qed.
Lemma keep_Remove T p : preserves (keep T) (on_fs (fs_Remove p)).
Proof. apply keep_watch; [apply (q_Remove L)|done]. Qed.
Lemma keep_ReadDir T p : preserves (keep T) (on_fs (fs_ReadDir p)).
Proof. apply keep_watch; [apply (q_ReadDir L)|done]. Qed.
Lemma keep_is_link T p : preserves (keep T) (is_link (FS := FS * bool) p).
Proof. by intros a. Qed.
Lemma keep_Mkdir T p : incl (ancestors p) T -> preserves (keep T) (on_fs (fs_Mkdir p)).
Proof. intros Hi. apply keep_watch; [apply (q_Mkdir L)|]. intros a. by apply clear_through. Qed.
Lemma keep_Chmod T p m : incl (ancestors p) T -> preserves (keep T) (on_fs (fs_Chmod p m)).
Proof. intros Hi. apply keep_watch; [apply (q_Chmod L)|]. intros a. by apply clear_through. Qed.
Lemma keep_Chown T p u g : incl (ancestors p) T -> preserves (keep T) (on_fs (fs_Chown p u g)).
Proof. intros Hi. apply keep_watch; [apply (q_Chown L)|]. intros a. by apply clear_through. Qed.
Lemma keep_OpenFile T p t : incl (p :: ancestors p) T -> preserves (keep T) (on_fs (fs_OpenFile p t)).
Proof. intros Hi. apply keep_watch; [apply (q_OpenFile L)|]. intros a. by apply clear_onto. Qed.
Lemma keep_ReadFile T p : incl (p :: ancestors p) T -> preserves (keep T) (on_fs (fs_ReadFile p)).
Proof. intros Hi. apply keep_watch; [apply (q_ReadFile L)|]. intros a. by apply clear_onto. Qed.
#[local] Hint Resolve keep_Stat keep_Write keep_CloseFile keep_ReadLink keep_Remove keep_ReadDir keep_is_link
  keep_Mkdir keep_Chmod keep_Chown keep_OpenFile keep_ReadFile : go_preserves.
#[local] Hint Resolve keep_preorder : go_preserves.

(** *** The applier's steps *)

Lemma next_path_names pre c : Forall is_name (pre ++ [c]) -> next_path (pjoin pre) c = pjoin (pre ++ [c]).
Proof.
  intros Hn. unfold next_path. apply Forall_app in Hn as [Hp Hc%Forall_cons]. destruct Hc as [Hc _].
  destruct pre as [|d pre]; [done|]. rewrite decide_False; [by apply (Join_names (d :: pre) c)|].
  apply Forall_cons in Hp as [(Hd & _) _]. intros E. destruct d; [done|]. by destruct pre.
Qed.

Lemma keep_mkdir_parts T pre rest :
  Forall is_name (pre ++ rest) -> incl (prefixes_from [] (removelast (pre ++ rest))) T ->
  preserves (keep T) (mkdir_parts (pjoin pre) rest).
Proof.
  revert pre. induction rest as [|c rest IH]; intros pre Hn Hi; cbn [mkdir_parts]; [auto with go_preserves|].
  assert (Hn' : Forall is_name ((pre ++ [c]) ++ rest)) by (by rewrite <- app_assoc).
  rewrite next_path_names by (by apply Forall_app in Hn' as [? _]). cbv zeta.
  assert (Hrec : preserves (keep T) (mkdir_parts (pjoin (pre ++ [c])) rest)).
  { apply IH; [done|]. by rewrite <- app_assoc. }
  assert (Hm : preserves (keep T) (on_fs (fs_Mkdir (pjoin (pre ++ [c]))))).
  { apply keep_Mkdir. rewrite ancestors_snoc by (by apply Forall_app in Hn' as [? _]).
    eapply incl_tran; [|exact Hi]. rewrite removelast_app, prefixes_from_app by done. apply incl_appl, incl_refl. }
  solve_preserves.
Qed.

Lemma keep_mkdirAll T x :
  x <> [] -> Forall is_name x -> incl (prefixes_from [] (removelast x)) T -> preserves (keep T) (mkdirAll (pjoin x)).
Proof.
  intros Hx Hn Hi. unfold mkdirAll. rewrite Clean_names by done. case_decide; [auto with go_preserves|].
  assert (Ha : HasPrefix (pjoin x) "/" = false).
  { pose proof (cpath_of_names x Hx Hn) as E. by apply (f_equal fst) in E. }
  unfold TrimPrefix. rewrite Ha, psplit_below by done. by apply (keep_mkdir_parts T [] x).
Qed.

Lemma Dir_pjoin x : x <> [] -> Forall is_name x ->
  Dir (pjoin x) = (if decide (removelast x = []) then "." else pjoin (removelast x)).
Proof.
  intros Hx Hn. destruct x as [|c x _] using rev_ind; [done|]. rewrite removelast_last.
  by rewrite Dir_names.
Qed.

Lemma keep_mkdirAll_Dir T x :
  x <> [] -> Forall is_name x -> incl (prefixes_from [] (removelast x)) T -> preserves (keep T) (mkdirAll (Dir (pjoin x))).
Proof.
  intros Hx Hn Hi. rewrite Dir_pjoin by done. case_decide as Hr; [by apply preserves_ret; apply keep_preorder|].
  apply keep_mkdirAll; [done| |].
  - destruct x as [|c x _] using rev_ind; [done|]. rewrite removelast_last. by apply Forall_app in Hn as [? _].
  - eapply incl_tran; [apply removelast_prefixes|done].
Qed.

Lemma check_links_clear T pre rest a :
  Forall is_name (pre ++ rest) -> clear T a ->
  wp (check_links (pjoin pre) rest) (fun o a' => a' = a /\ (is_Ok o = true -> clear (prefixes_from pre rest ++ T) a)) a.
Proof.
  revert pre T. induction rest as [|c rest IH]; intros pre T Hn HT; cbn [check_links]; [done|].
  assert (Hn' : Forall is_name ((pre ++ [c]) ++ rest)) by (by rewrite <- app_assoc).
  rewrite next_path_names by (by apply Forall_app in Hn' as [? _]). cbv zeta.
  apply wp_bind. unfold wp at 1, is_link, gets. cbn [fst snd wp_cont].
  case_bool_decide as Hl; [done|].
  eapply wp_mono; [|apply (IH (pre ++ [c]) (pjoin (pre ++ [c]) :: T)); [done|]].
  - intros o a' [-> HC]. split; [done|]. intros Ho. eapply clear_weaken; [|by apply HC].
    cbn [prefixes_from app]. intros p. rewrite !in_app_iff. cbn [In]. rewrite !in_app_iff. cbn [In]. tauto.
  - destruct HT as (H1 & H2 & H3). split_and!; [done..|]. by constructor.
Qed.

(** After the check, nothing above the path is a link. *)
Lemma ensure_clear T x a :
  x <> [] -> Forall is_name x -> clear T a ->
  wp (ensureNoSymlinkParents (pjoin x))
    (fun o a' => a' = a /\ (is_Ok o = true -> clear (ancestors (pjoin x) ++ T) a)) a.
Proof.
  intros Hx Hn HT. unfold ensureNoSymlinkParents. rewrite Clean_names, Dir_pjoin, ancestors_names by done. cbv zeta.
  destruct (decide (removelast x = [])) as [Hr|Hr]; [by rewrite Hr|].
  assert (Hn' : Forall is_name (removelast x)).
  { destruct x as [|c x _] using rev_ind; [done|]. rewrite removelast_last. by apply Forall_app in Hn as [? _]. }
  case_decide as Hd.
  - exfalso. pose proof (cpath_of_names _ Hr Hn') as E. destruct Hd as [Hd|Hd]; rewrite Hd in E; [by injection E|].
    injection E as E. by rewrite <- E in Hr.
  - assert (Ha : HasPrefix (pjoin (removelast x)) "/" = false).
    { pose proof (cpath_of_names _ Hr Hn') as E. by apply (f_equal fst) in E. }
    unfold TrimPrefix. rewrite Ha, psplit_below by done. by apply (check_links_clear T [] (removelast x)).
Qed.

(** How a call may end: no alarm on any outcome, and clear again when it succeeded. *)
Definition ends {A} (T : list string) (o : outcome A) a : Prop :=
  alarm a = false /\ (is_Ok o = true -> clear T a).

Lemma ends_keep {A} T (m : GoM MA A) a : preserves (keep T) m -> clear T a -> wp m (ends T) a.
Proof. intros Hp HT. apply Hp in HT. split; [apply HT|done]. Qed.

Lemma ends_bind {A B} T' T (m : GoM MA A) (k : A -> GoM MA B) a :
  wp m (ends T') a -> (forall x a', clear T' a' -> wp (k x) (ends T) a') -> wp (m ≫= k) (ends T) a.
Proof.
  intros Hm Hk. apply wp_bind. eapply wp_mono; [|exact Hm]. intros o a' [Ha Hc].
  destruct o; cbn [wp_cont]; [by apply Hk, Hc|by split..].
Qed.

Lemma ends_weaken {A} T T' (m : GoM MA A) a : incl T T' -> wp m (ends T') a -> wp m (ends T) a.
Proof.
  intros Hi Hm. eapply wp_mono; [|exact Hm]. intros o a' [Ha Hc]. split; [done|]. intros Ho.
  eapply clear_weaken; [exact Hi|by apply Hc].
Qed.

Lemma ends_wrap {A} T f (m : GoM MA A) a : wp m (ends T) a -> wp (wrap_err f m) (ends T) a.
Proof. intros Hm. apply wp_wrap. eapply wp_mono; [|exact Hm]. by intros [] a'. Qed.

Lemma ends_fail {A} T e a : alarm a = false -> wp (fail (A := A) e) (ends T) a.
Proof. by split. Qed.

Lemma ends_ret {A} T (x : A) a : clear T a -> wp (mret x) (ends T) a.
Proof. intros HT. split; [apply HT|done]. Qed.

Lemma ends_fail_if T b e a : clear T a -> wp (fail_if b e) (ends T) a.
Proof. intros HT. apply wp_fail_if; intros _; (split; [apply HT|done]). Qed.

Lemma ends_for_each {A} T (l : list A) (body : A -> GoM MA unit) a :
  (forall x a', clear T a' -> wp (body x) (ends T) a') -> clear T a -> wp (for_each l body) (ends T) a.
Proof.
  intros Hb. revert a. induction l as [|x l IH]; intros a HT; cbn [for_each]; [by apply ends_ret|].
  eapply ends_bind; [by apply Hb|]. intros _ a' HT'. by apply IH.
Qed.

(** Looking a path up in the map. *)
Lemma ends_is_link {B} T p (k : bool -> GoM MA B) a :
  clear T a ->
  (p ∈ a_Symlinks a -> wp (k true) (ends T) a) ->
  (clear (p :: T) a -> wp (k false) (ends T) a) ->
  wp (is_link p ≫= k) (ends T) a.
Proof.
  intros (H1 & H2 & H3) Ht Hf. apply wp_bind. unfold wp at 1, is_link, gets. cbn [fst snd wp_cont].
  case_bool_decide; [by apply Ht|apply Hf]. split_and!; [done..|by constructor].
Qed.

Lemma unmark_remove T target a :
  clear T a -> wp (unmark_link target ;; on_fs (fs_Remove target)) (ends (target :: T)) a.
Proof.
  intros (H1 & H2 & H3). destruct a as [[f b] w sy]. unfold clear, alarm, image_links in *. simpl in *.
  unfold wp, unmark_link, modify, on_fs, watch, mbind, GoM_bind, ends, clear, alarm, image_links. simpl.
  pose proof (q_Remove L target (f, w)) as HQ. pose proof (q_Removed L target (f, w)) as HR.
  destruct (fs_Remove target (f, w)) as [o [f' w']]. simpl in *. unfold fine. rewrite H1. split; [done|].
  intros Ho. destruct o as [[]|e|v]; [|done..]. specialize (HR _ eq_refl). split_and!; [done|set_solver|].
  constructor; [set_solver|]. eapply Forall_impl; [exact H3|]. set_solver.
Qed.

Lemma ends_when_link T target (b : bool) (m : GoM MA unit) a :
  clear T a -> (b = false -> wp m (ends (target :: T)) a) ->
  wp (if b then unmark_link target ;; on_fs (fs_Remove target) else m) (ends (target :: T)) a.
Proof. intros HT Hm. destruct b; [by apply unmark_remove|by apply Hm]. Qed.

(** What was removed is no link any more. *)
Lemma removeAll_ends fuel T target a :
  clear T a -> wp (removeAll fuel target) (ends (target :: T)) a.
Proof.
  revert T target a. induction fuel as [|fuel IH]; intros T target a HT; cbn [removeAll]; [split; [apply HT|done]|].
  case_decide; [split; [apply HT|done]|].
  apply wp_bind. unfold wp at 1, is_link, gets. cbn [fst snd wp_cont].
  apply ends_when_link; [done|]. intros Hl%bool_decide_eq_false.
  assert (HT' : clear (target :: T) a) by (destruct HT as (? & ? & ?); split_and!; [done..|by constructor]).
  eapply ends_bind; [eapply ends_keep; [|exact HT']; solve_preserves|].
  intros st a1 HT1. destruct st as [err|is_dir]; [destruct (not_exist err); split; [apply HT1|done..|apply HT1|done]|].
  eapply (ends_bind (target :: T)); [|intros _ a2 HT2; eapply ends_keep; [|exact HT2]; auto with go_preserves].
  destruct is_dir; [|by apply ends_ret].
  eapply ends_bind; [eapply ends_keep; [|exact HT1]; solve_preserves|].
  intros r a3 HT3. destruct r as [err|entries]; [destruct (not_exist err); split; [apply HT3|done..|apply HT3|done]|].
  apply ends_for_each; [|done]. intros name a4 HT4. eapply ends_weaken; [|by apply IH]. by apply incl_tl, incl_refl.
Qed.

Lemma removeChildren_ends fuel T target a : clear T a -> wp (removeChildren fuel target) (ends T) a.
Proof.
  intros HT. unfold removeChildren. eapply ends_bind; [eapply ends_keep; [|exact HT]; solve_preserves|].
  intros r a3 HT3. destruct r as [err|entries]; [destruct (not_exist err); split; [apply HT3|done..|apply HT3|done]|].
  apply ends_for_each; [|done]. intros name a4 HT4. eapply ends_weaken; [|by apply removeAll_ends]. by apply incl_tl, incl_refl.
Qed.

Lemma removeIfExists_ends fuel T target a : clear T a -> wp (removeIfExists fuel target) (ends (target :: T)) a.
Proof.
  intros HT. unfold removeIfExists. eapply ends_bind; [eapply ends_keep; [|exact HT]; solve_preserves|].
  intros st a1 HT1. destruct st as [err|b]; [|by apply removeAll_ends].
  apply wp_bind. unfold wp at 1, is_link, gets. cbn [fst snd wp_cont].
  apply ends_when_link; [done|]. intros Hl%bool_decide_eq_false. apply ends_ret.
  destruct HT1 as (? & ? & ?). split_and!; [done..|by constructor].
Qed.

(** *** The kinds of entries *)

Lemma incl_cons_tail {A} (x : A) l : incl l (x :: l).
Proof. apply incl_tl, incl_refl. Qed.

Lemma applyMetadata_ends T target header b a :
  incl (ancestors target) T -> clear T a -> wp (applyMetadata target header b) (ends T) a.
Proof. intros Hi HT. eapply ends_keep; [|exact HT]. unfold applyMetadata. solve_preserves. Qed.

Lemma write_and_close_ends T h data a : clear T a -> wp (write_and_close h data) (ends T) a.
Proof. intros HT. eapply ends_keep; [|exact HT]. unfold write_and_close. solve_preserves. Qed.

Section one_path.
Context (x : list string) (Hx : x <> []) (Hn : Forall is_name x).
Abbreviation target := (pjoin x).

Lemma mkdirAll_ends T a : incl (ancestors target) T -> clear T a -> wp (mkdirAll target) (ends T) a.
Proof.
  intros Hi HT. eapply ends_keep; [|exact HT]. apply keep_mkdirAll; [done..|]. by rewrite <- ancestors_names.
Qed.

Lemma mkdirAll_Dir_ends T a : incl (ancestors target) T -> clear T a -> wp (mkdirAll (Dir target)) (ends T) a.
Proof.
  intros Hi HT. eapply ends_keep; [|exact HT]. apply keep_mkdirAll_Dir; [done..|]. by rewrite <- ancestors_names.
Qed.

Lemma ensure_ends T a : clear T a -> wp (ensureNoSymlinkParents target) (ends (ancestors target ++ T)) a.
Proof.
  intros HT. eapply wp_mono; [|by apply ensure_clear]. intros o a' [-> HC]. split; [apply HT|exact HC].
Qed.

Lemma mkdir_ends T header a : incl (ancestors target) T -> clear T a -> wp (mkdir target header) (ends T) a.
Proof.
  intros Hi HT. eapply ends_bind; [by apply mkdirAll_ends|]. intros _ a' HT'. by apply applyMetadata_ends.
Qed.

Lemma writeFile_ends T header reader a :
  incl (ancestors target) T -> clear T a -> wp (writeFile target header reader) (ends T) a.
Proof.
  intros Hi HT. unfold writeFile. eapply ends_bind; [by apply mkdirAll_Dir_ends|]. intros _ a1 HT1.
  eapply ends_bind; [eapply ends_weaken; [|by apply ensure_ends]; by apply incl_appr, incl_refl|]. intros _ a2 HT2.
  apply ends_is_link; [done|intros _; split; [apply HT2|done]|]. intros HT3.
  eapply ends_bind; [by apply ends_fail_if|]. intros _ a3 HT4.
  apply ends_is_link; [eapply clear_weaken; [|exact HT4]; apply incl_cons_tail| |].
  { intros Hl. destruct HT4 as (_ & _ & [? _]%Forall_cons). done. }
  intros _. eapply (ends_bind (target :: T)); [by apply ends_ret|]. intros _ a4 HT5.
  assert (Hi' : incl (target :: ancestors target) (target :: T)) by (by apply incl_cons; [left|apply incl_tl]).
  eapply (ends_bind (target :: T)); [eapply ends_keep; [|exact HT5]; auto with go_preserves|]. intros h a5 HT6.
  apply (ends_weaken _ (target :: T)); [apply incl_cons_tail|].
  destruct (LimitReader (Size header) reader) as [contents [e|]].
  - eapply ends_bind; [eapply ends_keep; [|exact HT6]; solve_preserves|]. intros _ a6 HT7. split; [apply HT7|done].
  - eapply ends_bind; [by apply write_and_close_ends|]. intros _ a6 HT7.
    apply applyMetadata_ends; [|done]. by apply incl_tl.
Qed.

Lemma Symlink_links T old a :
  incl (ancestors target) T -> clear T a ->
  wp (on_fs (fs_Symlink old target)) (fun _ a' => alarm a' = false /\ image_links a' ⊆ {[target]} ∪ a_Symlinks a') a.
Proof.
  intros Hi HT. pose proof (clear_through _ _ _ Hi HT) as Ht. destruct HT as (H1 & H2 & H3).
  destruct a as [[f b] w sy]. unfold alarm, image_links in *. simpl in *.
  unfold wp, on_fs, watch, alarm, image_links. simpl. pose proof (q_Symlink L old target (f, w)) as HQ.
  destruct (fs_Symlink old target (f, w)) as [o [f' w']]. simpl in *. rewrite H1, Ht. split; [done|set_solver].
Qed.

Lemma mark_ends a :
  alarm a = false -> image_links a ⊆ {[target]} ∪ a_Symlinks a -> forall header,
  wp (mark_link target ;; applyMetadata target header true) (ends []) a.
Proof.
  intros H1 H2 header. apply wp_bind. unfold wp at 1, mark_link, modify. cbn [fst snd wp_cont].
  apply ends_ret. split_and!; [done..|constructor].
Qed.

Lemma link_and_mark T old header a :
  incl (ancestors target) T -> clear T a ->
  wp (on_fs (fs_Symlink old target) ;; mark_link target ;; applyMetadata target header true) (ends []) a.
Proof.
  intros Hi HT. apply wp_bind. eapply wp_mono; [|by eapply Symlink_links].
  intros [[]|e|v] a' [H1 H2]; cbn [wp_cont]; [by apply mark_ends|by split..].
Qed.

(** Removing a link that may fail half-way: it is the only link the map may then miss. *)
Lemma removeSymlink_links T a :
  clear T a ->
  wp (removeSymlink target) (fun o a' => alarm a' = false /\ image_links a' ⊆ {[target]} ∪ a_Symlinks a'
    /\ match o with Ok _ => clear T a' | Err _ => True | Panic _ => False end) a.
Proof.
  intros (H1 & H2 & H3). destruct a as [[f b] w sy]. unfold clear, alarm, image_links in *. simpl in *.
  unfold wp, removeSymlink, recovering, unmark_link, modify, on_fs, watch, mbind, GoM_bind, clear, alarm, image_links. simpl.
  pose proof (q_Remove L target (f, w)) as HQ. pose proof (q_Removed L target (f, w)) as HR.
  destruct (fs_Remove target (f, w)) as [o [f' w']]. simpl in *. unfold fine.
  assert (Hl : links (f', w') ⊆ {[target]} ∪ sy ∖ {[target]}).
  { intros p Hp. destruct (decide (p = target)); set_solver. }
  destruct o as [[]|e|v]; simpl; rewrite H1; split_and!; try done.
  - specialize (HR _ eq_refl). set_solver.
  - eapply Forall_impl; [exact H3|]. set_solver.
Qed.

Lemma symlink_ends T fuel header a :
  incl (ancestors target) T -> clear T a -> wp (symlink fuel target header) (ends []) a.
Proof.
  intros Hi HT. unfold symlink. eapply (ends_bind T).
  { apply ends_wrap. split; [apply HT|done]. }
  intros _ a1 HT1. eapply ends_bind; [by apply mkdirAll_Dir_ends|]. intros _ a2 HT2.
  eapply (ends_bind T); [eapply ends_keep; [|exact HT2]; solve_preserves|]. intros existing a3 HT3.
  destruct existing as [e|existing].
  - eapply ends_bind; [by apply removeIfExists_ends|]. intros _ a4 HT4.
    apply (link_and_mark (target :: T)); [by apply incl_tl|done].
  - case_decide as He.
    { apply mark_ends; [apply HT3|]. destruct HT3 as (_ & H2 & _). set_solver. }
    apply wp_bind, wp_attempt. eapply wp_mono; [|by apply removeSymlink_links].
    intros o a4 (H1 & H2 & H3). destruct o as [[]|e|v]; cbn [wp_cont]; [|by apply mark_ends|done].
    by apply (link_and_mark T).
Qed.
End one_path.

Lemma wp_known {A B} (v : A) (k : A -> GoM MA B) Q a :
  wp (k v) Q a -> wp (lift_outcome (Ok v) ≫= k) Q a.
Proof. done. Qed.

Ltac incl_solve := intros ?; cbn [In app]; rewrite ?in_app_iff; cbn [In]; rewrite ?in_app_iff; tauto.

Lemma hardlink_ends fuel x header a :
  x <> [] -> Forall is_name x -> plain (Linkname header) = true ->
  clear [] a -> wp (hardlink fuel (pjoin x) header) (ends []) a.
Proof.
  intros Hx Hn Hp HT. unfold hardlink.
  destruct (cleanLayerPath (Linkname header)) as [linkName|e|v] eqn:El; [|by split; [apply HT|]..].
  destruct (accepted_plain _ _ El Hp) as (y & Hy & Hny & E & Hfs). rewrite E in *. clear E.
  apply (wp_known (pjoin y)). rewrite Hfs. cbv zeta.
  eapply ends_bind; [by apply ensure_ends|]. intros _ a1 HT1.
  eapply ends_bind; [by apply ensure_ends|]. intros _ a2 HT2.
  apply (ends_weaken _ (ancestors (pjoin y) ++ ancestors (pjoin x) ++ [])); [apply incl_nil_l|].
  apply ends_is_link; [done|intros _; split; [apply HT2|done]|]. intros HT3.
  set (T := ancestors (pjoin y) ++ ancestors (pjoin x) ++ []) in *.
  apply (ends_weaken _ (pjoin y :: T)); [apply incl_cons_tail|].
  eapply ends_bind; [by apply ends_fail_if|]. intros _ a3 HT4.
  eapply (ends_bind (pjoin y :: T)); [eapply ends_keep; [|exact HT4]; auto with go_preserves|]. intros _ a4 HT5.
  eapply ends_bind; [apply mkdirAll_Dir_ends; [done|done| |exact HT5]; unfold T; incl_solve|]. intros _ a5 HT6.
  apply (ends_weaken _ (pjoin x :: pjoin y :: T)); [apply incl_cons_tail|].
  eapply ends_bind; [by apply removeIfExists_ends|]. intros _ a6 HT7.
  eapply (ends_bind (pjoin x :: pjoin y :: T)).
  { eapply ends_keep; [|exact HT7]. apply keep_ReadFile. unfold T. incl_solve. }
  intros contents a7 HT8. eapply (ends_bind (pjoin x :: pjoin y :: T)).
  { eapply ends_keep; [|exact HT8]. apply keep_OpenFile. unfold T. incl_solve. }
  intros h a8 HT9. eapply ends_bind; [by apply write_and_close_ends|]. intros _ a9 HT10.
  apply applyMetadata_ends; [|done]. unfold T. incl_solve.
Qed.

Lemma applyEntry_ends fuel header reader a :
  plain (Name header) = true -> plain (Linkname header) = true ->
  clear [] a -> wp (applyEntry fuel header reader) (ends []) a.
Proof.
  intros Hp Hl HT. unfold applyEntry.
  destruct (cleanLayerPath (Name header)) as [name|e|v] eqn:El; [|by split; [apply HT|]..].
  destruct (accepted_plain _ _ El Hp) as (x & Hx & Hn & _ & Hfs). apply (wp_known name). cbv zeta.
  case_decide; [by apply removeChildren_ends|].
  destruct (HasPrefix (Base name) ".wh.").
  { eapply ends_weaken; [|by apply removeAll_ends]. apply incl_nil_l. }
  rewrite Hfs. eapply ends_bind; [by apply ensure_ends|]. intros _ a1 HT1. rewrite app_nil_r in HT1.
  assert (HT2 : clear [] a1) by (eapply clear_weaken; [|exact HT1]; apply incl_nil_l).
  assert (Hi : incl (ancestors (pjoin x)) (ancestors (pjoin x))) by apply incl_refl.
  destruct (classify (Typeflag header)).
  - eapply ends_weaken; [|by apply mkdir_ends]. apply incl_nil_l.
  - eapply ends_weaken; [|by apply writeFile_ends]. apply incl_nil_l.
  - by eapply symlink_ends.
  - by apply hardlink_ends.
  - by apply ends_ret.
  - apply ends_fail, HT1.
  - apply ends_fail, HT1.
Qed.

Definition plain_entry (e : Header * stream) : bool := plain (Name e.1) && plain (Linkname e.1).

Lemma apply_entries_ends fuel takes n ctx t entries final a :
  Forall (fun e => plain_entry e = true) entries -> clear [] a ->
  wp (apply_entries fuel takes n ctx t entries final) (ends []) a.
Proof.
  intros He. revert n t a. induction He as [|[header contents] rest He _ IH]; intros n t a HT; cbn [apply_entries];
    (destruct (ctx n); [apply ends_fail, HT|]).
  - destruct final; [apply ends_fail, HT|by apply ends_ret].
  - apply andb_true_iff in He as [Hp Hl]. eapply ends_bind; [apply ends_wrap; by apply applyEntry_ends|].
    intros _ a' HT'. by apply IH.
Qed.

Lemma keep_host {A} T (m : OS A) : preserves same_place m -> preserves (keep T) (on_host m).
Proof.
  intros Hm a (H1 & H2 & H3). destruct a as [[f b] w sy]. unfold on_host, clear, alarm, image_links in *. simpl in *.
  specialize (Hm w). destruct (m w) as [o w']. simpl in *. by rewrite (q_host L f w w').
Qed.

Lemma ApplyLayer_ends gz (tar : tar_reader) fuel ctx layer diffID a :
  (forall reader, Forall (fun e => plain_entry e = true) (fst (tar reader))) ->
  clear [] a -> wp (ApplyLayer gz tar fuel ctx layer diffID) (ends []) a.
Proof.
  intros Ht HT. unfold ApplyLayer.
  eapply (ends_bind []); [eapply ends_keep; [|exact HT]; apply keep_host; unfold os_ReadFile; solve_calls|]. intros file a1 HT1.
  eapply (ends_bind []); [split; [apply HT1|done]|]. intros reader a2 HT2.
  specialize (Ht reader). destruct (tar reader) as [entries final].
  eapply ends_bind; [by apply apply_entries_ends|]. intros t a3 HT3.
  eapply (ends_bind []); [split; [apply HT3|done]|]. intros t' a4 HT4.
  by apply ends_fail_if.
Qed.

Lemma apply_layers_ends gz (tar : tar_reader) fuel i ctx layers a :
  (forall reader, Forall (fun e => plain_entry e = true) (fst (tar reader))) ->
  clear [] a -> wp (apply_layers gz tar fuel i ctx layers) (ends []) a.
Proof.
  intros Ht. revert i a. induction layers as [|layer rest IH]; intros i a HT; cbn [apply_layers]; [by apply ends_ret|].
  eapply ends_bind; [by apply ApplyLayer_ends|]. intros _ a' HT'. by apply IH.
Qed.
End monitor.

(** C10: Layers are applied without ever writing through a symbolic link of the image. For every
    library that makes links only where [Symlink] is told to, every list of layers whose names
    hold no backslash, every failure and panic of the library and every end of the context: no
    file is opened or created, no directory or link made, and no mode or owner changed at a path
    one of whose directories is a symbolic link made by any layer before, and no link is opened
    or read as a file. After success the map of links still knows every link of the image. *)
Theorem layers_never_follow_links {FS} (raw : Ext4 FS) links gz (tar : tar_reader) fuel ctx layers f w :
  LinkLaws raw links ->
  (forall reader, Forall (fun e => plain_entry e = true) (fst (tar reader))) ->
  links (f, w) = ∅ ->
  let r := @apply_layers _ (monitored raw links) gz tar fuel 1 ctx layers (Applier (f, false) w ∅) in
  alarm (snd r) = false /\ (is_Ok (fst r) = true -> image_links links (snd r) ⊆ a_Symlinks (snd r)).
Proof.
  intros L Ht Hl r.
  assert (HE : wp (@apply_layers _ (monitored raw links) gz tar fuel 1 ctx layers)
     (ends links []) (Applier (f, false) w ∅)).
  { apply apply_layers_ends; [done|done|]. split_and!; [done| |constructor].
    unfold image_links. simpl. by rewrite Hl. }
  destruct HE as [H1 H2]. split; [exact H1|]. intros Ho. by apply H2.
Qed.

(** ** The recursion of [removeAll] ends *)

Section removal.
Context {FS : Type} `{IE : Ext4 FS} (height : string -> nat).
Hypothesis no_panic_Stat : forall p, no_panic (fs_Stat p).
Hypothesis no_panic_ReadDir : forall p, no_panic (fs_ReadDir p).
Hypothesis no_panic_Remove : forall p, no_panic (fs_Remove p).
(** What a directory lists lies lower than the directory, whatever the state. *)
Hypothesis lists_lower : forall p s entries s',
  fs_ReadDir p s = (Ok entries, s') -> Forall (fun entry => height (Join [p; fst entry]) < height p) entries.

Lemma no_panic_for_each_Forall {S A} (l : list A) (body : A -> GoM S unit) :
  Forall (fun x => no_panic (body x)) l -> no_panic (for_each l body).
Proof. induction 1; cbn [for_each]; [done|]. by apply no_panic_bind. Qed.

Lemma no_panic_on_fs {A} (m : GoM (FS * world) A) : no_panic m -> no_panic (on_fs m).
Proof.
  intros Hm [f w sy] v a'. unfold on_fs. simpl. specialize (Hm (f, w)).
  destruct (m (f, w)) as [o [f' w']]. intros [= -> _]. by eapply Hm.
Qed.

Lemma removeAll_no_panic fuel target : height target < fuel -> no_panic (removeAll fuel target).
Proof.
  revert target. induction fuel as [|fuel IH]; intros target Hh; [lia|]. cbn [removeAll].
  case_decide; [solve_no_panic|]. apply no_panic_bind; [by intros a|]. intros l.
  assert (HR : no_panic (on_fs (fs_Remove target))) by auto using no_panic_on_fs.
  destruct l; [apply no_panic_bind; [by intros a|done]|].
  apply no_panic_bind; [apply no_panic_attempt; auto using no_panic_on_fs|]. intros [err|is_dir].
  { destruct (not_exist err); solve_no_panic. }
  apply no_panic_bind; [|done]. destruct is_dir; [|solve_no_panic].
  intros a v a'. unfold mbind, GoM_bind, attempt, on_fs. destruct a as [f w sy]. simpl.
  pose proof (lists_lower target (f, w)) as HL. pose proof (no_panic_ReadDir target (f, w)) as HN.
  destruct (fs_ReadDir target (f, w)) as [[entries|e|u] [f' w']]; [|by destruct (not_exist e)|by destruct (HN u (f', w'))].
  apply no_panic_for_each_Forall. eapply Forall_impl; [by eapply HL|]. intros name Hn. simpl in Hn.
  apply IH. unfold Join in Hn |- *. lia.
Qed.
End removal.

(** A file system in memory, to run the applier on. *)
Inductive dnode := DDir | DFile (data : string) | DLink (target : string).
Record memfs := Mem {
  mem_nodes : gmap string dnode;
  mem_open : string;             (* the path of the file opened last *)
  mem_home : list string         (* the backing file *)
}.

Definition mem_update (f : gmap string dnode -> string -> outcome (gmap string dnode)) :
    GoM (memfs * world) unit := fun '(m, w) =>
  match f (mem_nodes m) (mem_open m) with
  | Ok nodes => (Ok tt, (Mem nodes (mem_open m) (mem_home m), w))
  | Err e => (Err e, (m, w))
  | Panic v => (Panic v, (m, w))
  end.
Definition mem_read {A} (f : gmap string dnode -> outcome A) : GoM (memfs * world) A :=
  fun '(m, w) => (f (mem_nodes m), (m, w)).
Definition mem_add (p : string) (n : dnode) : GoM (memfs * world) unit := mem_update (fun m _ =>
  match m !! p with Some _ => Err (Errno EEXIST) | None => Ok (<[p := n]> m) end).
Definition mem_meta (p : string) : GoM (memfs * world) unit :=
  mem_read (fun m => if m !! p is Some _ then Ok tt else Err (Errno ENOENT)).

#[export] Instance mem_Ext4 : Ext4 memfs := {|
  fs_Stat p := mem_read (fun m =>
    match m !! p with Some DDir => Ok true | Some (DFile _) => Ok false | _ => Err (Errno ENOENT) end);
  fs_Mkdir p := mem_add p DDir;
  fs_OpenFile p t := fun '(m, w) =>
    match mem_nodes m !! p with
    | Some (DFile d) => (Ok 0, (Mem (<[p := DFile (if t then "" else d)]> (mem_nodes m)) p (mem_home m), w))
    | Some _ => (Err (Errno EISDIR), (m, w))
    | None => (Ok 0, (Mem (<[p := DFile ""]> (mem_nodes m)) p (mem_home m), w))
    end;
  fs_Write _ data := mem_update (fun m h =>
    Ok (alter (fun n => match n with DFile d => DFile (d +:+ data) | _ => n end) h m));
  fs_CloseFile _ := mem_read (fun _ => Ok tt);
  fs_ReadFile p := mem_read (fun m => match m !! p with Some (DFile d) => Ok d | _ => Err (Errno ENOENT) end);
  fs_ReadLink p := mem_read (fun m => match m !! p with Some (DLink t) => Ok t | _ => Err (Errno EINVAL) end);
  fs_Symlink t p := mem_add p (DLink t);
  fs_Remove p := mem_update (fun m _ => Ok (delete p m));
  fs_ReadDir p := mem_read (fun m =>
    Ok (prod_map Base (fun n => match n with DDir => true | _ => false end)
          <$> filter (fun e => Dir (fst e) = p /\ String.length p < String.length (Join [p; Base (fst e)]) <= 64) (map_to_list m)));
  fs_Chmod p _ := mem_meta p;
  fs_Chown p _ _ := mem_meta p;
  fs_Close := mem_read (fun _ => Ok tt)
|}.

Definition is_dlink (n : dnode) : bool := match n with DLink _ => true | _ => false end.
Definition mem_links (s : memfs * world) : gset string :=
  dom (filter (fun kv : string * dnode => is_dlink kv.2 = true) (mem_nodes s.1)).

Lemma elem_of_mem_links p s : p ∈ mem_links s <-> exists t, mem_nodes s.1 !! p = Some (DLink t).
Proof.
  unfold mem_links. rewrite elem_of_dom. unfold is_Some. split.
  - intros [n [Hn Hd]%map_lookup_filter_Some]. destruct n; [done..|]. eauto.
  - intros [t Ht]. exists (DLink t). by apply map_lookup_filter_Some.
Qed.

Lemma mem_links_laws : LinkLaws mem_Ext4 mem_links.
Proof.
  assert (Hread : forall A (f : gmap string dnode -> outcome A), quiet mem_links (mem_read f)) by (by intros A f [m w]).
  assert (Hadd : forall p n s, mem_links (snd (mem_add p n s)) ⊆ (if is_dlink n then {[p]} else ∅) ∪ mem_links s).
  { intros p n [[m h hm] w] q. unfold mem_add, mem_update. simpl. destruct (m !! p) eqn:E; simpl; [set_solver|].
    rewrite elem_of_union, !elem_of_mem_links. simpl. intros [t [[-> ->]|[_ Ht]]%lookup_insert_Some]; simpl; [set_solver|eauto]. }
  split; intros; simpl; auto.
  - intros s q Hq. apply (Hadd p DDir s) in Hq. simpl in Hq. set_solver.
  - intros [[m h hm] w] q. simpl. destruct (m !! p) as [[|d|l]|] eqn:E; simpl; rewrite !elem_of_mem_links; simpl; try done;
      intros [t' [[? ?]|[_ Ht]]%lookup_insert_Some]; by eauto.
  - intros [[m h0 hm] w] q. simpl. rewrite !elem_of_mem_links. simpl. intros [t Ht]. destruct (decide (q = h0)) as [->|].
    + rewrite lookup_alter_eq in Ht. destruct (m !! h0) as [[]|]; simplify_eq/=. eauto.
    + rewrite lookup_alter_ne in Ht by done. eauto.
  - intros [[m h hm] w] q. simpl. rewrite !elem_of_mem_links. simpl. intros [t [_ Ht]%lookup_delete_Some]. eauto.
  - apply Hread.
  - apply Hread.
  - destruct s as [[m h hm] w]. cbn in H. injection H as <-. unfold not.
    rewrite elem_of_mem_links. simpl. intros [t [? _]%lookup_delete_Some]. done.
Qed.

(** A layer with a link, then a layer with a file below it. *)
Definition demo_links_tar : tar_reader := TarReader (fun reader =>
  if decide (fst reader = "one") then ([(entry "etc/l" "/bin" "2"%char, ("", None))], None)
  else ([(entry "etc/l/x" "" "0"%char, ("x", None))], None)) (fun _ _ => 1).
Definition demo_layers : list Oci.Layer :=
  [{| l_Digest := ""; l_DiffID := sha256_digest "one"; l_MediaType := ""; l_CompressedBlobPath := "/one"; l_Size := 3 |};
   {| l_Digest := ""; l_DiffID := sha256_digest "two"; l_MediaType := ""; l_CompressedBlobPath := "/two"; l_Size := 3 |}].
Definition demo_layers_world : world := with_file "/two" "two" (with_file "/one" "one" empty_world).
Definition demo_apply : outcome unit * applier (memfs * bool) :=
  @apply_layers _ (monitored mem_Ext4 mem_links) (fun _ => Err Canceled) demo_links_tar 8 1 (fun _ _ => None) demo_layers
    (Applier (Mem ∅ "" [], false) demo_layers_world ∅).

Lemma layers_never_follow_links_witness :
  fst demo_apply = Err (Wrapf "apply %q: %w" ["etc/l/x"] (Errorf "symlink parent %q" ["etc/l"]))
  /\ alarm (snd demo_apply) = false.
Proof.
  split; [vm_compute; reflexivity|]. unfold demo_apply.
  pose proof (layers_never_follow_links mem_Ext4 mem_links (fun _ => Err Canceled) demo_links_tar 8 (fun _ _ => None)
    demo_layers (Mem ∅ "" []) demo_layers_world) as H.
  cbv zeta in H. destruct H as [H _].
  - exact mem_links_laws.
  - intros reader. unfold demo_links_tar. simpl. case_decide; repeat constructor.
  - reflexivity.
  - exact H.
Defined.

(** ** The builder keeps the contract of [RootfsImageBuilder] *)

Section contract.
Context {FS Storage : Type} `{IE : Ext4 FS} `{ID : !Ext4Disk FS Storage}.
Context (gzip_NewReader : string -> outcome stream).
Context (tar_read : tar_reader).
(** The path of the host file an open backing file, and a mounted file system, live in. *)
Context (file_of : Storage -> list string) (home : FS -> list string).

(** The step wrote the file at [q] at most, and did not remove it. *)
Definition only_file (q : list string) (w w' : world) : Prop :=
  wf w -> framed (eq q) w w' /\ (is_Some (view w q) -> is_Some (view w' q)).

#[local] Instance only_file_preorder q : PreOrder (only_file q).
Proof.
  split.
  - intros w Hw. split; [|done]. by apply framed_same_place.
  - intros w1 w2 w3 H1 H2 Hw. destruct (H1 Hw) as [F1 S1]. destruct (H2 ltac:(apply F1)) as [F2 S2].
    split; [by eapply framed_trans|auto].
Qed.

Definition at_home {A} (m : GoM (FS * world) A) : Prop := forall f w,
  home (fst (snd (m (f, w)))) = home f /\ only_file (home f) w (snd (snd (m (f, w)))).

(** What the library is relied on for: a mounted file system writes nothing on the host but
    its backing file, whether its calls return, fail or panic. *)
Record HostLaws : Prop := {
  h_Stat p : at_home (fs_Stat p);
  h_Mkdir p : at_home (fs_Mkdir p);
  h_OpenFile p t : at_home (fs_OpenFile p t);
  h_Write h d : at_home (fs_Write h d);
  h_CloseFile h : at_home (fs_CloseFile h);
  h_ReadFile p : at_home (fs_ReadFile p);
  h_ReadLink p : at_home (fs_ReadLink p);
  h_Symlink o p : at_home (fs_Symlink o p);
  h_Remove p : at_home (fs_Remove p);
  h_ReadDir p : at_home (fs_ReadDir p);
  h_Chmod p m : at_home (fs_Chmod p m);
  h_Chown p u g : at_home (fs_Chown p u g);
  h_Close : at_home fs_Close;
  h_CreateFromPath path d c size w :
    abs_path path (d ++ [c]) -> wf w -> standing d w ->
    wp (file_CreateFromPath path size) (fun o w' => framed (eq (d ++ [c])) w w' /\
      (forall i, o = Ok i -> file_of i = d ++ [c] /\ is_Some (view w' (d ++ [c])))) w;
  h_ext4_Create i size w :
    only_file (file_of i) w (snd (ext4_Create i size w)) /\
    (forall f, fst (ext4_Create i size w) = Ok f -> home f = file_of i);
  h_storage_Close i : preserves (only_file (file_of i)) (storage_Close i)
}.

Context (L : HostLaws).

Definition homely (a a' : applier FS) : Prop :=
  home (a_FS a') = home (a_FS a) /\ only_file (home (a_FS a)) (a_host a) (a_host a').

#[local] Instance homely_preorder : PreOrder homely.
Proof.
  split; [by intros a; split|]. intros a b c [H1 F1] [H2 F2]. split; [congruence|].
  rewrite H1 in F2. by etrans.
Qed.

Lemma homely_fs {A} (m : GoM (FS * world) A) : at_home m -> preserves homely (on_fs m).
Proof.
  intros Hm [f w sy]. unfold on_fs, homely. simpl. specialize (Hm f w). by destruct (m (f, w)) as [o [f' w']].
Qed.

Lemma homely_host {A} (m : OS A) : preserves same_place m -> preserves homely (on_host m).
Proof.
  intros Hm [f w sy]. unfold on_host, homely. simpl. specialize (Hm w). destruct (m w) as [o w']. split; [done|].
  intros Hw. split; [by apply framed_same_place|]. destruct Hm as [HS _]. simpl. by rewrite (view_same_tree _ _ _ HS).
Qed.

Lemma homely_modify (g : gset string -> gset string) :
  preserves homely (modify (fun a : applier FS => Applier (a_FS a) (a_host a) (g (a_Symlinks a)))).
Proof. by intros [f w sy]. Qed.

#[local] Hint Resolve homely_preorder : go_preserves.
#[local] Hint Extern 1 (preserves homely (on_fs _)) => apply homely_fs : go_preserves.
#[local] Hint Resolve h_Stat h_Mkdir h_OpenFile h_Write h_CloseFile h_ReadFile h_ReadLink h_Symlink h_Remove h_ReadDir
  h_Chmod h_Chown h_Close : go_preserves.
Lemma homely_is_link p : preserves homely (is_link p).
Proof. apply preserves_gets, homely_preorder. Qed.
Lemma homely_mark p : preserves homely (mark_link p).
Proof. apply (homely_modify (fun s => {[p]} ∪ s)). Qed.
Lemma homely_unmark p : preserves homely (unmark_link p).
Proof. apply (homely_modify (fun s => s ∖ {[p]})). Qed.
#[local] Hint Resolve homely_is_link homely_mark homely_unmark : go_preserves.

Lemma homely_check_links current parts : preserves homely (check_links current parts).
Proof. revert current. induction parts as [|p l IH]; intros current; cbn [check_links]; solve_preserves. Qed.
Lemma homely_mkdir_parts current parts : preserves homely (mkdir_parts current parts).
Proof. revert current. induction parts as [|p l IH]; intros current; cbn [mkdir_parts]; solve_preserves. Qed.
#[local] Hint Resolve homely_check_links homely_mkdir_parts : go_preserves.
Lemma homely_ensure p : preserves homely (ensureNoSymlinkParents p).
Proof. unfold ensureNoSymlinkParents. solve_preserves. Qed.
Lemma homely_mkdirAll p : preserves homely (mkdirAll p).
Proof. unfold mkdirAll. solve_preserves. Qed.
Lemma homely_removeAll fuel p : preserves homely (removeAll fuel p).
Proof. revert p. induction fuel as [|fuel IH]; intros p; cbn [removeAll]; [by intros a|]. solve_preserves; apply IH. Qed.
#[local] Hint Resolve homely_ensure homely_mkdirAll homely_removeAll : go_preserves.
Lemma homely_removeChildren fuel p : preserves homely (removeChildren fuel p).
Proof. unfold removeChildren. solve_preserves. Qed.
Lemma homely_removeIfExists fuel p : preserves homely (removeIfExists fuel p).
Proof. unfold removeIfExists. solve_preserves. Qed.
Lemma homely_metadata p h b : preserves homely (applyMetadata p h b).
Proof. unfold applyMetadata. solve_preserves. Qed.
Lemma homely_write_and_close h d : preserves homely (write_and_close h d).
Proof. unfold write_and_close. solve_preserves. Qed.
#[local] Hint Resolve homely_removeChildren homely_removeIfExists homely_metadata homely_write_and_close : go_preserves.

Lemma homely_applyEntry fuel h r : preserves homely (applyEntry fuel h r).
Proof. unfold applyEntry, mkdir, writeFile, symlink, hardlink, removeSymlink. solve_preserves. Qed.
#[local] Hint Resolve homely_applyEntry : go_preserves.

Lemma homely_apply_entries fuel takes n ctx t entries final : preserves homely (apply_entries fuel takes n ctx t entries final).
Proof. revert n t. induction entries as [|[h r] l IH]; intros n t; cbn [apply_entries]; solve_preserves. Qed.
#[local] Hint Resolve homely_apply_entries : go_preserves.

Lemma homely_ReadFile p : preserves homely (on_host (os_ReadFile p)).
Proof. apply homely_host. unfold os_ReadFile. solve_calls. Qed.
#[local] Hint Resolve homely_ReadFile : go_preserves.

Lemma homely_apply_layers fuel i ctx layers :
  preserves homely (apply_layers gzip_NewReader tar_read fuel i ctx layers).
Proof.
  revert i. induction layers as [|l rest IH]; intros i; cbn [apply_layers]; [solve_preserves|].
  apply preserves_bind; [typeclasses eauto|unfold ApplyLayer; solve_preserves|intros _; apply IH].
Qed.

(** What a complete image promises: its file is there, and every layer was read to the end, by
    the decompressor and the tar reader, as a stream with the layer's diffID. *)
Definition verified (l : Oci.Layer) : Prop := exists file reader entries,
  layerReader gzip_NewReader file = Ok reader /\ tar_read reader = (entries, None)
  /\ snd reader = None /\ sha256_digest (fst reader) = l_DiffID l.
Definition verified_image (img : PulledImage) (v : vnode) : Prop := Forall verified (pi_Layers img).

Lemma apply_entries_final fuel takes n ctx reader t entries final a t' a' :
  tee_of reader t -> apply_entries fuel takes n ctx t entries final a = (Ok t', a') -> final = None /\ tee_of reader t'.
Proof.
  revert n t a. induction entries as [|[h r] l IH]; intros n t a Ht; cbn [apply_entries]; destruct (ctx n); try done.
  - destruct final; [done|]. intros [= <- _]. split; [done|by apply tee_of_Read].
  - intros (? & ? & _ & H)%bind_Ok. eapply IH; [|exact H]. by apply tee_of_Read.
Qed.

Lemma ApplyLayer_verified fuel ctx path diffID a x a' :
  ApplyLayer gzip_NewReader tar_read fuel ctx path diffID a = (Ok x, a') ->
  exists file reader entries, layerReader gzip_NewReader file = Ok reader
    /\ tar_read reader = (entries, None) /\ snd reader = None /\ sha256_digest (fst reader) = diffID.
Proof.
  unfold ApplyLayer. intros (file & a1 & E1 & H)%bind_Ok. apply bind_Ok in H as (reader & a2 & E2 & H).
  injection E2 as E2 <-. destruct (tar_read reader) as [entries final] eqn:Et.
  apply bind_Ok in H as (t & a3 & E3 & H). apply (apply_entries_final _ _ _ _ reader) in E3 as [-> Ht]; [|apply tee_of_start].
  apply bind_Ok in H as (t' & a4 & E4 & H). injection E4 as E4 _. apply fail_if_Ok in H as [H _].
  apply negb_false_iff, bool_decide_eq_true in H. exists file, reader, entries.
  pose proof (tee_drain_of reader t Ht) as Hd. destruct (snd reader) eqn:Hs; [congruence|]. destruct Hd as (t2 & E5 & E6).
  assert (t2 = t') as -> by congruence. rewrite E6 in H. by split_and!.
Qed.

Lemma apply_layers_verified fuel i ctx layers a x a' :
  apply_layers gzip_NewReader tar_read fuel i ctx layers a = (Ok x, a') -> Forall verified layers.
Proof.
  revert i a. induction layers as [|l rest IH]; intros i a; cbn [apply_layers]; [constructor|].
  intros (? & a1 & E & H)%bind_Ok. constructor; [by eapply ApplyLayer_verified|by eapply IH].
Qed.

Lemma with_applier_contract fuel ctx img filesystem w :
  let m := with_applier filesystem (defer (on_fs fs_Close) (apply_layers gzip_NewReader tar_read fuel 1 ctx (pi_Layers img))) in
  only_file (home filesystem) w (snd (m w)) /\ (forall x, fst (m w) = Ok x -> Forall verified (pi_Layers img)).
Proof.
  simpl. unfold with_applier. set (a := Applier filesystem w ∅).
  assert (HP : preserves homely (defer (on_fs fs_Close) (apply_layers gzip_NewReader tar_read fuel 1 ctx (pi_Layers img)))).
  { apply preserves_defer; [typeclasses eauto|auto with go_preserves|apply homely_apply_layers]. }
  specialize (HP a). destruct (defer _ _ a) as [o a'] eqn:E. destruct HP as [_ HP]. simpl in *. split; [exact HP|].
  intros x ->. apply defer_Ok in E as (a1 & E & _). by eapply apply_layers_verified.
Qed.

(** What the body of [Build] does before its deferred functions. *)
Lemma build_body fuel ctx img q storage size w :
  file_of storage = q -> is_Some (view w q) -> wf w ->
  wp (defer (storage_Close storage) (
        filesystem ← ext4_Create storage size;
        with_applier filesystem (defer (on_fs fs_Close) (apply_layers gzip_NewReader tar_read fuel 1 ctx (pi_Layers img)))))
    (fun o w' => framed (eq q) w w' /\ is_Some (view w' q) /\ (forall x, o = Ok x -> Forall verified (pi_Layers img))) w.
Proof.
  intros Hq Hs Hw. apply wp_defer, wp_bind. destruct (h_ext4_Create L storage size w) as [HC Hh]. rewrite Hq in HC, Hh.
  unfold wp at 1. destruct (ext4_Create storage size w) as [o w1]. simpl in *. destruct (HC Hw) as [F1 S1].
  assert (Hclose : forall w2, framed (eq q) w w2 -> is_Some (view w2 q) ->
    framed (eq q) w (snd (storage_Close storage w2)) /\ is_Some (view (snd (storage_Close storage w2)) q)).
  { intros w2 F2 S2. pose proof (h_storage_Close L storage w2) as H. rewrite Hq in H.
    destruct (H ltac:(apply F2)) as [F3 S3]. split; [by eapply framed_trans|auto]. }
  destruct o as [filesystem|e|v]; cbn [wp_cont].
  - specialize (Hh _ eq_refl). pose proof (with_applier_contract fuel ctx img filesystem w1) as [HW HV].
    rewrite Hh in HW. unfold wp. destruct (with_applier _ _ w1) as [o w2]. simpl in *.
    destruct (HW ltac:(apply F1)) as [F2 S2]. destruct (Hclose w2) as [F3 S3]; [by eapply framed_trans|auto|].
    by destruct (fst (storage_Close storage w2)).
  - unfold wp. destruct (Hclose w1) as [F3 S3]; [done|auto|]. by destruct (fst (storage_Close storage w1)).
  - unfold wp. destruct (Hclose w1) as [F3 S3]; [done|auto|]. by destruct (fst (storage_Close storage w1)).
Qed.
End contract.

(** C12: The builder in process is a [RootfsImageBuilder] as [EnsureRootfs] relies on it: over any
    library that keeps to its backing file on the host, whatever it returns and even if it panics
    anywhere, [Build] returns (its recover turns a panic into an error), changes nothing on the
    host but its output path, and succeeds only when the file is there and every layer was read
    to its end as a stream whose sha256 is the layer's diffID. *)
Theorem PureGoExt4Builder_contract {FS Storage} `{IE : Ext4 FS} `{ID : !Ext4Disk FS Storage} gz tar file_of home fuel :
  HostLaws file_of home ->
  @RootfsImageBuilderLaws (PureGoExt4Builder_Build gz tar fuel) (verified_image gz tar).
Proof.
  intros L ctx img path d c size w Hp Hw Hst. unfold Build, PureGoExt4Builder_Build.
  apply wp_recovering, wp_bind. eapply wp_mono; [|by apply (h_CreateFromPath file_of home L)].
  intros o w1 [F1 H1]. destruct o as [storage|e|v]; cbn [wp_cont]; [|by split..].
  destruct (H1 _ eq_refl) as [Hq Hs].
  eapply wp_mono; [|apply (build_body gz tar file_of home L fuel ctx img (d ++ [c])); [done|done|apply F1]].
  intros o w2 (F2 & [v Hv] & HV). assert (F : framed (eq (d ++ [c])) w w2) by (by eapply framed_trans).
  destruct o as [x|e|u]; (split; [exact F|]); [|done..]. exists v. split; [done|]. by eapply HV.
Qed.

(** The file system in memory over an empty backing file. *)
#[export] Instance mem_Disk : Ext4Disk memfs string := {|
  file_CreateFromPath path _ :=
    _ ← os_open path {| o_creat := true; o_excl := true; o_trunc := false; o_nofollow := false |} 420; mret path;
  storage_Close _ := mret tt;
  ext4_Create storage _ := mret (Mem ∅ "" (snd (cpath_of storage)))
|}.

Lemma mem_host_laws : HostLaws (IE := mem_Ext4) (fun path : string => snd (cpath_of path)) mem_home.
Proof.
  assert (Hread : forall A (f : gmap string dnode -> outcome A), at_home mem_home (mem_read f)) by (by intros A f [m h hm] w).
  assert (Hup : forall f, at_home mem_home (mem_update f)).
  { intros f [m h hm] w. unfold mem_update. simpl. by destruct (f m h). }
  split; intros; try apply Hread; try apply Hup.
  - intros [m h hm] w. simpl. by destruct (m !! p) as [[]|].
  - cbn [file_CreateFromPath mem_Disk]. apply wp_bind.
    eapply wp_mono; [|apply (wp_open_keep d c path H); done].
    intros o w' (F & _ & HR). destruct o; cbn [wp_cont]; [|by split..]. apply wp_ret. split; [done|].
    intros i [= <-]. by rewrite (abs_path_cpath _ _ H).
  - split; [done|]. by intros f [= <-].
  - by intros w.
Qed.

Definition demo_build_image : PulledImage := {|
  pi_Ref := "alpine"; pi_ManifestDigest := abc_digest; pi_ConfigDigest := abc_digest; pi_Config := demo_config;
  pi_Layers := [{| l_Digest := ""; l_DiffID := sha256_digest "two"; l_MediaType := "";
                   l_CompressedBlobPath := "/two"; l_Size := 3 |}];
  pi_Platform := {| p_OS := "linux"; p_Architecture := "amd64" |} |}.
Definition demo_build (w : world) : outcome unit * world :=
  PureGoExt4Builder_Build (fun _ => Err Canceled) demo_links_tar 8 (fun _ _ => None) demo_build_image "/out" 4096%Z w.

Lemma PureGoExt4Builder_contract_witness :
  is_Ok (fst (demo_build demo_layers_world)) = true
  /\ framed (eq ["out"]) demo_layers_world (snd (demo_build demo_layers_world)).
Proof.
  split; [vm_compute; reflexivity|]. unfold demo_build.
  pose proof (@PureGoExt4Builder_contract memfs string mem_Ext4 mem_Disk (fun _ => Err Canceled) demo_links_tar
    _ mem_home 8 mem_host_laws (fun _ _ => None) demo_build_image "/out" [] "out" 4096%Z demo_layers_world) as H.
  destruct H as [H _].
  - split; [reflexivity|by_decision].
  - apply wf_check_sound. vm_compute. reflexivity.
  - apply standing_check_ok. vm_compute. reflexivity.
  - exact H.
Defined.

(** Whiteouts and replacements end: [removeAll] descends at most as deep as the image's
    directories lie above one another, for any measure that what the library lists in a
    directory is lower by. With that much fuel it never runs out, whatever the library's calls
    return. *)
Theorem removeAll_returns {FS} `{IE : Ext4 FS} (height : string -> nat) fuel target a v :
  (forall p, no_panic (fs_Stat p)) -> (forall p, no_panic (fs_ReadDir p)) -> (forall p, no_panic (fs_Remove p)) ->
  (forall p s entries s', fs_ReadDir p s = (Ok entries, s') ->
     Forall (fun entry => height (Join [p; fst entry]) < height p) entries) ->
  height target < fuel ->
  fst (removeAll fuel target a) <> Panic v.
Proof.
  intros H1 H2 H3 H4 Hf E. destruct (removeAll fuel target a) as [o a'] eqn:Er. simpl in E. subst o.
  by eapply (removeAll_no_panic height H1 H2 H3 H4).
Qed.

Lemma removeAll_returns_witness :
  let a := Applier (Mem (<["a" := DDir]> (<["a/b" := DDir]> (<["a/b/c" := DFile "x"]> ∅))) "" []) empty_world ∅ in
  mem_nodes (a_FS (snd (removeAll 65 "a" a))) = ∅ /\ fst (removeAll 65 "a" a) <> Panic out_of_fuel.
Proof.
  intros a. split; [vm_compute; reflexivity|].
  apply (removeAll_returns (fun p => 64 - String.length p) 65 "a" a out_of_fuel).
  - intros p [m w] v s'. cbn. by destruct (mem_nodes m !! p) as [[]|].
  - by intros p [m w] v s'.
  - by intros p [[m h hm] w] v s'.
  - intros p [m w] entries s' E.
    injection E as <- _. apply Forall_forall. intros entry ([k n] & -> & [[_ H] _]%list_elem_of_filter)%list_elem_of_fmap.
    change (fst (prod_map Base _ (k, n))) with (Base k).
    set (X := String.length (Join [p; Base k])). change (String.length p < X <= 64) in H. lia.
  - simpl. lia.
Defined.
