(* ===== verification/Runtime.v ===== *)
(** * The image runtime

    [internal/runtime/runtime.go]: [New] fills a configuration's defaults in, [PrepareImage] turns
    an image reference into a root file system, from the cache when it can and otherwise by
    pulling the image and building its file system. *)

From S2P Require Import Prelude GoPath Sha256 HostFS Confine FileLaws Entries Config ContentStore Oci FileLock Rootfs.

Record PreparedImage := {
  pr_ImageRef : string;
  pr_ManifestDigest : string;
  pr_ChainID : string;
  pr_RootfsPath : string;
  pr_OCIConfigPath : string;
  pr_CacheHit : bool
}.

(** The part of a manifest the cache reads: [Config.Digest]. *)
Record imageManifest := { im_Config_Digest : string }.

(** [if x == "" { x = d }], [if x == 0 { x = d }] *)
Definition or_default (x d : string) : string := if decide (x = "") then d else x.
Definition or_default_Z (x d : Z) : Z := if decide (x = 0%Z) then d else x.

Definition New (cfg : Config.Config) : Config.Config :=
  let defaults := Config.Default in {|
    StoreDir := or_default (StoreDir cfg) (StoreDir defaults);
    KernelPath := or_default (KernelPath cfg) (KernelPath defaults);
    BootImagePath := or_default (BootImagePath cfg) (BootImagePath defaults);
    c_Platform := {|
      p_OS := or_default (p_OS (c_Platform cfg)) (p_OS (c_Platform defaults));
      p_Architecture := or_default (p_Architecture (c_Platform cfg)) (p_Architecture (c_Platform defaults)) |};
    c_Rootfs := {|
      MinSizeBytes := or_default_Z (MinSizeBytes (c_Rootfs cfg)) (MinSizeBytes (c_Rootfs defaults));
      MaxSizeBytes := MaxSizeBytes (c_Rootfs cfg);
      ExtraBytes := or_default_Z (ExtraBytes (c_Rootfs cfg)) (ExtraBytes (c_Rootfs defaults));
      FS := or_default (FS (c_Rootfs cfg)) (FS (c_Rootfs defaults)) |} |}.

Section runtime.
Context {Reference : Type} (ParseReference : string -> outcome Reference).
Context (remote_Image : Reference -> Config.Platform -> outcome RemoteImage).
Context `{JSON RawMessage} `{JSON RefMetadata} `{JSON imageManifest} `{JSON Rootfs.Metadata}.
Context `{JSONUnmarshal ImageConfig} `{RootfsImageBuilder}.
(** [Runtime.Config] *)
Variable cfg : Config.Config.

Definition preparedFromCache (ref : string) (platform : Config.Platform) : OS PreparedImage :=
  let Dir_ := StoreDir cfg in
  refMeta ← ReadJSON (A := RefMetadata) (RefPath Dir_ ref);
  fail_if (negb (bool_decide (OS_ (rm_Platform refMeta) = p_OS platform))
           || negb (bool_decide (Architecture (rm_Platform refMeta) = p_Architecture platform)))
    (Errorf "cached ref platform mismatch" []) ;;
  manifest ← ReadJSON (A := imageManifest) (ManifestPath Dir_ (rm_ManifestDigest refMeta));
  fail_if (bool_decide (im_Config_Digest manifest = "")) (Errorf "cached manifest has no config digest" []) ;;
  let configPath := ConfigPath Dir_ (im_Config_Digest manifest) in
  configBytes ← os_ReadFile configPath;
  imageConfig ← lift_outcome (json_Unmarshal (A := ImageConfig) configBytes);
  chainID ← lift_outcome (ComputeChainID (DiffIDs (ic_RootFS imageConfig)));
  let rootfsPath := RootfsPath Dir_ chainID in
  _ ← os_Stat rootfsPath;
  mret {| pr_ImageRef := ref; pr_ManifestDigest := rm_ManifestDigest refMeta; pr_ChainID := chainID;
          pr_RootfsPath := rootfsPath; pr_OCIConfigPath := configPath; pr_CacheHit := true |}.

Definition PrepareImage (ctx : context) (ref : string) (platform : Config.Platform) : OS PreparedImage :=
  fail_if (bool_decide (ref = "")) (Errorf "image ref is required" []) ;;
  let platform := {|
    p_OS := or_default (p_OS platform) (p_OS (c_Platform cfg));
    p_Architecture := or_default (p_Architecture platform) (p_Architecture (c_Platform cfg)) |} in
  let Dir_ := StoreDir cfg in
  Init Dir_ ;;
  r ← attempt (preparedFromCache ref platform);
  match r with
  | inr prepared => mret prepared
  | inl _ =>
      pulled ← Pull ParseReference remote_Image Dir_ ref platform;
      rootfs ← EnsureRootfs Dir_ ctx pulled;
      mret {| pr_ImageRef := ref; pr_ManifestDigest := pi_ManifestDigest pulled; pr_ChainID := r_ChainID rootfs;
              pr_RootfsPath := r_Path rootfs; pr_OCIConfigPath := ConfigPath Dir_ (pi_ConfigDigest pulled);
              pr_CacheHit := false |}
  end.
End runtime.

(** ** The configuration *)

(** [New] gives a complete configuration: no field a later step needs is empty, every field
    the caller set is kept, and filling in twice is filling in once. *)
Theorem New_complete cfg :
  let c := New cfg in
  StoreDir c <> "" /\ KernelPath c <> "" /\ BootImagePath c <> "" /\ p_OS (c_Platform c) <> ""
  /\ p_Architecture (c_Platform c) <> "" /\ FS (c_Rootfs c) <> "" /\ MinSizeBytes (c_Rootfs c) <> 0%Z
  /\ ExtraBytes (c_Rootfs c) <> 0%Z
  /\ (StoreDir cfg <> "" -> StoreDir c = StoreDir cfg) /\ (KernelPath cfg <> "" -> KernelPath c = KernelPath cfg)
  /\ (BootImagePath cfg <> "" -> BootImagePath c = BootImagePath cfg)
  /\ (p_OS (c_Platform cfg) <> "" -> p_OS (c_Platform c) = p_OS (c_Platform cfg))
  /\ (p_Architecture (c_Platform cfg) <> "" -> p_Architecture (c_Platform c) = p_Architecture (c_Platform cfg))
  /\ New c = c.
Proof.
  assert (Hs : forall x d, d <> "" -> or_default x d <> "") by (intros x d ?; unfold or_default; by case_decide).
  assert (Hz : forall x d, d <> 0%Z -> or_default_Z x d <> 0%Z) by (intros x d ?; unfold or_default_Z; by case_decide).
  assert (Hk : forall x d, x <> "" -> or_default x d = x) by (intros x d ?; unfold or_default; by case_decide).
  assert (Hi : forall x d, d <> "" -> or_default (or_default x d) d = or_default x d) by auto.
  assert (Hj : forall x d, d <> 0%Z -> or_default_Z (or_default_Z x d) d = or_default_Z x d).
  { intros x d ?. unfold or_default_Z at 1. rewrite decide_False by auto. done. }
  intros c. split_and!; try (by apply Hs); try (by apply Hz); try (by apply Hk).
  unfold c, New. cbn [StoreDir KernelPath BootImagePath c_Platform p_OS p_Architecture c_Rootfs MinSizeBytes MaxSizeBytes ExtraBytes FS].
  by rewrite !Hi, !Hj.
Qed.

(** ** The cache *)

Lemma place_ReadFile p : preserves same_place (os_ReadFile p).
Proof. unfold os_ReadFile. solve_calls. Qed.
#[export] Hint Resolve place_ReadFile : go_preserves.

(** Reading the file at [path], when nothing fails, gives [data]. *)
Definition holds (w : world) (path data : string) : Prop := fst (os_ReadFile path (set_faults [] w)) = Ok data.
Definition stat_ok (w : world) (path : string) : Prop := is_Ok (fst (os_Stat path (set_faults [] w))) = true.

Lemma same_place_read w w' path : same_place w w' ->
  fst (os_ReadFile path (set_faults [] w')) = fst (os_ReadFile path (set_faults [] w)).
Proof.
  intros [(E1 & E2 & E3) E4]. unfold os_ReadFile, syscall. os_unfold. unfold resolve.
  cbn [w_faults set_faults w_nodes w_cwd w_inodes]. rewrite E1, E4.
  destruct (if decide (path = "") then _ else _) as [e|q]; [done|]. simpl. rewrite E1.
  destruct (w_nodes w !! q) as [[]|]; simpl; by rewrite ?E2.
Qed.

Lemma os_ReadFile_holds path w data w' : os_ReadFile path w = (Ok data, w') -> holds w path data.
Proof.
  intros (l & H)%syscall_Ok. revert H. unfold holds, os_ReadFile, syscall. cbn [w_faults set_faults].
  os_unfold. change (resolve true path (set_faults ?k w)) with (resolve true path w).
  destruct (resolve true path w) as [e|q]; [done|]. simpl.
  destruct (w_nodes w !! q) as [[]|]; simpl; congruence.
Qed.

Lemma os_Stat_ok path w info w' : os_Stat path w = (Ok info, w') -> stat_ok w path.
Proof.
  intros (l & H)%syscall_Ok. revert H. unfold stat_ok, os_Stat, stat_gen, syscall. cbn [w_faults set_faults].
  os_unfold. change (resolve true path (set_faults ?k w)) with (resolve true path w).
  destruct (resolve true path w) as [e|q]; [done|]. simpl.
  destruct (w_nodes w !! q) as [[]|]; simpl; done.
Qed.

Lemma same_place_stat w w' path : same_place w w' -> stat_ok w' path -> stat_ok w path.
Proof.
  intros [(E1 & E2 & E3) E4]. unfold stat_ok, os_Stat, stat_gen, syscall. cbn [w_faults set_faults].
  os_unfold. unfold resolve. cbn [w_faults set_faults w_nodes w_cwd w_inodes]. rewrite E1, E4.
  destruct (if decide (path = "") then _ else _) as [e|q]; [done|]. simpl. rewrite E1.
  by destruct (w_nodes w !! q) as [[]|].
Qed.

Lemma holds_same_place w w' path data : same_place w w' -> holds w' path data -> holds w path data.
Proof. intros HS. unfold holds. by rewrite (same_place_read w w'). Qed.

Section cache.
Context `{IR : JSON RefMetadata} `{IM : JSON imageManifest} `{IC : JSONUnmarshal ImageConfig}.
Context (cfg : Config.Config).
Abbreviation Dir_ := (StoreDir cfg).

Lemma preparedFromCache_same_place ref platform : preserves same_place (preparedFromCache cfg ref platform).
Proof. unfold preparedFromCache, ReadJSON, os_Stat. solve_preserves. Qed.

(** What a hit rests on: three documents of the store that lead from the reference to the chain
    identifier, and the image's file. *)
Definition cached (w : world) (ref : string) (platform : Config.Platform) (p : PreparedImage) : Prop :=
  exists refBytes refMeta manifestBytes manifest configBytes config chainID,
    holds w (RefPath Dir_ ref) refBytes /\ json_Decode refBytes = Ok refMeta
    /\ OS_ (rm_Platform refMeta) = p_OS platform /\ Architecture (rm_Platform refMeta) = p_Architecture platform
    /\ holds w (ManifestPath Dir_ (rm_ManifestDigest refMeta)) manifestBytes /\ json_Decode manifestBytes = Ok manifest
    /\ im_Config_Digest manifest <> ""
    /\ holds w (ConfigPath Dir_ (im_Config_Digest manifest)) configBytes /\ json_Unmarshal configBytes = Ok config
    /\ ComputeChainID (DiffIDs (ic_RootFS config)) = Ok chainID /\ stat_ok w (RootfsPath Dir_ chainID)
    /\ p = {| pr_ImageRef := ref; pr_ManifestDigest := rm_ManifestDigest refMeta; pr_ChainID := chainID;
              pr_RootfsPath := RootfsPath Dir_ chainID; pr_OCIConfigPath := ConfigPath Dir_ (im_Config_Digest manifest);
              pr_CacheHit := true |}.

Lemma ReadJSON_Ok {A} `{JSON A} path w (a : A) w' :
  ReadJSON path w = (Ok a, w') -> exists data, holds w path data /\ json_Decode data = Ok a /\ same_place w w'.
Proof.
  intros (data & w1 & E1 & E2)%bind_Ok. injection E2 as E2 <-. exists data.
  pose proof (place_ReadFile path w) as HS. rewrite E1 in HS. split_and!; [by eapply os_ReadFile_holds|done|done].
Qed.

Lemma preparedFromCache_cached ref platform w p w' :
  preparedFromCache cfg ref platform w = (Ok p, w') -> cached w ref platform p.
Proof.
  unfold preparedFromCache. intros (refMeta & w1 & E1 & E)%bind_Ok.
  apply ReadJSON_Ok in E1 as (rb & R1 & R2 & S1). apply bind_Ok in E as ([] & w1' & [E2 ->]%fail_if_Ok & E).
  apply orb_false_iff in E2 as [P1%negb_false_iff%bool_decide_eq_true P2%negb_false_iff%bool_decide_eq_true].
  apply bind_Ok in E as (manifest & w2 & E3 & E). apply ReadJSON_Ok in E3 as (mb & M1 & M2 & S2).
  apply bind_Ok in E as ([] & w2' & [D%bool_decide_eq_false ->]%fail_if_Ok & E).
  apply bind_Ok in E as (cb & w3 & E4 & E). pose proof (place_ReadFile (ConfigPath Dir_ (im_Config_Digest manifest)) w2) as S3. rewrite E4 in S3.
  apply os_ReadFile_holds in E4. apply bind_Ok in E as (config & w4 & E5 & E). injection E5 as C2 <-.
  apply bind_Ok in E as (chainID & w5 & E6 & E). injection E6 as I <-.
  apply bind_Ok in E as (info & w6 & E7 & E). injection E as <- <-. apply os_Stat_ok in E7.
  exists rb, refMeta, mb, manifest, cb, config, chainID. split_and!; try done.
  - by eapply holds_same_place.
  - eapply holds_same_place; [by etrans|done].
  - eapply same_place_stat; [|exact E7]. do 2 (etrans; [eassumption|]). done.
Qed.

Definition with_ref (ref : string) (p : PreparedImage) : PreparedImage := {|
  pr_ImageRef := ref; pr_ManifestDigest := pr_ManifestDigest p; pr_ChainID := pr_ChainID p;
  pr_RootfsPath := pr_RootfsPath p; pr_OCIConfigPath := pr_OCIConfigPath p; pr_CacheHit := pr_CacheHit p |}.
Definition map_outcome {A B} (f : A -> B) (o : outcome A) : outcome B :=
  match o with Ok a => Ok (f a) | Err e => Err e | Panic v => Panic v end.

Lemma preparedFromCache_ref r1 r2 platform w :
  EscapeRef r1 = EscapeRef r2 ->
  preparedFromCache cfg r1 platform w =
    (map_outcome (with_ref r1) (fst (preparedFromCache cfg r2 platform w)), snd (preparedFromCache cfg r2 platform w)).
Proof.
  intros E. unfold preparedFromCache.
  replace (RefPath Dir_ r1) with (RefPath Dir_ r2) by (unfold RefPath; by rewrite E).
  unfold mbind, GoM_bind. destruct (ReadJSON (RefPath Dir_ r2) w) as [[refMeta|e|v] w1]; [|done..].
  destruct (fail_if _ _ w1) as [[[]|e|v] w2]; [|done..].
  destruct (ReadJSON _ w2) as [[manifest|e|v] w3]; [|done..].
  destruct (fail_if _ _ w3) as [[[]|e|v] w4]; [|done..].
  destruct (os_ReadFile _ w4) as [[cb|e|v] w5]; [|done..].
  destruct (lift_outcome _ w5) as [[config|e|v] w6]; [|done..].
  destruct (lift_outcome _ w6) as [[chainID|e|v] w7]; [|done..].
  by destruct (os_Stat _ w7) as [[info|e|v] w8].
Qed.
End cache.

(** ** Preparing an image *)

Section prepare.
Context {Reference : Type} (ParseReference : string -> outcome Reference).
Context (remote_Image : Reference -> Config.Platform -> outcome RemoteImage).
Context `{IB : RootfsImageBuilder} {good_image : PulledImage -> vnode -> Prop} {IL : RootfsImageBuilderLaws good_image}.
Context `{IW : JSON RawMessage} `{IR : JSON RefMetadata} `{IM : JSON imageManifest} `{IT : JSON Rootfs.Metadata}.
Context `{IC : JSONUnmarshal ImageConfig}.
Context (cfg : Config.Config) (Habs : IsAbs (StoreDir cfg) = true).
Abbreviation Dir_ := (StoreDir cfg).
Abbreviation dc := (snd (cpath_of (StoreDir cfg))).

Definition rootfs_dirs : list (list string) := [completec Dir_; buildingc Dir_; locksc Dir_].
Definition socketc : list string := dc ++ ["firecracker"; "sockets"].
Definition logc : list string := dc ++ ["firecracker"; "logs"].

(** A store whose directories have been made, with no symbolic link among the locks. *)
Definition runtime_ready (w : world) : Prop :=
  store_ok Dir_ w /\ ready_dirs Dir_ w /\ standing socketc w /\ standing logc w
  /\ forall c t m, w_nodes w !! (locksc Dir_ ++ [c]) <> Some (NSymlink t m).

Lemma dirs_apart d D : d ∈ rootfs_dirs -> D ∈ pull_dirs Dir_ -> ~ below d D /\ ~ below D d.
Proof.
  unfold rootfs_dirs, pull_dirs. rewrite !elem_of_cons, !elem_of_nil.
  intros [->|[->|[->|[]]]] [->|[->|[->|[->|[]]]]]; (split; not_below).
Qed.

Lemma rootfs_dirs_apart d D : d ∈ rootfs_dirs -> D ∈ rootfs_dirs -> ~ below d D.
Proof.
  unfold rootfs_dirs. rewrite !elem_of_cons, !elem_of_nil.
  intros [->|[->|[->|[]]]] [->|[->|[->|[]]]]; first [apply below_irrefl|not_below].
Qed.

Lemma view_symlink w p t m : w_nodes w !! p = Some (NSymlink t m) <-> view w p = Some (VLink t m).
Proof. unfold view. destruct (w_nodes w !! p) as [[]|]; simpl; split; congruence. Qed.

(** Changes in the directories of pulls leave those of root file systems ready. *)
Lemma ready_dirs_pull w w' : framed (in_dirs (pull_dirs Dir_)) w w' -> ready_dirs Dir_ w -> ready_dirs Dir_ w'.
Proof.
  intros F (Hw & S1 & S2 & S3). split; [apply F|].
  split_and!; (eapply framed_standing; [exact F| |done]); intros p Hp (d & c & Hd & ->);
    (eapply entry_not_prefix; [|exact Hp|reflexivity]; eapply (dirs_apart _ d); [|exact Hd];
     unfold rootfs_dirs; rewrite !elem_of_cons; auto).
Qed.

Lemma no_lock_links_pull w w' :
  framed (in_dirs (pull_dirs Dir_)) w w' -> (forall c t m, w_nodes w !! (locksc Dir_ ++ [c]) <> Some (NSymlink t m)) ->
  forall c t m, w_nodes w' !! (locksc Dir_ ++ [c]) <> Some (NSymlink t m).
Proof.
  intros [_ F] Hl c t m E%view_symlink. rewrite F in E; [by apply view_symlink, Hl in E|].
  intros (d & c' & Hd & [E' _]%app_inj_tail). subst d. unfold pull_dirs in Hd.
  rewrite !elem_of_cons, elem_of_nil in Hd. by destruct Hd as [E'%app_inv_head|[E'%app_inv_head|[E'%app_inv_head|[E'%app_inv_head|[]]]]].
Qed.

Lemma standing_pull D w w' :
  D ∈ [socketc; logc] -> framed (in_dirs (pull_dirs Dir_)) w w' -> standing D w -> standing D w'.
Proof.
  intros HD F. eapply framed_standing; [exact F|]. intros p Hp (d & c & Hd & ->).
  eapply entry_not_prefix; [|exact Hp|reflexivity]. unfold pull_dirs in Hd.
  rewrite !elem_of_cons, elem_of_nil in HD. rewrite !elem_of_cons, elem_of_nil in Hd.
  destruct HD as [->|[->|[]]], Hd as [->|[->|[->|[->|[]]]]]; not_below.
Qed.

(** Changes among the root file systems leave the store of blobs and documents sound. *)
Lemma store_step_rootfs (S : list string -> Prop) w w' :
  (forall p, S p -> exists d c, d ∈ rootfs_dirs /\ p = d ++ [c]) ->
  framed S w w' -> store_ok Dir_ w -> store_step Dir_ w w'.
Proof.
  intros HS [Hw' F] [(Hw & H1 & H2 & H3 & H4) Hi].
  assert (Hst : forall D, D ∈ pull_dirs Dir_ -> standing D w -> standing D w').
  { intros D HD. apply (framed_standing S); [by split|]. intros p Hp (d & c & Hd & ->)%HS.
    eapply entry_not_prefix; [|exact Hp|reflexivity]. exact (proj1 (dirs_apart d D Hd HD)). }
  assert (Hb : forall enc, view w' (blobc Dir_ ++ [enc]) = view w (blobc Dir_ ++ [enc])).
  { intros enc. apply F. intros (d & c & Hd & [E _]%app_inj_tail)%HS. subst d. unfold rootfs_dirs in Hd.
    rewrite !elem_of_cons, elem_of_nil in Hd. by destruct Hd as [E%app_inv_head|[E%app_inv_head|[E%app_inv_head|[]]]]. }
  split; [split|].
  - split_and!; [done|apply Hst; [unfold pull_dirs; rewrite !elem_of_cons; auto|done]..].
  - intros enc v Hh Hne Hv. rewrite Hb in Hv. by apply Hi.
  - intros x _ (enc & data & m & E & Hx & Hv). exists enc, data, m. by rewrite Hb.
Qed.

Lemma same_place_framed (S : list string -> Prop) w w' : wf w -> same_place w w' -> framed S w w'.
Proof. apply framed_same_place. Qed.

Lemma standing_same_place D w w' : same_place w w' -> standing D w -> standing D w'.
Proof. intros [(E & _) _] H p Hp. rewrite E. by apply H. Qed.

Lemma wp_mkdirs l w0 w :
  Forall (fun dir => exists D, abs_path dir D /\ standing D w0) l -> same_place w0 w ->
  wp (for_each l (fun dir => os_MkdirAll dir 493)) (fun o w' => same_place w0 w' /\ tame o) w.
Proof.
  intros Hl. revert w. induction Hl as [|dir l (D & Hp & HD) _ IH]; intros w HS; cbn [for_each]; [by apply wp_ret|].
  apply wp_bind. eapply wp_mono; [|apply (wp_MkdirAll_standing dir D); [done|by eapply standing_same_place]].
  intros o w1 HS1. destruct o as [[]|e|v]; cbn [wp_cont]; [|split; [by etrans|exact I]|done].
  apply IH. by etrans.
Qed.

Lemma wp_Init w : runtime_ready w -> wp (Init Dir_) (fun o w' => same_place w w' /\ tame o) w.
Proof.
  intros (((_ & B1 & B2 & B3 & B4) & _) & (_ & R1 & R2 & R3) & F1 & F2 & _). unfold Init. apply wp_mkdirs; [|reflexivity].
  unfold BlobDir. repeat (apply Forall_cons; split; [eexists; split; [apply Join_abs_list; [done|done|by_decision]|eassumption]|]).
  done.
Qed.

Lemma runtime_ready_same_place w w' : same_place w w' -> runtime_ready w -> runtime_ready w'.
Proof.
  intros HS (H1 & H2 & H3 & H4 & H5). pose proof H2 as (Hw & _).
  split; [|split; [|split; [by eapply standing_same_place|split; [by eapply standing_same_place|]]]].
  - eapply (store_step_rootfs (fun _ => False)); [done|by apply framed_same_place|done].
  - eapply ready_dirs_pull; [by apply framed_same_place|done].
  - eapply no_lock_links_pull; [by apply framed_same_place|done].
Qed.

(** Each image file is as before, or holds what the builder completed for an image with that
    chain identifier. *)
Definition images_whole (w w' : world) : Prop := forall enc, str_all is_hex enc = true -> enc <> "" ->
  let q := completec Dir_ ++ [enc +:+ ".ext4"] in
  view w' q = view w q
  \/ exists img v, view w' q = Some v /\ good_image img v
       /\ ComputeChainID (DiffIDs (ic_RootFS (pi_Config img))) = Ok ("sha256:" +:+ enc).

Definition runtime_dirs : list (list string) := pull_dirs Dir_ ++ rootfs_dirs.

(** What a preparation that got to [w'] has kept. *)
Definition prepared_ok (w w' : world) : Prop :=
  store_step Dir_ w w' /\ framed (in_dirs runtime_dirs) w w' /\ images_whole w w'.

Lemma prepared_framed w w' :
  store_ok Dir_ w -> framed (in_dirs (pull_dirs Dir_)) w w' -> store_step Dir_ w w' -> prepared_ok w w'.
Proof.
  intros Hok F Hs. split_and!; [done| |].
  - eapply framed_weaken; [|exact F]. intros p (d & c & Hd & ->). exists d, c. split; [|done].
    apply elem_of_app. by left.
  - intros enc Hh Hne. left. apply F. intros (d & c & Hd & [E _]%app_inj_tail). subst d. unfold pull_dirs in Hd.
    rewrite !elem_of_cons, elem_of_nil in Hd. by destruct Hd as [E%app_inv_head|[E%app_inv_head|[E%app_inv_head|[E%app_inv_head|[]]]]].
Qed.

Lemma prepared_same_place w w' : store_ok Dir_ w -> same_place w w' -> prepared_ok w w'.
Proof.
  intros Hok HS. apply prepared_framed; [done|apply framed_same_place; [apply Hok|done]|].
  eapply (store_step_rootfs (fun _ => False)); [done|apply framed_same_place; [apply Hok|done]|done].
Qed.

Lemma hex_no_j enc : str_all is_hex enc = true -> no_char "j"%char (enc +:+ ".ext4") = true.
Proof. intros Hh. by rewrite no_char_app, hex_no_char. Qed.

Lemma image_name_own enc enc0 :
  str_all is_hex enc = true -> enc <> "" -> own_name enc0 (enc +:+ ".ext4") -> enc = enc0.
Proof.
  intros Hh Hne [E|[E|[k E]]].
  - by apply app_inj_r in E.
  - pose proof (hex_no_j enc Hh) as H. rewrite E, no_char_app in H. by apply andb_true_iff in H as [_ H].
  - unfold temp_name in E. destruct enc as [|a enc]; [done|]. by injection E as -> _.
Qed.

(** From the start to just after the image was made. *)
Lemma prepared_image img enc w w1 w2 :
  ComputeChainID (DiffIDs (ic_RootFS (pi_Config img))) = Ok ("sha256:" +:+ enc) ->
  prepared_ok w w1 -> progress (good_image := good_image) Dir_ img enc w1 w2 -> prepared_ok w w2.
Proof.
  intros Hid (S1 & F1 & I1) [F2 I2]. pose proof S1 as [Hok _].
  assert (Ht : forall p, touched Dir_ enc p -> exists d c, d ∈ rootfs_dirs /\ p = d ++ [c]).
  { intros p [(c & -> & _)|[-> | ->]]; (eexists _, _; split; [|reflexivity]); unfold rootfs_dirs; rewrite !elem_of_cons; auto. }
  split_and!.
  - eapply store_step_trans; [exact S1|]. by eapply store_step_rootfs.
  - eapply framed_trans; [exact F1|]. eapply framed_weaken; [|exact F2].
    intros p (d & c & Hd & ->)%Ht. exists d, c. split; [|done]. apply elem_of_app. by right.
  - intros e He Hne. destruct (decide (e = enc)) as [->|Hd].
    + destruct I2 as [I2|(v & I2 & Hg)]; [|right; by exists img, v]. simpl. rewrite I2. by apply I1.
    + assert (E : view w2 (completec Dir_ ++ [e +:+ ".ext4"]) = view w1 (completec Dir_ ++ [e +:+ ".ext4"])).
      { apply F2. intros [(c & [_ Ec]%app_inj_tail & Ho)|[E|E]].
        - subst c. by apply image_name_own in Ho.
        - apply app_inj_tail in E as [E _]. by apply app_inv_head in E.
        - apply app_inj_tail in E as [E _]. by apply app_inv_head in E. }
      simpl. rewrite E. by apply I1.
Qed.

Lemma wp_Prepare_build ctx img w w1 (Q : outcome Rootfs -> world -> Prop) :
  runtime_ready w1 -> prepared_ok w w1 -> (forall (m : Rootfs.Metadata) v, json_Encode m <> Panic v) ->
  (forall e w2, prepared_ok w w2 -> Q (Err e) w2) ->
  (forall enc w2, prepared_ok w w2 -> str_all is_hex enc = true -> enc <> "" ->
     is_Some (view w2 (completec Dir_ ++ [enc +:+ ".ext4"])) ->
     Q (Ok {| r_ChainID := "sha256:" +:+ enc; r_Path := RootfsPath Dir_ ("sha256:" +:+ enc) |}) w2) ->
  wp (EnsureRootfs Dir_ ctx img) Q w1.
Proof.
  intros (Hok & Hr & _ & _ & Hl) P HnpM He Hk.
  destruct (ComputeChainID (DiffIDs (ic_RootFS (pi_Config img)))) as [id|e|v] eqn:Hid.
  - destruct (ComputeChainID_hex _ _ Hid) as (enc & -> & Hh & Hne).
    eapply wp_mono; [|apply (wp_EnsureRootfs (IL := IL) Dir_ Habs HnpM img enc Hh Hne ctx w1 Hid Hr); auto].
    intros o w2 [P2 HR]. assert (P' : prepared_ok w w2) by (by eapply prepared_image).
    destruct o as [r|e|v]; [|by apply He|done]. destruct HR as [-> HR]. by apply Hk.
  - unfold EnsureRootfs. rewrite Hid. by apply He.
  - by apply ComputeChainID_no_panic in Hid.
Qed.
End prepare.

(** A cache hit is exactly what the store says: it changes nothing, and the prepared image
    comes from the reference's metadata, its manifest, its config and its root file system, all
    of them in the store and for the platform asked for. *)
Theorem preparedFromCache_hit `{IR : JSON RefMetadata} `{IM : JSON imageManifest} `{IC : JSONUnmarshal ImageConfig}
    cfg ref platform w :
  same_place w (snd (preparedFromCache cfg ref platform w))
  /\ forall p, fst (preparedFromCache cfg ref platform w) = Ok p -> cached cfg w ref platform p.
Proof.
  split; [apply preparedFromCache_same_place|]. intros p E.
  destruct (preparedFromCache cfg ref platform w) as [o w'] eqn:E'. simpl in E. subst o.
  by eapply preparedFromCache_cached.
Qed.

(** C35: The cache does not look at which reference its metadata was written for: two references
    that differ only in the characters the file name escapes are answered alike, with the image
    of whichever was pulled last. *)
Theorem preparedFromCache_collision `{IR : JSON RefMetadata} `{IM : JSON imageManifest} `{IC : JSONUnmarshal ImageConfig}
    cfg r1 r2 platform w p :
  EscapeRef r1 = EscapeRef r2 ->
  fst (preparedFromCache cfg r2 platform w) = Ok p ->
  fst (preparedFromCache cfg r1 platform w) = Ok (with_ref r1 p).
Proof. intros E H. rewrite (preparedFromCache_ref cfg r1 r2 platform w E). simpl. by rewrite H. Qed.

Lemma no_panic_lift {S A} (o : outcome A) : tame o -> no_panic (S := S) (lift_outcome o).
Proof. by intros Ht s v s' [= -> _]. Qed.

Lemma preparedFromCache_no_panic `{IR : JSON RefMetadata} `{IM : JSON imageManifest} `{IC : JSONUnmarshal ImageConfig}
    cfg ref platform :
  (forall s, tame (json_Decode (A:=RefMetadata) s)) -> (forall s, tame (json_Decode (A:=imageManifest) s)) ->
  (forall s, tame (json_Unmarshal (A:=ImageConfig) s)) -> no_panic (preparedFromCache cfg ref platform).
Proof.
  intros H1 H2 H3. unfold preparedFromCache, ReadJSON, os_Stat.
  repeat first [solve [eauto with go_no_panic] | apply no_panic_bind; [|intros ?] | apply no_panic_lift; auto].
  destruct (ComputeChainID _) as [| |v] eqn:E; try exact I. by apply ComputeChainID_no_panic in E.
Qed.

(** What a prepared image names: the file under its chain identifier, which is there. *)
Definition prepared_at (cfg : Config.Config) (ref : string) (w : world) (p : PreparedImage) : Prop :=
  pr_ImageRef p = ref /\ exists enc, pr_ChainID p = "sha256:" +:+ enc /\ str_all is_hex enc = true /\ enc <> ""
  /\ pr_RootfsPath p = RootfsPath (StoreDir cfg) (pr_ChainID p)
  /\ is_Some (view w (completec (StoreDir cfg) ++ [enc +:+ ".ext4"])).

Lemma cached_prepared_at `{IR : JSON RefMetadata} `{IM : JSON imageManifest} `{IC : JSONUnmarshal ImageConfig}
    cfg ref platform w p :
  IsAbs (StoreDir cfg) = true -> standing (completec (StoreDir cfg)) w -> cached cfg w ref platform p ->
  prepared_at cfg ref w p.
Proof.
  intros Ha Hst (rb & rm & mb & m & cb & c & id & _ & _ & _ & _ & _ & _ & _ & _ & _ & Hid & Hs & ->).
  split; [done|]. destruct (ComputeChainID_hex _ _ Hid) as (enc & -> & Hh & Hne). exists enc. split_and!; try done.
  pose proof (wp_Stat (completec (StoreDir cfg)) (enc +:+ ".ext4") _ (set_faults [] w)
    (RootfsPath_at (StoreDir cfg) Ha enc Hh Hne) Hst) as HW.
  unfold wp, stat_ok in *. destruct (os_Stat _ (set_faults [] w)) as [[info|e|v] w']; simpl in *; [|done..].
  destruct HW as [_ HW]. by apply view_is_Some in HW.
Qed.

(** C13: [PrepareImage] is safe on every outcome and schedule of failures: it does not panic, the
    store stays sound, only entries of the store's directories change, and every image file is as
    it was or holds what the builder completed for an image with that chain identifier. When it
    succeeds, the root file system it names is there, under the chain identifier it names. *)
Theorem PrepareImage_safe {Reference} (ParseReference : string -> outcome Reference) remote_Image
    `{IB : RootfsImageBuilder} good_image `{IL : !RootfsImageBuilderLaws good_image}
    `{IW : JSON RawMessage} `{IR : JSON RefMetadata} `{IM : JSON imageManifest} `{IT : JSON Rootfs.Metadata}
    `{IC : JSONUnmarshal ImageConfig} cfg ctx ref platform w :
  IsAbs (StoreDir cfg) = true -> runtime_ready cfg w ->
  (forall r, tame (ParseReference r)) -> (forall r p, tame (remote_Image r p)) ->
  (forall r p img, remote_Image r p = Ok img -> hashes_ok img /\ image_tame img) ->
  (forall (m : RawMessage) v, json_Encode m <> Panic v) -> (forall (m : RefMetadata) v, json_Encode m <> Panic v) ->
  (forall (m : Rootfs.Metadata) v, json_Encode m <> Panic v) ->
  (forall s, tame (json_Unmarshal (A:=ImageConfig) s)) ->
  (forall s, tame (json_Decode (A:=RefMetadata) s)) -> (forall s, tame (json_Decode (A:=imageManifest) s)) ->
  let r := PrepareImage ParseReference remote_Image cfg ctx ref platform w in
  prepared_ok (good_image := good_image) cfg w (snd r) /\
  match fst r with
  | Ok p => ref <> "" /\ prepared_at cfg ref (snd r) p
  | Err _ => True
  | Panic _ => False
  end.
Proof.
  intros Ha Hrdy HtP HtR Himg HeM HeR HeT HtU HtD1 HtD2 r.
  set (Q := fun (o : outcome PreparedImage) w' => prepared_ok (good_image := good_image) cfg w w' /\
    match o with
    | Ok p => ref <> "" /\ prepared_at cfg ref w' p
    | Err _ => True
    | Panic _ => False
    end).
  change (wp (PrepareImage ParseReference remote_Image cfg ctx ref platform) Q w). unfold PrepareImage.
  pose proof Hrdy as (Hok & _).
  apply wp_bind, wp_fail_if; [intros _; split; [by apply prepared_same_place|done]|].
  intros Href%bool_decide_eq_false. cbn [wp_cont]. cbv zeta.
  set (pl := {| p_OS := _ |}).
  apply wp_bind. eapply wp_mono; [|by apply wp_Init]. intros o w1 [S1 T1].
  destruct o as [[]|e|v]; cbn [wp_cont]; [|split; [by apply prepared_same_place|done]|done].
  apply wp_bind, wp_attempt. unfold wp at 1.
  pose proof (preparedFromCache_same_place cfg ref pl w1) as S2.
  pose proof (preparedFromCache_cached cfg ref pl w1) as HC.
  pose proof (preparedFromCache_no_panic cfg ref pl HtD1 HtD2 HtU w1) as HN.
  destruct (preparedFromCache cfg ref pl w1) as [o w2]. simpl in S2. cbn [fst snd].
  assert (S12 : same_place w w2) by (by etrans).
  pose proof (runtime_ready_same_place cfg w w2 S12 Hrdy) as R2. pose proof R2 as (Hok2 & Hrd2 & _).
  destruct o as [p|e0|v]; cbn [wp_cont]; [| |by destruct (HN v w2)].
  { apply wp_ret. split; [by apply prepared_same_place|]. split; [done|].
    pose proof Hrdy as (_ & (_ & Hc & _) & _).
    destruct (cached_prepared_at cfg ref pl w1 p Ha (standing_same_place _ _ _ S1 Hc) (HC p w2 eq_refl))
      as (E1 & enc & E2 & E3 & E4 & E5 & E6).
    split; [done|]. exists enc. split_and!; try done. destruct S2 as [S2 _]. by rewrite (view_same_tree _ _ _ S2). }
  apply wp_bind.
  pose proof (pull_sound ParseReference remote_Image (StoreDir cfg) ref pl w2 Ha Hok2 HtP HtR Himg HeM HeR HtU) as HP.
  eapply wp_mono; [|exact HP]. clear HP. intros o w3 (Hs3 & F3 & HR3).
  assert (P3 : prepared_ok (good_image := good_image) cfg w w3).
  { destruct (prepared_same_place (good_image := good_image) cfg w w2 Hok S12) as (A1 & A2 & A3).
    destruct (prepared_framed (good_image := good_image) cfg w2 w3 Hok2 F3 Hs3) as (B1 & B2 & B3).
    split_and!; [by eapply store_step_trans|by eapply framed_trans|].
    intros enc Hh Hne. destruct (B3 enc Hh Hne) as [E|E]; [|by right]. simpl. rewrite E. by apply A3. }
  destruct o as [pulled|e|v]; cbn [wp_cont]; [|by split|done].
  apply wp_bind. eapply (wp_Prepare_build cfg Ha ctx pulled w w3); [|exact P3|exact HeT|by split|].
  { destruct Hs3 as [Hok3 _]. destruct R2 as (_ & _ & L1 & L2 & L3).
    split; [done|]. split; [by eapply ready_dirs_pull|].
    split; [eapply standing_pull; [|exact F3|exact L1]; rewrite !elem_of_cons; auto|].
    split; [eapply standing_pull; [|exact F3|exact L2]; rewrite !elem_of_cons; auto|].
    by eapply no_lock_links_pull. }
  intros enc w4 P4 Hh Hne Hv. cbn [wp_cont]. apply wp_ret. split; [done|]. split; [done|].
  split; [done|]. exists enc. split_and!; done.
Qed.

(** ** A store on which the properties are exercised *)

Definition demo_cfg : Config.Config := New {|
  StoreDir := "/s"; KernelPath := ""; BootImagePath := ""; c_Platform := {| p_OS := ""; p_Architecture := "" |};
  c_Rootfs := {| MinSizeBytes := 0; MaxSizeBytes := 0; ExtraBytes := 0; FS := "" |} |}.
Definition demo_platform : Config.Platform := {| p_OS := "linux"; p_Architecture := "amd64" |}.
Definition demo_ref_json : JSON RefMetadata :=
  {| json_Encode := fun m => Ok (rm_ImageRef m);
     json_Decode := fun s => Ok {| rm_ImageRef := s; rm_ManifestDigest := abc_digest;
       rm_Platform := {| OS_ := "linux"; Architecture := "amd64" |}; rm_UpdatedAt := 0%Z |} |}.
Definition demo_manifest_json : JSON imageManifest :=
  {| json_Encode := fun m => Ok (im_Config_Digest m); json_Decode := fun s => Ok {| im_Config_Digest := s |} |}.
Definition demo_store : world :=
  with_dirs ["/s/content/blobs/sha256"; "/s/images/refs"; "/s/images/manifests/sha256"; "/s/images/configs/sha256";
             "/s/rootfs/complete"; "/s/rootfs/building"; "/s/locks"; "/s/firecracker/sockets"; "/s/firecracker/logs"]
    empty_world.
Definition demo_cached : world :=
  with_file ("/s/rootfs/complete/" +:+ demo_enc +:+ ".ext4") "image"
    (with_file "/s/images/configs/sha256/c.json" "config"
      (with_file (ManifestPath "/s" abc_digest) "sha256:c"
        (with_file "/s/images/refs/localhost_5000_app.json" "localhost:5000/app" demo_store))).
Abbreviation demo_hit ref :=
  (@preparedFromCache demo_ref_json demo_manifest_json demo_Unmarshal demo_cfg ref demo_platform demo_cached).

(** The metadata was written for the image [app] of a registry on port 5000; the answer for the
    image [5000/app] of the registry on the default port is the same. *)
Lemma preparedFromCache_collision_witness : exists p,
  fst (demo_hit "localhost/5000/app") = Ok p /\ pr_ImageRef p = "localhost/5000/app" /\ pr_ManifestDigest p = abc_digest.
Proof.
  assert (Ed : match fst (demo_hit "localhost:5000/app") with
               | Ok p => pr_ManifestDigest p = abc_digest | _ => False end) by (vm_compute; reflexivity).
  destruct (fst (demo_hit "localhost:5000/app")) as [p|e|v] eqn:E; [|destruct Ed..]. exists (with_ref "localhost/5000/app" p). split; [|split; [reflexivity|exact Ed]].
  apply (@preparedFromCache_collision demo_ref_json demo_manifest_json demo_Unmarshal demo_cfg
    "localhost/5000/app" "localhost:5000/app" demo_platform demo_cached p); [reflexivity|exact E].
Defined.

Definition demo_prepare : outcome PreparedImage * world :=
  @PrepareImage unit (fun _ => Ok tt) (fun _ _ => Ok demo_image) demo_RawMessage demo_ref_json demo_manifest_json
    demo_Metadata demo_Unmarshal demo_builder demo_cfg (fun _ _ => None) "alpine" demo_platform demo_store.

Lemma demo_image_ok img : Ok demo_image = Ok img -> hashes_ok img /\ image_tame img.
Proof.
  intros E. injection E as <-. split.
  - split_and!; [intros d [= <-]; exact abc_is_digest|intros d [= <-]; exact abc_is_digest|].
    intros ls l d [= <-] ->%list_elem_of_singleton [= <-]. exact abc_is_digest.
  - split_and!; try exact I. intros ls l [= <-] ->%list_elem_of_singleton. split_and!; exact I.
Qed.

Definition no_links (w : world) : bool :=
  forallb (fun kv => match snd kv with NSymlink _ _ => false | _ => true end) (map_to_list (w_nodes w)).
Lemma no_links_sound w p : no_links w = true -> forall t m, w_nodes w !! p <> Some (NSymlink t m).
Proof.
  intros H t m E%elem_of_map_to_list%list_elem_of_In. unfold no_links in H. rewrite forallb_forall in H.
  by specialize (H _ E).
Qed.

Lemma demo_store_ready : runtime_ready demo_cfg demo_store.
Proof.
  split; [apply store_check_sound; vm_compute; reflexivity|].
  split; [split_and!; [apply wf_check_sound; vm_compute; reflexivity|apply standing_check_ok; vm_compute; reflexivity..]|].
  split; [apply standing_check_ok; vm_compute; reflexivity|].
  split; [apply standing_check_ok; vm_compute; reflexivity|].
  intros c. apply no_links_sound. vm_compute. reflexivity.
Qed.

Lemma PrepareImage_safe_witness :
  is_Ok (fst demo_prepare) = true
  /\ prepared_ok (good_image := fun _ _ => True) demo_cfg demo_store (snd demo_prepare).
Proof.
  split; [vm_compute; reflexivity|]. unfold demo_prepare.
  pose proof (@PrepareImage_safe unit (fun _ => Ok tt) (fun _ _ => Ok demo_image) demo_builder (fun _ _ => True)
    demo_builder_laws demo_RawMessage demo_ref_json demo_manifest_json demo_Metadata demo_Unmarshal demo_cfg
    (fun _ _ => None) "alpine" demo_platform demo_store) as H.
  cbv zeta in H. destruct H as [H _].
  - reflexivity.
  - exact demo_store_ready.
  - intros r. exact I.
  - intros r p. exact I.
  - intros r p img E. apply demo_image_ok. exact E.
  - intros m v. discriminate.
  - intros m v. discriminate.
  - intros m v. discriminate.
  - intros s. exact I.
  - intros s. exact I.
  - intros s. exact I.
  - exact H.
Defined.
