(* ===== verification/AgentApi.v ===== *)
(** * The agent's protocol

    [internal/agentapi/api.go]: one batched request of jobs and its response, as they are after
    JSON decoding and before encoding. *)

From S2P Require Import Prelude.
Local Open Scope Z_scope.

Definition Version : Z := 1.
Definition JobMkdir : string := "mkdir".
Definition JobWriteFile : string := "write_file".
Definition JobExec : string := "exec".

(** A nil [*int] is [None]; integers are [int64] values, [jb_Mode] is a [uint32]. *)
Record JobDefaults := {
  jd_UID : option Z;
  jd_GID : option Z;
  jd_Env : list string;
  jd_TimeoutMillis : Z;
  jd_MaxOutputBytes : Z
}.

Record Job := {
  jb_Type : string;
  jb_Path : string;
  jb_Mode : Z;
  jb_ContentsBase64 : string;
  jb_CreateParents : bool;
  jb_Argv : list string;
  jb_Env : list string;
  jb_WorkingDir : string;
  jb_UID : option Z;
  jb_GID : option Z;
  jb_TimeoutMillis : Z;
  jb_MaxOutputBytes : Z
}.

Record BatchRequest := {
  br_Version : Z;
  br_Workspace : string;
  br_Defaults : JobDefaults;
  br_Jobs : list Job;
  br_Shutdown : bool
}.

Record JobResult := {
  jr_Type : string;
  jr_OK : bool;
  jr_Error : string;
  jr_ExitCode : Z;
  jr_TimedOut : bool;
  jr_StdoutBase64 : string;
  jr_StderrBase64 : string
}.

Record BatchResponse := { Results : list JobResult }.

#[export] Instance JobResult_eq_dec : EqDecision JobResult.
Proof. solve_decision. Defined.
#[export] Instance BatchResponse_eq_dec : EqDecision BatchResponse.
Proof. solve_decision. Defined.
