(* ===== verification/AgentServer.v ===== *)
(** * The guest agent

    [internal/agentserver/server.go]: the HTTP handlers of the agent that runs in the virtual
    machine. A batch of jobs makes directories, writes files below the workspace and runs
    commands; the agent takes one batch in its life. Running a command is the parameter
    [cmd_Run], which may do anything to the file system; when it timed out the agent kills its process group. *)

From S2P Require Import Prelude GoPath GoBase64 HostFS Confine FileLaws Below AgentApi.
Local Open Scope Z_scope.

Definition DefaultWorkspace : string := "/workspace".
Definition DefaultMaxBodyBytes : Z := Z.shiftl 16 20.
Definition DefaultMaxFileBytes : Z := Z.shiftl 8 20.
Definition DefaultMaxOutputBytes : Z := Z.shiftl 1 20.
(** A [time.Duration] is an [int64] number of nanoseconds. *)
Definition Millisecond : Z := 1000000.
Definition Second : Z := 1000 * Millisecond.
Definition DefaultTimeout_ : Z := 30 * Second.

Record Config := {
  Workspace : string;
  MaxBodyBytes : Z;
  MaxFileBytes : Z;
  MaxOutputBytes : Z;
  DefaultTimeout : Z;
  DefaultUID : Z;
  DefaultGID : Z;
  Shutdown : bool;              (* the function is not nil *)
  ShutdownAfterJobs : bool
}.

Definition New (cfg : Config) : OS Config :=
  uid ← os_Getuid;
  gid ← os_Getgid;
  let positive (x d : Z) := if decide (x <= 0) then d else x in
  let root := bool_decide (DefaultUID cfg = 0) && bool_decide (DefaultGID cfg = 0) in
  mret {|
    Workspace := if decide (Workspace cfg = "") then DefaultWorkspace else Workspace cfg;
    MaxBodyBytes := positive (MaxBodyBytes cfg) DefaultMaxBodyBytes;
    MaxFileBytes := positive (MaxFileBytes cfg) DefaultMaxFileBytes;
    MaxOutputBytes := positive (MaxOutputBytes cfg) DefaultMaxOutputBytes;
    DefaultTimeout := positive (DefaultTimeout cfg) DefaultTimeout_;
    DefaultUID := if root then uid else DefaultUID cfg;
    DefaultGID := if root then gid else DefaultGID cfg;
    Shutdown := Shutdown cfg;
    ShutdownAfterJobs := ShutdownAfterJobs cfg
  |}.

(** ** Results *)

Definition ok (jobType : string) : JobResult :=
  {| jr_Type := jobType; jr_OK := true; jr_Error := ""; jr_ExitCode := 0; jr_TimedOut := false;
     jr_StdoutBase64 := ""; jr_StderrBase64 := "" |}.
Definition fail_ (jobType : string) (err : error) : JobResult :=
  {| jr_Type := jobType; jr_OK := false; jr_Error := error_text err; jr_ExitCode := 0; jr_TimedOut := false;
     jr_StdoutBase64 := ""; jr_StderrBase64 := "" |}.
Definition batchError (jobType : string) (err : error) : BatchResponse := {| Results := [fail_ jobType err] |}.

(** ** Checks *)

Definition safePath (workspace requested : string) : outcome string :=
  if decide (requested = "") then Err (Errorf "path must not be empty" [])
  else if negb (IsAbs requested) then Err (Errorf "path %q must be absolute" [requested])
  else
    let clean := Clean requested in
    rel ← Rel workspace clean;
    if HasPrefix rel "../" || bool_decide (rel = "..")
    then Err (Errorf "path %q escapes workspace" [requested])
    else Ok clean.

Definition rejectSymlink (path : string) : OS unit :=
  info ← wrap_err (Wrapf "unsafe parent %q: %w" [path]) (os_Lstat path);
  fail_if (fi_symlink info) (Errorf "refusing symlink parent %q" [path]).

(** The loop of [ensureSafeParents]. *)
Fixpoint reject_parts (current : string) (parts : list string) : OS unit :=
  match parts with
  | [] => mret tt
  | part :: parts' =>
      let current := Join [current; part] in
      rejectSymlink current ;;
      reject_parts current parts'
  end.

Definition ensureSafeParents (workspace target : string) : OS unit :=
  if decide (Clean target = Clean workspace) then rejectSymlink workspace
  else
    rel ← lift_outcome (Rel workspace (Dir target));
    if decide (rel = ".") then rejectSymlink workspace
    else reject_parts workspace (psplit rel).

Definition safeMode (mode fallback : Z) : outcome Z :=
  let mode := if decide (mode = 0) then fallback else mode in
  if decide (Z.land mode 3072 <> 0) then Err (Errorf "setuid/setgid mode bits are not allowed" [])
  else Ok (Z.land mode 511).

Definition chownIfNeeded (path : string) (uid gid : Z) : OS unit :=
  u ← os_Getuid;
  g ← os_Getgid;
  if decide (uid = u /\ gid = g) then mret tt
  else wrap_err (Wrapf "chown: %w" []) (os_Chown path uid gid).

(** ** The output of a command *)

Record limitedBuffer := { lb_buf : string; lb_limit : Z }.

(** The bytes written and the count reported. *)
Definition lb_Write (b : limitedBuffer) (p : string) : Z * limitedBuffer :=
  let len := Z.of_nat (String.length p) in
  let remaining := wrap64 (lb_limit b - Z.of_nat (String.length (lb_buf b))) in
  if decide (remaining <= 0) then (len, b)
  else if decide (len > remaining)
       then (len, {| lb_buf := lb_buf b +:+ str_take (Z.to_nat remaining) p; lb_limit := lb_limit b |})
       else (len, {| lb_buf := lb_buf b +:+ p; lb_limit := lb_limit b |}).

Definition lb_Bytes (b : limitedBuffer) : string := lb_buf b.

(** What a command's writes leave in a fresh buffer. *)
Definition captured (limit : Z) (writes : list string) : string :=
  lb_Bytes (foldl (fun b p => snd (lb_Write b p)) {| lb_buf := ""; lb_limit := limit |} writes).

(** ** Commands: what [exec.CommandContext] and [cmd.Run] are given and give back *)

Record Command := {
  cmd_Argv : list string;
  cmd_Dir : string;
  cmd_Env : list string;
  cmd_Credential : option (Z * Z);      (* uint32 user and group *)
  cmd_Timeout : Z
}.

Inductive run_error := ExitError (code : Z) | RunError (err : error).

Record RunOutcome := {
  ro_stdout : list string;
  ro_stderr : list string;
  ro_err : option run_error;
  ro_timedOut : bool;         (* cmdCtx.Err() == context.DeadlineExceeded after Run *)
  ro_Process : option Z       (* cmd.Process.Pid, when it is not nil *)
}.

(** A command that timed out: what is left of its process group is killed, and an error of that is dropped. *)
Definition kill_group (out : RunOutcome) : OS unit :=
  match ro_Process out with
  | Some pid => if ro_timedOut out then ignore (unix_Kill (- pid) SIGKILL) else mret tt
  | None => mret tt
  end.

(** ** The server *)

Section server.
Variable cfg : Config.
Variable cmd_Run : Command -> OS RunOutcome.

Definition workspace (requested : string) : OS string :=
  let requested := if decide (requested = "") then Workspace cfg else requested in
  let clean := Clean requested in
  fail_if (negb (IsAbs clean)) (Errorf "workspace must be absolute" []) ;;
  let configured := Clean (Workspace cfg) in
  fail_if (negb (bool_decide (clean = configured))) (Errorf "workspace %q is not allowed" [clean]) ;;
  wrap_err (Wrapf "create workspace: %w" []) (os_MkdirAll clean 493) ;;
  mret clean.

Definition or_else {A} (o : option A) (d : A) : A := match o with Some a => a | None => d end.

Definition credentials (defaults : JobDefaults) (job : Job) : Z * Z :=
  (or_else (jb_UID job) (or_else (jd_UID defaults) (DefaultUID cfg)),
   or_else (jb_GID job) (or_else (jd_GID defaults) (DefaultGID cfg))).

Definition timeout (defaults : JobDefaults) (job : Job) : Z :=
  let ms := if decide (jb_TimeoutMillis job > 0) then jb_TimeoutMillis job else jd_TimeoutMillis defaults in
  if decide (ms <= 0) then DefaultTimeout cfg else wrap64 (ms * Millisecond).

Definition maxOutput (defaults : JobDefaults) (job : Job) : Z :=
  let m := if decide (jb_MaxOutputBytes job > 0) then jb_MaxOutputBytes job else jd_MaxOutputBytes defaults in
  if decide (m <= 0) then MaxOutputBytes cfg else m.

(** A handler's [return fail(job.Type, err)]: the body fails with [err]. *)
Definition job_result (jobType : string) (m : OS JobResult) : OS JobResult :=
  r ← attempt m;
  mret (match r with inl err => fail_ jobType err | inr res => res end).

Definition mkdir (ws : string) (defaults : JobDefaults) (job : Job) : OS JobResult :=
  job_result (jb_Type job) (
    target ← lift_outcome (safePath ws (jb_Path job));
    mode ← lift_outcome (safeMode (jb_Mode job) 493);
    ensureSafeParents ws target ;;
    wrap_err (Wrapf "mkdir: %w" []) (os_MkdirAll target mode) ;;
    let '(uid, gid) := credentials defaults job in
    chownIfNeeded target uid gid ;;
    mret (ok (jb_Type job))).

(** The steps of [writeFile] from the check of the parents on. *)
Definition store (ws target contents path : string) (mode uid gid : Z) (jobType : string) : OS JobResult :=
  ensureSafeParents ws target ;;
  l ← attempt (os_Lstat target);
  fail_if (match l with inr info => fi_symlink info | inl _ => false end)
    (Errorf "refusing to overwrite symlink %q" [path]) ;;
  fd ← wrap_err (Wrapf "open file: %w" []) (os_open target wronly_creat_trunc_nofollow mode);
  writeErr ← attempt (fd_write fd contents);
  closeErr ← attempt (fd_close fd);
  match writeErr, closeErr with
  | inl e, _ => fail (Wrapf "write file: %w" [] e)
  | _, inl e => fail (Wrapf "close file: %w" [] e)
  | _, _ =>
      wrap_err (Wrapf "chmod file: %w" []) (os_Chmod target mode) ;;
      chownIfNeeded target uid gid ;;
      mret (ok jobType)
  end.

(** Also gives the new value of [*uploaded], [uploaded] plus the contents' length; it is read again
    only after a job that is OK. *)
Definition writeFile (ws : string) (defaults : JobDefaults) (job : Job) (uploaded : Z) : OS (JobResult * Z) :=
  let contents := DecodeString (jb_ContentsBase64 job) in
  let uploaded' := match contents with
                   | Ok c => wrap64 (uploaded + Z.of_nat (String.length c))
                   | _ => uploaded
                   end in
  r ← job_result (jb_Type job) (
    target ← lift_outcome (safePath ws (jb_Path job));
    mode ← lift_outcome (safeMode (jb_Mode job) 420);
    contents ← wrap_err (Wrapf "contents_b64: %w" []) (lift_outcome contents);
    fail_if (bool_decide (Z.of_nat (String.length contents) > MaxFileBytes cfg))
      (Errorf "file exceeds max size %d" [pretty (MaxFileBytes cfg)]) ;;
    fail_if (bool_decide (uploaded' > MaxBodyBytes cfg))
      (Errorf "total uploaded bytes exceeds max size %d" [pretty (MaxBodyBytes cfg)]) ;;
    (if jb_CreateParents job
     then wrap_err (Wrapf "create parents: %w" []) (os_MkdirAll (Dir target) 493) else mret tt) ;;
    let '(uid, gid) := credentials defaults job in
    store ws target contents (jb_Path job) mode uid gid (jb_Type job));
  mret (r, uploaded').

Definition uint32 (z : Z) : Z := z mod 2 ^ 32.

(** The steps of [exec] from the check of the directory's parents on. *)
Definition exec_in (ws cwd : string) (defaults : JobDefaults) (job : Job) : OS JobResult :=
  ensureSafeParents ws (Join [cwd; ".agent-check"]) ;;
  info ← attempt (os_Stat cwd);
  fail_if (match info with inr i => negb (fi_dir i) | inl _ => true end)
    (Errorf "working_dir must exist and be a directory" []) ;;
  let '(uid, gid) := credentials defaults job in
  u ← os_Getuid;
  g ← os_Getgid;
  e ← os_Geteuid;
  let switch := negb (bool_decide (uid = u) && bool_decide (gid = g)) in
  fail_if (switch && negb (bool_decide (e = 0))) (Errorf "cannot switch credentials unless running as root" []) ;;
  let limit := maxOutput defaults job in
  out ← cmd_Run {|
    cmd_Argv := jb_Argv job;
    cmd_Dir := cwd;
    cmd_Env := jd_Env defaults ++ jb_Env job;
    cmd_Credential := if switch then Some (uint32 uid, uint32 gid) else None;
    cmd_Timeout := timeout defaults job |};
  kill_group out ;;
  let result code := {|
    jr_Type := jb_Type job; jr_OK := true; jr_Error := ""; jr_ExitCode := code; jr_TimedOut := ro_timedOut out;
    jr_StdoutBase64 := EncodeToString (captured limit (ro_stdout out));
    jr_StderrBase64 := EncodeToString (captured limit (ro_stderr out)) |} in
  match ro_err out with
  | None => mret (result 0)
  | Some (ExitError code) => mret (result code)
  | Some (RunError err) => if ro_timedOut out then mret (result (-1)) else fail (Wrapf "exec: %w" [] err)
  end.

Definition exec (ws : string) (defaults : JobDefaults) (job : Job) : OS JobResult :=
  job_result (jb_Type job) (
    fail_if (match jb_Argv job with [] => true | a :: _ => bool_decide (a = "") end)
      (Errorf "exec argv must not be empty" []) ;;
    let workingDir := if decide (jb_WorkingDir job = "") then ws else jb_WorkingDir job in
    cwd ← lift_outcome (safePath ws workingDir);
    exec_in ws cwd defaults job).

Definition runJob (ws : string) (defaults : JobDefaults) (job : Job) (uploaded : Z) : OS (JobResult * Z) :=
  if decide (jb_Type job = JobMkdir) then r ← mkdir ws defaults job; mret (r, uploaded)
  else if decide (jb_Type job = JobWriteFile) then writeFile ws defaults job uploaded
  else if decide (jb_Type job = JobExec) then r ← exec ws defaults job; mret (r, uploaded)
  else mret (fail_ (jb_Type job) (Errorf "unsupported job type %q" [jb_Type job]), uploaded).

(** The loop of [runBatch]: the results so far, and whether every job was well. *)
Fixpoint run_jobs (ws : string) (defaults : JobDefaults) (jobs : list Job) (uploaded : Z) : OS (list JobResult * bool) :=
  match jobs with
  | [] => mret ([], true)
  | job :: rest =>
      r ← runJob ws defaults job uploaded;
      let '(result, uploaded') := r in
      if jr_OK result then
        rs ← run_jobs ws defaults rest uploaded';
        mret (result :: fst rs, snd rs)
      else mret ([result], false)
  end.

Definition StatusOK : Z := 200.
Definition StatusBadRequest : Z := 400.
Definition StatusNotFound : Z := 404.
Definition StatusMethodNotAllowed : Z := 405.
Definition StatusGone : Z := 410.

Definition runBatch (req : BatchRequest) : OS (BatchResponse * Z) :=
  if decide (br_Version req <> Version)
  then mret (batchError "" (Errorf "unsupported protocol version %d" [pretty (br_Version req)]), StatusBadRequest)
  else
    ws ← attempt (workspace (br_Workspace req));
    match ws with
    | inl err => mret (batchError "" err, StatusBadRequest)
    | inr ws =>
        if decide (br_Jobs req = [])
        then mret (batchError "" (Errorf "jobs must not be empty" []), StatusBadRequest)
        else
          rs ← run_jobs ws (br_Defaults req) (br_Jobs req) 0;
          mret ({| Results := fst rs |}, if snd rs : bool then StatusOK else StatusBadRequest)
    end.
End server.

(** ** HTTP *)

Inductive body := Text (s : string) | Batch (r : BatchResponse).
Record Response := { rs_Status : Z; rs_ContentType : string; rs_Body : body }.

Definition text_plain : string := "text/plain; charset=utf-8".
Definition http_Error (msg : string) (code : Z) : Response :=
  {| rs_Status := code; rs_ContentType := text_plain; rs_Body := Text (msg +:+ String newline "") |}.

(** [http.MaxBytesReader]: past [n] bytes the read fails. *)
Definition MaxBytesReader (n : Z) (r : stream) : stream :=
  if decide (Z.of_nat (String.length (fst r)) > n)
  then (str_take (Z.to_nat n) (fst r), Some (Errorf "http: request body too large" [])) else r.

(** [json.NewDecoder] with [DisallowUnknownFields]: one document, and what is left to read. *)
Class StrictDecoder (A : Type) := dec_Decode : stream -> outcome (A * stream).

(** A second [Decode] meets the end of the input: only white space is left, and no read error. *)
Definition json_space (c : ascii) : bool := bool_decide (c ∈ [" "%char; "009"%char; "010"%char; "013"%char]).
Definition decodeEOF (rest : stream) : outcome unit :=
  if str_forall json_space (fst rest) && bool_decide (snd rest = None) then Ok tt
  else Err (Errorf "request must contain exactly one JSON document" []).

(** [Server]: the configuration, [usedJobs], the calls of [cfg.Shutdown] it started; and the file
    system of the machine it runs in. *)
Record Server := { sv_cfg : Config; sv_usedJobs : bool; sv_shutdowns : nat; sv_fs : world }.

Definition set_used (s : Server) : Server :=
  {| sv_cfg := sv_cfg s; sv_usedJobs := true; sv_shutdowns := sv_shutdowns s; sv_fs := sv_fs s |}.
Definition shut_down (s : Server) : Server :=
  {| sv_cfg := sv_cfg s; sv_usedJobs := sv_usedJobs s; sv_shutdowns := S (sv_shutdowns s); sv_fs := sv_fs s |}.
Definition on_machine {A} (m : OS A) : GoM Server A := fun s =>
  let '(o, w) := m (sv_fs s) in
  (o, {| sv_cfg := sv_cfg s; sv_usedJobs := sv_usedJobs s; sv_shutdowns := sv_shutdowns s; sv_fs := w |}).

Section handlers.
Context `{StrictDecoder BatchRequest}.
Variable cmd_Run : Command -> OS RunOutcome.

Definition healthz : GoM Server Response :=
  mret {| rs_Status := StatusOK; rs_ContentType := text_plain; rs_Body := Text ("ok" +:+ String newline "") |}.

(** [jobs] once the compare-and-swap of [usedJobs] has succeeded. *)
Definition jobs_admitted (r_Body : stream) : GoM Server Response :=
  cfg ← gets sv_cfg;
  match dec_Decode (MaxBytesReader (MaxBodyBytes cfg) r_Body) with
  | Panic v => panic v
  | Err err => mret (http_Error ("decode request: " +:+ error_text err) StatusBadRequest)
  | Ok (req, rest) =>
      match decodeEOF rest with
      | Panic v => panic v
      | Err err => mret (http_Error (error_text err) StatusBadRequest)
      | Ok _ =>
          defer (if (ShutdownAfterJobs cfg || br_Shutdown req) && Shutdown cfg then modify shut_down else mret tt) (
            r ← on_machine (runBatch cfg cmd_Run req);
            mret {| rs_Status := snd r; rs_ContentType := "application/json"; rs_Body := Batch (fst r) |})
      end
  end.

Definition already_used : Response := http_Error "jobs endpoint already used" StatusGone.

Definition jobs (r_Body : stream) : GoM Server Response :=
  used ← gets sv_usedJobs;
  if (used : bool) then mret already_used
  else modify set_used ;; jobs_admitted r_Body.

(** The two routes of the mux, for paths in normal form. *)
Definition Handler (method path : string) (r_Body : stream) : GoM Server Response :=
  if decide (path = "/healthz") then
    if decide (method = "GET" \/ method = "HEAD") then healthz
    else mret (http_Error "Method Not Allowed" StatusMethodNotAllowed)
  else if decide (path = "/jobs") then
    if decide (method = "POST") then jobs r_Body
    else mret (http_Error "Method Not Allowed" StatusMethodNotAllowed)
  else mret (http_Error "404 page not found" StatusNotFound).
End handlers.

(** A job's timeout is at most about 292 years; a greater one wraps around, here to one in the past. *)
Example timeout_wraps cfg defaults job :
  jb_TimeoutMillis job = 9223372036855 -> timeout cfg defaults job < 0.
Proof. intros E. unfold timeout. rewrite E. vm_compute. reflexivity. Qed.

(** A server as it is made, in the file system it works on. *)
Definition fresh_server (cfg : Config) (w : world) : Server := {| sv_cfg := cfg; sv_usedJobs := false; sv_shutdowns := 0; sv_fs := w |}.
Definition on_agent {A} (cfg : Config) (m : GoM Server A) : OS A := fun w => let '(o, s) := m (fresh_server cfg w) in (o, sv_fs s).

(** [http.ErrServerClosed] *)
Definition ErrServerClosed : error := Errorf "http: Server closed" [].
