(* ===== verification/AgentConfinement.v ===== *)
(** * What a batch can touch

    The agent's path checks: what [safePath] accepts, what [ensureSafeParents] establishes, and
    that the jobs which work on files change nothing outside the workspace. *)

From S2P Require Import Prelude GoPath GoBase64 HostFS Confine FileLaws Below AgentApi AgentServer.
Local Open Scope Z_scope.

(** ** Paths *)

Lemma safePath_in ws wsc requested :
  abs_path ws wsc ->
  safePath ws requested =
    if decide (requested = "") then Err (Errorf "path must not be empty" [])
    else if negb (IsAbs requested) then Err (Errorf "path %q must be absolute" [requested])
    else if decide (wsc `prefix_of` snd (cpath_of requested)) then Ok (Clean requested)
    else Err (Errorf "path %q escapes workspace" [requested]).
Proof.
  intros Hw. unfold safePath. case_decide; [done|]. destruct (IsAbs requested) eqn:Ea; [|done]. cbn [negb].
  destruct (Rel_escapes_iff ws (Clean requested) wsc _ Hw (abs_path_Clean _ Ea)) as (rel & E & Hr).
  rewrite E. unfold mbind, outcome_bind. rewrite orb_comm.
  change (bool_decide (rel = "..") || HasPrefix rel "../") with (rel_escapes rel).
  case_decide as Hp; [by rewrite (proj2 Hr Hp)|]. destruct (rel_escapes rel); [done|]. destruct (Hp (proj1 Hr eq_refl)).
Qed.

Lemma safePath_Ok ws wsc requested target :
  abs_path ws wsc -> safePath ws requested = Ok target -> exists y, abs_path target (wsc ++ y).
Proof.
  intros Hw. rewrite (safePath_in ws wsc) by done. case_decide; [done|].
  destruct (IsAbs requested) eqn:Ea; [|done]. cbn [negb]. case_decide as Hp; [|done]. intros [= <-].
  destruct Hp as [y Hy]. exists y. rewrite <- Hy. by apply abs_path_Clean.
Qed.

(** ** The check of the parents *)

Lemma rejectSymlink_same_tree path : preserves same_tree (rejectSymlink path).
Proof. unfold rejectSymlink, os_Lstat. solve_preserves. Qed.
#[export] Hint Resolve rejectSymlink_same_tree : go_preserves.
Lemma reject_parts_same_tree current parts : preserves same_tree (reject_parts current parts).
Proof. revert current. induction parts as [|p l IH]; intros current; cbn [reject_parts]; solve_preserves. Qed.
#[export] Hint Resolve reject_parts_same_tree : go_preserves.
Lemma ensureSafeParents_same_tree ws target : preserves same_tree (ensureSafeParents ws target).
Proof. unfold ensureSafeParents. solve_preserves. Qed.
#[export] Hint Resolve ensureSafeParents_same_tree : go_preserves.

Lemma rejectSymlink_nosym path cur c w w' :
  wf w -> abs_path path (cur ++ [c]) -> nosym true (w_nodes w) [] cur ->
  rejectSymlink path w = (Ok tt, w') -> nosym true (w_nodes w) [] (cur ++ [c]).
Proof.
  intros Hw Hp Hs H. unfold rejectSymlink in H. apply bind_Ok in H as (info & w1 & E & H).
  apply wrap_Ok in E. apply fail_if_Ok in H as [Hl _].
  pose proof (Lstat_nosym path cur c w Hw Hp Hs) as HL. rewrite E in HL. simpl in HL.
  destruct HL as (n & Hn & ->). apply nosym_snoc; [done|]. intros t m Ht. rewrite Ht in Hn. by simplify_eq/=.
Qed.

Lemma reject_parts_nosym path cur parts w w' :
  wf w -> abs_path path cur -> Forall is_name parts -> nosym true (w_nodes w) [] cur ->
  reject_parts path parts w = (Ok tt, w') -> nosym true (w_nodes w) [] (cur ++ parts).
Proof.
  intros Hw Hp Hn. revert path cur w Hw Hp. induction Hn as [|c parts Hc Hn IH]; intros path cur w Hw Hp Hs H.
  { by rewrite app_nil_r. }
  cbn [reject_parts] in H. apply bind_Ok in H as ([] & w1 & E & H).
  assert (Hp' : abs_path (Join [path; c]) (cur ++ [c])) by (by apply Join_abs_name).
  pose proof (rejectSymlink_same_tree (Join [path; c]) w) as HS. rewrite E in HS. simpl in HS.
  apply (rejectSymlink_nosym _ cur c) in E; [|done..].
  replace (cur ++ c :: parts) with ((cur ++ [c]) ++ parts) by (by rewrite <- app_assoc).
  pose proof HS as (En & _ & _). rewrite <- En. eapply IH; [by eapply wf_same_tree|exact Hp'| |exact H].
  by rewrite En.
Qed.

Section confinement.
Variable Root : string.
Hypothesis Root_abs : IsAbs Root = true.
Abbreviation cs := (rootc Root).
Abbreviation ws := (Clean Root).

Lemma ensureSafeParents_ready target x c w w' :
  rooted cs w -> abs_path target (cs ++ x ++ [c]) ->
  ensureSafeParents ws target w = (Ok tt, w') -> ready Root x w'.
Proof.
  intros Hr Ht H. pose proof (ensureSafeParents_same_tree ws target w) as HS. rewrite H in HS. simpl in HS.
  apply (ready_same_tree x w); [done|]. split; [done|].
  pose proof Hr as [[Hw _] Hst]. unfold ensureSafeParents in H.
  pose proof (Clean_Root Root Root_abs) as HC.
  assert (Hd : abs_path (Dir target) (cs ++ x)).
  { pose proof Ht as Hd. apply Dir_abs in Hd. by rewrite app_assoc, removelast_last in Hd. }
  assert (Hx : Forall is_name x) by (destruct Hd as [_ Hd]; by apply Forall_app in Hd as [_ ?]).
  rewrite decide_False in H.
  2:{ rewrite (abs_path_clean_eq _ _ Ht), (abs_path_clean_eq _ _ HC). intros E.
      rewrite E in Ht. pose proof (abs_path_comps_inj _ _ _ Ht HC) as E'. apply (f_equal length) in E'.
      rewrite !length_app in E'. simpl in E'. lia. }
  rewrite (Rel_below _ _ _ _ HC Hd) in H. unfold mbind, GoM_bind, lift_outcome in H.
  destruct (decide (x = [])) as [->|Hx0].
  { rewrite app_nil_r. by apply standing_nosym. }
  assert (Hps : psplit (pjoin x) = x) by (by apply psplit_below).
  rewrite decide_False in H.
  - rewrite Hps in H. eapply reject_parts_nosym; [done|exact HC|done|by apply standing_nosym|exact H].
  - intros E. rewrite E in Hps. change (psplit ".") with ["."] in Hps. subst x.
    apply Forall_cons in Hx as [Hx _]. by destruct Hx as (_ & ? & _).
Qed.

(** *** What a job keeps *)

Definition same_ids (w w' : world) : Prop := w_uid w' = w_uid w /\ w_gid w' = w_gid w /\ w_euid w' = w_euid w.
#[export] Instance same_ids_preorder : PreOrder same_ids.
Proof. split; [done|]. intros w1 w2 w3 (H1 & H2 & H3) (H4 & H5 & H6). split_and!; congruence. Qed.
#[local] Instance same_ids_stable : FaultStable same_ids.
Proof. done. Qed.

Lemma ids_nodes f : preserves same_ids (modify (set_nodes f)).
Proof. done. Qed.
Lemma ids_inodes f : preserves same_ids (modify (set_inodes f)).
Proof. done. Qed.
#[local] Hint Resolve ids_nodes ids_inodes : go_preserves.
Lemma ids_stat f p : preserves same_ids (stat_gen f p).
Proof. unfold stat_gen. solve_calls. Qed.
Lemma ids_create_at q n : preserves same_ids (create_at q n).
Proof. unfold create_at. solve_calls. Qed.
Lemma ids_update_meta q f : preserves same_ids (update_meta q f).
Proof. unfold update_meta, update_inode. solve_calls. Qed.
#[local] Hint Resolve ids_stat ids_create_at ids_update_meta : go_preserves.
Lemma ids_Mkdir p m : preserves same_ids (os_Mkdir p m).
Proof. unfold os_Mkdir. solve_calls. Qed.
#[local] Hint Resolve ids_Mkdir : go_preserves.
Lemma ids_mkdir_all b l m : preserves same_ids (mkdir_all b l m).
Proof. induction l as [|c l IH]; cbn [mkdir_all]; unfold os_Stat, os_Lstat; solve_calls. Qed.
#[local] Hint Resolve ids_mkdir_all : go_preserves.
Lemma ids_MkdirAll p m : preserves same_ids (os_MkdirAll p m).
Proof. unfold os_MkdirAll. solve_calls. Qed.
Lemma ids_fresh q m : preserves same_ids (modify (fun w => set_next q (set_inodes m w))).
Proof. done. Qed.
#[local] Hint Resolve ids_fresh : go_preserves.
Lemma ids_open p fl m : preserves same_ids (os_open p fl m).
Proof. unfold os_open, fresh_file, update_inode. solve_calls. Qed.
Lemma ids_fd_write i d : preserves same_ids (fd_write i d).
Proof. unfold fd_write, update_inode. solve_calls. Qed.
Lemma ids_fd_close i : preserves same_ids (fd_close i).
Proof. unfold fd_close. solve_calls. Qed.
Lemma ids_Chmod p m : preserves same_ids (os_Chmod p m).
Proof. unfold os_Chmod. solve_calls. Qed.
Lemma ids_Chown p u g : preserves same_ids (os_Chown p u g).
Proof. unfold os_Chown, chown_gen. solve_calls. Qed.
#[local] Hint Resolve ids_MkdirAll ids_open ids_fd_write ids_fd_close ids_Chmod ids_Chown : go_preserves.

(** The workspace keeps standing, and nothing outside it changes. *)
Definition stays (w w' : world) : Prop :=
  rooted cs w -> rooted cs w' /\ forall p, ~ cs `prefix_of` p -> view w' p = view w p.

#[local] Instance stays_preorder : PreOrder stays.
Proof.
  split; [by intros w Hr|]. intros w1 w2 w3 H1 H2 Hr. destruct (H1 Hr) as [R1 V1]. destruct (H2 R1) as [R2 V2].
  split; [done|]. intros p Hp. by rewrite V2, V1.
Qed.

Lemma stays_conf w w' : conf (below cs) w w' -> stays w w'.
Proof.
  intros Hc Hr. split; [by eapply rooted_conf|]. intros p Hp. apply Hc; [apply Hr|]. by intros [? _].
Qed.

(** Changing the owner of the workspace itself. *)
Lemma stays_dir_meta w m m' : w_nodes w !! cs = Some (NDir m) -> stays w (set_nodes <[cs := NDir m']> w).
Proof.
  intros Hd [[Hw Hsep] Hst].
  assert (Hdir : forall p, (exists n, w_nodes w !! p = Some (NDir n)) ->
    exists n, <[cs := NDir m']> (w_nodes w) !! p = Some (NDir n)).
  { intros p [n Hn]. destruct (decide (p = cs)) as [->|]; [rewrite lookup_insert_eq; eauto|rewrite lookup_insert_ne by done; eauto]. }
  assert (Hfile : forall p i, <[cs := NDir m']> (w_nodes w) !! p = Some (NFile i) -> w_nodes w !! p = Some (NFile i)).
  { intros p i [[_ ?]|[_ ?]]%lookup_insert_Some; done. }
  assert (Hany : forall p n, <[cs := NDir m']> (w_nodes w) !! p = Some n -> is_Some (w_nodes w !! p)).
  { intros p n [[<- _]|[_ ?]]%lookup_insert_Some; eauto. }
  split; [split; [split|]|].
  - split; simpl.
    + apply Hdir, Hw.
    + intros p c n H. destruct (Hany _ _ H) as [n' H']. apply Hdir. by eapply wf_closed.
    + intros p i H%Hfile. by apply (wf_ino _ Hw) in H.
  - intros p q i Hp Hq H1%Hfile H2%Hfile. by eapply Hsep.
  - intros p Hp. by apply Hdir, Hst.
  - intros p Hp. unfold view. simpl. rewrite lookup_insert_ne; [done|]. by intros <-.
Qed.

Lemma stays_chown_root path uid gid w :
  abs_path path cs -> rooted cs w -> stays w (snd (os_Chown path uid gid w)).
Proof.
  intros Hp Hr. pose proof Hr as [[Hw _] Hst].
  change (wp (os_Chown path uid gid) (fun _ w' => stays w w') w).
  assert (Hsame : forall l, stays w (set_faults l w)) by (intros l; by apply stays_conf, conf_same_tree).
  unfold os_Chown, chown_gen, syscall, wp.
  assert (Hbody : forall l, stays w (snd ((q ← resolving true path; o ← node_at q; w ← get_state;
    match o with
    | None => oserr ENOENT
    | Some n =>
        let m := fi_meta (info_of w n) in
        if bool_decide (w_euid w = 0)
           || bool_decide (keep_id uid (m_uid m) = m_uid m /\ keep_id gid (m_gid m) = m_gid m)
        then update_meta q (fun m => Meta (m_mode m) (keep_id uid (m_uid m)) (keep_id gid (m_gid m)) (m_mtime m))
        else oserr EPERM
    end) (set_faults l w)))).
  { intros l. os_unfold. change (resolve true path (set_faults l w)) with (resolve true path w).
    destruct (Hst cs (reflexivity _)) as [m Hm].
    rewrite (resolve_existing true path cs w (NDir m)); [|done|done|by apply standing_nosym|done]. simpl. rewrite Hm. simpl.
    destruct (_ || _); [|apply Hsame]. unfold update_meta. os_unfold. rewrite Hm. simpl.
    etrans; [apply (Hsame l)|]. by apply (stays_dir_meta (set_faults l w) m). }
  destruct (w_faults w) as [|[e|] l] eqn:Ef; simpl.
  - specialize (Hbody []). destruct w; simpl in Ef. by subst.
  - case_decide; [apply Hbody|apply Hsame].
  - apply Hbody.
Qed.

(** *** The jobs *)

Variable cfg : Config.
Hypothesis cfg_root : Workspace cfg = Root.
Variable cmd_Run : Command -> OS RunOutcome.

(** There is no symbolic link in the workspace. *)
Definition linkless (w : world) : Prop := forall p t m, below cs p -> w_nodes w !! p <> Some (NSymlink t m).

(** Jobs that stay below the workspace: without links every job on files does; with links there,
    those that change no owner and make no parents. *)
Definition file_job (w : world) (defaults : JobDefaults) (job : Job) : Prop :=
  jb_Type job <> JobExec /\
  (linkless w \/
   (jb_Type job = JobMkdir -> credentials cfg defaults job = (w_uid w, w_gid w))
   /\ (jb_Type job = JobWriteFile -> jb_CreateParents job = false)).

Lemma linkless_no_new_links w w' : no_new_links w w' -> linkless w -> linkless w'.
Proof. intros Hn Hl p t m Hb H. destruct (Hn _ _ _ H) as [m' H']. by eapply Hl. Qed.

Lemma linkless_nosym f w x : standing cs w -> linkless w -> nosym f (w_nodes w) [] (cs ++ x).
Proof.
  intros Hst Hl pre c post E _ t m H. simpl in H.
  destruct (prefix_weak_total (pre ++ [c]) cs (cs ++ x)) as [Hp|Hp].
  - exists post. by rewrite E, <- app_assoc.
  - by exists x.
  - destruct (Hst _ Hp) as [m' Hm]. congruence.
  - destruct (decide (pre ++ [c] = cs)) as [Ec|Ec].
    + destruct (Hst cs (reflexivity _)) as [m' Hm]. rewrite Ec in H. congruence.
    + by apply (Hl (pre ++ [c]) t m).
Qed.

Lemma linkless_ready w x : rooted cs w -> linkless w -> ready Root x w.
Proof. intros Hr Hl. split; [done|]. apply linkless_nosym; [apply Hr|done]. Qed.

Lemma chownIfNeeded_own path w : chownIfNeeded path (w_uid w) (w_gid w) w = (Ok tt, w).
Proof. unfold chownIfNeeded, os_Getuid, os_Getgid, gets, mbind, GoM_bind. by rewrite decide_True. Qed.

Lemma conf_chownIfNeeded path uid gid w :
  leads (below cs) true path w -> conf (below cs) w (snd (chownIfNeeded path uid gid w)).
Proof.
  intros Hl. unfold chownIfNeeded, os_Getuid, os_Getgid, gets, mbind, GoM_bind. case_decide; [reflexivity|].
  apply conf_wrap, conf_chown; auto using below_root.
Qed.

Lemma ids_rejectSymlink path : preserves same_ids (rejectSymlink path).
Proof. unfold rejectSymlink, os_Lstat. solve_preserves. Qed.
#[local] Hint Resolve ids_rejectSymlink : go_preserves.
Lemma ids_reject_parts current parts : preserves same_ids (reject_parts current parts).
Proof. revert current. induction parts as [|p l IH]; intros current; cbn [reject_parts]; solve_preserves. Qed.
#[local] Hint Resolve ids_reject_parts : go_preserves.
Lemma ids_ensureSafeParents w1 target : preserves same_ids (ensureSafeParents w1 target).
Proof. unfold ensureSafeParents. solve_preserves. Qed.
Lemma ids_chownIfNeeded path uid gid : preserves same_ids (chownIfNeeded path uid gid).
Proof. unfold chownIfNeeded, os_Getuid, os_Getgid. solve_preserves. Qed.
#[local] Hint Resolve ids_ensureSafeParents ids_chownIfNeeded : go_preserves.

Lemma nnl_chownIfNeeded path uid gid : preserves no_new_links (chownIfNeeded path uid gid).
Proof. unfold chownIfNeeded, os_Getuid, os_Getgid, os_Chown. solve_preserves. Qed.
#[local] Hint Resolve nnl_chownIfNeeded : go_preserves.
Lemma nnl_ensureSafeParents w1 target : preserves no_new_links (ensureSafeParents w1 target).
Proof. eapply preserves_weaken; [apply same_tree_no_new_links|auto with go_preserves]. Qed.
#[local] Hint Resolve nnl_ensureSafeParents : go_preserves.

Lemma step_bind {A B} (R : world -> world -> Prop) `{!PreOrder R} (m : OS A) (k : A -> OS B) w :
  R w (snd (m w)) -> (forall a w', m w = (Ok a, w') -> R w' (snd (k a w'))) ->
  R w (snd ((m ≫= k) w)).
Proof.
  intros Hm Hk. unfold mbind, GoM_bind. destruct (m w) as [[a|e|v] w'] eqn:E; simpl in *; [|done..].
  etrans; [done|]. by apply Hk.
Qed.
Abbreviation stays_bind := (step_bind stays).

Lemma stays_job_result t (m : OS JobResult) w : stays w (snd (m w)) -> stays w (snd (job_result t m w)).
Proof. intros H. unfold job_result, attempt, mbind, GoM_bind. by destruct (m w) as [[a|e|v] w']. Qed.

(** A step that is a fact of the tree, followed by one that starts from the same tree. *)
Lemma conf_past_check {B} target x c (k : unit -> OS B) w :
  rooted cs w -> abs_path target (cs ++ x ++ [c]) ->
  (forall w', same_tree w w' -> same_ids w w' -> ready Root x w' -> conf (below cs) w' (snd (k tt w'))) ->
  conf (below cs) w (snd ((ensureSafeParents ws target ≫= k) w)).
Proof.
  intros Hr Ht Hk. apply conf_bind; [apply conf_preserves; auto with go_preserves|].
  intros [] w' E. pose proof (ensureSafeParents_same_tree ws target w) as HS.
  pose proof (ids_ensureSafeParents ws target w) as HI.
  rewrite E in HS, HI. apply Hk; [done..|]. by eapply ensureSafeParents_ready.
Qed.

(** A target below the workspace, or the workspace itself. *)
Lemma safePath_cases requested target :
  safePath ws requested = Ok target ->
  abs_path target cs \/ exists x c, abs_path target (cs ++ x ++ [c]).
Proof.
  intros H. destruct (safePath_Ok ws cs requested target (Clean_Root Root Root_abs) H) as (y & Hy).
  destruct y as [|c x _] using rev_ind; [left; by rewrite app_nil_r in Hy|right; eauto].
Qed.

(** Giving an entry of the workspace away stays in it, unless a link is there. *)
Lemma conf_owner target x c uid gid w w1 :
  abs_path target (cs ++ x ++ [c]) -> same_ids w w1 -> no_new_links w w1 -> ready Root x w1 ->
  linkless w \/ (uid, gid) = (w_uid w, w_gid w) ->
  conf (below cs) w1 (snd (chownIfNeeded target uid gid w1)).
Proof.
  intros Ht (HU & HG & _) Hn [Hr _] [Hl|[= -> ->]].
  - apply conf_chownIfNeeded. eapply leads_below; [exact Ht|by destruct x|].
    apply linkless_nosym; [apply Hr|by eapply linkless_no_new_links].
  - rewrite <- HU, <- HG, chownIfNeeded_own. reflexivity.
Qed.

Lemma stays_chownIfNeeded_root path uid gid w :
  abs_path path cs -> rooted cs w -> stays w (snd (chownIfNeeded path uid gid w)).
Proof.
  intros Hp Hr. unfold chownIfNeeded, os_Getuid, os_Getgid, gets, mbind, GoM_bind. case_decide; [reflexivity|].
  pose proof (stays_chown_root path uid gid w Hp Hr) as HS. unfold wrap_err. by destruct (os_Chown path uid gid w) as [[]].
Qed.

Lemma stays_assume w w' : (rooted cs w -> stays w w') -> stays w w'.
Proof. intros H Hr. by apply H. Qed.

Lemma mkdir_stays defaults job w :
  linkless w \/ credentials cfg defaults job = (w_uid w, w_gid w) ->
  stays w (snd (mkdir cfg ws defaults job w)).
Proof.
  intros Hc. apply stays_job_result, stays_assume. intros Hr.
  unfold lift_outcome, mbind at 1, GoM_bind at 1.
  destruct (safePath ws (jb_Path job)) as [target|e|v] eqn:Et; [|reflexivity..].
  unfold mbind at 1, GoM_bind at 1. destruct (safeMode (jb_Mode job) 493) as [mode|e|v]; [|reflexivity..].
  destruct (credentials cfg defaults job) as [uid gid] eqn:Ec.
  destruct (safePath_cases _ _ Et) as [Ht|(x & c & Ht)].
  - apply stays_bind; [apply stays_conf, conf_preserves; auto with go_preserves|].
    intros [] w1 E1. apply stays_assume. intros Hr1. apply stays_bind.
    { apply stays_conf, conf_wrap. eapply (conf_MkdirAll cs []); rewrite ?app_nil_r; [done..|].
      apply standing_nosym, Hr1. }
    intros [] w2 E2. apply stays_assume. intros Hr2. apply stays_bind; [|reflexivity].
    by apply stays_chownIfNeeded_root.
  - apply stays_conf, (conf_past_check target x c); [done..|]. intros w1 S1 I1 R1.
    apply (conf_bind_ready x); [done|by apply conf_wrap, (conf_MkdirAll_target Ht)|solve_preserves|].
    intros [] w2 E2 R2. apply conf_bind; [|reflexivity].
    assert (I2 : same_ids w1 w2 /\ no_new_links w1 w2).
    { apply wrap_Ok in E2. pose proof (ids_MkdirAll target mode w1) as H1. pose proof (nnl_MkdirAll target mode w1) as H2.
      by rewrite E2 in H1, H2. }
    eapply (conf_owner target x c uid gid w); [done| | |done|done].
    + etrans; [done|apply I2].
    + etrans; [by apply same_tree_no_new_links|apply I2].
Qed.

(** A directory is never opened for writing. *)
Lemma open_dir fl path perm q m w i w' :
  resolve (negb (o_nofollow fl || o_excl fl)) path w = inr q -> w_nodes w !! q = Some (NDir m) ->
  os_open path fl perm w <> (Ok i, w').
Proof.
  intros Hq Hm (l & H)%syscall_Ok. revert H. os_unfold.
  change (resolve (negb (o_nofollow fl || o_excl fl)) path (set_faults l w))
    with (resolve (negb (o_nofollow fl || o_excl fl)) path w).
  rewrite Hq. simpl. rewrite Hm. simpl. by destruct (o_excl fl).
Qed.

(** The steps of [writeFile] from the check of the parents on. *)
Lemma conf_store target x c contents path mode uid gid t w :
  rooted cs w -> abs_path target (cs ++ x ++ [c]) ->
  conf (below cs) w (snd (store ws target contents path mode uid gid t w)).
Proof.
  intros Hr Ht. apply (conf_past_check target x c); [done..|]. intros w1 _ _ H1.
  apply (conf_bind_same x); [done|unfold os_Lstat; solve_preserves|]. intros l w2 _ _ H2.
  apply (conf_bind_same x); [done|solve_preserves|]. intros [] w3 _ _ H3.
  pose proof (open_named target wronly_creat_trunc_nofollow mode w3) as Hnm.
  apply (conf_bind_ready x); [done|apply conf_wrap, conf_open; auto using below_root|solve_preserves|].
  { by apply (ready_leads Ht). }
  intros fd w4 E4%wrap_Ok H4. rewrite E4 in Hnm. destruct (Hnm fd eq_refl) as (q & Hq & Hn & _).
  apply (ready_resolve Ht) in Hq as ->; [|done]. simpl in Hn.
  apply (conf_bind_ready x); [done| |solve_preserves|].
  { eapply conf_attempt, conf_fd_write; [|exact Hn]. apply below_app. by destruct x. }
  intros we w5 E5 H5.
  assert (Hn5 : w_nodes w5 !! (cs ++ x ++ [c]) = Some (NFile fd)).
  { pose proof (preserves_attempt files_kept _ (kept_fd_write fd contents) w4) as HK. rewrite E5 in HK. by apply HK. }
  apply (conf_bind_same x); [done|solve_preserves|]. intros ce w6 _ (E6 & _) H6.
  rewrite <- E6 in Hn5. destruct we as [e|[]]; [reflexivity|]. destruct ce as [e|[]]; [reflexivity|].
  apply (conf_bind_ready x); [done| |solve_preserves|].
  { apply conf_wrap, conf_Chmod; auto using below_root. by eapply (ready_leads_follow Ht). }
  intros [] w7 E7%wrap_Ok H7. apply conf_bind; [|reflexivity].
  apply conf_chownIfNeeded. apply (ready_leads_follow Ht _ (NFile fd)); [done| |done].
  pose proof (kept_Chmod target mode w6) as HK. rewrite E7 in HK. by apply HK.
Qed.

Lemma conf_store_root target contents path mode uid gid t w :
  rooted cs w -> abs_path target cs ->
  conf (below cs) w (snd (store ws target contents path mode uid gid t w)).
Proof.
  intros Hr Ht. apply conf_bind; [apply conf_preserves; auto with go_preserves|].
  intros [] w1 E1. pose proof (ensureSafeParents_same_tree ws target w) as S1. rewrite E1 in S1.
  apply conf_bind; [apply conf_preserves; unfold os_Lstat; solve_preserves|].
  intros l w2 E2. assert (S2 : same_tree w1 w2).
  { pose proof (preserves_attempt same_tree _ (stat_same_tree false target) w1) as HS. unfold os_Lstat in E2.
    by rewrite E2 in HS. }
  apply conf_bind; [apply conf_preserves; solve_preserves|]. intros [] w3 [_ ->]%fail_if_Ok.
  destruct Hr as [[Hw _] Hst]. destruct (Hst cs (reflexivity _)) as [m Hm].
  assert (S : same_tree w w2) by (by etrans). pose proof S as (En & _ & _).
  destruct (os_open target wronly_creat_trunc_nofollow mode w2) as [[fd|e|v] w4] eqn:E4.
  - exfalso. refine (open_dir _ _ _ cs m _ _ _ _ _ E4); [|by rewrite En].
    apply (resolve_existing _ _ _ _ (NDir m)); rewrite ?En; [by eapply wf_same_tree|done| |done].
    by apply standing_nosym.
  - unfold mbind, GoM_bind, wrap_err. rewrite E4. simpl. apply conf_same_tree. by eapply open_Err.
  - by apply open_no_panic in E4.
Qed.

Lemma conf_store_target target requested contents path mode uid gid t w :
  safePath ws requested = Ok target -> rooted cs w ->
  conf (below cs) w (snd (store ws target contents path mode uid gid t w)).
Proof.
  intros [Ht|(x & c & Ht)]%safePath_cases Hr; [by apply conf_store_root|by eapply conf_store].
Qed.

(** The parents of any path of the workspace, made where there is no link. *)
Lemma conf_parents target perm w :
  abs_path target cs \/ (exists x c, abs_path target (cs ++ x ++ [c])) -> rooted cs w -> linkless w ->
  conf (below cs) w (snd (os_MkdirAll (Dir target) perm w)).
Proof.
  intros [Ht|(x & c & Ht)] Hr Hl.
  - apply conf_same_tree, (MkdirAll_standing _ (removelast cs)); [by apply Dir_abs|].
    intros p Hp. apply Hr. destruct (decide (cs = [])) as [E|E]; [by rewrite E in Hp |- *|].
    etrans; [exact Hp|]. rewrite (app_removelast_last "" E) at 2. by eexists.
  - apply (conf_MkdirAll_parent Ht). by apply linkless_ready.
Qed.

Lemma writeFile_stays defaults job uploaded w :
  linkless w \/ jb_CreateParents job = false ->
  stays w (snd (writeFile cfg ws defaults job uploaded w)).
Proof.
  intros Hc. unfold writeFile. apply stays_bind; [|reflexivity].
  apply stays_job_result, stays_assume. intros Hr.
  unfold lift_outcome at 1, mbind at 1, GoM_bind at 1.
  destruct (safePath ws (jb_Path job)) as [target|e|v] eqn:Et; [|reflexivity..].
  unfold lift_outcome at 1, mbind at 1, GoM_bind at 1.
  destruct (safeMode (jb_Mode job) 420) as [mode|e|v]; [|reflexivity..].
  apply stays_bind; [by destruct (DecodeString _)|]. intros contents ? Ew.
  assert (w' = w) as -> by (revert Ew; unfold wrap_err, lift_outcome; destruct (DecodeString _); congruence).
  do 2 (apply stays_bind; [by case_bool_decide|]; intros [] ? [_ -> ]%fail_if_Ok).
  apply stays_conf, conf_bind.
  - destruct Hc as [Hl| -> ]; [|reflexivity]. destruct (jb_CreateParents job); [|reflexivity].
    apply conf_wrap, conf_parents; [by eapply safePath_cases|done..].
  - intros [] w1 E1. destruct (credentials cfg defaults job) as [uid gid].
    eapply conf_store_target; [done|]. eapply rooted_conf; [|exact Hr].
    destruct (jb_CreateParents job); [|by injection E1 as <-]. apply wrap_Ok in E1.
    destruct Hc as [Hl|Hc]; [|done]. pose proof (conf_parents target 493 w (safePath_cases _ _ Et) Hr Hl) as H.
    by rewrite E1 in H.
Qed.

Definition settles (w w' : world) : Prop := same_ids w w' /\ no_new_links w w'.
#[local] Instance settles_preorder : PreOrder settles.
Proof.
  split; [by intros w|]. intros w1 w2 w3 [H1 H2] [H3 H4]. split; by etrans.
Qed.

Lemma settles_both {A} (m : OS A) : preserves same_ids m -> preserves no_new_links m -> preserves settles m.
Proof. intros H1 H2 w. split; [apply H1|apply H2]. Qed.

Lemma settles_MkdirAll p m : preserves settles (os_MkdirAll p m).
Proof. apply settles_both; auto with go_preserves. Qed.
Lemma settles_chownIfNeeded p u g : preserves settles (chownIfNeeded p u g).
Proof. apply settles_both; auto with go_preserves. Qed.
Lemma settles_ensureSafeParents w1 p : preserves settles (ensureSafeParents w1 p).
Proof. apply settles_both; auto with go_preserves. Qed.
#[local] Hint Resolve settles_MkdirAll settles_chownIfNeeded settles_ensureSafeParents : go_preserves.

Lemma settles_store w1 target contents path mode uid gid t :
  preserves settles (store w1 target contents path mode uid gid t).
Proof.
  apply settles_both; unfold store, os_Lstat; solve_preserves.
Qed.
#[local] Hint Resolve settles_store : go_preserves.

Lemma settles_runJob defaults job uploaded :
  jb_Type job <> JobExec -> preserves settles (runJob cfg cmd_Run ws defaults job uploaded).
Proof.
  intros Hne. unfold runJob, mkdir, writeFile, job_result. destruct (credentials cfg defaults job).
  case_decide; [solve_preserves|]. case_decide; [solve_preserves|]. case_decide; [done|solve_preserves].
Qed.

Lemma runJob_stays defaults job uploaded w :
  file_job w defaults job -> stays w (snd (runJob cfg cmd_Run ws defaults job uploaded w)).
Proof.
  intros [Hne Hj]. unfold runJob. case_decide as E1.
  { apply stays_bind; [|reflexivity]. apply mkdir_stays. destruct Hj as [?|[? _]]; auto. }
  case_decide as E2; [apply writeFile_stays; destruct Hj as [?|[_ ?]]; auto|].
  case_decide; [done|reflexivity].
Qed.

Lemma file_job_settles w w' defaults job :
  settles w w' -> file_job w defaults job -> file_job w' defaults job.
Proof.
  intros [(HU & HG & _) Hn] [Hne Hj]. split; [done|]. rewrite HU, HG.
  destruct Hj as [Hl|Hj]; [left; by eapply linkless_no_new_links|by right].
Qed.

(** What a batch of such jobs keeps. *)
Definition batch_keeps (w w' : world) : Prop := stays w w' /\ settles w w'.
#[local] Instance batch_keeps_preorder : PreOrder batch_keeps.
Proof. split; [by intros w|]. intros w1 w2 w3 [H1 H2] [H3 H4]. split; by etrans. Qed.

Lemma runJob_keeps defaults job uploaded w :
  file_job w defaults job -> batch_keeps w (snd (runJob cfg cmd_Run ws defaults job uploaded w)).
Proof. intros Hj. split; [by apply runJob_stays|apply settles_runJob, Hj]. Qed.

Lemma run_jobs_keeps defaults jobs uploaded w :
  Forall (file_job w defaults) jobs ->
  batch_keeps w (snd (run_jobs cfg cmd_Run ws defaults jobs uploaded w)).
Proof.
  intros Hj. revert uploaded w Hj. induction jobs as [|job jobs IH]; intros uploaded w Hj; [reflexivity|].
  apply Forall_cons in Hj as [Hj Hjs]. cbn [run_jobs].
  pose proof (runJob_keeps defaults job uploaded w Hj) as H1. apply (step_bind batch_keeps); [exact H1|].
  intros [r up] w1 E. rewrite E in H1. simpl. destruct (jr_OK r); [|reflexivity].
  apply (step_bind batch_keeps); [|reflexivity]. apply IH.
  eapply Forall_impl; [exact Hjs|]. intros j. apply file_job_settles, H1.
Qed.

Lemma workspace_keeps requested w :
  rooted cs w -> batch_keeps w (snd (workspace cfg requested w)).
Proof.
  intros Hr. unfold workspace. apply (step_bind batch_keeps); [by destruct (negb _)|]. intros [] ? [_ -> ]%fail_if_Ok.
  apply (step_bind batch_keeps).
  { by destruct (negb _). }
  intros [] ? [Heq -> ]%fail_if_Ok. apply negb_false_iff, bool_decide_eq_true in Heq.
  apply (step_bind batch_keeps); [|reflexivity]. rewrite Heq, cfg_root. split.
  - apply stays_conf, conf_wrap. eapply (conf_MkdirAll cs []); rewrite ?app_nil_r; [done|by apply Clean_Root|].
    by apply standing_nosym, Hr.
  - apply preserves_wrap, settles_MkdirAll.
Qed.

Lemma workspace_Ok requested ws' w w' : workspace cfg requested w = (Ok ws', w') -> ws' = ws.
Proof.
  unfold workspace. intros H. run_Ok H. injection H as <- _.
  by apply negb_false_iff, bool_decide_eq_true in E0 as ->; rewrite cfg_root.
Qed.

Lemma runBatch_keeps req w :
  rooted cs w -> Forall (file_job w (br_Defaults req)) (br_Jobs req) ->
  batch_keeps w (snd (runBatch cfg cmd_Run req w)).
Proof.
  intros Hr Hj. unfold runBatch. case_decide; [reflexivity|].
  pose proof (workspace_keeps (br_Workspace req) w Hr) as HW.
  apply (step_bind batch_keeps).
  { unfold attempt. by destruct (workspace cfg (br_Workspace req) w) as [[]]. }
  intros [e|ws'] w1 E; [reflexivity|]. apply attempt_inr in E. rewrite E in HW.
  apply workspace_Ok in E as ->. case_decide; [reflexivity|].
  apply (step_bind batch_keeps); [|reflexivity]. apply run_jobs_keeps.
  eapply Forall_impl; [exact Hj|]. intros j. apply file_job_settles, HW.
Qed.
End confinement.

#[export] Hint Resolve rejectSymlink_same_tree reject_parts_same_tree ensureSafeParents_same_tree : go_preserves.

(** C4: a batch without commands changes nothing outside its workspace: when the workspace stands,
    and every job is on files and either no symbolic link is in the workspace or the job gives
    nothing away (mkdir) and makes no parents (write_file), then after [runBatch], whatever
    failed on the way, the workspace stands, every path outside it is as it was, and no
    symbolic link was made. *)
Theorem runBatch_confined cfg (cmd_Run : Command -> OS RunOutcome) req w :
  let cs := rootc (Workspace cfg) in
  IsAbs (Workspace cfg) = true -> rooted cs w ->
  Forall (file_job (Workspace cfg) cfg w (br_Defaults req)) (br_Jobs req) ->
  let w' := snd (runBatch cfg cmd_Run req w) in
  rooted cs w' /\ no_new_links w w' /\ forall p, ~ cs `prefix_of` p -> view w' p = view w p.
Proof.
  intros cs Habs Hr Hj. cbv zeta.
  destruct (runBatch_keeps (Workspace cfg) Habs cfg eq_refl cmd_Run req w Hr Hj) as [HS [_ HN]].
  by destruct (HS Hr).
Qed.

(** ** A batch in a standing workspace *)

Definition demo_defaults : JobDefaults :=
  {| jd_UID := None; jd_GID := None; jd_Env := []; jd_TimeoutMillis := 0; jd_MaxOutputBytes := 0 |}.
Definition demo_config : Config :=
  {| Workspace := "/workspace"; MaxBodyBytes := 100; MaxFileBytes := 10; MaxOutputBytes := 4; DefaultTimeout := Second;
     DefaultUID := 0; DefaultGID := 0; Shutdown := true; ShutdownAfterJobs := true |}.
Definition demo_job (type path contents : string) (parents : bool) (argv : list string) : Job :=
  {| jb_Type := type; jb_Path := path; jb_Mode := 0; jb_ContentsBase64 := contents; jb_CreateParents := parents;
     jb_Argv := argv; jb_Env := []; jb_WorkingDir := ""; jb_UID := None; jb_GID := None;
     jb_TimeoutMillis := 0; jb_MaxOutputBytes := 0 |}.
Definition demo_request : BatchRequest :=
  {| br_Version := 1; br_Workspace := ""; br_Defaults := demo_defaults;
     br_Jobs := [demo_job JobMkdir "/workspace/src" "" false []; demo_job JobWriteFile "/workspace/src/a" "aGVsbG8=" false []];
     br_Shutdown := false |}.
Definition demo_run (_ : Command) : OS RunOutcome :=
  mret {| ro_stdout := ["he"; "llo"]; ro_stderr := []; ro_err := Some (ExitError 3); ro_timedOut := false; ro_Process := Some 7%Z |}.
Abbreviation demo_fs := (with_dirs ["/workspace"; "/etc"] empty_world).
Abbreviation linked_fs := (with_link "/workspace/l" "/etc" demo_fs).

Lemma runBatch_confined_witness :
  let w' := snd (runBatch demo_config demo_run demo_request linked_fs) in
  rooted ["workspace"] w' /\ no_new_links linked_fs w' /\ forall p, ~ ["workspace"] `prefix_of` p -> view w' p = view linked_fs p.
Proof.
  pose proof (runBatch_confined demo_config demo_run demo_request linked_fs) as H.
  apply H; [reflexivity| |].
  - apply rooted_check_sound. vm_compute. reflexivity.
  - repeat constructor; first [done|right; split; [reflexivity|done]].
Defined.

(** Outside those hypotheses the agent does write outside the workspace: [create_parents] makes the parents
    before any of them is checked, through whatever link is on the way, and [mkdir] of a link gives away
    what it leads to. *)
Example create_parents_through_link :
  let w' := snd (runJob demo_config demo_run "/workspace" demo_defaults
                   (demo_job JobWriteFile "/workspace/l/made/f" "" true []) 0 linked_fs) in
  w_nodes linked_fs !! ["etc"; "made"] = None /\ is_dir_at w' ["etc"; "made"] = true.
Proof. vm_compute. done. Qed.

Example mkdir_of_link_gives_away :
  let job := {| jb_Type := JobMkdir; jb_Path := "/workspace/l"; jb_Mode := 0; jb_ContentsBase64 := ""; jb_CreateParents := false;
                jb_Argv := []; jb_Env := []; jb_WorkingDir := ""; jb_UID := Some 1000; jb_GID := Some 1000;
                jb_TimeoutMillis := 0; jb_MaxOutputBytes := 0 |} in
  let r := runJob demo_config demo_run "/workspace" demo_defaults job 0 linked_fs in
  fst r = Ok (ok JobMkdir, 0)
  /\ match w_nodes (snd r) !! ["etc"] with Some (NDir m) => m_uid m = 1000 | _ => False end.
Proof. vm_compute. done. Qed.
