(* ===== verification/AgentJobs.v ===== *)
(** * What a batch does

    The agent's jobs where they succeed: the paths it accepts, the file [write_file] leaves, the
    command [exec] runs and the output it keeps; which jobs are refused for their arguments alone, and what
    is left to do of the others; and the results a batch gives. *)

From S2P Require Import Prelude GoPath GoBase64 HostFS Confine FileLaws Below AgentApi AgentServer AgentConfinement.
Local Open Scope Z_scope.

(** ** Paths *)

(** [safePath] accepts exactly the absolute paths whose cleaned components start with those
    of the workspace, and gives the cleaned path. *)
Theorem safePath_accepts root requested target :
  IsAbs root = true ->
  safePath (Clean root) requested = Ok target
  <-> IsAbs requested = true /\ target = Clean requested /\ rootc root `prefix_of` rootc requested.
Proof.
  intros Hr. rewrite (safePath_in _ (rootc root)) by (by apply Clean_Root).
  case_decide as He; [subst; split; [done|by intros [? _]]|].
  unfold rootc. destruct (IsAbs requested); simpl; [|split; [done|by intros (? & _)]].
  case_decide; (split; [|by intros (_ & -> & ?)]); [by intros [= <-]|done].
Qed.

Lemma safePath_accepts_witness : safePath (Clean "/workspace/") "/workspace/a/./b" = Ok "/workspace/a/b".
Proof.
  apply (safePath_accepts "/workspace/"); [reflexivity|].
  split; [reflexivity|]. split; [by vm_compute|by_decision].
Defined.

(** ** The output of a command *)

Lemma str_take_length n s : (String.length (str_take n s) <= n)%nat.
Proof. revert n. induction s as [|c s IH]; intros [|n]; simpl; try lia. specialize (IH n). lia. Qed.
Lemma str_take_exact n s : (n <= String.length s)%nat -> String.length (str_take n s) = n.
Proof. revert n. induction s as [|c s IH]; intros [|n] Hn; simpl in *; try lia. rewrite IH; lia. Qed.
Lemma str_take_app_le n s t : (String.length s <= n)%nat ->
  str_take n (s +:+ t) = s +:+ str_take (n - String.length s) t.
Proof.
  revert n. induction s as [|c s IH]; intros n Hn; simpl; [by rewrite Nat.sub_0_r|].
  destruct n as [|n]; simpl in *; [lia|]. f_equal. apply IH. lia.
Qed.
Lemma str_take_app_ge n s t : (n <= String.length s)%nat -> str_take n (s +:+ t) = str_take n s.
Proof. revert n. induction s as [|c s IH]; intros [|n] Hn; simpl in *; try done; [lia|]. f_equal. apply IH. lia. Qed.

Definition str_concat (l : list string) : string := foldr String.append "" l.

Lemma captured_from limit writes buf :
  0 <= limit -> in_int64 limit ->
  (String.length buf <= Z.to_nat limit)%nat ->
  lb_Bytes (foldl (fun b p => snd (lb_Write b p)) {| lb_buf := buf; lb_limit := limit |} writes)
  = str_take (Z.to_nat limit) (buf +:+ str_concat writes).
Proof.
  intros H0 Hl. revert buf. induction writes as [|p writes IH]; intros buf Hb; simpl.
  { by rewrite app_nil_r_str, str_take_all. }
  unfold lb_Write at 2. cbn [lb_buf lb_limit].
  rewrite wrap64_id by (unfold in_int64, int64_min, int64_max in *; lia).
  case_decide as H1; [|case_decide as H2]; cbn [snd].
  - rewrite IH by done. rewrite !str_take_app_ge by lia. done.
  - rewrite IH by (rewrite length_app_str; pose proof (str_take_length (Z.to_nat (limit - Z.of_nat (String.length buf))) p); lia).
    rewrite <- (app_assoc_str buf). rewrite !(str_take_app_le _ buf) by done. f_equal.
    replace (Z.to_nat limit - String.length buf)%nat with (Z.to_nat (limit - Z.of_nat (String.length buf))) by lia.
    set (n := Z.to_nat _). assert (Hn : (n <= String.length p)%nat) by (subst n; lia).
    pose proof (str_take_exact n p Hn) as El.
    rewrite !str_take_app_ge by lia. by rewrite str_take_all by lia.
  - rewrite IH by (rewrite length_app_str; lia). by rewrite <- app_assoc_str.
Qed.

Lemma captured_is_prefix limit writes :
  0 <= limit -> in_int64 limit -> captured limit writes = str_take (Z.to_nat limit) (str_concat writes).
Proof. intros H0 Hl. unfold captured. rewrite captured_from; [done..|simpl; lia]. Qed.

(** ** The file [write_file] leaves *)

Lemma chownIfNeeded_file path q i n uid gid w w' :
  resolve true path w = inr q -> file_at q i n w -> chownIfNeeded path uid gid w = (Ok tt, w') ->
  exists u g, file_at q i (Inode (i_data n) (Meta (m_mode (i_meta n)) u g (m_mtime (i_meta n)))) w'
    /\ ((uid, gid) <> (w_uid w, w_gid w) -> u = keep_id uid (m_uid (i_meta n)) /\ g = keep_id gid (m_gid (i_meta n))).
Proof.
  intros Hr Hf. unfold chownIfNeeded, os_Getuid, os_Getgid, gets, mbind, GoM_bind. case_decide as Hd.
  - intros [= <-]. exists (m_uid (i_meta n)), (m_gid (i_meta n)). split; [|intros []; by destruct Hd as [-> ->]].
    by destruct n as [d []].
  - intros H%wrap_Ok. destruct (file_chown path q i n true uid gid w _ _ Hr Hf H) as [(u & g & Hu & Ho) _].
    eauto.
Qed.

Section files.
Variable Root : string.
Hypothesis Root_abs : IsAbs Root = true.
Abbreviation cs := (rootc Root).
Abbreviation ws := (Clean Root).

(** The checks before the open leave the tree as it is, and the entry ready. *)
Lemma store_checks target l w w0 w1 :
  ensureSafeParents ws target w = (Ok tt, w0) -> attempt (os_Lstat target) w0 = (Ok l, w1) ->
  same_tree w w0 /\ same_tree w0 w1 /\ same_ids w w1.
Proof.
  intros E0 E1. pose proof (ensureSafeParents_same_tree ws target w) as S0.
  pose proof (ids_ensureSafeParents ws target w) as I0. rewrite E0 in S0, I0.
  pose proof (preserves_attempt same_tree _ (stat_same_tree false target) w0) as S1.
  pose proof (preserves_attempt same_ids _ (ids_stat false target) w0) as I1.
  unfold os_Lstat in E1. rewrite E1 in S1, I1. split; [done|]. split; [done|].
  by etrans.
Qed.

(** The workspace is no file. *)
Lemma store_root_fails target contents path mode uid gid t w r w' :
  rooted cs w -> abs_path target cs -> store ws target contents path mode uid gid t w <> (Ok r, w').
Proof.
  intros [[Hw _] Hst] Ht H. unfold store in H. apply bind_Ok in H as ([] & w0 & E & H).
  apply bind_Ok in H as (l & w1 & E0 & H). apply bind_Ok in H as ([] & ? & [_ -> ]%fail_if_Ok & H).
  apply bind_Ok in H as (fd & w2 & E2%wrap_Ok & _).
  destruct (store_checks _ _ _ _ _ E E0) as (S0 & S1 & _). destruct (Hst cs (reflexivity _)) as [m Hm].
  assert (S : same_tree w w1) by (by etrans). assert (En : w_nodes w1 = w_nodes w) by apply S.
  refine (open_dir _ _ _ cs m _ _ _ _ _ E2); [|by rewrite En].
  apply (resolve_existing _ _ _ _ (NDir m)); rewrite ?En; [by eapply wf_same_tree|done| |done].
  by apply standing_nosym.
Qed.

(** A run of [store] that succeeds: the target is below the workspace and holds the contents. *)
Lemma store_Ok target requested contents path mode uid gid t w r w' :
  safePath ws requested = Ok target -> rooted cs w ->
  store ws target contents path mode uid gid t w = (Ok r, w') ->
  r = ok t /\ exists q i m, abs_path target q /\ below cs q
    /\ file_at q i (Inode contents m) w' /\ m_mode m = mode
    /\ ((uid, gid) <> (w_uid w, w_gid w) -> uid <> -1 -> gid <> -1 -> m_uid m = uid /\ m_gid m = gid).
Proof.
  intros [Ht|(x & c & Ht)]%safePath_cases Hr H; [by apply store_root_fails in H| |done].
  unfold store in H. apply bind_Ok in H as ([] & w0 & E & H).
  apply bind_Ok in H as (l & w1 & E0 & H). apply bind_Ok in H as ([] & ? & [_ -> ]%fail_if_Ok & H).
  apply bind_Ok in H as (fd & w2 & E2%wrap_Ok & H).
  destruct (store_checks _ _ _ _ _ E E0) as (S0 & S1 & I1).
  assert (R1 : ready Root x w1).
  { eapply ready_same_tree; [exact S1|by eapply ensureSafeParents_ready]. }
  destruct (open_trunc _ wronly_creat_trunc_nofollow _ _ _ _ (proj1 (proj1 (proj1 R1))) eq_refl E2) as (q & m & Hq & Hf2 & _).
  apply (ready_resolve Ht) in Hq as ->; [|done].
  assert (R2 : ready Root x w2).
  { eapply ready_step; [..|exact R1].
    - pose proof (conf_open (below cs) (below_root cs) target wronly_creat_trunc_nofollow mode w1 (ready_leads Ht w1 R1)) as HC.
      by rewrite E2 in HC.
    - pose proof (nnl_open target wronly_creat_trunc_nofollow mode w1) as HN. by rewrite E2 in HN. }
  assert (Hres : resolve true target w2 = inr (cs ++ x ++ [c])).
  { apply (resolve_existing _ _ _ _ (NFile fd)); [apply R2|done| |apply Hf2].
    rewrite app_assoc. apply nosym_snoc; [apply R2|]. intros ? ?. rewrite <- app_assoc, (proj1 Hf2). done. }
  apply bind_Ok in H as (we & w3 & E3 & H). apply bind_Ok in H as (ce & w4 & E4 & H).
  destruct we as [e|[]]; [done|]. destruct ce as [e|[]]; [done|]. apply attempt_inr in E3, E4.
  destruct (file_fd_write _ _ _ _ _ _ Hf2 E3) as [Hf3 N3].
  pose proof (fd_close_same_tree fd w3) as S4. rewrite E4 in S4. apply (file_at_same_tree _ _ _ _ _ S4) in Hf3 as Hf4.
  pose proof (names_fd_close fd w3) as N4. rewrite E4 in N4.
  assert (N24 : same_names w2 w4) by (by etrans). rewrite <- (resolve_same_names true target _ _ N24) in Hres.
  apply bind_Ok in H as ([] & w5 & E5%wrap_Ok & H). apply bind_Ok in H as ([] & w6 & E6 & H). injection H as <- <-.
  destruct (file_Chmod _ _ _ _ _ _ _ Hres Hf4 E5) as [Hf5 N5].
  rewrite <- (resolve_same_names true target _ _ N5) in Hres.
  destruct (chownIfNeeded_file _ _ _ _ _ _ _ _ Hres Hf5 E6) as (u & g & Hf6 & Ho). split; [done|].
  eexists _, _, _. split; [done|]. split; [by apply below_app; destruct x|]. split; [exact Hf6|]. split; [done|].
  assert (I5 : same_ids w1 w5).
  { pose proof (ids_open target wronly_creat_trunc_nofollow mode w1) as A1. rewrite E2 in A1.
    pose proof (ids_fd_write fd contents w2) as A2. rewrite E3 in A2.
    pose proof (ids_fd_close fd w3) as A3. rewrite E4 in A3.
    pose proof (ids_Chmod target mode w4) as A4. rewrite E5 in A4.
    simpl in *. etrans; [exact A1|]. etrans; [exact A2|]. by etrans. }
  intros Hne Hu Hg. destruct Ho as [-> ->].
  { intros E'. apply Hne. destruct I1 as (? & ? & _), I5 as (? & ? & _). congruence. }
  unfold keep_id. simpl. by rewrite !decide_False.
Qed.

(** *** Commands *)

Lemma Stat_dir path q w info w' :
  nosym true (w_nodes w) [] q -> abs_path path q -> os_Stat path w = (Ok info, w') -> fi_dir info = true ->
  exists m, w_nodes w !! q = Some (NDir m).
Proof.
  intros Hn Hp E Hd. pose proof (stat_lookup true path w) as H. unfold os_Stat in E. rewrite E in H.
  destruct H as (q' & n & Hr & Hl & ->). rewrite (resolve_abs _ _ _ _ Hp) in Hr.
  destruct (walk_nosym max_symlinks (w_nodes w) true [] q) as [E'|[E'|E']]; [apply Hp|done|..]; rewrite E' in Hr; try done.
  injection Hr as <-. simpl in Hl. destruct n as [m|tg m|i]; [eauto|done|]. simpl in Hd. by destruct (w_inodes w !! i).
Qed.

(** The working directory is one of the workspace, reached through no link. *)
Lemma working_dir_checked dir cwd w w1 w2 info :
  safePath ws dir = Ok cwd -> rooted cs w ->
  ensureSafeParents ws (Join [cwd; ".agent-check"]) w = (Ok tt, w1) ->
  attempt (os_Stat cwd) w1 = (Ok info, w2) ->
  match info with inr i => negb (fi_dir i) | inl _ => true end = false ->
  same_tree w w2 /\ same_ids w w2
  /\ exists q m, abs_path cwd q /\ cs `prefix_of` q /\ nosym true (w_nodes w2) [] q /\ w_nodes w2 !! q = Some (NDir m).
Proof.
  intros Hs Hr E1 E2 Hi. destruct info as [e|info]; [done|]. apply negb_false_iff in Hi. apply attempt_inr in E2.
  destruct (safePath_Ok ws cs dir cwd (Clean_Root Root Root_abs) Hs) as (y & Hy).
  assert (Hj : abs_path (Join [cwd; ".agent-check"]) (cs ++ y ++ [".agent-check"])).
  { rewrite app_assoc. apply Join_abs_name; [done|by_decision]. }
  pose proof (ensureSafeParents_ready Root Root_abs _ y _ w w1 Hr Hj E1) as [_ Hn].
  pose proof (ensureSafeParents_same_tree ws (Join [cwd; ".agent-check"]) w) as S1. rewrite E1 in S1.
  pose proof (ids_ensureSafeParents ws (Join [cwd; ".agent-check"]) w) as I1. rewrite E1 in I1.
  pose proof (stat_same_tree true cwd w1) as S2. pose proof (ids_stat true cwd w1) as I2. unfold os_Stat in E2.
  rewrite E2 in S2, I2. split; [by etrans|]. split; [by etrans|].
  destruct (Stat_dir _ _ _ _ _ Hn Hy E2 Hi) as [m Hm]. pose proof S2 as (En & _ & _). simpl in En.
  exists (cs ++ y), m. rewrite En. by split_and!; [|exists y|..].
Qed.
End files.

(** C15: a [write_file] job that is OK decoded its contents, within the limits on one file and on
    the bytes of the batch so far, and left a file below the workspace, at the cleaned path, with
    exactly those bytes and the job's permission bits; it belongs to the job's user and group
    when these are not the agent's own. *)
Theorem writeFile_ok cfg Root defaults job uploaded w r up w' :
  IsAbs Root = true -> rooted (rootc Root) w -> linkless Root w \/ jb_CreateParents job = false ->
  writeFile cfg (Clean Root) defaults job uploaded w = (Ok (r, up), w') -> jr_OK r = true ->
  exists contents mode q i m,
    DecodeString (jb_ContentsBase64 job) = Ok contents /\ Z.of_nat (String.length contents) <= MaxFileBytes cfg
    /\ up = wrap64 (uploaded + Z.of_nat (String.length contents)) /\ up <= MaxBodyBytes cfg
    /\ safeMode (jb_Mode job) 420 = Ok mode
    /\ abs_path (Clean (jb_Path job)) q /\ below (rootc Root) q
    /\ file_at q i (Inode contents m) w' /\ m_mode m = mode
    /\ (let '(uid, gid) := credentials cfg defaults job in
        (uid, gid) <> (w_uid w, w_gid w) -> uid <> -1 -> gid <> -1 -> m_uid m = uid /\ m_gid m = gid).
Proof.
  intros Habs Hr Hc H Hok. unfold writeFile in H. apply bind_Ok in H as (r0 & w0 & E & H). injection H as -> <- <-.
  unfold job_result in E. apply bind_Ok in E as (a & w1 & E & H). injection H as <- <-.
  destruct a as [e|r1]; [done|]. apply attempt_inr in E.
  apply bind_Ok in E as (target & w2 & E2 & E). injection E2 as Et <-.
  apply bind_Ok in E as (mode & w3 & E3 & E). injection E3 as Em <-.
  apply bind_Ok in E as (contents & w4 & E4%wrap_Ok & E). injection E4 as Ed <-. rewrite Ed in *.
  apply bind_Ok in E as ([] & ? & [Hf ->]%fail_if_Ok & E). apply bind_Ok in E as ([] & ? & [Hb ->]%fail_if_Ok & E).
  apply bool_decide_eq_false in Hf, Hb.
  apply bind_Ok in E as ([] & w5 & E5 & E).
  assert (Hk : rooted (rootc Root) w5 /\ same_ids w w5).
  { destruct (jb_CreateParents job); [|by injection E5 as <-]. apply wrap_Ok in E5.
    destruct Hc as [Hl|]; [|done].
    pose proof (conf_parents Root target 493 w (safePath_cases Root Habs _ _ Et) Hr Hl) as HC.
    pose proof (ids_MkdirAll (Dir target) 493 w) as HI. rewrite E5 in HC, HI. split; [by eapply rooted_conf|done]. }
  destruct Hk as [Hr5 (HU & HG & _)]. destruct (credentials cfg defaults job) as [uid gid].
  destruct (store_Ok Root Habs _ _ _ _ _ _ _ _ _ _ _ Et Hr5 E) as (_ & q & i & m & Hq & Hbq & Hfile & Hm & Ho).
  rewrite HU, HG in Ho. exists contents, mode, q, i, m.
  assert (target = Clean (jb_Path job)) as <-.
  { rewrite (safePath_in _ _ _ (Clean_Root Root Habs)) in Et. repeat case_match; congruence. }
  split_and!; try done; lia.
Qed.

Lemma kill_group_Ok out w w' :
  kill_group out w = (Ok tt, w') ->
  w' = match ro_timedOut out, ro_Process out with true, Some pid => snd (unix_Kill (- pid) 9 w) | _, _ => w end.
Proof.
  unfold kill_group. destruct (ro_Process out) as [pid|], (ro_timedOut out); try by intros [= <-].
  unfold ignore, attempt, mbind, GoM_bind. change SIGKILL with 9. by destruct (unix_Kill _ _ w) as [[[]|e|v] w1]; intros [= <-].
Qed.

(** C16: an [exec] job that is OK ran one command: with the job's arguments and the environment of the
    defaults followed by the job's, in a directory of the workspace that is reached through no symbolic
    link, under the timeout of the batch or the job, and as the job's user and group when these are
    not the agent's own, which takes root. The result's outputs decode to the first bytes the command
    wrote, up to the limit. A command that timed out has its process group killed. *)
Theorem exec_runs cfg (cmd_Run : Command -> OS RunOutcome) Root defaults job w r w' :
  IsAbs Root = true -> rooted (rootc Root) w ->
  0 <= maxOutput cfg defaults job -> in_int64 (maxOutput cfg defaults job) ->
  exec cfg cmd_Run (Clean Root) defaults job w = (Ok r, w') -> jr_OK r = true ->
  let limit := Z.to_nat (maxOutput cfg defaults job) in
  exists cmd q m w1 out w2,
    cmd_Run cmd w1 = (Ok out, w2) /\ same_tree w w1
    /\ w' = match ro_timedOut out, ro_Process out with
            | true, Some pid => snd (unix_Kill (- pid) 9 w2)
            | _, _ => w2
            end
    /\ cmd_Argv cmd = jb_Argv job /\ cmd_Env cmd = jd_Env defaults ++ jb_Env job
    /\ cmd_Timeout cmd = timeout cfg defaults job
    /\ abs_path (cmd_Dir cmd) q /\ rootc Root `prefix_of` q
    /\ nosym true (w_nodes w1) [] q /\ w_nodes w1 !! q = Some (NDir m)
    /\ (let '(uid, gid) := credentials cfg defaults job in
        match cmd_Credential cmd with
        | None => uid = w_uid w /\ gid = w_gid w
        | Some c => w_euid w = 0 /\ c = (uint32 uid, uint32 gid)
        end)
    /\ DecodeString (jr_StdoutBase64 r) = Ok (str_take limit (str_concat (ro_stdout out)))
    /\ DecodeString (jr_StderrBase64 r) = Ok (str_take limit (str_concat (ro_stderr out)))
    /\ jr_TimedOut r = ro_timedOut out.
Proof.
  intros Habs Hr H0 Hl H Hok limit. unfold exec, exec_in, job_result in H.
  apply bind_Ok in H as (a & w0 & E & H). injection H as <- <-. destruct a as [e|r1]; [done|]. apply attempt_inr in E.
  apply bind_Ok in E as ([] & ? & [_ ->]%fail_if_Ok & E). apply bind_Ok in E as (cwd & ? & Ec & E). injection Ec as Ec <-.
  apply bind_Ok in E as ([] & w1 & E1 & E). apply bind_Ok in E as (info & w2 & E2 & E).
  apply bind_Ok in E as ([] & ? & [Hi ->]%fail_if_Ok & E).
  destruct (working_dir_checked Root Habs _ _ _ _ _ _ Ec Hr E1 E2 Hi) as (S & I & q & m & Hq & Hp & Hn & Hm).
  destruct (credentials cfg defaults job) as [uid gid].
  apply bind_Ok in E as (u & ? & Eu & E). injection Eu as <- <-. apply bind_Ok in E as (g & ? & Eg & E). injection Eg as <- <-.
  apply bind_Ok in E as (eu & ? & Eeu & E). injection Eeu as <- <-.
  apply bind_Ok in E as ([] & ? & [Hsw ->]%fail_if_Ok & E).
  apply bind_Ok in E as (out & w3 & Er & E). apply bind_Ok in E as ([] & w4 & Ek & E).
  assert (Hres : w0 = w4 /\ jr_TimedOut r1 = ro_timedOut out
    /\ jr_StdoutBase64 r1 = EncodeToString (captured (maxOutput cfg defaults job) (ro_stdout out))
    /\ jr_StderrBase64 r1 = EncodeToString (captured (maxOutput cfg defaults job) (ro_stderr out))).
  { destruct (ro_err out) as [[code|err]|]; [by injection E as <- <-| |by injection E as <- <-].
    destruct (ro_timedOut out) eqn:Et; [|done]. by injection E as <- <-. }
  destruct Hres as (-> & Ht & Ho & He). eexists _, q, m, w2, out, w3. split; [exact Er|]. simpl.
  apply kill_group_Ok in Ek as ->.
  rewrite Ho, He, !DecodeString_EncodeToString, !captured_is_prefix by done.
  destruct I as (HU & HG & HE). rewrite HU, HG, HE in *. split_and!; try done.
  destruct (bool_decide (uid = w_uid w)) eqn:Bu, (bool_decide (gid = w_gid w)) eqn:Bg; simpl in Hsw |- *;
    rewrite ?bool_decide_eq_true in *; try done; by apply negb_false_iff, bool_decide_eq_true in Hsw.
Qed.

(** ** The results of a batch *)

(** [m] never panics, and what it returns satisfies [P]. *)
Definition returns {A} (P : A -> Prop) (m : OS A) : Prop :=
  forall w, match fst (m w) with Ok a => P a | Err _ => True | Panic _ => False end.

Lemma returns_ret {A} (P : A -> Prop) a : P a -> returns P (mret a).
Proof. by intros HP w. Qed.
Lemma returns_fail {A} (P : A -> Prop) e : returns P (fail e).
Proof. done. Qed.
Lemma returns_bind {A B} (P : B -> Prop) (m : OS A) (k : A -> OS B) :
  no_panic m -> (forall a, returns P (k a)) -> returns P (m ≫= k).
Proof.
  intros Hm Hk w. unfold mbind, GoM_bind. specialize (Hm w). destruct (m w) as [[a|e|v] w']; [apply Hk|done|].
  by eapply Hm.
Qed.
Lemma no_panic_lift_outcome {A} (o : outcome A) : (forall v, o <> Panic v) -> no_panic (S := world) (lift_outcome o).
Proof. intros Ho w v w' [= -> ->]. by eapply Ho. Qed.

Lemma safePath_no_panic ws requested v : safePath ws requested <> Panic v.
Proof. unfold safePath, Rel, mbind, outcome_bind. repeat (case_match; try done). Qed.
Lemma safeMode_no_panic mode d v : safeMode mode d <> Panic v.
Proof. unfold safeMode. by repeat case_match. Qed.
Lemma Rel_no_panic b t v : Rel b t <> Panic v.
Proof. unfold Rel. by repeat case_match. Qed.
#[local] Hint Resolve no_panic_lift_outcome safePath_no_panic safeMode_no_panic Rel_no_panic DecodeString_no_panic : go_no_panic.

Lemma no_panic_rejectSymlink path : no_panic (rejectSymlink path).
Proof. unfold rejectSymlink, os_Lstat. solve_no_panic. Qed.
#[local] Hint Resolve no_panic_rejectSymlink : go_no_panic.
Lemma no_panic_reject_parts current parts : no_panic (reject_parts current parts).
Proof. revert current. induction parts as [|p l IH]; intros current; cbn [reject_parts]; solve_no_panic. Qed.
#[local] Hint Resolve no_panic_reject_parts : go_no_panic.
Lemma no_panic_ensureSafeParents ws target : no_panic (ensureSafeParents ws target).
Proof. unfold ensureSafeParents. solve_no_panic. Qed.
Lemma no_panic_chownIfNeeded p u g : no_panic (chownIfNeeded p u g).
Proof. unfold chownIfNeeded, os_Getuid, os_Getgid, os_Chown. solve_no_panic. Qed.
Lemma no_panic_kill_group out : no_panic (kill_group out).
Proof. unfold kill_group, unix_Kill. destruct (ro_Process out), (ro_timedOut out); solve_calls_no_panic. Qed.
#[local] Hint Resolve no_panic_ensureSafeParents no_panic_chownIfNeeded no_panic_kill_group : go_no_panic.

(** ** The argument checks

    What a job's arguments must be, and what the agent goes on to when they are. *)

(** What has been uploaded after the job, whose contents decode to [c]. *)
Definition uploaded_after (uploaded : Z) (c : string) : Z := wrap64 (uploaded + Z.of_nat (String.length c)).

(** The job's arguments, with [uploaded] bytes written by those before it, pass every check of the agent. *)
Definition agent_admits (cfg : Config) (ws : string) (uploaded : Z) (job : Job) : Prop :=
  if decide (jb_Type job = JobMkdir) then is_Ok (safePath ws (jb_Path job)) = true /\ is_Ok (safeMode (jb_Mode job) 493) = true
  else if decide (jb_Type job = JobWriteFile) then
    is_Ok (safePath ws (jb_Path job)) = true /\ is_Ok (safeMode (jb_Mode job) 420) = true
    /\ exists c, DecodeString (jb_ContentsBase64 job) = Ok c /\ Z.of_nat (String.length c) <= MaxFileBytes cfg
       /\ uploaded_after uploaded c <= MaxBodyBytes cfg
  else jb_Type job = JobExec /\ head (jb_Argv job) <> None /\ head (jb_Argv job) <> Some ""
    /\ is_Ok (safePath ws (if decide (jb_WorkingDir job = "") then ws else jb_WorkingDir job)) = true.

(** What is left of the job then: the steps that look at the file system and change it. *)
Definition job_work (cfg : Config) (cmd_Run : Command -> OS RunOutcome) (ws : string) (defaults : JobDefaults) (job : Job) : OS JobResult :=
  let target := Clean (jb_Path job) in
  let perm fallback := Z.land (if decide (jb_Mode job = 0) then fallback else jb_Mode job) 511 in
  let '(uid, gid) := credentials cfg defaults job in
  job_result (jb_Type job) (
    if decide (jb_Type job = JobMkdir) then
      ensureSafeParents ws target ;;
      wrap_err (Wrapf "mkdir: %w" []) (os_MkdirAll target (perm 493)) ;;
      chownIfNeeded target uid gid ;;
      mret (ok (jb_Type job))
    else if decide (jb_Type job = JobWriteFile) then
      contents ← lift_outcome (DecodeString (jb_ContentsBase64 job));
      (if jb_CreateParents job then wrap_err (Wrapf "create parents: %w" []) (os_MkdirAll (Dir target) 493) else mret tt) ;;
      store ws target contents (jb_Path job) (perm 420) uid gid (jb_Type job)
    else exec_in cfg cmd_Run ws (Clean (if decide (jb_WorkingDir job = "") then ws else jb_WorkingDir job)) defaults job).

Section admission.
Variables (cfg : Config) (cmd_Run : Command -> OS RunOutcome).

Lemma safePath_clean ws p : safePath ws p = Ok (Clean p) \/ exists e, safePath ws p = Err e.
Proof.
  unfold safePath. pose proof (fun v => Rel_no_panic ws (Clean p) v). unfold mbind, outcome_bind.
  repeat case_match; naive_solver.
Qed.
Lemma safeMode_cases mode d :
  safeMode mode d = Ok (Z.land (if decide (mode = 0) then d else mode) 511) \/ exists e, safeMode mode d = Err e.
Proof. unfold safeMode. repeat case_decide; eauto. Qed.

(** A job is refused, and nothing touched, unless its arguments pass; and if they do, it is what is left of it that runs. *)
Lemma runJob_admission ws defaults job uploaded w :
  (agent_admits cfg ws uploaded job -> exists up,
     runJob cfg cmd_Run ws defaults job uploaded w = (r ← job_work cfg cmd_Run ws defaults job; mret (r, up)) w)
  /\ (~ agent_admits cfg ws uploaded job -> exists err up,
     runJob cfg cmd_Run ws defaults job uploaded w = (Ok (fail_ (jb_Type job) err, up), w)).
Proof.
  unfold agent_admits, runJob, job_work. destruct (credentials cfg defaults job) as [uid gid] eqn:EC.
  case_decide as H1; [|case_decide as H2; [|destruct (decide (jb_Type job = JobExec)) as [H3|H3]]].
  - unfold mkdir. rewrite EC.
    destruct (safePath_clean ws (jb_Path job)) as [E1|[e E1]]; rewrite E1; [|split; [by intros []|by eexists _, _]].
    destruct (safeMode_cases (jb_Mode job) 493) as [E2|[e E2]]; rewrite E2; [|split; [by intros []|by eexists _, _]].
    split; [by eexists|by intros []].
  - unfold writeFile. rewrite EC.
    destruct (safePath_clean ws (jb_Path job)) as [E1|[e E1]]; rewrite E1; [|split; [by intros []|by eexists _, _]].
    destruct (safeMode_cases (jb_Mode job) 420) as [E2|[e E2]]; rewrite E2; [|split; [by intros (_ & ? & _)|by eexists _, _]].
    destruct (DecodeString (jb_ContentsBase64 job)) as [c|e|v] eqn:ED; [|split; [by intros (_ & _ & ? & ? & _)|by eexists _, _]|by apply DecodeString_no_panic in ED].
    destruct (decide (Z.of_nat (String.length c) > MaxFileBytes cfg)) as [HF|HF]; [split; [intros (_ & _ & ? & [= <-] & ? & _); lia|]|].
    { intros _. eexists _, _. unfold job_result, attempt, mbind, GoM_bind, fail_if. simpl. by rewrite bool_decide_eq_true_2. }
    destruct (decide (uploaded_after uploaded c > MaxBodyBytes cfg)) as [HB|HB]; [split; [intros (_ & _ & ? & [= <-] & _ & ?); lia|]|].
    { intros _. eexists _, _. unfold job_result, attempt, mbind, GoM_bind, fail_if. simpl.
      by rewrite bool_decide_eq_false_2, (bool_decide_eq_true_2 (_ > MaxBodyBytes cfg)). }
    split; [intros _|intros []; split_and!; [done..|]; exists c; split_and!; [done|lia..]].
    eexists. unfold job_result, attempt, mbind, GoM_bind, fail_if. simpl.
    by rewrite bool_decide_eq_false_2, (bool_decide_eq_false_2 (_ > MaxBodyBytes cfg)).
  - unfold exec. destruct (jb_Argv job) as [|a l] eqn:EA; [split; [by intros (_ & ? & _)|by eexists _, _]|].
    destruct (decide (a = "")) as [->|Ha]; [split; [by intros (_ & _ & ? & _)|by eexists _, _]|].
    set (wd := if decide (jb_WorkingDir job = "") then _ else _).
    destruct (safePath_clean ws wd) as [E1|[e E1]]; rewrite E1.
    + split; [intros _|intros []; split_and!; [done..| |done]; simpl; congruence].
      eexists. unfold job_result, attempt, mbind, GoM_bind, fail_if. simpl. by rewrite bool_decide_eq_false_2.
    + split; [by intros (_ & _ & _ & ?)|intros _]. eexists _, _. unfold job_result, attempt, mbind, GoM_bind, fail_if. simpl.
      by rewrite bool_decide_eq_false_2.
  - split; [by intros [? _]|by eexists _, _].
Qed.
End admission.

(** ** Every job gives a result *)

#[local] Ltac solve_returns :=
  repeat first
    [ apply returns_bind; [solve [solve_no_panic] | intros ?]
    | apply returns_fail
    | apply returns_ret; reflexivity
    | case_match ].

Section results.
Variable cfg : Config.
Variable cmd_Run : Command -> OS RunOutcome.
Hypothesis cmd_Run_returns : forall cmd, no_panic (cmd_Run cmd).
#[local] Hint Resolve cmd_Run_returns : go_no_panic.

(** A job always gives a result, of its own type. *)
Definition of_type (t : string) (r : JobResult) : Prop := jr_Type r = t.

Lemma job_result_returns t (m : OS JobResult) w :
  returns (of_type t) m -> exists r w', job_result t m w = (Ok r, w') /\ jr_Type r = t.
Proof.
  intros Hm. specialize (Hm w). unfold job_result, attempt, mbind, GoM_bind.
  destruct (m w) as [[r|e|v] w']; simpl in *; [eauto|eauto|done].
Qed.

Lemma runJob_returns ws defaults job uploaded w :
  exists r up w', runJob cfg cmd_Run ws defaults job uploaded w = (Ok (r, up), w') /\ jr_Type r = jb_Type job.
Proof.
  assert (Hgo : forall (m : OS JobResult) (up : Z),
    returns (of_type (jb_Type job)) m ->
    exists r up' w', (r ← job_result (jb_Type job) m; mret (r, up)) w = (Ok (r, up'), w') /\ jr_Type r = jb_Type job).
  { intros m up Hm. destruct (job_result_returns (jb_Type job) m w Hm) as (r & w' & E & Ht).
    exists r, up, w'. unfold mbind, GoM_bind. by rewrite E. }
  unfold runJob. case_decide; [|case_decide; [|case_decide; [|by eexists _, _, _]]]; apply Hgo.
  - destruct (credentials cfg defaults job). solve_returns.
  - destruct (credentials cfg defaults job). unfold store, os_Lstat. solve_returns.
  - destruct (credentials cfg defaults job). unfold exec_in, os_Getuid, os_Getgid, os_Geteuid, os_Stat. solve_returns.
Qed.

(** The results of the jobs up to the first that fails. *)
Definition results_of (jobs : list Job) (rs : list JobResult) (all_ok : bool) : Prop :=
  if all_ok then Forall (fun r => jr_OK r = true) rs /\ jr_Type <$> rs = jb_Type <$> jobs
  else exists init r, rs = init ++ [r] /\ Forall (fun r => jr_OK r = true) init /\ jr_OK r = false
       /\ (jr_Type <$> rs) `prefix_of` (jb_Type <$> jobs).

Lemma run_jobs_returns ws defaults jobs uploaded w :
  exists rs b w', run_jobs cfg cmd_Run ws defaults jobs uploaded w = (Ok (rs, b), w') /\ results_of jobs rs b.
Proof.
  revert uploaded w. induction jobs as [|job jobs IH]; intros uploaded w; [by exists [], true, w|].
  cbn [run_jobs]. destruct (runJob_returns ws defaults job uploaded w) as (r & up & w1 & E & Ht).
  unfold mbind at 1, GoM_bind at 1. rewrite E. destruct (jr_OK r) eqn:Ho.
  - destruct (IH up w1) as (rs & b & w2 & E2 & Hb). unfold mbind, GoM_bind. rewrite E2.
    exists (r :: rs), b, w2. split; [done|]. destruct b; unfold results_of in *.
    + destruct Hb as [Hb1 Hb2]. split; [by constructor|]. by rewrite !fmap_cons, Ht, Hb2.
    + destruct Hb as (init & l & -> & Hi & Hl & Hp). exists (r :: init), l. split_and!; [done|by constructor|done|].
      rewrite !fmap_cons, Ht. by apply prefix_cons.
  - exists [r], false, w1. split; [done|]. exists [], r. split_and!; [done|constructor|done|].
    simpl. rewrite Ht. by eexists.
Qed.
End results.

(** C31: a batch always gets an answer, and the answer says how far it came: with status 200, every job
    has its result, in order, and is OK; with status 400, the results stop at the first job that
    failed, and those before it are OK; a request refused as a whole has one failure without a type for
    its result. Nothing panics unless running a command does. *)
Theorem runBatch_results cfg (cmd_Run : Command -> OS RunOutcome) req w :
  (forall cmd, no_panic (cmd_Run cmd)) ->
  exists rs status w', runBatch cfg cmd_Run req w = (Ok ({| Results := rs |}, status), w')
    /\ ((status = StatusOK /\ br_Jobs req <> [] /\ results_of (br_Jobs req) rs true)
        \/ (status = StatusBadRequest
            /\ (results_of (br_Jobs req) rs false \/ exists err, rs = [fail_ "" err]))).
Proof.
  intros Hc. unfold runBatch. case_decide; [eauto 10|].
  destruct (workspace cfg (br_Workspace req) w) as [[ws|e|v] w1] eqn:E.
  - unfold mbind, GoM_bind, attempt. rewrite E. case_decide; [eauto 10|].
    destruct (run_jobs_returns cfg cmd_Run Hc ws (br_Defaults req) (br_Jobs req) 0 w1) as (rs & b & w2 & E2 & Hb).
    rewrite E2. eexists rs, _, w2. split; [done|]. destruct b; simpl; auto.
  - unfold mbind, GoM_bind, attempt. rewrite E. eauto 10.
  - exfalso. revert E. assert (Hn : no_panic (workspace cfg (br_Workspace req))) by (unfold workspace; solve_no_panic).
    apply Hn.
Qed.

(** ** Witnesses *)

Lemma run_is {A} (m : OS A) w a : fst (m w) = Ok a -> m w = (Ok a, snd (m w)).
Proof. intros <-. by destruct (m w). Defined.

Abbreviation demo_write := (demo_job JobWriteFile "/workspace/a" "aGVsbG8=" false []).
Abbreviation demo_exec := (demo_job JobExec "" "" false ["/bin/echo"]).

Lemma writeFile_ok_witness :
  exists contents mode q i m, DecodeString "aGVsbG8=" = Ok contents /\ abs_path "/workspace/a" q
    /\ file_at q i (Inode contents m) (snd (writeFile demo_config "/workspace" demo_defaults demo_write 0 demo_fs)) /\ m_mode m = mode.
Proof.
  pose proof (writeFile_ok demo_config "/workspace" demo_defaults demo_write 0 demo_fs (ok JobWriteFile) 5
    (snd (writeFile demo_config "/workspace" demo_defaults demo_write 0 demo_fs)) eq_refl) as H.
  destruct H as (contents & mode & q & i & m & H1 & _ & _ & _ & _ & H2 & _ & H3 & H4 & _).
  - apply rooted_check_sound. vm_compute. reflexivity.
  - by right.
  - apply (run_is (writeFile demo_config "/workspace" demo_defaults demo_write 0)). vm_compute. reflexivity.
  - reflexivity.
  - by exists contents, mode, q, i, m.
Defined.

Abbreviation demo_result := {| jr_Type := JobExec; jr_OK := true; jr_Error := ""; jr_ExitCode := 3; jr_TimedOut := false;
  jr_StdoutBase64 := EncodeToString "hell"; jr_StderrBase64 := "" |}.

Lemma exec_runs_witness :
  exists cmd w1 out w2, demo_run cmd w1 = (Ok out, w2)
    /\ snd (exec demo_config demo_run "/workspace" demo_defaults demo_exec demo_fs)
       = match ro_timedOut out, ro_Process out with true, Some pid => snd (unix_Kill (- pid) 9 w2) | _, _ => w2 end
    /\ cmd_Argv cmd = ["/bin/echo"] /\ DecodeString (EncodeToString "hell") = Ok (str_take 4 (str_concat (ro_stdout out))).
Proof.
  pose proof (exec_runs demo_config demo_run "/workspace" demo_defaults demo_exec demo_fs demo_result
    (snd (exec demo_config demo_run "/workspace" demo_defaults demo_exec demo_fs)) eq_refl) as H.
  cbv zeta in H. destruct H as (cmd & q & m & w1 & out & w2 & H1 & _ & HK & H2 & _ & _ & _ & _ & _ & _ & _ & H3 & _).
  - apply rooted_check_sound. vm_compute. reflexivity.
  - by vm_compute.
  - by vm_compute.
  - apply (run_is (exec demo_config demo_run "/workspace" demo_defaults demo_exec)). vm_compute. reflexivity.
  - reflexivity.
  - by exists cmd, w1, out, w2.
Defined.

Lemma runBatch_results_witness :
  exists rs status w', runBatch demo_config demo_run demo_request demo_fs = (Ok ({| Results := rs |}, status), w').
Proof.
  destruct (runBatch_results demo_config demo_run demo_request demo_fs) as (rs & status & w' & H & _); [|eauto].
  intros cmd. apply no_panic_ret.
Defined.
