(* ===== verification/AgentOnce.v ===== *)
(** * One batch in an agent's life

    Requests to [/jobs] are served concurrently; the compare-and-swap of [usedJobs] lets one of
    them through. The interleavings are a step relation on the server and the requests in flight:
    a request is let in or turned away by the swap, one step, and the one let in runs
    [jobs_admitted] to its end; the others touch nothing it uses. *)

From S2P Require Import Prelude GoPath HostFS AgentApi AgentServer.
From stdpp Require Import relations.

Inductive request_state :=
| Arrived (body : stream)
| Taken (body : stream)
| Replied (reply : outcome Response).

Record serving := { sg_server : Server; sg_requests : list request_state }.

Section once.
Context `{StrictDecoder BatchRequest}.
Variable cmd_Run : Command -> OS RunOutcome.

Inductive serve_step : serving -> serving -> Prop :=
| step_refuse s rs i b :
    rs !! i = Some (Arrived b) -> sv_usedJobs s = true ->
    serve_step {| sg_server := s; sg_requests := rs |}
               {| sg_server := s; sg_requests := <[i := Replied (Ok already_used)]> rs |}
| step_admit s rs i b :
    rs !! i = Some (Arrived b) -> sv_usedJobs s = false ->
    serve_step {| sg_server := s; sg_requests := rs |}
               {| sg_server := set_used s; sg_requests := <[i := Taken b]> rs |}
| step_finish s s' rs i b o :
    rs !! i = Some (Taken b) -> jobs_admitted cmd_Run b s = (o, s') ->
    serve_step {| sg_server := s; sg_requests := rs |}
               {| sg_server := s'; sg_requests := <[i := Replied o]> rs |}.

(** The steps the requests still have to make. *)
Definition steps_of (r : request_state) : nat :=
  match r with Arrived _ => 2 | Taken _ => 1 | Replied _ => 0 end.
Definition steps_left : list request_state -> nat := sum_list_with steps_of.

Definition replied (r : request_state) : Prop := match r with Replied _ => True | _ => False end.

(** The batch of a body: what decodes within the limit, with nothing after it. *)
Definition decoded_batch (cfg : Config) (b : stream) : option BatchRequest :=
  match dec_Decode (MaxBytesReader (MaxBodyBytes cfg) b) with
  | Ok (req, rest) => if is_Ok (decodeEOF rest) then Some req else None
  | _ => None
  end.

(** Running [jobs] to its end is steps of this relation. *)
Lemma jobs_is_steps b s o s' :
  jobs cmd_Run b s = (o, s') ->
  rtc serve_step {| sg_server := s; sg_requests := [Arrived b] |} {| sg_server := s'; sg_requests := [Replied o] |}.
Proof.
  unfold jobs, gets, mbind, GoM_bind, modify. destruct (sv_usedJobs s) eqn:E.
  - intros [= <- <-]. apply rtc_once. by apply (step_refuse s [Arrived b] 0 b).
  - intros Hj. eapply rtc_l; [by apply (step_admit s [Arrived b] 0 b)|].
    apply rtc_once. by apply (step_finish (set_used s) s' [Taken b] 0 b).
Qed.

(** The request that is let in runs its batch, if it has one, from the state of the machine it finds. *)
Lemma jobs_admitted_runs b s o s' :
  jobs_admitted cmd_Run b s = (o, s') ->
  sv_usedJobs s' = sv_usedJobs s /\ sv_cfg s' = sv_cfg s /\ sv_shutdowns s' <= S (sv_shutdowns s)
  /\ match decoded_batch (sv_cfg s) b with
     | Some req => exists ob, runBatch (sv_cfg s) cmd_Run req (sv_fs s) = (ob, sv_fs s')
         /\ forall resp status, ob = Ok (resp, status) ->
            o = Ok {| rs_Status := status; rs_ContentType := "application/json"; rs_Body := Batch resp |}
     | None => s' = s
     end.
Proof.
  unfold jobs_admitted, decoded_batch, gets, defer, on_machine, mbind, GoM_bind.
  destruct (dec_Decode (MaxBytesReader (MaxBodyBytes (sv_cfg s)) b)) as [[req rest]|e|v]; [|intros [= <- <-]; auto|intros [= <- <-]; auto].
  unfold decodeEOF. destruct (_ && _); cbn [is_Ok]; [|intros [= <- <-]; auto].
  destruct (runBatch (sv_cfg s) cmd_Run req (sv_fs s)) as [ob w'] eqn:E.
  destruct ob as [[resp status]|e|v]; destruct (_ && _); simpl; intros [= <- <-]; simpl; split_and!; auto with lia;
    eexists; (split; [reflexivity|]); by intros ? ? [= -> ->].
Qed.

(** *** At most one is let in *)

(** The request [i] of the bodies was let in, and everything done is its doing. *)
Definition let_in (s0 : Server) (bodies : list stream) (i : nat) (b : stream) (g : serving) : Prop :=
  bodies !! i = Some b /\ length (sg_requests g) = length bodies
  /\ ((sg_server g = set_used s0 /\ sg_requests g !! i = Some (Taken b))
      \/ exists o, jobs_admitted cmd_Run b (set_used s0) = (o, sg_server g) /\ sg_requests g !! i = Some (Replied o))
  /\ forall j b', j <> i -> bodies !! j = Some b' ->
     sg_requests g !! j = Some (Arrived b') \/ sg_requests g !! j = Some (Replied (Ok already_used)).

Definition once_inv (s0 : Server) (bodies : list stream) (g : serving) : Prop :=
  g = {| sg_server := s0; sg_requests := Arrived <$> bodies |} \/ exists i b, let_in s0 bodies i b g.

Lemma once_step s0 bodies g g' : sv_usedJobs s0 = false -> serve_step g g' -> once_inv s0 bodies g -> once_inv s0 bodies g'.
Proof.
  intros Hu Hs [->|(i & b & Hb & Hlen & Hi & Hrest)].
  - inversion Hs as [s rs k c Hk Hused|s rs k c Hk Hused|s s' rs k c o Hk Hj]; subst; [congruence| |].
    + right. apply list_lookup_fmap_Some in Hk as (c' & [= <-] & Hk). exists k, c. split; [done|]. simpl.
      split; [by rewrite length_insert, length_fmap|]. split.
      * left. split; [done|]. apply list_lookup_insert_eq. rewrite length_fmap. by eapply lookup_lt_Some.
      * intros j b' Hj Hb'. left. rewrite list_lookup_insert_ne by done. by rewrite list_lookup_fmap, Hb'.
    + apply list_lookup_fmap_Some in Hk as (c' & ? & _). done.
  - right. exists i, b. assert (Hlt : i < length (sg_requests g)) by (rewrite Hlen; by eapply lookup_lt_Some).
    assert (Hused : sv_usedJobs (sg_server g) = true).
    { destruct Hi as [[-> _]|(o & Hj & _)]; [done|]. by destruct (jobs_admitted_runs _ _ _ _ Hj) as [-> _]. }
    inversion Hs as [s rs k c Hk Hus|s rs k c Hk Hus|s s' rs k c o Hk Hj]; subst; cbn [sg_server sg_requests] in *; [|congruence|].
    + assert (k <> i) by (intros ->; destruct Hi as [[_ Hi]|(o & _ & Hi)]; congruence).
      split_and!; [done|simpl; by rewrite length_insert| |].
      * simpl. rewrite list_lookup_insert_ne by done. exact Hi.
      * intros j b' Hj Hb'. cbn [sg_requests]. destruct (decide (j = k)) as [->|].
        -- right. apply list_lookup_insert_eq. rewrite Hlen. by eapply lookup_lt_Some.
        -- rewrite list_lookup_insert_ne by done. eauto.
    + assert (k = i) as ->.
      { destruct (decide (k = i)) as [|Hne]; [done|].
        destruct (lookup_lt_is_Some_2 bodies k) as [b' Hb']; [rewrite <- Hlen; by eapply lookup_lt_Some|].
        by destruct (Hrest k b' Hne Hb') as [E|E]; rewrite E in Hk. }
      destruct Hi as [[-> Hi]|(o' & _ & Hi)]; [|congruence]. assert (c = b) as -> by congruence.
      split_and!; [done|simpl; by rewrite length_insert| |].
      * right. exists o. split; [done|]. by apply list_lookup_insert_eq.
      * intros j b' Hj' Hb'. cbn [sg_requests]. rewrite list_lookup_insert_ne by done. eauto.
Qed.

(** *** Every run ends *)

Lemma count_insert (f : request_state -> nat) rs i r r' :
  rs !! i = Some r -> sum_list_with f (<[i := r']> rs) + f r = sum_list_with f rs + f r'.
Proof.
  revert i. induction rs as [|x rs IH]; intros [|i] Hi; simpl in *; simplify_eq; [lia|].
  specialize (IH i Hi). lia.
Qed.

Lemma arrived_steps bodies : steps_left (Arrived <$> bodies) = 2 * length bodies.
Proof.
  unfold steps_left. induction bodies as [|b bodies IH]; [done|].
  rewrite fmap_cons. cbn [sum_list_with steps_of length]. lia.
Qed.

(** A step uses one of the steps left; while there is one, some step can be made. *)
Lemma steps_decrease g g' : serve_step g g' -> steps_left (sg_requests g) >= S (steps_left (sg_requests g')).
Proof.
  intros Hs. destruct Hs as [s rs i b Hi Hu|s rs i b Hi Hu|s s' rs i b o Hi Hj]; simpl.
  all: pose proof (fun r' => count_insert steps_of rs i _ r' Hi) as C; unfold steps_left.
  - specialize (C (Replied (Ok already_used))). simpl in C. lia.
  - specialize (C (Taken b)). simpl in C. lia.
  - specialize (C (Replied o)). simpl in C. lia.
Qed.

Lemma steps_bounded n g g' : nsteps serve_step n g g' -> n + steps_left (sg_requests g') <= steps_left (sg_requests g).
Proof.
  induction 1 as [g|n g1 g2 g3 H1 _ IH]; [lia|]. apply steps_decrease in H1. lia.
Qed.

Lemma serve_progress g r :
  r ∈ sg_requests g -> ~ replied r -> exists g', serve_step g g'.
Proof.
  destruct g as [s rs]. simpl. intros [i Hi]%list_elem_of_lookup Hr. destruct r as [b|b|o]; [| |by destruct Hr].
  - destruct (sv_usedJobs s) eqn:Hu; eexists; [by eapply step_refuse|by eapply step_admit].
  - destruct (jobs_admitted cmd_Run b s) as [o s'] eqn:E. eexists. by eapply step_finish.
Qed.

Lemma once_nsteps s0 bodies n g g' :
  sv_usedJobs s0 = false -> nsteps serve_step n g g' -> once_inv s0 bodies g -> once_inv s0 bodies g'.
Proof. intros Hu. induction 1; eauto using once_step. Qed.

Lemma no_step_replied g : (forall g', ~ serve_step g g') -> Forall replied (sg_requests g).
Proof.
  intros Hend. apply Forall_forall. intros r Hin. destruct r as [b|b|o]; [| |done];
    (destruct (serve_progress g _ Hin) as [g' Hg]; [by intros ?|by destruct (Hend g')]).
Qed.
Lemma replied_no_step g : Forall replied (sg_requests g) -> forall g', ~ serve_step g g'.
Proof.
  intros HF g' Hs. destruct Hs as [s rs i b Hi|s rs i b Hi|s s' rs i b o Hi]; by apply (Forall_lookup_1 _ _ _ _ HF) in Hi.
Qed.
End once.

(** C9: of any number of requests to [/jobs] sent to a fresh agent at once, in any interleaving, at most one is ever let in,
    and everything done to the agent and its machine is the doing of that one. Every run comes to its end within two
    steps a request, and then exactly one was let in: if its body is a batch, the machine is as one run of this batch
    from the agent's start leaves it, and the request is answered with the run's results; if it is none, the machine is
    as it was. Every other request is answered "gone". The shutdown is started at most once. *)
Theorem jobs_once `{StrictDecoder BatchRequest} (cmd_Run : Command -> OS RunOutcome) s0 bodies n g :
  sv_usedJobs s0 = false ->
  nsteps (serve_step cmd_Run) n {| sg_server := s0; sg_requests := Arrived <$> bodies |} g ->
  n <= 2 * length bodies
  /\ (g = {| sg_server := s0; sg_requests := Arrived <$> bodies |} \/ exists i b, let_in cmd_Run s0 bodies i b g)
  /\ ((forall g', ~ serve_step cmd_Run g g') -> bodies <> [] ->
      exists i b o, bodies !! i = Some b /\ sg_requests g !! i = Some (Replied o)
        /\ (forall j, j < length bodies -> j <> i -> sg_requests g !! j = Some (Replied (Ok already_used)))
        /\ sv_shutdowns (sg_server g) <= S (sv_shutdowns s0)
        /\ match decoded_batch (sv_cfg s0) b with
           | Some req => exists ob, runBatch (sv_cfg s0) cmd_Run req (sv_fs s0) = (ob, sv_fs (sg_server g))
               /\ forall resp status, ob = Ok (resp, status) ->
                  o = Ok {| rs_Status := status; rs_ContentType := "application/json"; rs_Body := Batch resp |}
           | None => sv_fs (sg_server g) = sv_fs s0 /\ sv_shutdowns (sg_server g) = sv_shutdowns s0
           end).
Proof.
  intros Hu Hn. pose proof (steps_bounded cmd_Run _ _ _ Hn) as Hb. cbn [sg_requests] in Hb. rewrite arrived_steps in Hb.
  assert (Hi : once_inv cmd_Run s0 bodies g) by (eapply once_nsteps; [exact Hu|exact Hn|by left]).
  split; [lia|]. split; [exact Hi|]. intros Hend Hne. apply no_step_replied in Hend.
  destruct Hi as [->|(i & b & Hib & Hlen & Hi & Hrest)].
  { destruct bodies as [|b bodies]; [done|]. by apply Forall_cons in Hend as [[] _]. }
  destruct Hi as [[_ Hi]|(o & Hj & Hi)]; [by apply (Forall_lookup_1 _ _ _ _ Hend) in Hi|].
  exists i, b, o. split; [done|]. split; [done|]. destruct (jobs_admitted_runs cmd_Run _ _ _ _ Hj) as (_ & _ & Hs & HR).
  split; [|split; [exact Hs|]].
  - intros j Hlt Hji. destruct (lookup_lt_is_Some_2 bodies j Hlt) as [b' Hb'].
    destruct (Hrest j b' Hji Hb') as [E|E]; [|done]. by apply (Forall_lookup_1 _ _ _ _ Hend) in E.
  - cbn [sv_cfg set_used sv_fs] in HR. destruct (decoded_batch (sv_cfg s0) b); [exact HR|]. by rewrite HR.
Qed.

(** A request whose body does not decode takes the agent's one turn: it is answered with an error, the
    shutdown is never started, and whatever comes next is told that the turn is gone. *)
Lemma malformed_takes_the_turn `{StrictDecoder BatchRequest} (cmd_Run : Command -> OS RunOutcome) s b b' err :
  sv_usedJobs s = false -> dec_Decode (MaxBytesReader (MaxBodyBytes (sv_cfg s)) b) = Err err ->
  exists r, jobs cmd_Run b s = (Ok r, set_used s) /\ rs_Status r = StatusBadRequest
    /\ jobs cmd_Run b' (set_used s) = (Ok already_used, set_used s).
Proof.
  intros Hu He. unfold jobs, jobs_admitted, gets, modify, mbind, GoM_bind. rewrite Hu. simpl. rewrite He. eauto.
Qed.

Section demo.
(** Bodies that are a batch, which makes a directory, and bodies that are not. *)
Definition demo_batch : BatchRequest := {|
  br_Version := 1; br_Workspace := ""; br_Shutdown := false;
  br_Defaults := {| jd_UID := None; jd_GID := None; jd_Env := []; jd_TimeoutMillis := 0; jd_MaxOutputBytes := 0 |};
  br_Jobs := [{| jb_Type := JobMkdir; jb_Path := "/workspace/out"; jb_Mode := 0; jb_ContentsBase64 := ""; jb_CreateParents := false;
    jb_Argv := []; jb_Env := []; jb_WorkingDir := ""; jb_UID := None; jb_GID := None; jb_TimeoutMillis := 0; jb_MaxOutputBytes := 0 |}] |}.
Definition demo_decoder : StrictDecoder BatchRequest := fun st =>
  if decide (fst st = "batch") then Ok (demo_batch, ("", None)) else Err (Errorf "unexpected EOF" []).
#[local] Existing Instance demo_decoder.
Abbreviation idle := (fun _ : Command => fail (S := world) (A := RunOutcome) (Errno ENOENT)).
Abbreviation fresh := {| sv_cfg := {| Workspace := "/workspace"; MaxBodyBytes := 100; MaxFileBytes := 0; MaxOutputBytes := 0; DefaultTimeout := 0;
  DefaultUID := 0; DefaultGID := 0; Shutdown := true; ShutdownAfterJobs := true |};
  sv_usedJobs := false; sv_shutdowns := 0; sv_fs := empty_world |}.
Abbreviation bad := ("", @None error).
Abbreviation good := ("batch", @None error).
Abbreviation answered := (fst (jobs_admitted idle good (set_used fresh))).
Abbreviation served := (snd (jobs_admitted idle good (set_used fresh))).

(** The second of three is let in, and the others come too late: before it is done, and after. *)
Lemma jobs_once_witness :
  exists i b o, [bad; good; good] !! i = Some b /\ [Replied (Ok already_used); Replied answered; Replied (Ok already_used)] !! i = Some (Replied o)
    /\ match decoded_batch (sv_cfg fresh) b with
       | Some req => exists ob, runBatch (sv_cfg fresh) idle req empty_world = (ob, sv_fs served)
       | None => False
       end.
Proof.
  pose proof (jobs_once idle fresh [bad; good; good] 4
    {| sg_server := served; sg_requests := [Replied (Ok already_used); Replied answered; Replied (Ok already_used)] |}) as H.
  destruct H as (_ & _ & H); [reflexivity| |].
  - eapply nsteps_l; [apply (step_admit _ fresh [Arrived bad; Arrived good; Arrived good] 1 good); reflexivity|].
    eapply nsteps_l; [apply (step_refuse _ (set_used fresh) [Arrived bad; Taken good; Arrived good] 0 bad); reflexivity|].
    eapply nsteps_l; [apply (step_finish _ (set_used fresh) served [Replied (Ok already_used); Taken good; Arrived good] 1 good answered);
      [reflexivity|by destruct (jobs_admitted idle good (set_used fresh))]|].
    eapply nsteps_l; [apply (step_refuse _ served [Replied (Ok already_used); Replied answered; Arrived good] 2 good); [reflexivity|vm_compute; reflexivity]|].
    apply nsteps_O.
  - destruct H as (i & b & o & Hb & Ho & _ & _ & HR).
    + apply replied_no_step. by repeat constructor.
    + discriminate.
    + exists i, b, o. split; [exact Hb|]. split; [exact Ho|].
      destruct i as [|[|[|i]]]; simpl in Hb; simplify_eq.
      * destruct HR as [HR _]. apply (f_equal (fun w => w_nodes w !! ["workspace"])) in HR. vm_compute in HR. discriminate HR.
      * destruct HR as (ob & HR & _). by exists ob.
      * destruct HR as (ob & HR & _). by exists ob.
Defined.
End demo.
