(* ===== verification/AgentClient.v ===== *)
(** * The host's client of the guest agent

    [internal/agentclient/client.go]: the handshake with Firecracker's vsock proxy, and the two
    requests. The connection is what its reads give; the transport of [net/http] is a parameter
    with a state [W], the machine at the other end. *)

From S2P Require Import Prelude GoPath HostFS AgentApi.
Local Open Scope Z_scope.

Definition DefaultVsockPort : Z := 1024.

(** ** The handshake *)

(** What one [conn.Read] of a byte gives: a byte or none, and an error or none. After the last of
    them the connection is at its end. *)
Definition read_event : Type := option ascii * option error.
Definition EOF : error := Errorf "EOF" [].

(** A dialled connection: the reads to come, the error of writing to it, what was written, and
    whether it was closed. *)
Record Conn := { cn_reads : list read_event; cn_writeErr : option error; cn_written : string; cn_closed : bool }.

(** The loop of [readLine]: the line and the reads left. *)
Fixpoint read_line (limit : Z) (buf : string) (reads : list read_event) : outcome string * list read_event :=
  if decide (Z.of_nat (String.length buf) >= limit) then (Err (Errorf "line exceeded %d bytes" [pretty limit]), reads)
  else
    match reads with
    | [] => (Err EOF, [])
    | (_, Some err) :: rest => (Err err, rest)
    | (None, None) :: rest => read_line limit buf rest
    | (Some c, None) :: rest =>
        let buf := buf +:+ String c "" in
        if decide (c = newline) then (Ok buf, rest) else read_line limit buf rest
    end.

Definition readLine (limit : Z) : GoM Conn string := fun conn =>
  let '(o, rest) := read_line limit "" (cn_reads conn) in
  (o, {| cn_reads := rest; cn_writeErr := cn_writeErr conn; cn_written := cn_written conn; cn_closed := cn_closed conn |}).

Definition parseConnectOK (line : string) : outcome Z :=
  match Fields line with
  | [f0; f1] =>
      if negb (bool_decide (f0 = "OK")) then Err (Errorf "unexpected vsock response %q" [line])
      else match Atoi f1 with
           | Some port => if decide (port <= 0) then Err (Errorf "invalid assigned port %q" [f1]) else Ok port
           | None => Err (Errorf "invalid assigned port %q" [f1])
           end
  | _ => Err (Errorf "unexpected vsock response %q" [line])
  end.

Definition conn_Write (data : string) : GoM Conn unit := fun conn =>
  match cn_writeErr conn with
  | Some err => (Err err, conn)
  | None => (Ok tt, {| cn_reads := cn_reads conn; cn_writeErr := None; cn_written := cn_written conn +:+ data; cn_closed := cn_closed conn |})
  end.
Definition conn_Close : GoM Conn unit :=
  modify (fun conn => {| cn_reads := cn_reads conn; cn_writeErr := cn_writeErr conn; cn_written := cn_written conn; cn_closed := true |}).

(** [if err != nil { _ = conn.Close(); return nil, err }] *)
Definition or_close {A} (m : GoM Conn A) : GoM Conn A := fun conn =>
  match m conn with (Err err, conn') => (Err err, snd (conn_Close conn')) | r => r end.

(** The dialer of [NewFirecrackerVsock], after [DialContext] gave the connection. *)
Definition handshake (port : Z) : GoM Conn unit :=
  let port := if decide (port = 0) then DefaultVsockPort else port in
  or_close (conn_Write ("CONNECT " +:+ pretty port +:+ String newline "")) ;;
  line ← or_close (readLine 1024);
  or_close (lift_outcome (parseConnectOK line)) ;;
  mret tt.

Definition NewFirecrackerVsock (dial : outcome Conn) (port : Z) : outcome Conn :=
  match dial with
  | Ok conn => match handshake port conn with
               | (Ok _, conn') => Ok conn'
               | (Err e, _) => Err e
               | (Panic v, _) => Panic v
               end
  | Err e => Err e
  | Panic v => Panic v
  end.

(** ** The requests *)

Record HttpRequest := { hq_Method : string; hq_URL : string; hq_ContentType : string; hq_Body : string }.
Record HttpResponse := { hr_StatusCode : Z; hr_Body : stream }.

(** [json.Marshal], and one [Decode] of a [json.Decoder]. *)
Class JSONMarshal (A : Type) := json_Marshal : A -> outcome string.
Class JSONDecoder (A : Type) := json_Decoder_Decode : stream -> outcome A.

Section client.
Context {W : Type} (http_Do : HttpRequest -> GoM W HttpResponse).
Context `{JSONMarshal BatchRequest} `{JSONDecoder BatchResponse}.
Variable baseURL : string.

Definition Health : GoM W unit :=
  resp ← http_Do {| hq_Method := "GET"; hq_URL := baseURL +:+ "/healthz"; hq_ContentType := ""; hq_Body := "" |};
  fail_if (negb (bool_decide (hr_StatusCode resp = 200))) (Errorf "healthz status %d" [pretty (hr_StatusCode resp)]).

(** The response and the error, each of which may be missing. *)
Definition Jobs (request : BatchRequest) : GoM W (option BatchResponse * option error) :=
  r ← attempt (
    body ← lift_outcome (json_Marshal request);
    resp ← http_Do {| hq_Method := "POST"; hq_URL := baseURL +:+ "/jobs"; hq_ContentType := "application/json"; hq_Body := body |};
    decoded ← lift_outcome (json_Decoder_Decode (LimitReader (Z.shiftl 16 20) (hr_Body resp)));
    mret (resp, decoded));
  mret (match r with
        | inl err => (None, Some err)
        | inr (resp, decoded) =>
            if decide (hr_StatusCode resp < 200 \/ hr_StatusCode resp >= 300)
            then (Some decoded, Some (Errorf "jobs status %d" [pretty (hr_StatusCode resp)]))
            else (Some decoded, None)
        end).
End client.

(** ** The handshake takes one line and no more *)

(** [reads] deliver, without an error, the bytes of a line: [s] and a newline, the first; [rest] is what
    is then left to read. *)
Inductive one_line : list read_event -> string -> list read_event -> Prop :=
| line_end rest : one_line ((Some newline, None) :: rest) "" rest
| line_none reads s rest : one_line reads s rest -> one_line ((None, None) :: reads) s rest
| line_byte c reads s rest :
    c <> newline -> one_line reads s rest -> one_line ((Some c, None) :: reads) (String c s) rest.

Lemma read_line_Ok limit buf reads l rest :
  read_line limit buf reads = (Ok l, rest) <->
  exists s, one_line reads s rest /\ l = buf +:+ s +:+ String newline ""
    /\ Z.of_nat (String.length buf + String.length s) < limit.
Proof.
  revert buf. induction reads as [|[[c|] [err|]] reads IH]; intros buf; cbn [read_line]; case_decide as Hl.
  all: try (split; [done|intros (s & Hs & Hb & Hn); (lia || by inversion Hs)]).
  - case_decide as Hc.
    + subst c. split.
      * intros [= <- <-]. exists "". split; [constructor|]. simpl. split; [done|]. lia.
      * intros (s & Hs & -> & _). by inversion Hs.
    + rewrite IH. setoid_rewrite length_app_str. setoid_rewrite <- app_assoc_str. split.
      * intros (s & Hs & -> & Hn). exists (String c s). split; [by constructor|]. simpl in *. split; [done|]. lia.
      * intros (s & Hs & -> & Hn). inversion Hs as [| |? ? s' ? ? Hs']; subst; [done|]. exists s'.
        split; [done|]. simpl in *. split; [done|]. lia.
  - rewrite IH. split; intros (s & Hs & Hb & Hn); exists s; (split; [|done]); [by constructor|by inversion Hs].
Qed.

Lemma parseConnectOK_Ok line port :
  parseConnectOK line = Ok port <-> exists p, Fields line = ["OK"; p] /\ Atoi p = Some port /\ 0 < port.
Proof.
  unfold parseConnectOK. split.
  - destruct (Fields line) as [|f0 [|f1 [|]]]; try done. case_bool_decide; [|done]. simpl.
    destruct (Atoi f1) as [v|] eqn:E; [|done]. case_decide; [done|]. intros [= ->]. subst. exists f1. split; [done|]. split; [done|lia].
  - intros (p & -> & -> & Hp). rewrite bool_decide_true by done. simpl. by rewrite decide_False by lia.
Qed.

Lemma or_close_Ok {A} (m : GoM Conn A) c a c' : or_close m c = (Ok a, c') <-> m c = (Ok a, c').
Proof. unfold or_close. by destruct (m c) as [[x|e|v] c1]; split; congruence. Qed.

Lemma bind_Ok_iff {S A B} (m : GoM S A) (k : A -> GoM S B) s b s' :
  (m ≫= k) s = (Ok b, s') <-> exists a s1, m s = (Ok a, s1) /\ k a s1 = (Ok b, s').
Proof.
  unfold mbind, GoM_bind. split.
  - destruct (m s) as [[a|e|v] s1]; [eauto|done..].
  - intros (a & s1 & -> & H). done.
Qed.

Lemma or_close_closes {A} (m : GoM Conn A) c e c' : or_close m c = (Err e, c') -> cn_closed c' = true.
Proof. unfold or_close. destruct (m c) as [[x|err|v] c1]; try done. by intros [= _ <-]. Qed.

(** C40: the handshake succeeds exactly when the request could be written and the proxy answered one line, of
    at most 1024 bytes, that says "OK" and a positive port; it has then sent "CONNECT" and the port, left
    the connection open, and read up to that line's newline and not a byte further. When it fails the
    connection is closed. *)
Theorem handshake_Ok port conn conn' :
  (handshake port conn = (Ok tt, conn')
   <-> cn_writeErr conn = None
       /\ exists s p v rest, one_line (cn_reads conn) s rest /\ Z.of_nat (String.length s) < 1024
          /\ Fields (s +:+ String newline "") = ["OK"; p] /\ Atoi p = Some v /\ 0 < v
          /\ conn' = {| cn_reads := rest; cn_writeErr := None; cn_closed := cn_closed conn;
                        cn_written := cn_written conn +:+ ("CONNECT " +:+ pretty (if decide (port = 0) then DefaultVsockPort else port)
                                                           +:+ String newline "") |})
  /\ (forall e, handshake port conn = (Err e, conn') -> cn_closed conn' = true).
Proof.
  set (req := "CONNECT " +:+ _ +:+ _). split.
  - unfold handshake. setoid_rewrite bind_Ok_iff. setoid_rewrite bind_Ok_iff. setoid_rewrite bind_Ok_iff.
    setoid_rewrite or_close_Ok. fold req. unfold conn_Write. split.
    + intros ([] & c1 & H1 & line & c2 & H2 & v & c3 & H3 & H4). injection H4 as <-.
      destruct (cn_writeErr conn); [done|]. split; [done|]. injection H1 as <-. injection H3 as H3 <-.
      unfold readLine in H2. cbn [cn_reads] in H2. destruct (read_line 1024 "" (cn_reads conn)) as [o rest] eqn:E.
      injection H2 as -> <-. apply read_line_Ok in E as (s & Hs & -> & Hn). simpl in Hn, H3.
      apply parseConnectOK_Ok in H3 as (p & Hf & Ha & Hv). by exists s, p, v, rest.
    + intros (Hw & s & p & v & rest & Hs & Hn & Hf & Ha & Hv & ->). rewrite Hw.
      eexists tt, _. split; [done|]. unfold readLine. cbn [cn_reads].
      assert (E : read_line 1024 "" (cn_reads conn) = (Ok (s +:+ String newline ""), rest)).
      { apply read_line_Ok. exists s. by split_and!. }
      rewrite E. eexists _, _. split; [done|]. eexists v, _. split; [|done].
      unfold lift_outcome. f_equal. apply parseConnectOK_Ok. eauto.
  - intros e. unfold handshake, mbind, GoM_bind. fold req.
    destruct (or_close (conn_Write req) conn) as [[[]|e1|v1] c1] eqn:E1; [|intros [= _ <-]; by eapply or_close_closes|done].
    destruct (or_close (readLine 1024) c1) as [[l|e2|v2] c2] eqn:E2; [|intros [= _ <-]; by eapply or_close_closes|done].
    destruct (or_close (lift_outcome (parseConnectOK l)) c2) as [[p|e3|v3] c3] eqn:E3; [done|intros [= _ <-]; by eapply or_close_closes|done].
Qed.

(** The proxy's answer in one piece, with more behind it; and the connection gone before it. *)
Definition answered (s : string) : Conn :=
  {| cn_reads := (fun c => (Some c, None)) <$> String.list_ascii_of_string s; cn_writeErr := None; cn_written := ""; cn_closed := false |}.

Lemma handshake_Ok_witness :
  (exists s p v rest, one_line (cn_reads (answered ("OK 1073741824" +:+ String newline "HTTP"))) s rest
     /\ Z.of_nat (String.length s) < 1024 /\ Fields (s +:+ String newline "") = ["OK"; p] /\ Atoi p = Some v /\ 0 < v)
  /\ cn_closed (snd (handshake 0 (answered "OK"))) = true.
Proof.
  split.
  - pose proof (handshake_Ok 0 (answered ("OK 1073741824" +:+ String newline "HTTP"))
      {| cn_reads := cn_reads (answered "HTTP"); cn_writeErr := None; cn_written := "CONNECT 1024" +:+ String newline ""; cn_closed := false |}) as [[H _] _].
    destruct H as [_ (s & p & v & rest & H1 & H2 & H3 & H4 & H5 & _)]; [vm_compute; reflexivity|]. exists s, p, v, rest. split_and!; assumption.
  - pose proof (handshake_Ok 0 (answered "OK") (snd (handshake 0 (answered "OK")))) as [_ H]. apply (H EOF). vm_compute. reflexivity.
Defined.

(** ** The requests come back with a response or an error *)

Lemma Jobs_returns {W} (http_Do : HttpRequest -> GoM W HttpResponse) `{JSONMarshal BatchRequest} `{JSONDecoder BatchResponse} url req :
  (forall q, no_panic (http_Do q)) -> (forall v, json_Marshal req <> Panic v) ->
  (forall st v, json_Decoder_Decode (A := BatchResponse) st <> Panic v) ->
  forall s, exists resp e s', Jobs http_Do url req s = (Ok (resp, e), s') /\ (resp = None -> is_Some e).
Proof.
  intros Hd Hm Hj s. unfold Jobs, lift_outcome, mbind, GoM_bind, attempt.
  specialize (Hm) as Hm'. destruct (json_Marshal req) as [body|e|v]; [|eauto 10|by destruct (Hm' v)].
  specialize (Hd {| hq_Method := "POST"; hq_URL := url +:+ "/jobs"; hq_ContentType := "application/json"; hq_Body := body |} s).
  destruct (http_Do _ s) as [[resp|e|v] s1]; [|eauto 10|by destruct (Hd v s1)].
  specialize (Hj (LimitReader (Z.shiftl 16 20) (hr_Body resp))).
  destruct (json_Decoder_Decode _) as [r|e|v]; [|eauto 10|by destruct (Hj v)].
  cbn. case_decide; eexists _, _, _; split; done.
Qed.
