(* ===== verification/Firecracker.v ===== *)
(** * The Firecracker runner

    [internal/firecracker]: starting a microVM for a batch of jobs, restoring one from a snapshot,
    and making the snapshot. The SDK, the processes it starts, the clock and the transport to the
    guest agent are the class [VMM]: operations on a state [M] of their own and on the host's file
    system. Every one of them is recorded in [hs_calls] with whether it succeeded, so that the
    theorems can speak of what was started and stopped. *)

From S2P Require Import Prelude GoPath HostFS Confine FileLaws Below AgentApi AgentClient.
Local Open Scope Z_scope.

(** ** Data *)

Definition DefaultKernelArgs : string :=
  "console=ttyS0 reboot=k panic=1 pci=off root=/dev/vda ro init=/init target_drive=/dev/vdb".

Record SnapshotArtifact := { sa_MemPath : string; sa_SnapshotPath : string; sa_WorkspaceDir : string }.

Record JailerConfig := {
  jc_Binary : string; jc_ChrootBaseDir : string; jc_UID : Z; jc_GID : Z; jc_NumaNode : Z;
  jc_CgroupVersion : string; jc_CgroupArgs : list string
}.

Record MachineConfig := { VCPUCount : Z; MemSizeMiB : Z }.

Record StartVMRequest := {
  sv_ID : string; sv_StoreDir : string; sv_FirecrackerPath : string; sv_Jailer : option JailerConfig;
  sv_KernelPath : string; sv_BootImagePath : string; sv_TargetImagePath : string;
  sv_MachineConfig : MachineConfig; sv_VsockCID : Z; sv_Defaults : JobDefaults; sv_Workspace : string;
  sv_Jobs : list Job; sv_Shutdown : bool; sv_Timeout : Z; sv_Snapshot : option SnapshotArtifact
}.

Record SnapshotRequest := {
  sr_ID : string; sr_StoreDir : string; sr_FirecrackerPath : string; sr_Jailer : option JailerConfig;
  sr_KernelPath : string; sr_BootImagePath : string; sr_TargetImagePath : string;
  sr_MachineConfig : MachineConfig; sr_VsockCID : Z; sr_Timeout : Z; sr_Snapshot : SnapshotArtifact
}.

Record RunTimings := {
  SetupDuration : Z; MachineStartDuration : Z; AgentReadyDuration : Z; JobsDuration : Z;
  ShutdownWaitDuration : Z; TotalDuration : Z
}.

Record VMHandle := { vh_ID : string; vh_SocketPath : string }.

Record RunResult := { rr_VM : VMHandle; rr_Results : list JobResult; rr_TimedOut : bool; rr_Timings : RunTimings }.

(** The parts of [models.Drive], [models.MachineConfiguration], [sdk.JailerConfig] and [sdk.Config]
    the code sets. *)
Record Drive := { DriveID : string; PathOnHost : string; IsRootDevice : bool; IsReadOnly : bool }.
Record MachineConfiguration_ := { VcpuCount : Z; Smt : bool; MemSizeMib : Z }.
(** [io.Discard], or an open file. *)
Inductive writer := Discard | ToFile (fd : nat).
Record SdkJailerConfig := {
  sj_UID : Z; sj_GID : Z; sj_ID : string; sj_NumaNode : Z; sj_ExecFile : string; sj_JailerBinary : string;
  sj_ChrootBaseDir : string; sj_ChrootStrategy : string; sj_CgroupVersion : string; sj_CgroupArgs : list string;
  sj_Stdout : writer; sj_Stderr : writer
}.
Record SdkConfig := {
  sc_SocketPath : string; sc_LogPath : string; sc_LogLevel : string; sc_KernelImagePath : string; sc_KernelArgs : string;
  sc_Drives : list Drive; sc_MachineCfg : MachineConfiguration_; sc_Seccomp : bool;
  sc_VsockDevices : list (string * Z);           (* path and CID *)
  sc_JailerCfg : option SdkJailerConfig;
  sc_ProcessRunner : option (string * string)    (* binary and API socket of WithProcessRunner *)
}.

Definition Drives (bootImagePath targetImagePath : string) : list Drive := [
  {| DriveID := "boot"; PathOnHost := bootImagePath; IsRootDevice := true; IsReadOnly := true |};
  {| DriveID := "target"; PathOnHost := targetImagePath; IsRootDevice := false; IsReadOnly := true |}].

Definition MachineConfiguration (cfg : MachineConfig) : MachineConfiguration_ := {|
  VcpuCount := if decide (VCPUCount cfg <= 0) then 1 else VCPUCount cfg;
  Smt := false;
  MemSizeMib := if decide (MemSizeMiB cfg <= 0) then 128 else MemSizeMiB cfg |}.

(** ** The jailer *)

Definition maxUnixSocketPathLen : Z := 107.

Definition sdkJailerConfig (cfg : JailerConfig) (firecrackerPath kernelPath id : string) (stdout stderr : writer) : SdkJailerConfig := {|
  sj_UID := jc_UID cfg; sj_GID := jc_GID cfg; sj_ID := id; sj_NumaNode := jc_NumaNode cfg;
  sj_ExecFile := firecrackerPath; sj_JailerBinary := jc_Binary cfg; sj_ChrootBaseDir := jc_ChrootBaseDir cfg;
  sj_ChrootStrategy := kernelPath; sj_CgroupVersion := jc_CgroupVersion cfg; sj_CgroupArgs := jc_CgroupArgs cfg;
  sj_Stdout := stdout; sj_Stderr := stderr |}.

(** What [jailerCommand] and the [VMCommandBuilder] build: a command of the SDK. *)
Inductive Cmd :=
| VMCommand (bin socket : string)
| JailerCommand (bin id : string) (uid gid numa : Z) (execFile chrootBase cgroupVersion : string)
    (cgroupArgs firecrackerArgs : list string) (stdout stderr : writer).

Definition jailerCommand (cfg : JailerConfig) (firecrackerPath id apiSocket : string) (stdout stderr : writer) : Cmd :=
  JailerCommand (jc_Binary cfg) id (jc_UID cfg) (jc_GID cfg) (jc_NumaNode cfg) firecrackerPath (jc_ChrootBaseDir cfg)
    (jc_CgroupVersion cfg) (jc_CgroupArgs cfg) ["--api-sock"; apiSocket] stdout stderr.

Definition JailerVMDir (cfg : JailerConfig) (firecrackerPath id : string) : string :=
  let base := if decide (jc_ChrootBaseDir cfg = "") then "/srv/jailer" else jc_ChrootBaseDir cfg in
  Join [base; Base firecrackerPath; id].

Definition jailerRootfsDir (cfg : JailerConfig) (firecrackerPath id : string) : string :=
  Join [JailerVMDir cfg firecrackerPath id; "root"].

Definition validateUnixSocketPath (path : string) : outcome unit :=
  let len := Z.of_nat (String.length path) in
  if decide (len <= maxUnixSocketPathLen) then Ok tt
  else Err (Errorf "jailer socket path is too long for Unix sockets (%d > %d): %s; use a shorter --jailer-chroot-base-dir such as /tmp/jailer or /srv/jailer"
              [pretty len; pretty maxUnixSocketPathLen; path]).

Definition jailedBackingFilePath (rootfs path : string) : string :=
  Join [rootfs; TrimPrefix (Clean path) "/"].

Definition linkFile (src dst : string) : OS unit :=
  ignore (os_Remove dst) ;;
  os_Link src dst.

Definition linkFileIntoJail (src dst : string) : OS unit :=
  os_MkdirAll (Dir dst) 493 ;;
  linkFile src dst.

Definition linkJailedDrive (src rootfs : string) : OS unit :=
  linkFileIntoJail src (jailedBackingFilePath rootfs src) ;;
  let basenamePath := Join [rootfs; Base src] in
  if decide (basenamePath = jailedBackingFilePath rootfs src) then mret tt
  else linkFileIntoJail src basenamePath.

(** ** What runs outside the program *)

Class VMM (M : Type) := {
  (* these two always give a value *)
  time_Now : M * world -> Z * (M * world);
  uuid_NewString : M * world -> string * (M * world);
  (* sdk.NewMachine, and the machine's methods; there is one machine at a time *)
  sdk_NewMachine : SdkConfig -> GoM (M * world) unit;
  machine_Start : GoM (M * world) unit;
  machine_Wait : GoM (M * world) unit;
  machine_StopVMM : GoM (M * world) unit;
  machine_PauseVM : GoM (M * world) unit;
  machine_CreateSnapshot : string -> string -> GoM (M * world) unit;
  (* a command's Start, Wait, and the signals to its process *)
  cmd_Start : Cmd -> GoM (M * world) unit;
  cmd_Wait : GoM (M * world) unit;
  process_SIGTERM : GoM (M * world) unit;
  process_Kill : GoM (M * world) unit;
  (* the API socket's client *)
  api_GetMachineConfiguration : string -> GoM (M * world) unit;
  api_LoadSnapshot : string -> string -> string -> GoM (M * world) unit;   (* socket, state, memory *)
  (* the agent's transport: vsock path, port *)
  vsock_Do : string -> Z -> HttpRequest -> GoM (M * world) HttpResponse
}.

Inductive vm_call := CStart | CStop | CSpawn | CTerm | CKill | CPause | CSnapshot | CLoad.
#[export] Instance vm_call_eq_dec : EqDecision vm_call.
Proof. solve_decision. Defined.

Record host (M : Type) := Host { hs_vmm : M; hs_fs : world; hs_calls : list (vm_call * bool) }.
Arguments Host {M} _ _ _.
Arguments hs_vmm {M} _.
Arguments hs_fs {M} _.
Arguments hs_calls {M} _.

(** [agentclient.NewFirecrackerVsock(path, DefaultVsockPort)] is asked under this URL. *)
Definition vm_url : string := "http://vm".

Section runner.
Context {M : Type} `{VMM M} `{JSONMarshal BatchRequest} `{JSONDecoder BatchResponse}.
Abbreviation VM := (GoM (host M)).

Definition on_host {A} (m : OS A) : VM A := fun h =>
  let '(o, w) := m (hs_fs h) in (o, Host (hs_vmm h) w (hs_calls h)).
Definition on_vmm {A} (m : GoM (M * world) A) : VM A := fun h =>
  let '(o, (v, w)) := m (hs_vmm h, hs_fs h) in (o, Host v w (hs_calls h)).
Definition given {A} (f : M * world -> A * (M * world)) : VM A := fun h =>
  let '(a, (v, w)) := f (hs_vmm h, hs_fs h) in (Ok a, Host v w (hs_calls h)).
(** The operations the theorems follow, recorded with whether they succeeded. *)
Definition recorded {A} (c : vm_call) (m : GoM (M * world) A) : VM A := fun h =>
  let '(o, (v, w)) := m (hs_vmm h, hs_fs h) in (o, Host v w (hs_calls h ++ [(c, is_Ok o)])).

(** [os.TempDir()] *)
Variable os_TempDir : string.
(** [context.WithTimeout]: the context derived from one and a duration. *)
Variable WithTimeout : context -> Z -> context.

(** ** Waiting for the guest

    The loops poll their context after each attempt that fails; [fuel] bounds the attempts, and a
    context that ends by then never needs more. *)

(** [retryJobs], polling [ctx]. *)
Fixpoint retryJobs (fuel : nat) (ctx : nat -> option error) (i : nat) (vsockPath : string) (request : BatchRequest)
  : VM (option BatchResponse * option error) :=
  match fuel with
  | O => panic out_of_fuel
  | S fuel' =>
      r ← on_vmm (Jobs (vsock_Do vsockPath DefaultVsockPort) vm_url request);
      match r with
      | (resp, None) => mret (resp, None)
      | (Some resp, Some err) => mret (Some resp, Some err)
      | (None, Some lastErr) =>
          match ctx i with
          | Some err => mret (None, Some (Wrapf "%w: last job attempt: %v" [error_text lastErr] err))
          | None => retryJobs fuel' ctx (S i) vsockPath request
          end
      end
  end.

Fixpoint waitForAgent (fuel : nat) (ctx : nat -> option error) (i : nat) (vsockPath : string) : VM unit :=
  match fuel with
  | O => panic out_of_fuel
  | S fuel' =>
      r ← attempt (on_vmm (Health (vsock_Do vsockPath DefaultVsockPort) vm_url));
      match r with
      | inr _ => mret tt
      | inl _ => match ctx i with
                 | Some err => fail err
                 | None => waitForAgent fuel' ctx (S i) vsockPath
                 end
      end
  end.

Fixpoint waitForSocket (fuel : nat) (ctx : nat -> option error) (i : nat) (socketPath : string) : VM unit :=
  match fuel with
  | O => panic out_of_fuel
  | S fuel' =>
      let poll := match ctx i with
                  | Some err => fail err
                  | None => waitForSocket fuel' ctx (S i) socketPath
                  end in
      st ← attempt (on_host (os_Stat socketPath));
      match st with
      | inl _ => poll
      | inr _ =>
          r ← attempt (on_vmm (api_GetMachineConfiguration socketPath));
          match r with inr _ => mret tt | inl _ => poll end
      end
  end.

(** ** Starting a machine *)

Definition defaultVsockCID : Z := 3.
Definition Milli (n : Z) : Z := n * 1000000.
Definition Seconds (n : Z) : Z := Milli (n * 1000).

(** The files the jailer's output goes to, closed when the function returns. *)
Definition jailer_logs {A} (jailer : option JailerConfig) (stdoutPath stderrPath : string) (k : writer -> writer -> VM A) : VM A :=
  match jailer with
  | None => k Discard Discard
  | Some _ =>
      stdoutFile ← on_host (os_Create stdoutPath);
      defer (ignore (on_host (fd_close stdoutFile))) (
        stderrFile ← on_host (os_Create stderrPath);
        defer (ignore (on_host (fd_close stderrFile))) (k (ToFile stdoutFile) (ToFile stderrFile)))
  end.

(** The [sdk.Config] of [StartVM] and of [CreateReadySnapshot], with the process runner they add. *)
Definition vm_config (jailer : option JailerConfig) (firecrackerPath kernelPath bootImagePath targetImagePath id : string)
    (machine : MachineConfig) (cid : Z) (apiSocket guestAPISocket guestLogPath guestVsockPath : string) (stdout stderr : writer) : SdkConfig := {|
  sc_SocketPath := guestAPISocket; sc_LogPath := guestLogPath; sc_LogLevel := "Info"; sc_KernelImagePath := kernelPath;
  sc_KernelArgs := DefaultKernelArgs; sc_Drives := Drives bootImagePath targetImagePath;
  sc_MachineCfg := MachineConfiguration machine; sc_Seccomp := true; sc_VsockDevices := [(guestVsockPath, cid)];
  sc_JailerCfg := match jailer with
                  | Some j => Some (sdkJailerConfig j firecrackerPath kernelPath id stdout stderr)
                  | None => None
                  end;
  sc_ProcessRunner := match jailer with Some _ => None | None => Some (firecrackerPath, apiSocket) end |}.

Definition batch_request (workspace : string) (defaults : JobDefaults) (jobs : list Job) : BatchRequest :=
  {| br_Version := Version; br_Workspace := workspace; br_Defaults := defaults; br_Jobs := jobs; br_Shutdown := true |}.

(** [startFromSnapshot] *)
Definition startFromSnapshot (fuel : nat) (ctx : context) (req : StartVMRequest) (snapshot : SnapshotArtifact) (totalStart : Z)
  : VM (RunResult * option error) :=
  setupStart ← given time_Now;
  tmpDir ← on_host (os_MkdirTemp os_TempDir "snapshot-restore-");
  defer (on_host (os_RemoveAll tmpDir)) (
    let rootfs := match sv_Jailer req with Some j => jailerRootfsDir j (sv_FirecrackerPath req) (sv_ID req) | None => "" end in
    let jailed {A} (a b : A) : A := match sv_Jailer req with Some _ => a | None => b end in
    let apiSocket := jailed (Join [rootfs; "api.socket"]) (Join [tmpDir; "firecracker.sock"]) in
    let vsockPath := jailed (Join [rootfs; "vsock"]) (Join [sa_WorkspaceDir snapshot; "vsock.sock"]) in
    let memPath := jailed "snapshot.mem" (sa_MemPath snapshot) in
    let snapshotPath := jailed "snapshot.state" (sa_SnapshotPath snapshot) in
    match sv_Jailer req with
    | Some _ => lift_outcome (validateUnixSocketPath apiSocket) ;; lift_outcome (validateUnixSocketPath vsockPath)
    | None => mret tt
    end ;;
    on_host (ignore (os_Remove vsockPath)) ;;
    let cmd := match sv_Jailer req with
               | Some j => jailerCommand j (sv_FirecrackerPath req) (sv_ID req) "api.socket" Discard Discard
               | None => VMCommand (sv_FirecrackerPath req) apiSocket
               end in
    machineStart ← given time_Now;
    wrap_err (Wrapf "failed to start firecracker for snapshot restore: %w" []) (recorded CSpawn (cmd_Start cmd)) ;;
    defer (ignore (recorded CKill process_Kill)) (
      wrap_err (Wrapf "firecracker socket not ready for restore: %w" []) (waitForSocket fuel (ctx 0%nat) 0 apiSocket) ;;
      match sv_Jailer req with
      | None => mret tt
      | Some j =>
          on_host (
            linkJailedDrive (sv_BootImagePath req) rootfs ;;
            linkJailedDrive (sv_TargetImagePath req) rootfs ;;
            let jailedMemPath := Join [rootfs; memPath] in
            let jailedSnapshotPath := Join [rootfs; snapshotPath] in
            linkFile (sa_MemPath snapshot) jailedMemPath ;;
            os_Chown jailedMemPath (jc_UID j) (jc_GID j) ;;
            linkFile (sa_SnapshotPath snapshot) jailedSnapshotPath ;;
            os_Chown jailedSnapshotPath (jc_UID j) (jc_GID j))
      end ;;
      now1 ← given time_Now;
      now2 ← given time_Now;
      wrap_err (Wrapf "failed to load snapshot: %w" []) (recorded CLoad (api_LoadSnapshot apiSocket snapshotPath memPath)) ;;
      let vm := {| vh_ID := sv_ID req; vh_SocketPath := apiSocket |} in
      let runCtx := WithTimeout ctx (sv_Timeout req) in
      jobsStart ← given time_Now;
      r ← retryJobs fuel (runCtx 0%nat) 0 vsockPath (batch_request (sv_Workspace req) (sv_Defaults req) (sv_Jobs req));
      match r with
      | (_, Some err) =>
          ignore (recorded CTerm process_SIGTERM) ;;
          fail (Wrapf "agent send_batch failed: %w" [] err)
      | (None, None) => panic "nil response"
      | (Some resp, None) =>
          jobsEnd ← given time_Now;
          shutdownStart ← given time_Now;
          ignore (recorded CTerm process_SIGTERM) ;;
          ignore (on_vmm cmd_Wait) ;;
          shutdownEnd ← given time_Now;
          totalEnd ← given time_Now;
          mret ({| rr_VM := vm; rr_Results := Results resp; rr_TimedOut := false;
                   rr_Timings := {| SetupDuration := now1 - setupStart; MachineStartDuration := now2 - machineStart;
                                    AgentReadyDuration := 0; JobsDuration := jobsEnd - jobsStart;
                                    ShutdownWaitDuration := shutdownEnd - shutdownStart;
                                    TotalDuration := totalEnd - totalStart |} |}, None)
      end)).

(** What [fmt] prints for [%+v] of the results. *)
Definition fmt_bool (b : bool) : string := if b then "true" else "false".
Definition fmt_result (r : JobResult) : string :=
  "{Type:" +:+ jr_Type r +:+ " OK:" +:+ fmt_bool (jr_OK r) +:+ " Error:" +:+ jr_Error r +:+ " ExitCode:" +:+ pretty (jr_ExitCode r)
  +:+ " TimedOut:" +:+ fmt_bool (jr_TimedOut r) +:+ " StdoutBase64:" +:+ jr_StdoutBase64 r +:+ " StderrBase64:" +:+ jr_StderrBase64 r +:+ "}".
Definition fmt_results (rs : list JobResult) : string := "[" +:+ str_join " " (fmt_result <$> rs) +:+ "]".

(** The rest of [StartVM]: the goroutine that sends the jobs, and the [select] on its two channels and on
    the context; [runCtx 1 0] is whether the context's branch is taken. *)
Definition await_jobs (fuel : nat) (runCtx : context) (req : StartVMRequest) (vsockPath : string) (vm : VMHandle)
    (timings : RunTimings) (totalStart : Z) : VM (RunResult * option error) :=
  jobsStart ← given time_Now;
  r ← retryJobs fuel (runCtx 0%nat) 0 vsockPath (batch_request (sv_Workspace req) (sv_Defaults req) (sv_Jobs req));
  jobsEnd ← given time_Now;
  match runCtx 1%nat 0%nat with
  | Some err =>
      ignore (recorded CStop machine_StopVMM) ;;
      mret ({| rr_VM := vm; rr_Results := []; rr_TimedOut := true; rr_Timings := timings |}, Some err)
  | None =>
      match r with
      | (resp, Some err) =>
          ignore (recorded CStop machine_StopVMM) ;;
          fail (match resp with Some resp => Wrapf "%w: %v" [fmt_results (Results resp)] err | None => err end)
      | (None, None) => panic "nil response"
      | (Some resp, None) =>
          shutdownStart ← given time_Now;
          ignore (recorded CStop machine_StopVMM) ;;
          ignore (on_vmm machine_Wait) ;;
          shutdownEnd ← given time_Now;
          totalEnd ← given time_Now;
          mret ({| rr_VM := vm; rr_Results := Results resp; rr_TimedOut := false;
                   rr_Timings := {| SetupDuration := SetupDuration timings; MachineStartDuration := MachineStartDuration timings;
                                    AgentReadyDuration := 0; JobsDuration := jobsEnd - jobsStart;
                                    ShutdownWaitDuration := shutdownEnd - shutdownStart;
                                    TotalDuration := totalEnd - totalStart |} |}, None)
      end
  end.

(** The request with its defaults filled in. *)
Definition with_vm_defaults (id : string) (req : StartVMRequest) : StartVMRequest := {|
  sv_ID := if decide (sv_ID req = "") then id else sv_ID req;
  sv_StoreDir := if decide (sv_StoreDir req = "") then Join [os_TempDir; "sandbox-runtime"] else sv_StoreDir req;
  sv_FirecrackerPath := sv_FirecrackerPath req; sv_Jailer := sv_Jailer req; sv_KernelPath := sv_KernelPath req;
  sv_BootImagePath := sv_BootImagePath req; sv_TargetImagePath := sv_TargetImagePath req;
  sv_MachineConfig := sv_MachineConfig req;
  sv_VsockCID := if decide (sv_VsockCID req = 0) then defaultVsockCID else sv_VsockCID req;
  sv_Defaults := sv_Defaults req;
  sv_Workspace := if decide (sv_Workspace req = "") then "/workspace" else sv_Workspace req;
  sv_Jobs := sv_Jobs req; sv_Shutdown := sv_Shutdown req;
  sv_Timeout := if decide (sv_Timeout req <= 0) then Seconds 30 else sv_Timeout req;
  sv_Snapshot := sv_Snapshot req |}.

Definition StartVM (fuel : nat) (ctx : context) (req : StartVMRequest) : VM (RunResult * option error) :=
  totalStart ← given time_Now;
  fail_if (bool_decide (sv_FirecrackerPath req = "")) (Errorf "firecracker binary path is required" []) ;;
  fail_if (bool_decide (sv_Jobs req = [])) (Errorf "at least one job is required" []) ;;
  id ← (if decide (sv_ID req = "") then given uuid_NewString else mret "");
  let req := with_vm_defaults id req in
  match sv_Snapshot req with
  | Some snapshot => startFromSnapshot fuel ctx req snapshot totalStart
  | None =>
      fail_if (bool_decide (sv_KernelPath req = "")) (Errorf "kernel path is required" []) ;;
      fail_if (bool_decide (sv_BootImagePath req = "")) (Errorf "boot image path is required" []) ;;
      fail_if (bool_decide (sv_TargetImagePath req = "")) (Errorf "target image path is required" []) ;;
      setupStart ← given time_Now;
      let socketDir := Join [sv_StoreDir req; "firecracker"; "sockets"] in
      let logDir := Join [sv_StoreDir req; "firecracker"; "logs"] in
      on_host (os_MkdirAll socketDir 493) ;;
      on_host (os_MkdirAll logDir 493) ;;
      let apiSocket := Join [socketDir; sv_ID req +:+ ".api.socket"] in
      let vsockPath := Join [socketDir; sv_ID req +:+ ".vsock"] in
      let logPath := Join [logDir; sv_ID req +:+ ".log"] in
      let rootfs := match sv_Jailer req with Some j => jailerRootfsDir j (sv_FirecrackerPath req) (sv_ID req) | None => "" end in
      let jailed (a b : string) : string := match sv_Jailer req with Some _ => a | None => b end in
      let clientAPISocket := jailed (Join [rootfs; "api.socket"]) apiSocket in
      let clientVsockPath := jailed (Join [rootfs; "vsock"]) vsockPath in
      on_host (ignore (os_Remove apiSocket)) ;;
      on_host (ignore (os_Remove vsockPath)) ;;
      match sv_Jailer req with
      | Some _ =>
          lift_outcome (validateUnixSocketPath clientAPISocket) ;;
          lift_outcome (validateUnixSocketPath clientVsockPath) ;;
          on_host (ignore (os_Remove clientAPISocket)) ;;
          on_host (ignore (os_Remove clientVsockPath))
      | None => mret tt
      end ;;
      jailer_logs (sv_Jailer req) (Join [logDir; sv_ID req +:+ ".jailer.stdout.log"]) (Join [logDir; sv_ID req +:+ ".jailer.stderr.log"])
        (fun stdout stderr =>
          let fcCfg := vm_config (sv_Jailer req) (sv_FirecrackerPath req) (sv_KernelPath req) (sv_BootImagePath req)
            (sv_TargetImagePath req) (sv_ID req) (sv_MachineConfig req) (sv_VsockCID req) apiSocket
            (jailed "api.socket" apiSocket) (jailed "" logPath) (jailed "vsock" vsockPath) stdout stderr in
          on_vmm (sdk_NewMachine fcCfg) ;;
          now1 ← given time_Now;
          machineStart ← given time_Now;
          recorded CStart machine_Start ;;
          now2 ← given time_Now;
          let timings := {| SetupDuration := now1 - setupStart; MachineStartDuration := now2 - machineStart; AgentReadyDuration := 0;
                            JobsDuration := 0; ShutdownWaitDuration := 0; TotalDuration := 0 |} in
          await_jobs fuel (WithTimeout ctx (sv_Timeout req)) req clientVsockPath
            {| vh_ID := sv_ID req; vh_SocketPath := clientAPISocket |} timings totalStart)
  end.

(** ** Making a snapshot *)

Definition with_snapshot_defaults (id : string) (req : SnapshotRequest) : SnapshotRequest := {|
  sr_ID := if decide (sr_ID req = "") then id else sr_ID req;
  sr_StoreDir := if decide (sr_StoreDir req = "") then Join [os_TempDir; "sandbox-runtime"] else sr_StoreDir req;
  sr_FirecrackerPath := sr_FirecrackerPath req; sr_Jailer := sr_Jailer req; sr_KernelPath := sr_KernelPath req;
  sr_BootImagePath := sr_BootImagePath req; sr_TargetImagePath := sr_TargetImagePath req;
  sr_MachineConfig := sr_MachineConfig req;
  sr_VsockCID := if decide (sr_VsockCID req = 0) then defaultVsockCID else sr_VsockCID req;
  sr_Timeout := if decide (sr_Timeout req <= 0) then Seconds 30 else sr_Timeout req;
  sr_Snapshot := sr_Snapshot req |}.

(** From the started machine on: the agent is waited for, the machine paused and written out. *)
Definition take_snapshot (fuel : nat) (ctx : context) (req : SnapshotRequest) (clientVsockPath : string) : VM SnapshotArtifact :=
  waitForAgent fuel (WithTimeout ctx (sr_Timeout req) 0%nat) 0 clientVsockPath ;;
  recorded CPause machine_PauseVM ;;
  let snapshot := sr_Snapshot req in
  match sr_Jailer req with
  | None => recorded CSnapshot (machine_CreateSnapshot (sa_MemPath snapshot) (sa_SnapshotPath snapshot))
  | Some j =>
      let rootfs := jailerRootfsDir j (sr_FirecrackerPath req) (sr_ID req) in
      let jailedMemPath := Join [rootfs; "snapshot.mem"] in
      let jailedSnapshotPath := Join [rootfs; "snapshot.state"] in
      on_host (ignore (os_Remove jailedMemPath)) ;;
      on_host (ignore (os_Remove jailedSnapshotPath)) ;;
      recorded CSnapshot (machine_CreateSnapshot "snapshot.mem" "snapshot.state") ;;
      on_host (linkFile jailedMemPath (sa_MemPath snapshot)) ;;
      on_host (linkFile jailedSnapshotPath (sa_SnapshotPath snapshot))
  end ;;
  on_host (ignore (os_Remove clientVsockPath)) ;;
  mret snapshot.

Definition CreateReadySnapshot (fuel : nat) (ctx : context) (req : SnapshotRequest) : VM SnapshotArtifact :=
  fail_if (bool_decide (sr_FirecrackerPath req = "") || bool_decide (sr_KernelPath req = "")
           || bool_decide (sr_BootImagePath req = "") || bool_decide (sr_TargetImagePath req = ""))
    (Errorf "firecracker, kernel, boot image, and target image paths are required" []) ;;
  id ← (if decide (sr_ID req = "") then given uuid_NewString else mret "");
  let req := with_snapshot_defaults id req in
  let snapshot := sr_Snapshot req in
  fail_if (bool_decide (sa_MemPath snapshot = "") || bool_decide (sa_SnapshotPath snapshot = ""))
    (Errorf "snapshot memory and state paths are required" []) ;;
  on_host (os_MkdirAll (Dir (sa_MemPath snapshot)) 493) ;;
  on_host (os_MkdirAll (Dir (sa_SnapshotPath snapshot)) 493) ;;
  on_host (ignore (os_Remove (sa_MemPath snapshot))) ;;
  on_host (ignore (os_Remove (sa_SnapshotPath snapshot))) ;;
  let workspaceDir := if decide (sa_WorkspaceDir snapshot = "") then Join [Dir (sa_MemPath snapshot); "workspace"]
                      else sa_WorkspaceDir snapshot in
  on_host (os_MkdirAll workspaceDir 493) ;;
  let vsockPath := Join [workspaceDir; "vsock.sock"] in
  let rootfs := match sr_Jailer req with Some j => jailerRootfsDir j (sr_FirecrackerPath req) (sr_ID req) | None => "" end in
  let jailed (a b : string) : string := match sr_Jailer req with Some _ => a | None => b end in
  let clientVsockPath := jailed (Join [rootfs; "vsock"]) vsockPath in
  on_host (ignore (os_Remove vsockPath)) ;;
  match sr_Jailer req with
  | Some _ => lift_outcome (validateUnixSocketPath clientVsockPath) ;; on_host (ignore (os_Remove clientVsockPath))
  | None => mret tt
  end ;;
  let socketDir := Join [sr_StoreDir req; "firecracker"; "sockets"] in
  let logDir := Join [sr_StoreDir req; "firecracker"; "logs"] in
  on_host (os_MkdirAll socketDir 493) ;;
  on_host (os_MkdirAll logDir 493) ;;
  let apiSocket := Join [socketDir; sr_ID req +:+ ".snapshot.api.socket"] in
  let logPath := Join [logDir; sr_ID req +:+ ".snapshot.log"] in
  on_host (ignore (os_Remove apiSocket)) ;;
  match sr_Jailer req with
  | Some _ =>
      let clientAPISocket := Join [rootfs; "api.socket"] in
      lift_outcome (validateUnixSocketPath clientAPISocket) ;;
      on_host (ignore (os_Remove clientAPISocket))
  | None => mret tt
  end ;;
  jailer_logs (sr_Jailer req) (Join [logDir; sr_ID req +:+ ".snapshot.jailer.stdout.log"])
    (Join [logDir; sr_ID req +:+ ".snapshot.jailer.stderr.log"])
    (fun stdout stderr =>
      let fcCfg := vm_config (sr_Jailer req) (sr_FirecrackerPath req) (sr_KernelPath req) (sr_BootImagePath req)
        (sr_TargetImagePath req) (sr_ID req) (sr_MachineConfig req) (sr_VsockCID req) apiSocket
        (jailed "api.socket" apiSocket) (jailed "" logPath) (jailed "vsock" vsockPath) stdout stderr in
      on_vmm (sdk_NewMachine fcCfg) ;;
      recorded CStart machine_Start ;;
      defer (ignore (recorded CStop machine_StopVMM)) (take_snapshot fuel ctx req clientVsockPath)).
End runner.

(** ** What was started is stopped *)

(** Whether the machine runs and whether the restored process runs, after the calls. *)
Definition live (st : bool * bool) (c : vm_call * bool) : bool * bool :=
  match c with
  | (CStart, true) => (true, snd st)
  | (CStop, _) => (false, snd st)
  | (CSpawn, true) => (fst st, true)
  | (CKill, _) => (fst st, false)
  | _ => st
  end.
Definition idle : bool * bool := (false, false).

(** How many machines the calls started: by the SDK, or as a process that restores a snapshot. *)
Definition start_of (c : vm_call * bool) : nat := match c with (CStart, true) | (CSpawn, true) => 1 | _ => 0 end.
Definition starts : list (vm_call * bool) -> nat := sum_list_with start_of.
Lemma starts_app l1 l2 : starts (l1 ++ l2) = (starts l1 + starts l2)%nat.
Proof. unfold starts. induction l1 as [|c l1 IH]; simpl; [done|]. by rewrite IH, Nat.add_assoc. Qed.

Section stopping.
Context {M : Type} `{VMM M} `{JSONMarshal BatchRequest} `{JSONDecoder BatchResponse}.
Variable os_TempDir : string.
Variable WithTimeout : context -> Z -> context.
Abbreviation VM := (GoM (host M)).

(** Calls that start and stop nothing. *)
Definition quiet (h h' : host M) : Prop :=
  exists l, hs_calls h' = hs_calls h ++ l /\ (forall st, foldl live st l = st) /\ starts l = 0%nat.

#[global] Instance quiet_preorder : PreOrder quiet.
Proof.
  split; [intros h; exists []; by rewrite app_nil_r|]. intros h1 h2 h3 (l1 & E1 & L1 & N1) (l2 & E2 & L2 & N2).
  exists (l1 ++ l2). rewrite E2, E1, app_assoc. split; [done|]. split; [intros st; by rewrite foldl_app, L1, L2|]. by rewrite starts_app, N1, N2.
Qed.

Lemma quiet_calls h h' : hs_calls h' = hs_calls h -> quiet h h'.
Proof. intros E. exists []. by rewrite E, app_nil_r. Qed.

Lemma quiet_on_host {A} (m : OS A) : preserves quiet (on_host m).
Proof. intros h. unfold on_host. destruct (m (hs_fs h)). by apply quiet_calls. Qed.
Lemma quiet_on_vmm {A} (m : GoM (M * world) A) : preserves quiet (on_vmm m).
Proof. intros h. unfold on_vmm. destruct (m _) as [o [v w]]. by apply quiet_calls. Qed.
Lemma quiet_given {A} (f : M * world -> A * (M * world)) : preserves quiet (given f).
Proof. intros h. unfold given. destruct (f _) as [o [v w]]. by apply quiet_calls. Qed.
Lemma quiet_recorded {A} c (m : GoM (M * world) A) :
  c ∈ [CTerm; CPause; CSnapshot; CLoad] -> preserves quiet (recorded c m).
Proof.
  intros Hc h. unfold recorded. destruct (m _) as [o [v w]]. exists [(c, is_Ok o)]. split; [done|].
  split; [intros [a b]; simpl; destruct c; try done; set_solver|]. destruct c, o; try done; set_solver.
Qed.
Lemma quiet_panic {A} v : preserves quiet (panic (A := A) v).
Proof. intros h. by apply quiet_calls. Qed.
#[local] Hint Resolve quiet_on_host quiet_on_vmm quiet_given quiet_panic : go_preserves.
#[local] Hint Extern 1 (preserves quiet (recorded _ _)) => apply quiet_recorded; set_solver : go_preserves.

Lemma quiet_retryJobs fuel ctx i path req : preserves quiet (retryJobs fuel ctx i path req).
Proof. revert i. induction fuel as [|fuel IH]; intros i; cbn [retryJobs]; [intros h; by apply quiet_calls|solve_preserves]. Qed.
Lemma quiet_waitForAgent fuel ctx i path : preserves quiet (waitForAgent fuel ctx i path).
Proof. revert i. induction fuel as [|fuel IH]; intros i; cbn [waitForAgent]; [intros h; by apply quiet_calls|solve_preserves]. Qed.
Lemma quiet_waitForSocket fuel ctx i path : preserves quiet (waitForSocket fuel ctx i path).
Proof. revert i. induction fuel as [|fuel IH]; intros i; cbn [waitForSocket]; [intros h; by apply quiet_calls|solve_preserves]. Qed.
#[local] Hint Resolve quiet_retryJobs quiet_waitForAgent quiet_waitForSocket : go_preserves.

(** From [s1] running, a run of [m] that does not panic leaves [s2] running. *)
Definition leaves {A} (s1 s2 : bool * bool) (m : VM A) : Prop := forall h,
  match m h with
  | (Panic _, _) => True
  | (_, h') => exists l, hs_calls h' = hs_calls h ++ l /\ foldl live s1 l = s2
  end.

Lemma leaves_quiet {A} s (m : VM A) : preserves quiet m -> leaves s s m.
Proof.
  intros Hm h. destruct (Hm h) as (l & E & L & _). destruct (m h) as [[a|e|v] h']; [..|done]; simpl in E; eauto.
Qed.

(** A quiet part that may fail first; then the run is over in [s]. *)
Lemma leaves_bind {A B} s (m : VM A) (k : A -> VM B) :
  preserves quiet m -> (forall a, leaves s s (k a)) -> leaves s s (m ≫= k).
Proof.
  intros Hm Hk h. destruct (Hm h) as (l & E & L & _). unfold mbind, GoM_bind.
  destruct (m h) as [[a|e|v] h']; simpl in E; [|by eauto|done].
  specialize (Hk a h'). destruct (k a h') as [[b|e|v] h'']; [..|done];
    (destruct Hk as (l' & E' & L'); exists (l ++ l'); by rewrite E', E, app_assoc, foldl_app, L).
Qed.

(** A quiet part that cannot fail, from whatever is running. *)
Definition sure {S A} (m : GoM S A) : Prop := forall s, match m s with (Err _, _) => False | _ => True end.
Lemma leaves_bind_sure {A B} s1 s2 (m : VM A) (k : A -> VM B) :
  sure m -> preserves quiet m -> (forall a, leaves s1 s2 (k a)) -> leaves s1 s2 (m ≫= k).
Proof.
  intros Hs Hm Hk h. destruct (Hm h) as (l & E & L & _). specialize (Hs h). unfold mbind, GoM_bind.
  destruct (m h) as [[a|e|v] h']; simpl in E; [|done..].
  specialize (Hk a h'). destruct (k a h') as [[b|e|v] h'']; [..|done];
    (destruct Hk as (l' & E' & L'); exists (l ++ l'); by rewrite E', E, app_assoc, foldl_app, L).
Qed.

Lemma recorded_call {A} c (m : GoM (M * world) A) h :
  exists o v w, recorded c m h = (o, Host v w (hs_calls h ++ [(c, is_Ok o)])).
Proof. unfold recorded. destruct (m _) as [o [v w]]. eauto. Qed.

(** Starting: what follows has to stop it, unless it did not start. *)
Lemma leaves_start {A B} c s1 s2 (m : GoM (M * world) A) (k : A -> VM B) :
  live s1 (c, true) = s2 -> live s1 (c, false) = s1 -> (forall a, leaves s2 s1 (k a)) -> leaves s1 s1 (recorded c m ≫= k).
Proof.
  intros H1' H2' Hk h. unfold mbind, GoM_bind. destruct (recorded_call c m h) as (o & v & w & ->).
  destruct o as [a|e|u]; [|by exists [(c, false)]|done].
  specialize (Hk a (Host v w (hs_calls h ++ [(c, true)]))). destruct (k a _) as [[b|e|u] h'']; [..|done];
    (destruct Hk as (l & E & L); exists ((c, true) :: l); cbn [hs_calls foldl] in *; by rewrite E, <- app_assoc, H1').
Qed.

Lemma leaves_stop {A B} c s1 s2 (m : GoM (M * world) A) (k : unit -> VM B) :
  (forall b, live s1 (c, b) = s2) -> (forall a, leaves s2 s2 (k a)) -> leaves s1 s2 (ignore (recorded c m) ≫= k).
Proof.
  intros Hl Hk h. unfold ignore, attempt, mbind, GoM_bind. destruct (recorded_call c m h) as (o & v & w & ->).
  destruct o as [a|e|u]; simpl; [..|done];
    (match goal with |- context [k tt ?h1] => specialize (Hk tt h1); destruct (k tt h1) as [[b|e'|u'] h''] end; [..|done];
    destruct Hk as (l & E & L); eexists (_ :: l); cbn [hs_calls foldl] in *; rewrite E, <- app_assoc; by rewrite Hl).
Qed.

(** The deferred stop ends whatever ran. *)
Lemma leaves_defer {A B} c s1 s2 (d : GoM (M * world) A) (m : VM B) :
  (forall b, live s1 (c, b) = s2) -> preserves quiet m -> leaves s1 s2 (defer (ignore (recorded c d)) m).
Proof.
  intros Hl Hm h. destruct (Hm h) as (l & E & L & _). unfold defer. destruct (m h) as [o h']. simpl in E.
  unfold ignore, attempt, mbind, GoM_bind. destruct (recorded_call c d h') as (o' & v & w & ->).
  destruct o' as [a|e|u]; simpl; [..|done]; destruct o; try done;
    (eexists (l ++ [_]); rewrite E, app_assoc; split; [done|]; rewrite foldl_app, L; apply Hl).
Qed.

Lemma leaves_defer_quiet {A} s1 s2 (d : VM unit) (m : VM A) :
  preserves quiet d -> leaves s1 s2 m -> leaves s1 s2 (defer d m).
Proof.
  intros Hd Hm h. specialize (Hm h). unfold defer. destruct (m h) as [o h']. destruct (Hd h') as (l & E & L & _).
  destruct (d h') as [[x|e|v] h'']; [..|done]; destruct o; try done; simpl in E;
    (destruct Hm as (l1 & E1 & L1); exists (l1 ++ l); by rewrite E, E1, app_assoc, foldl_app, L1, L).
Qed.

Lemma sure_given {A} (f : M * world -> A * (M * world)) : sure (given f).
Proof. intros h. unfold given. by destruct (f _) as [a [v w]]. Qed.
Lemma sure_bind {S A B} (m : GoM S A) (k : A -> GoM S B) : sure m -> (forall a, sure (k a)) -> sure (m ≫= k).
Proof. intros Hm Hk s. specialize (Hm s). unfold mbind, GoM_bind. destruct (m s) as [[a|e|v] s']; [apply Hk|done..]. Qed.
Lemma sure_attempt {S A} (m : GoM S A) : sure (attempt m).
Proof. intros s. unfold attempt. by destruct (m s) as [[a|e|v] s']. Qed.
Lemma sure_on_vmm {A} (m : GoM (M * world) A) : sure m -> sure (on_vmm m).
Proof. intros Hm h. specialize (Hm (hs_vmm h, hs_fs h)). unfold on_vmm. by destruct (m _) as [[a|e|v] [v' w]]. Qed.
Lemma sure_retryJobs fuel ctx i path req : sure (retryJobs fuel ctx i path req).
Proof.
  revert i. induction fuel as [|fuel IH]; intros i; cbn [retryJobs]; [done|]. apply sure_bind.
  - apply sure_on_vmm. unfold Jobs. apply sure_bind; [apply sure_attempt|done].
  - intros [[resp|] [err|]]; try done. by destruct (ctx i).
Qed.

Lemma leaves_start_wrap {A B} c f s1 s2 (m : GoM (M * world) A) (k : A -> VM B) :
  live s1 (c, true) = s2 -> live s1 (c, false) = s1 -> (forall a, leaves s2 s1 (k a)) ->
  leaves s1 s1 (wrap_err f (recorded c m) ≫= k).
Proof.
  intros L1 L2 Hk h. pose proof (leaves_start c s1 s2 m k L1 L2 Hk h) as HL. unfold mbind, GoM_bind, wrap_err in *.
  by destruct (recorded c m h) as [[a|e|v] h'].
Qed.

(** Pass the quiet binds. *)
#[local] Ltac quiet_bind := apply leaves_bind; [solve [solve_preserves] | intros ?].

Lemma leaves_jailer_logs {A} s jailer p1 p2 (k : writer -> writer -> VM A) :
  (forall a b, leaves s s (k a b)) -> leaves s s (jailer_logs jailer p1 p2 k).
Proof.
  intros Hk. unfold jailer_logs. destruct jailer; [|apply Hk].
  apply leaves_bind; [auto with go_preserves|intros a]. apply leaves_defer_quiet; [solve_preserves|].
  apply leaves_bind; [auto with go_preserves|intros b]. apply leaves_defer_quiet; [solve_preserves|]. apply Hk.
Qed.

Lemma leaves_await_jobs fuel runCtx req path vm timings start :
  leaves (true, false) idle (await_jobs fuel runCtx req path vm timings start).
Proof.
  unfold await_jobs. apply leaves_bind_sure; [apply sure_given|auto with go_preserves|intros ?].
  apply leaves_bind_sure; [apply sure_retryJobs|auto with go_preserves|intros r].
  apply leaves_bind_sure; [apply sure_given|auto with go_preserves|intros ?].
  assert (Hstop : forall {B} (k : unit -> VM B), (forall a, leaves idle idle (k a)) ->
    leaves (true, false) idle (ignore (recorded CStop machine_StopVMM) ≫= k)).
  { intros B k Hk. by apply leaves_stop. }
  destruct (runCtx 1%nat 0%nat); [apply Hstop; intros ?; by apply leaves_quiet, preserves_ret; apply _|].
  destruct r as [resp [err|]].
  - destruct resp; (apply Hstop; intros ?; apply leaves_quiet, preserves_fail; apply _).
  - destruct resp as [resp|]; [|done]. apply leaves_bind_sure; [apply sure_given|auto with go_preserves|intros ?].
    apply Hstop. intros ?. apply leaves_quiet. solve_preserves.
Qed.

Lemma leaves_startFromSnapshot fuel ctx req snapshot start :
  leaves idle idle (startFromSnapshot os_TempDir WithTimeout fuel ctx req snapshot start).
Proof.
  unfold startFromSnapshot. do 2 quiet_bind. apply leaves_defer_quiet; [auto with go_preserves|].
  do 3 quiet_bind. apply (leaves_start_wrap CSpawn _ idle (false, true)); [done..|]. intros _.
  apply leaves_defer; [done|]. solve_preserves.
Qed.

Lemma leaves_StartVM fuel ctx req : leaves idle idle (StartVM os_TempDir WithTimeout fuel ctx req).
Proof.
  unfold StartVM. do 4 quiet_bind. destruct (sv_Snapshot _); [apply leaves_startFromSnapshot|].
  do 9 quiet_bind.
  apply leaves_jailer_logs. intros stdout stderr. do 3 quiet_bind.
  apply (leaves_start CStart idle (true, false)); [done..|]. intros _.
  apply leaves_bind_sure; [apply sure_given|auto with go_preserves|intros ?]. apply leaves_await_jobs.
Qed.

Lemma leaves_CreateReadySnapshot fuel ctx req : leaves idle idle (CreateReadySnapshot os_TempDir WithTimeout fuel ctx req).
Proof.
  unfold CreateReadySnapshot. do 14 quiet_bind.
  apply leaves_jailer_logs. intros stdout stderr. quiet_bind.
  apply (leaves_start CStart idle (true, false)); [done..|]. intros _.
  apply leaves_defer; [done|]. unfold take_snapshot. solve_preserves.
Qed.

(** Parts that leave what they found, one after the other. *)
Lemma leaves_seq {A B} s (m : VM A) (k : A -> VM B) :
  leaves s s m -> (forall a, leaves s s (k a)) -> leaves s s (m ≫= k).
Proof.
  intros Hm Hk h. specialize (Hm h). unfold mbind, GoM_bind. destruct (m h) as [[a|e|v] h1]; [|done..].
  destruct Hm as (l & E & L). specialize (Hk a h1). destruct (k a h1) as [[b|e|v] h2]; [..|done];
    (destruct Hk as (l' & E' & L'); exists (l ++ l'); by rewrite E', E, <- app_assoc, foldl_app, L).
Qed.

(** *** How many machines are started *)

(** A run of [m] that does not panic starts at most [n] machines, and [n] when it succeeds. *)
Definition counts {A} (n : nat) (m : VM A) : Prop := forall h,
  match m h with
  | (Panic _, _) => True
  | (o, h') => exists l, hs_calls h' = hs_calls h ++ l /\ (starts l <= n)%nat /\ (is_Ok o = true -> starts l = n)
  end.

Lemma counts_quiet {A} (m : VM A) : preserves quiet m -> counts 0 m.
Proof.
  intros Hm h. destruct (Hm h) as (l & E & _ & N). destruct (m h) as [[a|e|v] h']; [..|done]; simpl in E; exists l; (split; [done|]); lia.
Qed.
Lemma counts_fail {A} n e : counts n (fail (A := A) e).
Proof. intros h. exists []. rewrite app_nil_r. split; [done|]. split; [simpl; lia|done]. Qed.
Lemma counts_bind {A B} a b (m : VM A) (k : A -> VM B) : counts a m -> (forall x, counts b (k x)) -> counts (a + b) (m ≫= k).
Proof.
  intros Hm Hk h. specialize (Hm h). unfold mbind, GoM_bind. destruct (m h) as [[x|e|v] h1]; [| |done]; destruct Hm as (l & E & L & N).
  - specialize (Hk x h1). destruct (k x h1) as [[y|e|v] h2]; [..|done]; destruct Hk as (l' & E' & L' & N'); exists (l ++ l');
      rewrite E', E, app_assoc, starts_app; (split; [done|]); simpl in *; (split; [lia|]); intros ?; try done. by rewrite N, N'.
  - exists l. split; [done|]. split; [lia|done].
Qed.
Lemma counts_skip {A B} n (m : VM A) (k : A -> VM B) : preserves quiet m -> (forall x, counts n (k x)) -> counts n (m ≫= k).
Proof. intros Hm. by apply (counts_bind 0), counts_quiet. Qed.
Lemma counts_defer {A} n (d : VM unit) (m : VM A) : counts 0 d -> counts n m -> counts n (defer d m).
Proof.
  intros Hd Hm h. specialize (Hm h). unfold defer. destruct (m h) as [o h1]. specialize (Hd h1).
  destruct (d h1) as [[x|e|v] h2]; [..|done]; destruct o as [a|e'|v']; try done; destruct Hm as (l & E & L & N), Hd as (l' & E' & L' & N');
    exists (l ++ l'); rewrite E', E, app_assoc, starts_app; (split; [done|]); (split; [lia|]); intros Ho; specialize (N Ho); lia.
Qed.
Lemma counts_wrap {A} n f (m : VM A) : counts n m -> counts n (wrap_err f m).
Proof. intros Hm h. specialize (Hm h). unfold wrap_err. by destruct (m h) as [[a|e|v] h']. Qed.
Lemma counts_recorded {A} c (m : GoM (M * world) A) : counts (start_of (c, true)) (recorded c m).
Proof.
  intros h. destruct (recorded_call c m h) as (o & v & w & ->). destruct o as [a|e|u]; [..|done]; eexists; (split; [reflexivity|]); simpl; by destruct c; simpl; auto with lia.
Qed.
Lemma counts_ignore {A} c (m : GoM (M * world) A) : start_of (c, true) = 0%nat -> counts 0 (ignore (recorded c m)).
Proof.
  intros Hc h. pose proof (counts_recorded c m h) as HC. unfold ignore, attempt, mbind, GoM_bind. rewrite Hc in HC.
  destruct (recorded c m h) as [[a|e|v] h']; [..|done]; destruct HC as (l & E & L & N); exists l; (split; [done|]); lia.
Qed.

#[local] Ltac count_quiet := apply counts_skip; [solve [solve_preserves] | intros ?].

Lemma counts_jailer_logs {A} n jailer p1 p2 (k : writer -> writer -> VM A) :
  (forall a b, counts n (k a b)) -> counts n (jailer_logs jailer p1 p2 k).
Proof.
  intros Hk. unfold jailer_logs. destruct jailer; [|apply Hk].
  count_quiet. apply counts_defer; [apply counts_quiet; solve_preserves|].
  count_quiet. apply counts_defer; [apply counts_quiet; solve_preserves|]. apply Hk.
Qed.

Lemma counts_await_jobs fuel runCtx req path vm timings start : counts 0 (await_jobs fuel runCtx req path vm timings start).
Proof.
  unfold await_jobs. do 3 count_quiet.
  assert (Hstop : forall {B} (k : unit -> VM B), (forall a, counts 0 (k a)) -> counts 0 (ignore (recorded CStop machine_StopVMM) ≫= k)).
  { intros B k Hk. by apply (counts_bind 0 0); [apply counts_ignore|]. }
  destruct (runCtx 1%nat 0%nat); [apply Hstop; intros ?; by apply counts_quiet, preserves_ret; apply _|].
  destruct x0 as [[resp|] [err|]]; [apply Hstop; intros ?; apply counts_fail| |apply Hstop; intros ?; apply counts_fail|done].
  count_quiet. apply Hstop. intros ?. apply counts_quiet. solve_preserves.
Qed.

Lemma counts_startFromSnapshot fuel ctx req snapshot start : counts 1 (startFromSnapshot os_TempDir WithTimeout fuel ctx req snapshot start).
Proof.
  unfold startFromSnapshot. do 2 count_quiet. apply counts_defer; [apply counts_quiet; solve_preserves|]. do 3 count_quiet.
  apply (counts_bind 1 0); [apply counts_wrap, (counts_recorded CSpawn)|intros _].
  apply counts_defer; [by apply counts_ignore|]. apply counts_quiet. solve_preserves.
Qed.

Lemma counts_StartVM fuel ctx req : counts 1 (StartVM os_TempDir WithTimeout fuel ctx req).
Proof.
  unfold StartVM. do 4 count_quiet. destruct (sv_Snapshot _); [apply counts_startFromSnapshot|]. do 9 count_quiet.
  apply counts_jailer_logs. intros stdout stderr. do 3 count_quiet.
  apply (counts_bind 1 0); [apply (counts_recorded CStart)|intros _]. count_quiet. apply counts_await_jobs.
Qed.

Lemma counts_CreateReadySnapshot fuel ctx req : counts 1 (CreateReadySnapshot os_TempDir WithTimeout fuel ctx req).
Proof.
  unfold CreateReadySnapshot. do 14 count_quiet. apply counts_jailer_logs. intros stdout stderr. count_quiet.
  apply (counts_bind 1 0); [apply (counts_recorded CStart)|intros _].
  apply counts_defer; [by apply counts_ignore|]. apply counts_quiet. unfold take_snapshot. solve_preserves.
Qed.

(** ** A result that timed out comes with an error *)

(** What a run of [m] that succeeds gives. *)
Definition gives {A} (P : A -> Prop) (m : VM A) : Prop := forall h a h', m h = (Ok a, h') -> P a.

Lemma gives_ret {A} (P : A -> Prop) a : P a -> gives P (mret a).
Proof. by intros HP h a' h' [= <- _]. Qed.
Lemma gives_fail {A} (P : A -> Prop) e : gives P (fail e).
Proof. by intros h a' h'. Qed.
Lemma gives_panic {A} (P : A -> Prop) v : gives P (panic v).
Proof. by intros h a' h'. Qed.
Lemma gives_bind {A B} (P : B -> Prop) (m : VM A) (k : A -> VM B) : (forall a, gives P (k a)) -> gives P (m ≫= k).
Proof. intros Hk h b h' (a & h1 & _ & E)%bind_Ok. by eapply Hk. Qed.
Lemma gives_defer {A} (P : A -> Prop) d (m : VM A) : gives P m -> gives P (defer d m).
Proof. intros Hm h a h' (h1 & E & _)%defer_Ok. by eapply Hm. Qed.

Definition in_time (r : RunResult * option error) : Prop := snd r = None -> rr_TimedOut (fst r) = false.

#[local] Ltac solve_gives :=
  repeat first
    [ apply gives_bind; intros ? | apply gives_defer | apply gives_fail | apply gives_panic
    | apply gives_ret; by unfold in_time | case_match ].

Lemma startFromSnapshot_in_time fuel ctx req snapshot start :
  gives in_time (startFromSnapshot os_TempDir WithTimeout fuel ctx req snapshot start).
Proof. unfold startFromSnapshot. solve_gives. Qed.

Lemma StartVM_in_time fuel ctx req : gives in_time (StartVM os_TempDir WithTimeout fuel ctx req).
Proof.
  unfold StartVM. do 4 (apply gives_bind; intros ?). destruct (sv_Snapshot _); [apply startFromSnapshot_in_time|].
  unfold jailer_logs, await_jobs. solve_gives.
Qed.
End stopping.
#[export] Hint Resolve quiet_on_host quiet_on_vmm quiet_given quiet_panic : go_preserves.

(** C22: nothing is left running: when [StartVM], by a cold start or from a snapshot, or [CreateReadySnapshot]
    is done, with a result or an error and whatever failed on the way, the machine it started was told to
    stop and the process it started was killed, after it started; only a panic goes past that. *)
Theorem nothing_left_running `{VMM M} `{JSONMarshal BatchRequest} `{JSONDecoder BatchResponse} os_TempDir WithTimeout fuel ctx
    (start : StartVMRequest) (snapshot : SnapshotRequest) (h : host M) :
  match StartVM os_TempDir WithTimeout fuel ctx start h with
  | (Panic _, _) => True
  | (_, h') => exists l, hs_calls h' = hs_calls h ++ l /\ foldl live idle l = idle
  end
  /\ match CreateReadySnapshot os_TempDir WithTimeout fuel ctx snapshot h with
     | (Panic _, _) => True
     | (_, h') => exists l, hs_calls h' = hs_calls h ++ l /\ foldl live idle l = idle
     end.
Proof. split; [apply leaves_StartVM|apply leaves_CreateReadySnapshot]. Qed.

(** ** Waiting ends *)

Section waiting.
Context {M : Type} `{VMM M} `{JSONMarshal BatchRequest} `{JSONDecoder BatchResponse}.
Abbreviation VM := (GoM (host M)).

Lemma no_panic_on_vmm {A} (m : GoM (M * world) A) : no_panic m -> no_panic (on_vmm m).
Proof.
  intros Hm h v h'. unfold on_vmm. destruct (m (hs_vmm h, hs_fs h)) as [o [v' w']] eqn:E.
  intros [= -> _]. by eapply Hm.
Qed.
Lemma no_panic_on_host {A} (m : OS A) : no_panic m -> no_panic (on_host (M := M) m).
Proof.
  intros Hm h v h'. unfold on_host. destruct (m (hs_fs h)) as [o w'] eqn:E. intros [= -> _]. by eapply Hm.
Qed.

Section loops.
Variable ctx : nat -> option error.
Variable k : nat.
Variable err : error.
Hypothesis ctx_ends : ctx k = Some err.
(** Where a loop that began at the [i]-th poll may have given up. *)
Definition gave_up (i : nat) (c : error) : Prop := exists j, (i <= j <= k)%nat /\ ctx j = Some c.

Lemma gave_up_at i c : (i <= k)%nat -> ctx i = Some c -> gave_up i c.
Proof. intros Hi Hc. by exists i. Qed.
Lemma gave_up_later i c : gave_up (S i) c -> gave_up i c.
Proof. intros (j & Hj & Hc). exists j. split; [lia|done]. Qed.
Lemma not_yet i : (i <= k)%nat -> ctx i = None -> (S i <= k)%nat.
Proof. intros Hi Hc. destruct (decide (i = k)) as [->|]; [congruence|lia]. Qed.

Lemma retryJobs_ends fuel i path req h :
  (forall h', exists r h'', on_vmm (Jobs (vsock_Do path DefaultVsockPort) vm_url req) h' = (Ok r, h'') /\ (r.1 = None -> is_Some r.2)) ->
  (i <= k)%nat -> (k - i < fuel)%nat ->
  exists resp e h', retryJobs fuel ctx i path req h = (Ok (resp, e), h')
    /\ (resp = None -> exists last c, gave_up i c /\ e = Some (Wrapf "%w: last job attempt: %v" [error_text last] c)).
Proof.
  intros HJ. revert i h. induction fuel as [|fuel IH]; intros i h Hi Hf; [lia|]. cbn [retryJobs].
  unfold mbind, GoM_bind. destruct (HJ h) as ([resp e] & h1 & -> & Hr). simpl in Hr.
  destruct resp as [resp|]; [destruct e; by eexists _, _, _|].
  destruct e as [e|]; [|by destruct (Hr eq_refl)]. destruct (ctx i) as [c|] eqn:Ec.
  - eexists _, _, _. split; [done|]. intros _. exists e, c. split; [by apply gave_up_at|done].
  - destruct (IH (S i) h1) as (resp & e' & h2 & E & Hres); [by apply not_yet|pose proof (not_yet i Hi Ec); lia|].
    exists resp, e', h2. split; [done|]. intros Hn. destruct (Hres Hn) as (last & c & Hc & He).
    exists last, c. split; [by apply gave_up_later|done].
Qed.

Lemma waitForAgent_ends fuel i path h :
  no_panic (on_vmm (Health (vsock_Do (M := M) path DefaultVsockPort) vm_url)) -> (i <= k)%nat -> (k - i < fuel)%nat ->
  exists o h', waitForAgent fuel ctx i path h = (o, h') /\ (o = Ok tt \/ exists c, gave_up i c /\ o = Err c).
Proof.
  intros Hn. revert i h. induction fuel as [|fuel IH]; intros i h Hi Hf; [lia|]. cbn [waitForAgent].
  unfold mbind, GoM_bind, attempt. specialize (Hn h).
  destruct (on_vmm _ h) as [[a|e|v] h1]; [by eexists _, _; split; [|left]| |by destruct (Hn v h1)].
  destruct (ctx i) as [c|] eqn:Ec.
  - eexists _, _. split; [done|]. right. exists c. split; [by apply gave_up_at|done].
  - destruct (IH (S i) h1) as (o & h2 & E & Ho); [by apply not_yet|pose proof (not_yet i Hi Ec); lia|]. exists o, h2. split; [done|].
    destruct Ho as [?|(c & Hc & ?)]; [by left|right]. exists c. split; [by apply gave_up_later|done].
Qed.

Lemma waitForSocket_ends fuel i path h :
  no_panic (on_vmm (api_GetMachineConfiguration (M := M) path)) -> (i <= k)%nat -> (k - i < fuel)%nat ->
  exists o h', waitForSocket fuel ctx i path h = (o, h') /\ (o = Ok tt \/ exists c, gave_up i c /\ o = Err c).
Proof.
  intros Hn. revert i h. induction fuel as [|fuel IH]; intros i h Hi Hf; [lia|]. cbn [waitForSocket].
  assert (Hs : no_panic (on_host (M := M) (os_Stat path))) by (apply no_panic_on_host, no_panic_stat).
  assert (Hpoll : forall h1, exists o h', match ctx i with Some err => fail err | None => waitForSocket fuel ctx (S i) path end h1 = (o, h')
    /\ (o = Ok tt \/ exists c, gave_up i c /\ o = Err c)).
  { intros h1. destruct (ctx i) as [c|] eqn:Ec.
    - eexists _, _. split; [done|]. right. exists c. split; [by apply gave_up_at|done].
    - destruct (IH (S i) h1) as (o & h2 & E & Ho); [by apply not_yet|pose proof (not_yet i Hi Ec); lia|]. exists o, h2. split; [done|].
      destruct Ho as [?|(c & Hc & ?)]; [by left|right]. exists c. split; [by apply gave_up_later|done]. }
  unfold mbind at 1, GoM_bind at 1, attempt at 1. specialize (Hs h).
  destruct (on_host _ h) as [[a|e|v] h1]; [|apply Hpoll|by destruct (Hs v h1)].
  unfold mbind, GoM_bind, attempt. specialize (Hn h1).
  destruct (on_vmm _ h1) as [[a'|e|v] h2]; [by eexists _, _; split; [|left]|apply Hpoll|by destruct (Hn v h2)].
Qed.
End loops.
End waiting.

(** C37: the three waiting loops end: when the context has ended by its [k]-th poll, at most [k] failed attempts
    later each has come back; the one that sends the jobs with a response or with an error that carries the
    context's, those that wait for the agent or for the socket with nothing or with the context's error. *)
Theorem waiting_ends `{VMM M} `{JSONMarshal BatchRequest} `{JSONDecoder BatchResponse} fuel ctx k err path req (h : host M) :
  (forall p q, no_panic (vsock_Do (M := M) p DefaultVsockPort q)) -> (forall p, no_panic (api_GetMachineConfiguration (M := M) p)) ->
  (forall v, json_Marshal req <> Panic v) -> (forall st v, json_Decoder_Decode (A := BatchResponse) st <> Panic v) ->
  ctx k = Some err -> (k < fuel)%nat ->
  (exists resp e h', retryJobs fuel ctx 0 path req h = (Ok (resp, e), h')
     /\ (resp = None -> exists last c, gave_up ctx k 0 c /\ e = Some (Wrapf "%w: last job attempt: %v" [error_text last] c)))
  /\ (exists o h', waitForAgent fuel ctx 0 path h = (o, h') /\ (o = Ok tt \/ exists c, gave_up ctx k 0 c /\ o = Err c))
  /\ (exists o h', waitForSocket fuel ctx 0 path h = (o, h') /\ (o = Ok tt \/ exists c, gave_up ctx k 0 c /\ o = Err c)).
Proof.
  intros Hv Ha Hm Hd Hk Hf. split; [|split].
  - eapply retryJobs_ends; [done| |lia..]. intros h0.
    destruct (Jobs_returns (vsock_Do path DefaultVsockPort) vm_url req (Hv path) Hm Hd (hs_vmm h0, hs_fs h0)) as (resp & e & s & E & Hr).
    unfold on_vmm. rewrite E. destruct s as [v w]. by eexists (resp, e), _.
  - eapply waitForAgent_ends; [done| |lia..]. apply no_panic_on_vmm. unfold Health. solve_no_panic.
  - eapply waitForSocket_ends; [done| |lia..]. by apply no_panic_on_vmm.
Qed.

(** ** Where a drive is linked *)

(** In a jail at [rootfs], the drive at an absolute path is linked under the same components below [rootfs], and
    never outside it, whatever ".." the path has; so two drives with different paths never share one. *)
Theorem jailedBackingFilePath_below rootfs r path :
  abs_path rootfs r -> IsAbs path = true ->
  abs_path (jailedBackingFilePath rootfs path) (r ++ rootc path)
  /\ forall path', IsAbs path' = true -> jailedBackingFilePath rootfs path = jailedBackingFilePath rootfs path' -> Clean path = Clean path'.
Proof.
  assert (Hgo : forall p, abs_path rootfs r -> IsAbs p = true -> abs_path (jailedBackingFilePath rootfs p) (r ++ rootc p)).
  { intros p Hr Ha. unfold jailedBackingFilePath. destruct (Clean_Root p Ha) as [-> Hn].
    destruct (decide (rootc p = [])) as [E|E].
    - rewrite E, app_nil_r. change (TrimPrefix _ "/") with "". pose proof (Join_abs rootfs r "" Hr) as HJ.
      change (foldl _ _ (psplit "")) with (rev r) in HJ. by rewrite rev_involutive in HJ.
    - simpl render. change (String "/" (pjoin (rootc p))) with ("/" +:+ pjoin (rootc p)). rewrite TrimPrefix_app.
      apply Join_abs_names; [done|by apply psplit_below|done]. }
  intros Hr Ha. split; [by apply Hgo|]. intros path' Ha' E.
  pose proof (Hgo path Hr Ha) as H1. pose proof (Hgo path' Hr Ha') as H2. rewrite E in H1.
  apply (abs_path_comps_inj _ _ _ H1), app_inv_head in H2. destruct (Clean_Root path Ha) as [-> _], (Clean_Root path' Ha') as [-> _].
  by rewrite H2.
Qed.

Lemma jailedBackingFilePath_below_witness :
  abs_path "/srv/jailer/fc/vm/root/images/a.ext4" ["srv"; "jailer"; "fc"; "vm"; "root"; "images"; "a.ext4"].
Proof.
  apply (jailedBackingFilePath_below "/srv/jailer/fc/vm/root" ["srv"; "jailer"; "fc"; "vm"; "root"] "/images/../images/a.ext4");
    [by_decision|reflexivity].
Defined.

(** A relative path with ".." leads out of the jail, and two drives of one name share the link made under it. *)
Example jailed_drive_escapes :
  jailedBackingFilePath "/srv/jailer/fc/vm/root" "../boot.ext4" = "/srv/jailer/fc/vm/boot.ext4".
Proof. reflexivity. Qed.

(** ** A host without Firecracker *)

Section nothing_works.
Context {M : Type}.
Definition no_vmm : VMM M := {|
  time_Now := fun s => (0, s); uuid_NewString := fun s => ("id", s); sdk_NewMachine := fun _ => mret tt; machine_Start := mret tt;
  machine_Wait := mret tt; machine_StopVMM := mret tt; machine_PauseVM := mret tt; machine_CreateSnapshot := fun _ _ => mret tt;
  cmd_Start := fun _ => fail (Errno ENOENT); cmd_Wait := mret tt; process_SIGTERM := mret tt; process_Kill := mret tt;
  api_GetMachineConfiguration := fun _ => fail (Errno ENOENT); api_LoadSnapshot := fun _ _ _ => mret tt;
  vsock_Do := fun _ _ _ => fail (Errno ENOENT) |}.
End nothing_works.

Section demo.
#[local] Instance demo_vmm : VMM unit := no_vmm.
#[local] Instance demo_marshal : JSONMarshal BatchRequest := fun _ => Ok "{}".
#[local] Instance demo_decoder : JSONDecoder BatchResponse := fun _ => Err EOF.
Definition empty_request : BatchRequest :=
  {| br_Version := 0; br_Workspace := ""; br_Jobs := []; br_Shutdown := false;
     br_Defaults := {| jd_UID := None; jd_GID := None; jd_Env := []; jd_TimeoutMillis := 0; jd_MaxOutputBytes := 0 |} |}.

Lemma waiting_ends_witness :
  let ctx := fun n => if decide (n = 2%nat) then Some DeadlineExceeded else None in
  exists resp e h', retryJobs (M := unit) 3 ctx 0 "/vsock" empty_request (Host tt empty_world []) = (Ok (resp, e), h').
Proof.
  intros ctx.
  pose proof (waiting_ends (M := unit) 3 ctx 2 DeadlineExceeded "/vsock" empty_request (Host tt empty_world [])) as H.
  destruct H as [(resp & e & h' & H & _) _].
  - intros p q s v s'. discriminate.
  - intros p s v s'. discriminate.
  - discriminate.
  - discriminate.
  - reflexivity.
  - lia.
  - by exists resp, e, h'.
Defined.
End demo.
