(* ===== verification/VmSelect.v ===== *)
(** * Waiting for the jobs, interleaved

    The end of [StartVM] ([firecracker/runner.go], from the two channels on) as the three goroutines it is: the
    one that sends the jobs, the one that waits for the machine, and the function itself in its [select]s, with
    the context's end and the machine's exit at any moment. [Firecracker.await_jobs] runs the same code in one
    order with an oracle for the [select]; the theorems say that it gives what the interleavings give, that no
    goroutine is left behind, and that the machine is stopped once. *)

From S2P Require Import Prelude HostFS AgentApi AgentClient Firecracker.
Local Open Scope nat_scope.

(** What the function returns, timings and the machine's handle left out. *)
Inductive returned := RetResult (results : list JobResult) | RetError (err : error) | RetTimedOut (err : error).

(** The goroutine that sends the jobs: in [retryJobs], about to send on one of its channels, or gone. *)
Inductive jobs_pc := Retrying | Sending (m : BatchResponse + error) | JobsGone.
(** The one that waits for the machine, and what [machine.Wait] gave. *)
Inductive wait_pc := Waiting | Exited (err : option error) | WaitGone.
(** The function: in the loop's [select]; past it with a result; stopped, in the second [select]; returned. *)
Inductive main_pc := Selecting | Got (resp : BatchResponse) | Draining (resp : BatchResponse) | Returned (v : returned).

(** The channels are their contents; each is made with room for one value. *)
Record threads := {
  t_jobs : jobs_pc; t_wait : wait_pc; t_main : main_pc;
  resultCh : list BatchResponse; errCh : list error; waitCh : list (option error);
  t_runCtx : option error;       (* runCtx.Err() *)
  t_stops : nat                  (* calls of StopVMM *)
}.
Definition capacity : nat := 1.

Definition started : threads := {|
  t_jobs := Retrying; t_wait := Waiting; t_main := Selecting; resultCh := []; errCh := []; waitCh := []; t_runCtx := None; t_stops := 0 |}.

(** What the goroutine sends of what [retryJobs] gave: never without a response and an error. *)
Definition message (r : option BatchResponse * option error) : option (BatchResponse + error) :=
  match r with
  | (Some resp, Some err) => Some (inr (Wrapf "%w: %v" [fmt_results (Results resp)] err))
  | (None, Some err) => Some (inr err)
  | (Some resp, None) => Some (inl resp)
  | (None, None) => None
  end.

(** The deferred [cancel()]. *)
Definition cancelled (c : option error) : option error := match c with None => Some Canceled | e => e end.

Section select.
(** What [retryJobs] gives when it comes back, and the error [runCtx] ends with, if it ends by itself. *)
Variable r : option BatchResponse * option error.
Variable ctx_err : error.

Inductive step : threads -> threads -> Prop :=
(* retryJobs comes back *)
| jobs_back m w main rc ec wc c n : message r = Some m ->
    step {| t_jobs := Retrying; t_wait := w; t_main := main; resultCh := rc; errCh := ec; waitCh := wc; t_runCtx := c; t_stops := n |}
         {| t_jobs := Sending m; t_wait := w; t_main := main; resultCh := rc; errCh := ec; waitCh := wc; t_runCtx := c; t_stops := n |}
(* resultCh <- .., errCh <- .. *)
| send_result resp w main rc ec wc c n : length rc < capacity ->
    step {| t_jobs := Sending (inl resp); t_wait := w; t_main := main; resultCh := rc; errCh := ec; waitCh := wc; t_runCtx := c; t_stops := n |}
         {| t_jobs := JobsGone; t_wait := w; t_main := main; resultCh := rc ++ [resp]; errCh := ec; waitCh := wc; t_runCtx := c; t_stops := n |}
| send_error err w main rc ec wc c n : length ec < capacity ->
    step {| t_jobs := Sending (inr err); t_wait := w; t_main := main; resultCh := rc; errCh := ec; waitCh := wc; t_runCtx := c; t_stops := n |}
         {| t_jobs := JobsGone; t_wait := w; t_main := main; resultCh := rc; errCh := ec ++ [err]; waitCh := wc; t_runCtx := c; t_stops := n |}
(* machine.Wait comes back, and waitCh <- .. *)
| machine_exits err j main rc ec wc c n :
    step {| t_jobs := j; t_wait := Waiting; t_main := main; resultCh := rc; errCh := ec; waitCh := wc; t_runCtx := c; t_stops := n |}
         {| t_jobs := j; t_wait := Exited err; t_main := main; resultCh := rc; errCh := ec; waitCh := wc; t_runCtx := c; t_stops := n |}
| send_wait err j main rc ec wc c n : length wc < capacity ->
    step {| t_jobs := j; t_wait := Exited err; t_main := main; resultCh := rc; errCh := ec; waitCh := wc; t_runCtx := c; t_stops := n |}
         {| t_jobs := j; t_wait := WaitGone; t_main := main; resultCh := rc; errCh := ec; waitCh := wc ++ [err]; t_runCtx := c; t_stops := n |}
(* the deadline passes, or the caller's context ends *)
| ctx_ends j w main rc ec wc n :
    step {| t_jobs := j; t_wait := w; t_main := main; resultCh := rc; errCh := ec; waitCh := wc; t_runCtx := None; t_stops := n |}
         {| t_jobs := j; t_wait := w; t_main := main; resultCh := rc; errCh := ec; waitCh := wc; t_runCtx := Some ctx_err; t_stops := n |}
(* case result = <-resultCh *)
| take_result resp j w rc ec wc c n :
    step {| t_jobs := j; t_wait := w; t_main := Selecting; resultCh := resp :: rc; errCh := ec; waitCh := wc; t_runCtx := c; t_stops := n |}
         {| t_jobs := j; t_wait := w; t_main := Got resp; resultCh := rc; errCh := ec; waitCh := wc; t_runCtx := c; t_stops := n |}
(* case err := <-errCh: machine.StopVMM(); return nil, err *)
| take_error err j w rc ec wc c n :
    step {| t_jobs := j; t_wait := w; t_main := Selecting; resultCh := rc; errCh := err :: ec; waitCh := wc; t_runCtx := c; t_stops := n |}
         {| t_jobs := j; t_wait := w; t_main := Returned (RetError err); resultCh := rc; errCh := ec; waitCh := wc; t_runCtx := cancelled c;
            t_stops := S n |}
(* case <-runCtx.Done(): machine.StopVMM(); return &RunResult{TimedOut: true}, runCtx.Err() *)
| take_ctx err j w rc ec wc n :
    step {| t_jobs := j; t_wait := w; t_main := Selecting; resultCh := rc; errCh := ec; waitCh := wc; t_runCtx := Some err; t_stops := n |}
         {| t_jobs := j; t_wait := w; t_main := Returned (RetTimedOut err); resultCh := rc; errCh := ec; waitCh := wc; t_runCtx := Some err;
            t_stops := S n |}
(* _ = machine.StopVMM() after the loop *)
| stop_machine resp j w rc ec wc c n :
    step {| t_jobs := j; t_wait := w; t_main := Got resp; resultCh := rc; errCh := ec; waitCh := wc; t_runCtx := c; t_stops := n |}
         {| t_jobs := j; t_wait := w; t_main := Draining resp; resultCh := rc; errCh := ec; waitCh := wc; t_runCtx := c; t_stops := S n |}
(* case <-waitCh *)
| drain_exit err resp j w rc ec wc c n :
    step {| t_jobs := j; t_wait := w; t_main := Draining resp; resultCh := rc; errCh := ec; waitCh := err :: wc; t_runCtx := c; t_stops := n |}
         {| t_jobs := j; t_wait := w; t_main := Returned (RetResult (Results resp)); resultCh := rc; errCh := ec; waitCh := wc;
            t_runCtx := cancelled c; t_stops := n |}
(* case <-time.After(100 * time.Millisecond) *)
| drain_timeout resp j w rc ec wc c n :
    step {| t_jobs := j; t_wait := w; t_main := Draining resp; resultCh := rc; errCh := ec; waitCh := wc; t_runCtx := c; t_stops := n |}
         {| t_jobs := j; t_wait := w; t_main := Returned (RetResult (Results resp)); resultCh := rc; errCh := ec; waitCh := wc;
            t_runCtx := cancelled c; t_stops := n |}.

Definition reachable (t : threads) : Prop := rtc step started t.

(** ** What holds on the way *)

Variable m : BatchResponse + error.
Hypothesis sends : message r = Some m.

(** What the function returns when it takes the goroutine's message. *)
Definition taken (m : BatchResponse + error) : returned :=
  match m with inl resp => RetResult (Results resp) | inr err => RetError err end.

(** The message is still in its channel, and the function in its loop or gone with the context's end. *)
Definition not_taken (main : main_pc) : Prop := main = Selecting \/ main = Returned (RetTimedOut ctx_err).

Record inv (t : threads) : Prop := {
  inv_jobs : match t_jobs t with
             | Retrying => resultCh t = [] /\ errCh t = [] /\ not_taken (t_main t)
             | Sending m' => m' = m /\ resultCh t = [] /\ errCh t = [] /\ not_taken (t_main t)
             | JobsGone => match m with
                 | inl resp => errCh t = [] /\ ((resultCh t = [resp] /\ not_taken (t_main t))
                     \/ (resultCh t = [] /\ (t_main t = Got resp \/ t_main t = Draining resp \/ t_main t = Returned (taken m))))
                 | inr err => resultCh t = [] /\ ((errCh t = [err] /\ not_taken (t_main t)) \/ (errCh t = [] /\ t_main t = Returned (taken m)))
                 end
             end;
  inv_wait : t_wait t <> WaitGone -> waitCh t = [];
  inv_ctx : (forall v, t_main t <> Returned v) -> t_runCtx t = None \/ t_runCtx t = Some ctx_err;
  inv_stops : t_stops t = match t_main t with Selecting | Got _ => 0 | Draining _ | Returned _ => 1 end
}.

Lemma inv_started : inv started.
Proof. split; simpl; auto. split_and!; [done|done|by left]. Qed.

Lemma threads_step t t' : inv t -> step t t' -> inv t'.
Proof.
  intros [HJ HW HC HS] Hst. destruct Hst; cbn in *; split; cbn.
  all: unfold not_taken in *; try done; try naive_solver.
  all: repeat case_match; subst; cbn in *; try naive_solver.
Qed.

Lemma threads_reachable t : rtc step started t -> inv t.
Proof.
  assert (Hgo : forall a b, rtc step a b -> inv a -> inv b) by (induction 1; eauto using threads_step).
  intros Hr. by eapply Hgo; [|apply inv_started].
Qed.

(** ** It ends, with nothing left behind *)

(** Steps still to come, at most. *)
Definition left_to_do (t : threads) : nat :=
  (match t_jobs t with Retrying => 2 | Sending _ => 1 | JobsGone => 0 end)
  + (match t_wait t with Waiting => 2 | Exited _ => 1 | WaitGone => 0 end)
  + (match t_main t with Selecting => 3 | Got _ => 2 | Draining _ => 1 | Returned _ => 0 end)
  + (match t_runCtx t with None => 1 | Some _ => 0 end).

Lemma step_decreases t t' : step t t' -> left_to_do t' < left_to_do t.
Proof. unfold left_to_do. destruct 1; cbn; try lia; destruct c; cbn; lia. Qed.

(** A goroutine that has something to send can, and so can a function that waits, until all are done. *)
Definition all_done (t : threads) : Prop := t_jobs t = JobsGone /\ t_wait t = WaitGone /\ exists v, t_main t = Returned v.

Lemma goes_on t : inv t -> all_done t \/ exists t', step t t'.
Proof.
  intros [HJ HW HC HS]. destruct t as [j w main rc ec wc c n]; cbn in *.
  destruct w as [|err|]; [right; eexists; apply (machine_exits None)|right; eexists; apply send_wait; rewrite HW by done; by constructor|].
  destruct main as [|resp|resp|v]; [|right; eexists; apply stop_machine|right; eexists; apply drain_timeout|].
  all: destruct j as [|m'|]; [right; eexists; by apply jobs_back| |].
  1,3: destruct HJ as (-> & -> & -> & _); right; destruct m; eexists; [apply send_result|apply send_error]; by constructor.
  - destruct m; [destruct HJ as (-> & [[-> _]|[_ HM]]); [right; eexists; apply take_result|naive_solver]|].
    destruct HJ as (-> & [[-> _]|[_ HM]]); [right; eexists; apply take_error|done].
  - left. split_and!; [done|done|by eexists].
Qed.

(** ** What it returns *)

(** In one order: the jobs to their end, and then the [select], which takes the context's branch when [c] says so. *)
Definition sequential (c : option error) : returned := match c with Some err => RetTimedOut err | None => taken m end.

Lemma returned_sequential t v : inv t -> t_main t = Returned v -> exists c, c ∈ [None; Some ctx_err] /\ v = sequential c.
Proof.
  intros [HJ _ _ _] E. rewrite E in HJ.
  assert (HT : v = RetTimedOut ctx_err \/ v = taken m).
  { unfold not_taken in HJ. destruct (t_jobs t); [naive_solver..|]. destruct m; naive_solver. }
  destruct HT as [->| ->]; [exists (Some ctx_err)|exists None]; (split; [set_solver|done]).
Qed.

Lemma sequential_returned c : c ∈ [None; Some ctx_err] -> exists t, rtc step started t /\ t_main t = Returned (sequential c).
Proof.
  intros [->|[->|[]%not_elem_of_nil]%elem_of_cons]%elem_of_cons.
  - unfold sequential, taken. destruct m as [resp|err] eqn:Em; eexists.
    + split.
      * eapply rtc_l; [by apply jobs_back|]. eapply rtc_l; [apply send_result; by constructor|].
        eapply rtc_l; [apply take_result|]. eapply rtc_l; [apply stop_machine|]. apply rtc_once, drain_timeout.
      * done.
    + split.
      * eapply rtc_l; [by apply jobs_back|]. eapply rtc_l; [apply send_error; by constructor|]. apply rtc_once, take_error.
      * done.
  - eexists. split; [eapply rtc_l; [apply ctx_ends|]; apply rtc_once, take_ctx|done].
Qed.
End select.

(** ** The theorems *)

(** C20: the end of [StartVM] leaves no goroutine behind and stops the machine once: from the start of its goroutines
    no execution takes more than eight steps, whichever of response, error, deadline and exit of the machine
    comes when; a state in which nothing can go on is one in which both goroutines are gone and the function
    has returned, for a goroutine that has something to send always finds room; and wherever the function has
    returned, it has called [StopVMM] exactly once. *)
Theorem select_leaves_nothing r ctx_err m t :
  message r = Some m -> reachable r ctx_err t ->
  left_to_do t <= 8
  /\ (forall t', step r ctx_err t t' -> left_to_do t' < left_to_do t)
  /\ ((forall t', ~ step r ctx_err t t') -> all_done t)
  /\ (forall v, t_main t = Returned v -> t_stops t = 1).
Proof.
  intros Hm Hr. pose proof (threads_reachable r ctx_err m Hm t Hr) as HI. split_and!.
  - assert (Hgo : forall a b, rtc (step r ctx_err) a b -> left_to_do b <= left_to_do a)
      by (induction 1 as [|a b d Hab _ IH]; [done|]; apply step_decreases in Hab; lia).
    by apply (Hgo started).
  - apply step_decreases.
  - intros Hn. destruct (goes_on r ctx_err m Hm t HI) as [?|[t' Ht]]; [done|by destruct (Hn t')].
  - intros v E. destruct HI as [_ _ _ HS]. by rewrite E in HS.
Qed.

(** The function's return, without timings and handle. *)
Definition return_of (o : outcome (RunResult * option error)) : option returned :=
  match o with
  | Ok (result, None) => Some (RetResult (rr_Results result))
  | Ok (result, Some err) => Some (RetTimedOut err)
  | Err err => Some (RetError err)
  | Panic _ => None
  end.

(** The context with another answer at the [select]. *)
Definition at_select (runCtx : context) (c : option error) : context := fun place n => if decide (place = 1) then c else runCtx place n.

Section sequential_run.
Context {M : Type} `{VMM M} `{JSONMarshal BatchRequest} `{JSONDecoder BatchResponse}.

Lemma given_Ok {A} (f : M * world -> A * (M * world)) h : exists a h', given f h = (Ok a, h').
Proof. unfold given. destruct (f _) as [a [v w]]. eauto. Qed.
Lemma ignore_Ok {A} (m : GoM (host M) A) h : no_panic m -> exists h', ignore m h = (Ok tt, h').
Proof. intros Hn. unfold ignore, attempt, mbind, GoM_bind. specialize (Hn h). destruct (m h) as [[a|e|v] h']; [eauto..|by destruct (Hn v h')]. Qed.
Lemma no_panic_recorded {A} c (m : GoM (M * world) A) : no_panic m -> no_panic (recorded c m).
Proof. intros Hn h v h'. unfold recorded. specialize (Hn (hs_vmm h, hs_fs h)). destruct (m _) as [o [v' w']]. intros [= -> _]. by eapply Hn. Qed.

Lemma await_jobs_return fuel runCtx req path vm timings start h h1 h2 start' r m c :
  no_panic (machine_StopVMM (M := M)) -> no_panic (machine_Wait (M := M)) ->
  given time_Now h = (Ok start', h1) ->
  retryJobs fuel (runCtx 0) 0 path (batch_request (sv_Workspace req) (sv_Defaults req) (sv_Jobs req)) h1 = (Ok r, h2) ->
  message r = Some m ->
  return_of (fst (await_jobs fuel (at_select runCtx c) req path vm timings start h)) = Some (sequential m c).
Proof.
  intros Hstop Hwait E1 E2 Hm. unfold await_jobs. change (at_select runCtx c 0) with (runCtx 0). change (at_select runCtx c 1 0) with c.
  unfold mbind at 1, GoM_bind at 1. rewrite E1.
  unfold mbind at 1, GoM_bind at 1. rewrite E2.
  destruct (given_Ok time_Now h2) as (now & h3 & E3). unfold mbind at 1, GoM_bind at 1. rewrite E3.
  pose proof (no_panic_recorded CStop _ Hstop) as HS.
  destruct c as [err|]; [|destruct r as [[resp|] [err|]]; simpl in Hm; try done; injection Hm as <-].
  - unfold mbind, GoM_bind. destruct (ignore_Ok _ h3 HS) as [h4 ->]. done.
  - unfold mbind, GoM_bind. destruct (ignore_Ok _ h3 HS) as [h4 ->]. done.
  - unfold mbind at 1, GoM_bind at 1. destruct (given_Ok time_Now h3) as (t1 & h4 & ->).
    unfold mbind at 1, GoM_bind at 1. destruct (ignore_Ok _ h4 HS) as [h5 ->].
    unfold mbind at 1, GoM_bind at 1. destruct (ignore_Ok (on_vmm machine_Wait) h5 (no_panic_on_vmm _ Hwait)) as [h6 ->].
    unfold mbind at 1, GoM_bind at 1. destruct (given_Ok time_Now h6) as (t2 & h7 & ->).
    unfold mbind at 1, GoM_bind at 1. destruct (given_Ok time_Now h7) as (t3 & h8 & ->). done.
  - unfold mbind, GoM_bind. destruct (ignore_Ok _ h3 HS) as [h4 ->]. done.
Qed.
End sequential_run.

(** C17: running [StartVM]'s goroutines in one order loses nothing: for whatever the goroutine that sends the jobs comes
    back with and whatever error its context ends with, the values that the interleavings of the three
    goroutines can return are exactly those of [await_jobs], with the oracle that says whether the [select]
    took the context's branch. *)
Theorem select_refines_await_jobs {M} `{VMM M} `{JSONMarshal BatchRequest} `{JSONDecoder BatchResponse}
    fuel runCtx req path vm timings start (h h1 h2 : host M) start' r ctx_err v :
  no_panic (machine_StopVMM (M := M)) -> no_panic (machine_Wait (M := M)) ->
  given time_Now h = (Ok start', h1) ->
  retryJobs fuel (runCtx 0) 0 path (batch_request (sv_Workspace req) (sv_Defaults req) (sv_Jobs req)) h1 = (Ok r, h2) ->
  is_Some (message r) ->
  (exists t, reachable r ctx_err t /\ t_main t = Returned v)
  <-> exists c, c ∈ [None; Some ctx_err]
      /\ return_of (fst (await_jobs fuel (at_select runCtx c) req path vm timings start h)) = Some v.
Proof.
  intros Hstop Hwait E1 E2 [m Hm].
  pose proof (fun c => await_jobs_return fuel runCtx req path vm timings start h h1 h2 start' r m c Hstop Hwait E1 E2 Hm) as HA. split.
  - intros (t & Hr & Ht). destruct (returned_sequential r ctx_err m Hm t v (threads_reachable r ctx_err m Hm t Hr) Ht) as (c & Hc & ->).
    exists c. by split.
  - intros (c & Hc & E). rewrite HA in E. injection E as <-. by apply sequential_returned.
Qed.

Section demo.
#[local] Instance select_vmm : VMM unit := no_vmm.
#[local] Instance select_marshal : JSONMarshal BatchRequest := fun _ => Ok "{}".
#[local] Instance select_decoder : JSONDecoder BatchResponse := fun _ => Err EOF.
Abbreviation no_answer := (None, Some (Wrapf "%w: last job attempt: %v" [error_text (Errno ENOENT)] DeadlineExceeded)).
Abbreviation demo_request := {| sv_ID := ""; sv_StoreDir := ""; sv_FirecrackerPath := ""; sv_Jailer := None; sv_KernelPath := ""; sv_BootImagePath := "";
  sv_TargetImagePath := ""; sv_MachineConfig := {| VCPUCount := 1; MemSizeMiB := 1 |}; sv_VsockCID := 3; sv_Workspace := "";
  sv_Defaults := {| jd_UID := None; jd_GID := None; jd_Env := []; jd_TimeoutMillis := 0; jd_MaxOutputBytes := 0 |};
  sv_Jobs := []; sv_Shutdown := true; sv_Timeout := 1; sv_Snapshot := None |}.
Abbreviation demo_timings := {| SetupDuration := 0; MachineStartDuration := 0; AgentReadyDuration := 0; JobsDuration := 0; ShutdownWaitDuration := 0;
  TotalDuration := 0 |}.
Abbreviation demo_ctx := (fun _ _ : nat => Some DeadlineExceeded).
Abbreviation demo_start := (Host tt empty_world []).

(** The deadline passes while the goroutine's error is in its channel: either may be returned. *)
Lemma select_refines_await_jobs_witness :
  exists t, reachable no_answer DeadlineExceeded t /\ t_main t = Returned (RetTimedOut DeadlineExceeded).
Proof.
  apply (select_refines_await_jobs (M := unit) 1 demo_ctx demo_request "/v" {| vh_ID := ""; vh_SocketPath := "" |} demo_timings 0%Z
    demo_start demo_start demo_start 0%Z no_answer DeadlineExceeded (RetTimedOut DeadlineExceeded)).
  - apply no_panic_ret.
  - apply no_panic_ret.
  - reflexivity.
  - vm_compute. reflexivity.
  - eexists. reflexivity.
  - exists (Some DeadlineExceeded). split; [set_solver|]. vm_compute. reflexivity.
Defined.

Lemma select_leaves_nothing_witness : left_to_do started <= 8 /\ ~ all_done started.
Proof.
  destruct (select_leaves_nothing no_answer DeadlineExceeded (inr (Wrapf "%w: last job attempt: %v" [error_text (Errno ENOENT)] DeadlineExceeded)) started)
    as (H & _).
  - reflexivity.
  - apply rtc_refl.
  - split; [exact H|]. intros (H1 & _). discriminate H1.
Defined.
End demo.
