(* ===== verification/VmJobs.v ===== *)
(** * Sending a batch to the agent

    [retryJobs] of the runner, [Jobs] of the client and the handlers of the agent together, over a
    transport that may lose a request or its response. The agent takes one batch in its life, so
    sending again is safe; and it does not help when the first response was lost. *)

From S2P Require Import Prelude GoPath HostFS AgentApi AgentServer AgentClient Firecracker.

(** What becomes of a request: it does not arrive, it is served and the response does not arrive (the
    client's transport gives up, as after its [ResponseHeaderTimeout]), or it is served and answered. *)
Inductive delivery := Refused | Lost | Answered.

Record guest := { g_server : Server; g_net : list delivery }.

Section vm_jobs.
Context `{StrictDecoder BatchRequest} `{JSONMarshal BatchRequest} `{JSONDecoder BatchResponse}.
(** [json.NewEncoder(w).Encode(resp)] of the agent. *)
Variable encode_response : BatchResponse -> string.
Variable cmd_Run : Command -> OS RunOutcome.

Definition on_wire (r : Response) : HttpResponse :=
  {| hr_StatusCode := rs_Status r;
     hr_Body := (match rs_Body r with Text s => s | Batch b => encode_response b end, None) |}.

Definition net_error : error := Errorf "connection error" [].

(** The agent behind the transport. *)
Definition guest_Do (q : HttpRequest) : GoM (guest * world) HttpResponse := fun '(g, w) =>
  let path := TrimPrefix (hq_URL q) vm_url in
  let serve rest (answered : bool) :=
    let '(o, s') := Handler cmd_Run (hq_Method q) path (hq_Body q, None) (g_server g) in
    (match o with
     | Ok r => if answered then Ok (on_wire r) else Err net_error
     | Err e => Err e
     | Panic v => Err net_error     (* net/http recovers and drops the connection *)
     end, ({| g_server := s'; g_net := rest |}, w)) in
  match g_net g with
  | Refused :: rest => (Err net_error, ({| g_server := g_server g; g_net := rest |}, w))
  | Lost :: rest => serve rest false
  | Answered :: rest => serve rest true
  | [] => serve [] true
  end.

(** The other operations are whatever they are. *)
Context `{X : VMM guest}.
#[local] Instance guest_vmm : VMM guest := {|
  time_Now := time_Now; uuid_NewString := uuid_NewString; sdk_NewMachine := sdk_NewMachine; machine_Start := machine_Start;
  machine_Wait := machine_Wait; machine_StopVMM := machine_StopVMM; machine_PauseVM := machine_PauseVM;
  machine_CreateSnapshot := machine_CreateSnapshot; cmd_Start := cmd_Start; cmd_Wait := cmd_Wait;
  process_SIGTERM := process_SIGTERM; process_Kill := process_Kill; api_GetMachineConfiguration := api_GetMachineConfiguration;
  api_LoadSnapshot := api_LoadSnapshot; vsock_Do := fun _ _ => guest_Do |}.

Abbreviation send := (@retryJobs guest guest_vmm _ _).
Abbreviation attempt_jobs := (on_vmm (Jobs guest_Do vm_url _)).

Section batch.
Variable s0 : Server.
Variable req : BatchRequest.
Variable body : string.
Hypothesis fresh : sv_usedJobs s0 = false.
Hypothesis marshalled : json_Marshal req = Ok body.
(** The request decodes to what was sent, within the agent's limit on a body. *)
Hypothesis decoded : dec_Decode (MaxBytesReader (MaxBodyBytes (sv_cfg s0)) (body, None)) = Ok (req, ("", None)).
(** A response decodes to what was sent, and the text of "gone" is no document. *)
Hypothesis response_decoded : forall r status w', runBatch (sv_cfg s0) cmd_Run req (sv_fs s0) = (Ok (r, status), w') ->
  json_Decoder_Decode (LimitReader (Z.shiftl 16 20) (encode_response r, None)) = Ok r.
Hypothesis gone_no_document : exists e,
  json_Decoder_Decode (A := BatchResponse) (LimitReader (Z.shiftl 16 20) ("jobs endpoint already used" +:+ String newline "", None)) = Err e.

Lemma used_jobs_gone g w :
  sv_usedJobs (g_server g) = true ->
  exists e g', Jobs guest_Do vm_url req (g, w) = (Ok (None, Some e), (g', w)) /\ g_server g' = g_server g.
Proof.
  intros Hu. unfold Jobs. rewrite marshalled. unfold lift_outcome, mbind, GoM_bind, attempt, guest_Do. cbn [hq_URL hq_Method hq_Body].
  change (TrimPrefix (vm_url +:+ "/jobs") vm_url) with "/jobs". unfold Handler.
  rewrite decide_False by done. rewrite decide_True by done. rewrite decide_True by done.
  unfold jobs, gets, mbind, GoM_bind. rewrite Hu. destruct gone_no_document as [e He].
  destruct (g_net g) as [|[| |] rest]; cbn -[LimitReader Z.shiftl String.append]; rewrite ?He; by eexists _, _.
Qed.

(** The run of the batch, and the agent after it. *)
Definition ran (ob : outcome (BatchResponse * Z)) (s' : Server) : Prop :=
  runBatch (sv_cfg s0) cmd_Run req (sv_fs s0) = (ob, sv_fs s') /\ sv_usedJobs s' = true.

Lemma fresh_jobs : exists ob s', ran ob s' /\
  jobs cmd_Run (body, None) s0 =
    (match ob with
     | Ok (r, status) => Ok {| rs_Status := status; rs_ContentType := "application/json"; rs_Body := Batch r |}
     | Err e => Err e
     | Panic v => Panic v
     end, s').
Proof.
  unfold ran, jobs, jobs_admitted, gets, modify, mbind, GoM_bind. rewrite fresh. cbn [sv_cfg set_used].
  rewrite decoded. change (decodeEOF ("", None)) with (Ok tt).
  unfold defer, on_machine. cbn [sv_fs set_used sv_cfg sv_usedJobs sv_shutdowns].
  destruct (runBatch (sv_cfg s0) cmd_Run req (sv_fs s0)) as [ob w'] eqn:E. exists ob.
  destruct ob as [[r status]|e|v]; destruct (_ && _); (eexists; split; [|reflexivity]; done).
Qed.

(** One attempt at a fresh agent. *)
Lemma fresh_attempt g w :
  g_server g = s0 ->
  exists resp e g', Jobs guest_Do vm_url req (g, w) = (Ok (resp, e), (g', w)) /\
    ((resp = None /\ is_Some e /\ g_server g' = s0 /\ exists rest, g_net g = Refused :: rest /\ g_net g' = rest)
     \/ exists ob, ran ob (g_server g') /\ head (g_net g) <> Some Refused /\
        ((resp = None /\ is_Some e) \/ exists r status, ob = Ok (r, status) /\ resp = Some r
           /\ (g_net g = [] \/ exists rest, g_net g = Answered :: rest) /\ (e = None <-> (200 <= status < 300)%Z))).
Proof.
  intros Hg. unfold Jobs. rewrite marshalled. unfold lift_outcome, mbind, GoM_bind, attempt, guest_Do. cbn [hq_URL hq_Method hq_Body].
  change (TrimPrefix (vm_url +:+ "/jobs") vm_url) with "/jobs". unfold Handler.
  rewrite decide_False by done. rewrite decide_True by done. rewrite decide_True by done. rewrite Hg.
  destruct fresh_jobs as (ob & s' & Hran & Ej). pose proof Hran as [Hb _].
  destruct (g_net g) as [|[| |] rest]; [|by eexists _, _, _; split; [done|left; eauto 10]|..]; rewrite Ej.
  - destruct ob as [[r status]|e|v]; cbn -[LimitReader Z.shiftl];
      [|by eexists _, _, _; split; [done|right; eexists; split; [exact Hran|split; [done|left; eauto]]]..].
    rewrite (response_decoded _ _ _ Hb). cbn. case_decide; eexists _, _, _; (split; [done|right; eexists; split; [exact Hran|split; [done|right]]]).
    + exists r, status. split_and!; eauto. split; [done|lia].
    + exists r, status. split_and!; eauto. split; [lia|done].
  - destruct ob as [[r status]|e|v]; (eexists _, _, _; split; [reflexivity|right; eexists; split; [exact Hran|split; [done|left; eauto]]]).
  - destruct ob as [[r status]|e|v]; cbn -[LimitReader Z.shiftl];
      [|by eexists _, _, _; split; [done|right; eexists; split; [exact Hran|split; [done|left; eauto]]]..].
    rewrite (response_decoded _ _ _ Hb). cbn. case_decide; eexists _, _, _; (split; [done|right; eexists; split; [exact Hran|split; [done|right]]]).
    + exists r, status. split_and!; eauto. split; [done|lia].
    + exists r, status. split_and!; eauto. split; [lia|done].
Qed.

(** Sending to an agent whose turn is gone never gives a response. *)
Lemma send_used fuel ctx i path h o h' :
  sv_usedJobs (g_server (hs_vmm h)) = true -> retryJobs fuel ctx i path req h = (o, h') ->
  g_server (hs_vmm h') = g_server (hs_vmm h) /\ match o with Ok (resp, e) => resp = None /\ is_Some e | Err _ => False | Panic v => v = out_of_fuel end.
Proof.
  revert i h. induction fuel as [|fuel IH]; intros i h Hu; cbn [retryJobs]; [by intros [= <- <-]|].
  unfold mbind, GoM_bind, on_vmm. cbn [vsock_Do guest_vmm].
  destruct (used_jobs_gone (hs_vmm h) (hs_fs h) Hu) as (e & g' & -> & Hg). destruct (ctx i) as [c|].
  - intros [= <- <-]. simpl. eauto.
  - intros E. apply IH in E; simpl in *; [|by rewrite Hg]. by rewrite <- Hg.
Qed.

Definition lost_first (net : list delivery) : Prop := exists n rest, net = replicate n Refused ++ Lost :: rest.

(** Sending to a fresh agent: it ran the batch at most once. *)
Lemma send_fresh fuel ctx i path h o h' :
  g_server (hs_vmm h) = s0 -> retryJobs fuel ctx i path req h = (o, h') ->
  match o with
  | Ok (resp, e) =>
      (resp = None /\ is_Some e /\ (g_server (hs_vmm h') = s0 \/ exists ob, ran ob (g_server (hs_vmm h'))))
      \/ exists r status, ran (Ok (r, status)) (g_server (hs_vmm h')) /\ resp = Some r /\ (e = None <-> (200 <= status < 300)%Z)
         /\ ~ lost_first (g_net (hs_vmm h))
  | Err _ => False
  | Panic v => v = out_of_fuel
  end.
Proof.
  revert i h. induction fuel as [|fuel IH]; intros i h Hs; cbn [retryJobs]; [by intros [= <- <-]|].
  unfold mbind, GoM_bind, on_vmm. cbn [vsock_Do guest_vmm].
  destruct (fresh_attempt (hs_vmm h) (hs_fs h) Hs) as (resp & e & g' & -> & Hc).
  destruct Hc as [(-> & [e' ->] & Hg & rest & Hn & Hn')|(ob & Hran & _ & [(-> & [e' ->])|(r & status & -> & -> & Hlost & He)])].
  - destruct (ctx i) as [c|]; [intros [= <- <-]; left; simpl; eauto|]. intros E. apply IH in E; [|done]. simpl in E.
    destruct o as [[resp e]|err|v]; [|done..]. destruct E as [E|(r & status & Hr & Hre & He & Hl)]; [by left|].
    right. exists r, status. split_and!; [done..|]. intros (n & rest' & Hx). apply Hl. rewrite Hn in Hx.
    destruct n as [|n]; [done|]. injection Hx as Hx. exists n, rest'. by rewrite Hn'.
  - destruct (ctx i) as [c|]; [intros [= <- <-]; left; simpl; eauto 10|]. intros E.
    apply send_used in E as [Eg E]; [|apply Hran]. simpl in Eg. rewrite Eg.
    destruct o as [[resp e]|err|v]; [|done..]. left. destruct E. eauto 10.
  - assert (Hl : ~ lost_first (g_net (hs_vmm h))).
    { intros (n & rest & Hx). rewrite Hx in Hlost. by destruct n, Hlost as [|[??]]. }
    destruct e; intros [= <- <-]; right; exists r, status; by split_and!.
Qed.
(** The first request that arrives is served, and its response is lost; the context is live till it is sent. *)
Lemma send_lost n : forall fuel ctx i path h rest resp e h',
  g_server (hs_vmm h) = s0 -> g_net (hs_vmm h) = replicate n Refused ++ Lost :: rest -> (forall k, k < n -> ctx (i + k) = None) ->
  retryJobs fuel ctx i path req h = (Ok (resp, e), h') ->
  resp = None /\ is_Some e /\ exists ob, ran ob (g_server (hs_vmm h')).
Proof.
  induction n as [|n IH]; intros [|fuel] ctx i path h rest resp e h' Hs Hnet Hc; cbn [retryJobs]; try done;
    unfold mbind, GoM_bind, on_vmm; cbn [vsock_Do guest_vmm];
    destruct (fresh_attempt (hs_vmm h) (hs_fs h) Hs) as (resp1 & e1 & g' & -> & HA); rewrite Hnet in HA.
  - destruct HA as [(_ & _ & _ & ? & [=] & _)|(ob & Hran & _ & [(-> & [e' ->])|(? & ? & _ & _ & [[=]|(? & [=])] & _)])].
    destruct (ctx i) as [c|]; [intros [= <- <- <-]; simpl; eauto|]. intros E.
    apply send_used in E as [Eg E]; [|apply Hran]. simpl in Eg. rewrite Eg. destruct E. eauto.
  - destruct HA as [(-> & [e' ->] & Hg & rest' & [= <-] & Hn)|(ob & _ & Hnr & _)]; [|by destruct Hnr].
    pose proof (Hc 0 ltac:(lia)) as Hc0. rewrite Nat.add_0_r in Hc0. rewrite Hc0. intros E.
      eapply (IH _ ctx (S i) path); [| | |exact E]; [exact Hg|exact Hn|]. intros k Hk. rewrite Nat.add_succ_l, <- Nat.add_succ_r. apply Hc. lia.
Qed.
End batch.
End vm_jobs.

(** ** At most once, and not twice *)

(** What a host and its agent are to agree on: the request within the agent's limits, responses that decode to
    what was sent within the client's limit, and that the text for "gone" is no document. *)
Record agreement `{StrictDecoder BatchRequest} `{JSONMarshal BatchRequest} `{JSONDecoder BatchResponse}
    (encode_response : BatchResponse -> string) (cmd_Run : Command -> OS RunOutcome) (s0 : Server) (req : BatchRequest) (body : string) : Prop := {
  ag_marshalled : json_Marshal req = Ok body;
  ag_decoded : dec_Decode (MaxBytesReader (MaxBodyBytes (sv_cfg s0)) (body, None)) = Ok (req, ("", None));
  ag_response : forall r status w', runBatch (sv_cfg s0) cmd_Run req (sv_fs s0) = (Ok (r, status), w') ->
    json_Decoder_Decode (LimitReader (Z.shiftl 16 20) (encode_response r, None)) = Ok r;
  ag_gone : exists e,
    json_Decoder_Decode (A := BatchResponse) (LimitReader (Z.shiftl 16 20) ("jobs endpoint already used" +:+ String newline "", None)) = Err e
}.

(** C11: whatever the transport loses and however often it is retried, a batch sent to a fresh agent is run at most
    once: the machine is as it was, or as one run of the batch leaves it. A response that comes back is the
    response of that run, with an error exactly when its status is not a success; there is no response
    without a run. *)
Theorem batch_at_most_once `{StrictDecoder BatchRequest} `{JSONMarshal BatchRequest} `{JSONDecoder BatchResponse} `{X : VMM guest}
    encode_response (cmd_Run : Command -> OS RunOutcome) s0 req body fuel ctx i path h resp e h' :
  agreement encode_response cmd_Run s0 req body -> sv_usedJobs s0 = false -> g_server (hs_vmm h) = s0 ->
  @retryJobs guest (guest_vmm encode_response cmd_Run) _ _ fuel ctx i path req h = (Ok (resp, e), h') ->
  let fs := sv_fs (g_server (hs_vmm h')) in
  (resp = None /\ is_Some e /\ (fs = sv_fs s0 \/ exists ob, runBatch (sv_cfg s0) cmd_Run req (sv_fs s0) = (ob, fs)))
  \/ exists r status, runBatch (sv_cfg s0) cmd_Run req (sv_fs s0) = (Ok (r, status), fs)
     /\ resp = Some r /\ (e = None <-> (200 <= status < 300)%Z).
Proof.
  intros [A1 A2 A3 A4] Hu Hs E. pose proof (send_fresh encode_response cmd_Run s0 req body Hu A1 A2 A3 A4 _ _ _ _ _ _ _ Hs E) as HS.
  simpl in HS. destruct HS as [(-> & He & [Hf|(ob & Hb & _)])|(r & status & [Hb _] & Hr & He & _)].
  - left. rewrite Hf. auto.
  - left. eauto.
  - right. eauto 10.
Qed.

(** C39: a response that is lost is lost for good, and its batch has run: when the requests before it do not arrive, the first
    that arrives is served and its response does not come back, and the context is live until that one is sent, then
    no number of retries gives a response; the caller ends with an error, and the machine is as one run of the batch left it. *)
Theorem lost_response_is_lost `{StrictDecoder BatchRequest} `{JSONMarshal BatchRequest} `{JSONDecoder BatchResponse} `{X : VMM guest}
    encode_response (cmd_Run : Command -> OS RunOutcome) s0 req body fuel ctx i path h n rest resp e h' :
  agreement encode_response cmd_Run s0 req body -> sv_usedJobs s0 = false -> g_server (hs_vmm h) = s0 ->
  g_net (hs_vmm h) = replicate n Refused ++ Lost :: rest -> (forall k, k < n -> ctx (i + k) = None) ->
  @retryJobs guest (guest_vmm encode_response cmd_Run) _ _ fuel ctx i path req h = (Ok (resp, e), h') ->
  resp = None /\ is_Some e /\ exists ob, runBatch (sv_cfg s0) cmd_Run req (sv_fs s0) = (ob, sv_fs (g_server (hs_vmm h'))).
Proof.
  intros [A1 A2 A3 A4] Hu Hs Hn Hc E.
  destruct (send_lost encode_response cmd_Run s0 req body Hu A1 A2 A3 A4 n _ _ _ _ _ _ _ _ _ Hs Hn Hc E) as (Hr & He & ob & Hb & _). eauto.
Qed.

Section demo.
#[local] Instance agent_decoder : StrictDecoder BatchRequest := fun _ => Ok (empty_request, ("", None)).
#[local] Instance host_marshal : JSONMarshal BatchRequest := fun _ => Ok "{}".
Abbreviation demo_answer := (batchError "" (Errorf "unsupported protocol version %d" [pretty 0%Z])).
#[local] Instance host_decoder : JSONDecoder BatchResponse := fun st =>
  if HasPrefix (fst st) "{" then Ok demo_answer else Err EOF.
#[local] Instance demo_machine : VMM guest := no_vmm.
Abbreviation demo_encode := (fun _ : BatchResponse => "{}").
Abbreviation demo_command := (fun _ : Command => fail (S := world) (A := RunOutcome) (Errno ENOENT)).
Abbreviation demo_agent := {| sv_cfg := {| Workspace := "/workspace"; MaxBodyBytes := 100; MaxFileBytes := 0; MaxOutputBytes := 0; DefaultTimeout := 0;
  DefaultUID := 0; DefaultGID := 0; Shutdown := true; ShutdownAfterJobs := true |};
  sv_usedJobs := false; sv_shutdowns := 0; sv_fs := empty_world |}.
Abbreviation demo_host net := (Host {| g_server := demo_agent; g_net := net |} empty_world []).
Abbreviation demo_ctx := (fun n : nat => if decide (n = 2) then Some DeadlineExceeded else None).

Lemma demo_agreement : agreement demo_encode demo_command demo_agent empty_request "{}".
Proof.
  split; [done|done| |by eexists]. intros r status w' E. vm_compute in E. injection E as <- _ _. by vm_compute.
Qed.

Abbreviation demo_send net :=
  (@retryJobs guest (guest_vmm demo_encode demo_command) _ _ 4 demo_ctx 0 "/v" empty_request (demo_host net)).

Lemma ended_with {A B} (m : A * B) a : fst m = a -> m = (a, snd m).
Proof. intros <-. by destruct m. Defined.

Lemma batch_at_most_once_witness :
  exists r status, runBatch (sv_cfg demo_agent) demo_command empty_request empty_world
    = (Ok (r, status), sv_fs (g_server (hs_vmm (snd (demo_send [Refused; Answered])))))
    /\ Some demo_answer = Some r.
Proof.
  pose proof (batch_at_most_once demo_encode demo_command demo_agent empty_request "{}" 4 demo_ctx 0 "/v" (demo_host [Refused; Answered])
    (Some demo_answer) (Some (Errorf "jobs status %d" ["400"])) (snd (demo_send [Refused; Answered])) demo_agreement eq_refl eq_refl) as H.
  cbv zeta in H. destruct H as [[H _]|(r & status & H & Hr & _)].
  - apply ended_with. vm_compute. reflexivity.
  - discriminate.
  - exists r, status. exact (conj H Hr).
Defined.

Lemma lost_response_is_lost_witness :
  fst (demo_send [Refused; Lost; Answered])
  = Ok (None, Some (Wrapf "%w: last job attempt: %v" ["EOF"] DeadlineExceeded))
  /\ exists ob, runBatch (sv_cfg demo_agent) demo_command empty_request empty_world
     = (ob, sv_fs (g_server (hs_vmm (snd (demo_send [Refused; Lost; Answered]))))).
Proof.
  assert (E : fst (demo_send [Refused; Lost; Answered]) = Ok (None, Some (Wrapf "%w: last job attempt: %v" ["EOF"] DeadlineExceeded)))
    by (vm_compute; reflexivity).
  pose proof (lost_response_is_lost demo_encode demo_command demo_agent empty_request "{}" 4 demo_ctx 0 "/v" (demo_host [Refused; Lost; Answered])
    1 [Answered] None (Some (Wrapf "%w: last job attempt: %v" ["EOF"] DeadlineExceeded)) (snd (demo_send [Refused; Lost; Answered]))
    demo_agreement eq_refl eq_refl eq_refl) as H.
  destruct H as (_ & _ & H); [intros [|k] Hk; [reflexivity|lia]|exact (ended_with _ _ E)|].
  split; [exact E|exact H].
Defined.
End demo.
