(* ===== verification/Manager.v ===== *)
(** * The manager

    [internal/manager]: what the command line and the HTTP daemon ask for, put together from the
    image runtime and the Firecracker runner: preparing images, running jobs in a microVM, from a
    snapshot when there is one, and listing and deleting images and snapshots. *)

From S2P Require Import Prelude GoPath Sha256 HostFS Confine FileLaws Entries Config ContentStore Oci FileLock Rootfs Runtime.
From S2P Require Import AgentApi AgentClient Firecracker.
Local Open Scope Z_scope.

(** ** Data *)

Record PrepareImageRequest := { pq_ImageRef : string; pq_Platform : Config.Platform }.

Record RunRequest := {
  mq_ImageRef : string; mq_Platform : Config.Platform; mq_Command : list string;
  mq_KernelPath : string; mq_BootImagePath : string; mq_FirecrackerPath : string; mq_Jailer : option JailerConfig;
  mq_MachineConfig : MachineConfig; mq_Workspace : string; mq_Workdir : string; mq_UID : Z; mq_GID : Z;
  mq_Defaults : JobDefaults; mq_Jobs : list Job; mq_Timeout : Z; mq_SnapshotDir : string;
  mq_Snapshot : option SnapshotArtifact; mq_CleanupJailer : bool
}.

Record CreateSnapshotRequest := {
  cq_ImageRef : string; cq_Platform : Config.Platform; cq_KernelPath : string; cq_BootImagePath : string;
  cq_FirecrackerPath : string; cq_Jailer : option JailerConfig; cq_MachineConfig : MachineConfig; cq_Timeout : Z;
  cq_SnapshotDir : string; cq_Snapshot : SnapshotArtifact
}.

Record PreparedImage := {
  mp_ImageRef : string; mp_ManifestDigest : string; mp_ChainID : string; mp_RootfsPath : string;
  mp_OCIConfigPath : string; mp_CacheHit : bool
}.

Record SnapshotInfo := {
  si_ChainID : string; si_MemPath : string; si_SnapshotPath : string; si_WorkspaceDir : string; si_Exists : bool
}.

Record RunTimings := {
  PreflightDuration : Z; PrepareDuration : Z; ReadConfigDuration : Z; SnapshotDuration : Z; mt_TotalDuration : Z
}.

Record RunResult := { mr_Image : PreparedImage; mr_VM : Firecracker.RunResult; mr_Timings : RunTimings }.

(** [Manager.Config], and [manager.New] *)
Definition New (cfg : Config.Config) : Config.Config := Runtime.New cfg.

Definition managerPreparedImage (prepared : Runtime.PreparedImage) : PreparedImage := {|
  mp_ImageRef := pr_ImageRef prepared; mp_ManifestDigest := pr_ManifestDigest prepared; mp_ChainID := pr_ChainID prepared;
  mp_RootfsPath := pr_RootfsPath prepared; mp_OCIConfigPath := pr_OCIConfigPath prepared; mp_CacheHit := pr_CacheHit prepared |}.

(** ** Identifiers and artifacts *)

Definition validateChainID (chainID : string) : outcome unit :=
  let encoded := TrimPrefix chainID "sha256:" in
  if bool_decide (encoded = "") || negb (bool_decide (String.length encoded = 64%nat)) then Err (Errorf "invalid chain id %q" [chainID])
  else if str_all is_hex encoded then Ok tt else Err (Errorf "invalid chain id %q" [chainID]).

Definition SnapshotArtifact_ (snapshotDir chainID : string) : SnapshotArtifact :=
  let encoded := TrimPrefix chainID "sha256:" in {|
    sa_MemPath := Join [snapshotDir; encoded +:+ ".mem"];
    sa_SnapshotPath := Join [snapshotDir; encoded +:+ ".snapshot"];
    sa_WorkspaceDir := Join [snapshotDir; encoded +:+ "-workspace"] |}.

(** For a snapshot that is not nil. *)
Definition SnapshotExists (snapshot : SnapshotArtifact) : OS bool :=
  mem ← exists_ (sa_MemPath snapshot);
  if negb mem then mret false else exists_ (sa_SnapshotPath snapshot).

Definition defaultCommand (cfg : ImageConfig) : list string := Entrypoint (ic_Config cfg) ++ Oci.Cmd (ic_Config cfg).

(** [if err := op(path); err != nil && !os.IsNotExist(err) { return err }] *)
Definition unless_missing (m : OS unit) : OS unit :=
  r ← attempt m;
  match r with
  | inr _ => mret tt
  | inl err => if os_IsNotExist err then mret tt else fail err
  end.

(** [select { case <-ctx.Done(): return ctx.Err(); default: }] *)
Definition if_done {A} (ctx : context) (m : OS A) : OS A :=
  match ctx 0%nat 0%nat with Some err => fail err | None => m end.

(** ** Images and snapshots on disk *)

Section store.
Context `{JSON Rootfs.Metadata}.
(** [Manager.Config] *)
Variable cfg : Config.Config.

Fixpoint list_images (entries : list DirEntry) : OS (list PreparedImage) :=
  match entries with
  | [] => mret []
  | entry :: rest =>
      if de_dir entry || negb (bool_decide (Ext (de_name entry) = ".json")) then list_images rest
      else
        meta ← ReadJSON (A := Rootfs.Metadata) (Join [StoreDir cfg; "rootfs"; "complete"; de_name entry]);
        images ← list_images rest;
        mret ({| mp_ImageRef := md_ImageRef meta; mp_ManifestDigest := md_ManifestDigest meta; mp_ChainID := md_ChainID meta;
                 mp_RootfsPath := RootfsPath (StoreDir cfg) (md_ChainID meta); mp_OCIConfigPath := ""; mp_CacheHit := true |} :: images)
  end.

Definition ListImages (ctx : context) : OS (list PreparedImage) :=
  if_done ctx (
    r ← attempt (os_ReadDir (Join [StoreDir cfg; "rootfs"; "complete"]));
    match r with
    | inl err => if os_IsNotExist err then mret [] else fail err
    | inr entries => list_images entries
    end).

Definition DeleteImage (ctx : context) (chainID : string) : OS unit :=
  if_done ctx (
    lift_outcome (validateChainID chainID) ;;
    for_each [RootfsPath (StoreDir cfg) chainID; RootfsMetadataPath (StoreDir cfg) chainID]
      (fun path => unless_missing (os_Remove path))).

Fixpoint list_snapshots (snapshotDir : string) (seen : gset string) (entries : list DirEntry) : OS (list SnapshotInfo) :=
  match entries with
  | [] => mret []
  | entry :: rest =>
      if de_dir entry || negb (bool_decide (Ext (de_name entry) = ".snapshot")) then list_snapshots snapshotDir seen rest
      else
        let chainID := "sha256:" +:+ TrimSuffix (de_name entry) ".snapshot" in
        if decide (chainID ∈ seen) then list_snapshots snapshotDir seen rest
        else
          let artifact := SnapshotArtifact_ snapshotDir chainID in
          present ← SnapshotExists artifact;
          snapshots ← list_snapshots snapshotDir ({[chainID]} ∪ seen) rest;
          mret ({| si_ChainID := chainID; si_MemPath := sa_MemPath artifact; si_SnapshotPath := sa_SnapshotPath artifact;
                   si_WorkspaceDir := sa_WorkspaceDir artifact; si_Exists := present |} :: snapshots)
  end.

Definition ListSnapshots (ctx : context) (snapshotDir : string) : OS (list SnapshotInfo) :=
  if_done ctx (
    r ← attempt (os_ReadDir snapshotDir);
    match r with
    | inl err => if os_IsNotExist err then mret [] else fail err
    | inr entries => list_snapshots snapshotDir ∅ entries
    end).

Definition DeleteSnapshot (ctx : context) (snapshotDir chainID : string) : OS unit :=
  if_done ctx (
    lift_outcome (validateChainID chainID) ;;
    let artifact := SnapshotArtifact_ snapshotDir chainID in
    for_each [sa_MemPath artifact; sa_SnapshotPath artifact] (fun path => unless_missing (os_Remove path)) ;;
    unless_missing (os_RemoveAll (sa_WorkspaceDir artifact))).
End store.

(** ** What a run is given *)

Definition Millisecond : Z := 1000000.
Definition Milliseconds (d : Z) : Z := Z.quot d Millisecond.
(** [if req.Timeout <= 0 { req.Timeout = 60 * time.Second }] *)
Definition timeout_or_default (timeout : Z) : Z := if decide (timeout <= 0) then Seconds 60 else timeout.

Definition run_defaults (req : RunRequest) (timeout : Z) (imageConfig : ImageConfig) : JobDefaults :=
  let d := mq_Defaults req in
  let env := if decide (jd_Env d = []) then Env (ic_Config imageConfig) else jd_Env d in {|
    jd_UID := match jd_UID d with None => Some (mq_UID req) | uid => uid end;
    jd_GID := match jd_GID d with None => Some (mq_GID req) | gid => gid end;
    jd_Env := if decide (env = []) then ["PATH=/usr/local/sbin:/usr/local/bin:/usr/sbin:/usr/bin:/sbin:/bin"] else env;
    jd_TimeoutMillis := if decide (jd_TimeoutMillis d = 0) then Milliseconds timeout else jd_TimeoutMillis d;
    jd_MaxOutputBytes := if decide (jd_MaxOutputBytes d = 0) then Z.shiftl 4 20 else jd_MaxOutputBytes d |}.

(** [agentapi.Job{Type: .., Path: .., Mode: ..}] and [agentapi.Job{Type: .., Argv: .., WorkingDir: ..}] *)
Definition job_mkdir (path : string) (mode : Z) : Job := {|
  jb_Type := JobMkdir; jb_Path := path; jb_Mode := mode; jb_ContentsBase64 := ""; jb_CreateParents := false; jb_Argv := [];
  jb_Env := []; jb_WorkingDir := ""; jb_UID := None; jb_GID := None; jb_TimeoutMillis := 0; jb_MaxOutputBytes := 0 |}.
Definition job_exec (argv : list string) (workingDir : string) : Job := {|
  jb_Type := JobExec; jb_Path := ""; jb_Mode := 0; jb_ContentsBase64 := ""; jb_CreateParents := false; jb_Argv := argv;
  jb_Env := []; jb_WorkingDir := workingDir; jb_UID := None; jb_GID := None; jb_TimeoutMillis := 0; jb_MaxOutputBytes := 0 |}.

Definition run_jobs (req : RunRequest) (imageConfig : ImageConfig) : outcome (list Job) :=
  if decide (mq_Jobs req = []) then
    let argv := if decide (mq_Command req = []) then defaultCommand imageConfig else mq_Command req in
    if decide (argv = []) then Err (Errorf "no command provided and image has no Entrypoint/Cmd" [])
    else
      let workspace := firstNonEmpty [mq_Workspace req; "/workspace"] in
      let workdir := firstNonEmpty [mq_Workdir req; workspace] in
      Ok [job_mkdir workspace 493; job_exec argv workdir]
  else Ok (mq_Jobs req).

(** ** Running *)

Section manager.
Context {M : Type} `{VMM M} `{JSONMarshal BatchRequest} `{JSONDecoder BatchResponse}.
Context {Reference : Type} (ParseReference : string -> outcome Reference).
Context (remote_Image : Reference -> Config.Platform -> outcome RemoteImage).
Context `{JSON RawMessage} `{JSON RefMetadata} `{JSON imageManifest} `{JSON Rootfs.Metadata}.
Context `{JSONUnmarshal ImageConfig} `{RootfsImageBuilder}.
Context (os_TempDir : string) (WithTimeout : context -> Z -> context).
(** [exec.LookPath]; and the order in which Go ranges over the map of paths. *)
Context (exec_LookPath : string -> OS string) (map_order : list (string * string) -> list (string * string)).
(** [Manager.Config] *)
Variable cfg : Config.Config.
Abbreviation VM := (GoM (host M)).

Definition readOCIConfig (path : string) : OS ImageConfig :=
  contents ← os_ReadFile path;
  lift_outcome (json_Unmarshal contents).

Definition preflightVMRun (firecrackerPath kernelPath bootImagePath : string) : OS string :=
  resolvedFirecracker ←
    (if negb (str_contains slash firecrackerPath) then
       wrap_err (fun _ => Errorf "firecracker binary %q not found in PATH; pass --firecracker-bin /path/to/firecracker" [firecrackerPath])
         (exec_LookPath firecrackerPath)
     else mret firecrackerPath);
  for_each (map_order [("firecracker", resolvedFirecracker); ("kernel", kernelPath); ("boot image", bootImagePath)])
    (fun '(label, p) => wrap_err (Wrapf "%s path %q is not readable: %w" [label; p]) (os_Stat p ;; mret tt)) ;;
  wrap_err (Wrapf "/dev/kvm is not available; Firecracker requires KVM access on the host: %w" []) (os_Stat "/dev/kvm" ;; mret tt) ;;
  mret resolvedFirecracker.

(** [ctx k] is the context as the [k]-th operation it is handed to sees it. *)
Definition PrepareImage (ctx : context) (req : PrepareImageRequest) : OS PreparedImage :=
  prepared ← Runtime.PrepareImage ParseReference remote_Image (Runtime.New cfg) ctx (pq_ImageRef req) (pq_Platform req);
  mret (managerPreparedImage prepared).

Definition CreateSnapshot (fuel : nat) (ctx : nat -> context) (req : CreateSnapshotRequest) : VM SnapshotArtifact :=
  fail_if (bool_decide (cq_ImageRef req = "")) (Errorf "image ref is required" []) ;;
  let timeout := timeout_or_default (cq_Timeout req) in
  let kernelPath := firstNonEmpty [cq_KernelPath req; KernelPath cfg] in
  let bootImagePath := firstNonEmpty [cq_BootImagePath req; BootImagePath cfg] in
  resolvedFirecracker ← on_host (preflightVMRun (firstNonEmpty [cq_FirecrackerPath req; "firecracker"]) kernelPath bootImagePath);
  prepared ← on_host (PrepareImage (ctx 0%nat) {| pq_ImageRef := cq_ImageRef req; pq_Platform := cq_Platform req |});
  let snapshot :=
    if bool_decide (sa_MemPath (cq_Snapshot req) = "") && negb (bool_decide (cq_SnapshotDir req = ""))
    then SnapshotArtifact_ (cq_SnapshotDir req) (mp_ChainID prepared) else cq_Snapshot req in
  CreateReadySnapshot os_TempDir WithTimeout fuel (ctx 1%nat) {|
    sr_ID := ""; sr_StoreDir := StoreDir cfg; sr_FirecrackerPath := resolvedFirecracker; sr_Jailer := cq_Jailer req;
    sr_KernelPath := kernelPath; sr_BootImagePath := bootImagePath; sr_TargetImagePath := mp_RootfsPath prepared;
    sr_MachineConfig := cq_MachineConfig req; sr_VsockCID := 0; sr_Timeout := timeout; sr_Snapshot := snapshot |}.

(** The snapshot to start from, made when it is to be there and is not, and the time that took. *)
Definition run_snapshot (fuel : nat) (ctx : nat -> context) (req : RunRequest) (timeout : Z) (resolvedFirecracker chainID : string)
  : VM (option SnapshotArtifact * Z) :=
  if bool_decide (mq_Snapshot req = None) && negb (bool_decide (mq_SnapshotDir req = "")) then
    let snapshot := SnapshotArtifact_ (mq_SnapshotDir req) chainID in
    present ← on_host (SnapshotExists snapshot);
    if (present : bool) then mret (Some snapshot, 0)
    else
      snapStart ← given time_Now;
      created ← CreateSnapshot fuel ctx {|
        cq_ImageRef := mq_ImageRef req; cq_Platform := mq_Platform req; cq_KernelPath := mq_KernelPath req;
        cq_BootImagePath := mq_BootImagePath req; cq_FirecrackerPath := resolvedFirecracker; cq_Jailer := mq_Jailer req;
        cq_MachineConfig := mq_MachineConfig req; cq_Timeout := timeout; cq_SnapshotDir := ""; cq_Snapshot := snapshot |};
      snapEnd ← given time_Now;
      mret (Some created, snapEnd - snapStart)
  else mret (mq_Snapshot req, 0).

(** The request [Run] starts the machine with. *)
Definition vm_request (req : RunRequest) (timeout : Z) (resolvedFirecracker : string) (prepared : PreparedImage) (imageConfig : ImageConfig)
    (jobs : list Job) (snapshot : option SnapshotArtifact) : StartVMRequest := {|
  sv_ID := ""; sv_StoreDir := StoreDir cfg; sv_FirecrackerPath := resolvedFirecracker; sv_Jailer := mq_Jailer req;
  sv_KernelPath := firstNonEmpty [mq_KernelPath req; KernelPath cfg];
  sv_BootImagePath := firstNonEmpty [mq_BootImagePath req; BootImagePath cfg];
  sv_TargetImagePath := mp_RootfsPath prepared; sv_MachineConfig := mq_MachineConfig req; sv_VsockCID := 0;
  sv_Defaults := run_defaults req timeout imageConfig; sv_Workspace := firstNonEmpty [mq_Workspace req; "/workspace"];
  sv_Jobs := jobs; sv_Shutdown := true; sv_Timeout := timeout; sv_Snapshot := snapshot |}.

Definition Run (fuel : nat) (ctx : nat -> context) (req : RunRequest) : VM RunResult :=
  totalStart ← given time_Now;
  fail_if (bool_decide (mq_ImageRef req = "")) (Errorf "image ref is required" []) ;;
  let timeout := timeout_or_default (mq_Timeout req) in
  preflightStart ← given time_Now;
  resolvedFirecracker ← on_host (preflightVMRun (firstNonEmpty [mq_FirecrackerPath req; "firecracker"])
    (firstNonEmpty [mq_KernelPath req; KernelPath cfg]) (firstNonEmpty [mq_BootImagePath req; BootImagePath cfg]));
  preflightEnd ← given time_Now;
  prepareStart ← given time_Now;
  prepared ← on_host (PrepareImage (ctx 0%nat) {| pq_ImageRef := mq_ImageRef req; pq_Platform := mq_Platform req |});
  prepareEnd ← given time_Now;
  configStart ← given time_Now;
  imageConfig ← on_host (readOCIConfig (mp_OCIConfigPath prepared));
  configEnd ← given time_Now;
  jobs ← lift_outcome (run_jobs req imageConfig);
  snap ← run_snapshot fuel (fun k => ctx (1 + k)%nat) req timeout resolvedFirecracker (mp_ChainID prepared);
  vm ← StartVM os_TempDir WithTimeout fuel (ctx 3%nat) (vm_request req timeout resolvedFirecracker prepared imageConfig jobs (fst snap));
  match vm with
  | (_, Some err) => fail err
  | (result, None) =>
      match mq_Jailer req with
      | Some jailer =>
          if mq_CleanupJailer req then on_host (ignore (os_RemoveAll (JailerVMDir jailer resolvedFirecracker (vh_ID (rr_VM result)))))
          else mret tt
      | None => mret tt
      end ;;
      totalEnd ← given time_Now;
      mret {| mr_Image := prepared; mr_VM := result;
              mr_Timings := {| PreflightDuration := preflightEnd - preflightStart; PrepareDuration := prepareEnd - prepareStart;
                               ReadConfigDuration := configEnd - configStart; SnapshotDuration := snd snap;
                               mt_TotalDuration := totalEnd - totalStart |} |}
  end.
End manager.

(** ** A run leaves nothing running *)

Section ending.
Context {M : Type} `{VMM M} `{JSONMarshal BatchRequest} `{JSONDecoder BatchResponse}.
Context {Reference : Type} (ParseReference : string -> outcome Reference).
Context (remote_Image : Reference -> Config.Platform -> outcome RemoteImage).
Context `{JSON RawMessage} `{JSON RefMetadata} `{JSON imageManifest} `{JSON Rootfs.Metadata}.
Context `{JSONUnmarshal ImageConfig} `{RootfsImageBuilder}.
Context (os_TempDir : string) (WithTimeout : context -> Z -> context).
Context (exec_LookPath : string -> OS string) (map_order : list (string * string) -> list (string * string)).
Context (cfg : Config.Config).
Abbreviation Run_ := (Run (M := M) ParseReference remote_Image os_TempDir WithTimeout exec_LookPath map_order cfg).
Abbreviation CreateSnapshot_ := (CreateSnapshot (M := M) ParseReference remote_Image os_TempDir WithTimeout exec_LookPath map_order cfg).

#[local] Ltac next := apply leaves_bind; [solve [solve_preserves] | intros ?].

Lemma leaves_CreateSnapshot fuel ctx req : leaves idle idle (CreateSnapshot_ fuel ctx req).
Proof. unfold CreateSnapshot. do 3 next. apply leaves_CreateReadySnapshot. Qed.

Lemma leaves_run_snapshot fuel ctx req timeout resolved chainID :
  leaves idle idle (run_snapshot (M := M) ParseReference remote_Image os_TempDir WithTimeout exec_LookPath map_order cfg
    fuel ctx req timeout resolved chainID).
Proof.
  unfold run_snapshot. destruct (_ && _); [|apply leaves_quiet; solve_preserves]. next.
  destruct (_ : bool); [apply leaves_quiet; solve_preserves|]. next. apply leaves_seq; [apply leaves_CreateSnapshot|intros ?]. apply leaves_quiet. solve_preserves.
Qed.

Lemma leaves_Run fuel ctx req : leaves idle idle (Run_ fuel ctx req).
Proof.
  unfold Run. do 12 next. apply leaves_seq; [apply leaves_run_snapshot|intros snap].
  apply leaves_seq; [apply leaves_StartVM|intros [r [e|]]]; apply leaves_quiet; solve_preserves.
Qed.

(** *** The machines a run starts *)

Lemma quiet_bind {A B} (h0 h h' : host M) (m : GoM (host M) A) (k : A -> GoM (host M) B) b :
  quiet h0 h -> preserves quiet m -> (m ≫= k) h = (Ok b, h') -> exists a h1, m h = (Ok a, h1) /\ quiet h0 h1 /\ k a h1 = (Ok b, h').
Proof.
  intros Hq Hm (a & h1 & E & Ek)%bind_Ok. exists a, h1. split; [done|]. split; [|done].
  specialize (Hm h). rewrite E in Hm. by etransitivity.
Qed.
Lemma on_host_Ok {A} (m : OS A) (h h' : host M) a : on_host m h = (Ok a, h') -> exists w w', m w = (Ok a, w').
Proof. unfold on_host. destruct (m (hs_fs h)) as [o w'] eqn:E. intros [= -> _]. eauto. Qed.

Lemma counts_CreateSnapshot fuel ctx req : counts 1 (CreateSnapshot_ fuel ctx req).
Proof.
  unfold CreateSnapshot. do 3 (apply counts_skip; [solve [solve_preserves]|intros ?]). apply counts_CreateReadySnapshot.
Qed.
Lemma on_host_calls {A} (m : OS A) (h h' : host M) a : on_host m h = (Ok a, h') -> hs_calls h' = hs_calls h.
Proof. unfold on_host. destruct (m (hs_fs h)). by intros [= _ <-]. Qed.
Lemma given_calls {A} (f : M * world -> A * (M * world)) (h h' : host M) a : given f h = (Ok a, h') -> hs_calls h' = hs_calls h.
Proof. unfold given. destruct (f _) as [x [v w]]. by intros [= _ <-]. Qed.
Lemma CreateSnapshot_starts fuel ctx req h a h' :
  CreateSnapshot_ fuel ctx req h = (Ok a, h') -> exists l, hs_calls h' = hs_calls h ++ l /\ starts l = 1%nat.
Proof.
  intros E. pose proof (counts_CreateSnapshot fuel ctx req h) as HC. rewrite E in HC. destruct HC as (l & Hl & _ & N). eauto.
Qed.
Lemma StartVM_starts fuel ctx q h x h' :
  StartVM (M := M) os_TempDir WithTimeout fuel ctx q h = (Ok x, h') -> exists l, hs_calls h' = hs_calls h ++ l /\ starts l = 1%nat.
Proof.
  intros E. pose proof (counts_StartVM os_TempDir WithTimeout fuel ctx q h) as HC. rewrite E in HC.
  destruct HC as (l & Hl & _ & N). eauto.
Qed.

(** At most one, for the snapshot, and none when a snapshot is given or none is to be kept. *)
Lemma run_snapshot_starts fuel ctx req timeout resolved chainID h p h' :
  run_snapshot (M := M) ParseReference remote_Image os_TempDir WithTimeout exec_LookPath map_order cfg
    fuel ctx req timeout resolved chainID h = (Ok p, h') ->
  exists l, hs_calls h' = hs_calls h ++ l /\ (starts l <= 1)%nat
    /\ (mq_SnapshotDir req = "" \/ mq_Snapshot req <> None -> starts l = 0%nat).
Proof.
  unfold run_snapshot. intros E. destruct (_ && _) eqn:Hc; cycle 1.
  { injection E as _ <-. exists []. rewrite app_nil_r. split; [done|]. simpl. auto. }
  assert (Hno : ~ (mq_SnapshotDir req = "" \/ mq_Snapshot req <> None)).
  { apply andb_true_iff in Hc as [->%bool_decide_eq_true Hd%negb_true_iff%bool_decide_eq_false]. naive_solver. }
  apply (quiet_bind h) in E as (present & h1 & _ & (l0 & C0 & _ & N0) & E); [|done|solve [solve_preserves]].
  destruct (present : bool).
  { injection E as _ <-. exists l0. split; [done|]. split; [lia|done]. }
  apply (quiet_bind h1) in E as (t & h2 & _ & (l1 & C1 & _ & N1) & E); [|done|solve [solve_preserves]].
  apply bind_Ok in E as (a & h3 & EC & E).
  apply CreateSnapshot_starts in EC as (l2 & C2 & L2).
  apply (quiet_bind h3) in E as (t' & h4 & _ & (l3 & C3 & _ & N3) & E); [|done|solve [solve_preserves]]. injection E as _ <-.
  exists (l0 ++ l1 ++ l2 ++ l3). rewrite C3, C2, C1, C0, <- !app_assoc. split; [done|]. rewrite !starts_app. split; [lia|done].
Qed.

Lemma PrepareImage_ref ctx req w p w' :
  PrepareImage ParseReference remote_Image cfg ctx req w = (Ok p, w') -> mp_ImageRef p = pq_ImageRef req.
Proof.
  unfold PrepareImage, Runtime.PrepareImage. intros (q & w1 & E & Hp)%bind_Ok. injection Hp as <- _. simpl.
  apply bind_Ok in E as (_ & w2 & _ & E). apply bind_Ok in E as (_ & w3 & _ & E).
  apply bind_Ok in E as ([e|hit] & w4 & E4 & E).
  - run_Ok E. by injection E as <- _.
  - apply attempt_inr in E4. injection E as <- _. unfold preparedFromCache in E4. run_Ok E4. by injection E4 as <- _.
Qed.

Lemma Run_ref fuel ctx req h r h' : Run_ fuel ctx req h = (Ok r, h') -> mp_ImageRef (mr_Image r) = mq_ImageRef req.
Proof.
  unfold Run. intros E. do 6 (apply bind_Ok in E as (? & ? & _ & E)). apply bind_Ok in E as (prepared & ? & EP & E).
  do 6 (apply bind_Ok in E as (? & ? & _ & E)). apply bind_Ok in E as ([result [err|]] & ? & _ & E); [done|]. run_Ok E. injection E as <- _.
  unfold on_host in EP. destruct (PrepareImage _ _ _ _ _ _) as [o w'] eqn:EI. injection EP as -> _. by apply PrepareImage_ref in EI.
Qed.

(** What the machine is started with, whatever the request left out. *)
Definition complete_request (q : StartVMRequest) : Prop :=
  0 < sv_Timeout q /\ sv_Jobs q <> [] /\ sv_Workspace q <> "" /\ jd_Env (sv_Defaults q) <> []
  /\ is_Some (jd_UID (sv_Defaults q)) /\ is_Some (jd_GID (sv_Defaults q)) /\ jd_MaxOutputBytes (sv_Defaults q) <> 0.

Lemma vm_request_complete req resolved prepared imageConfig jobs snapshot :
  run_jobs req imageConfig = Ok jobs ->
  complete_request (vm_request cfg req (timeout_or_default (mq_Timeout req)) resolved prepared imageConfig jobs snapshot).
Proof.
  intros Hj. unfold complete_request, vm_request, run_defaults. cbn [sv_Timeout sv_Jobs sv_Workspace sv_Defaults jd_Env jd_UID jd_GID jd_MaxOutputBytes].
  split_and!.
  - unfold timeout_or_default, Seconds, Milli. case_decide; lia.
  - unfold run_jobs in Hj. repeat case_decide; simplify_eq; done.
  - simpl. by case_decide.
  - by repeat case_decide.
  - by destruct (jd_UID _).
  - by destruct (jd_GID _).
  - by case_decide.
Qed.
End ending.

(** C24: however a run ends, and the snapshot it may make first, what was started was stopped. A run that succeeds
    started one machine for its jobs, and before it one at most, for the snapshot, and none when no snapshot
    was to be made. The machine ran on the root file system of the image that preparing the reference asked
    for gave, with a request that leaves nothing open (a positive timeout, jobs, a workspace, an
    environment, a user and a group), and was not timed out. *)
Theorem Run_one_machine {M} `{VMM M} `{JSONMarshal BatchRequest} `{JSONDecoder BatchResponse}
    {Reference} (ParseReference : string -> outcome Reference) remote_Image
    `{JSON RawMessage} `{JSON RefMetadata} `{JSON imageManifest} `{JSON Rootfs.Metadata} `{JSONUnmarshal ImageConfig} `{RootfsImageBuilder}
    os_TempDir WithTimeout exec_LookPath map_order cfg fuel ctx req (h : host M) :
  match Run ParseReference remote_Image os_TempDir WithTimeout exec_LookPath map_order cfg fuel ctx req h with
  | (Panic _, _) => True
  | (o, h') =>
      (exists l, hs_calls h' = hs_calls h ++ l /\ foldl live idle l = idle)
      /\ forall r, o = Ok r ->
         mp_ImageRef (mr_Image r) = mq_ImageRef req /\ rr_TimedOut (mr_VM r) = false
         /\ (exists w w', PrepareImage ParseReference remote_Image cfg (ctx 0%nat)
                           {| pq_ImageRef := mq_ImageRef req; pq_Platform := mq_Platform req |} w = (Ok (mr_Image r), w'))
         /\ exists q h1 h2 before during,
              StartVM os_TempDir WithTimeout fuel (ctx 3%nat) q h1 = (Ok (mr_VM r, None), h2)
              /\ hs_calls h1 = hs_calls h ++ before /\ hs_calls h2 = hs_calls h1 ++ during /\ hs_calls h' = hs_calls h2
              /\ starts during = 1%nat /\ (starts before <= 1)%nat
              /\ (mq_SnapshotDir req = "" \/ mq_Snapshot req <> None -> starts before = 0%nat)
              /\ complete_request q /\ sv_TargetImagePath q = mp_RootfsPath (mr_Image r) /\ (mq_Jobs req <> [] -> sv_Jobs q = mq_Jobs req)
  end.
Proof.
  pose proof (leaves_Run ParseReference remote_Image os_TempDir WithTimeout exec_LookPath map_order cfg fuel ctx req h) as HL.
  destruct (Run _ _ _ _ _ _ _ _ _ _ _) as [[r|e|v] h'] eqn:E; [|split; [done|by intros]|done]. split; [done|]. intros ? [= <-].
  split; [by eapply Run_ref|]. unfold Run in E. assert (HQ : quiet h h) by done.
  do 6 (apply quiet_bind with (1 := HQ) in E as (? & ? & _ & HQ' & E); [|solve [solve_preserves]]; clear HQ; rename HQ' into HQ).
  apply quiet_bind with (1 := HQ) in E as (prepared & ? & EP%on_host_Ok & HQ' & E); [|solve [solve_preserves]]; clear HQ; rename HQ' into HQ.
  do 4 (apply quiet_bind with (1 := HQ) in E as (? & ? & _ & HQ' & E); [|solve [solve_preserves]]; clear HQ; rename HQ' into HQ).
  apply quiet_bind with (1 := HQ) in E as (jobs & ? & EJ & (l1 & C1 & _ & N1) & E); [|solve [solve_preserves]]; clear HQ. injection EJ as EJ _.
  apply bind_Ok in E as (snap & ? & (l2 & C2 & N2 & Z2)%run_snapshot_starts & E).
  apply bind_Ok in E as ([result err] & h2 & EV & E).
  assert (err = None) as -> by (by destruct err). destruct (StartVM_starts _ _ _ _ _ _ _ _ EV) as (l3 & C3 & N3).
  assert (Hend : hs_calls h' = hs_calls h2 /\ r = {| mr_Image := prepared; mr_VM := result; mr_Timings := mr_Timings r |}).
  { apply bind_Ok in E as (u & h3 & E3 & E). apply bind_Ok in E as (t & h4 & E4%given_calls & E). injection E as <- <-.
    split; [|done]. rewrite E4. destruct (mq_Jailer req); [destruct (mq_CleanupJailer req)|]; [by apply on_host_calls in E3|by injection E3 as _ <-..]. }
  destruct Hend as [C4 ->]. cbn [mr_Image mr_VM].
  split; [by apply (StartVM_in_time _ _ _ _ _ _ _ _ EV)|]. split; [exact EP|].
  eexists _, _, h2, (l1 ++ l2), l3. split; [exact EV|]. split; [by rewrite C2, C1, app_assoc|]. rewrite starts_app, N1.
  repeat (split; [done|]). split; [by apply vm_request_complete|]. split; [done|].
  intros Hne. unfold run_jobs in EJ. case_decide; [done|]. by injection EJ.
Qed.

(** ** Deleting *)

(** Accepted are 64 lower-case hexadecimal digits, with "sha256:" before them or without. *)
Lemma validateChainID_Ok chainID :
  validateChainID chainID = Ok tt <->
  exists enc, (chainID = enc \/ chainID = "sha256:" +:+ enc) /\ String.length enc = 64%nat /\ str_all is_hex enc = true.
Proof.
  assert (Hbare : forall enc, str_all is_hex enc = true -> TrimPrefix enc "sha256:" = enc).
  { intros enc Hh. unfold TrimPrefix. destruct (HasPrefix enc "sha256:") eqn:E; [|done].
    apply prefix_true in E as [r ->]. done. }
  unfold validateChainID. split.
  - intros E. exists (TrimPrefix chainID "sha256:"). destruct (_ || _) eqn:E1; [done|].
    apply orb_false_iff in E1 as [_ E1%negb_false_iff%bool_decide_eq_true]. destruct (str_all _ _) eqn:E2; [|done].
    split_and!; [|done..]. unfold TrimPrefix. destruct (HasPrefix chainID "sha256:") eqn:E3; [|by left].
    right. apply prefix_true in E3 as [r ->]. by rewrite str_drop_app.
  - intros (enc & He & Hl & Hh). assert (TrimPrefix chainID "sha256:" = enc) as ->.
    { destruct He as [->| ->]; [by apply Hbare|apply TrimPrefix_app]. }
    rewrite Hl, Hh. by destruct enc.
Qed.

Lemma validateChainID_cases chainID :
  validateChainID chainID = Ok tt \/ validateChainID chainID = Err (Errorf "invalid chain id %q" [chainID]).
Proof. unfold validateChainID. destruct (_ || _); [by right|]. destruct (str_all _ _); auto. Qed.

(** Both forms name the same files. *)
Lemma chain_names chainID enc :
  (chainID = enc \/ chainID = "sha256:" +:+ enc) -> str_all is_hex enc = true ->
  splitDigest chainID = ("sha256", enc) /\ TrimPrefix chainID "sha256:" = enc.
Proof.
  intros [->| ->] Hh; [|split; [done|apply TrimPrefix_app]]. split.
  - unfold splitDigest. pose proof (Cut_spec ":"%char enc) as HC. destruct (Cut _ _) as [[l r]|]; [|done].
    destruct HC as [-> _]. rewrite str_all_app in Hh. by apply andb_true_iff in Hh as [_ ?].
  - unfold TrimPrefix. destruct (HasPrefix enc "sha256:") eqn:E; [|done]. by apply prefix_true in E as [r ->].
Qed.

Lemma wp_unless_missing (m : OS unit) Q w :
  wp m (fun o w' => match o with
                    | Err err => if os_IsNotExist err then Q (Ok tt) w' else Q (Err err) w'
                    | _ => Q o w'
                    end) w -> wp (unless_missing m) Q w.
Proof.
  unfold unless_missing, wp, attempt, mbind, GoM_bind. destruct (m w) as [[[]|err|v] w']; simpl; [done| |done].
  by destruct (os_IsNotExist err).
Qed.

(** Entries of one directory removed in turn: at the end none is there. *)
Lemma wp_remove_all d (l : list (string * string)) w :
  (forall path c, (path, c) ∈ l -> abs_path path (d ++ [c])) -> wf w -> standing d w ->
  wp (for_each (fst <$> l) (fun path => unless_missing (os_Remove path))) (fun o w' =>
    framed (fun p => exists c, c ∈ snd <$> l /\ p = d ++ [c]) w w' /\
    match o with
    | Ok _ => forall c, c ∈ snd <$> l -> view w' (d ++ [c]) = None
    | Err _ => True
    | Panic _ => False
    end) w.
Proof.
  revert w. induction l as [|[path c] l IH]; intros w Hl Hw Hst; simpl.
  { apply wp_ret. split; [by apply framed_same_place|]. by intros c ?%not_elem_of_nil. }
  assert (Hp : abs_path path (d ++ [c])) by (apply Hl; left).
  apply wp_bind, wp_unless_missing. pose proof (wp_Remove d c path Hp w Hw Hst) as HR.
  pose proof (Remove_missing d c path w) as HM. unfold wp in HR |- *. destruct (os_Remove path w) as [o w1].
  destruct HR as (HF & _ & HR). assert (Hst1 : standing d w1).
  { eapply framed_standing; [exact HF| |done]. intros p Hpre <-. by apply (entry_not_prefix d c d (below_irrefl d) _ Hpre). }
  assert (HF1 : framed (fun p => exists c0, c0 ∈ c :: (snd <$> l) /\ p = d ++ [c0]) w w1).
  { eapply framed_weaken; [|exact HF]. intros p <-. exists c. by split; [left|]. }
  assert (Hrest : view w1 (d ++ [c]) = None ->
    wp_cont (fun _ : unit => for_each (fst <$> l) (fun path => unless_missing (os_Remove path))) (fun o w' =>
      framed (fun p => exists c0, c0 ∈ c :: (snd <$> l) /\ p = d ++ [c0]) w w' /\
      match o with
      | Ok _ => forall c0, c0 ∈ c :: (snd <$> l) -> view w' (d ++ [c0]) = None
      | Err _ => True
      | Panic _ => False
      end) (Ok tt) w1).
  { intros Hgone. specialize (IH w1 (fun p c0 H0 => Hl p c0 (list_elem_of_further _ _ _ H0)) (proj1 HF) Hst1).
    eapply wp_mono; [|exact IH]. intros o' w2 [HF2 Ho]. split.
    - eapply framed_trans; [exact HF1|]. eapply framed_weaken; [|exact HF2]. intros p (c0 & H0 & ->). exists c0. by split; [right|].
    - destruct o' as [[]|e|v]; try done. intros c0 [->|H0]%elem_of_cons; [|by apply Ho].
      destruct (decide (c ∈ snd <$> l)); [by apply Ho|]. rewrite (proj2 HF2); [done|]. intros (c1 & H1 & [_ <-]%app_inj_tail). done. }
  destruct o as [[]|err|v]; [by apply Hrest| |done].
  cbn beta iota delta [fst snd]. destruct (os_IsNotExist err) eqn:E; [|exact (conj HF1 I)]. apply Hrest. simpl in HR. rewrite HR. by apply (HM err w1).
Qed.

(** C26: deleting an image, on whatever world has the directory of images: an identifier that is not 64 hexadecimal
    digits, with or without "sha256:", changes nothing; otherwise nothing but the image file and its metadata
    changes, and when the call succeeds both are gone and no reference is answered with the image from the cache. *)
Theorem DeleteImage_evicts `{JSON RefMetadata} `{JSON imageManifest} `{JSONUnmarshal ImageConfig} cfg ctx chainID w :
  IsAbs (StoreDir cfg) = true -> wf w -> standing (completec (StoreDir cfg)) w ->
  wp (DeleteImage cfg ctx chainID) (fun o w' =>
    (validateChainID chainID <> Ok tt -> w' = w /\ o <> Ok tt)
    /\ (validateChainID chainID = Ok tt ->
       let enc := TrimPrefix chainID "sha256:" in
       let image := completec (StoreDir cfg) ++ [enc +:+ ".ext4"] in
       let metadata := completec (StoreDir cfg) ++ [enc +:+ ".json"] in
       framed (fun p => p = image \/ p = metadata) w w' /\
       match o with
       | Ok _ => view w' image = None /\ view w' metadata = None
           /\ forall ref platform p w'', preparedFromCache cfg ref platform w' = (Ok p, w'') -> pr_ChainID p <> "sha256:" +:+ enc
       | Err _ => True
       | Panic _ => False
       end)) w.
Proof.
  intros Ha Hw Hst. unfold DeleteImage, if_done. destruct (ctx 0%nat 0%nat) as [err|].
  { apply wp_fail. split; [done|]. intros _. by split; [apply framed_same_place|]. }
  destruct (validateChainID_cases chainID) as [Hv|Hv].
  2: { apply wp_bind. unfold wp, lift_outcome. rewrite Hv. split; [done|]. by intros. }
  pose proof (proj1 (validateChainID_Ok chainID) Hv) as (enc & He & Hl & Hh).
  assert (Hne : enc <> "") by (by intros ->). destruct (chain_names chainID enc He Hh) as [Hd Ht].
  apply wp_bind. unfold wp at 1, lift_outcome. rewrite Hv. cbn beta iota delta [fst snd wp_cont].
  assert (HR : RootfsPath (StoreDir cfg) chainID = RootfsPath (StoreDir cfg) ("sha256:" +:+ enc)
    /\ RootfsMetadataPath (StoreDir cfg) chainID = RootfsMetadataPath (StoreDir cfg) ("sha256:" +:+ enc)).
  { unfold RootfsPath, RootfsMetadataPath. by rewrite Hd. }
  destruct HR as [-> ->].
  pose proof (wp_remove_all (completec (StoreDir cfg))
    [(RootfsPath (StoreDir cfg) ("sha256:" +:+ enc), enc +:+ ".ext4"); (RootfsMetadataPath (StoreDir cfg) ("sha256:" +:+ enc), enc +:+ ".json")] w) as HW.
  eapply wp_mono; [|apply HW; [|done|done]].
  - intros o w' [HF Ho]. split; [by intros []|]. intros _. rewrite Ht. cbv zeta. split.
    + eapply framed_weaken; [|exact HF]. intros p (c & Hc & ->). simpl in Hc. set_solver.
    + destruct o as [[]|e|v]; [|done..]. assert (Hi := Ho (enc +:+ ".ext4")). assert (Hm := Ho (enc +:+ ".json")).
      split_and!; [apply Hi; simpl; set_solver|apply Hm; simpl; set_solver|].
      intros ref platform p w'' E%preparedFromCache_cached Hid.
      assert (Hst' : standing (completec (StoreDir cfg)) w').
      { eapply framed_standing; [exact HF| |done]. intros p0 Hpre (c & _ & ->).
        by apply (entry_not_prefix (completec (StoreDir cfg)) c _ (below_irrefl _) _ Hpre). }
      apply cached_prepared_at in E as (_ & enc' & Hid' & _ & _ & _ & Hs); [|done..].
      rewrite Hid in Hid'. apply app_inj_l in Hid' as <-. rewrite Hi in Hs by (simpl; set_solver). by destruct Hs.
  - intros path c [[= -> ->]|[[= -> ->]|[]%not_elem_of_nil]%elem_of_cons]%elem_of_cons;
      [by apply RootfsPath_at|by apply RootfsMetadataPath_at].
Qed.

Section snapshots.
Context (snapshotDir : string) (Habs : IsAbs snapshotDir = true).
Abbreviation sc := (snd (cpath_of snapshotDir)).

Lemma artifact_at enc suf :
  str_all is_hex enc = true -> enc <> "" -> no_char slash suf = true ->
  abs_path (Join [snapshotDir; enc +:+ suf]) (sc ++ [enc +:+ suf]).
Proof.
  intros Hh Hne Hs. apply Join_abs_list; [done|done|]. apply Forall_singleton. by apply suffixed_name.
Qed.

Lemma sibling (d : list string) a b : a <> b -> ~ d ++ [a] `prefix_of` d ++ [b].
Proof. intros Hne [x Hx]. rewrite <- app_assoc in Hx. apply app_inv_head in Hx as [= <- _]. done. Qed.

(** Without its memory file there is no snapshot. *)
Lemma no_snapshot artifact d c w :
  abs_path (sa_MemPath artifact) (d ++ [c]) -> standing d w -> view w (d ++ [c]) = None ->
  fst (SnapshotExists artifact w) = Ok false.
Proof.
  intros Hp Hst Hv. pose proof (exists_Ok _ d c w Hst Hp) as (_ & b & E & Hb). unfold SnapshotExists, mbind, GoM_bind.
  destruct (exists_ (sa_MemPath artifact) w) as [o w']. simpl in E. subst o. destruct b; [|done].
  destruct (view_is_Some w (d ++ [c])) as [HV _]. specialize (HV (Hb eq_refl)). rewrite Hv in HV. by destruct HV.
Qed.
End snapshots.

(** C38: deleting a snapshot, in an absolute snapshot directory that stands: an identifier that is not 64 hexadecimal
    digits, with or without "sha256:", changes nothing; otherwise, on every outcome and schedule of failures, nothing
    but its memory file, its state file and its workspace directory changes, each an entry of the snapshot directory;
    when it succeeds all three are gone, with all that was below the workspace, and the snapshot no longer exists. *)
Theorem DeleteSnapshot_confined ctx snapshotDir chainID w :
  IsAbs snapshotDir = true -> wf w -> standing (snd (cpath_of snapshotDir)) w ->
  wp (DeleteSnapshot ctx snapshotDir chainID) (fun o w' =>
    (validateChainID chainID <> Ok tt -> w' = w /\ o <> Ok tt)
    /\ (validateChainID chainID = Ok tt ->
       let entry suf := snd (cpath_of snapshotDir) ++ [TrimPrefix chainID "sha256:" +:+ suf] in
       framed (fun p => p = entry ".mem" \/ p = entry ".snapshot" \/ entry "-workspace" `prefix_of` p) w w' /\
       match o with
       | Ok _ => view w' (entry ".mem") = None /\ view w' (entry ".snapshot") = None
           /\ (forall p, entry "-workspace" `prefix_of` p -> view w' p = None)
           /\ fst (SnapshotExists (SnapshotArtifact_ snapshotDir chainID) w') = Ok false
       | Err _ => True
       | Panic _ => False
       end)) w.
Proof.
  intros Ha Hw Hst. unfold DeleteSnapshot, if_done. destruct (ctx 0%nat 0%nat) as [err|].
  { apply wp_fail. split; [done|]. intros _. by split; [apply framed_same_place|]. }
  destruct (validateChainID_cases chainID) as [Hv|Hv].
  2: { apply wp_bind. unfold wp, lift_outcome. rewrite Hv. split; [done|]. by intros. }
  pose proof (proj1 (validateChainID_Ok chainID) Hv) as (enc & He & Hl & Hh).
  assert (Hne : enc <> "") by (by intros ->). destruct (chain_names chainID enc He Hh) as [_ Ht].
  apply wp_bind. unfold wp at 1, lift_outcome. rewrite Hv. cbn beta iota delta [fst snd wp_cont].
  unfold SnapshotArtifact_. rewrite Ht. cbn [sa_MemPath sa_SnapshotPath sa_WorkspaceDir].
  set (sc := snd (cpath_of snapshotDir)) in *.
  assert (Hat : forall suf, no_char slash suf = true -> abs_path (Join [snapshotDir; enc +:+ suf]) (sc ++ [enc +:+ suf]))
    by (intros suf; by apply artifact_at).
  pose proof (wp_remove_all sc [(Join [snapshotDir; enc +:+ ".mem"], enc +:+ ".mem"); (Join [snapshotDir; enc +:+ ".snapshot"], enc +:+ ".snapshot")] w) as HW.
  apply wp_bind. eapply wp_mono; [|apply HW; [|done|done]].
  2: { intros path c [[= -> ->]|[[= -> ->]|[]%not_elem_of_nil]%elem_of_cons]%elem_of_cons; by apply Hat. }
  intros o w1 [HF Ho].
  assert (HF1 : framed (fun p => p = sc ++ [enc +:+ ".mem"] \/ p = sc ++ [enc +:+ ".snapshot"] \/ sc ++ [enc +:+ "-workspace"] `prefix_of` p) w w1).
  { eapply framed_weaken; [|exact HF]. intros p (c & Hc & ->). simpl in Hc. set_solver. }
  destruct o as [[]|e|v]; [|by split; intros|done]. cbn beta iota delta [wp_cont].
  assert (Hst1 : standing sc w1).
  { eapply framed_standing; [exact HF| |done]. intros p0 Hpre (c & _ & ->). by apply (entry_not_prefix sc c _ (below_irrefl _) _ Hpre). }
  apply wp_unless_missing. pose proof (wp_RemoveAll sc (enc +:+ "-workspace") _ w1 (Hat "-workspace" eq_refl) (proj1 HF) Hst1) as HR.
  pose proof (RemoveAll_missing sc (enc +:+ "-workspace") (Join [snapshotDir; enc +:+ "-workspace"]) w1) as HM.
  unfold wp in HR |- *. destruct (os_RemoveAll _ w1) as [o w2]. destruct HR as (HF2 & _ & HO). cbn beta iota delta [fst snd] in *. set (ws := sc ++ [enc +:+ "-workspace"]) in *.
  assert (HF3 : framed (fun p => p = sc ++ [enc +:+ ".mem"] \/ p = sc ++ [enc +:+ ".snapshot"] \/ ws `prefix_of` p) w w2).
  { eapply framed_trans; [exact HF1|]. eapply framed_weaken; [|exact HF2]. auto. }
  assert (Hkeep : forall suf, suf <> "-workspace" -> view w2 (sc ++ [enc +:+ suf]) = view w1 (sc ++ [enc +:+ suf])).
  { intros suf Hs. apply HF2. apply sibling. by intros <-%app_inj_l. }
  assert (Hm : view w2 (sc ++ [enc +:+ ".mem"]) = None) by (rewrite Hkeep by done; apply Ho; simpl; set_solver).
  assert (Hs : view w2 (sc ++ [enc +:+ ".snapshot"]) = None) by (rewrite Hkeep by done; apply Ho; simpl; set_solver).
  assert (Hst2 : standing sc w2).
  { eapply framed_standing; [exact HF2| |done]. intros p0 Hpre Hw0.
    apply (entry_not_prefix sc (enc +:+ "-workspace") sc (below_irrefl _) ws); [by etrans|done]. }
  destruct o as [[]|err|v]; [| |done].
  - split; [by intros []|]. intros _. split; [exact HF3|]. split_and!; [exact Hm|exact Hs|exact HO|].
    apply (no_snapshot _ sc (enc +:+ ".mem")); [by apply Hat|done|done].
  - rewrite (HM err w2); [|by apply Hat|done..]. by split; intros.
Qed.

Section demo.
#[local] Instance manager_ref_json : JSON RefMetadata := demo_ref_json.
#[local] Instance manager_manifest_json : JSON imageManifest := demo_manifest_json.
#[local] Instance manager_config_json : JSONUnmarshal ImageConfig := demo_Unmarshal.
Abbreviation demo_encoded := "ba7816bf8f01cfea414140de5dae2223b00361a396177a9cb410ff61f20015ad".
Abbreviation demo_dir := (StoreDir demo_cfg +:+ "/rootfs/complete").
Abbreviation demo_images := (with_file (demo_dir +:+ "/" +:+ demo_encoded +:+ ".ext4") "image" Runtime.demo_store).
Abbreviation demo_snapshots := (with_file (demo_dir +:+ "/" +:+ demo_encoded +:+ "-workspace/f") "f"
  (with_dirs [demo_dir +:+ "/" +:+ demo_encoded +:+ "-workspace"]
    (with_file (demo_dir +:+ "/" +:+ demo_encoded +:+ ".mem") "m" Runtime.demo_store))).
Abbreviation demo_deleted := (DeleteImage demo_cfg (fun _ _ => None) demo_encoded demo_images).
Abbreviation demo_dropped := (DeleteSnapshot (fun _ _ => None) demo_dir demo_encoded demo_snapshots).

Lemma DeleteImage_evicts_witness :
  fst demo_deleted = Ok tt /\ view demo_images (completec (StoreDir demo_cfg) ++ [demo_encoded +:+ ".ext4"]) <> None
  /\ view (snd demo_deleted) (completec (StoreDir demo_cfg) ++ [demo_encoded +:+ ".ext4"]) = None.
Proof.
  pose proof (DeleteImage_evicts demo_cfg (fun _ _ => None) demo_encoded demo_images) as H.
  assert (E : fst demo_deleted = Ok tt) by (vm_compute; reflexivity).
  unfold wp in H. destruct H as [_ H].
  - reflexivity.
  - apply wf_check_sound. vm_compute. reflexivity.
  - apply standing_check_ok. vm_compute. reflexivity.
  - destruct H as [_ H]; [vm_compute; reflexivity|]. rewrite E in H. destruct H as [H _].
    split; [exact E|]. split; [vm_compute; discriminate|exact H].
Defined.

Lemma DeleteSnapshot_confined_witness :
  fst demo_dropped = Ok tt
  /\ view demo_snapshots (snd (cpath_of demo_dir) ++ [demo_encoded +:+ "-workspace"; "f"]) <> None
  /\ view (snd demo_dropped) (snd (cpath_of demo_dir) ++ [demo_encoded +:+ "-workspace"; "f"]) = None.
Proof.
  pose proof (DeleteSnapshot_confined (fun _ _ => None) demo_dir demo_encoded demo_snapshots) as H.
  assert (E : fst demo_dropped = Ok tt) by (vm_compute; reflexivity).
  unfold wp in H. destruct H as [_ H].
  - reflexivity.
  - apply wf_check_sound. vm_compute. reflexivity.
  - apply standing_check_ok. vm_compute. reflexivity.
  - destruct H as [_ H]; [vm_compute; reflexivity|]. rewrite E in H. destruct H as (_ & _ & H & _).
    split; [exact E|]. split; [vm_compute; discriminate|]. apply H. exists ["f"]. reflexivity.
Defined.
End demo.
