(* ===== verification/Server.v ===== *)
(** * The HTTP daemon

    [internal/server]: the daemon's configuration, the translation of an API request into a request
    of the manager within the daemon's limits, and the handlers. [huma], which routes the requests and
    validates them against the schema, is outside: a handler is what it is given and what it returns. *)

From S2P Require Import Prelude GoPath GoBase64 Sha256 HostFS Confine FileLaws Entries Below Config ContentStore Oci FileLock Rootfs Runtime.
From S2P Require Import AgentApi AgentServer AgentConfinement AgentJobs AgentClient Firecracker Manager.
Local Open Scope Z_scope.

(** ** Configuration *)

Definition DefaultListen : string := "127.0.0.1:8080".

Record JailerConfig := {
  dj_Binary : string; dj_ChrootBaseDir : string; dj_UID : Z; dj_GID : Z; dj_NumaNode : Z;
  dj_CgroupVersion : string; dj_CgroupArgs : list string
}.

Record Limits := {
  MaxTimeoutMillis : Z; MaxOutputBytes : Z; MaxVCPUCount : Z; MaxMemSizeMiB : Z; MaxTasks : Z; MaxWriteFileBytes : Z
}.

Record Config := {
  dc_Listen : string; dc_StoreDir : string; dc_KernelPath : string; dc_BootImagePath : string; dc_FirecrackerPath : string;
  dc_SnapshotDir : string; dc_Machine : MachineConfig; dc_Jailer : option JailerConfig; dc_Limits : Limits;
  dc_CleanupJailer : bool
}.

(** [if x <= 0 { x = d }] *)
Definition or_positive (x d : Z) : Z := if decide (x <= 0) then d else x.

Definition applyDefaults (cfg : Config) : Config :=
  let storeDir := or_default (dc_StoreDir cfg) DefaultStoreDir in
  let vcpu := or_positive (VCPUCount (dc_Machine cfg)) 1 in
  let mem := or_positive (MemSizeMiB (dc_Machine cfg)) 256 in
  let l := dc_Limits cfg in {|
    dc_Listen := or_default (dc_Listen cfg) DefaultListen;
    dc_StoreDir := storeDir;
    dc_KernelPath := or_default (dc_KernelPath cfg) DefaultKernelPath;
    dc_BootImagePath := or_default (dc_BootImagePath cfg) DefaultBootImagePath;
    dc_FirecrackerPath := or_default (dc_FirecrackerPath cfg) "firecracker";
    dc_SnapshotDir := or_default (dc_SnapshotDir cfg) (storeDir +:+ "/snapshots");
    dc_Machine := {| VCPUCount := vcpu; MemSizeMiB := mem |};
    dc_Jailer := (fun j => {|
      dj_Binary := dj_Binary j; dj_ChrootBaseDir := dj_ChrootBaseDir j; dj_UID := dj_UID j; dj_GID := dj_GID j;
      dj_NumaNode := dj_NumaNode j; dj_CgroupVersion := or_default (dj_CgroupVersion j) "2"; dj_CgroupArgs := dj_CgroupArgs j |})
      <$> dc_Jailer cfg;
    dc_Limits := {|
      MaxTimeoutMillis := or_positive (MaxTimeoutMillis l) (Milliseconds (Seconds 60));
      MaxOutputBytes := or_positive (MaxOutputBytes l) (Z.shiftl 4 20);
      MaxVCPUCount := or_positive (MaxVCPUCount l) vcpu;
      MaxMemSizeMiB := or_positive (MaxMemSizeMiB l) mem;
      MaxTasks := or_positive (MaxTasks l) 32;
      MaxWriteFileBytes := or_positive (MaxWriteFileBytes l) (Z.shiftl 4 20) |};
    dc_CleanupJailer := dc_CleanupJailer cfg |}.

Definition DefaultConfig : Config := applyDefaults {|
  dc_Listen := DefaultListen; dc_StoreDir := DefaultStoreDir; dc_KernelPath := DefaultKernelPath;
  dc_BootImagePath := DefaultBootImagePath; dc_FirecrackerPath := "firecracker";
  dc_SnapshotDir := DefaultStoreDir +:+ "/snapshots"; dc_Machine := {| VCPUCount := 1; MemSizeMiB := 256 |};
  dc_Jailer := None;
  dc_Limits := {| MaxTimeoutMillis := 60000; MaxOutputBytes := Z.shiftl 4 20; MaxVCPUCount := 4; MaxMemSizeMiB := 2048;
                  MaxTasks := 32; MaxWriteFileBytes := Z.shiftl 4 20 |};
  dc_CleanupJailer := false |}.

Definition Validate (cfg : Config) : outcome unit :=
  if bool_decide (dc_Listen cfg = "") then Err (Errorf "listen is required" [])
  else if bool_decide (dc_StoreDir cfg = "") || bool_decide (dc_KernelPath cfg = "") || bool_decide (dc_BootImagePath cfg = "")
          || bool_decide (dc_FirecrackerPath cfg = "") || bool_decide (dc_SnapshotDir cfg = "")
  then Err (Errorf "store_dir, kernel_path, boot_image_path, firecracker_path, and snapshot_dir are required" [])
  else if bool_decide (VCPUCount (dc_Machine cfg) > MaxVCPUCount (dc_Limits cfg))
          || bool_decide (MemSizeMiB (dc_Machine cfg) > MaxMemSizeMiB (dc_Limits cfg))
  then Err (Errorf "default machine config exceeds configured limits" [])
  else match dc_Jailer cfg with
       | Some j => if decide (dj_Binary j = "") then Err (Errorf "jailer.binary is required when jailer is configured" []) else Ok tt
       | None => Ok tt
       end.

(** [json.Unmarshal] into a configuration that has values already. *)
Class ConfigUnmarshal := config_Unmarshal : string -> Config -> outcome Config.

Definition LoadConfig `{ConfigUnmarshal} (path : string) : OS Config :=
  contents ← os_ReadFile path;
  cfg ← lift_outcome (config_Unmarshal contents DefaultConfig);
  let cfg := applyDefaults cfg in
  lift_outcome (Validate cfg) ;;
  mret cfg.

Definition FirecrackerJailer (cfg : Config) : option Firecracker.JailerConfig :=
  (fun j => {| jc_Binary := dj_Binary j; jc_ChrootBaseDir := dj_ChrootBaseDir j; jc_UID := dj_UID j; jc_GID := dj_GID j;
               jc_NumaNode := dj_NumaNode j; jc_CgroupVersion := dj_CgroupVersion j; jc_CgroupArgs := dj_CgroupArgs j |})
  <$> dc_Jailer cfg.

(** ** Requests *)

Record Task := {
  tk_Type : string; tk_Path : string; tk_Mode : Z; tk_ContentsBase64 : string; tk_CreateParents : bool;
  tk_Argv : list string; tk_WorkingDir : string
}.

Record RunRequest := {
  rq_ImageRef : string; rq_Tasks : list Task; rq_Workdir : string; rq_UID : Z; rq_GID : Z; rq_TimeoutMillis : Z;
  rq_SnapshotMode : string; rq_Machine : MachineConfig
}.

Definition validateWorkspacePath (path : string) : outcome unit :=
  let clean := Clean path in
  if negb (HasPrefix clean "/workspace") then Err (Errorf "path must be under /workspace: %s" [path])
  else if negb (bool_decide (clean = "/workspace")) && negb (HasPrefix clean "/workspace/")
  then Err (Errorf "path must be under /workspace: %s" [path])
  else Ok tt.

Definition decodedBase64Len (value : string) : outcome Z :=
  match DecodeString value with
  | Ok decoded => Ok (Z.of_nat (String.length decoded))
  | Err _ => Err (Errorf "contents_b64 is not valid base64" [])
  | Panic v => Panic v
  end.

Definition job_write_file (path : string) (mode : Z) (contentsBase64 : string) (createParents : bool) : Job := {|
  jb_Type := JobWriteFile; jb_Path := path; jb_Mode := mode; jb_ContentsBase64 := contentsBase64; jb_CreateParents := createParents;
  jb_Argv := []; jb_Env := []; jb_WorkingDir := ""; jb_UID := None; jb_GID := None; jb_TimeoutMillis := 0; jb_MaxOutputBytes := 0 |}.
Definition job_mkdir_parents (path : string) (mode : Z) (createParents : bool) : Job := {|
  jb_Type := JobMkdir; jb_Path := path; jb_Mode := mode; jb_ContentsBase64 := ""; jb_CreateParents := createParents;
  jb_Argv := []; jb_Env := []; jb_WorkingDir := ""; jb_UID := None; jb_GID := None; jb_TimeoutMillis := 0; jb_MaxOutputBytes := 0 |}.

Section server.
Context {M : Type} `{VMM M} `{JSONMarshal BatchRequest} `{JSONDecoder BatchResponse}.
Context {Reference : Type} (ParseReference : string -> outcome Reference).
Context (remote_Image : Reference -> Config.Platform -> outcome RemoteImage).
Context `{JSON RawMessage} `{JSON RefMetadata} `{JSON imageManifest} `{JSON Rootfs.Metadata}.
Context `{JSONUnmarshal ImageConfig} `{RootfsImageBuilder}.
Context (os_TempDir : string) (WithTimeout : context -> Z -> context).
Context (exec_LookPath : string -> OS string) (map_order : list (string * string) -> list (string * string)).
(** [runtime.GOARCH] *)
Context (GOARCH : string).
Abbreviation VM := (GoM (host M)).

Definition RuntimeConfig (cfg : Config) : Config.Config := {|
  StoreDir := dc_StoreDir cfg; KernelPath := dc_KernelPath cfg; BootImagePath := dc_BootImagePath cfg;
  c_Platform := {| p_OS := "linux"; p_Architecture := GOARCH |};
  c_Rootfs := {| MinSizeBytes := 0; MaxSizeBytes := 0; ExtraBytes := 0; FS := "" |} |}.

(** [Server]: its configuration, and its manager's. *)
Record Server := { ds_Config : Config; ds_Manager : Config.Config }.

Definition New (cfg : Config) : outcome Server :=
  let cfg := applyDefaults cfg in
  _ ← Validate cfg;
  Ok {| ds_Config := cfg; ds_Manager := Manager.New (RuntimeConfig cfg) |}.

Definition hostPlatform : Config.Platform := {| p_OS := "linux"; p_Architecture := GOARCH |}.

(** *** From a request to the manager's *)

Definition task_job (limits : Limits) (defaultWorkdir : string) (task : Task) : outcome Job :=
  if decide (tk_Type task = JobMkdir) then
    _ ← validateWorkspacePath (tk_Path task);
    Ok (job_mkdir_parents (tk_Path task) (if decide (tk_Mode task = 0) then 493 else tk_Mode task) (tk_CreateParents task))
  else if decide (tk_Type task = JobWriteFile) then
    _ ← validateWorkspacePath (tk_Path task);
    decodedLen ← decodedBase64Len (tk_ContentsBase64 task);
    if decide (decodedLen > MaxWriteFileBytes limits) then Err (Errorf "write_file contents exceed limit" [])
    else Ok (job_write_file (tk_Path task) (if decide (tk_Mode task = 0) then 420 else tk_Mode task)
               (tk_ContentsBase64 task) (tk_CreateParents task))
  else if decide (tk_Type task = JobExec) then
    if decide (tk_Argv task = []) then Err (Errorf "exec argv is required" [])
    else
      let workdir := firstNonEmpty [tk_WorkingDir task; defaultWorkdir] in
      _ ← validateWorkspacePath workdir;
      Ok (job_exec (tk_Argv task) workdir)
  else Err (Errorf "unsupported task type %q" [tk_Type task]).

Fixpoint task_jobs (limits : Limits) (defaultWorkdir : string) (tasks : list Task) : outcome (list Job) :=
  match tasks with
  | [] => Ok []
  | task :: rest =>
      job ← task_job limits defaultWorkdir task;
      jobs ← task_jobs limits defaultWorkdir rest;
      Ok (job :: jobs)
  end.

Definition tasksToJobs (limits : Limits) (tasks : list Task) (defaultWorkdir : string) : outcome (list Job) :=
  jobs ← task_jobs limits defaultWorkdir tasks;
  Ok (job_mkdir "/workspace" 493 :: jobs).

(** [time.Duration(n) * time.Millisecond] *)
Definition millis (n : Z) : Z := wrap64 (n * Millisecond).

Definition managerRunRequest (cfg : Config) (req : RunRequest) : outcome Manager.RunRequest :=
  let limits := dc_Limits cfg in
  if decide (rq_ImageRef req = "") then Err (Errorf "image_ref is required" [])
  else if decide (rq_Tasks req = []) then Err (Errorf "at least one task is required" [])
  else if decide (Z.of_nat (length (rq_Tasks req)) > MaxTasks limits)
  then Err (Errorf "too many tasks: %d > %d" [pretty (Z.of_nat (length (rq_Tasks req))); pretty (MaxTasks limits)])
  else
    let timeoutMillis := or_positive (rq_TimeoutMillis req) (MaxTimeoutMillis limits) in
    if decide (timeoutMillis > MaxTimeoutMillis limits) then Err (Errorf "timeout_millis exceeds limit" [])
    else
      let machine := {| VCPUCount := or_positive (VCPUCount (rq_Machine req)) (VCPUCount (dc_Machine cfg));
                        MemSizeMiB := or_positive (MemSizeMiB (rq_Machine req)) (MemSizeMiB (dc_Machine cfg)) |} in
      if decide (VCPUCount machine > MaxVCPUCount limits \/ MemSizeMiB machine > MaxMemSizeMiB limits)
      then Err (Errorf "machine config exceeds limits" [])
      else
        jobs ← tasksToJobs limits (rq_Tasks req) (firstNonEmpty [rq_Workdir req; "/workspace"]);
        let mode := firstNonEmpty [rq_SnapshotMode req; "disabled"] in
        snapshotDir ← (if decide (mode = "disabled") then Ok ""
                       else if decide (mode = "auto") then Ok (dc_SnapshotDir cfg)
                       else Err (Errorf "unsupported snapshot_mode %q" [rq_SnapshotMode req]));
        Ok {|
          mq_ImageRef := rq_ImageRef req; mq_Platform := hostPlatform; mq_Command := []; mq_KernelPath := dc_KernelPath cfg;
          mq_BootImagePath := dc_BootImagePath cfg; mq_FirecrackerPath := dc_FirecrackerPath cfg; mq_Jailer := FirecrackerJailer cfg;
          mq_MachineConfig := machine; mq_Workspace := "/workspace"; mq_Workdir := firstNonEmpty [rq_Workdir req; "/workspace"];
          mq_UID := rq_UID req; mq_GID := rq_GID req;
          mq_Defaults := {| jd_UID := Some (rq_UID req); jd_GID := Some (rq_GID req); jd_Env := []; jd_TimeoutMillis := timeoutMillis;
                            jd_MaxOutputBytes := MaxOutputBytes limits |};
          mq_Jobs := jobs; mq_Timeout := millis timeoutMillis; mq_SnapshotDir := snapshotDir; mq_Snapshot := None;
          mq_CleanupJailer := dc_CleanupJailer cfg |}.

(** *** Handlers *)

(** What a handler gives [huma]: [huma.Error400BadRequest], another error, or a body. *)
Inductive reply (A : Type) := Error400BadRequest (msg : string) | Failed (err : error) | Body (a : A).
Arguments Error400BadRequest {A} _.
Arguments Failed {A} _.
Arguments Body {A} _.

Definition or_failed {A} (m : VM A) : VM (reply A) :=
  r ← attempt m; mret (match r with inl err => Failed err | inr a => Body a end).
Definition or_bad_request {A} (m : VM A) : VM (reply A) :=
  r ← attempt m; mret (match r with inl err => Error400BadRequest (error_text err) | inr a => Body a end).

Section handlers.
(** The server, the fuel of its waiting loops, and the request's context. *)
Variable (s : Server) (fuel : nat) (ctx : nat -> context).
Abbreviation cfg := (ds_Config s).

Definition health : VM (reply bool) := mret (Body true).

Definition prepareImage (imageRef : string) : VM (reply Manager.PreparedImage) :=
  if decide (imageRef = "") then mret (Error400BadRequest "image_ref is required")
  else or_failed (on_host (Manager.PrepareImage ParseReference remote_Image (ds_Manager s) (ctx 0%nat)
         {| pq_ImageRef := imageRef; pq_Platform := hostPlatform |})).

Definition listImages : VM (reply (list Manager.PreparedImage)) := or_failed (on_host (ListImages (ds_Manager s) (ctx 0%nat))).

Definition deleteImage (chainID : string) : VM (reply bool) :=
  or_bad_request (on_host (DeleteImage (ds_Manager s) (ctx 0%nat) chainID) ;; mret true).

Definition createSnapshot (imageRef : string) : VM (reply SnapshotArtifact) :=
  if decide (imageRef = "") then mret (Error400BadRequest "image_ref is required")
  else or_failed (CreateSnapshot ParseReference remote_Image os_TempDir WithTimeout exec_LookPath map_order (ds_Manager s) fuel ctx {|
    cq_ImageRef := imageRef; cq_Platform := hostPlatform; cq_KernelPath := dc_KernelPath cfg; cq_BootImagePath := dc_BootImagePath cfg;
    cq_FirecrackerPath := dc_FirecrackerPath cfg; cq_Jailer := FirecrackerJailer cfg; cq_MachineConfig := dc_Machine cfg;
    cq_Timeout := millis (MaxTimeoutMillis (dc_Limits cfg)); cq_SnapshotDir := dc_SnapshotDir cfg;
    cq_Snapshot := {| sa_MemPath := ""; sa_SnapshotPath := ""; sa_WorkspaceDir := "" |} |}).

Definition listSnapshots : VM (reply (list SnapshotInfo)) := or_failed (on_host (ListSnapshots (ctx 0%nat) (dc_SnapshotDir cfg))).

Definition deleteSnapshot (chainID : string) : VM (reply bool) :=
  or_bad_request (on_host (DeleteSnapshot (ctx 0%nat) (dc_SnapshotDir cfg) chainID) ;; mret true).

Record VMHandleDTO := { hd_ID : string; hd_SocketPath : string }.
Record RunTimingsDTO := {
  PreflightDurationMillis : Z; PrepareDurationMillis : Z; ReadConfigDurationMillis : Z; SnapshotDurationMillis : Z;
  TotalDurationMillis : Z
}.
Record VMTimingsDTO := {
  SetupDurationMillis : Z; MachineStartDurationMillis : Z; AgentReadyDurationMillis : Z; JobsDurationMillis : Z;
  ShutdownWaitDurationMillis : Z; vt_TotalDurationMillis : Z
}.
Record runOutput := {
  ro_Image : Manager.PreparedImage; ro_Results : list JobResult; ro_Timings : RunTimingsDTO; ro_VM : VMHandleDTO; ro_VMTimings : VMTimingsDTO
}.

Definition runTimingsDTO (t : Manager.RunTimings) : RunTimingsDTO := {|
  PreflightDurationMillis := Milliseconds (PreflightDuration t); PrepareDurationMillis := Milliseconds (PrepareDuration t);
  ReadConfigDurationMillis := Milliseconds (ReadConfigDuration t); SnapshotDurationMillis := Milliseconds (SnapshotDuration t);
  TotalDurationMillis := Milliseconds (mt_TotalDuration t) |}.

Definition vmTimingsDTO (t : Firecracker.RunTimings) : VMTimingsDTO := {|
  SetupDurationMillis := Milliseconds (SetupDuration t); MachineStartDurationMillis := Milliseconds (MachineStartDuration t);
  AgentReadyDurationMillis := Milliseconds (AgentReadyDuration t); JobsDurationMillis := Milliseconds (JobsDuration t);
  ShutdownWaitDurationMillis := Milliseconds (ShutdownWaitDuration t); vt_TotalDurationMillis := Milliseconds (Firecracker.TotalDuration t) |}.

Definition run (body : RunRequest) : VM (reply runOutput) :=
  match managerRunRequest cfg body with
  | Panic v => panic v
  | Err err => mret (Error400BadRequest (error_text err))
  | Ok req =>
      or_failed (
        result ← Run ParseReference remote_Image os_TempDir WithTimeout exec_LookPath map_order (ds_Manager s) fuel ctx req;
        let vm := mr_VM result in
        mret {| ro_Image := mr_Image result; ro_Results := rr_Results vm; ro_Timings := runTimingsDTO (mr_Timings result);
                ro_VM := {| hd_ID := vh_ID (rr_VM vm); hd_SocketPath := vh_SocketPath (rr_VM vm) |};
                ro_VMTimings := vmTimingsDTO (rr_Timings vm) |})
  end.
End handlers.
End server.
Arguments Error400BadRequest {A} _.
Arguments Failed {A} _.
Arguments Body {A} _.

(** ** The configuration the server runs with *)

(** The defaults of one level. *)
Lemma or_default_kept x d : d <> "" -> or_default (or_default x d) d = or_default x d.
Proof. unfold or_default. intros ?. by repeat case_decide. Qed.
Lemma or_positive_kept x d : 0 < d -> or_positive (or_positive x d) d = or_positive x d.
Proof. unfold or_positive. intros ?. repeat case_decide; lia. Qed.
Lemma or_positive_pos x d : 0 < d -> 0 < or_positive x d.
Proof. unfold or_positive. intros ?. case_decide; lia. Qed.
Lemma or_default_set x d : d <> "" -> or_default x d <> "".
Proof. unfold or_default. intros ?. by case_decide. Qed.

Lemma applyDefaults_idem cfg : applyDefaults (applyDefaults cfg) = applyDefaults cfg.
Proof.
  unfold applyDefaults. cbn. assert (Happ : forall s, s +:+ "/snapshots" <> "") by (by intros []).
  rewrite !or_default_kept by (done || apply Happ). rewrite !or_positive_kept by (done || by apply or_positive_pos).
  f_equal. destruct (dc_Jailer cfg) as [[]|]; [|done]. simpl. by rewrite or_default_kept.
Qed.

(** What every limit and default is worth to the requests. *)
Definition config_complete (cfg : Config) : Prop :=
  let l := dc_Limits cfg in
  dc_StoreDir cfg <> "" /\ dc_KernelPath cfg <> "" /\ dc_BootImagePath cfg <> "" /\ dc_FirecrackerPath cfg <> "" /\ dc_SnapshotDir cfg <> ""
  /\ 0 < VCPUCount (dc_Machine cfg) <= MaxVCPUCount l /\ 0 < MemSizeMiB (dc_Machine cfg) <= MaxMemSizeMiB l
  /\ 0 < MaxTimeoutMillis l /\ 0 < MaxOutputBytes l /\ 0 < MaxTasks l /\ 0 < MaxWriteFileBytes l
  /\ forall j, dc_Jailer cfg = Some j -> dj_Binary j <> "" /\ dj_CgroupVersion j <> "".

Lemma applyDefaults_Validate cfg :
  Validate (applyDefaults cfg) = Ok tt <-> config_complete (applyDefaults cfg).
Proof.
  assert (Happ : forall s, s +:+ "/snapshots" <> "") by (by intros []).
  unfold Validate, config_complete, applyDefaults.
  cbn [dc_Listen dc_StoreDir dc_KernelPath dc_BootImagePath dc_FirecrackerPath dc_SnapshotDir dc_Machine dc_Limits dc_Jailer VCPUCount
       MemSizeMiB MaxVCPUCount MaxMemSizeMiB MaxTimeoutMillis MaxOutputBytes MaxTasks MaxWriteFileBytes].
  rewrite !(bool_decide_eq_false_2 (or_default _ _ = "")) by (apply or_default_set; done || apply Happ). cbn [orb].
  set (v := or_positive (VCPUCount _) 1). set (mem := or_positive (MemSizeMiB _) 256).
  assert (0 < v) by (by apply or_positive_pos). assert (0 < mem) by (by apply or_positive_pos).
  destruct (bool_decide_reflect (v > or_positive (MaxVCPUCount (dc_Limits cfg)) v)); simpl; [split; [done|lia]|].
  destruct (bool_decide_reflect (mem > or_positive (MaxMemSizeMiB (dc_Limits cfg)) mem)); simpl; [split; [done|lia]|].
  destruct (dc_Jailer cfg) as [j|]; simpl; [case_decide as Hb|].
  - split; [done|]. intros (_ & _ & _ & _ & _ & _ & _ & _ & _ & _ & _ & Hj). by destruct (Hj _ eq_refl).
  - split; [|done]. intros _. split_and!; try (apply or_default_set; done || apply Happ); try lia; try (by apply or_positive_pos).
    intros ? [= <-]. simpl. split; [done|by apply or_default_set].
  - split; [|done]. intros _. split_and!; try (apply or_default_set; done || apply Happ); try lia; try (by apply or_positive_pos). done.
Qed.

(** C36: the daemon starts exactly when its configuration, with the defaults filled in, is complete: no empty path, a
    default machine within the limits, every limit positive, a jailer with a binary. It runs with that
    configuration, which starts the same server again, and its manager works on its store, kernel and boot image. *)
Theorem New_config GOARCH cfg :
  match New GOARCH cfg with
  | Ok s => ds_Config s = applyDefaults cfg /\ config_complete (ds_Config s) /\ New GOARCH (ds_Config s) = Ok s
      /\ StoreDir (ds_Manager s) = dc_StoreDir (ds_Config s) /\ KernelPath (ds_Manager s) = dc_KernelPath (ds_Config s)
      /\ BootImagePath (ds_Manager s) = dc_BootImagePath (ds_Config s) /\ Runtime.New (ds_Manager s) = ds_Manager s
  | Err _ => ~ config_complete (applyDefaults cfg)
  | Panic _ => False
  end.
Proof.
  pose proof (applyDefaults_Validate cfg) as HV. unfold New, mbind, outcome_bind.
  destruct (Validate (applyDefaults cfg)) as [[]|e|v] eqn:E.
  - cbn [ds_Config ds_Manager]. rewrite applyDefaults_idem, E. pose proof (proj1 HV eq_refl) as HC.
    split_and!; try done; try (cbn [Manager.New Runtime.New StoreDir KernelPath BootImagePath RuntimeConfig]; unfold or_default;
      by rewrite decide_False by apply HC). unfold Manager.New. apply New_complete.
  - by intros ?%HV.
  - unfold Validate in E. repeat case_match; done.
Qed.

(** ** Paths in the workspace *)

(** The path is absolute and its normal form is "/workspace" or below it. *)
Definition under_workspace (path : string) : Prop := IsAbs path = true /\ ["workspace"] `prefix_of` rootc path.

Lemma pjoin_workspace cs :
  Forall is_name cs -> ["workspace"] `prefix_of` cs <-> pjoin cs = "workspace" \/ exists r, pjoin cs = "workspace/" +:+ r.
Proof.
  intros Hn. split.
  - intros [[|c l] ->]; [by left|right]. exists (pjoin (c :: l)). reflexivity.
  - assert (Hs : cs <> [] -> psplit (pjoin cs) = cs) by (intros Hne; by apply psplit_below).
    destruct cs as [|c cs']; [intros [?|[r ?]]; discriminate|]. specialize (Hs ltac:(done)).
    intros [E|[r E]]; rewrite E in Hs; rewrite <- Hs.
    + done.
    + change ("workspace/" +:+ r) with ("workspace" +:+ "/" +:+ r). rewrite psplit_app_slash. by exists (psplit r).
Qed.

Lemma validateWorkspacePath_Ok path : validateWorkspacePath path = Ok tt <-> under_workspace path.
Proof.
  assert (Hiff : validateWorkspacePath path = Ok tt <-> Clean path = "/workspace" \/ HasPrefix (Clean path) "/workspace/" = true).
  { unfold validateWorkspacePath. destruct (HasPrefix (Clean path) "/workspace") eqn:E1; simpl.
    - case_bool_decide as E2; simpl; [split; [by left|done]|]. destruct (HasPrefix (Clean path) "/workspace/"); simpl; [split; [by right|done]|].
      split; [done|by intros []].
    - split; [done|]. intros [E|E]; [by rewrite E in E1|]. apply prefix_true in E as [r E]. by rewrite E in E1. }
  rewrite Hiff. unfold under_workspace. split.
  - intros HC. assert (Ha : IsAbs path = true).
    { rewrite <- IsAbs_Clean. destruct HC as [->|[r ->]%prefix_true]; done. }
    split; [done|]. destruct (Clean_Root path Ha) as [E Hn]. apply (pjoin_workspace _ Hn).
    rewrite E in HC. unfold render in HC. destruct HC as [HC|[r HC]%prefix_true].
    + left. by injection HC.
    + right. exists r. by injection HC.
  - intros [Ha Hp]. destruct (Clean_Root path Ha) as [E Hn]. apply (pjoin_workspace _ Hn) in Hp. rewrite E. unfold render.
    destruct Hp as [->|[r ->]]; [by left|right]. by apply prefix_true; exists r.
Qed.

(** The daemon's check and the agent's, for the agent's own default workspace. *)
Lemma under_workspace_agent path : under_workspace path <-> safePath "/workspace" path = Ok (Clean path).
Proof.
  unfold under_workspace. rewrite (safePath_in "/workspace" ["workspace"]) by (by split; [done|by_decision]).
  case_decide as He; [subst; split; [by intros [? _]|done]|].
  destruct (IsAbs path); simpl; [|split; [by intros [? _]|done]]. unfold rootc. case_decide; split; try done. by intros [_ ?].
Qed.

Definition task_ok (limits : Limits) (defaultWorkdir : string) (task : Task) : Prop :=
  (tk_Type task = JobMkdir /\ under_workspace (tk_Path task))
  \/ (tk_Type task = JobWriteFile /\ under_workspace (tk_Path task)
      /\ exists contents, DecodeString (tk_ContentsBase64 task) = Ok contents /\ Z.of_nat (String.length contents) <= MaxWriteFileBytes limits)
  \/ (tk_Type task = JobExec /\ tk_Argv task <> [] /\ under_workspace (firstNonEmpty [tk_WorkingDir task; defaultWorkdir])).

(** What the daemon has checked of a job it translated: its path or directory is one the agent takes in the
    workspace "/workspace", its contents are within the limit, its arguments are not empty. *)
Definition job_checked (limits : Limits) (job : Job) : Prop :=
  (jb_Type job = JobMkdir /\ safePath "/workspace" (jb_Path job) = Ok (Clean (jb_Path job)))
  \/ (jb_Type job = JobWriteFile /\ safePath "/workspace" (jb_Path job) = Ok (Clean (jb_Path job))
      /\ exists contents, DecodeString (jb_ContentsBase64 job) = Ok contents /\ Z.of_nat (String.length contents) <= MaxWriteFileBytes limits)
  \/ (jb_Type job = JobExec /\ jb_Argv job <> [] /\ safePath "/workspace" (jb_WorkingDir job) = Ok (Clean (jb_WorkingDir job))).

Lemma validateWorkspacePath_total path : validateWorkspacePath path = Ok tt \/ exists e, validateWorkspacePath path = Err e.
Proof. unfold validateWorkspacePath. repeat case_match; eauto. Qed.

Lemma task_job_Ok limits wd task :
  match task_job limits wd task with
  | Ok job => task_ok limits wd task /\ job_checked limits job
  | Err _ => ~ task_ok limits wd task
  | Panic _ => False
  end.
Proof.
  unfold task_job, task_ok, job_checked, mbind, outcome_bind. case_decide as H1; [|case_decide as H2; [|case_decide as H3]].
  - destruct (validateWorkspacePath_total (tk_Path task)) as [E|[e E]]; rewrite E.
    + apply validateWorkspacePath_Ok in E. split; left; [done|]. split; [done|]. by apply under_workspace_agent.
    + rewrite H1. intros [[_ U]|[[? _]|[? _]]]; try done. apply validateWorkspacePath_Ok in U. by rewrite U in E.
  - destruct (validateWorkspacePath_total (tk_Path task)) as [E|[e E]]; rewrite E.
    + apply validateWorkspacePath_Ok in E. unfold decodedBase64Len.
      destruct (DecodeString (tk_ContentsBase64 task)) as [c|e|v] eqn:ED; [case_decide as HL| |by apply DecodeString_no_panic in ED].
      * rewrite H2. intros [[? _]|[(_ & _ & c' & [= <-] & ?)|[? _]]]; try done.
      * split; right; left; (split; [done|]); split; [done| |by apply under_workspace_agent|]; exists c; (split; [done|lia]).
      * rewrite H2. intros [[? _]|[(_ & _ & c' & ? & ?)|[? _]]]; done.
    + rewrite H2. intros [[? _]|[(_ & U & _)|[? _]]]; try done. apply validateWorkspacePath_Ok in U. by rewrite U in E.
  - case_decide as Ha.
    + rewrite H3. intros [[? _]|[[? _]|(_ & ? & _)]]; done.
    + destruct (validateWorkspacePath_total (firstNonEmpty [tk_WorkingDir task; wd])) as [E|[e E]]; rewrite E.
      * apply validateWorkspacePath_Ok in E. split; right; right; [done|]. split; [done|]. split; [done|]. by apply under_workspace_agent.
      * intros [[? _]|[[? _]|(_ & _ & U)]]; try congruence. apply validateWorkspacePath_Ok in U. by rewrite U in E.
  - intros [[? _]|[[? _]|[? _]]]; done.
Qed.

Lemma task_jobs_Ok limits wd tasks :
  match task_jobs limits wd tasks with
  | Ok jobs => Forall (task_ok limits wd) tasks /\ Forall (job_checked limits) jobs /\ length jobs = length tasks
  | Err _ => ~ Forall (task_ok limits wd) tasks
  | Panic _ => False
  end.
Proof.
  induction tasks as [|task tasks IH]; cbn [task_jobs]; [done|]. unfold mbind, outcome_bind. pose proof (task_job_Ok limits wd task) as HT.
  destruct (task_job limits wd task) as [job|e|v]; [|by intros [? _]%Forall_cons|done].
  destruct (task_jobs limits wd tasks) as [jobs|e|v]; [|by intros [_ ?]%Forall_cons|done].
  destruct HT, IH as (? & ? & ?). split_and!; [by constructor..|simpl; lia].
Qed.

(** The job of the task. *)
Definition job_of (wd : string) (task : Task) (job : Job) : Prop :=
  jb_Type job = tk_Type task
  /\ if decide (tk_Type task = JobExec) then jb_Argv job = tk_Argv task /\ jb_WorkingDir job = firstNonEmpty [tk_WorkingDir task; wd]
     else jb_Path job = tk_Path task /\ jb_CreateParents job = tk_CreateParents task
          /\ jb_Mode job = (if decide (tk_Mode task = 0) then if decide (tk_Type task = JobMkdir) then 493 else 420 else tk_Mode task)
          /\ (tk_Type task = JobWriteFile -> jb_ContentsBase64 job = tk_ContentsBase64 task).

(** What the agent asks of a task besides: no setuid or setgid bit, no more bytes in all than its limit, a command
    that is not empty. *)
Definition agent_takes (acfg : AgentServer.Config) (uploaded : Z) (task : Task) : Prop :=
  if decide (tk_Type task = JobExec) then head (tk_Argv task) <> Some ""
  else Z.land (tk_Mode task) 3072 = 0
       /\ (tk_Type task = JobWriteFile ->
           forall c, DecodeString (tk_ContentsBase64 task) = Ok c -> uploaded_after uploaded c <= MaxBodyBytes acfg).

Lemma safeMode_task mode fallback :
  Z.land fallback 3072 = 0 -> is_Ok (safeMode (if decide (mode = 0) then fallback else mode) fallback) = true <-> Z.land mode 3072 = 0.
Proof.
  intros Hf. unfold safeMode. destruct (decide (mode = 0)) as [->|Hm].
  - rewrite Z.land_0_l. assert (Hff : (if decide (fallback = 0) then fallback else fallback) = fallback) by (by case_decide).
    rewrite Hff, decide_False by (by intros []). done.
  - rewrite (decide_False (P := mode = 0)) by done. by case_decide; simpl; split; try done; apply dec_stable.
Qed.

Lemma task_job_of limits wd task job : task_job limits wd task = Ok job -> job_of wd task job.
Proof.
  unfold task_job, job_of, mbind, outcome_bind. intros E. case_decide as H1; [|case_decide as H2; [|case_decide as H3; [|done]]].
  - destruct (validateWorkspacePath _); [|done..]. injection E as <-. by rewrite H1.
  - destruct (validateWorkspacePath _); [|done..]. destruct (decodedBase64Len _); [|done..]. case_decide; [done|]. injection E as <-. by rewrite H2.
  - case_decide; [done|]. destruct (validateWorkspacePath _); [|done..]. injection E as <-. by rewrite H3.

Qed.

(** A translated job passes the agent's checks exactly when the agent takes the task. *)
Lemma task_agent_admits limits acfg wd task job uploaded :
  MaxWriteFileBytes limits <= AgentServer.MaxFileBytes acfg -> task_job limits wd task = Ok job ->
  agent_admits acfg "/workspace" uploaded job <-> agent_takes acfg uploaded task.
Proof.
  intros Hl E. pose proof (task_job_Ok limits wd task) as HC. rewrite E in HC. destruct HC as [_ HC].
  pose proof (task_job_of _ _ _ _ E) as [Ht HJ]. unfold agent_admits, agent_takes.
  unfold job_checked in HC. rewrite Ht in *. set (ty := tk_Type task) in *. clearbody ty. clear E.
  destruct HC as [(-> & HP)|[(-> & HP & c & HD & HM)|(-> & HA & HP)]]; simpl in *.
  - destruct HJ as (_ & _ & -> & _). rewrite HP, safeMode_task by done. naive_solver.
  - destruct HJ as (_ & _ & -> & <-); [|done]. rewrite HP, safeMode_task, HD by done. split.
    + intros (_ & ? & c' & [= <-] & _ & ?). split; [done|]. by intros _ ? [= <-].
    + intros [? HU]. split_and!; [done..|]. exists c. split_and!; [done|lia|by apply HU].
  - destruct HJ as [HJ Hw]. rewrite <- HJ. split; [by intros (_ & _ & ? & _)|]. intros Hne. split_and!; [done|by destruct (jb_Argv job)|done|].
    rewrite decide_False by (intros E0; by rewrite E0 in HP). by rewrite HP.
Qed.

Lemma task_jobs_each limits wd tasks jobs :
  task_jobs limits wd tasks = Ok jobs -> Forall2 (fun task job => task_job limits wd task = Ok job) tasks jobs.
Proof.
  revert jobs. induction tasks as [|task tasks IH]; intros jobs; cbn [task_jobs]; [by intros [= <-]|].
  unfold mbind, outcome_bind. destruct (task_job limits wd task) as [job|e|v] eqn:E; [|done..].
  destruct (task_jobs limits wd tasks) as [rest|e|v]; [|done..]. intros [= <-]. constructor; [done|by apply IH].
Qed.

(** C29: what the daemon admits reaches the agent's work: its check of a path is the agent's, for every path; a list of
    tasks is translated exactly when each is a directory or a file under the workspace, the file's contents
    valid base64 within the limit, or a command with arguments in a directory under the workspace. Then there is
    a job for each task, after one that makes the workspace, and it is refused by an agent whose limit of a
    file is no less, with nothing touched, exactly when the task's mode has a setuid or setgid bit, its
    command is the empty string, or its file takes the upload over the agent's limit: the three things the
    daemon does not check. Otherwise the agent goes on to the job's work on the file system. *)
Theorem tasks_reach_the_agent limits tasks wd acfg cmd_Run :
  MaxWriteFileBytes limits <= AgentServer.MaxFileBytes acfg ->
  (forall path, validateWorkspacePath path = Ok tt <-> safePath "/workspace" path = Ok (Clean path))
  /\ match tasksToJobs limits tasks wd with
     | Ok jobs => Forall (task_ok limits wd) tasks /\ exists rest, jobs = job_mkdir "/workspace" 493 :: rest
         /\ Forall2 (fun task job => job_of wd task job /\ forall uploaded defaults w,
              (agent_takes acfg uploaded task -> exists up,
                 runJob acfg cmd_Run "/workspace" defaults job uploaded w
                 = (r ← job_work acfg cmd_Run "/workspace" defaults job; mret (r, up)) w)
              /\ (~ agent_takes acfg uploaded task -> exists err up,
                 runJob acfg cmd_Run "/workspace" defaults job uploaded w = (Ok (fail_ (tk_Type task) err, up), w))) tasks rest
     | Err _ => ~ Forall (task_ok limits wd) tasks
     | Panic _ => False
     end.
Proof.
  intros Hl. split; [intros path; by rewrite validateWorkspacePath_Ok, under_workspace_agent|].
  pose proof (task_jobs_Ok limits wd tasks) as HT. unfold tasksToJobs, mbind at 1, outcome_bind.
  destruct (task_jobs limits wd tasks) as [jobs|e|v] eqn:E; [|done..]. destruct HT as (HF & _). split; [done|].
  exists jobs. split; [done|]. apply task_jobs_each in E. eapply Forall2_impl; [exact E|]. intros task job Ej.
  pose proof (task_job_of _ _ _ _ Ej) as Hof. split; [done|]. intros uploaded defaults w.
  rewrite <- (task_agent_admits _ _ _ _ _ uploaded Hl Ej), <- (proj1 Hof). apply runJob_admission.
Qed.

(** ** Requests within the limits *)

(** A request the daemon of the configuration [cfg] takes. *)
Definition request_ok (cfg : Config) (req : RunRequest) : Prop :=
  let l := dc_Limits cfg in
  rq_ImageRef req <> "" /\ rq_Tasks req <> [] /\ Z.of_nat (length (rq_Tasks req)) <= MaxTasks l
  /\ rq_TimeoutMillis req <= MaxTimeoutMillis l
  /\ VCPUCount (rq_Machine req) <= MaxVCPUCount l /\ MemSizeMiB (rq_Machine req) <= MaxMemSizeMiB l
  /\ Forall (task_ok l (firstNonEmpty [rq_Workdir req; "/workspace"])) (rq_Tasks req)
  /\ rq_SnapshotMode req ∈ [""; "disabled"; "auto"].

(** What the manager may be asked for on behalf of anyone. *)
Definition manager_request_ok (cfg : Config) (r : Manager.RunRequest) : Prop :=
  let l := dc_Limits cfg in
  0 < mq_Timeout r <= MaxTimeoutMillis l * Millisecond
  /\ 0 < VCPUCount (mq_MachineConfig r) <= MaxVCPUCount l /\ 0 < MemSizeMiB (mq_MachineConfig r) <= MaxMemSizeMiB l
  /\ Z.of_nat (length (mq_Jobs r)) <= 1 + MaxTasks l /\ Forall (job_checked l) (mq_Jobs r)
  /\ jd_MaxOutputBytes (mq_Defaults r) = MaxOutputBytes l
  /\ jd_TimeoutMillis (mq_Defaults r) * Millisecond = mq_Timeout r
  /\ (mq_KernelPath r, mq_BootImagePath r, mq_FirecrackerPath r, mq_Jailer r)
     = (dc_KernelPath cfg, dc_BootImagePath cfg, dc_FirecrackerPath cfg, FirecrackerJailer cfg)
  /\ mq_SnapshotDir r ∈ [""; dc_SnapshotDir cfg] /\ mq_Snapshot r = None /\ mq_Workspace r = "/workspace".

Lemma millis_exact n max : 0 < n <= max -> max * Millisecond <= int64_max -> millis n = n * Millisecond.
Proof. intros Hn Hm. unfold millis. apply wrap64_id. unfold Millisecond, in_int64, int64_min in *. lia. Qed.

Lemma or_positive_le x d max : d <= max -> (or_positive x d <= max <-> x <= max) \/ max < 0.
Proof. unfold or_positive. intros. case_decide; lia. Qed.

Lemma managerRunRequest_spec GOARCH cfg req :
  config_complete cfg -> MaxTimeoutMillis (dc_Limits cfg) * Millisecond <= int64_max ->
  match managerRunRequest GOARCH cfg req with
  | Ok r => request_ok cfg req /\ manager_request_ok cfg r /\ mq_ImageRef r = rq_ImageRef req
  | Err _ => ~ request_ok cfg req
  | Panic _ => False
  end.
Proof.
  intros (_ & _ & _ & _ & _ & Hv & Hm & Ht & _ & Hn & _ & _) Hmax. unfold managerRunRequest, request_ok.
  case_decide as H1; [by intros [? _]|]. case_decide as H2; [by intros (_ & ? & _)|].
  case_decide as H3; [intros (_ & _ & ? & _); lia|].
  assert (HT : forall d, 0 < d <= MaxTimeoutMillis (dc_Limits cfg) -> 0 < or_positive (rq_TimeoutMillis req) d) by (intros d [? _]; by apply or_positive_pos).
  specialize (HT (MaxTimeoutMillis (dc_Limits cfg)) ltac:(lia)). set (tm := or_positive (rq_TimeoutMillis req) _) in *.
  case_decide as H4.
  { intros (_ & _ & _ & Hq & _). subst tm. unfold or_positive in H4. case_decide; lia. }
  assert (Htm : rq_TimeoutMillis req <= MaxTimeoutMillis (dc_Limits cfg)) by (subst tm; unfold or_positive in H4; case_decide; lia).
  set (vc := or_positive (VCPUCount _) _). set (ms := or_positive (MemSizeMiB _) _).
  assert (Hvc : 0 < vc /\ (vc <= MaxVCPUCount (dc_Limits cfg) <-> VCPUCount (rq_Machine req) <= MaxVCPUCount (dc_Limits cfg)))
    by (subst vc; unfold or_positive; case_decide; lia).
  assert (Hms : 0 < ms /\ (ms <= MaxMemSizeMiB (dc_Limits cfg) <-> MemSizeMiB (rq_Machine req) <= MaxMemSizeMiB (dc_Limits cfg)))
    by (subst ms; unfold or_positive; case_decide; lia).
  cbn [VCPUCount MemSizeMiB]. case_decide as H5; [intros (_ & _ & _ & _ & ? & ? & _); lia|].
  unfold tasksToJobs, mbind, outcome_bind.
  pose proof (task_jobs_Ok (dc_Limits cfg) (firstNonEmpty [rq_Workdir req; "/workspace"]) (rq_Tasks req)) as HJ.
  destruct (task_jobs _ _ _) as [jobs|e|v]; [|intros (_ & _ & _ & _ & _ & _ & HF & _); by apply HJ|done].
  destruct HJ as (HF & HA & HL).
  assert (HM : forall mode, firstNonEmpty [rq_SnapshotMode req; "disabled"] = mode ->
    (mode = "disabled" \/ mode = "auto") <-> rq_SnapshotMode req ∈ [""; "disabled"; "auto"]).
  { intros mode <-. simpl. repeat case_decide; set_solver. }
  specialize (HM _ eq_refl). set (mode := firstNonEmpty _) in *.
  assert (HG : forall dir, dir ∈ [""; dc_SnapshotDir cfg] -> manager_request_ok cfg
    {| mq_ImageRef := rq_ImageRef req; mq_Platform := hostPlatform GOARCH; mq_Command := []; mq_KernelPath := dc_KernelPath cfg;
       mq_BootImagePath := dc_BootImagePath cfg; mq_FirecrackerPath := dc_FirecrackerPath cfg; mq_Jailer := FirecrackerJailer cfg;
       mq_MachineConfig := {| VCPUCount := vc; MemSizeMiB := ms |}; mq_Workspace := "/workspace";
       mq_Workdir := firstNonEmpty [rq_Workdir req; "/workspace"]; mq_UID := rq_UID req; mq_GID := rq_GID req;
       mq_Defaults := {| jd_UID := Some (rq_UID req); jd_GID := Some (rq_GID req); jd_Env := []; jd_TimeoutMillis := tm;
                         jd_MaxOutputBytes := MaxOutputBytes (dc_Limits cfg) |};
       mq_Jobs := job_mkdir "/workspace" 493 :: jobs; mq_Timeout := millis tm; mq_SnapshotDir := dir; mq_Snapshot := None;
       mq_CleanupJailer := dc_CleanupJailer cfg |}).
  { intros dir Hd. unfold manager_request_ok. cbn. rewrite (millis_exact tm (MaxTimeoutMillis (dc_Limits cfg))) by lia.
    split_and!; try done; try lia; try (unfold Millisecond; lia).
    constructor; [|done]. left. split; [done|]. by vm_compute. }
  case_decide as H6; [|case_decide as H7].
  - split_and!; [done|done|lia|done|lia|lia|done|by apply HM; left|apply HG; set_solver|done].
  - split_and!; [done|done|lia|done|lia|lia|done|by apply HM; right|apply HG; set_solver|done].
  - intros (_ & _ & _ & _ & _ & _ & _ & Hmode). by apply HM in Hmode as [?|?].
Qed.

(** C14: a run request is taken exactly when it is within the daemon's limits ([request_ok]); what the manager is then
    asked for is within them too: a positive timeout, machine, number of jobs and output limit under the
    configured maxima, jobs the daemon has checked, and every host path and the jailer the configured
    ones, whatever the request holds. No duration wraps when the greatest fits in an [int64]. *)
Theorem managerRunRequest_limits GOARCH cfg req :
  config_complete cfg -> MaxTimeoutMillis (dc_Limits cfg) * Millisecond <= int64_max ->
  match managerRunRequest GOARCH cfg req with
  | Ok r => request_ok cfg req /\ manager_request_ok cfg r /\ mq_ImageRef r = rq_ImageRef req
  | Err _ => ~ request_ok cfg req
  | Panic _ => False
  end.
Proof. apply managerRunRequest_spec. Qed.

Section demo.
Abbreviation demo_task := {| tk_Type := JobWriteFile; tk_Path := "/workspace/src/../main.py"; tk_Mode := 0; tk_ContentsBase64 := "cHJpbnQoJ2hpJykK";
  tk_CreateParents := false; tk_Argv := []; tk_WorkingDir := "" |}.
Abbreviation demo_request timeout := {| rq_ImageRef := "python:3"; rq_Tasks := [demo_task]; rq_Workdir := ""; rq_UID := 0; rq_GID := 0;
  rq_TimeoutMillis := timeout; rq_SnapshotMode := "auto"; rq_Machine := {| VCPUCount := 0; MemSizeMiB := 512 |} |}.

Abbreviation empty_command := {| tk_Type := JobExec; tk_Path := ""; tk_Mode := 0; tk_ContentsBase64 := ""; tk_CreateParents := false;
  tk_Argv := [""]; tk_WorkingDir := "" |}.
Abbreviation demo_agent := {| Workspace := "/workspace"; MaxBodyBytes := DefaultMaxBodyBytes; MaxFileBytes := DefaultMaxFileBytes;
  AgentServer.MaxOutputBytes := DefaultMaxOutputBytes; DefaultTimeout := DefaultTimeout_; DefaultUID := 1000; DefaultGID := 1000;
  Shutdown := true; ShutdownAfterJobs := true |}.
Abbreviation no_command := (fun _ : Command => fail (Errorf "no command" [])).

(** Of a file and an empty command the first gets to work, and the second is refused. *)
Lemma tasks_reach_the_agent_witness :
  exists write exec, tasksToJobs (dc_Limits DefaultConfig) [demo_task; empty_command] "/workspace" = Ok [job_mkdir "/workspace" 493; write; exec]
  /\ forall defaults w,
     (exists up, runJob demo_agent no_command "/workspace" defaults write 0 w
                 = (r ← job_work demo_agent no_command "/workspace" defaults write; mret (r, up)) w)
     /\ exists err up, runJob demo_agent no_command "/workspace" defaults exec 0 w = (Ok (fail_ JobExec err, up), w).
Proof.
  pose proof (tasks_reach_the_agent (dc_Limits DefaultConfig) [demo_task; empty_command] "/workspace" demo_agent no_command) as H.
  assert (E : exists write exec, tasksToJobs (dc_Limits DefaultConfig) [demo_task; empty_command] "/workspace"
    = Ok [job_mkdir "/workspace" 493; write; exec]) by (do 2 eexists; vm_compute; reflexivity).
  destruct E as (write & exec & E). exists write, exec. split; [exact E|]. intros defaults w. rewrite E in H.
  destruct H as [_ (_ & rest & [= <-] & HF)]; [vm_compute; discriminate|].
  apply Forall2_cons in HF as [[_ HW] HF]. apply Forall2_cons in HF as [[_ HX] _]. split.
  - apply (HW 0 defaults w). split; [reflexivity|]. intros _ c Hc.
    assert (Hd : exists d, DecodeString "cHJpbnQoJ2hpJykK" = Ok d /\ uploaded_after 0 d <= DefaultMaxBodyBytes)
      by (eexists; split; [vm_compute; reflexivity|vm_compute; discriminate]).
    destruct Hd as (d & Hd & Hle). cbn [tk_ContentsBase64] in Hc. rewrite Hd in Hc. injection Hc as <-. exact Hle.
  - apply (HX 0 defaults w). vm_compute. intros Hn. by apply Hn.
Defined.

Lemma DefaultConfig_complete : config_complete DefaultConfig.
Proof. apply applyDefaults_Validate. vm_compute. reflexivity. Defined.

Lemma managerRunRequest_limits_witness :
  (exists r, managerRunRequest "amd64" DefaultConfig (demo_request 0) = Ok r /\ manager_request_ok DefaultConfig r)
  /\ ~ request_ok DefaultConfig (demo_request 60001).
Proof.
  split.
  - pose proof (managerRunRequest_limits "amd64" DefaultConfig (demo_request 0) DefaultConfig_complete) as H.
    assert (E : exists r, managerRunRequest "amd64" DefaultConfig (demo_request 0) = Ok r) by (eexists; vm_compute; reflexivity).
    destruct E as [r E]. exists r. rewrite E in H. destruct H as (_ & H & _); [vm_compute; discriminate|]. split; [exact E|exact H].
  - pose proof (managerRunRequest_limits "amd64" DefaultConfig (demo_request 60001) DefaultConfig_complete) as H.
    assert (E : exists e, managerRunRequest "amd64" DefaultConfig (demo_request 60001) = Err e) by (eexists; vm_compute; reflexivity).
    destruct E as [e E]. rewrite E in H. apply H. vm_compute. discriminate.
Defined.
End demo.

(** What the command line calls: a configuration file's daemon that passed [LoadConfig] starts. *)
Lemma LoadConfig_New `{ConfigUnmarshal} GOARCH path w cfg w' :
  LoadConfig path w = (Ok cfg, w') -> exists s, New GOARCH cfg = Ok s /\ ds_Config s = cfg.
Proof.
  unfold LoadConfig. intros E. run_Ok E. injection E as <- _. injection E2 as E2 _. destruct a1.
  unfold New, mbind, outcome_bind. rewrite applyDefaults_idem, E2. by eexists.
Qed.
