(* ===== verification/Api.v ===== *)
(** * The daemon's API

    [internal/server/server.go], from [Handler] and [Register] down to the handlers of [Server]: the
    operations, the handler each is given, and what becomes of a panic. Routing, decoding, what the tags of the
    input types ask for and fill in, and the encoding of the answer are [huma]'s and [net/http]'s: the class
    [Huma]. *)

From S2P Require Import Prelude GoPath GoBase64 Sha256 HostFS Confine FileLaws Entries Below Config ContentStore Oci FileLock Rootfs Runtime.
From S2P Require Import AgentApi AgentServer AgentConfinement AgentClient Firecracker Manager Server.
Local Open Scope Z_scope.

(** ** Operations *)

Record Operation := { OperationID : string; Method : string; Path : string }.

(** [Register] *)
Definition operations : list Operation := [
  {| OperationID := "health"; Method := "GET"; Path := "/healthz" |};
  {| OperationID := "prepare-image"; Method := "POST"; Path := "/v1/images/prepare" |};
  {| OperationID := "list-images"; Method := "GET"; Path := "/v1/images" |};
  {| OperationID := "delete-image"; Method := "DELETE"; Path := "/v1/images/{chain_id}" |};
  {| OperationID := "create-snapshot"; Method := "POST"; Path := "/v1/snapshots" |};
  {| OperationID := "list-snapshots"; Method := "GET"; Path := "/v1/snapshots" |};
  {| OperationID := "delete-snapshot"; Method := "DELETE"; Path := "/v1/snapshots/{chain_id}" |};
  {| OperationID := "run"; Method := "POST"; Path := "/v1/runs" |}].

(** The mux and the document take each name and each route once. *)
Example operations_distinct :
  NoDup (OperationID <$> operations) /\ NoDup ((fun op => (Method op, Path op)) <$> operations).
Proof. split; by_decision. Qed.

(** A call of an operation, with its input. *)
Inductive api_call :=
| CallHealth
| CallPrepareImage (imageRef : string)
| CallListImages
| CallDeleteImage (chainID : string)
| CallCreateSnapshot (imageRef : string)
| CallListSnapshots
| CallDeleteSnapshot (chainID : string)
| CallRun (body : Server.RunRequest).

Definition call_operation (call : api_call) : string :=
  match call with
  | CallHealth => "health" | CallPrepareImage _ => "prepare-image" | CallListImages => "list-images" | CallDeleteImage _ => "delete-image"
  | CallCreateSnapshot _ => "create-snapshot" | CallListSnapshots => "list-snapshots" | CallDeleteSnapshot _ => "delete-snapshot"
  | CallRun _ => "run"
  end.

(** ** Answers *)

(** [huma] and the mux below it: the status they answer a request with themselves (a route that is not there, a
    body that is too large, does not decode or does not fit its type's tags), or the operation they call, with
    the input they decoded, checked and filled in; and the status they give a handler's reply. *)
Class Huma := {
  huma_Request : Type;
  huma_input : huma_Request -> Z + api_call;
  huma_status : forall A, reply A -> Z
}.
Arguments huma_status {_ _} _.

(** What it documents of the status: the one of an error that has one, 500 for another error, 200 for a body. *)
Class HumaLaws `{Huma} : Prop := {
  huma_bad_request A msg : huma_status (Error400BadRequest (A := A) msg) = 400;
  huma_failed A err : huma_status (Failed (A := A) err) = 500;
  huma_body A (a : A) : huma_status (Body a) = 200
}.

(** [huma]'s or the mux's own answer, [http.StatusInternalServerError] after a panic, or a handler's reply. *)
Inductive answer :=
| ByHuma (status : Z)
| Recovered
| Health (r : reply bool)
| Image (r : reply Manager.PreparedImage)
| Images (r : reply (list Manager.PreparedImage))
| Deleted (r : reply bool)
| Snapshot (r : reply SnapshotArtifact)
| Snapshots (r : reply (list SnapshotInfo))
| Ran (r : reply runOutput).

Definition status `{Huma} (a : answer) : Z :=
  match a with
  | ByHuma status => status
  | Recovered => 500
  | Health r | Deleted r => huma_status r
  | Image r => huma_status r | Images r => huma_status r | Snapshot r => huma_status r | Snapshots r => huma_status r
  | Ran r => huma_status r
  end.

(** [recoverPanics] *)
Definition recoverPanics {S} (next : GoM S answer) : GoM S answer := fun s =>
  match next s with
  | (Panic _, s') => (Ok Recovered, s')
  | r => r
  end.

Section api.
Context {M : Type} `{VMM M} `{JSONMarshal BatchRequest} `{JSONDecoder BatchResponse}.
Context {Reference : Type} (ParseReference : string -> outcome Reference).
Context (remote_Image : Reference -> Config.Platform -> outcome RemoteImage).
Context `{JSON RawMessage} `{JSON RefMetadata} `{JSON imageManifest} `{JSON Rootfs.Metadata}.
Context `{JSONUnmarshal ImageConfig} `{RootfsImageBuilder}.
Context (os_TempDir : string) (WithTimeout : context -> Z -> context).
Context (exec_LookPath : string -> OS string) (map_order : list (string * string) -> list (string * string)).
Context (GOARCH : string) `{Huma}.
Abbreviation VM := (GoM (host M)).
Variable (s : Server.Server) (fuel : nat).

(** The handlers [Register] gives the operations. *)
Definition dispatch (ctx : nat -> context) (call : api_call) : VM answer :=
  match call with
  | CallHealth => r ← health; mret (Health r)
  | CallPrepareImage imageRef => r ← Server.prepareImage ParseReference remote_Image GOARCH s ctx imageRef; mret (Image r)
  | CallListImages => r ← listImages s ctx; mret (Images r)
  | CallDeleteImage chainID => r ← deleteImage s ctx chainID; mret (Deleted r)
  | CallCreateSnapshot imageRef =>
      r ← Server.createSnapshot ParseReference remote_Image os_TempDir WithTimeout exec_LookPath map_order GOARCH s fuel ctx imageRef;
      mret (Snapshot r)
  | CallListSnapshots => r ← listSnapshots s ctx; mret (Snapshots r)
  | CallDeleteSnapshot chainID => r ← deleteSnapshot s ctx chainID; mret (Deleted r)
  | CallRun body =>
      r ← run ParseReference remote_Image os_TempDir WithTimeout exec_LookPath map_order GOARCH s fuel ctx body;
      mret (Ran r)
  end.

(** [Handler] *)
Definition Handler (ctx : nat -> context) (q : huma_Request) : VM answer :=
  recoverPanics (
    match huma_input q with
    | inl status => mret (ByHuma status)
    | inr call => dispatch ctx call
    end).
End api.

(** ** The statuses *)

(** A handler gives a reply or panics. *)
Definition replies {S A} (m : GoM S A) : Prop := forall s e s', m s <> (Err e, s').
Lemma replies_ret {S A} (a : A) : replies (S := S) (mret a).
Proof. by intros s e s'. Qed.
Lemma replies_bind {S A B} (m : GoM S A) (k : A -> GoM S B) : replies m -> (forall a, replies (k a)) -> replies (m ≫= k).
Proof.
  intros Hm Hk s e s'. unfold mbind, GoM_bind. specialize (Hm s). destruct (m s) as [[a|e'|v] s1]; [apply Hk|by destruct (Hm e' s1)|done].
Qed.
Lemma replies_attempt {S A B} (m : GoM S A) (f : error + A -> B) : replies (r ← attempt m; mret (f r)).
Proof. intros s e s'. unfold attempt, mbind, GoM_bind. by destruct (m s) as [[a|e'|v] s1]. Qed.
Lemma recoverPanics_returns {S} (m : GoM S answer) s : replies m -> exists a s', recoverPanics m s = (Ok a, s').
Proof. intros Hm. unfold recoverPanics. specialize (Hm s). destruct (m s) as [[r|e|v] s']; [eauto|by destruct (Hm e s')|eauto]. Qed.

Section statuses.
Context {M : Type} `{VMM M} `{JSONMarshal BatchRequest} `{JSONDecoder BatchResponse}.
Context {Reference : Type} (ParseReference : string -> outcome Reference).
Context (remote_Image : Reference -> Config.Platform -> outcome RemoteImage).
Context `{JSON RawMessage} `{JSON RefMetadata} `{JSON imageManifest} `{JSON Rootfs.Metadata}.
Context `{JSONUnmarshal ImageConfig} `{RootfsImageBuilder}.
Context (os_TempDir : string) (WithTimeout : context -> Z -> context).
Context (exec_LookPath : string -> OS string) (map_order : list (string * string) -> list (string * string)).
Context (GOARCH : string) `{Huma} (s : Server.Server) (fuel : nat) (ctx : nat -> context).
Abbreviation Handler_ := (Handler (M := M) ParseReference remote_Image os_TempDir WithTimeout exec_LookPath map_order GOARCH s fuel ctx).

Lemma Handler_returns q (h : host M) : exists a h', Handler_ q h = (Ok a, h').
Proof.
  apply recoverPanics_returns. destruct (huma_input q) as [st|call]; [apply replies_ret|].
  destruct call; cbn [dispatch]; (apply replies_bind; [|intros ?; apply replies_ret]); try (apply replies_attempt || apply replies_ret).
  - unfold Server.prepareImage. case_decide; [apply replies_ret|apply replies_attempt].
  - unfold Server.createSnapshot. case_decide; [apply replies_ret|apply replies_attempt].
  - unfold run. destruct (managerRunRequest _ _ _); [apply replies_attempt|apply replies_ret|by intros ???].
Qed.
End statuses.

(** C23: every request sent to the daemon is answered, panics included. What [huma] answers itself it answers without
    anything being touched; a run request it lets through to the handler is answered with 400 exactly when it is
    outside the daemon's limits, also without touching anything; and every other is one run of the manager, with a
    request within the limits: its results are answered with 200, its error, or a panic on its way, with 500. *)
Theorem run_answers {M} `{VMM M} `{JSONMarshal BatchRequest} `{JSONDecoder BatchResponse}
    {Reference} (ParseReference : string -> outcome Reference) remote_Image
    `{JSON RawMessage} `{JSON RefMetadata} `{JSON imageManifest} `{JSON Rootfs.Metadata} `{JSONUnmarshal ImageConfig} `{RootfsImageBuilder}
    os_TempDir WithTimeout exec_LookPath map_order GOARCH `{HumaLaws} s fuel ctx q (h : host M) :
  let cfg := ds_Config s in
  config_complete cfg -> MaxTimeoutMillis (dc_Limits cfg) * Millisecond <= int64_max ->
  exists a h', Handler ParseReference remote_Image os_TempDir WithTimeout exec_LookPath map_order GOARCH s fuel ctx q h = (Ok a, h')
  /\ (forall st, huma_input q = inl st -> status a = st /\ h' = h)
  /\ forall body, huma_input q = inr (CallRun body) ->
     (status a = 400 <-> ~ request_ok cfg body) /\ (status a = 400 -> h' = h)
     /\ (request_ok cfg body ->
         exists req, managerRunRequest GOARCH cfg body = Ok req /\ manager_request_ok cfg req
         /\ match Run ParseReference remote_Image os_TempDir WithTimeout exec_LookPath map_order (ds_Manager s) fuel ctx req h with
            | (Ok result, h1) => h' = h1 /\ status a = 200
                /\ exists out, a = Ran (Body out) /\ ro_Image out = mr_Image result /\ ro_Results out = rr_Results (mr_VM result)
            | (Err e, h1) => h' = h1 /\ status a = 500 /\ a = Ran (Failed e)
            | (Panic _, h1) => h' = h1 /\ status a = 500
            end).
Proof.
  intros cfg Hc Hm. destruct (huma_input q) as [st|call] eqn:EQ.
  { exists (ByHuma st), h. unfold Handler. rewrite EQ. split; [done|]. split; [by intros ? [= <-]|done]. }
  destruct (Handler_returns ParseReference remote_Image os_TempDir WithTimeout exec_LookPath map_order GOARCH s fuel ctx q h) as (a & h' & E).
  exists a, h'. split; [done|]. split; [done|]. intros body [= ->]. unfold Handler in E. rewrite EQ in E. cbn [dispatch] in E.
  unfold run in E. fold cfg in E. pose proof (managerRunRequest_spec GOARCH cfg body Hc Hm) as HR.
  destruct (managerRunRequest GOARCH cfg body) as [req|e|v]; [destruct HR as (HA & HB & _)| |done]; unfold recoverPanics, or_failed, attempt, mbind, GoM_bind in E.
  - destruct (Run _ _ _ _ _ _ _ _ _ _ h) as [[r|e|v] h1] eqn:ER; injection E as <- <-; simpl; rewrite ?huma_body, ?huma_failed.
    all: split; [naive_solver|]; split; [naive_solver|]; intros _; exists req; rewrite ER; split_and!; try done; by eexists (Build_runOutput _ _ _ _ _).
  - injection E as <- <-. simpl. rewrite huma_bad_request. naive_solver.
Qed.

Section demo.
Abbreviation demo_task := {| tk_Type := "mkdir"; tk_Path := "/workspace/out"; tk_Mode := 0; tk_ContentsBase64 := ""; tk_CreateParents := false;
  tk_Argv := []; tk_WorkingDir := "" |}.
Abbreviation demo_command := {| tk_Type := "exec"; tk_Path := ""; tk_Mode := 0; tk_ContentsBase64 := ""; tk_CreateParents := false;
  tk_Argv := ["make"]; tk_WorkingDir := "" |}.
Abbreviation demo_body workdir := {| rq_ImageRef := "alpine"; rq_Tasks := [demo_task; demo_command]; rq_Workdir := workdir; rq_UID := 0; rq_GID := 0;
  rq_TimeoutMillis := 0; rq_SnapshotMode := ""; rq_Machine := {| VCPUCount := 0; MemSizeMiB := 0 |} |}.
#[local] Instance api_marshal : JSONMarshal BatchRequest := fun _ => Ok "{}".
#[local] Instance api_decoder : JSONDecoder BatchResponse := fun _ => Err EOF.
#[local] Instance api_ref_json : JSON RefMetadata := demo_ref_json.
#[local] Instance api_manifest_json : JSON imageManifest := demo_manifest_json.
#[local] Instance api_raw_json : JSON RawMessage := demo_RawMessage.
#[local] Instance api_metadata_json : JSON Rootfs.Metadata := demo_Metadata.
#[local] Instance api_config_json : JSONUnmarshal ImageConfig := demo_Unmarshal.
#[local] Instance api_builder : RootfsImageBuilder := demo_builder.
(** A host where nothing runs. *)
#[local] Instance idle_vmm : VMM unit := {|
  time_Now := fun s => (0, s); uuid_NewString := fun s => ("id", s); sdk_NewMachine := fun _ => fail (Errno ENOENT);
  machine_Start := fail (Errno ENOENT); machine_Wait := mret tt; machine_StopVMM := mret tt; machine_PauseVM := mret tt;
  machine_CreateSnapshot := fun _ _ => mret tt; cmd_Start := fun _ => fail (Errno ENOENT); cmd_Wait := mret tt;
  process_SIGTERM := mret tt; process_Kill := mret tt; api_GetMachineConfiguration := fun _ => fail (Errno ENOENT);
  api_LoadSnapshot := fun _ _ _ => fail (Errno ENOENT); vsock_Do := fun _ _ _ => fail (Errno ENOENT) |}.
(** It refuses a request that has no body, and lets every other through as it is. *)
#[local] Instance api_huma : Huma := {|
  huma_Request := option Server.RunRequest;
  huma_input q := match q with Some body => inr (CallRun body) | None => inl 422 end;
  huma_status _ r := match r with Error400BadRequest _ => 400 | Failed _ => 500 | Body _ => 200 end |}.
#[local] Instance api_huma_laws : HumaLaws.
Proof. by split. Qed.
Abbreviation answered q := (Handler (fun _ => Ok tt) (fun _ _ => Err EOF) "/tmp" (fun c _ => c) (fun _ => fail (Errno ENOENT)) (fun l => l)
  "amd64" {| ds_Config := DefaultConfig; ds_Manager := Manager.New (RuntimeConfig "amd64" DefaultConfig) |} 5 (fun _ _ _ => None) q
  (Host tt empty_world [])).
Abbreviation outside := {| rq_ImageRef := "alpine"; rq_Tasks := [{| tk_Type := "mkdir"; tk_Path := "/workspace/../etc"; tk_Mode := 0; tk_ContentsBase64 := "";
    tk_CreateParents := false; tk_Argv := []; tk_WorkingDir := "" |}]; rq_Workdir := ""; rq_UID := 0; rq_GID := 0;
  rq_TimeoutMillis := 0; rq_SnapshotMode := ""; rq_Machine := {| VCPUCount := 0; MemSizeMiB := 0 |} |}.

(** No body; a path that leaves the workspace; and a run on a host without Firecracker. *)
Lemma run_answers_witness :
  (exists a, fst (answered None) = Ok a /\ status a = 422)
  /\ (exists a, fst (answered (Some outside)) = Ok a /\ status a = 400)
  /\ (exists a, fst (answered (Some (demo_body ""))) = Ok a /\ status a = 500).
Proof.
  assert (HC : config_complete DefaultConfig) by (apply applyDefaults_Validate; vm_compute; reflexivity).
  assert (HM : MaxTimeoutMillis (dc_Limits DefaultConfig) * Millisecond <= int64_max) by (vm_compute; discriminate).
  pose proof (fun q => run_answers (fun _ : string => Ok tt) (fun _ _ => Err EOF) "/tmp" (fun c _ => c) (fun _ => fail (Errno ENOENT)) (fun l => l)
    "amd64" {| ds_Config := DefaultConfig; ds_Manager := Manager.New (RuntimeConfig "amd64" DefaultConfig) |} 5 (fun _ _ _ => None) q
    (Host tt empty_world []) HC HM) as H.
  split_and!.
  - destruct (H None) as (a & h' & E & Hr & _). exists a. rewrite E. split; [done|]. by apply Hr.
  - destruct (H (Some outside)) as (a & h' & E & _ & Hb). exists a. rewrite E. split; [done|]. apply (Hb outside eq_refl).
    intros (_ & _ & _ & _ & _ & _ & [HT _]%Forall_cons & _). destruct HT as [[_ U]|[[? _]|[? _]]]; [|done..].
    apply validateWorkspacePath_Ok in U. revert U. vm_compute. discriminate.
  - destruct (H (Some (demo_body ""))) as (a & h' & E & _). exists a. rewrite E. split; [done|].
    revert E. vm_compute. intros [= <- _]. done.
Defined.
End demo.
