(* ===== verification/EndToEnd.v ===== *)
(** * From a request to the machine and back

    The manager, the runner, the client, a transport that loses messages, and the agent in the machine put
    together: what a run that succeeds says about what happened in the machine, for the manager, for the
    HTTP daemon and for one job at a time. *)

From S2P Require Import Prelude GoPath GoBase64 Sha256 HostFS Confine FileLaws Entries Below Config ContentStore Oci FileLock Rootfs Runtime.
From S2P Require Import AgentApi AgentServer AgentConfinement AgentJobs AgentClient Firecracker VmJobs Manager Server.
Local Open Scope Z_scope.

(** ** What a success says: partial correctness over the machine *)

Section succeeds.
Context {M : Type}.
Abbreviation VM := (GoM (host M)).

(** From a state with [P], a run of [m] that succeeds leaves its value and its state in [Q]. *)
Definition succeeds {A} (P : host M -> Prop) (m : VM A) (Q : A -> host M -> Prop) : Prop :=
  forall h a h', P h -> m h = (Ok a, h') -> Q a h'.

Lemma succeeds_ret {A} (P : host M -> Prop) (a : A) (Q : A -> host M -> Prop) : (forall h, P h -> Q a h) -> succeeds P (mret a) Q.
Proof. intros HQ h a' h' HP [= <- <-]. by apply HQ. Qed.
Lemma succeeds_fail {A} P e (Q : A -> host M -> Prop) : succeeds P (fail e) Q.
Proof. by intros h a h' HP. Qed.
Lemma succeeds_panic {A} P v (Q : A -> host M -> Prop) : succeeds P (panic v) Q.
Proof. by intros h a h' HP. Qed.
Lemma succeeds_bind {A B} P (R : A -> host M -> Prop) (m : VM A) (k : A -> VM B) Q :
  succeeds P m R -> (forall a, succeeds (R a) (k a) Q) -> succeeds P (m ≫= k) Q.
Proof. intros Hm Hk h b h' HP (a & h1 & E & E1)%bind_Ok. eapply Hk; [|done]. by eapply Hm. Qed.

(** A part whose end does not matter. *)
Lemma succeeds_any {A B} P (m : VM A) (k : A -> VM B) Q : (forall a, succeeds (fun _ => True) (k a) Q) -> succeeds P (m ≫= k) Q.
Proof. intros Hk. apply (succeeds_bind P (fun _ _ => True)); [done|done]. Qed.

(** A part that keeps what is known. *)
Definition stable (R : host M -> host M -> Prop) (P : host M -> Prop) : Prop := forall h h', R h h' -> P h -> P h'.
Lemma succeeds_keep {A B} R P (m : VM A) (k : A -> VM B) Q :
  stable R P -> preserves R m -> (forall a, succeeds P (k a) Q) -> succeeds P (m ≫= k) Q.
Proof.
  intros HS Hm Hk. apply (succeeds_bind P (fun _ => P)); [|done]. intros h a h' HP E. specialize (Hm h). rewrite E in Hm.
  by eapply HS.
Qed.
Lemma succeeds_defer {A} R P d (m : VM A) (Q : A -> host M -> Prop) :
  (forall a, stable R (Q a)) -> preserves R d -> succeeds P m Q -> succeeds P (defer d m) Q.
Proof.
  intros HS Hd Hm h a h' HP (h1 & E & Ed)%defer_Ok. specialize (Hd h1). rewrite Ed in Hd. eapply HS; [done|by eapply Hm].
Qed.
End succeeds.

(** ** A machine with the agent in it *)

(** What is relied on of the machine: one that started, or was restored, has the agent as it waits for its
    first request, [s0]; reading the clock, stopping and waiting do not touch the agent. *)
Class MachineLaws (X : VMM guest) (s0 : AgentServer.Server) : Prop := {
  start_boots s s' : machine_Start s = (Ok tt, s') -> g_server (fst s') = s0;
  load_boots sock state mem s s' : api_LoadSnapshot sock state mem s = (Ok tt, s') -> g_server (fst s') = s0;
  clock_still s : g_server (fst (snd (time_Now s))) = g_server (fst s);
  stop_still s : g_server (fst (snd (machine_StopVMM s))) = g_server (fst s);
  wait_still s : g_server (fst (snd (machine_Wait s))) = g_server (fst s);
  term_still s : g_server (fst (snd (process_SIGTERM s))) = g_server (fst s);
  exit_still s : g_server (fst (snd (cmd_Wait s))) = g_server (fst s);
  kill_still s : g_server (fst (snd (process_Kill s))) = g_server (fst s)
}.

Section machine.
Context `{StrictDecoder BatchRequest} `{JSONMarshal BatchRequest} `{JSONDecoder BatchResponse}.
Context (encode_response : BatchResponse -> string) (cmd_Run : Command -> OS RunOutcome).
Context (X : VMM guest) (s0 : AgentServer.Server) `{!MachineLaws X s0}.
Hypothesis fresh : sv_usedJobs s0 = false.
#[local] Instance machine : VMM guest | 0 := guest_vmm (X := X) encode_response cmd_Run.
Abbreviation VM := (GoM (host guest)).

(** The agent is the same. *)
Definition same_agent (h h' : host guest) : Prop := g_server (hs_vmm h') = g_server (hs_vmm h).
#[local] Instance same_agent_preorder : PreOrder same_agent.
Proof. split; [done|]. intros h1 h2 h3 E1 E2. unfold same_agent in *. congruence. Qed.

Lemma same_agent_on_host {A} (m : OS A) : preserves same_agent (on_host m).
Proof. intros h. unfold on_host. by destruct (m (hs_fs h)). Qed.
Lemma same_agent_clock : preserves same_agent (given time_Now).
Proof.
  intros h. unfold given, same_agent. pose proof (clock_still (hs_vmm h, hs_fs h)) as E.
  change (@time_Now guest machine) with (@time_Now guest X). by destruct (time_Now _) as [a [v w]].
Qed.
Lemma same_agent_on_vmm {A} (m : GoM (guest * world) A) :
  (forall s, g_server (fst (snd (m s))) = g_server (fst s)) -> preserves same_agent (on_vmm m).
Proof. intros Hm h. specialize (Hm (hs_vmm h, hs_fs h)). unfold on_vmm, same_agent. by destruct (m _) as [o [v w]]. Qed.
Lemma same_agent_recorded {A} c (m : GoM (guest * world) A) :
  (forall s, g_server (fst (snd (m s))) = g_server (fst s)) -> preserves same_agent (recorded c m).
Proof. intros Hm h. specialize (Hm (hs_vmm h, hs_fs h)). unfold recorded, same_agent. by destruct (m _) as [o [v w]]. Qed.
Lemma same_agent_stop : preserves same_agent (recorded CStop machine_StopVMM).
Proof. apply same_agent_recorded, (stop_still (X := X)). Qed.
Lemma same_agent_term : preserves same_agent (recorded CTerm process_SIGTERM).
Proof. apply same_agent_recorded, (term_still (X := X)). Qed.
Lemma same_agent_kill : preserves same_agent (recorded CKill process_Kill).
Proof. apply same_agent_recorded, (kill_still (X := X)). Qed.
Lemma same_agent_wait : preserves same_agent (on_vmm machine_Wait).
Proof. apply same_agent_on_vmm, (wait_still (X := X)). Qed.
Lemma same_agent_exit : preserves same_agent (on_vmm cmd_Wait).
Proof. apply same_agent_on_vmm, (exit_still (X := X)). Qed.
#[local] Hint Resolve same_agent_on_host same_agent_clock same_agent_stop same_agent_term same_agent_kill same_agent_wait
  same_agent_exit : go_preserves.

(** A fresh agent waits; and [r] is the response of its one run of [req], which left it as it is. *)
Definition waiting (h : host guest) : Prop := g_server (hs_vmm h) = s0.
Definition served (req : BatchRequest) (r : BatchResponse) (h : host guest) : Prop :=
  exists status, runBatch (sv_cfg s0) cmd_Run req (sv_fs s0) = (Ok (r, status), sv_fs (g_server (hs_vmm h))) /\ 200 <= status < 300.

Lemma waiting_stable : stable same_agent waiting.
Proof. unfold stable, same_agent, waiting. congruence. Qed.
Lemma served_stable req r : stable same_agent (served req r).
Proof. unfold stable, same_agent, served. intros h h' ->. done. Qed.
#[local] Hint Resolve waiting_stable served_stable : core.

Lemma succeeds_start {B} c (m : GoM (guest * world) unit) (k : unit -> VM B) (P : host guest -> Prop) (Q : B -> host guest -> Prop) :
  (forall s s', m s = (Ok tt, s') -> g_server (fst s') = s0) -> (forall a, succeeds waiting (k a) Q) -> succeeds P (recorded c m ≫= k) Q.
Proof.
  intros Hm Hk. apply (succeeds_bind P (fun _ => waiting)); [|done]. intros h [] h' _. unfold recorded.
  destruct (m (hs_vmm h, hs_fs h)) as [o [v w]] eqn:E. intros [= -> <-]. by apply Hm in E.
Qed.

Lemma succeeds_load {B} c f (m : GoM (guest * world) unit) (k : unit -> VM B) (P : host guest -> Prop) (Q : B -> host guest -> Prop) :
  (forall s s', m s = (Ok tt, s') -> g_server (fst s') = s0) -> (forall a, succeeds waiting (k a) Q) ->
  succeeds P (wrap_err f (recorded c m) ≫= k) Q.
Proof.
  intros Hm Hk h b h' HP E. eapply (succeeds_start c m k P Q Hm Hk h b h' HP). revert E. unfold mbind, GoM_bind, wrap_err.
  by destruct (recorded c m h) as [[a|e|v] h1].
Qed.

#[local] Ltac keep := apply (succeeds_keep same_agent); [by eauto | by solve_preserves | intros ?].

(** The batch a request has sent to its machine. *)
Definition batch_of (q : StartVMRequest) : BatchRequest :=
  batch_request (if decide (sv_Workspace q = "") then "/workspace" else sv_Workspace q) (sv_Defaults q) (sv_Jobs q).

Section batch.
Variable q : StartVMRequest.
Variable body : string.
Hypothesis agreed : agreement encode_response cmd_Run s0 (batch_of q) body.
Abbreviation answered := (served (batch_of q)).
(** A result of a run that was not timed out is the agent's answer. *)
Definition result_served (r : Firecracker.RunResult * option error) (h : host guest) : Prop :=
  snd r = None -> exists resp, answered resp h /\ rr_Results (fst r) = Results resp.

Lemma result_served_stable r : stable same_agent (result_served r).
Proof. intros h h' Hs Hr Hn. destruct (Hr Hn) as (resp & ? & ?). exists resp. split; [|done]. by eapply served_stable. Qed.
#[local] Hint Resolve result_served_stable : core.

Lemma succeeds_send fuel ctx i path :
  succeeds waiting (retryJobs fuel ctx i path (batch_of q)) (fun r h => snd r = None -> exists resp, fst r = Some resp /\ answered resp h).
Proof.
  intros h [resp e] h' Hw E. destruct agreed as [A1 A2 A3 A4].
  apply (send_fresh encode_response cmd_Run s0 _ body fresh A1 A2 A3 A4) in E; [|done]. simpl in *. intros ->.
  destruct E as [(_ & [? [=]] & _)|(r & status & [Hb _] & -> & He & _)]. exists r. split; [done|]. exists status. split; [done|by apply He].
Qed.

(** From the boot on: the batch is sent, and what follows keeps the agent. *)
Lemma succeeds_sent {B} fuel ctx path (k : option BatchResponse * option error -> VM B) Q :
  (forall resp, succeeds (answered resp) (k (Some resp, None)) Q) -> (forall r err, succeeds (fun _ => True) (k (r, Some err)) Q) ->
  succeeds waiting (retryJobs fuel ctx 0 path (batch_of q) ≫= k) Q.
Proof.
  intros Hok Herr. eapply succeeds_bind; [apply succeeds_send|]. intros [r [err|]]; [by intros h b h' _; apply Herr|].
  intros h b h' Hr. destruct (Hr eq_refl) as (resp & Hrr & Ha). simpl in Hrr. subst r. by apply Hok.
Qed.

Lemma succeeds_await_jobs fuel runCtx req path vm timings start :
  batch_request (sv_Workspace req) (sv_Defaults req) (sv_Jobs req) = batch_of q ->
  succeeds waiting (await_jobs fuel runCtx req path vm timings start) result_served.
Proof.
  intros Hb. unfold await_jobs. rewrite Hb. keep. apply succeeds_sent.
  - intros resp. keep. destruct (runCtx 1%nat 0%nat); [keep; apply succeeds_ret; by intros h _ [=]|].
    do 5 keep. apply succeeds_ret. intros h Ha _. by exists resp.
  - intros r err. apply succeeds_any. intros ?. destruct (runCtx 1%nat 0%nat), r; apply succeeds_any; intros ?.
    all: first [apply succeeds_fail | apply succeeds_ret; by intros h _ [=]].
Qed.

Lemma succeeds_startFromSnapshot fuel ctx req snapshot start os_TempDir WithTimeout :
  batch_request (sv_Workspace req) (sv_Defaults req) (sv_Jobs req) = batch_of q ->
  succeeds (fun _ => True) (startFromSnapshot os_TempDir WithTimeout fuel ctx req snapshot start) result_served.
Proof.
  intros Hb. unfold startFromSnapshot. do 2 (apply succeeds_any; intros ?). apply (succeeds_defer same_agent); [by eauto|by solve_preserves|].
  do 4 (apply succeeds_any; intros ?). apply (succeeds_defer same_agent); [by eauto|by solve_preserves|].
  do 4 (apply succeeds_any; intros ?). eapply succeeds_load; [intros s s'; apply (load_boots (X := X))|intros ?]. keep. rewrite Hb. apply succeeds_sent.
  - intros resp. do 6 keep. apply succeeds_ret. intros h Ha _. by exists resp.
  - intros r err. destruct r; apply succeeds_any; intros ?; apply succeeds_fail.
Qed.

Lemma succeeds_jailer_logs {A} P jailer p1 p2 (k : writer -> writer -> VM A) (Q : A -> host guest -> Prop) :
  (forall a, stable same_agent (Q a)) -> (forall a b, succeeds (fun _ => True) (k a b) Q) -> succeeds P (jailer_logs jailer p1 p2 k) Q.
Proof.
  intros HQ Hk. unfold jailer_logs. destruct jailer; [|by intros h a h' _; apply Hk].
  do 2 (apply succeeds_any; intros ?; apply (succeeds_defer same_agent); [done|by solve_preserves|]). apply Hk.
Qed.

Lemma succeeds_StartVM fuel ctx os_TempDir WithTimeout :
  succeeds (fun _ => True) (StartVM os_TempDir WithTimeout fuel ctx q) result_served.
Proof.
  unfold StartVM. do 4 (apply succeeds_any; intros ?).
  assert (Hb : forall id, let r := with_vm_defaults os_TempDir id q in
    batch_request (sv_Workspace r) (sv_Defaults r) (sv_Jobs r) = batch_of q) by done.
  destruct (sv_Snapshot _); [by apply succeeds_startFromSnapshot|].
  do 9 (apply succeeds_any; intros ?). apply succeeds_jailer_logs; [by eauto|]. intros stdout stderr.
  do 3 (apply succeeds_any; intros ?). apply succeeds_start; [intros s s'; apply (start_boots (X := X))|intros ?].
  keep. by apply succeeds_await_jobs.
Qed.
End batch.

(** *** Through the manager *)

Section manager.
Context {Reference : Type} (ParseReference : string -> outcome Reference).
Context (remote_Image : Reference -> Config.Platform -> outcome RemoteImage).
Context `{JSON RawMessage} `{JSON RefMetadata} `{JSON imageManifest} `{JSON Rootfs.Metadata}.
Context `{JSONUnmarshal ImageConfig} `{RootfsImageBuilder}.
Context (os_TempDir : string) (WithTimeout : context -> Z -> context).
Context (exec_LookPath : string -> OS string) (map_order : list (string * string) -> list (string * string)).

(** The batch the manager makes of a request and an image's configuration. *)
Definition run_batch (req : Manager.RunRequest) (imageConfig : ImageConfig) (jobs : list Job) : BatchRequest :=
  batch_request (firstNonEmpty [mq_Workspace req; "/workspace"])
    (run_defaults req (timeout_or_default (mq_Timeout req)) imageConfig) jobs.

(** Host and agent agree on every batch the request can become, whatever image it is run on. *)
Definition all_agreed (req : Manager.RunRequest) : Prop :=
  forall contents imageConfig jobs, json_Unmarshal contents = Ok imageConfig -> run_jobs req imageConfig = Ok jobs ->
    exists body, agreement encode_response cmd_Run s0 (run_batch req imageConfig jobs) body.

(** What a run that succeeded says of the machine: its results are the answer to the request's batch. *)
Definition run_served (req : Manager.RunRequest) (r : Manager.RunResult) (h : host guest) : Prop :=
  exists imageConfig jobs resp, run_jobs req imageConfig = Ok jobs /\ served (run_batch req imageConfig jobs) resp h
    /\ rr_Results (mr_VM r) = Results resp.

Lemma batch_of_vm_request cfg req resolved prepared imageConfig jobs snapshot :
  batch_of (vm_request cfg req (timeout_or_default (mq_Timeout req)) resolved prepared imageConfig jobs snapshot)
  = run_batch req imageConfig jobs.
Proof. unfold batch_of, vm_request, run_batch. cbn [sv_Workspace sv_Defaults sv_Jobs]. rewrite decide_False; [done|]. simpl. by case_decide. Qed.

Lemma succeeds_Run cfg fuel ctx req :
  all_agreed req ->
  succeeds (fun _ => True) (Run ParseReference remote_Image os_TempDir WithTimeout exec_LookPath map_order cfg fuel ctx req) (run_served req).
Proof.
  intros Hag. unfold Run. do 9 (apply succeeds_any; intros ?). intros h r h' _ E. apply bind_Ok in E as (imageConfig & h1 & EC & E).
  apply bind_Ok in E as (? & h2 & _ & E). apply bind_Ok in E as (jobs & h3 & EJ & E). injection EJ as EJ _.
  assert (HC : exists contents, json_Unmarshal contents = Ok imageConfig).
  { unfold on_host in EC. destruct (readOCIConfig _ _) as [o w'] eqn:ER. injection EC as -> _. unfold readOCIConfig in ER.
    apply bind_Ok in ER as (contents & w1 & _ & ER). injection ER as ER _. eauto. }
  destruct HC as [contents HC]. destruct (Hag contents imageConfig jobs HC EJ) as [body Hb].
  apply bind_Ok in E as (snap & h4 & _ & E). apply bind_Ok in E as ([result oe] & h5 & EV & E).
  eapply succeeds_StartVM in EV; [|rewrite batch_of_vm_request; exact Hb|done].
  destruct oe as [err|]; [done|]. destruct (EV eq_refl) as (resp & Hs & Hr). simpl in Hr. rewrite batch_of_vm_request in Hs.
  clear EV. revert h5 r h' Hs E. match goal with |- forall h5 r h', _ -> ?m h5 = _ -> _ =>
    change (succeeds (served (run_batch req imageConfig jobs) resp) m (run_served req)) end.
  keep. keep. apply succeeds_ret. intros h6 Hs. by exists imageConfig, jobs, resp.
Qed.
End manager.
End machine.

(** ** Through the daemon *)

(** What a request that was taken becomes. *)
Lemma managerRunRequest_jobs GOARCH cfg body req :
  managerRunRequest GOARCH cfg body = Ok req ->
  tasksToJobs (dc_Limits cfg) (rq_Tasks body) (firstNonEmpty [rq_Workdir body; "/workspace"]) = Ok (mq_Jobs req)
  /\ mq_Jobs req <> [] /\ mq_Workspace req = "/workspace"
  /\ jd_UID (mq_Defaults req) = Some (rq_UID body) /\ jd_GID (mq_Defaults req) = Some (rq_GID body)
  /\ jd_TimeoutMillis (mq_Defaults req) = or_positive (rq_TimeoutMillis body) (MaxTimeoutMillis (dc_Limits cfg))
  /\ jd_MaxOutputBytes (mq_Defaults req) = MaxOutputBytes (dc_Limits cfg).
Proof.
  unfold managerRunRequest. do 5 (case_decide; [done|]). unfold mbind, outcome_bind.
  destruct (tasksToJobs _ _ _) as [jobs|e|v] eqn:EJ; [|done..].
  assert (Hne : jobs <> []).
  { intros ->. revert EJ. unfold tasksToJobs, mbind, outcome_bind. by destruct (task_jobs _ _ _). }
  destruct (if decide (_ = "disabled") then _ else _) as [dir|e|v]; [|done..]. by intros [= <-].
Qed.

Lemma tasksToJobs_length limits tasks wd jobs : tasksToJobs limits tasks wd = Ok jobs -> length jobs = S (length tasks).
Proof.
  unfold tasksToJobs, mbind, outcome_bind. pose proof (task_jobs_Ok limits wd tasks) as HT.
  destruct (task_jobs _ _ _) as [l|e|v]; [|done..]. intros [= <-]. simpl. f_equal. apply HT.
Qed.

(** A batch answered with a success had a result for every job, each of them OK. *)
Lemma runBatch_success cfg cmd_Run req w r status w' :
  (forall cmd, no_panic (cmd_Run cmd)) -> runBatch cfg cmd_Run req w = (Ok (r, status), w') -> 200 <= status < 300 ->
  status = StatusOK /\ Forall (fun x => jr_OK x = true) (Results r) /\ jr_Type <$> Results r = jb_Type <$> br_Jobs req.
Proof.
  intros Hc. unfold runBatch. case_decide; [intros [= <- <- _]; unfold StatusBadRequest; lia|].
  intros (ws & w1 & _ & E)%bind_Ok. destruct ws as [e|ws]; [injection E as <- <- _; unfold StatusBadRequest; lia|].
  case_decide; [injection E as <- <- _; unfold StatusBadRequest; lia|].
  destruct (run_jobs_returns cfg cmd_Run Hc ws (br_Defaults req) (br_Jobs req) 0 w1) as (rs & b & w2 & E2 & Hb).
  unfold mbind, GoM_bind in E. rewrite E2 in E. injection E as <- <- _. destruct b; simpl; [|unfold StatusBadRequest; lia].
  intros _. split; [done|]. apply Hb.
Qed.

(** C6: what the daemon answers is what happened in the machine: a run it answers with a body was translated into jobs
    (the workspace, then one per task, in order), and the results it gives are those of one run of exactly this
    batch, with the request's user, group and limits, by a fresh agent in the machine it started or restored;
    every job ran, was OK and has its result in its place; and the agent's machine is as that one run left it,
    whatever the transport lost and however often the batch was sent. *)
Theorem run_end_to_end `{StrictDecoder BatchRequest} `{JSONMarshal BatchRequest} `{JSONDecoder BatchResponse}
    encode_response (cmd_Run : Command -> OS RunOutcome) (X : VMM guest) (s0 : AgentServer.Server) `{!MachineLaws X s0}
    {Reference} (ParseReference : string -> outcome Reference) remote_Image
    `{JSON RawMessage} `{JSON RefMetadata} `{JSON imageManifest} `{JSON Rootfs.Metadata} `{JSONUnmarshal ImageConfig} `{RootfsImageBuilder}
    os_TempDir WithTimeout exec_LookPath map_order GOARCH (s : Server.Server) fuel ctx (body : Server.RunRequest) (h : host guest) out h' :
  sv_usedJobs s0 = false -> (forall cmd, no_panic (cmd_Run cmd)) -> MaxOutputBytes (dc_Limits (ds_Config s)) <> 0 ->
  (forall req, managerRunRequest GOARCH (ds_Config s) body = Ok req -> all_agreed encode_response cmd_Run s0 req) ->
  Server.run (H := machine encode_response cmd_Run X) ParseReference remote_Image os_TempDir WithTimeout exec_LookPath map_order GOARCH s fuel ctx body h
    = (Ok (Body out), h') ->
  exists jobs defaults,
    tasksToJobs (dc_Limits (ds_Config s)) (rq_Tasks body) (firstNonEmpty [rq_Workdir body; "/workspace"]) = Ok jobs
    /\ jd_UID defaults = Some (rq_UID body) /\ jd_GID defaults = Some (rq_GID body)
    /\ jd_MaxOutputBytes defaults = MaxOutputBytes (dc_Limits (ds_Config s))
    /\ runBatch (sv_cfg s0) cmd_Run (batch_request "/workspace" defaults jobs) (sv_fs s0)
       = (Ok ({| Results := ro_Results out |}, StatusOK), sv_fs (g_server (hs_vmm h')))
    /\ Forall (fun r => jr_OK r = true) (ro_Results out)
    /\ jr_Type <$> ro_Results out = jb_Type <$> jobs
    /\ length (ro_Results out) = S (length (rq_Tasks body)).
Proof.
  intros Hu Hc Hmax Hag E. unfold Server.run in E. destruct (managerRunRequest _ _ _) as [req|e|v] eqn:EM; [|done..].
  destruct (managerRunRequest_jobs _ _ _ _ EM) as (HT & Hne & Hws & Huid & Hgid & Htm & Hmo).
  unfold or_failed in E. apply bind_Ok in E as ([e|r] & h1 & E & Eb); [done|]. injection Eb as Eb <-. subst r.
  apply attempt_inr in E. apply bind_Ok in E as (r & h2 & E & Er). injection Er as <- <-. simpl.
  eapply (succeeds_Run encode_response cmd_Run X s0) in E as (imageConfig & jobs & resp & HJ & (status & HB & Hst) & HR); [|exact Hu|by apply Hag|done].
  unfold run_jobs in HJ. rewrite decide_False in HJ by done. injection HJ as <-.
  destruct (runBatch_success _ _ _ _ _ _ _ Hc HB Hst) as (-> & HO & HTy). unfold run_batch in HB. rewrite Hws in HB.
  exists (mq_Jobs req), (run_defaults req (timeout_or_default (mq_Timeout req)) imageConfig). rewrite HR. destruct resp as [rs]. simpl in *.
  split_and!; [done|by rewrite Huid|by rewrite Hgid|by rewrite decide_False; rewrite Hmo|exact HB|done|done|].
  rewrite <- (length_fmap jr_Type), HTy, length_fmap. by eapply tasksToJobs_length.
Qed.

(** ** A daemon, a machine and an agent that run *)

Section demo.
Definition demo_agent_cfg : AgentServer.Config := {| Workspace := "/workspace"; MaxBodyBytes := 1000; MaxFileBytes := 100; AgentServer.MaxOutputBytes := 100;
  DefaultTimeout := Second; DefaultUID := 0; DefaultGID := 0; Shutdown := true; ShutdownAfterJobs := true |}.
Definition demo_booted : AgentServer.Server := {| sv_cfg := demo_agent_cfg; sv_usedJobs := false; sv_shutdowns := 0; sv_fs := empty_world |}.
Definition demo_task : Task := {| tk_Type := JobWriteFile; tk_Path := "/workspace/a"; tk_Mode := 0; tk_ContentsBase64 := "aGVsbG8=";
  tk_CreateParents := false; tk_Argv := []; tk_WorkingDir := "" |}.
Definition demo_body : Server.RunRequest := {| rq_ImageRef := "alpine"; rq_Tasks := [demo_task]; rq_Workdir := ""; rq_UID := 0; rq_GID := 0;
  rq_TimeoutMillis := 0; rq_SnapshotMode := ""; rq_Machine := {| VCPUCount := 0; MemSizeMiB := 0 |} |}.
Definition demo_batch : BatchRequest := {| br_Version := Version; br_Workspace := "/workspace"; br_Shutdown := true;
  br_Defaults := {| jd_UID := Some 0; jd_GID := Some 0;
    jd_Env := ["PATH=/usr/local/sbin:/usr/local/bin:/usr/sbin:/usr/bin:/sbin:/bin"]; jd_TimeoutMillis := 60000; jd_MaxOutputBytes := Z.shiftl 4 20 |};
  br_Jobs := [job_mkdir "/workspace" 493; job_write_file "/workspace/a" 420 "aGVsbG8=" false] |}.
Definition demo_answer : BatchResponse := {| Results := [ok JobMkdir; ok JobWriteFile] |}.

#[local] Instance e2e_decoder : StrictDecoder BatchRequest := fun _ => Ok (demo_batch, ("", None)).
#[local] Instance e2e_marshal : JSONMarshal BatchRequest := fun _ => Ok "{}".
#[local] Instance e2e_host_decoder : JSONDecoder BatchResponse := fun st => if HasPrefix (fst st) "{" then Ok demo_answer else Err EOF.
#[local] Instance e2e_ref_json : JSON RefMetadata := demo_ref_json.
#[local] Instance e2e_manifest_json : JSON imageManifest := demo_manifest_json.
#[local] Instance e2e_raw_json : JSON RawMessage := demo_RawMessage.
#[local] Instance e2e_metadata_json : JSON Rootfs.Metadata := demo_Metadata.
#[local] Instance e2e_config_json : JSONUnmarshal ImageConfig := demo_Unmarshal.
#[local] Instance e2e_builder : RootfsImageBuilder := demo_builder.

(** A machine that boots when it is started, and can do nothing else. *)
Definition boot : GoM (guest * world) unit := modify (fun '(g, w) => ({| g_server := demo_booted; g_net := g_net g |}, w)).
Definition demo_vmm : VMM guest := {|
  time_Now := fun s => (0, s); uuid_NewString := fun s => ("id", s); sdk_NewMachine := fun _ => mret tt; machine_Start := boot;
  machine_Wait := mret tt; machine_StopVMM := mret tt; machine_PauseVM := mret tt; machine_CreateSnapshot := fun _ _ => mret tt;
  cmd_Start := fun _ => fail (Errno ENOENT); cmd_Wait := mret tt; process_SIGTERM := mret tt; process_Kill := mret tt;
  api_GetMachineConfiguration := fun _ => fail (Errno ENOENT); api_LoadSnapshot := fun _ _ _ => boot;
  vsock_Do := fun _ _ _ => fail (Errno ENOENT) |}.
#[local] Instance demo_laws : MachineLaws demo_vmm demo_booted.
Proof. split; try done; intros; (match goal with H : _ = (Ok tt, ?s') |- _ => cbn in H; injection H as <- end); by destruct s. Defined.

Abbreviation demo_encode := (fun _ : BatchResponse => "{}").
Abbreviation demo_command := (fun _ : Command => fail (S := world) (A := RunOutcome) (Errno ENOENT)).
Definition demo_server : Server.Server := {| ds_Config := applyDefaults (Build_Config "" "/s" "/k" "/b" "/fc" "" {| VCPUCount := 0; MemSizeMiB := 0 |}
    None {| MaxTimeoutMillis := 0; MaxOutputBytes := 0; MaxVCPUCount := 0; MaxMemSizeMiB := 0; MaxTasks := 0; MaxWriteFileBytes := 0 |} false);
  ds_Manager := demo_cfg |}.
(** The host's files; the transport loses the first request. *)
Definition demo_host : host guest :=
  Host {| g_server := demo_booted; g_net := [Refused] |}
    (with_file "/fc" "" (with_file "/k" "" (with_file "/b" "" (with_file "/dev/kvm" "" (with_dirs ["/dev"] Runtime.demo_store))))) [].
Definition demo_served : outcome (reply runOutput) * host guest :=
  Server.run (H := machine demo_encode demo_command demo_vmm) (fun _ => Ok tt) (fun _ _ => Ok demo_image) "/tmp" (fun c _ => c)
    (fun _ => fail (Errno ENOENT)) (fun l => l) "amd64" demo_server 5 (fun _ _ _ => None) demo_body demo_host.

Lemma demo_taken : exists req, managerRunRequest "amd64" (ds_Config demo_server) demo_body = Ok req
  /\ run_batch req Oci.demo_config (mq_Jobs req) = demo_batch /\ mq_Jobs req <> [].
Proof. eexists. split; [vm_compute; reflexivity|]. by vm_compute. Defined.

Lemma demo_agreed req :
  managerRunRequest "amd64" (ds_Config demo_server) demo_body = Ok req -> all_agreed demo_encode demo_command demo_booted req.
Proof.
  destruct demo_taken as (req' & E & EB & Hne). rewrite E. intros [= <-] contents imageConfig jobs [= <-] HJ.
  unfold run_jobs in HJ. rewrite decide_False in HJ by done. injection HJ as <-. rewrite EB. exists "{}".
  split; [done|done| |by eexists]. intros r status w' ER. vm_compute in ER. injection ER as <- _ _. by vm_compute.
Defined.

(** The first request is lost, the second is served; the machine then has the file. *)
Lemma run_end_to_end_witness :
  exists out, fst demo_served = Ok (Body out) /\ jr_Type <$> ro_Results out = [JobMkdir; JobWriteFile]
    /\ fst (os_ReadFile "/workspace/a" (sv_fs (g_server (hs_vmm (snd demo_served))))) = Ok "hello".
Proof.
  assert (E : exists out, fst demo_served = Ok (Body out)) by (eexists; vm_compute; reflexivity). destruct E as [out E].
  exists out. split; [exact E|]. split; [|vm_compute; reflexivity].
  destruct (run_end_to_end demo_encode demo_command demo_vmm demo_booted (fun _ => Ok tt) (fun _ _ => Ok demo_image) "/tmp" (fun c _ => c)
    (fun _ => fail (Errno ENOENT)) (fun l => l) "amd64" demo_server 5 (fun _ _ _ => None) demo_body demo_host out (snd demo_served))
    as (jobs & defaults & HT & _ & _ & _ & _ & _ & HTy & _).
  - reflexivity.
  - intros cmd. apply no_panic_fail.
  - vm_compute. discriminate.
  - exact demo_agreed.
  - rewrite <- E. unfold demo_served. by destruct (Server.run _ _ _ _ _ _ _ _ _ _ _ _).
  - rewrite HTy. vm_compute in HT. injection HT as <-. reflexivity.
Defined.
End demo.
