(* ===== verification/Init.v ===== *)
(** * The guest's init

    [cmd/init]: process 1 of the microVM. It mounts the kernel's file systems, puts a writable overlay
    over the read-only root file system of the image, starts the agent in it, reaps until the agent is
    gone and powers the machine off. The kernel is the class [Kernel]: operations on a state [K] of
    its own and on the file system. The calls the theorems follow are recorded in [mc_calls]. *)

From S2P Require Import Prelude GoPath HostFS Confine FileLaws.
Local Open Scope Z_scope.

Definition targetMount : string := "/mnt/target".
Definition overlayBase : string := "/mnt/overlay".
Definition mergedRoot : string := "/mnt/overlay/merged".

(** The flags of mount(2), and the commands of reboot(2). *)
Definition MS_RDONLY : Z := 1.
Definition MS_NOSUID : Z := 2.
Definition MS_NODEV : Z := 4.
Definition MS_NOEXEC : Z := 8.
Definition MS_BIND : Z := 4096.
Definition MS_REC : Z := 16384.
Definition REBOOT_POWER_OFF : Z := 1126301404.
Definition REBOOT_RESTART : Z := 19088743.

Record mount_args := MountArgs { ma_source : string; ma_target : string; ma_fstype : string; ma_flags : Z; ma_data : string }.
(** The command of [superviseAgent], with what it sets of [SysProcAttr]. *)
Record AgentCommand := { ac_argv : list string; ac_Dir : string; ac_Chroot : string; ac_Setsid : bool }.

Class Kernel (K : Type) := {
  unix_Mount : mount_args -> GoM (K * world) unit;
  cmd_Start : AgentCommand -> GoM (K * world) Z;     (* the process identifier *)
  unix_Wait4 : GoM (K * world) Z;                    (* of any child: the one that ended *)
  unix_Sync : GoM (K * world) unit;
  unix_Reboot : Z -> GoM (K * world) unit
}.

Inductive init_call :=
| CMount (m : mount_args) (err : option error) | CStartAgent (c : AgentCommand) (ok : bool) | CSync | CReboot (cmd : Z).

Record machine (K : Type) := Machine { mc_kernel : K; mc_fs : world; mc_calls : list init_call }.
Arguments Machine {K} _ _ _.
Arguments mc_kernel {K} _.
Arguments mc_fs {K} _.
Arguments mc_calls {K} _.

(** ** [kernelArgs] *)

(** [bytes.TrimSpace] *)
Fixpoint trim_left (skip : nat) (s : string) : string :=
  match s with
  | EmptyString => ""
  | String _ r => match skip with
                  | S k => trim_left k r
                  | O => match space_width s with O => s | S w => trim_left w r end
                  end
  end.
Fixpoint trim_right (s : string) : string :=
  if bool_decide (trim_left 0 s = "") then ""
  else match s with EmptyString => "" | String c r => String c (trim_right r) end.
Definition TrimSpace (s : string) : string := trim_right (trim_left 0 s).

(** One field of the command line. *)
Definition kernel_arg (result : gmap string string) (field : string) : gmap string string :=
  match Cut "="%char field with
  | None => <[field := ""]> result
  | Some (key, value) => <[key := value]> result
  end.

Definition kernelArgs : OS (gmap string string) :=
  r ← attempt (os_ReadFile "/proc/cmdline");
  match r with
  | inl _ => mret ∅
  | inr contents => mret (foldl kernel_arg ∅ (Fields (TrimSpace contents)))
  end.

Example kernel_args_last_wins :
  foldl kernel_arg ∅ (Fields (TrimSpace ("  ro init=/init target_drive=/dev/vdb target_drive=/dev/vdc=1" +:+ String newline "")))
  !! "target_drive" = Some "/dev/vdc=1".
Proof. vm_compute. reflexivity. Qed.

(** ** The steps *)

Section init.
Context {K : Type} `{Kernel K}.
Abbreviation Guest := (GoM (machine K)).

Definition on_fs {A} (m : OS A) : Guest A := fun s =>
  let '(o, w) := m (mc_fs s) in (o, Machine (mc_kernel s) w (mc_calls s)).
Definition recorded {A} (c : outcome A -> init_call) (m : GoM (K * world) A) : Guest A := fun s =>
  let '(o, (k, w)) := m (mc_kernel s, mc_fs s) in (o, Machine k w (mc_calls s ++ [c o])).
Definition error_of {A} (o : outcome A) : option error := match o with Err err => Some err | _ => None end.
Definition on_kernel {A} (m : GoM (K * world) A) : Guest A := fun s =>
  let '(o, (k, w)) := m (mc_kernel s, mc_fs s) in (o, Machine k w (mc_calls s)).

Definition mount (source target fstype : string) (flags : Z) (data : string) : Guest unit :=
  let args := MountArgs source target fstype flags data in recorded (fun o => CMount args (error_of o)) (unix_Mount args).

Definition mountIgnoreBusy (source target fstype : string) (flags : Z) (data : string) : Guest unit :=
  r ← attempt (mount source target fstype flags data);
  match r with
  | inl err => if bool_decide (err = Errno EBUSY) then mret tt else fail (Wrapf "mount %s: %w" [target] err)
  | inr _ => mret tt
  end.

Definition basicMounts : Guest unit :=
  for_each ["/proc"; "/sys"; "/dev"; "/run"; "/tmp"; targetMount; overlayBase] (fun dir => on_fs (os_MkdirAll dir 493)) ;;
  mountIgnoreBusy "proc" "/proc" "proc" (Z.lor (Z.lor MS_NOSUID MS_NOEXEC) MS_NODEV) "" ;;
  mountIgnoreBusy "sysfs" "/sys" "sysfs" (Z.lor (Z.lor MS_NOSUID MS_NOEXEC) MS_NODEV) "" ;;
  r ← attempt (mountIgnoreBusy "devtmpfs" "/dev" "devtmpfs" 0 "mode=0755");
  match r with
  | inl _ => mountIgnoreBusy "tmpfs" "/dev" "tmpfs" MS_NOSUID "mode=0755"
  | inr _ => mret tt
  end ;;
  mountIgnoreBusy "tmpfs" "/run" "tmpfs" (Z.lor MS_NOSUID MS_NODEV) "mode=0755,size=64m" ;;
  mountIgnoreBusy "tmpfs" "/tmp" "tmpfs" (Z.lor MS_NOSUID MS_NODEV) "mode=1777,size=128m".

Definition setupOverlay (targetDrive : string) : Guest unit :=
  wrap_err (Wrapf "mount target drive %s: %w" [targetDrive])
    (mount targetDrive targetMount "ext4" (Z.lor MS_RDONLY MS_NODEV) "ro,noload") ;;
  wrap_err (Wrapf "mount overlay tmpfs: %w" [])
    (mount "tmpfs" overlayBase "tmpfs" (Z.lor MS_NOSUID MS_NODEV) "mode=0755,size=512m") ;;
  for_each ["upper"; "work"; "merged"] (fun dir => on_fs (os_MkdirAll (overlayBase +:+ "/" +:+ dir) 493)) ;;
  wrap_err (Wrapf "mount overlay: %w" [])
    (mount "overlay" mergedRoot "overlay" 0 "lowerdir=/mnt/target,upperdir=/mnt/overlay/upper,workdir=/mnt/overlay/work").

(** [os.FileMode(0o1777)]: its tenth bit is not [os.ModeSticky], and [os.MkdirAll] takes the permission bits. *)
Definition tmp_mode : Z := Z.land 1023 511.

Definition prepareMergedRoot : Guest unit :=
  for_each ["proc"; "sys"; "dev"; "run"; "tmp"; ".sandbox"]
    (fun dir => on_fs (os_MkdirAll (mergedRoot +:+ "/" +:+ dir) (if decide (dir = "tmp") then tmp_mode else 493))) ;;
  for_each [("/proc", mergedRoot +:+ "/proc"); ("/sys", mergedRoot +:+ "/sys"); ("/dev", mergedRoot +:+ "/dev")]
    (fun '(source, target) => wrap_err (Wrapf "bind %s: %w" [source]) (mount source target "" (Z.lor MS_BIND MS_REC) "")) ;;
  mount "tmpfs" (mergedRoot +:+ "/run") "tmpfs" (Z.lor MS_NOSUID MS_NODEV) "mode=0755,size=64m" ;;
  mount "tmpfs" (mergedRoot +:+ "/tmp") "tmpfs" (Z.lor MS_NOSUID MS_NODEV) "mode=1777,size=128m" ;;
  let agentTarget := mergedRoot +:+ "/.sandbox/agent" in
  file ← on_fs (os_open agentTarget {| o_creat := true; o_excl := false; o_trunc := false; o_nofollow := false |} 493);
  on_fs (ignore (fd_close file)) ;;
  wrap_err (Wrapf "bind /agent: %w" []) (mount "/agent" agentTarget "" MS_BIND "").

(** The loop of [superviseAgent]: a child that is not the agent, or an error other than ECHILD, and on. *)
Fixpoint reap (fuel : nat) (agentPID : Z) : Guest unit :=
  match fuel with
  | O => panic out_of_fuel
  | S fuel =>
      r ← attempt (on_kernel unix_Wait4);
      match r with
      | inl err => if bool_decide (err = Errno ECHILD) then mret tt else reap fuel agentPID
      | inr pid => if bool_decide (pid = agentPID) then mret tt else reap fuel agentPID
      end
  end.

Definition agent_command : AgentCommand :=
  {| ac_argv := ["/.sandbox/agent"; "-shutdown-after-jobs=true"]; ac_Dir := "/"; ac_Chroot := mergedRoot; ac_Setsid := true |}.

Definition superviseAgent (fuel : nat) : Guest unit :=
  agentPID ← wrap_err (Wrapf "start agent: %w" []) (recorded (fun o => CStartAgent agent_command (is_Ok o)) (cmd_Start agent_command));
  reap fuel agentPID.

Definition target_drive (args : gmap string string) : string :=
  let targetDrive := default "" (args !! "target_drive") in
  if decide (targetDrive = "") then "/dev/vdb" else targetDrive.

Definition run (fuel : nat) : Guest unit :=
  args ← on_fs kernelArgs;
  basicMounts ;;
  setupOverlay (target_drive args) ;;
  prepareMergedRoot ;;
  superviseAgent fuel.

Definition poweroff : Guest unit :=
  ignore (recorded (fun _ => CSync) unix_Sync) ;;
  ignore (recorded (fun _ => CReboot REBOOT_POWER_OFF) (unix_Reboot REBOOT_POWER_OFF)) ;;
  ignore (recorded (fun _ => CReboot REBOOT_RESTART) (unix_Reboot REBOOT_RESTART)).

(** [main], but for its log and its PATH. *)
Definition main (fuel : nat) : Guest unit := ignore (run fuel) ;; poweroff.
End init.

(** ** The agent starts in the overlay, or not at all *)

Definition mounted (m : mount_args) : init_call := CMount m None.

(** The mounts the agent needs, in order: the image read-only, the overlay on it, and what is mounted in the overlay. *)
Definition overlay_plan (targetDrive : string) : list mount_args := [
  MountArgs targetDrive "/mnt/target" "ext4" (Z.lor MS_RDONLY MS_NODEV) "ro,noload";
  MountArgs "tmpfs" "/mnt/overlay" "tmpfs" (Z.lor MS_NOSUID MS_NODEV) "mode=0755,size=512m";
  MountArgs "overlay" "/mnt/overlay/merged" "overlay" 0 "lowerdir=/mnt/target,upperdir=/mnt/overlay/upper,workdir=/mnt/overlay/work"].
Definition merged_plan : list mount_args := [
  MountArgs "/proc" "/mnt/overlay/merged/proc" "" (Z.lor MS_BIND MS_REC) "";
  MountArgs "/sys" "/mnt/overlay/merged/sys" "" (Z.lor MS_BIND MS_REC) "";
  MountArgs "/dev" "/mnt/overlay/merged/dev" "" (Z.lor MS_BIND MS_REC) "";
  MountArgs "tmpfs" "/mnt/overlay/merged/run" "tmpfs" (Z.lor MS_NOSUID MS_NODEV) "mode=0755,size=64m";
  MountArgs "tmpfs" "/mnt/overlay/merged/tmp" "tmpfs" (Z.lor MS_NOSUID MS_NODEV) "mode=1777,size=128m";
  MountArgs "/agent" "/mnt/overlay/merged/.sandbox/agent" "" MS_BIND ""].

(** The mount succeeded, or found its directory busy. *)
Definition settled (m : mount_args) (c : init_call) : Prop := c = CMount m None \/ c = CMount m (Some (Errno EBUSY)).

(** The kernel's own file systems, each on its directory and settled; on "/dev" a tmpfs where the devices did not settle. *)
Definition proc_mount : mount_args := MountArgs "proc" "/proc" "proc" (Z.lor (Z.lor MS_NOSUID MS_NOEXEC) MS_NODEV) "".
Definition sys_mount : mount_args := MountArgs "sysfs" "/sys" "sysfs" (Z.lor (Z.lor MS_NOSUID MS_NOEXEC) MS_NODEV) "".
Definition dev_mount : mount_args := MountArgs "devtmpfs" "/dev" "devtmpfs" 0 "mode=0755".
Definition dev_fallback : mount_args := MountArgs "tmpfs" "/dev" "tmpfs" MS_NOSUID "mode=0755".
Definition run_mount : mount_args := MountArgs "tmpfs" "/run" "tmpfs" (Z.lor MS_NOSUID MS_NODEV) "mode=0755,size=64m".
Definition tmp_mount : mount_args := MountArgs "tmpfs" "/tmp" "tmpfs" (Z.lor MS_NOSUID MS_NODEV) "mode=1777,size=128m".
Definition dev_settled (l : list init_call) : Prop :=
  (exists c, l = [c] /\ settled dev_mount c)
  \/ exists err c, l = [CMount dev_mount (Some err); c] /\ err <> Errno EBUSY /\ settled dev_fallback c.
Definition basic_mounts (l : list init_call) : Prop :=
  exists proc sys dev run tmp, l = [proc; sys] ++ dev ++ [run; tmp] /\ settled proc_mount proc /\ settled sys_mount sys
    /\ dev_settled dev /\ settled run_mount run /\ settled tmp_mount tmp.
Definition is_mount (c : init_call) : Prop := match c with CMount _ _ => True | _ => False end.

Section calls.
Context {K : Type} `{Kernel K}.
Abbreviation Guest := (GoM (machine K)).
Hypothesis mount_returns : forall m, no_panic (unix_Mount (K := K) m).
Hypothesis start_returns : forall c, no_panic (cmd_Start (K := K) c).
Hypothesis wait_returns : no_panic (unix_Wait4 (K := K)).

(** A run of [m] ends without a panic, and the calls it adds satisfy [P] of whether it succeeded. *)
Definition emits {A} (P : bool -> list init_call -> Prop) (m : Guest A) : Prop := forall s,
  match m s with
  | (Panic _, _) => False
  | (o, s') => exists l, mc_calls s' = mc_calls s ++ l /\ P (is_Ok o) l
  end.

Lemma emits_mono {A} (P Q : bool -> list init_call -> Prop) (m : Guest A) :
  (forall b l, P b l -> Q b l) -> emits P m -> emits Q m.
Proof. intros HPQ Hm s. specialize (Hm s). destruct (m s) as [[a|e|v] s']; [..|done]; destruct Hm as (l & E & HP); eauto. Qed.

Lemma emits_bind {A B} (P1 P2 Q : bool -> list init_call -> Prop) (m : Guest A) (k : A -> Guest B) :
  emits P1 m -> (forall a, emits P2 (k a)) ->
  (forall l, P1 false l -> Q false l) -> (forall l1 b l2, P1 true l1 -> P2 b l2 -> Q b (l1 ++ l2)) -> emits Q (m ≫= k).
Proof.
  intros Hm Hk Hf Ht s. specialize (Hm s). unfold mbind, GoM_bind. destruct (m s) as [[a|e|v] s1]; [| |done].
  - destruct Hm as (l1 & E1 & HP1). specialize (Hk a s1). destruct (k a s1) as [[b|e|v] s2]; [..|done];
      (destruct Hk as (l2 & E2 & HP2); exists (l1 ++ l2); rewrite E2, E1, app_assoc; eauto).
  - destruct Hm as (l1 & E1 & HP1). eauto.
Qed.

Lemma emits_wrap {A} P f (m : Guest A) : emits P m -> emits P (wrap_err f m).
Proof. intros Hm s. specialize (Hm s). unfold wrap_err. by destruct (m s) as [[a|e|v] s']. Qed.

Lemma emits_attempt {A} (P : bool -> list init_call -> Prop) (m : Guest A) :
  emits P m -> emits (fun b l => b = true /\ exists b', P b' l) (attempt m).
Proof. intros Hm s. specialize (Hm s). unfold attempt. destruct (m s) as [[a|e|v] s']; [..|done]; destruct Hm as (l & E & HP); eauto. Qed.

Definition silent (b : bool) (l : list init_call) : Prop := l = [].
Lemma emits_on_fs {A} (m : OS A) : no_panic m -> emits silent (on_fs m).
Proof.
  intros Hm s. unfold on_fs. pose proof (Hm (mc_fs s)) as Hp. destruct (m (mc_fs s)) as [[a|e|v] w]; [..|by destruct (Hp v w)];
    (exists []; by rewrite app_nil_r).
Qed.
Lemma emits_ret {A} (a : A) : emits silent (mret a).
Proof. intros s. exists []. by rewrite app_nil_r. Qed.
Lemma emits_fail {A} e : emits silent (fail (A := A) e).
Proof. intros s. exists []. by rewrite app_nil_r. Qed.

Lemma emits_on_fs_all {B} (l : list B) (m : B -> OS unit) :
  (forall x, no_panic (m x)) -> emits silent (for_each l (fun x => on_fs (m x))).
Proof.
  intros Hm. induction l as [|x l IH]; cbn [for_each]; [apply emits_ret|].
  eapply (emits_bind silent silent); [by apply emits_on_fs|intros _; exact IH|done|]. by intros l1 b l2 -> ->.
Qed.

Definition one_mount (args : mount_args) (b : bool) (l : list init_call) : Prop :=
  exists r, l = [CMount args r] /\ b = bool_decide (r = None).
Lemma emits_mount source target fstype flags data :
  emits (one_mount (MountArgs source target fstype flags data)) (mount source target fstype flags data).
Proof.
  intros s. unfold mount, recorded. pose proof (mount_returns (MountArgs source target fstype flags data) (mc_kernel s, mc_fs s)) as Hp.
  destruct (unix_Mount _ _) as [[a|e|v] [k w]]; [..|by destruct (Hp v (k, w))]; (eexists; split; [reflexivity|]; by eexists).
Qed.

(** Mounts that all have to succeed, in order. *)
Definition plan (p : list mount_args) (b : bool) (l : list init_call) : Prop := if b then l = mounted <$> p else Forall is_mount l.

Lemma plan_mount {B} args p (m : Guest unit) (k : unit -> Guest B) :
  emits (one_mount args) m -> (forall a, emits (plan p) (k a)) -> emits (plan (args :: p)) (m ≫= k).
Proof.
  intros Hm Hk. eapply emits_bind; [exact Hm|exact Hk| |].
  - intros l (r & -> & _). by repeat constructor.
  - intros l1 [|] l2 (r & -> & Hr%eq_sym%bool_decide_eq_true) Hp; simpl in *; [by rewrite Hp, Hr|by constructor].
Qed.
Lemma plan_last args (m : Guest unit) : emits (one_mount args) m -> emits (plan [args]) m.
Proof. apply emits_mono. intros [|] l (r & -> & Hr); [by apply eq_sym, bool_decide_eq_true in Hr as ->|by repeat constructor]. Qed.
Lemma plan_silent {A B} p (m : Guest A) (k : A -> Guest B) :
  emits silent m -> (forall a, emits (plan p) (k a)) -> emits (plan p) (m ≫= k).
Proof.
  intros Hm Hk. eapply emits_bind; [exact Hm|exact Hk| |].
  - intros l ->. constructor.
  - by intros l1 b l2 -> Hp.
Qed.

Lemma plan_app {A B} p1 p2 (m : Guest A) (k : A -> Guest B) :
  emits (plan p1) m -> (forall a, emits (plan p2) (k a)) -> emits (plan (p1 ++ p2)) (m ≫= k).
Proof.
  intros Hm Hk. eapply emits_bind; [exact Hm|exact Hk|done|].
  intros l1 [|] l2 -> Hp; simpl in *; [by rewrite Hp, fmap_app|]. apply Forall_app. split; [|done].
  apply Forall_fmap, Forall_true. done.
Qed.
Lemma plan_nil {A} (m : Guest A) : emits silent m -> emits (plan []) m.
Proof. apply emits_mono. intros [|] l ->; [done|constructor]. Qed.

Lemma emits_setupOverlay d : emits (plan (overlay_plan d)) (setupOverlay d).
Proof.
  unfold setupOverlay. apply plan_mount; [apply emits_wrap, emits_mount|intros _].
  apply plan_mount; [apply emits_wrap, emits_mount|intros _].
  apply plan_silent; [apply emits_on_fs_all; auto with go_no_panic|intros _].
  apply plan_last, emits_wrap, emits_mount.
Qed.

Lemma emits_prepareMergedRoot : emits (plan merged_plan) prepareMergedRoot.
Proof.
  unfold prepareMergedRoot. apply plan_silent; [apply emits_on_fs_all; auto with go_no_panic|intros _].
  apply (plan_app (take 3 merged_plan) (drop 3 merged_plan)); [|intros _].
  - cbn [for_each]. do 3 (apply plan_mount; [apply emits_wrap, emits_mount|intros _]). apply plan_nil, emits_ret.
  - apply plan_mount; [apply emits_mount|intros _]. apply plan_mount; [apply emits_mount|intros _].
    apply plan_silent; [apply emits_on_fs, open_no_panic|intros file].
    apply plan_silent; [apply emits_on_fs; solve_no_panic|intros _]. apply plan_last, emits_wrap, emits_mount.
Qed.

(** Mounts, and when they are all done [Q] of them. *)
Definition mounts (Q : list init_call -> Prop) (b : bool) (l : list init_call) : Prop := Forall is_mount l /\ (b = true -> Q l).

Lemma mounts_mono {A} (Q Q' : list init_call -> Prop) (m : Guest A) : (forall l, Q l -> Q' l) -> emits (mounts Q) m -> emits (mounts Q') m.
Proof. intros HQ. apply emits_mono. intros b l [H1 H2]. split; auto. Qed.
Lemma mounts_seq {A B} (Q1 Q2 : list init_call -> Prop) (m : Guest A) (k : A -> Guest B) :
  emits (mounts Q1) m -> (forall a, emits (mounts Q2) (k a)) -> emits (mounts (fun l => exists l1 l2, l = l1 ++ l2 /\ Q1 l1 /\ Q2 l2)) (m ≫= k).
Proof.
  intros Hm Hk. eapply emits_bind; [exact Hm|exact Hk| |].
  - intros l [Hl _]. by split.
  - intros l1 b l2 [H1 HQ1] [H2 HQ2]. split; [by apply Forall_app|]. intros Hb. exists l1, l2. auto.
Qed.
Lemma mounts_silent {A B} Q (m : Guest A) (k : A -> Guest B) : emits silent m -> (forall a, emits (mounts Q) (k a)) -> emits (mounts Q) (m ≫= k).
Proof.
  intros Hm Hk. eapply emits_bind; [exact Hm|exact Hk| |by intros l1 b l2 ->]. intros l ->. by split.
Qed.

Definition one_settled (args : mount_args) (l : list init_call) : Prop := exists c, l = [c] /\ settled args c.

(** A mount that may be busy: it says so exactly when it did not settle. *)
Lemma emits_mountIgnoreBusy source target fstype flags data :
  let args := MountArgs source target fstype flags data in
  emits (fun b l => if b then one_settled args l else exists err, l = [CMount args (Some err)] /\ err <> Errno EBUSY)
    (mountIgnoreBusy source target fstype flags data).
Proof.
  intros args s. unfold mountIgnoreBusy, attempt, mbind, GoM_bind, mount, recorded. fold args.
  pose proof (mount_returns args (mc_kernel s, mc_fs s)) as Hp. unfold one_settled, settled.
  destruct (unix_Mount args _) as [[[]|err|v] [k w]]; [| |by destruct (Hp v (k, w))]; simpl.
  - eexists. split; [done|]. eexists. split; [done|]. by left.
  - case_bool_decide as Hb; (eexists; split; [done|]); (eexists; split; [done|]); [|done]. rewrite Hb. by right.
Qed.

Lemma settled_mounts args (m : Guest unit) :
  emits (fun b l => if b then one_settled args l else exists err, l = [CMount args (Some err)] /\ err <> Errno EBUSY) m ->
  emits (mounts (one_settled args)) m.
Proof.
  apply emits_mono. intros [|] l; [intros H1|intros (err & -> & _)]; (split; [|done]).
  - destruct H1 as (c & -> & [-> | ->]); by repeat constructor.
  - by repeat constructor.
Qed.

Lemma emits_devices :
  emits (mounts dev_settled)
    (r ← attempt (mountIgnoreBusy "devtmpfs" "/dev" "devtmpfs" 0 "mode=0755");
     match r with
     | inl _ => mountIgnoreBusy "tmpfs" "/dev" "tmpfs" MS_NOSUID "mode=0755"
     | inr _ => mret tt
     end).
Proof.
  intros s. pose proof (emits_mountIgnoreBusy "devtmpfs" "/dev" "devtmpfs" 0 "mode=0755" s) as H1. unfold attempt, mbind, GoM_bind.
  destruct (mountIgnoreBusy "devtmpfs" "/dev" _ _ _ s) as [[[]|e|v] s1]; [| |done]; destruct H1 as (l1 & E1 & H1); cbn [is_Ok] in H1.
  - exists l1. split; [exact E1|]. destruct H1 as (c & -> & Hc). split; [destruct Hc as [-> | ->]; by repeat constructor|].
    intros _. left. by exists c.
  - destruct H1 as (err & -> & He). pose proof (emits_mountIgnoreBusy "tmpfs" "/dev" "tmpfs" MS_NOSUID "mode=0755" s1) as H2.
    destruct (mountIgnoreBusy "tmpfs" "/dev" _ _ _ s1) as [[[]|e2|v] s2]; [| |done]; destruct H2 as (l2 & E2 & H2); cbn [is_Ok] in H2;
      eexists; (split; [rewrite E2, E1, <- app_assoc; reflexivity|]).
    + destruct H2 as (c & -> & Hc). split; [destruct Hc as [-> | ->]; by repeat constructor|]. intros _. right. by exists err, c.
    + destruct H2 as (err2 & -> & _). split; [by repeat constructor|done].
Qed.

Lemma emits_assoc {A B C} P (m : Guest A) (k : A -> Guest B) (j : B -> Guest C) :
  emits P ((m ≫= k) ≫= j) -> emits P (m ≫= fun a => k a ≫= j).
Proof. intros H1 s. specialize (H1 s). unfold mbind, GoM_bind in *. by destruct (m s) as [[a|e|v] s1]. Qed.

Lemma emits_basicMounts : emits (mounts basic_mounts) basicMounts.
Proof.
  unfold basicMounts. apply mounts_silent; [apply emits_on_fs_all; auto with go_no_panic|intros _].
  eapply mounts_mono; [|apply mounts_seq; [apply settled_mounts, emits_mountIgnoreBusy|intros _];
    apply mounts_seq; [apply settled_mounts, emits_mountIgnoreBusy|intros _];
    apply emits_assoc, mounts_seq; [apply emits_devices|intros _];
    apply mounts_seq; [apply settled_mounts, emits_mountIgnoreBusy|intros _]; apply settled_mounts, emits_mountIgnoreBusy].
  intros l (? & l2 & -> & (proc & -> & H1) & ? & l3 & -> & (sys & -> & H2) & dev & l4 & -> & H3 & ? & ? & -> & (run & -> & H4) & tmp & -> & H5).
  exists proc, sys, dev, run, tmp. by split_and!.
Qed.

(** The children left to reap, a bound on the waits to come. *)
Context (children : K * world -> nat) (fuel : nat).
Hypothesis children_bound : forall s, (children s < fuel)%nat.
Hypothesis wait_reaps : forall s o s', unix_Wait4 s = (o, s') -> o = Err (Errno ECHILD) \/ (children s' < children s)%nat.

Lemma emits_reap pid n : forall s : machine K, (children (mc_kernel s, mc_fs s) < n)%nat ->
  exists s', reap n pid s = (Ok tt, s') /\ mc_calls s' = mc_calls s.
Proof.
  induction n as [|n IH]; intros s Hn; [lia|]. cbn [reap]. unfold on_kernel, attempt, mbind, GoM_bind.
  destruct (unix_Wait4 (mc_kernel s, mc_fs s)) as [[q|err|v] [k w]] eqn:E; [..|by destruct (wait_returns _ _ _ E)];
    pose proof (wait_reaps _ _ _ E) as Hr.
  - case_bool_decide; [by eexists|]. destruct Hr as [?|Hr]; [done|].
    destruct (IH (Machine k w (mc_calls s))) as (s' & -> & Hc); [simpl in *; lia|]. by exists s'.
  - case_bool_decide as He; [by eexists|]. destruct Hr as [[= ->]|Hr]; [done|].
    destruct (IH (Machine k w (mc_calls s))) as (s' & -> & Hc); [simpl in *; lia|]. by exists s'.
Qed.

Lemma emits_superviseAgent : emits (fun b l => l = [CStartAgent agent_command b]) (superviseAgent fuel).
Proof.
  intros s. unfold superviseAgent, wrap_err, recorded, mbind, GoM_bind.
  pose proof (start_returns agent_command (mc_kernel s, mc_fs s)) as Hp.
  destruct (cmd_Start agent_command _) as [[pid|e|v] [k w]]; [|by eexists|by destruct (Hp v (k, w))]. simpl.
  destruct (emits_reap pid fuel (Machine k w (mc_calls s ++ [CStartAgent agent_command true]))) as (s' & -> & Hc); [apply children_bound|].
  by eexists.
Qed.

(** What [run] does of a machine whose command line names the drive [d]. *)
Definition started (d : string) (l : list init_call) : Prop :=
  exists pre b, basic_mounts pre /\ l = pre ++ (mounted <$> overlay_plan d ++ merged_plan) ++ [CStartAgent agent_command b].
Definition not_started (l : list init_call) : Prop := Forall is_mount l.

Lemma emits_run_from d :
  emits (fun b l => started d l \/ (b = false /\ not_started l))
    (basicMounts ;; setupOverlay d ;; prepareMergedRoot ;; superviseAgent fuel).
Proof.
  eapply emits_bind; [apply emits_basicMounts|intros _|..].
  - eapply (emits_bind _ _ (fun b l => (exists b', l = (mounted <$> overlay_plan d ++ merged_plan) ++ [CStartAgent agent_command b']) \/ (b = false /\ not_started l)));
      [apply emits_setupOverlay|intros _|..].
    + eapply (emits_bind _ _ (fun b l => (exists b', l = (mounted <$> merged_plan) ++ [CStartAgent agent_command b']) \/ (b = false /\ not_started l)));
        [apply emits_prepareMergedRoot|intros _; apply emits_superviseAgent|intros l Hl; right; by split|].
      intros l1 b l2 E1 ->. simpl in E1. left. exists b. by rewrite E1.
    + intros l Hl. right. by split.
    + intros l1 b l2 E1. simpl in E1. rewrite E1. intros [[b' ->]|[-> Hl]]; [left; exists b'; by rewrite fmap_app, <- app_assoc|right; split; [done|]].
      apply Forall_app. split; [|done]. by repeat constructor.
  - intros l [Hl _]. right. by split.
  - intros l1 b l2 [Hm Hl1] [[b' ->]|[-> Hl]]; [left; exists l1, b'; auto|right; split; [done|]].
    by apply Forall_app.
Qed.

Lemma poweroff_calls s :
  (forall s, exists s', unix_Sync (K := K) s = (Ok tt, s')) -> (forall c, no_panic (unix_Reboot (K := K) c)) ->
  exists s', poweroff s = (Ok tt, s') /\ mc_calls s' = mc_calls s ++ [CSync; CReboot REBOOT_POWER_OFF; CReboot REBOOT_RESTART].
Proof.
  intros Hsync Hreboot.
  assert (Hig : forall c (m : GoM (K * world) unit) s, no_panic m ->
    exists s', ignore (recorded (fun _ => c) m) s = (Ok tt, s') /\ mc_calls s' = mc_calls s ++ [c]).
  { intros c m s0 Hm. unfold ignore, attempt, recorded, mbind, GoM_bind. pose proof (Hm (mc_kernel s0, mc_fs s0)) as Hp.
    destruct (m _) as [[a|e|v] [k w]]; [by eexists..|by destruct (Hp v (k, w))]. }
  unfold poweroff. unfold mbind at 1, GoM_bind at 1.
  destruct (Hig CSync unix_Sync s) as (s1 & -> & E1); [intros s0 v s0'; destruct (Hsync s0) as [? ->]; done|].
  unfold mbind at 1, GoM_bind at 1. destruct (Hig (CReboot REBOOT_POWER_OFF) _ s1 (Hreboot REBOOT_POWER_OFF)) as (s2 & -> & E2).
  destruct (Hig (CReboot REBOOT_RESTART) _ s2 (Hreboot REBOOT_RESTART)) as (s3 & -> & E3). exists s3. split; [done|].
  by rewrite E3, E2, E1, <- !app_assoc.
Qed.
End calls.

(** C19: init ends by powering the machine off whatever fails, provided the calls of the kernel return and there is an end to
    the children it waits for; and the agent is started at most once and only in the overlay. Before it comes, each
    on its own directory, of its own type and in order, a mount of each of the kernel's file systems, which
    succeeded or found the directory busy (with a tmpfs on "/dev" where the devices did not); then, every one of
    them successful and in this order, the image's drive read-only, the overlay over it and the mounts inside it;
    its root is the overlay. Otherwise no agent is started: there were only mounts. *)
Theorem main_calls `{Kernel K} (children : K * world -> nat) fuel (s : machine K) :
  (forall m, no_panic (unix_Mount (K := K) m)) -> (forall c, no_panic (cmd_Start (K := K) c)) -> no_panic (unix_Wait4 (K := K)) ->
  (forall s, exists s', unix_Sync (K := K) s = (Ok tt, s')) -> (forall c, no_panic (unix_Reboot (K := K) c)) ->
  (forall s, (children s < fuel)%nat) ->
  (forall s o s', unix_Wait4 s = (o, s') -> o = Err (Errno ECHILD) \/ (children s' < children s)%nat) ->
  exists args l s', fst (kernelArgs (mc_fs s)) = Ok args /\ main fuel s = (Ok tt, s')
    /\ mc_calls s' = mc_calls s ++ l ++ [CSync; CReboot REBOOT_POWER_OFF; CReboot REBOOT_RESTART]
    /\ (not_started l \/ started (target_drive args) l)
    /\ ac_Chroot agent_command = "/mnt/overlay/merged" /\ ac_argv agent_command = ["/.sandbox/agent"; "-shutdown-after-jobs=true"].
Proof.
  intros Hm Hc Hw Hs Hr Hb Hch. unfold main, run. 
  assert (HA : exists args w', kernelArgs (mc_fs s) = (Ok args, w')).
  { unfold kernelArgs, attempt, mbind, GoM_bind. pose proof (no_panic_ReadFile "/proc/cmdline" (mc_fs s)) as Hp.
    destruct (os_ReadFile _ _) as [[c|e|v] w]; [by eexists _, _..|by destruct (Hp v w)]. }
  destruct HA as (args & w' & EA). exists args. rewrite EA.
  pose proof (emits_run_from Hm Hc Hw children fuel Hb Hch (target_drive args) (Machine (mc_kernel s) w' (mc_calls s))) as HR.
  unfold ignore, attempt. unfold mbind at 1 2, GoM_bind at 1 2. unfold mbind at 1, GoM_bind at 1. unfold on_fs at 1. rewrite EA.
  destruct ((basicMounts ;; _) _) as [[[]|e|v] s1]; [..|done]; destruct HR as (l & E1 & HR);
    destruct (poweroff_calls s1 Hs Hr) as (s2 & E2 & E3); exists l, s2; (split; [done|]); (split; [exact E2|]);
    (split; [by rewrite E3, E1, app_assoc|]); (split; [|done]); destruct HR as [?|[_ ?]]; auto.
Qed.

(** [run] reads the command line before [basicMounts] has mounted "/proc": in the boot image that is an empty
    directory, and the drive is the default whatever the kernel was told. *)
Example command_line_not_mounted_yet :
  exists args, fst (kernelArgs (with_dirs ["/proc"; "/sys"; "/dev"; "/run"; "/tmp"] empty_world)) = Ok args
    /\ target_drive args = "/dev/vdb".
Proof. exists ∅. vm_compute. done. Qed.

Section demo.
(** A kernel whose only process is the agent, number 7. *)
#[local] Instance demo_kernel : Kernel bool := {|
  unix_Mount := fun _ => mret tt;
  cmd_Start := fun _ s => (Ok 7, (true, snd s));
  unix_Wait4 := fun s => if fst s then (Ok 7, (false, snd s)) else (Err (Errno ECHILD), s);
  unix_Sync := mret tt; unix_Reboot := fun _ => mret tt |}.
Abbreviation demo_machine := (Machine false (with_dirs ["/agent.d"; "/mnt/overlay/merged/.sandbox"] empty_world) []).

Lemma main_calls_witness : exists l s', main (K := bool) 2 demo_machine = (Ok tt, s')
  /\ mc_calls s' = l ++ [CSync; CReboot REBOOT_POWER_OFF; CReboot REBOOT_RESTART] /\ started "/dev/vdb" l.
Proof.
  pose proof (main_calls (K := bool) (fun s => if fst s then 1%nat else 0%nat) 2 demo_machine) as H.
  destruct H as (args & l & s' & Ha & Hm & Hc & Hl & _).
  - intros m s v s'. discriminate.
  - intros c s v s'. discriminate.
  - intros [[] w] v s'; discriminate.
  - intros s. exists s. reflexivity.
  - intros c s v s'. discriminate.
  - intros [[] w]; simpl; lia.
  - intros [[] w] o s' E; injection E as <- <-; [right; simpl; lia|left; reflexivity].
  - exists l, s'. split; [exact Hm|]. split; [exact Hc|].
    assert (Hin : mc_calls (snd (main (K := bool) 2 demo_machine)) !! 14%nat = Some (CStartAgent agent_command true)) by (vm_compute; reflexivity).
    assert (Hn : length (mc_calls (snd (main (K := bool) 2 demo_machine))) = 18%nat) by (vm_compute; reflexivity).
    assert (E : mc_calls (snd (main (K := bool) 2 demo_machine)) = l ++ [CSync; CReboot REBOOT_POWER_OFF; CReboot REBOOT_RESTART])
      by (transitivity (mc_calls s'); [exact (f_equal (fun r => mc_calls (snd r)) Hm)|exact Hc]).
    rewrite E in Hin, Hn. rewrite length_app in Hn. cbn [length] in Hn. rewrite lookup_app_l in Hin by lia. destruct Hl as [Hl|Hl].
    + destruct (Forall_lookup_1 _ _ _ _ Hl Hin).
    + assert (Ea : fst (kernelArgs (mc_fs demo_machine)) = Ok ∅) by (vm_compute; reflexivity). rewrite Ea in Ha. injection Ha as <-. exact Hl.
Defined.
End demo.
