(* ===== verification/Cli.v ===== *)
(** * A command's process

    What the subcommands of [cmd/sandboxd] share: the standard output and error of the process beside the
    host they work on, [fatal], and the flags behind [flag.FlagSet]. A command ends with its exit status. *)

From S2P Require Import Prelude GoPath GoFlag HostFS AgentApi AgentClient Firecracker.
Local Open Scope Z_scope.

(** The host, what was written to each stream, and the error of writing to the standard output. *)
Record cli (M : Type) := Cli { cl_host : host M; cl_out : string; cl_err : string; cl_broken : option error }.
Arguments Cli {M} _ _ _ _.
Arguments cl_host {M} _.
Arguments cl_out {M} _.
Arguments cl_err {M} _.
Arguments cl_broken {M} _.

Definition line (s : string) : string := s +:+ String newline "".

Section cli.
Context {M : Type}.
Abbreviation CLI := (GoM (cli M)).

Definition on_vm {A} (m : GoM (host M) A) : CLI A := fun c =>
  let '(o, h) := m (cl_host c) in (o, Cli h (cl_out c) (cl_err c) (cl_broken c)).
Definition on_os {A} (m : OS A) : CLI A := on_vm (on_host m).

(** [os.Stdout.Write]; the standard error takes everything. *)
Definition os_Stdout_Write (s : string) : CLI unit := fun c =>
  match cl_broken c with
  | Some err => (Err err, c)
  | None => (Ok tt, Cli (cl_host c) (cl_out c +:+ s) (cl_err c) None)
  end.
Definition Stderr_Write (s : string) : CLI unit := modify (fun c => Cli (cl_host c) (cl_out c) (cl_err c +:+ s) (cl_broken c)).
(** [fmt.Printf], [fmt.Println]: their errors are not looked at. *)
Definition Printf (s : string) : CLI unit := ignore (os_Stdout_Write s).
Definition Println (s : string) : CLI unit := Printf (line s).

(** [fatal(err)], for every error a command ends with: a line on the standard error, and status 1. *)
Definition fatal (m : CLI Z) : CLI Z :=
  r ← attempt m;
  match r with
  | inl err => Stderr_Write (line ("error: " +:+ error_text err)) ;; mret 1
  | inr status => mret status
  end.

(** [fs := flag.NewFlagSet(name, flag.ExitOnError)] and [fs.Parse(args)]: help ends the command with status 0, an error with
    status 2; what [flag] prints about the flags is [flag_usage]. *)
Definition with_flags (flag_usage : string -> FlagSet -> string) (name : string) (fs : FlagSet) (args : list string)
    (k : FlagSet -> list string -> CLI Z) : CLI Z :=
  match parse_flags fs args with
  | Parsed fs args => k fs args
  | Help => Stderr_Write (flag_usage name fs) ;; mret 0
  | Bad err => Stderr_Write (line (error_text err) +:+ flag_usage name fs) ;; mret 2
  end.
End cli.

(** The values behind the flags. *)
Definition flag_string (fs : FlagSet) (name : string) : string := match fs !! name with Some (FString s) => s | _ => "" end.
Definition flag_int (fs : FlagSet) (name : string) : Z :=
  match fs !! name with Some (FInt n) | Some (FInt64 n) | Some (FUint n) | Some (FDuration n) => n | _ => 0 end.
Definition flag_bool (fs : FlagSet) (name : string) : bool := match fs !! name with Some (FBool b) => b | _ => false end.
Definition flag_strings (fs : FlagSet) (name : string) : list string := match fs !! name with Some (FStrings l) => l | _ => [] end.
