(* ===== verification/Sandboxd.v ===== *)
(** * The command line

    [cmd/sandboxd]: [main] and its subcommands: prepare an image, run a command in a microVM, make a snapshot,
    build the boot image, look into an image, serve the API or print its document, and try the pieces out on
    the host. A command starts from its arguments and gives its exit status; what it prints is in the state
    of [Cli]. *)

From S2P Require Import Prelude GoPath GoBase64 Sha256 GoFlag HostFS Confine FileLaws Entries Config ContentStore Oci FileLock Rootfs Diskfs Runtime.
From S2P Require Import AgentApi AgentServer AgentClient VmJobs Server Api Firecracker Manager Init Cli.
Local Open Scope Z_scope.

(** [repeatedStrings] *)
Definition repeatedStrings_String (v : list string) : string := str_join "," v.
Definition repeatedStrings_Set (v : list string) (value : string) : list string := v ++ [value].

(** What [flag] does with a value of the type. *)
Lemma repeatedStrings_flag v value : flag_Set (FStrings v) value = Ok (FStrings (repeatedStrings_Set v value)).
Proof. done. Qed.

(** ** Results *)

Fixpoint exitCodeFromResults (results : list JobResult) : Z :=
  match results with
  | [] => 0
  | result :: rest =>
      if decide (jr_Type result = JobExec) then
        if decide (jr_ExitCode result < 0 \/ jr_ExitCode result > 255) then 1 else jr_ExitCode result
      else exitCodeFromResults rest
  end.

Definition tab : ascii := "009"%char.
Definition bool_text (b : bool) : string := if b then "true" else "false".
Definition when {M} (b : bool) (m : GoM (cli M) unit) : GoM (cli M) unit := if b then m else mret tt.

(** The body of the loop of [printJobResults]. *)
Definition printJobResult {M} (result : JobResult) : GoM (cli M) unit :=
  if decide (jr_Type result <> JobExec) then mret tt
  else
    Printf (decoded (jr_StdoutBase64 result)) ;;
    Stderr_Write (decoded (jr_StderrBase64 result)) ;;
    Stderr_Write (line ("exit_code=" +:+ pretty (jr_ExitCode result))) ;;
    when (jr_TimedOut result) (Stderr_Write (line "timed_out=true")) ;;
    when (negb (jr_OK result) && negb (bool_decide (jr_Error result = ""))) (Stderr_Write (line (jr_Error result))).
Definition printJobResults {M} (results : list JobResult) : GoM (cli M) unit := for_each results printJobResult.

Definition printRunTimings {M} (cacheHit : bool) (preflight prepare readConfig : Z) (vm : Firecracker.RunTimings) (total : Z) : GoM (cli M) unit :=
  let entry name text := Stderr_Write (line ("  " +:+ name +:+ ": " +:+ text)) in
  Stderr_Write (line "timings:") ;;
  entry "prepare_cache_hit" (bool_text cacheHit) ;;
  entry "preflight" (duration_String preflight) ;;
  entry "prepare_image" (duration_String prepare) ;;
  entry "read_oci_config" (duration_String readConfig) ;;
  entry "vm_setup" (duration_String (SetupDuration vm)) ;;
  entry "firecracker_start" (duration_String (MachineStartDuration vm)) ;;
  when (bool_decide (AgentReadyDuration vm > 0)) (entry "agent_ready" (duration_String (AgentReadyDuration vm))) ;;
  entry "jobs_request_with_agent_wait" (duration_String (JobsDuration vm)) ;;
  entry "shutdown_wait" (duration_String (ShutdownWaitDuration vm)) ;;
  entry "vm_total" (duration_String (TotalDuration vm)) ;;
  entry "command_total" (duration_String total).

(** [%+v] of the results. *)
Definition result_text (r : JobResult) : string :=
  "{Type:" +:+ jr_Type r +:+ " OK:" +:+ bool_text (jr_OK r) +:+ " Error:" +:+ jr_Error r +:+ " ExitCode:" +:+ pretty (jr_ExitCode r)
  +:+ " TimedOut:" +:+ bool_text (jr_TimedOut r) +:+ " StdoutBase64:" +:+ jr_StdoutBase64 r +:+ " StderrBase64:" +:+ jr_StderrBase64 r +:+ "}".
Definition results_text (rs : list JobResult) : string := "[" +:+ str_join " " (result_text <$> rs) +:+ "]".

Definition usage {M} : GoM (cli M) unit :=
  Stderr_Write (foldr (fun l s => line l +:+ s) "" [
    "usage:"; "  sandboxd prepare-image [flags] IMAGE_REF"; "  sandboxd inspect-rootfs [--ls PATH] [--read PATH] ROOTFS_EXT4";
    "  sandboxd build-boot-image --init /tmp/init --agent /tmp/agent --output boot-init.ext4";
    "  sandboxd run [flags] IMAGE_REF -- COMMAND [ARG...]"; "  sandboxd openapi [--output openapi.json]";
    "  sandboxd serve [--config sandboxd.json]"; "  sandboxd demo-local [flags]"]).

Definition cleanImagePath (p : string) : string :=
  let clean := TrimPrefix (Clean p) "/" in
  if decide (clean = "." \/ clean = "") then "." else clean.

(** ** Images of the library *)

(** [file.OpenFromPath] of a path, read-only, and [ext4.Read] of a size. *)
Class Ext4Image (FS Storage : Type) := {
  file_OpenFromPath : string -> OS Storage;
  ext4_Read : Storage -> Z -> OS FS
}.

Section images.
Context {FS Storage : Type} `{Ext4 FS} `{!Ext4Disk FS Storage} `{!Ext4Image FS Storage}.

(** Calls on a mounted file system, and back on the host. *)
Definition on_image {A} (m : GoM (FS * world) A) (fsys : FS) : OS (A * FS) := fun w =>
  let '(o, (f, w')) := m (fsys, w) in
  (match o with Ok a => Ok (a, f) | Err e => Err e | Panic v => Panic v end, w').

Definition openExt4 (imagePath : string) : OS (FS * Storage) :=
  info ← os_Stat imagePath;
  storage ← file_OpenFromPath imagePath;
  r ← attempt (ext4_Read (FS := FS) storage (fi_size info));
  match r with
  | inl err => ignore (storage_Close (FS := FS) storage) ;; fail err
  | inr fsys => mret (fsys, storage)
  end.

Definition read_only : open_flags := {| o_creat := false; o_excl := false; o_trunc := false; o_nofollow := false |}.
(** What is left to read of a file just opened. *)
Definition fd_read (i : nat) : OS string :=
  syscall (gets (fun w => match w_inodes w !! i with Some n => i_data n | None => "" end)).
Definition beside {A} (m : OS A) : GoM (FS * world) A := fun s => let '(o, w) := m (snd s) in (o, (fst s, w)).

Definition copyIntoExt4 (sourcePath targetPath : string) (mode : Z) : GoM (FS * world) unit :=
  source ← beside (os_open sourcePath read_only 0);
  defer (beside (ignore (fd_close source))) (
    target ← fs_OpenFile targetPath false;
    r ← attempt (contents ← beside (fd_read source); fs_Write target contents);
    match r with
    | inl err => ignore (fs_CloseFile target) ;; fail err
    | inr _ => fs_CloseFile target ;; fs_Chmod targetPath mode
    end).

Definition boot_dirs : list string := ["dev"; "proc"; "sys"; "run"; "tmp"; "mnt"; "mnt/target"; "mnt/overlay"].

(** [defer closeFn()] *)
Definition closeExt4 (fsys : FS) (storage : Storage) : OS unit :=
  ignore (on_image fs_Close fsys) ;; ignore (storage_Close (FS := FS) storage).
End images.

(** What init makes sure of on its read-only root is there already, and so are the two programs of a boot. *)
Example boot_image_fits_init :
  Forall (fun dir => TrimPrefix dir "/" ∈ boot_dirs) ["/proc"; "/sys"; "/dev"; "/run"; "/tmp"; targetMount; overlayBase].
Proof. repeat constructor; vm_compute; set_solver. Qed.

(** ** Flags *)

(** The flags of the commands that start a machine. *)
Record VmFlags := {
  vf_StoreDir : string; vf_Kernel : string; vf_BootImage : string; vf_FirecrackerBin : string; vf_JailerBin : string;
  vf_JailerChrootBaseDir : string; vf_JailerUID : Z; vf_JailerGID : Z; vf_JailerCgroupVersion : string;
  vf_JailerCgroups : list string; vf_VCPU : Z; vf_MemMiB : Z; vf_Timeout : Z; vf_SnapshotDir : string
}.
Record RunFlags := { rf_VM : VmFlags; rf_OS : string; rf_Arch : string; rf_UID : Z; rf_GID : Z; rf_Workdir : string }.

(** Flags as they are set; the first of them are the declarations, with their defaults. *)
Definition vm_settings (f : VmFlags) : list (string * flag_value) := [
  ("store-dir", FString (vf_StoreDir f)); ("kernel", FString (vf_Kernel f)); ("boot-image", FString (vf_BootImage f));
  ("firecracker-bin", FString (vf_FirecrackerBin f)); ("jailer-bin", FString (vf_JailerBin f));
  ("jailer-chroot-base-dir", FString (vf_JailerChrootBaseDir f)); ("jailer-uid", FInt (vf_JailerUID f)); ("jailer-gid", FInt (vf_JailerGID f));
  ("jailer-cgroup-version", FString (vf_JailerCgroupVersion f)); ("jailer-cgroup", FStrings (vf_JailerCgroups f)); ("vcpu", FInt (vf_VCPU f));
  ("mem-mib", FInt (vf_MemMiB f)); ("timeout", FDuration (vf_Timeout f)); ("snapshot-dir", FString (vf_SnapshotDir f))].
Definition run_settings (f : RunFlags) : list (string * flag_value) := vm_settings (rf_VM f) ++ [
  ("os", FString (rf_OS f)); ("arch", FString (rf_Arch f)); ("uid", FInt (rf_UID f)); ("gid", FInt (rf_GID f)); ("workdir", FString (rf_Workdir f))].

Definition vm_defaults (snapshotDir : string) : VmFlags := {|
  vf_StoreDir := DefaultStoreDir; vf_Kernel := DefaultKernelPath; vf_BootImage := DefaultBootImagePath; vf_FirecrackerBin := "firecracker";
  vf_JailerBin := ""; vf_JailerChrootBaseDir := ""; vf_JailerUID := 0; vf_JailerGID := 0; vf_JailerCgroupVersion := "2"; vf_JailerCgroups := [];
  vf_VCPU := 1; vf_MemMiB := 256; vf_Timeout := Seconds 60; vf_SnapshotDir := snapshotDir |}.
Definition run_defaults_flags : RunFlags := {|
  rf_VM := vm_defaults ""; rf_OS := DefaultPlatformOS; rf_Arch := DefaultArchitecture; rf_UID := 0; rf_GID := 0; rf_Workdir := "/workspace" |}.
Definition run_flagset : FlagSet := list_to_map (run_settings run_defaults_flags).
Definition create_flagset : FlagSet := list_to_map (vm_settings (vm_defaults (Join ["tmp"; "snapshots"]))).

Definition vm_flags (fs : FlagSet) : VmFlags := {|
  vf_StoreDir := flag_string fs "store-dir"; vf_Kernel := flag_string fs "kernel"; vf_BootImage := flag_string fs "boot-image";
  vf_FirecrackerBin := flag_string fs "firecracker-bin"; vf_JailerBin := flag_string fs "jailer-bin";
  vf_JailerChrootBaseDir := flag_string fs "jailer-chroot-base-dir"; vf_JailerUID := flag_int fs "jailer-uid"; vf_JailerGID := flag_int fs "jailer-gid";
  vf_JailerCgroupVersion := flag_string fs "jailer-cgroup-version"; vf_JailerCgroups := flag_strings fs "jailer-cgroup";
  vf_VCPU := flag_int fs "vcpu"; vf_MemMiB := flag_int fs "mem-mib"; vf_Timeout := flag_int fs "timeout";
  vf_SnapshotDir := flag_string fs "snapshot-dir" |}.
Definition run_flags (fs : FlagSet) : RunFlags := {|
  rf_VM := vm_flags fs; rf_OS := flag_string fs "os"; rf_Arch := flag_string fs "arch"; rf_UID := flag_int fs "uid"; rf_GID := flag_int fs "gid";
  rf_Workdir := flag_string fs "workdir" |}.

Definition boot_flagset : FlagSet :=
  list_to_map [("init", FString ""); ("agent", FString ""); ("output", FString ""); ("size-bytes", FInt64 (Z.shiftl 256 20))].
Definition prepare_flagset : FlagSet :=
  list_to_map [("store-dir", FString DefaultStoreDir); ("os", FString DefaultPlatformOS); ("arch", FString DefaultArchitecture); ("timeout", FDuration (10 * Minute))].
Definition inspect_flagset : FlagSet := list_to_map [("read", FString ""); ("ls", FString "")].
Definition openapi_flagset : FlagSet := list_to_map [("output", FString "openapi.json"); ("config", FString "")].
Definition serve_flagset : FlagSet := list_to_map [("config", FString "sandboxd.json")].
Definition demo_flagset : FlagSet :=
  list_to_map [("store-dir", FString (Join ["tmp"; "sandbox-runtime-demo"])); ("image", FString "docker.io/library/alpine:latest"); ("timeout", FDuration (10 * Minute))].

(** ** Commands *)

(** [json.NewEncoder(os.Stdout)] with [SetIndent]: the text [Encode] writes. *)
Class JSONIndent (A : Type) := json_Indent : A -> outcome string.

(** How [httpServer.ListenAndServe] of the API ended, or a signal came and [Shutdown] after it. *)
Inductive serve_end := Served (err : error) | Signalled (shutdown : option error).

Section commands.
Context {M : Type} `{VMM M} `{JSONMarshal BatchRequest} `{JSONDecoder BatchResponse} `{StrictDecoder BatchRequest}.
Context {Reference : Type} (ParseReference : string -> outcome Reference).
Context (remote_Image : Reference -> Config.Platform -> outcome RemoteImage).
Context `{JSON RawMessage} `{JSON RefMetadata} `{JSON imageManifest} `{JSON Rootfs.Metadata}.
Context `{JSONUnmarshal ImageConfig} `{RootfsImageBuilder}.
Context {FS Storage : Type} `{Ext4 FS} `{!Ext4Disk FS Storage} `{!Ext4Image FS Storage}.
Context `{JSONIndent SnapshotArtifact} `{JSONIndent Manager.PreparedImage} `{ConfigUnmarshal}.
Context (os_TempDir : string) (WithTimeout : context -> Z -> context).
Context (exec_LookPath : string -> OS string) (map_order : list (string * string) -> list (string * string)).
Context (GOARCH : string).
(** [context.Background()], as the operations it is handed to see it. *)
Context (background : nat -> context).
(** What [flag] prints about a command's flags. *)
Context (flag_usage : string -> FlagSet -> string).
(** [huma]'s document of the operations for a server's address; [net/http] serving a handler at an address. *)
Context (huma_openapi : list Operation -> string -> HttpResponse).
Context `{Huma} (http_Serve : string -> ((nat -> context) -> huma_Request -> GoM (host M) answer) -> GoM (host M) serve_end).
(** [httptest.NewServer]: its URL; and what the agent's handler needs. *)
Context (test_url : string) (encode_response : BatchResponse -> string) (cmd_Run : Command -> OS RunOutcome).
(** The fuel of the loops that wait. *)
Context (fuel : nat).
Abbreviation CLI := (GoM (cli M)).

Definition clock : CLI Z := on_vm (given time_Now).
(** [enc.Encode(v)] *)
Definition Encode {A} `{JSONIndent A} (v : A) : CLI unit := text ← lift_outcome (json_Indent v); os_Stdout_Write (line text).

Definition buildBootImage (args : list string) : CLI Z :=
  with_flags flag_usage "build-boot-image" boot_flagset args (fun fs _ =>
    let initPath := flag_string fs "init" in
    let agentPath := flag_string fs "agent" in
    let outputPath := flag_string fs "output" in
    let size := flag_int fs "size-bytes" in
    fail_if (bool_decide (initPath = "") || bool_decide (agentPath = "") || bool_decide (outputPath = ""))
      (Errorf "usage: sandboxd build-boot-image --init /tmp/init --agent /tmp/agent --output boot-init.ext4" []) ;;
    r ← attempt (on_os (os_MkdirAll (Dir outputPath) 493));
    match r with
    | inl err => if decide (Dir outputPath <> ".") then fail err else mret tt
    | inr _ => mret tt
    end ;;
    on_os (ignore (os_Remove outputPath)) ;;
    storage ← on_os (file_CreateFromPath (FS := FS) outputPath size);
    fsys ← on_os (ext4_Create (FS := FS) storage size);
    r ← on_os (on_image (for_each boot_dirs fs_Mkdir ;; copyIntoExt4 initPath "init" 493 ;; copyIntoExt4 agentPath "agent" 493) fsys);
    Println outputPath ;;
    on_os (closeExt4 (snd r) storage) ;;
    mret 0).

Definition inspectRootfs (args : list string) : CLI Z :=
  with_flags flag_usage "inspect-rootfs" inspect_flagset args (fun fs args =>
    match args with
    | [imagePath] =>
        image ← on_os (openExt4 (FS := FS) imagePath);
        let readFile := flag_string fs "read" in
        let listDir := if decide (flag_string fs "ls" = "" /\ readFile = "") then "/" else flag_string fs "ls" in
        fsys ← (if decide (listDir = "") then mret (fst image)
                else
                  r ← on_os (on_image (fs_ReadDir (cleanImagePath listDir)) (fst image));
                  for_each (fst r) (fun entry => Printf (line ((if snd entry : bool then "dir" else "file") +:+ String tab (fst entry)))) ;;
                  mret (snd r));
        fsys ← (if decide (readFile = "") then mret fsys
                else
                  r ← on_os (on_image (fs_ReadFile (cleanImagePath readFile)) fsys);
                  ignore (os_Stdout_Write (fst r)) ;;
                  mret (snd r));
        on_os (closeExt4 fsys (snd image)) ;;
        mret 0
    | _ => fail (Errorf "usage: sandboxd inspect-rootfs [--ls PATH] [--read PATH] ROOTFS_EXT4" [])
    end).

(** [filepath.Abs] *)
Definition Abs (path : string) : OS string :=
  gets (fun w => if IsAbs path then Clean path else Join [render (true, w_cwd w); path]).

Definition jailerConfig (jailerPath chrootBase : string) (uid gid : Z) (cgroupVersion : string) (cgroupArgs : list string)
  : OS (option JailerConfig) :=
  if decide (jailerPath = "") then mret None
  else
    resolved ← (if negb (str_contains slash jailerPath)
                then wrap_err (fun _ => Errorf "jailer binary %q not found in PATH" [jailerPath]) (exec_LookPath jailerPath)
                else mret jailerPath);
    wrap_err (Wrapf "jailer path %q is not readable: %w" [resolved]) (os_Stat resolved) ;;
    chrootBase ← (if decide (chrootBase = "") then mret "" else Abs chrootBase);
    mret (Some {| jc_Binary := resolved; jc_ChrootBaseDir := chrootBase; jc_UID := uid; jc_GID := gid; jc_NumaNode := 0;
                  jc_CgroupVersion := cgroupVersion; jc_CgroupArgs := cgroupArgs |}).

Definition flags_jailer (f : VmFlags) : OS (option JailerConfig) :=
  jailerConfig (vf_JailerBin f) (vf_JailerChrootBaseDir f) (vf_JailerUID f) (vf_JailerGID f) (vf_JailerCgroupVersion f) (vf_JailerCgroups f).

(** [config.Config{StoreDir: .., KernelPath: .., BootImagePath: ..}] *)
Definition store_config (storeDir kernelPath bootImagePath : string) : Config.Config := {|
  StoreDir := storeDir; KernelPath := kernelPath; BootImagePath := bootImagePath;
  c_Platform := {| p_OS := ""; p_Architecture := "" |};
  c_Rootfs := {| MinSizeBytes := 0; MaxSizeBytes := 0; ExtraBytes := 0; Config.FS := "" |} |}.

(** The context of a command: [context.WithTimeout(context.Background(), d)]. *)
Definition command_ctx (d : Z) : nat -> context := fun k => WithTimeout (background k) d.

(** The arguments after the flags: the image, and the command with or without "--" before it. *)
Definition run_args (args : list string) : outcome (string * list string) :=
  match args with
  | [] => Err (Errorf "usage: sandboxd run [flags] IMAGE_REF [-- COMMAND [ARG...]]" [])
  | imageRef :: argv =>
      Ok (imageRef, match argv with a :: rest => if decide (a = "--") then rest else argv | [] => [] end)
  end.

Definition run_request (f : RunFlags) (jailer : option JailerConfig) (imageRef : string) (argv : list string) : Manager.RunRequest := {|
  mq_ImageRef := imageRef; mq_Platform := {| p_OS := rf_OS f; p_Architecture := rf_Arch f |}; mq_Command := argv;
  mq_KernelPath := vf_Kernel (rf_VM f); mq_BootImagePath := vf_BootImage (rf_VM f); mq_FirecrackerPath := vf_FirecrackerBin (rf_VM f);
  mq_Jailer := jailer; mq_MachineConfig := {| VCPUCount := vf_VCPU (rf_VM f); MemSizeMiB := vf_MemMiB (rf_VM f) |};
  mq_Workspace := "/workspace"; mq_Workdir := rf_Workdir f; mq_UID := rf_UID f; mq_GID := rf_GID f;
  mq_Defaults := {| jd_UID := Some (rf_UID f); jd_GID := Some (rf_GID f); jd_Env := []; jd_TimeoutMillis := Milliseconds (vf_Timeout (rf_VM f));
                    jd_MaxOutputBytes := Z.shiftl 4 20 |};
  mq_Jobs := []; mq_Timeout := vf_Timeout (rf_VM f); mq_SnapshotDir := vf_SnapshotDir (rf_VM f); mq_Snapshot := None;
  mq_CleanupJailer := false |}.


(** [runVM] with its flags, image and command. *)
Definition run_with (f : RunFlags) (imageRef : string) (argv : list string) (totalStart : Z) : CLI Z :=
  jailerCfg ← on_os (flags_jailer (rf_VM f));
  let ctx := command_ctx (wrap64 (vf_Timeout (rf_VM f) + Seconds 120)) in
  let mgr := Manager.New (store_config (vf_StoreDir (rf_VM f)) (vf_Kernel (rf_VM f)) (vf_BootImage (rf_VM f))) in
  result ← on_vm (Run ParseReference remote_Image os_TempDir WithTimeout exec_LookPath map_order mgr fuel ctx (run_request f jailerCfg imageRef argv));
  let t := mr_Timings result in
  when (bool_decide (SnapshotDuration t > 0)) (Stderr_Write (line ("snapshot_create: " +:+ duration_String (SnapshotDuration t)))) ;;
  printJobResults (rr_Results (mr_VM result)) ;;
  totalEnd ← clock;
  printRunTimings (mp_CacheHit (mr_Image result)) (PreflightDuration t) (PrepareDuration t) (ReadConfigDuration t) (rr_Timings (mr_VM result))
    (totalEnd - totalStart) ;;
  mret (exitCodeFromResults (rr_Results (mr_VM result))).

Definition runVM (args : list string) : CLI Z :=
  totalStart ← clock;
  with_flags flag_usage "run" run_flagset args (fun fs args =>
    parsed ← lift_outcome (run_args args);
    run_with (run_flags fs) (fst parsed) (snd parsed) totalStart).

Definition create_snapshot (f : VmFlags) (args : list string) : CLI Z :=
  match args with
  | [imageRef] =>
      jailerCfg ← on_os (flags_jailer f);
      let ctx := command_ctx (wrap64 (vf_Timeout f + Seconds 120)) in
      let mgr := Manager.New (store_config (vf_StoreDir f) (vf_Kernel f) (vf_BootImage f)) in
      created ← on_vm (CreateSnapshot ParseReference remote_Image os_TempDir WithTimeout exec_LookPath map_order mgr fuel ctx {|
        cq_ImageRef := imageRef; cq_Platform := {| p_OS := DefaultPlatformOS; p_Architecture := DefaultArchitecture |};
        cq_KernelPath := vf_Kernel f; cq_BootImagePath := vf_BootImage f; cq_FirecrackerPath := vf_FirecrackerBin f; cq_Jailer := jailerCfg;
        cq_MachineConfig := {| VCPUCount := vf_VCPU f; MemSizeMiB := vf_MemMiB f |}; cq_Timeout := vf_Timeout f;
        cq_SnapshotDir := vf_SnapshotDir f; cq_Snapshot := {| sa_MemPath := ""; sa_SnapshotPath := ""; sa_WorkspaceDir := "" |} |});
      Encode created ;;
      mret 0
  | _ => fail (Errorf "usage: sandboxd create-snapshot [flags] IMAGE_REF" [])
  end.
Definition createSnapshot (args : list string) : CLI Z :=
  with_flags flag_usage "create-snapshot" create_flagset args (fun fs args => create_snapshot (vm_flags fs) args).

Definition prepareImage (args : list string) : CLI Z :=
  with_flags flag_usage "prepare-image" prepare_flagset args (fun fs args =>
    match args with
    | [imageRef] =>
        let mgr := Manager.New (store_config (flag_string fs "store-dir") "" "") in
        prepared ← on_os (Manager.PrepareImage ParseReference remote_Image mgr (command_ctx (flag_int fs "timeout") 0%nat)
          {| pq_ImageRef := imageRef; pq_Platform := {| p_OS := flag_string fs "os"; p_Architecture := flag_string fs "arch" |} |});
        Encode prepared ;;
        mret 0
    | _ => fail (Errorf "usage: sandboxd prepare-image [flags] IMAGE_REF" [])
    end).

Definition dumpOpenAPI (args : list string) : CLI Z :=
  with_flags flag_usage "openapi" openapi_flagset args (fun fs args =>
    fail_if (negb (bool_decide (args = []))) (Errorf "usage: sandboxd openapi [--output openapi.json] [--config sandboxd.json]" []) ;;
    let configPath := flag_string fs "config" in
    cfg ← (if decide (configPath = "") then mret Server.DefaultConfig else on_os (LoadConfig configPath));
    server ← lift_outcome (Server.New GOARCH cfg);
    let rec := huma_openapi operations ("http://" +:+ dc_Listen (ds_Config server)) in
    fail_if (negb (bool_decide (hr_StatusCode rec = 200)))
      (Errorf "generate openapi: GET /openapi.json returned %d: %s" [pretty (hr_StatusCode rec); TrimSpace (fst (hr_Body rec))]) ;;
    let outputPath := flag_string fs "output" in
    if decide (outputPath = "-") then os_Stdout_Write (fst (hr_Body rec)) ;; mret 0
    else
      on_os (os_WriteFile outputPath (fst (hr_Body rec)) 420) ;;
      Println outputPath ;;
      mret 0).

Definition serve (args : list string) : CLI Z :=
  with_flags flag_usage "serve" serve_flagset args (fun fs _ =>
    cfg ← on_os (LoadConfig (flag_string fs "config"));
    server ← lift_outcome (Server.New GOARCH cfg);
    Stderr_Write (line ("sandboxd listening on http://" +:+ dc_Listen cfg)) ;;
    ended ← on_vm (http_Serve (dc_Listen cfg)
      (Api.Handler ParseReference remote_Image os_TempDir WithTimeout exec_LookPath map_order GOARCH server fuel));
    match ended with
    | Served err => if decide (err = ErrServerClosed) then mret 0 else fail err
    | Signalled (Some err) => fail err
    | Signalled None => mret 0
    end).

(** *** On the host alone *)

(** The agent's handler behind [httptest.NewServer], whose panics [net/http] turns into a lost connection. *)
Definition local_Do (q : HttpRequest) : GoM AgentServer.Server HttpResponse := fun s =>
  match AgentServer.Handler cmd_Run (hq_Method q) (TrimPrefix (hq_URL q) test_url) (hq_Body q, None) s with
  | (Ok r, s') => (Ok (on_wire encode_response r), s')
  | (Err e, s') => (Err e, s')
  | (Panic _, s') => (Err net_error, s')
  end.

Definition demo_jobs (workspace : string) (uid gid : Z) : BatchRequest := {|
  br_Version := Version; br_Workspace := workspace; br_Shutdown := false;
  br_Defaults := {| jd_UID := Some uid; jd_GID := Some gid; jd_Env := []; jd_TimeoutMillis := 5000; jd_MaxOutputBytes := Z.shiftl 1 20 |};
  br_Jobs := [Server.job_write_file (Join [workspace; "hello.txt"]) 420 (EncodeToString (line "hello from batched jobs")) false;
              job_exec ["/bin/sh"; "-c"; "cat hello.txt"] workspace] |}.

Definition demoLocal (args : list string) : CLI Z :=
  with_flags flag_usage "demo-local" demo_flagset args (fun fs _ =>
    let storeDir := flag_string fs "store-dir" in
    prepared ← on_os (Runtime.PrepareImage ParseReference remote_Image (Runtime.New (store_config storeDir "" ""))
      (command_ctx (flag_int fs "timeout") 0%nat) (flag_string fs "image") {| p_OS := DefaultPlatformOS; p_Architecture := DefaultArchitecture |});
    Printf (line ("prepared rootfs: " +:+ pr_RootfsPath prepared)) ;;
    image ← on_os (openExt4 (FS := FS) (pr_RootfsPath prepared));
    checked ← on_os (on_image (for_each ["bin"; "etc"; "lib"] (fun p =>
      wrap_err (Wrapf "missing expected rootfs path %s: %w" [p]) (fs_Stat p ;; mret tt))) (fst image));
    Println "verified ext4 contains expected Alpine directories: bin, etc, lib" ;;
    absStoreDir ← on_os (Abs storeDir);
    let workspace := Join [absStoreDir; "demo-workspace"] in
    on_os (os_RemoveAll workspace) ;;
    on_os (os_MkdirAll workspace 493) ;;
    uid ← on_os os_Getuid;
    gid ← on_os os_Getgid;
    server ← on_os (AgentServer.New {| AgentServer.Workspace := workspace; MaxBodyBytes := 0; MaxFileBytes := 0; AgentServer.MaxOutputBytes := 0;
      DefaultTimeout := 0; DefaultUID := uid; DefaultGID := gid; Shutdown := false; ShutdownAfterJobs := false |});
    answer ← on_os (on_agent server (Jobs local_Do test_url (demo_jobs workspace uid gid)));
    match answer with
    | (Some resp, Some err) => fail (Wrapf "%w: %s" [results_text (Results resp)] err)
    | (None, Some err) => fail err
    | (None, None) => panic "nil response"
    | (Some resp, None) =>
        match Results resp with
        | [r0; r1] =>
            if jr_OK r0 && jr_OK r1 then
              Printf ("agent job stdout: " +:+ decoded (jr_StdoutBase64 r1)) ;;
              Println "demo complete" ;;
              on_os (closeExt4 (snd checked) (snd image)) ;;
              mret 0
            else fail (Errorf "unexpected job results: %s" [results_text (Results resp)])
        | _ => fail (Errorf "unexpected job results: %s" [results_text (Results resp)])
        end
    end).

(** *** The program *)

(** [main], of [os.Args]. *)
Definition main (os_Args : list string) : CLI Z :=
  match os_Args with
  | _ :: command :: args =>
      fatal (
        if decide (command = "prepare-image") then prepareImage args
        else if decide (command = "inspect-rootfs") then inspectRootfs args
        else if decide (command = "demo-local") then demoLocal args
        else if decide (command = "run") then runVM args
        else if decide (command = "create-snapshot") then createSnapshot args
        else if decide (command = "build-boot-image") then buildBootImage args
        else if decide (command = "openapi" \/ command = "dump-openapi") then dumpOpenAPI args
        else if decide (command = "serve") then serve args
        else usage ;; mret 2)
  | _ => usage ;; mret 2
  end.
End commands.

(** ** The exit status *)

Lemma exitCodeFromResults_range results : 0 <= exitCodeFromResults results <= 255.
Proof. induction results as [|r rest IH]; simpl; [lia|]. repeat case_decide; lia. Qed.

(** The status is 0 only for results whose first command, when there is one, exited with 0. *)
Lemma exitCodeFromResults_zero results :
  exitCodeFromResults results = 0 <->
  forall pre r rest, results = pre ++ r :: rest -> Forall (fun x => jr_Type x <> JobExec) pre -> jr_Type r = JobExec -> jr_ExitCode r = 0.
Proof.
  induction results as [|x results IH]; simpl.
  - split; [|done]. by intros _ [] ? ? ?.
  - case_decide as Hx.
    + split.
      * intros E [|y pre] r rest; intros [= -> ->] Hpre Hr; [case_decide; lia|]. apply Forall_cons in Hpre as [? _]. done.
      * intros Hall. rewrite (Hall [] x results eq_refl (Forall_nil_2 _) Hx). by case_decide; [lia|].
    + rewrite IH. split.
      * intros Hall [|y pre] r rest; intros [= -> ->] Hpre Hr; [done|]. apply Forall_cons in Hpre as [_ Hpre]. by eapply Hall.
      * intros Hall pre r rest -> Hpre Hr. eapply (Hall (x :: pre)); [done|by constructor|done].
Qed.

(** ** A command line says what it says *)

(** Numbers an [int] and a [time.Duration] have. *)
Definition vm_in_range (f : VmFlags) : Prop :=
  in_int64 (vf_JailerUID f) /\ in_int64 (vf_JailerGID f) /\ in_int64 (vf_VCPU f) /\ in_int64 (vf_MemMiB f) /\ in_int64 (vf_Timeout f).
Definition run_in_range (f : RunFlags) : Prop := vm_in_range (rf_VM f) /\ in_int64 (rf_UID f) /\ in_int64 (rf_GID f).

Lemma run_settings_set f : run_flags (list_to_map (run_settings f) ∪ run_flagset) = f.
Proof. destruct f as [[] ? ? ? ? ?]. reflexivity. Qed.

(** Some of the settings: what is not set is as declared. *)
Definition chosen (fs0 : FlagSet) (l : list (string * flag_value)) : Prop :=
  Forall (fun f => flag_name f.1) l /\ NoDup l.*1 /\ Forall (fun f => exists v0, fs0 !! f.1 = Some v0 /\ settable v0 f.2) l.

Lemma chosen_parse fs0 l rest : chosen fs0 l ->
  parse_flags fs0 (mjoin (render_flag <$> l) ++ rest) = parse_flags (list_to_map l ∪ fs0) rest.
Proof. intros (H1 & H2 & H3). by apply parse_render_all. Qed.

Lemma run_settings_chosen f : run_in_range f -> chosen run_flagset (run_settings f).
Proof.
  destruct f as [[] ? ? ? ? ?]. intros ((? & ? & ? & ? & ?) & ? & ?). split_and!.
  - repeat constructor; done.
  - apply (bool_decide_unpack _). vm_compute. exact I.
  - repeat (apply Forall_cons; split; [eexists; split; [reflexivity|done]|]). constructor.
Qed.

(** ** What the commands give *)

Section laws.
Context {M : Type} `{VMM M} `{JSONMarshal BatchRequest} `{JSONDecoder BatchResponse} `{StrictDecoder BatchRequest}.
Context {Reference : Type} (ParseReference : string -> outcome Reference).
Context (remote_Image : Reference -> Config.Platform -> outcome RemoteImage).
Context `{JSON RawMessage} `{JSON RefMetadata} `{JSON imageManifest} `{JSON Rootfs.Metadata}.
Context `{JSONUnmarshal ImageConfig} `{RootfsImageBuilder}.
Context {FS Storage : Type} `{Ext4 FS} `{!Ext4Disk FS Storage} `{!Ext4Image FS Storage}.
Context `{JSONIndent SnapshotArtifact} `{JSONIndent Manager.PreparedImage} `{ConfigUnmarshal}.
Context (os_TempDir : string) (WithTimeout : context -> Z -> context).
Context (exec_LookPath : string -> OS string) (map_order : list (string * string) -> list (string * string)).
Context (GOARCH : string) (background : nat -> context) (flag_usage : string -> FlagSet -> string).
Context (huma_openapi : list Operation -> string -> HttpResponse).
Context `{Huma} (http_Serve : string -> ((nat -> context) -> huma_Request -> GoM (host M) answer) -> GoM (host M) serve_end).
Context (test_url : string) (encode_response : BatchResponse -> string) (cmd_Run : Command -> OS RunOutcome) (fuel : nat).
Abbreviation CLI := (GoM (cli M)).
Abbreviation main_ := (main (FS := FS) (Storage := Storage) ParseReference remote_Image os_TempDir WithTimeout exec_LookPath map_order GOARCH
  background flag_usage huma_openapi http_Serve test_url encode_response cmd_Run fuel).
Abbreviation run_with_ := (run_with ParseReference remote_Image os_TempDir WithTimeout exec_LookPath map_order background fuel).

Lemma main_run name l image rest argv (c : cli M) :
  chosen run_flagset l -> read_argument image = NoFlag -> run_args (image :: rest) = Ok (image, argv) ->
  main_ (name :: "run" :: mjoin (render_flag <$> l) ++ image :: rest) c
  = fatal (totalStart ← clock; run_with_ (run_flags (list_to_map l ∪ run_flagset)) image argv totalStart) c.
Proof.
  intros Hl Hi HA. cbn [main]. rewrite !(decide_False (P := "run" = _)) by done. rewrite (decide_True (P := "run" = "run")) by done.
  unfold runVM, with_flags. rewrite (chosen_parse _ _ _ Hl), (parse_rest _ _ _ Hi), HA. reflexivity.
Qed.

(** *** The exit status *)

Definition exits (m : CLI Z) : Prop := forall c z c', m c = (Ok z, c') -> 0 <= z <= 255.
Lemma exits_ret z : 0 <= z <= 255 -> exits (mret z).
Proof. by intros Hz c z' c' [= <- _]. Qed.
Lemma exits_fail e : exits (fail e).
Proof. done. Qed.
Lemma exits_panic v : exits (panic v).
Proof. done. Qed.
Lemma exits_bind {A} (m : CLI A) (k : A -> CLI Z) : (forall a, exits (k a)) -> exits (m ≫= k).
Proof. intros Hk c z c' (a & c1 & _ & E)%bind_Ok. by eapply Hk. Qed.
Lemma exits_with_flags name fs args k : (forall fs args, exits (k fs args)) -> exits (with_flags flag_usage name fs args k).
Proof. intros Hk. unfold with_flags. destruct (parse_flags fs args); [apply Hk|apply exits_bind; intros; apply exits_ret; lia..]. Qed.
Lemma exits_fatal m : exits m -> exits (fatal m).
Proof.
  intros Hm c z c' ([e|a] & c1 & E & E1)%bind_Ok; [run_Ok E1; injection E1 as <- _; lia|].
  apply attempt_inr in E. injection E1 as <- _. by eapply Hm.
Qed.
#[local] Ltac statuses :=
  repeat first [apply exits_fatal | apply exits_with_flags; intros | apply exits_bind; intros | apply exits_fail | apply exits_panic
    | apply exits_ret; first [lia | apply exitCodeFromResults_range] | progress cbv zeta | case_match].

(** Whatever the arguments, a command that ends has a status a process can have. *)
Lemma main_status os_Args : exits (main_ os_Args).
Proof.
  unfold main, prepareImage, inspectRootfs, demoLocal, runVM, run_with, createSnapshot, create_snapshot, buildBootImage, dumpOpenAPI, serve. statuses.
Qed.

(** C27: the command line of a run is read as it is written: for every setting of the flags of "sandboxd run" within the range
    of their types, an image and a command, the words that say so, with "--" before the command or, when it does
    not start with one itself, without, run exactly that command on that image with these settings; and of any
    choice of the flags, in any order, the others are as declared. The command's own words are never read as flags. *)
Theorem run_command_line name f image argv (c : cli M) :
  run_in_range f -> read_argument image = NoFlag ->
  let command f := fatal (totalStart ← clock; run_with_ f image argv totalStart) in
  main_ (name :: "run" :: mjoin (render_flag <$> run_settings f) ++ image :: "--" :: argv) c = command f c
  /\ (head argv <> Some "--" -> main_ (name :: "run" :: mjoin (render_flag <$> run_settings f) ++ image :: argv) c = command f c)
  /\ forall l, chosen run_flagset l ->
     main_ (name :: "run" :: mjoin (render_flag <$> l) ++ image :: "--" :: argv) c = command (run_flags (list_to_map l ∪ run_flagset)) c.
Proof.
  intros Hf Hi command.
  pose proof (run_settings_chosen f Hf) as Hs. split_and!.
  - rewrite (main_run _ _ _ _ argv) by done. by rewrite run_settings_set.
  - intros Hh. rewrite (main_run _ _ _ _ argv); [by rewrite run_settings_set|done|done|]. destruct argv as [|a l]; [done|].
    simpl. by rewrite decide_False by naive_solver.
  - intros l Hl. by apply main_run.
Qed.
End laws.

Section demo.
#[local] Existing Instances Api.idle_vmm Api.api_marshal Api.api_decoder Api.api_ref_json Api.api_manifest_json Api.api_raw_json Api.api_metadata_json
  Api.api_config_json Api.api_builder Api.api_huma.
#[local] Instance line_decoder : StrictDecoder BatchRequest := fun _ => Err EOF.
#[local] Instance line_image : Ext4Image memfs string := {| file_OpenFromPath := fun _ => fail (Errno ENOENT); ext4_Read := fun _ _ => fail (Errno ENOENT) |}.
#[local] Instance line_snapshot_json : JSONIndent SnapshotArtifact := fun _ => Ok "{}".
#[local] Instance line_prepared_json : JSONIndent Manager.PreparedImage := fun _ => Ok "{}".
#[local] Instance line_server_config : ConfigUnmarshal := fun _ cfg => Ok cfg.
Abbreviation host_cli := (Cli (Host tt empty_world []) "" "" None).
Definition demo_main (words : list string) : outcome Z * cli unit :=
  main (FS := memfs) (Storage := string) (fun _ => Ok tt) (fun _ _ => Err EOF) "/tmp" (fun c _ => c) (fun _ => fail (Errno ENOENT)) (fun l => l) "amd64"
    (fun _ _ _ => None) (fun _ _ => "") (fun _ _ => {| hr_StatusCode := 200; hr_Body := ("{}", None) |}) (fun _ _ => mret (Signalled None))
    "http://127.0.0.1" (fun _ => "") (fun _ => fail (Errno ENOENT)) 5 words host_cli.
Definition demo_run_flags : RunFlags := {| rf_VM := {| vf_StoreDir := DefaultStoreDir; vf_Kernel := DefaultKernelPath; vf_BootImage := DefaultBootImagePath;
    vf_FirecrackerBin := "firecracker"; vf_JailerBin := ""; vf_JailerChrootBaseDir := ""; vf_JailerUID := 0; vf_JailerGID := 0; vf_JailerCgroupVersion := "2";
    vf_JailerCgroups := ["cpu.max=1"; "x"]; vf_VCPU := 1; vf_MemMiB := 256; vf_Timeout := Seconds 90; vf_SnapshotDir := "" |};
  rf_OS := "linux"; rf_Arch := "amd64"; rf_UID := 0; rf_GID := 0; rf_Workdir := "/workspace" |}.

(** Two flags, one of them given twice, and a command whose words look like flags. *)
Lemma run_command_line_witness :
  demo_main ["sandboxd"; "run"; "--timeout=90000000000ns"; "--jailer-cgroup=cpu.max=1"; "--jailer-cgroup=x"; "alpine"; "--"; "ls"; "--uid=7"; "--"]
  = fatal (totalStart ← clock; run_with (fun _ => Ok tt) (fun _ _ => Err EOF) "/tmp" (fun c _ => c) (fun _ => fail (Errno ENOENT)) (fun l => l)
      (fun _ _ _ => None) 5 demo_run_flags "alpine" ["ls"; "--uid=7"; "--"] totalStart) host_cli
  /\ fst (demo_main ["sandboxd"; "run"; "--vcpu=two"; "alpine"]) = Ok 2.
Proof.
  split; [|vm_compute; reflexivity].
  destruct (run_command_line (M := unit) (FS := memfs) (Storage := string) (fun _ => Ok tt) (fun _ _ => Err EOF) "/tmp" (fun c _ => c)
    (fun _ => fail (Errno ENOENT)) (fun l => l) "amd64" (fun _ _ _ => None) (fun _ _ => "") (fun _ _ => {| hr_StatusCode := 200; hr_Body := ("{}", None) |})
    (fun _ _ => mret (Signalled None)) "http://127.0.0.1" (fun _ => "") (fun _ => fail (Errno ENOENT)) 5
    "sandboxd" run_defaults_flags "alpine" ["ls"; "--uid=7"; "--"] host_cli) as (_ & _ & H).
  - unfold run_in_range, vm_in_range, in_int64. repeat split; vm_compute; discriminate.
  - reflexivity.
  - refine (eq_trans _ (H [("timeout", FDuration (Seconds 90)); ("jailer-cgroup", FStrings ["cpu.max=1"; "x"])] _)); [reflexivity|].
    split_and!; [repeat constructor; done|by_decision|]. repeat (apply Forall_cons; split; [eexists; split; [reflexivity|done]|]). constructor.
Defined.
End demo.
