(* ===== verification/RunCommand.v ===== *)
(** * What "sandboxd run" shows is what the command did

    The command line of [Sandboxd] over the machine of [EndToEnd]: a run that is not fatal prints what the
    command wrote in the machine, up to the limit, and exits with its status. *)

From S2P Require Import Prelude GoPath GoBase64 Sha256 GoFlag HostFS Confine FileLaws Entries Below Config ContentStore Oci FileLock Rootfs Diskfs Runtime.
From S2P Require Import AgentApi AgentServer AgentConfinement AgentJobs AgentClient VmJobs Server Api Firecracker Manager EndToEnd Cli Sandboxd.
Local Open Scope Z_scope.

(** ** One command of the agent *)

(** The exit code the agent reports of how a command ended. *)
Definition run_code (err : option run_error) : Z :=
  match err with None => 0 | Some (ExitError code) => code | Some (RunError _) => -1 end.

Lemma exec_ran cfg cmd_Run ws defaults job w r w' :
  exec cfg cmd_Run ws defaults job w = (Ok r, w') -> jr_OK r = true ->
  exists cmd w1 out w2, cmd_Run cmd w1 = (Ok out, w2) /\ w' = snd (kill_group out w2) /\ cmd_Argv cmd = jb_Argv job /\ cmd_Env cmd = jd_Env defaults ++ jb_Env job
    /\ r = {| jr_Type := jb_Type job; jr_OK := true; jr_Error := ""; jr_ExitCode := run_code (ro_err out); jr_TimedOut := ro_timedOut out;
              jr_StdoutBase64 := EncodeToString (captured (maxOutput cfg defaults job) (ro_stdout out));
              jr_StderrBase64 := EncodeToString (captured (maxOutput cfg defaults job) (ro_stderr out)) |}.
Proof.
  unfold exec, exec_in, job_result. intros (a & w0 & E & H)%bind_Ok Hok. injection H as <- <-. destruct a as [e|r1]; [done|]. apply attempt_inr in E.
  do 5 (apply bind_Ok in E as (? & ? & _ & E)). destruct (credentials cfg defaults job) as [uid gid].
  do 4 (apply bind_Ok in E as (? & ? & _ & E)). apply bind_Ok in E as (out & w3 & Er & E).
  apply bind_Ok in E as ([] & w4 & Ek & E). eexists _, _, out, w3. split; [exact Er|]. apply (f_equal snd) in Ek. simpl in Ek. rewrite Ek. unfold run_code.
  destruct (ro_err out) as [[code|err]|]; [injection E as <- <-; by split_and!| |injection E as <- <-; by split_and!].
  destruct (ro_timedOut out) eqn:Et; [injection E as <- <-; by split_and!|done].
Qed.

(** A batch of a directory and a command that was answered with a success. *)
Lemma batch_of_two cfg cmd_Run req j0 j1 w resp status w' :
  br_Jobs req = [j0; j1] -> jb_Type j0 = JobMkdir -> jb_Type j1 = JobExec -> (forall cmd, no_panic (cmd_Run cmd)) ->
  runBatch cfg cmd_Run req w = (Ok (resp, status), w') -> 200 <= status < 300 ->
  exists r0 r1 ws w1, Results resp = [r0; r1] /\ jr_Type r0 = JobMkdir /\ jr_OK r1 = true
    /\ exec cfg cmd_Run ws (br_Defaults req) j1 w1 = (Ok r1, w').
Proof.
  intros HJ H0 H1 Hc HB Hs. destruct (runBatch_success _ _ _ _ _ _ _ Hc HB Hs) as (_ & HO & HT). revert HB.
  unfold runBatch. case_decide; [intros [= <- <- _]; unfold StatusBadRequest in Hs; lia|].
  intros (ws & w1 & _ & E)%bind_Ok. destruct ws as [e|ws]; [injection E as <- <- _; unfold StatusBadRequest in Hs; lia|].
  case_decide; [injection E as <- <- _; unfold StatusBadRequest in Hs; lia|].
  apply bind_Ok in E as ([rs b] & w2 & E & Er). injection Er as <- <- <-. rewrite HJ in E, HT. cbn [run_jobs] in E. cbn [Results fst snd] in *.
  apply bind_Ok in E as ([r0 u0] & w3 & E0 & E). destruct (jr_OK r0) eqn:EO0; [|injection E as <- <- <-; done].
  apply bind_Ok in E as (rest & w4 & E1 & E). injection E as <- _ <-.
  apply bind_Ok in E1 as ([r1 u1] & w5 & E1 & E). exists r0, r1, ws, w3.
  assert (HX : runJob cfg cmd_Run ws (br_Defaults req) j1 u0 w3 = (r ← exec cfg cmd_Run ws (br_Defaults req) j1; mret (r, u0)) w3).
  { unfold runJob. rewrite H1. do 2 rewrite decide_False by done. by rewrite decide_True by done. }
  rewrite HX in E1. apply bind_Ok in E1 as (r1' & w6 & EX & E1). injection E1 as -> <- ->.
  destruct (jr_OK r1) eqn:EO1.
  - cbn [run_jobs] in E. injection E as <- <-. cbn [fst] in *. injection HT as HT0 _. rewrite HT0, H0. by split_and!.
  - injection E as <- <-. cbn [fst] in HO. apply Forall_cons in HO as [_ [HO _]%Forall_cons]. congruence.
Qed.

(** The jobs of a request that has a command and no jobs of its own. *)
Lemma command_jobs req imageConfig jobs :
  mq_Jobs req = [] -> run_jobs req imageConfig = Ok jobs ->
  exists argv wd, jobs = [job_mkdir (firstNonEmpty [mq_Workspace req; "/workspace"]) 493; job_exec argv wd]
    /\ (mq_Command req <> [] -> argv = mq_Command req).
Proof.
  intros Hj. unfold run_jobs. rewrite decide_True by done. cbv zeta. case_decide; [done|]. intros [= <-]. eexists _, _. split; [done|].
  intros Hne. by rewrite decide_False.
Qed.

(** ** What is printed *)

Section printing.
Context {M : Type}.
Abbreviation CLI := (GoM (cli M)).

(** Work on the host leaves the streams as they are. *)
Lemma on_vm_streams {A} (m : GoM (host M) A) c o c' :
  on_vm m c = (o, c') -> m (cl_host c) = (o, cl_host c') /\ c' = Cli (cl_host c') (cl_out c) (cl_err c) (cl_broken c).
Proof. unfold on_vm. destruct (m (cl_host c)) as [x h]. by intros [= <- <-]. Qed.

(** [m] only adds [text] to the standard error. *)
Definition to_stderr (m : CLI unit) (text : string) : Prop :=
  forall c, m c = (Ok tt, Cli (cl_host c) (cl_out c) (cl_err c +:+ text) (cl_broken c)).
Lemma to_stderr_seq m text (k : unit -> CLI unit) text' : to_stderr m text -> to_stderr (k tt) text' -> to_stderr (m ≫= k) (text +:+ text').
Proof. intros Hm Hk c. unfold mbind, GoM_bind. rewrite Hm, Hk. simpl. by rewrite app_assoc_str. Qed.
Lemma to_stderr_write text : to_stderr (Stderr_Write text) text.
Proof. done. Qed.
Lemma to_stderr_when b m text : to_stderr m text -> to_stderr (when b m) (if b then text else "").
Proof. intros Hm. destruct b; [done|]. intros [h o e b]. simpl. by rewrite app_nil_r_str. Qed.

Lemma printRunTimings_stderr cacheHit a b c vm d : exists text, to_stderr (printRunTimings cacheHit a b c vm d) text.
Proof.
  eexists. unfold printRunTimings.
  repeat first [apply to_stderr_seq | apply to_stderr_when | apply to_stderr_write].
Qed.
End printing.

(** The lines of one command's result. *)
Definition result_lines (r : JobResult) : string :=
  decoded (jr_StderrBase64 r) +:+ line ("exit_code=" +:+ pretty (jr_ExitCode r))
  +:+ (if jr_TimedOut r then line "timed_out=true" else "")
  +:+ (if negb (jr_OK r) && negb (bool_decide (jr_Error r = "")) then line (jr_Error r) else "").

Lemma Printf_Ok {M} s (c : cli M) : cl_broken c = None -> Printf s c = (Ok tt, Cli (cl_host c) (cl_out c +:+ s) (cl_err c) None).
Proof. intros Hb. unfold Printf, ignore, attempt, os_Stdout_Write, mbind, GoM_bind. by rewrite Hb. Qed.

Lemma printJobResult_other {M} (r : JobResult) (c : cli M) : jr_Type r <> JobExec -> printJobResult r c = (Ok tt, c).
Proof. intros Ht. unfold printJobResult. by rewrite decide_True. Qed.

Lemma printJobResult_exec {M} (r : JobResult) (c : cli M) :
  jr_Type r = JobExec -> cl_broken c = None ->
  printJobResult r c = (Ok tt, Cli (cl_host c) (cl_out c +:+ decoded (jr_StdoutBase64 r)) (cl_err c +:+ result_lines r) None).
Proof.
  intros Ht Hb. unfold printJobResult. rewrite decide_False by naive_solver. unfold mbind at 1, GoM_bind at 1. rewrite (Printf_Ok _ _ Hb).
  match goal with |- ?m ?c1 = _ => assert (E : to_stderr m (result_lines r)) end.
  { unfold result_lines. repeat first [apply to_stderr_seq | apply to_stderr_when | apply to_stderr_write]. }
  apply E.
Qed.

Section command.
Context `{StrictDecoder BatchRequest} `{JSONMarshal BatchRequest} `{JSONDecoder BatchResponse}.
Context (encode_response : BatchResponse -> string) (cmd_Run : Command -> OS RunOutcome).
Context (X : VMM guest) (s0 : AgentServer.Server) `{!MachineLaws X s0}.
#[local] Existing Instance machine | 0.
Context {Reference : Type} (ParseReference : string -> outcome Reference).
Context (remote_Image : Reference -> Config.Platform -> outcome RemoteImage).
Context `{JSON RawMessage} `{JSON RefMetadata} `{JSON imageManifest} `{JSON Rootfs.Metadata}.
Context `{JSONUnmarshal ImageConfig} `{RootfsImageBuilder}.
Context (os_TempDir : string) (WithTimeout : context -> Z -> context).
Context (exec_LookPath : string -> OS string) (map_order : list (string * string) -> list (string * string)).
Context (background : nat -> context) (fuel : nat).
Abbreviation run_with_ := (run_with (H := machine encode_response cmd_Run X) ParseReference remote_Image os_TempDir WithTimeout exec_LookPath map_order background fuel).

(** How a run ends that is not fatal. *)
Definition shows (argv : list string) (c : cli guest) (status : Z) (c' : cli guest) : Prop :=
  let shown := str_take (Z.to_nat (Z.shiftl 4 20)) in
  exists cmd w out w2 pre post,
    cmd_Run cmd w = (Ok out, w2) /\ sv_fs (g_server (hs_vmm (cl_host c'))) = snd (kill_group out w2)
    /\ (argv <> [] -> cmd_Argv cmd = argv)
    /\ cl_out c' = cl_out c +:+ shown (str_concat (ro_stdout out))
    /\ cl_err c' = cl_err c +:+ pre +:+ shown (str_concat (ro_stderr out)) +:+ line ("exit_code=" +:+ pretty (run_code (ro_err out))) +:+ post
    /\ status = (let code := run_code (ro_err out) in if decide (0 <= code <= 255) then code else 1).

Abbreviation agent_of h := (g_server (hs_vmm h)).

Lemma clock_streams (c : cli guest) : exists t h, clock (H := machine encode_response cmd_Run X) c = (Ok t, Cli h (cl_out c) (cl_err c) (cl_broken c))
  /\ agent_of h = agent_of (cl_host c).
Proof.
  unfold clock, on_vm, given. pose proof (clock_still (hs_vmm (cl_host c), hs_fs (cl_host c))) as E.
  change (@time_Now guest (machine encode_response cmd_Run X)) with (@time_Now guest X). destruct (time_Now _) as [a [v w]]. by eexists _, _.
Qed.

(** What follows the run of the manager: of a directory's result and a command's. *)
Lemma shown_results snapshot (hit : bool) a b d vm start r0 r1 (c : cli guest) :
  jr_Type r0 = JobMkdir -> jr_Type r1 = JobExec -> cl_broken c = None ->
  exists c' pre post,
    (when (bool_decide (snapshot > 0)) (Stderr_Write (line ("snapshot_create: " +:+ duration_String snapshot))) ;;
     printJobResults [r0; r1] ;;
     totalEnd ← clock (H := machine encode_response cmd_Run X);
     printRunTimings hit a b d vm (totalEnd - start) ;;
     mret (exitCodeFromResults [r0; r1])) c = (Ok (exitCodeFromResults [r0; r1]), c')
    /\ cl_out c' = cl_out c +:+ decoded (jr_StdoutBase64 r1) /\ cl_err c' = cl_err c +:+ pre +:+ result_lines r1 +:+ post
    /\ agent_of (cl_host c') = agent_of (cl_host c).
Proof.
  intros HT0 HT1 Hb. set (note := if bool_decide (snapshot > 0) then line ("snapshot_create: " +:+ duration_String snapshot) else "").
  unfold mbind at 1, GoM_bind at 1.
  rewrite (to_stderr_when (M := guest) (bool_decide (snapshot > 0)) _ _ (to_stderr_write _)). fold note.
  set (c1 := Cli _ _ _ _). unfold mbind at 1, GoM_bind at 1.
  assert (EP : printJobResults [r0; r1] c1 = (Ok tt, Cli (cl_host c1) (cl_out c1 +:+ decoded (jr_StdoutBase64 r1)) (cl_err c1 +:+ result_lines r1) None)).
  { unfold printJobResults. cbn [for_each]. unfold mbind, GoM_bind.
    rewrite (printJobResult_other r0) by (by rewrite HT0). by rewrite (printJobResult_exec r1 c1 HT1 Hb). }
  rewrite EP. set (c2 := Cli _ _ _ _). unfold mbind at 1, GoM_bind at 1. destruct (clock_streams c2) as (t & h & ET & EH). rewrite ET.
  unfold mbind at 1, GoM_bind at 1. destruct (printRunTimings_stderr (M := guest) hit a b d vm (t - start)) as [text HT]. rewrite HT.
  eexists _, note, text. split; [reflexivity|]. subst c2 c1. cbn [cl_out cl_err cl_host] in *. split_and!; [done| |exact EH].
  by rewrite !app_assoc_str.
Qed.
Hypothesis fresh : sv_usedJobs s0 = false.
Hypothesis cmd_Run_returns : forall cmd, no_panic (cmd_Run cmd).

(** The command's run in the machine, from what the manager's run says. *)
Lemma served_command f jailer image argv (r : Manager.RunResult) h :
  run_served cmd_Run s0 (run_request f jailer image argv) r h ->
  exists r0 r1 cmd w out w2, rr_Results (mr_VM r) = [r0; r1] /\ jr_Type r0 = JobMkdir
    /\ cmd_Run cmd w = (Ok out, w2) /\ sv_fs (agent_of h) = snd (kill_group out w2) /\ (argv <> [] -> cmd_Argv cmd = argv)
    /\ r1 = {| jr_Type := JobExec; jr_OK := true; jr_Error := ""; jr_ExitCode := run_code (ro_err out); jr_TimedOut := ro_timedOut out;
               jr_StdoutBase64 := EncodeToString (str_take (Z.to_nat (Z.shiftl 4 20)) (str_concat (ro_stdout out)));
               jr_StderrBase64 := EncodeToString (str_take (Z.to_nat (Z.shiftl 4 20)) (str_concat (ro_stderr out))) |}.
Proof.
  intros (imageConfig & jobs & resp & HJ & (status & HB & Hs) & HR).
  apply command_jobs in HJ as (argv' & wd & -> & Hargv); [|done]. change (mq_Command (run_request f jailer image argv)) with argv in Hargv.
  assert (HJobs : forall jobs, br_Jobs (run_batch (run_request f jailer image argv) imageConfig jobs) = jobs) by done.
  destruct (batch_of_two _ _ _ (job_mkdir _ 493) (job_exec argv' wd) _ _ _ _ (HJobs _) eq_refl eq_refl cmd_Run_returns HB Hs) as (r0 & r1 & ws & w1 & HRs & HT0 & HO & HE).
  destruct (exec_ran _ _ _ _ _ _ _ _ HE HO) as (cmd & w & out & w2 & HC & HK & HA & _ & Hr1). exists r0, r1, cmd, w, out, w2.
  assert (HM : maxOutput (sv_cfg s0) (br_Defaults (run_batch (run_request f jailer image argv) imageConfig
      [job_mkdir (firstNonEmpty [mq_Workspace (run_request f jailer image argv); "/workspace"]) 493; job_exec argv' wd]))
    (job_exec argv' wd) = Z.shiftl 4 20) by reflexivity.
  rewrite HM, !captured_is_prefix in Hr1 by (unfold in_int64; repeat split; vm_compute; discriminate).
  split_and!; [congruence|done|done|done| |done]. intros Hne. rewrite HA. by apply Hargv.
Qed.

Lemma run_with_shows f image argv start (c : cli guest) :
  cl_broken c = None -> (forall jailer, all_agreed encode_response cmd_Run s0 (run_request f jailer image argv)) ->
  match run_with_ f image argv start c with
  | (Ok status, c') => shows argv c status c'
  | (Err _, c') => cl_out c' = cl_out c /\ cl_err c' = cl_err c
  | (Panic _, _) => True
  end.
Proof.
  intros Hb Hag. unfold run_with, on_os. unfold mbind at 1, GoM_bind at 1.
  destruct (on_vm _ c) as [o1 c1] eqn:E1. apply on_vm_streams in E1 as [_ ->]. destruct o1 as [jailer|e|v]; [|done..].
  cbv beta iota zeta. set (c2 := Cli _ _ _ _). unfold mbind at 1, GoM_bind at 1.
  destruct (on_vm _ c2) as [o3 c3] eqn:E3. apply on_vm_streams in E3 as [E3 ->]. destruct o3 as [r|e|v]; [|done..].
  apply (succeeds_Run encode_response cmd_Run X s0) in E3; [|exact fresh|apply Hag|done].
  destruct (served_command _ _ _ _ _ _ E3) as (r0 & r1 & cmd & w & out & w2 & HR & HT0 & HC & HK & HA & Hr1). rewrite HR.
  set (c4 := Cli _ _ _ _). set (t := mr_Timings r).
  destruct (shown_results (SnapshotDuration t) (mp_CacheHit (mr_Image r)) (PreflightDuration t) (PrepareDuration t) (ReadConfigDuration t)
    (rr_Timings (mr_VM r)) start r0 r1 c4 HT0 ltac:(by rewrite Hr1) Hb) as (c' & pre & post & ES & HO & HE & HG). rewrite ES.
  subst c4 c2. cbn [cl_out cl_err cl_host] in HO, HE, HG.
  exists cmd, w, out, w2, pre. eexists. rewrite HG. split_and!; [exact HC|exact HK|exact HA| | |].
  - rewrite HO, Hr1. cbn [jr_StdoutBase64]. by rewrite decoded_EncodeToString.
  - rewrite HE, Hr1. unfold result_lines. cbn [jr_StderrBase64 jr_ExitCode]. rewrite decoded_EncodeToString. by rewrite <- !app_assoc_str.
  - cbn [exitCodeFromResults]. rewrite HT0, Hr1. cbn [jr_Type jr_ExitCode]. rewrite decide_False, decide_True by done. cbv zeta. repeat case_decide; lia.
Qed.
End command.

(** C5: what "sandboxd run" shows is what the command did in the machine. Over the machine with the agent, a run of an image
    and a command, with any settings of the flags, either is fatal, and then prints nothing but an error, with
    status 1; or ran the command given once, by the agent of the machine it started, prints on its standard output
    exactly what the command wrote there, up to 4 MiB, and on its error output what the command wrote there, up to
    4 MiB, and its exit code, between lines of its own; and exits with the command's code, or 1 when that is no status. *)
Theorem run_shows_the_command `{StrictDecoder BatchRequest} `{JSONMarshal BatchRequest} `{JSONDecoder BatchResponse}
    encode_response (cmd_Run : Command -> OS RunOutcome) (X : VMM guest) (s0 : AgentServer.Server) `{!MachineLaws X s0}
    {Reference} (ParseReference : string -> outcome Reference) remote_Image
    `{JSON RawMessage} `{JSON RefMetadata} `{JSON imageManifest} `{JSON Rootfs.Metadata} `{JSONUnmarshal ImageConfig} `{RootfsImageBuilder}
    {FS Storage} `{Ext4 FS} `{!Ext4Disk FS Storage} `{!Ext4Image FS Storage}
    `{JSONIndent SnapshotArtifact} `{JSONIndent Manager.PreparedImage} `{ConfigUnmarshal}
    os_TempDir WithTimeout exec_LookPath map_order GOARCH background flag_usage huma_openapi `{Huma} http_Serve test_url fuel
    name f image argv (c c' : cli guest) status :
  sv_usedJobs s0 = false -> (forall cmd, no_panic (cmd_Run cmd)) -> cl_broken c = None ->
  run_in_range f -> read_argument image = NoFlag ->
  (forall jailer, all_agreed encode_response cmd_Run s0 (run_request f jailer image argv)) ->
  main (H := machine encode_response cmd_Run X) (FS := FS) (Storage := Storage) ParseReference remote_Image os_TempDir WithTimeout
    exec_LookPath map_order GOARCH background flag_usage huma_openapi http_Serve test_url encode_response cmd_Run fuel
    (name :: "run" :: mjoin (render_flag <$> run_settings f) ++ image :: "--" :: argv) c = (Ok status, c') ->
  (exists err, status = 1 /\ cl_out c' = cl_out c /\ cl_err c' = cl_err c +:+ line ("error: " +:+ error_text err))
  \/ shows cmd_Run argv c status c'.
Proof.
  intros Hu Hc Hb Hf Hi Hag E. rewrite (main_run (H := machine encode_response cmd_Run X) _ _ _ _ _ _ _ _ _ _ _ _ _ _ _ name _ image ("--" :: argv) argv) in E;
    [|by apply run_settings_chosen|done|done].
  rewrite run_settings_set in E. unfold fatal in E. apply bind_Ok in E as (r & c1 & E & Er). unfold attempt, mbind, GoM_bind in E.
  destruct (clock_streams encode_response cmd_Run X s0 c) as (t & h & ET & EH). rewrite ET in E.
  pose proof (run_with_shows encode_response cmd_Run X s0 ParseReference remote_Image os_TempDir WithTimeout exec_LookPath map_order background fuel Hu Hc
    f image argv t (Cli h (cl_out c) (cl_err c) (cl_broken c)) Hb Hag) as HS.
  destruct (run_with _ _ _ _ _ _ _ _ _ _ _ _ _) as [[st|err|v] c2]; [| |done]; injection E as <- <-.
  - injection Er as <- <-. by right.
  - left. exists err. unfold Stderr_Write, modify, mbind, GoM_bind in Er. injection Er as <- <-. destruct HS as [HO HE].
    cbn [cl_out cl_err] in *. by rewrite HO, HE.
Qed.

(** ** A command that runs *)

Section demo.
Definition demo_flags : RunFlags := {| rf_VM := {| vf_StoreDir := "/s"; vf_Kernel := "/k"; vf_BootImage := "/b"; vf_FirecrackerBin := "/fc"; vf_JailerBin := "";
    vf_JailerChrootBaseDir := ""; vf_JailerUID := 0; vf_JailerGID := 0; vf_JailerCgroupVersion := "2"; vf_JailerCgroups := []; vf_VCPU := 2; vf_MemMiB := 512;
    vf_Timeout := Seconds 60; vf_SnapshotDir := "" |};
  rf_OS := "linux"; rf_Arch := "amd64"; rf_UID := 0; rf_GID := 0; rf_Workdir := "/workspace" |}.
Definition demo_sent : BatchRequest := {| br_Version := Version; br_Workspace := "/workspace"; br_Shutdown := true;
  br_Defaults := {| jd_UID := Some 0; jd_GID := Some 0;
    jd_Env := ["PATH=/usr/local/sbin:/usr/local/bin:/usr/sbin:/usr/bin:/sbin:/bin"]; jd_TimeoutMillis := 60000; jd_MaxOutputBytes := Z.shiftl 4 20 |};
  br_Jobs := [job_mkdir "/workspace" 493; job_exec ["echo"; "hi"] "/workspace"] |}.
Definition demo_reply : BatchResponse := {| Results := [AgentServer.ok JobMkdir;
  {| jr_Type := JobExec; jr_OK := true; jr_Error := ""; jr_ExitCode := 3; jr_TimedOut := false;
     jr_StdoutBase64 := EncodeToString (line "hi"); jr_StderrBase64 := EncodeToString "warning" |}] |}.
(** A command that says hi, warns, and exits with 3. *)
Definition demo_echo : Command -> OS RunOutcome := fun _ =>
  mret {| ro_stdout := ["h"; line "i"]; ro_stderr := ["warning"]; ro_err := Some (ExitError 3); ro_timedOut := false; ro_Process := Some 7 |}.

#[local] Instance echo_decoder : StrictDecoder BatchRequest := fun _ => Ok (demo_sent, ("", None)).
#[local] Instance echo_marshal : JSONMarshal BatchRequest := fun _ => Ok "{}".
#[local] Instance echo_host_decoder : JSONDecoder BatchResponse := fun st => if HasPrefix (fst st) "{" then Ok demo_reply else Err EOF.
#[local] Existing Instance Api.api_huma.
#[local] Instance echo_ref_json : JSON RefMetadata := demo_ref_json.
#[local] Instance echo_manifest_json : JSON imageManifest := demo_manifest_json.
#[local] Instance echo_raw_json : JSON RawMessage := demo_RawMessage.
#[local] Instance echo_metadata_json : JSON Rootfs.Metadata := demo_Metadata.
#[local] Instance echo_config_json : JSONUnmarshal ImageConfig := demo_Unmarshal.
#[local] Instance echo_builder : RootfsImageBuilder := demo_builder.
#[local] Instance echo_image : Ext4Image memfs string := {| file_OpenFromPath := fun _ => fail (Errno ENOENT); ext4_Read := fun _ _ => fail (Errno ENOENT) |}.
#[local] Instance echo_snapshot_json : JSONIndent SnapshotArtifact := fun _ => Ok "{}".
#[local] Instance echo_prepared_json : JSONIndent Manager.PreparedImage := fun _ => Ok "{}".
#[local] Instance echo_server_config : ConfigUnmarshal := fun _ cfg => Ok cfg.
#[local] Existing Instance EndToEnd.demo_laws.

Definition demo_cli : cli guest := Cli demo_host "" "" None.
Definition demo_words : list string :=
  "sandboxd" :: "run" :: mjoin (render_flag <$> run_settings demo_flags) ++ ["alpine"; "--"; "echo"; "hi"].
Definition demo_ran : outcome Z * cli guest :=
  main (H := machine (fun _ => "{}") demo_echo demo_vmm) (FS := memfs) (Storage := string) (fun _ => Ok tt) (fun _ _ => Ok demo_image) "/tmp" (fun c _ => c)
    (fun _ => fail (Errno ENOENT)) (fun l => l) "amd64" (fun _ _ _ => None) (fun _ _ => "") (fun _ _ => {| hr_StatusCode := 200; hr_Body := ("{}", None) |})
    (fun _ _ => mret (Signalled None)) "http://127.0.0.1" (fun _ => "{}") demo_echo 5 demo_words demo_cli.

Lemma demo_echo_agreed jailer : all_agreed (fun _ => "{}") demo_echo demo_booted (run_request demo_flags jailer "alpine" ["echo"; "hi"]).
Proof.
  intros contents imageConfig jobs [= <-] [= <-]. exists "{}".
  assert (EB : run_batch (run_request demo_flags jailer "alpine" ["echo"; "hi"]) Oci.demo_config demo_sent.(br_Jobs) = demo_sent) by (vm_compute; reflexivity).
  change (job_mkdir _ 493 :: _) with (br_Jobs demo_sent). rewrite EB.
  split; [done|done| |by eexists]. intros r status w' ER. vm_compute in ER. injection ER as <- _ _. by vm_compute.
Defined.

(** The first request is lost; the second runs the command, whose output and code are the command line's. *)
Lemma run_shows_the_command_witness :
  exists c', demo_ran = (Ok 3, c') /\ shows demo_echo ["echo"; "hi"] demo_cli 3 c' /\ cl_out c' = line "hi".
Proof.
  assert (E : fst demo_ran = Ok 3 /\ cl_out (snd demo_ran) = line "hi") by (split; vm_compute; reflexivity). destruct E as [E EO].
  exists (snd demo_ran). assert (ER : demo_ran = (Ok 3, snd demo_ran)) by (rewrite <- E; by destruct demo_ran). split; [exact ER|]. split; [|exact EO].
  destruct (run_shows_the_command (fun _ => "{}") demo_echo demo_vmm demo_booted (FS := memfs) (Storage := string) (fun _ => Ok tt) (fun _ _ => Ok demo_image)
    "/tmp" (fun c _ => c) (fun _ => fail (Errno ENOENT)) (fun l => l) "amd64" (fun _ _ _ => None) (fun _ _ => "")
    (fun _ _ => {| hr_StatusCode := 200; hr_Body := ("{}", None) |}) (fun _ _ => mret (Signalled None)) "http://127.0.0.1" 5
    "sandboxd" demo_flags "alpine" ["echo"; "hi"] demo_cli (snd demo_ran) 3) as [(err & H & _)|H].
  - reflexivity.
  - intros cmd. apply no_panic_ret.
  - reflexivity.
  - unfold run_in_range, vm_in_range, in_int64. repeat split; vm_compute; discriminate.
  - reflexivity.
  - intros jailer. apply demo_echo_agreed.
  - exact ER.
  - discriminate.
  - exact H.
Defined.
End demo.
