(* ===== verification/AgentMain.v ===== *)
(** * The agent's command, and its place in the machine

    [cmd/agent]: the flags, the listener, and the server behind it, until the server is shut down. Listening
    on a vsock port and the HTTP server are parameters; log lines are left out. With it, what init starts,
    the agent the host talks to, and the daemon's limits are put side by side. *)

From S2P Require Import Prelude GoPath GoFlag HostFS Config AgentApi AgentServer AgentClient Firecracker Manager Server Init Cli.
Local Open Scope Z_scope.

Record AgentFlags := {
  af_workspace : string; af_vsockPort : Z; af_maxBodyBytes : Z; af_maxFileBytes : Z; af_maxOutputBytes : Z; af_shutdownAfterJobs : bool
}.
Definition agent_settings (f : AgentFlags) : list (string * flag_value) := [
  ("workspace", FString (af_workspace f)); ("vsock-port", FUint (af_vsockPort f)); ("max-body-bytes", FInt64 (af_maxBodyBytes f));
  ("max-file-bytes", FInt64 (af_maxFileBytes f)); ("max-output-bytes", FInt64 (af_maxOutputBytes f));
  ("shutdown-after-jobs", FBool (af_shutdownAfterJobs f))].
Definition default_flags : AgentFlags := {|
  af_workspace := "/workspace"; af_vsockPort := 1024; af_maxBodyBytes := DefaultMaxBodyBytes; af_maxFileBytes := DefaultMaxFileBytes;
  af_maxOutputBytes := DefaultMaxOutputBytes; af_shutdownAfterJobs := false |}.
Definition agent_flagset : FlagSet := list_to_map (agent_settings default_flags).
Definition agent_flags (fs : FlagSet) : AgentFlags := {|
  af_workspace := flag_string fs "workspace"; af_vsockPort := flag_int fs "vsock-port"; af_maxBodyBytes := flag_int fs "max-body-bytes";
  af_maxFileBytes := flag_int fs "max-file-bytes"; af_maxOutputBytes := flag_int fs "max-output-bytes";
  af_shutdownAfterJobs := flag_bool fs "shutdown-after-jobs" |}.

(** What [main] gives [agentserver.New]. *)
Definition agent_config (flags : AgentFlags) (uid gid : Z) : AgentServer.Config := {|
  Workspace := af_workspace flags; MaxBodyBytes := af_maxBodyBytes flags; MaxFileBytes := af_maxFileBytes flags;
  AgentServer.MaxOutputBytes := af_maxOutputBytes flags; DefaultTimeout := 30 * AgentServer.Second; DefaultUID := uid; DefaultGID := gid;
  Shutdown := true; ShutdownAfterJobs := af_shutdownAfterJobs flags |}.

Definition main_config (flags : AgentFlags) : OS AgentServer.Config :=
  uid ← os_Getuid;
  gid ← os_Getgid;
  AgentServer.New (agent_config flags uid gid).

(** An HTTP server's handler: method, path and body. *)
Definition http_handler : Type := string -> string -> stream -> GoM AgentServer.Server Response.

Section main.
Context `{StrictDecoder BatchRequest}.
Variable cmd_Run : Command -> OS RunOutcome.
(** [vsock.Listen], the listener's [Close], and [httpServer.Serve], which returns the error it ends with. *)
Variable vsock_Listen : Z -> OS unit.
Variable listener_Close : OS unit.
Variable http_Serve : http_handler -> GoM AgentServer.Server (option error).

(** [main], of the arguments after the program's name: the exit status. *)
Definition main (args : list string) : OS Z :=
  match parse_flags agent_flagset args with
  | Help => mret 0
  | Bad _ => mret 2
  | Parsed fs _ =>
      let flags := agent_flags fs in
      listener ← attempt (vsock_Listen (uint32 (af_vsockPort flags)));
      match listener with
      | inl _ => mret 1
      | inr _ =>
          cfg ← main_config flags;
          err ← on_agent cfg (http_Serve (Handler cmd_Run));
          if decide (err = None \/ err = Some ErrServerClosed) then ignore listener_Close ;; mret 0 else mret 1
      end
  end.

(** Settings a command line can give: 64-bit numbers. *)
Definition agent_in_range (f : AgentFlags) : Prop :=
  0 <= af_vsockPort f <= max_uint64 /\ in_int64 (af_maxBodyBytes f) /\ in_int64 (af_maxFileBytes f) /\ in_int64 (af_maxOutputBytes f).

Lemma agent_flags_parsed f : agent_in_range f ->
  exists fs, parse_flags agent_flagset (mjoin (render_flag <$> agent_settings f)) = Parsed fs [] /\ agent_flags fs = f.
Proof.
  destruct f as [ws port body file output shutdown]. intros (H1 & H2 & H3 & H4). eexists. split.
  - rewrite <- (app_nil_r (mjoin _)). rewrite parse_render_all; [reflexivity|repeat constructor; done|apply (bool_decide_unpack _); vm_compute; exact I|].
    repeat (apply Forall_cons; split; [eexists; split; [reflexivity|done]|]). constructor.
  - reflexivity.
Qed.

(** The flags of [Init.agent_command]. *)
Definition init_flags : AgentFlags := {|
  af_workspace := "/workspace"; af_vsockPort := 1024; af_maxBodyBytes := 16777216; af_maxFileBytes := 8388608;
  af_maxOutputBytes := 1048576; af_shutdownAfterJobs := true |}.

Lemma init_flags_parsed : exists fs, parse_flags agent_flagset (tail (ac_argv agent_command)) = Parsed fs [] /\ agent_flags fs = init_flags.
Proof. eexists. split; [vm_compute; reflexivity|]. vm_compute. reflexivity. Qed.

(** The configuration the agent of these flags works by, as the user and group [uid] and [gid]. *)
Definition served_config (f : AgentFlags) (uid gid : Z) : AgentServer.Config := {|
  Workspace := if decide (af_workspace f = "") then "/workspace" else af_workspace f;
  MaxBodyBytes := if decide (0 < af_maxBodyBytes f) then af_maxBodyBytes f else 16777216;
  MaxFileBytes := if decide (0 < af_maxFileBytes f) then af_maxFileBytes f else 8388608;
  AgentServer.MaxOutputBytes := if decide (0 < af_maxOutputBytes f) then af_maxOutputBytes f else 1048576;
  DefaultTimeout := 30000000000; DefaultUID := uid; DefaultGID := gid; Shutdown := true; ShutdownAfterJobs := af_shutdownAfterJobs f |}.

Lemma main_config_served f w : main_config f w = (Ok (served_config f (w_uid w) (w_gid w)), w).
Proof.
  unfold main_config, AgentServer.New, os_Getuid, os_Getgid, gets, mbind, GoM_bind, mret, GoM_ret.
  unfold agent_config, served_config, DefaultWorkspace. cbn -[AgentServer.Second Z.shiftl]. f_equal. f_equal.
  f_equal; repeat case_decide; simplify_eq; first [lia|done].
Qed.

(** What [main] does once its flags are read. *)
Definition serves (f : AgentFlags) (w : world) : outcome Z * world :=
  match vsock_Listen (af_vsockPort f mod 2 ^ 32) w with
  | (Panic v, w1) => (Panic v, w1)
  | (Err _, w1) => (Ok 1, w1)
  | (Ok _, w1) =>
      match http_Serve (Handler cmd_Run) {| sv_cfg := served_config f (w_uid w1) (w_gid w1); sv_usedJobs := false; sv_shutdowns := 0; sv_fs := w1 |} with
      | (Ok err, s1) => if decide (err = None \/ err = Some ErrServerClosed) then (ignore listener_Close ;; mret 0) (sv_fs s1) else (Ok 1, sv_fs s1)
      | (Err e, s1) => (Err e, sv_fs s1)
      | (Panic v, s1) => (Panic v, sv_fs s1)
      end
  end.

Lemma main_serves args fs f rest w : parse_flags agent_flagset args = Parsed fs rest -> agent_flags fs = f -> main args w = serves f w.
Proof.
  intros EP EF. unfold main, serves. rewrite EP, EF. unfold mbind at 1, GoM_bind at 1. unfold attempt, uint32.
  destruct (vsock_Listen _ w) as [[?|e|v] w1]; [|done..]. unfold mbind at 1, GoM_bind at 1. rewrite main_config_served.
  unfold mbind at 1, GoM_bind at 1. unfold on_agent, fresh_server. destruct (http_Serve _ _) as [[err|e|v] s1]; [by case_decide|done..].
Qed.

(** C34: the agent listens and works by its flags: started with any settings of them, it listens on the port given (its low 32 bits)
    and serves, until its server ends, the handler of an agent that has not been used, with the workspace given, each limit
    the one given where that is positive and else 16 MiB of a body, 8 MiB of a file and 1 MiB of output, 30 seconds for a
    command, and its own user and group; its status is 0 when the server was shut down and 1 when it failed or could not
    listen. And init starts it so that it listens where the host dials, with these limits, to end after its first batch. *)
Theorem init_boots_the_agent f w :
  agent_in_range f ->
  main (mjoin (render_flag <$> agent_settings f)) w = serves f w
  /\ main (tail (ac_argv agent_command)) w = serves init_flags w /\ af_vsockPort init_flags mod 2 ^ 32 = DefaultVsockPort.
Proof.
  intros Hf. destruct (agent_flags_parsed f Hf) as (fs & EP & EF), init_flags_parsed as (fs' & EP' & EF').
  split; [by eapply main_serves|]. split; [by eapply main_serves|done].
Qed.
End main.

(** A server that is shut down at once, of an agent with a small limit on files and the others left out. *)
Definition small_flags : AgentFlags := {|
  af_workspace := ""; af_vsockPort := 4294967303; af_maxBodyBytes := 0; af_maxFileBytes := 10; af_maxOutputBytes := -1; af_shutdownAfterJobs := false |}.
Definition no_batch : StrictDecoder BatchRequest := fun _ => Err EOF.
#[local] Existing Instance no_batch.
Definition small_Serve (_ : http_handler) : GoM AgentServer.Server (option error) := fun s =>
  (Ok (if decide (MaxFileBytes (sv_cfg s) = 10 /\ MaxBodyBytes (sv_cfg s) = 16777216) then Some ErrServerClosed else Some EOF), s).
Definition small_Listen (port : Z) : OS unit := if decide (port = 7) then mret tt else fail (Errno EINVAL).

Lemma init_boots_the_agent_witness :
  fst (main (fun _ => fail (Errno ENOENT)) small_Listen (mret tt) small_Serve ["--workspace="; "--vsock-port=4294967303"; "--max-body-bytes=0"; "--max-file-bytes=10"; "--max-output-bytes=-1";
    "--shutdown-after-jobs=false"] empty_world) = Ok 0.
Proof.
  assert (E : mjoin (render_flag <$> agent_settings small_flags) = ["--workspace="; "--vsock-port=4294967303"; "--max-body-bytes=0"; "--max-file-bytes=10";
    "--max-output-bytes=-1"; "--shutdown-after-jobs=false"]) by (vm_compute; reflexivity).
  rewrite <- E. destruct (init_boots_the_agent (fun _ => fail (Errno ENOENT)) small_Listen (mret tt) small_Serve small_flags empty_world) as [H _];
    [|rewrite H; vm_compute; reflexivity].
  unfold agent_in_range, in_int64. repeat split; vm_compute; discriminate.
Defined.

(** By default the daemon admits more file contents in one batch than the agent takes in one request. *)
Example default_limits_disagree :
  MaxFileBytes (served_config init_flags 0 0) >= MaxWriteFileBytes (dc_Limits DefaultConfig)
  /\ MaxTasks (dc_Limits DefaultConfig) * MaxWriteFileBytes (dc_Limits DefaultConfig) > MaxBodyBytes (served_config init_flags 0 0).
Proof. vm_compute. done. Qed.
