(* ===== verification/DemoClient.v ===== *)
(** * The sample client

    [main.go]: a program that sends a Python script to a local daemon and prints the answer. Its request, how the
    daemon decodes it, and that a daemon with the default configuration takes it. *)

From S2P Require Import Prelude GoPath GoBase64 HostFS Config AgentApi AgentClient Server Firecracker Manager Cli.
Local Open Scope Z_scope.

Record Task := {
  ct_Type : string; ct_Path : string; ct_ContentsB64 : string; ct_Mode : Z; ct_CreateParents : bool; ct_Argv : list string; ct_WorkingDir : string
}.
Record RunRequest := { cr_ImageRef : string; cr_SnapshotMode : string; cr_Tasks : list Task }.

Definition payload (contents : string) : RunRequest := {|
  cr_ImageRef := "docker.io/library/python:3.14-alpine"; cr_SnapshotMode := "auto";
  cr_Tasks := [
    {| ct_Type := "write_file"; ct_Path := "/workspace/main.py"; ct_ContentsB64 := EncodeToString contents; ct_Mode := 420; ct_CreateParents := true;
       ct_Argv := []; ct_WorkingDir := "" |};
    {| ct_Type := "exec"; ct_Path := ""; ct_ContentsB64 := ""; ct_Mode := 0; ct_CreateParents := false; ct_Argv := ["python3"; "main.py"];
       ct_WorkingDir := "/workspace" |}] |}.

Section main.
Context {M : Type} `{JSONMarshal RunRequest}.
(** [http.Post(url, contentType, body)]: the response's status line and its body. *)
Context (http_Post : string -> string -> string -> GoM (host M) (string * stream)).

(** [must(err)] *)
Definition must {A} (m : GoM (cli M) A) : GoM (cli M) A :=
  r ← attempt m;
  match r with inl err => panic (error_text err) | inr a => mret a end.

(** [log.Fatal(err)]: a line, after the time, and status 1. *)
Definition log_Fatal (m : GoM (cli M) Z) : GoM (cli M) Z :=
  r ← attempt m;
  match r with inl err => Stderr_Write (line (error_text err)) ;; mret 1 | inr status => mret status end.

(** [io.ReadAll] *)
Definition ReadAll (s : stream) : outcome string := match snd s with Some err => Err err | None => Ok (fst s) end.

Definition main : GoM (cli M) Z :=
  contents ← must (on_os (os_ReadFile "test.py"));
  log_Fatal (
    body ← lift_outcome (json_Marshal (payload contents));
    resp ← on_vm (http_Post "http://localhost:8080/v1/runs" "application/json" body);
    respBody ← lift_outcome (ReadAll (snd resp));
    Println (fst resp) ;;
    Println respBody ;;
    mret 0).
End main.

(** A request of the client as the daemon decodes it: the same names, and what is absent is zero. *)
Definition decoded_task (t : Task) : Server.Task := {|
  tk_Type := ct_Type t; tk_Path := ct_Path t; tk_Mode := ct_Mode t; tk_ContentsBase64 := ct_ContentsB64 t; tk_CreateParents := ct_CreateParents t;
  tk_Argv := ct_Argv t; tk_WorkingDir := ct_WorkingDir t |}.
Definition decoded_request (r : RunRequest) : Server.RunRequest := {|
  rq_ImageRef := cr_ImageRef r; rq_Tasks := decoded_task <$> cr_Tasks r; rq_Workdir := ""; rq_UID := 0; rq_GID := 0; rq_TimeoutMillis := 0;
  rq_SnapshotMode := cr_SnapshotMode r; rq_Machine := {| VCPUCount := 0; MemSizeMiB := 0 |} |}.

Lemma payload_jobs contents :
  Z.of_nat (String.length contents) <= MaxWriteFileBytes (dc_Limits DefaultConfig) ->
  tasksToJobs (dc_Limits DefaultConfig) (rq_Tasks (decoded_request (payload contents))) "/workspace"
  = Ok [job_mkdir "/workspace" 493; job_write_file "/workspace/main.py" 420 (EncodeToString contents) true;
        job_exec ["python3"; "main.py"] "/workspace"].
Proof.
  intros Hl. unfold tasksToJobs, task_jobs, task_job, payload, decoded_request, mbind, outcome_bind.
  cbn [rq_Tasks cr_Tasks fmap list_fmap decoded_task ct_Type ct_Path ct_Mode ct_ContentsB64 ct_CreateParents ct_Argv ct_WorkingDir tk_Type tk_Path tk_Mode tk_ContentsBase64 tk_CreateParents tk_Argv tk_WorkingDir].
  unfold decodedBase64Len. rewrite DecodeString_EncodeToString. rewrite (decide_False (P := "write_file" = JobMkdir)) by done.
  rewrite (decide_True (P := "write_file" = JobWriteFile)) by done. change (validateWorkspacePath "/workspace/main.py") with (@Ok unit tt).
  cbv beta iota. rewrite decide_False by lia. reflexivity.
Qed.

(** A script of up to the default limit reaches a machine. *)
Lemma payload_taken GOARCH contents :
  Z.of_nat (String.length contents) <= MaxWriteFileBytes (dc_Limits DefaultConfig) ->
  exists r, managerRunRequest GOARCH DefaultConfig (decoded_request (payload contents)) = Ok r
    /\ mq_SnapshotDir r = dc_SnapshotDir DefaultConfig /\ mq_Timeout r = Seconds 60.
Proof.
  intros Hl. pose proof (payload_jobs contents Hl) as HJ. unfold managerRunRequest.
  rewrite (decide_False (P := rq_ImageRef _ = _)) by done. rewrite (decide_False (P := rq_Tasks _ = _)) by done.
  change (firstNonEmpty [rq_Workdir (decoded_request (payload contents)); "/workspace"]) with "/workspace". unfold mbind, outcome_bind. rewrite HJ.
  eexists. split; [reflexivity|]. by vm_compute.
Qed.
